(* ===== verification/_CoqProject ===== *)
-Q . S2P
Prelude.v
Socket.v
Protocol.v
ProtocolProofs.v
Metadata.v
ProtocolLimits.v
Kernel.v
KernelProofs.v
Index.v
IndexProofs.v
IndexRefine.v
IndexConc.v
IndexConcProofs.v
IndexFile.v
Backend.v
BackendProofs.v
ObjectProofs.v
Accounting.v
Findings.v
Server.v
ServerProofs.v
DeleteProofs.v
ServerLoop.v
Client.v
ClientProofs.v
System.v
SystemProofs.v
SystemFindings.v
Storage.v
StorageProofs.v
StorageFindings.v
Transport.v
ServerMain.v
ServerThreads.v
ServerShutdown.v
TransportProofs.v
Legacy.v
LegacyProofs.v
LegacyMain.v
ProtoStore.v
ProtoStoreProofs.v
ProtoServe.v
ProtoServeProofs.v
ProtoMain.v
BridgeMain.v
Example.v
ExampleProofs.v
ProtoClient.v
ProtoClientProofs.v
ProtoSetup.v
Bench.v
BenchProofs.v
Demo.v
DemoProofs.v
