(* ===== verification/Prelude.v ===== *)
(** * A model of objmapper: object server, indexes, backends and wire protocol

    objmapper stores objects as files on several storage backends and hands
    clients open file descriptors instead of data.  This library models the
    server, its libraries and its client, the older storage and transport
    libraries with the programs built on them, the prototype the project
    started from, and the example, benchmark and demonstration programs, in
    Gallina and proves what makes them correct.

    ** Parts and how they interact

    - [lib/protocol/protocol.c]: the wire protocol between client and server on
      a Unix stream socket.  Version 1 is a minimal request/response exchange,
      version 2 starts with a HELLO/HELLO-ACK handshake and carries request ids
      (so that responses may be taken out of order) and metadata.  Descriptors
      travel in [SCM_RIGHTS] messages.
    - [lib/index/index.c]: reference-counted entries, the global hash index from
      URIs to entries, one index per backend with its file format, hotness.
    - [lib/backend/backend.c]: the backend manager: backends and their roles,
      creation, lookup, deletion, migration, scans, statistics.  It calls the
      index.
    - [server.c]: one thread per client: handshake, then a loop that receives a
      request and dispatches on its URI: [/delete/...], [/list], [/backend/...],
      an existing object (GET) or a new one (PUT).  It calls all of the above.
      [main] starts the backends and the socket, accepts connections and shuts
      down.
    - [client.c]: the command-line client: put, get and delete over one
      connection; it copies between the received descriptor and a local file.
    - [lib/storage/storage.c]: the older object store: a hash table over 10000
      slots, one file per object, descriptors opened on demand, memory maps.
    - [lib/transport/transport.c], [lib/fdpass/fdpass.c]: the older transport over
      Unix, TCP and UDP sockets, with descriptor passing on the first.
    - [objmapper/src/server.c], [objmapper/src/client.c]: the older server and
      client on top of these two: per connection a mode (descriptor passing,
      copying, splicing), then one URI per request.  [main.c] and [test_client.c]
      are the programs around them.
    - [datapass/csrc]: the prototype: a server that indexes the files of a
      directory in a hash table, a bridge that relays requests and answers
      between pipes and sockets, a client that measures how fast it gets and reads
      objects, and [sendget.c], which passes descriptors in datagrams.
    - [examples/example_server.c], [examples/example_client.c], [benchmark.c]: users
      of the protocol library.  [demo_integration.c]: a user of the backend manager.

    ** Files

    - [Prelude]: bytes, machine integers, buffers, the effect monad, tactics.
    - [Socket], [Kernel]: the part of POSIX the code uses: stream sockets with
      descriptor passing; directory tree, files, open file descriptions,
      descriptor tables, clock, allocator.  [KernelProofs]: lemmas on these calls
      that the components share.
    - [Protocol]: every function of protocol.c but the two that only free
      memory.  A connection is the record [objm_connection], together with
      its end of the socket a [link].
    - [ProtocolProofs], [Metadata], [ProtocolLimits]: theorems on it.
    - [Index]: every function of index.c on a [world]: kernel, live entries and
      live indexes by address.  A pointer is an integer, [NULL] is 0, access
      to a freed or never allocated object is [Fault].
    - [IndexProofs], [IndexRefine]: chains and tables; the global index is a map.
      [IndexFile]: saving and loading a backend index.
    - [IndexConc]: lookup, insertion and removal in the global index as threads: one
      step per access to shared memory, any interleaving, one write lock.
      [IndexConcProofs]: theorems on it.
    - [Backend]: every function of backend.c on a [bstate]: the world and the
      manager.
    - [BackendProofs], [ObjectProofs], [Accounting], [Findings]: theorems on it.
    - [Server]: handlers, dispatch, request loop, client thread, start-up and
      shutdown of server.c on a [server]: process, connection, statistics.
    - [ServerProofs], [DeleteProofs], [ServerLoop]: theorems on it.
    - [ServerMain]: start-up and shutdown in [main] of server.c and the body of its accept
      loop, with theorems on the start-up.  [ServerThreads]: main, the detached threads of the
      clients, the clients and the signal as one transition system, a request with its
      handler being one step.  [ServerShutdown]: theorems on it.
    - [Client]: every function of client.c on a process with a [link].
      [ClientProofs]: its copy loop and its commands.
    - [System]: client and server in one machine: two processes that share files
      and open file descriptions, the bytes one sends are what the other receives.
      [SystemProofs], [SystemFindings]: theorems on the composition.
    - [Storage]: every function of storage.c on an [sstate]: kernel, mapped pages
      and the store.  [StorageProofs], [StorageFindings]: theorems on it.
    - [Transport]: every function of transport.c and fdpass.c on a [tio]: kernel,
      stream and datagrams of one handle.  [TransportProofs]: theorems on it.
    - [Legacy]: the older server and client.  [LegacyProofs]: both over one
      connection, mode by mode.  [LegacyMain]: [getopt] and the two programs.
    - [ProtoStore]: the prototype's hash table and start-up.  [ProtoServe]: its
      server, bridge and client over their connections.  [ProtoMain], [BridgeMain]:
      the slots of the worker threads of server and bridge as step relations.
      [ProtoClient]: [main] of the client with its measurements.  [ProtoSetup]: options,
      sockets and pipes of server and bridge, and what their loops do for a new client.
      [ProtoStoreProofs], [ProtoServeProofs], [ProtoClientProofs]: theorems on these.
    - [Example]: both example programs.  [ExampleProofs]: one against the other.
    - [Bench]: the benchmark's operations, workers and tests.  [BenchProofs]: its
      counters and what a put stores.
    - [Demo]: the demonstration, its output a list.  [DemoProofs]: all of its runs, and
      the recorded one.

    A C function [f] is a definition [f] in the monad [M S] of [Prelude]: given
    the state it returns a result and a new state, blocks (waits for bytes that
    do not come), or faults (invalid memory access).  Output parameters are part
    of the result; a [bool] argument says whether the caller passed a non-NULL
    address for one.  Integers are [Z] with the wrap-around of their C type
    written out ([u8], [u32], [u64], [s32]); [double] is [spec_float] with the
    rounding of binary64.

    ** What the theorems show

    - Protocol: requests, responses, errors and descriptors arrive as sent on
      both versions, however the kernel splits the transfers
      ([request_pipeline_roundtrip], [response_roundtrip],
      [error_response_roundtrip]); responses can be taken in any order
      ([ooo_delivery]); both sides agree on the parameters
      ([handshake_agreement], [v1_fallback]); the transfer loops are complete and
      terminate ([transfers_complete]); metadata is parsed within bounds
      on every input and round-trips ([metadata_parse_total],
      [metadata_roundtrip]); capability names ([capability_names_text]).
    - Index: the global index refines a finite map over all sequences of
      insertion, lookup, removal and relocation, without faults or leaks
      ([global_index_refines_map]); bucket arithmetic
      ([next_power_of_2_correct]); what a backend index without duplicates saves is found
      after a restart ([index_save_load_roundtrip]); loading returns on every file and leaves a
      well-formed table ([index_load_total]).
    - Index under threads: in every interleaving in which no entry is freed, the
      table stays well formed and the writers exclude each other
      ([table_under_concurrency]), a lookup finds what is stored
      ([lookup_finds_stored]) and is wait-free ([lookup_wait_free]), and no thread
      faults or waits for ever ([no_fault_no_deadlock]); alone, the steps of a
      thread are the sequential function ([solo_is_sequential]).  The hypothesis
      is needed: a removal can free an entry under a reader
      ([lookup_races_with_remove]).
    - Backends: the configuration invariant over all sequences of calls
      ([manager_config_invariant]); where objects go and what a creation leaves
      ([create_object_placement]); created objects are found
      ([create_then_get]); refused calls change nothing
      ([create_object_refused]); watermarks ([set_watermarks_spec]); over all
      sequences of calls, error paths included, the totals of objects and bytes are
      the sums over the backends ([accounting_invariant]).
    - Server: GET and PUT end to end, from the dispatch to the descriptor in the
      client's table ([get_request_served], [put_request_served]); DELETE with what
      it leaves ([delete_request_served]); every error
      answer with the state left alone ([put_request_refused],
      [delete_request_missing], [management_uris_refused]); sessions are
      served in order and end ([session_served_in_order]).  [main]: a failed start that
      indexed nothing leaves nothing behind ([failed_start_clean]).
    - Server threads: in every interleaving the count of connections is the number of
      sessions and main's wait at shutdown ends exactly when there is none
      ([shutdown_waits]); the threads have a bounded number of steps left, and only a
      silent client or a handler that does not return keeps main waiting
      ([shutdown_bounded]).  Both limits are real ([idle_client_stalls_shutdown],
      [uncounted_thread_not_waited_for]).
    - Client and server together: what one [put] stores a [get] brings back,
      through handshake, dispatch, creation, descriptor passing and the copy loops
      ([put_then_get_roundtrip]).
    - Older store: over all sequences of calls it refines a finite map from URIs to
      contents ([storage_refines_map]).
    - Older transport: every handle a process can obtain is well formed and its
      capabilities, with its role as a server, say what its operations do
      ([handles_well_formed]); creation
      leaks no descriptor on any path ([transport_creation_clean]).
    - Older server and client: descriptor passing delivers the stored bytes, copying the
      same for objects that are not empty ([modes_agree]); the test client stores them completely
      ([test_client_stores_object]); options are read as they are printed
      ([options_roundtrip]).
    - Prototype: the table serves exactly the files of the directory
      ([proto_store_serves]); through client, bridge and server an object arrives
      unchanged, as data ([proto_fetch_delivers], [bridge_relays_exactly]) or as a
      descriptor ([proto_fetch_fd_delivers]); no client gets a slot whose thread
      is running ([thread_slots_safe], [bridge_slots_safe]); what the client measures
      is a function of the objects, however the data is split
      ([copy_run_measures], [fd_request_measures]); the set-up leaves connected
      sockets ([bridge_setup_ready], [server_client_connects]).
    - Examples: the example client reports what the example server holds
      ([example_fetch_reports]).
    - Benchmark: every attempt is counted with exactly one outcome
      ([benchmark_accounts]); a put that succeeds has written everything
      ([put_success_stores]).
    - Demonstration: its books balance and it leaves no manager ([demo_balances],
      [demo_cleans_up]); the run of the model is the run recorded in
      INTEGRATION_DEMO_RESULTS.md ([demo_recorded_run]).
    - Defects, each as a theorem on the code as written: entries shared by two
      hash chains, a reference lost by scans, a migration that removes its own
      copy, a descriptor closed twice, an unchecked flag and an unchecked backend
      ([Findings]); the close
      handshake that cannot finish, a success without descriptor, a write behind
      a short buffer ([ProtocolLimits]); degenerate bucket counts and NaN
      watermarks; a put over an existing object that leaves the tail of the old
      contents, and short writes ignored ([SystemFindings]); slots, mappings and
      descriptors the older store leaves behind ([StorageFindings]); an index
      replaced by a truncated one, duplicates reversed by loading, loaded entries never
      freed ([IndexFile]); a splice that
      moves nothing, a shared file position and empty objects in the older server
      ([LegacyProofs]); a start-up that fails and a shutdown
      that access freed entries ([ServerMain], [ServerShutdown]); a thread joined twice
      ([ProtoMain]); a read error taken for the end of the file ([LegacyMain]); objects beyond one
      mebibyte that never finish, missing answers, colliding and empty names, tables in
      uncleared memory in the prototype ([ProtoServeProofs], [ProtoStoreProofs]);
      touches that depend on the reads, files that cannot be mapped
      ([ProtoClientProofs]); an empty file that stalls the example client, and its
      close ([ExampleProofs]).

    ** Bounds and fuel

    Loops that are not structural take fuel, and the definitions compute enough
    of it: a chain walk gets one more step than there are live entries (a longer
    walk has met an entry twice and never ends: it blocks); transfer loops get
    the length of the kernel's schedule plus the passes a full transfer needs;
    the loop that waits for a response and the request loop get one pass per
    byte in the socket plus one, and every pass reads a header; loading an index
    gets the length of the file; a directory scan gets the number of names in
    the tree; copy loops (64 KiB buffers in client.c, 8 KiB in the older programs)
    get the length of the file or the bytes on the wire plus one, and every round
    moves at least one byte; one [write] moves at most 0x7ffff000 bytes, the limit of
    Linux.  The accept loop of the example server gets one round per waiting
    connection and per answer of the kernel; main of server.c has no fuel, it takes
    steps; the prototype's probe gets the size of its table, its relay and send loops a round
    per byte and event; the benchmark's loops a round per byte of the buffer
    ([write_data_ends], [read_data_ends]).  Theorems that say an operation returns are stated as
    equations with its result, so fuel that does not suffice would falsify them.

    Schedules ([io_event]) stand for what the kernel may do: short transfers,
    [EINTR], failures; lists of booleans for allocations that fail; a list of
    ticks for the clock.  Theorems quantify over them or say which are quiet.

    ** Not modelled

    Threads other than those of [IndexConc], [ServerThreads], [ProtoMain] and [BridgeMain]: elsewhere
    operations run one at a time, locks are not represented and atomics have their
    sequential meaning; in [ServerThreads] the threads interleave between requests, and a request
    runs from its receipt to its answer; a session of the older server runs where it was accepted.
    The caching thread of the backend manager does nothing in the source.
    Console output, [errno], [free] without effect on the model, signal handlers other than by
    the flag they clear (a step of [ServerThreads]; an input of the sequential [client_thread]).  Name resolution and the outcome
    of [bind], [listen] and [connect] are parameters or answers of the kernel; the
    name of a bound socket is not a name of the modelled directory tree.  The
    workers of the benchmark run one after the other; how often each finds the
    stop flag unset is an input.  The unit tests and shell scripts of the repository,
    and what programs print, other than the results of the examples and of the
    demonstration.

    ** Open

    Reference counts of entries under concurrent handles (the theorems of [IndexConc]
    are on runs in which no entry is freed); the threads of the server within a request, and
    those of the benchmark, at the granularity of [IndexConc].

    ** This file

    The conversion between bytes and integers, big- and little-endian encodings
    ([htons]/[ntohl]/[htobe64]/[htole32]...), C strings and bounds-checked buffer
    accesses, the [outcome] monad in which the effectful C functions are written,
    and the tactics and hint databases of the development. *)

From Stdlib Require Export ZArith Lia Strings.Byte Strings.String SpecFloat.
From stdpp Require Export base list gmap strings pretty countable.

#[global] Open Scope Z_scope.

(** ** Bytes *)

(** [uint8_t] and [char] cells are [Byte.byte]; [bz] is the value as an
    [unsigned char], [zb] the conversion of an integer to [uint8_t], which keeps
    the low eight bits. *)
Definition bz (b : byte) : Z := Z.of_N (Byte.to_N b).
Definition zb (z : Z) : byte := default x00 (Byte.of_N (Z.to_N (z mod 256))).

Lemma bz_range b : 0 <= bz b < 256.
Proof. unfold bz. pose proof (Byte.to_N_bounded b). lia. Qed.

Lemma bz_zb z : bz (zb z) = z mod 256.
Proof.
  unfold bz, zb. pose proof (Z.mod_pos_bound z 256 eq_refl) as Hr.
  destruct (Byte.of_N (Z.to_N (z mod 256))) as [b|] eqn:E; simpl.
  - apply Byte.to_of_N in E. rewrite E. lia.
  - apply Byte.of_N_None_iff in E. lia.
Qed.

Lemma zb_bz b : zb (bz b) = b.
Proof.
  unfold zb, bz. rewrite Z.mod_small by (apply bz_range).
  by rewrite N2Z.id, Byte.of_to_N.
Qed.

Lemma bz_inj a b : bz a = bz b -> a = b.
Proof. intros H. by rewrite <- (zb_bz a), <- (zb_bz b), H. Qed.

#[global] Instance byte_eq_dec : EqDecision byte.
Proof. intros a b. destruct (Byte.byte_eq_dec a b); [by left|by right]. Defined.

#[global] Instance byte_countable : Countable byte.
Proof. apply (inj_countable Byte.to_N Byte.of_N), Byte.of_to_N. Defined.

(** ** Unsigned machine integers *)

Definition u8 (z : Z) : Z := z mod 2 ^ 8.
Definition u16 (z : Z) : Z := z mod 2 ^ 16.
Definition u32 (z : Z) : Z := z mod 2 ^ 32.
(** [int]: conversions and [atomic_int] arithmetic wrap around at 32 bits. *)
Definition s32 (z : Z) : Z := (z + 2 ^ 31) mod 2 ^ 32 - 2 ^ 31.
Definition s64 (z : Z) : Z := (z + 2 ^ 63) mod 2 ^ 64 - 2 ^ 63.
Definition u64 (z : Z) : Z := z mod 2 ^ 64.

Lemma u64_range z : 0 <= u64 z < 2 ^ 64.
Proof. apply Z.mod_pos_bound. lia. Qed.
Lemma u32_range z : 0 <= u32 z < 2 ^ 32.
Proof. apply Z.mod_pos_bound. lia. Qed.
Lemma u16_range z : 0 <= u16 z < 2 ^ 16.
Proof. apply Z.mod_pos_bound. lia. Qed.
Lemma u64_small z : 0 <= z < 2 ^ 64 -> u64 z = z.
Proof. apply Z.mod_small. Qed.
Lemma u32_small z : 0 <= z < 2 ^ 32 -> u32 z = z.
Proof. apply Z.mod_small. Qed.
Lemma u16_small z : 0 <= z < 2 ^ 16 -> u16 z = z.
Proof. apply Z.mod_small. Qed.
Lemma s32_small z : - 2 ^ 31 <= z < 2 ^ 31 -> s32 z = z.
Proof. intros H. unfold s32. rewrite Z.mod_small; lia. Qed.

(** ** Encodings *)

(** [n] bytes of [z], least significant first. *)
Fixpoint le_bytes (n : nat) (z : Z) : list byte :=
  match n with
  | O => []
  | S n => zb z :: le_bytes n (z / 256)
  end.

Fixpoint le_val (l : list byte) : Z :=
  match l with
  | [] => 0
  | b :: l => bz b + 256 * le_val l
  end.

(** Network order: what a [uintN_t] stored through [htons]/[htonl]/[htobe64]
    puts in memory, and what [ntohs]/[ntohl]/[be64toh] read back. *)
Definition be_bytes (n : nat) (z : Z) : list byte := rev (le_bytes n z).
Definition be_val (l : list byte) : Z := le_val (rev l).

Lemma length_le_bytes n z : length (le_bytes n z) = n.
Proof. revert z. induction n as [|n IH]; intros z; simpl; [done|by rewrite IH]. Qed.

Lemma length_be_bytes n z : length (be_bytes n z) = n.
Proof. unfold be_bytes. by rewrite length_rev, length_le_bytes. Qed.

Lemma le_val_bytes n z : le_val (le_bytes n z) = z mod 256 ^ Z.of_nat n.
Proof.
  revert z. induction n as [|n IH]; intros z; simpl le_val.
  { by rewrite Z.mod_1_r. }
  rewrite IH, bz_zb, Nat2Z.inj_succ, Z.pow_succ_r by lia.
  rewrite Z.rem_mul_r by lia. lia.
Qed.

Lemma be_val_bytes n z : be_val (be_bytes n z) = z mod 256 ^ Z.of_nat n.
Proof. unfold be_val, be_bytes. by rewrite rev_involutive, le_val_bytes. Qed.

Lemma le_val_range l : 0 <= le_val l < 256 ^ Z.of_nat (length l).
Proof.
  induction l as [|b l IH]; simpl length; [simpl; lia|].
  rewrite Nat2Z.inj_succ, Z.pow_succ_r by lia. simpl le_val.
  pose proof (bz_range b). lia.
Qed.

Lemma be_val_range l : 0 <= be_val l < 256 ^ Z.of_nat (length l).
Proof. unfold be_val. rewrite <- (length_rev l). apply le_val_range. Qed.

(** ** C strings and buffers *)

(** The bytes of a literal. *)
Definition bs (s : string) : list byte := list_byte_of_string s.

(** The C string a buffer holds: the bytes before the first NUL. *)
Fixpoint c_str (l : list byte) : list byte :=
  match l with
  | [] => []
  | b :: l => if decide (b = x00) then [] else b :: c_str l
  end.

(** [no_nul s]: [s] is the contents of a C string. *)
Definition no_nul (s : list byte) : Prop := Forall (fun b => b <> x00) s.

#[global] Instance no_nul_dec s : Decision (no_nul s).
Proof. unfold no_nul. apply _. Defined.

Lemma c_str_app_nul s l : no_nul s -> c_str (s ++ x00 :: l) = s.
Proof.
  induction 1 as [|b s Hb Hs IH]; simpl; [done|].
  by rewrite decide_False, IH.
Qed.

Lemma c_str_id s : no_nul s -> c_str s = s.
Proof. induction 1 as [|b s Hb Hs IH]; simpl; [done|]. by rewrite decide_False, IH. Qed.

Lemma c_str_no_nul l : no_nul (c_str l).
Proof.
  induction l as [|b l IH]; simpl; [constructor|].
  case_decide; constructor; done.
Qed.

(** [snprintf(buf, size, ...)] stores at most [size - 1] bytes of the text. *)
Definition snprintf_text (size : Z) (text : list byte) : list byte :=
  take (Z.to_nat (Z.min (size - 1) (Z.of_nat (length text)))) text.

(** [strncmp(s, prefix, strlen(prefix)) == 0]. *)
Definition has_prefix (p s : list byte) : bool := bool_decide (take (length p) s = p).

Lemma has_prefix_spec p s : has_prefix p s = true <-> exists t, s = p ++ t.
Proof.
  unfold has_prefix. rewrite bool_decide_eq_true. split.
  - intros H. exists (drop (length p) s). by rewrite <- H at 1; rewrite take_drop.
  - intros [t ->]. by rewrite take_app_length.
Qed.

(** Bounds-checked read of [len] bytes at offset [off] of an object. *)
Definition buf_read (b : list byte) (off len : Z) : option (list byte) :=
  if (0 <=? off) && (0 <=? len) && (off + len <=? Z.of_nat (length b))
  then Some (take (Z.to_nat len) (drop (Z.to_nat off) b)) else None.

Lemma buf_read_whole b : buf_read b 0 (Z.of_nat (length b)) = Some b.
Proof.
  unfold buf_read. rewrite Z.leb_refl, (proj2 (Z.leb_le 0 (Z.of_nat _))), (proj2 (Z.leb_le (0 + _) _)) by lia. simpl.
  by rewrite drop_0, Nat2Z.id, firstn_all.
Qed.

(** Bounds-checked write of the bytes [d] at offset [off]. *)
Definition buf_write (b : list byte) (off : Z) (d : list byte) : option (list byte) :=
  if (0 <=? off) && (off + Z.of_nat (length d) <=? Z.of_nat (length b))
  then Some (take (Z.to_nat off) b ++ d ++ drop (Z.to_nat off + length d) b) else None.

(** ** The effect monad *)

(** A C function run on a state [S] either returns, or waits for input that
    never comes ([Blocked]), or performs an access that C leaves undefined:
    a freed or out-of-bounds object ([Fault]). *)
Inductive outcome (S A : Type) : Type :=
| Ret (a : A) (s : S)
| Blocked
| Fault.
Arguments Ret {S A}.
Arguments Blocked {S A}.
Arguments Fault {S A}.

Definition M (S A : Type) : Type := S -> outcome S A.

#[global] Instance M_ret {S} : MRet (M S) := fun A a s => Ret a s.
#[global] Instance M_bind {S} : MBind (M S) := fun A B f m s =>
  match m s with
  | Ret a s' => f a s'
  | Blocked => Blocked
  | Fault => Fault
  end.

Definition get {S} : M S S := fun s => Ret s s.
Definition put {S} (s : S) : M S () := fun _ => Ret () s.
Definition modify {S} (f : S -> S) : M S () := fun s => Ret () (f s).
Definition fault {S A} : M S A := fun _ => Fault.
Definition block {S A} : M S A := fun _ => Blocked.

(** Dereference: [None] is an invalid access. *)
Definition deref {S A} (o : option A) : M S A :=
  match o with Some a => mret a | None => fault end.

(** Reading an [outcome] back. *)
Definition result_of {S A} (o : outcome S A) : option A :=
  match o with Ret a _ => Some a | _ => None end.
Definition state_of {S A} (o : outcome S A) : option S :=
  match o with Ret _ s => Some s | _ => None end.

Lemma bind_ret_l {S A B} (a : A) (f : A -> M S B) s : (mret a ≫= f) s = f a s.
Proof. reflexivity. Qed.

Lemma deref_bind {S A B} (a : A) (f : A -> M S B) s : (deref (Some a) ≫= f) s = f a s.
Proof. reflexivity. Qed.

Lemma bind_Ret {S A B} (m : M S A) (f : A -> M S B) s a s' :
  m s = Ret a s' -> (m ≫= f) s = f a s'.
Proof. unfold mbind, M_bind. by intros ->. Qed.

Lemma bind_assoc {S A B C} (m : M S A) (f : A -> M S B) (g : B -> M S C) s :
  ((m ≫= f) ≫= g) s = (m ≫= (fun a => f a ≫= g)) s.
Proof. unfold mbind, M_bind. by destruct (m s). Qed.

Lemma bind_inv {S A B} (m : M S A) (f : A -> M S B) s b s' :
  (m ≫= f) s = Ret b s' -> exists a s1, m s = Ret a s1 /\ f a s1 = Ret b s'.
Proof. unfold mbind, M_bind. destruct (m s); naive_solver. Qed.

(** ** Lists *)

Lemma Forall_app_cons_drop {A} (P : A -> Prop) l1 x l2 : Forall P (l1 ++ x :: l2) -> Forall P (l1 ++ l2).
Proof. rewrite !Forall_app. intros [H1 H2]. inversion H2; eauto. Qed.

Lemma filter_all {A} (P : A -> Prop) `{forall x, Decision (P x)} (l : list A) : Forall P l -> filter P l = l.
Proof. induction 1 as [|x l Hx Hl IH]; [done|]. by rewrite filter_cons_True, IH. Qed.

(** How many elements satisfy [f] after one of them is replaced. *)
Lemma length_filter_insert {A} (f : A -> bool) (l : list A) i x y : l !! i = Some x ->
  (length (filter (fun x => f x = true) (<[i:=y]> l)) + (if f x then 1 else 0) =
   length (filter (fun x => f x = true) l) + (if f y then 1 else 0))%nat.
Proof.
  intros Hi. rewrite <- (take_drop_middle l i x Hi) at 2. rewrite insert_take_drop by (by eapply lookup_lt_Some).
  rewrite !list.filter_app, !list.filter_cons, !length_app. destruct (f x), (f y); simpl; lia.
Qed.

(** ** Automation *)

Create HintDb objm.
Create Rewrite HintDb objm.
#[export] Hint Resolve bz_range u64_range u32_range u16_range : objm.
#[export] Hint Rewrite length_le_bytes length_be_bytes bz_zb zb_bz : objm.

(** Step through a monadic program whose head computation is known. *)
Ltac mstep :=
  match goal with
  | H : ?m ?s = Ret _ _ |- context [ (?m ≫= _) ?s ] => rewrite (bind_Ret _ _ _ _ _ H)
  | |- context [ (mret _ ≫= _) _ ] => rewrite bind_ret_l
  end.

(** Run the head computation of a monadic program, given its result. *)
Tactic Notation "run" uconstr(H) := rewrite (bind_Ret _ _ _ _ _ H).

(** Invert a monadic computation that returned. *)
Ltac minv H :=
  let a := fresh "a" in let s := fresh "s" in
  let H1 := fresh H in
  apply bind_inv in H as (a & s & H1 & H).

(** Destruct the scrutinee of a [match]/[if] in the goal or a hypothesis,
    remembering the equation. *)
Ltac dmatch :=
  match goal with
  | |- context [ match ?x with _ => _ end ] => destruct x eqn:?
  end.

(** ** 64-bit counters *)

(** Congruence of 64-bit counters. *)
Definition eq64 (a b : Z) : Prop := exists k, a = b + k * 2 ^ 64.

Lemma u64_eq64 x : eq64 (u64 x) x.
Proof. exists (- (x / 2 ^ 64)). unfold u64. pose proof (Z.div_mod x (2 ^ 64)). lia. Qed.

Lemma eq64_u64 a b : eq64 a b -> u64 a = u64 b.
Proof. intros [k ->]. unfold u64. apply Z.mod_add. lia. Qed.

#[global] Instance eq64_equiv : Equivalence eq64.
Proof.
  split.
  - intros a. exists 0. lia.
  - intros a b [k ->]. exists (- k). lia.
  - intros a b c [k ->] [j ->]. exists (j + k). lia.
Qed.
#[global] Instance eq64_add : Proper (eq64 ==> eq64 ==> eq64) Z.add.
Proof. intros a a' [k ->] b b' [j ->]. exists (k + j). lia. Qed.
#[global] Instance eq64_sub : Proper (eq64 ==> eq64 ==> eq64) Z.sub.
Proof. intros a a' [k ->] b b' [j ->]. exists (k - j). lia. Qed.

(** ** Relations between the states before and after *)

(** [m] relates the states around it by the preorder [R]. *)
Definition moves {S A} (R : S -> S -> Prop) (m : M S A) : Prop := forall s a s', m s = Ret a s' -> R s s'.

Section Moves.
Context {S : Type} (R : S -> S -> Prop) `{!PreOrder R}.

Lemma moves_ret {A} (a : A) : moves R (mret a : M S A).
Proof. intros s b s' H. injection H as _ <-. reflexivity. Qed.
Lemma moves_get : moves R (get : M S S).
Proof. intros s b s' H. injection H as _ <-. reflexivity. Qed.
Lemma moves_block {A} : moves R (block : M S A).
Proof. done. Qed.
Lemma moves_fault {A} : moves R (fault : M S A).
Proof. done. Qed.
Lemma moves_deref {A} (o : option A) : moves R (deref o : M S A).
Proof. intros s a s' H. destruct o; [|done]. injection H as _ <-. reflexivity. Qed.
Lemma moves_bind {A B} (m : M S A) (f : A -> M S B) : moves R m -> (forall a, moves R (f a)) -> moves R (m ≫= f).
Proof. intros Hm Hf s b s' H. apply bind_inv in H as (a & s1 & H1 & H2). etrans; [by eapply Hm|by eapply Hf]. Qed.
End Moves.

Create HintDb moves.
#[export] Hint Resolve moves_block moves_fault : moves.
#[export] Hint Extern 0 (moves _ (mret _)) => apply moves_ret; apply _ : moves.
#[export] Hint Extern 0 (moves _ get) => apply moves_get; apply _ : moves.
#[export] Hint Extern 0 (moves _ (deref _)) => apply moves_deref; apply _ : moves.

(** Split a program along its binds and matches. *)
Ltac moves_tac :=
  repeat (cbv zeta;
    lazymatch goal with
    | |- moves _ (_ ≫= _) => apply moves_bind; [apply _| |intros]
    | |- moves _ (match ?x with _ => _ end) => destruct x
    | |- moves _ (let '_ := ?x in _) => destruct x
    | _ => solve [auto with moves]
    end).
