(* ===== verification/Socket.v ===== *)
(** * Socket: the part of the kernel's stream sockets the protocol relies on

    One process's end of a connected Unix stream socket: the bytes the peer has
    sent and that are not read yet, the bytes written so far, the process's
    descriptor table, and two schedules that say how the kernel answers the next
    [read] and [write] calls (short transfers, [EINTR], failures).  Every theorem
    quantifies over the schedules, so it holds however the kernel splits a
    transfer. *)

From S2P Require Import Prelude.

(** A byte in flight, with the open file description an [SCM_RIGHTS] control
    message attached to it. *)
Record cell := Cell { c_byte : byte; c_ofd : option Z }.

Definition plain (b : byte) : cell := Cell b None.

(** How the kernel answers one [read]/[write]/[sendmsg]/[recvmsg] call. *)
Inductive io_event :=
| IoPartial (k : nat)   (* transfers at most [k] bytes ([read]: at most [k + 1]) *)
| IoEintr               (* -1, [errno == EINTR] *)
| IoFail.               (* -1, any other [errno] *)

#[global] Instance io_event_eq_dec : EqDecision io_event.
Proof. solve_decision. Defined.

Inductive errno := EINTR | EIO.

Record endpoint := Endpoint {
  rx : list cell;             (* sent by the peer, not read yet *)
  peer_closed : bool;         (* the peer sends nothing after [rx] *)
  tx : list cell;             (* written so far *)
  rd_sched : list io_event;   (* answers to the next read calls; then: full transfers *)
  wr_sched : list io_event;   (* answers to the next write calls; then: full transfers *)
  fdt : gmap Z Z;             (* descriptor -> open file description *)
  oom : list bool;            (* do the next allocations succeed?; then: yes *)
  junk : byte                 (* contents of fresh [malloc] memory *)
}.

Definition set_rx (r : list cell) (sch : list io_event) (s : endpoint) : endpoint :=
  Endpoint r (peer_closed s) (tx s) sch (wr_sched s) (fdt s) (oom s) (junk s).
Definition set_tx (t : list cell) (sch : list io_event) (s : endpoint) : endpoint :=
  Endpoint (rx s) (peer_closed s) t (rd_sched s) sch (fdt s) (oom s) (junk s).
Definition set_fdt (f : gmap Z Z) (s : endpoint) : endpoint :=
  Endpoint (rx s) (peer_closed s) (tx s) (rd_sched s) (wr_sched s) f (oom s) (junk s).
Definition set_oom (o : list bool) (s : endpoint) : endpoint :=
  Endpoint (rx s) (peer_closed s) (tx s) (rd_sched s) (wr_sched s) (fdt s) o (junk s).

(** ** Descriptor numbers *)

(** POSIX gives a new descriptor the lowest number not in use. *)
Fixpoint first_free {A} (fuel : nat) (i : Z) (m : gmap Z A) : Z :=
  match fuel with
  | O => i
  | S f => match m !! i with Some _ => first_free f (i + 1) m | None => i end
  end.

Definition lowest_free {A} (m : gmap Z A) : Z := first_free (size m) 0 m.

Lemma first_free_spec {A} fuel i (m : gmap Z A) :
  let j := first_free fuel i m in
  i <= j <= i + Z.of_nat fuel /\
  (forall k, i <= k < j -> is_Some (m !! k)) /\
  (j < i + Z.of_nat fuel -> m !! j = None).
Proof.
  revert i. induction fuel as [|f IH]; intros i; cbn.
  { split; [lia|]. split; intros; lia. }
  destruct (m !! i) as [x|] eqn:E.
  - destruct (IH (i + 1)) as (H1 & H2 & H3). split; [lia|]. split.
    + intros k Hk. destruct (decide (k = i)) as [->|]; [by rewrite E; eauto|].
      apply H2. lia.
    + intros Hj. apply H3. lia.
  - split; [lia|]. split; [intros; lia|done].
Qed.

Lemma lowest_free_None {A} (m : gmap Z A) : m !! lowest_free m = None.
Proof.
  unfold lowest_free. destruct (first_free_spec (size m) 0 m) as (H1 & H2 & H3).
  destruct (decide (first_free (size m) 0 m < 0 + Z.of_nat (size m))) as [|Hge].
  { by apply H3. }
  destruct (m !! first_free (size m) 0 m) as [x|] eqn:E; [|done]. exfalso.
  set (ks := list_to_set (C:=gset Z) (Z.of_nat <$> seq 0 (S (size m)))).
  assert (Hsub : ks ⊆ dom m).
  { intros k. unfold ks. rewrite elem_of_list_to_set, list_elem_of_fmap.
    intros (n & -> & Hn%elem_of_seq). apply elem_of_dom.
    destruct (decide (Z.of_nat n = first_free (size m) 0 m)) as [->|]; [by rewrite E; eauto|].
    apply H2. lia. }
  apply subseteq_size in Hsub. rewrite size_dom in Hsub.
  unfold ks in Hsub. rewrite size_list_to_set in Hsub.
  - rewrite length_fmap, length_seq in Hsub. lia.
  - apply NoDup_fmap_2; [apply _|apply NoDup_seq].
Qed.

Lemma lowest_free_nonneg {A} (m : gmap Z A) : 0 <= lowest_free m.
Proof. unfold lowest_free. pose proof (first_free_spec (size m) 0 m). simpl in *. lia. Qed.

(** ** System calls *)

Definition sys_write (d : list byte) : M endpoint (nat + errno) := fun s =>
  match wr_sched s with
  | [] => Ret (inl (length d)) (set_tx (tx s ++ (plain <$> d)) [] s)
  | IoPartial k :: w =>
      let n := Nat.min k (length d) in
      Ret (inl n) (set_tx (tx s ++ (plain <$> take n d)) w s)
  | IoEintr :: w => Ret (inr EINTR) (set_tx (tx s) w s)
  | IoFail :: w => Ret (inr EIO) (set_tx (tx s) w s)
  end.

(** [read] drops the descriptors attached to the bytes it returns (no control
    buffer); an empty queue is end-of-file once the peer has closed. *)
Definition sys_read (n : nat) : M endpoint (list byte + errno) := fun s =>
  let take_upto m w :=
    match rx s with
    | [] => if peer_closed s then Ret (inl []) (set_rx [] w s) else Blocked
    | _ => Ret (inl (c_byte <$> take m (rx s))) (set_rx (drop m (rx s)) w s)
    end in
  match rd_sched s with
  | [] => take_upto n []
  | IoPartial k :: w => take_upto (Nat.min (S k) n) w
  | IoEintr :: w => Ret (inr EINTR) (set_rx (rx s) w s)
  | IoFail :: w => Ret (inr EIO) (set_rx (rx s) w s)
  end.

(** [recv(fd, &b, 1, MSG_PEEK)]: the byte stays in the queue. *)
Definition sys_peek : M endpoint (option byte) := fun s =>
  let look w :=
    match rx s with
    | [] => if peer_closed s then Ret None (set_rx [] w s) else Blocked
    | c :: _ => Ret (Some (c_byte c)) (set_rx (rx s) w s)
    end in
  match rd_sched s with
  | [] => look []
  | IoPartial _ :: w => look w
  | _ :: w => Ret None (set_rx (rx s) w s)
  end.

(** [sendmsg] of one byte with the descriptor [fd] attached; an invalid
    descriptor is refused. *)
Definition sys_sendmsg_fd (b : byte) (fd : Z) : M endpoint (nat + errno) := fun s =>
  let go w := match fdt s !! fd with
              | Some o => Ret (inl 1%nat) (set_tx (tx s ++ [Cell b (Some o)]) w s)
              | None => Ret (inr EIO) (set_tx (tx s) w s)
              end in
  match wr_sched s with
  | [] => go []
  | IoPartial _ :: w => go w
  | IoEintr :: w => Ret (inr EINTR) (set_tx (tx s) w s)
  | IoFail :: w => Ret (inr EIO) (set_tx (tx s) w s)
  end.

(** [recvmsg] into a one-byte buffer: [inl None] when no control message came
    with it (end of file included), [inl (Some fd)] with the descriptor the
    kernel installed. *)
Definition sys_recvmsg_fd : M endpoint (option Z + errno) := fun s =>
  let go w :=
    match rx s with
    | [] => if peer_closed s then Ret (inl None) (set_rx [] w s) else Blocked
    | Cell _ None :: r => Ret (inl None) (set_rx r w s)
    | Cell _ (Some o) :: r =>
        let n := lowest_free (fdt s) in
        Ret (inl (Some n)) (set_fdt (<[n:=o]> (fdt s)) (set_rx r w s))
    end in
  match rd_sched s with
  | [] => go []
  | IoPartial _ :: w => go w
  | IoEintr :: w => Ret (inr EINTR) (set_rx (rx s) w s)
  | IoFail :: w => Ret (inr EIO) (set_rx (rx s) w s)
  end.

Definition sys_close (fd : Z) : M endpoint () :=
  modify (fun s => set_fdt (delete fd (fdt s)) s).

(** [malloc]/[calloc]/[strdup]: does the allocation succeed? *)
Definition sys_alloc : M endpoint bool := fun s =>
  match oom s with
  | [] => Ret true s
  | b :: o => Ret b (set_oom o s)
  end.

(** ** Schedules *)

(** No call fails (short transfers and [EINTR] may still happen). *)
Definition no_fail (l : list io_event) : Prop := IoFail ∉ l.
(** No call fails or is interrupted. *)
Definition quiet (l : list io_event) : Prop := Forall (fun e => exists k, e = IoPartial k) l.

#[global] Instance no_fail_dec l : Decision (no_fail l).
Proof. unfold no_fail. apply _. Defined.

Lemma quiet_no_fail l : quiet l -> no_fail l.
Proof. unfold quiet, no_fail. intros H Hin. eapply list.Forall_forall in H as [k Hk]; [|done]. done. Qed.
