(* ===== verification/Protocol.v ===== *)
(** * Protocol: the wire protocol library ([lib/protocol/protocol.c])

    The connection object, the byte layouts of the V1 and V2 messages, the
    client and server halves of the handshake, requests and responses with
    descriptor passing, and the metadata buffers.  This file holds the
    definitions; [ProtocolProofs] holds the theorems. *)

From S2P Require Import Prelude Socket.

(** ** Constants ([protocol.h]) *)

Definition OBJM_MAGIC : list byte := bs "OBJM".
Definition OBJM_VERSION_1 : Z := 1.
Definition OBJM_VERSION_2 : Z := 2.
Definition OBJM_PROTO_V1 : Z := OBJM_VERSION_1.
Definition OBJM_PROTO_V2 : Z := OBJM_VERSION_2.

Definition OBJM_CAP_OOO_REPLIES : Z := 1.
Definition OBJM_CAP_PIPELINING : Z := 2.
Definition OBJM_CAP_COMPRESSION : Z := 4.
Definition OBJM_CAP_MULTIPLEXING : Z := 8.

Definition OBJM_REQ_ORDERED : Z := 1.
Definition OBJM_REQ_PRIORITY : Z := 2.

Definition OBJM_MSG_REQUEST : Z := 1.
Definition OBJM_MSG_RESPONSE : Z := 2.
Definition OBJM_MSG_CLOSE : Z := 3.
Definition OBJM_MSG_CLOSE_ACK : Z := 4.

Definition OBJM_STATUS_OK : Z := 0.
Definition OBJM_STATUS_NOT_FOUND : Z := 1.
Definition OBJM_STATUS_INVALID_REQUEST : Z := 2.
Definition OBJM_STATUS_INVALID_MODE : Z := 3.
Definition OBJM_STATUS_URI_TOO_LONG : Z := 4.
Definition OBJM_STATUS_UNSUPPORTED_OP : Z := 5.
Definition OBJM_STATUS_INTERNAL_ERROR : Z := 16.
Definition OBJM_STATUS_STORAGE_ERROR : Z := 17.
Definition OBJM_STATUS_OUT_OF_MEMORY : Z := 18.
Definition OBJM_STATUS_TIMEOUT : Z := 19.
Definition OBJM_STATUS_UNAVAILABLE : Z := 20.
Definition OBJM_STATUS_PROTOCOL_ERROR : Z := 32.
Definition OBJM_STATUS_VERSION_MISMATCH : Z := 33.
Definition OBJM_STATUS_CAPABILITY_ERROR : Z := 34.

Definition OBJM_MODE_FDPASS : byte := "1"%byte.
Definition OBJM_MODE_COPY : byte := "2"%byte.
Definition OBJM_MODE_SPLICE : byte := "3"%byte.

Definition OBJM_META_SIZE : Z := 1.
Definition OBJM_META_MTIME : Z := 2.
Definition OBJM_META_BACKEND : Z := 5.

Definition OBJM_MAX_URI_LEN : Z := 4096.

(** ** Types *)

Record objm_request_t := Request {
  rq_id : Z;              (* uint32_t *)
  rq_flags : Z;           (* uint8_t *)
  rq_mode : byte;         (* char *)
  rq_uri : list byte;     (* the object [uri] points to, terminator included *)
  rq_uri_len : Z          (* size_t *)
}.

Record objm_response_t := Response {
  rs_request_id : Z;
  rs_status : Z;
  rs_fd : Z;
  rs_content_len : Z;
  rs_metadata : option (list byte);   (* [None]: NULL *)
  rs_metadata_len : Z;
  rs_error_msg : option (list byte)
}.

Record objm_hello_t := Hello {
  he_capabilities : Z;
  he_max_pipeline : Z;
  he_backend_parallelism : Z
}.

Record objm_params_t := Params {
  pa_version : Z;
  pa_capabilities : Z;
  pa_max_pipeline : Z;
  pa_backend_parallelism : Z
}.

Record objm_metadata_entry_t := MetaEntry {
  me_type : Z;
  me_length : Z;
  me_data : list byte
}.

(** Callback table: four function addresses, 0 for NULL. *)
Record objm_callbacks_t := Callbacks {
  cb_on_send_ready : Z;
  cb_on_response : Z;
  cb_on_error : Z;
  cb_on_close : Z
}.

Record objm_connection := Connection {
  cn_fd : Z;
  cn_version : Z;
  cn_params : objm_params_t;
  cn_is_server : bool;
  cn_next_request_id : Z;
  cn_pending_responses : option (list (option objm_response_t));  (* [None]: NULL *)
  cn_pending_capacity : Z;
  cn_callbacks : objm_callbacks_t;
  cn_user_data : Z;
  cn_error : list byte
}.

(** What [calloc(1, sizeof( *conn))] leaves. *)
Definition zero_connection : objm_connection :=
  Connection 0 0 (Params 0 0 0 0) false 0 None 0 (Callbacks 0 0 0 0) 0 [].

Definition set_version (v : Z) (c : objm_connection) : objm_connection :=
  Connection (cn_fd c) v (cn_params c) (cn_is_server c) (cn_next_request_id c)
    (cn_pending_responses c) (cn_pending_capacity c) (cn_callbacks c) (cn_user_data c) (cn_error c).
Definition set_params (p : objm_params_t) (c : objm_connection) : objm_connection :=
  Connection (cn_fd c) (cn_version c) p (cn_is_server c) (cn_next_request_id c)
    (cn_pending_responses c) (cn_pending_capacity c) (cn_callbacks c) (cn_user_data c) (cn_error c).
Definition set_pending (cap : Z) (l : option (list (option objm_response_t))) (c : objm_connection)
    : objm_connection :=
  Connection (cn_fd c) (cn_version c) (cn_params c) (cn_is_server c) (cn_next_request_id c)
    l cap (cn_callbacks c) (cn_user_data c) (cn_error c).
Definition set_cbs (cb : objm_callbacks_t) (u : Z) (c : objm_connection) : objm_connection :=
  Connection (cn_fd c) (cn_version c) (cn_params c) (cn_is_server c) (cn_next_request_id c)
    (cn_pending_responses c) (cn_pending_capacity c) cb u (cn_error c).
Definition set_err (e : list byte) (c : objm_connection) : objm_connection :=
  Connection (cn_fd c) (cn_version c) (cn_params c) (cn_is_server c) (cn_next_request_id c)
    (cn_pending_responses c) (cn_pending_capacity c) (cn_callbacks c) (cn_user_data c) e.

(** The state the library functions run on: the process's end of the socket and
    the object the [conn] argument points to ([None]: a NULL pointer). *)
Record link := Link { ep : endpoint; cn : option objm_connection }.

Definition onep {A} (m : M endpoint A) : M link A := fun l =>
  match m (ep l) with
  | Ret a e => Ret a (Link e (cn l))
  | Blocked => Blocked
  | Fault => Fault
  end.

Definition get_cn : M link (option objm_connection) := fun l => Ret (cn l) l.

(** [conn->...] accesses: a NULL or freed connection faults. *)
Definition upd_cn (f : objm_connection -> objm_connection) : M link () := fun l =>
  match cn l with Some c => Ret () (Link (ep l) (Some (f c))) | None => Fault end.

(** ** Internal helpers *)

(** [send_all]: [while (remaining > 0) write(...)]. *)
Fixpoint send_all_loop (fuel : nat) (d : list byte) : M endpoint Z :=
  match d with
  | [] => mret 0
  | _ =>
    match fuel with
    | O => block
    | S f =>
      r ← sys_write d;
      match r with
      | inl n => send_all_loop f (drop n d)
      | inr EINTR => send_all_loop f d
      | inr EIO => mret (-1)
      end
    end
  end.

Definition send_all (d : list byte) : M endpoint Z := fun s =>
  send_all_loop (S (length (wr_sched s))) d s.

(** [recv_all]: [None] is -1, [Some buf] is 0 with the buffer filled. *)
Fixpoint recv_all_loop (fuel : nat) (acc : list byte) (remaining : nat) : M endpoint (option (list byte)) :=
  match remaining with
  | O => mret (Some acc)
  | _ =>
    match fuel with
    | O => block
    | S f =>
      r ← sys_read remaining;
      match r with
      | inl [] => mret None
      | inl got => recv_all_loop f (acc ++ got) (remaining - length got)
      | inr EINTR => recv_all_loop f acc remaining
      | inr EIO => mret None
      end
    end
  end.

Definition recv_all (len : Z) : M endpoint (option (list byte)) := fun s =>
  recv_all_loop (S (S (length (rd_sched s)))) [] (Z.to_nat len) s.

Definition send_fd (fd : Z) : M endpoint Z :=
  r ← sys_sendmsg_fd "X"%byte fd;
  mret (match r with inl _ => 0 | inr _ => -1 end).

Definition recv_fd : M endpoint Z :=
  r ← sys_recvmsg_fd;
  mret (match r with inl (Some fd) => fd | _ => -1 end).

(** [set_error]: [vsnprintf] into [char error[256]]. *)
Definition set_error (msg : list byte) : M link () := upd_cn (set_err (snprintf_text 256 msg)).

(** ["Unexpected message type: %d"] *)
Definition unexpected_type (b : byte) : list byte :=
  bs "Unexpected message type: " ++ bs (pretty (bz b)).

(** [buf_at b i]: the byte [b[i]] of a header array filled by [recv_all]. *)
Definition buf_at (b : list byte) (i : nat) : byte := default x00 (b !! i).
(** [*(uintN_t * )(b + off)] in network order. *)
Definition be_at (b : list byte) (off n : nat) : Z := be_val (take n (drop off b)).

(** ** Message layouts *)

(** HELLO: magic(4) + version(1) + caps(2) + max_pipeline(2). *)
Definition hello_msg (h : objm_hello_t) : list byte :=
  OBJM_MAGIC ++ [zb OBJM_VERSION_2] ++ be_bytes 2 (he_capabilities h) ++ be_bytes 2 (he_max_pipeline h).

(** HELLO_ACK: magic(4) + version(1) + caps(2) + max_pipeline(2) + backend_parallelism(1). *)
Definition ack_msg (p : objm_params_t) : list byte :=
  OBJM_MAGIC ++ [zb OBJM_VERSION_2] ++ be_bytes 2 (pa_capabilities p) ++
  be_bytes 2 (pa_max_pipeline p) ++ [zb (pa_backend_parallelism p)].

(** V1 request: mode(1) + uri_len(2). *)
Definition request_header_v1 (r : objm_request_t) : list byte :=
  [rq_mode r] ++ be_bytes 2 (rq_uri_len r).

(** V2 request: msg_type(1) + request_id(4) + flags(1) + mode(1) + uri_len(2). *)
Definition request_header_v2 (r : objm_request_t) : list byte :=
  [zb OBJM_MSG_REQUEST] ++ be_bytes 4 (rq_id r) ++ [zb (rq_flags r)] ++ [rq_mode r] ++
  be_bytes 2 (rq_uri_len r).

(** V1 response: status(1) + content_len(8) + metadata_len(2). *)
Definition response_header_v1 (r : objm_response_t) : list byte :=
  [zb (rs_status r)] ++ be_bytes 8 (rs_content_len r) ++ be_bytes 2 (rs_metadata_len r).

(** V2 response: msg_type(1) + request_id(4) + status(1) + content_len(8) + metadata_len(2). *)
Definition response_header_v2 (r : objm_response_t) : list byte :=
  [zb OBJM_MSG_RESPONSE] ++ be_bytes 4 (rs_request_id r) ++ [zb (rs_status r)] ++
  be_bytes 8 (rs_content_len r) ++ be_bytes 2 (rs_metadata_len r).

Definition close_ack_msg (outstanding : Z) : list byte :=
  [zb OBJM_MSG_CLOSE_ACK; x00] ++ be_bytes 4 outstanding.

(** ** Releasing objects *)

Definition objm_response_free (r : option objm_response_t) : M endpoint () :=
  match r with
  | None => mret ()
  | Some r => if 0 <=? rs_fd r then sys_close (rs_fd r) else mret ()
  end.

(** ** Client API *)

Definition objm_client_create (fd version : Z) : M endpoint (option objm_connection) :=
  ok ← sys_alloc;
  if ok : bool then
    mret (Some (Connection fd version (Params version 0 1 0) false 1 None 0
                  (Callbacks 0 0 0 0) 0 []))
  else mret None.

(** The out-parameter [params] is written when it is not NULL. *)
Definition objm_client_hello (hello : objm_hello_t) (params : bool)
    : M link (Z * option objm_params_t) :=
  c ← get_cn;
  match c with
  | None => mret (-1, None)
  | Some c =>
    if negb (cn_version c =? OBJM_PROTO_V2) then mret (-1, None) else
    r ← onep (send_all (hello_msg hello));
    if r <? 0 then set_error (bs "Failed to send HELLO");; mret (-1, None) else
    a ← onep (recv_all 10);
    match a with
    | None => set_error (bs "Failed to receive HELLO_ACK");; mret (-1, None)
    | Some ack =>
      if negb (bool_decide (take 4 ack = OBJM_MAGIC)) then
        set_error (bs "Invalid HELLO_ACK magic");; mret (-1, None)
      else if negb (bz (buf_at ack 4) =? OBJM_VERSION_2) then
        set_error (bs "Version mismatch");; mret (-1, None)
      else
        let p := Params OBJM_PROTO_V2 (be_at ack 5 2) (be_at ack 7 2) (bz (buf_at ack 9)) in
        upd_cn (set_params p);;
        ok ← (if negb (Z.land (pa_capabilities p) OBJM_CAP_OOO_REPLIES =? 0) then
                m ← onep sys_alloc;
                upd_cn (set_pending (pa_max_pipeline p)
                          (if m : bool then Some (replicate (Z.to_nat (pa_max_pipeline p)) None)
                           else None));;
                mret m
              else mret true);
        if ok : bool then mret (0, if params then Some p else None)
        else set_error (bs "Failed to allocate pending response buffer");; mret (-1, None)
    end
  end.

Definition objm_client_send_request (req : option objm_request_t) : M link Z :=
  c ← get_cn;
  match c, req with
  | Some c, Some req =>
    let send header err :=
      r1 ← onep (send_all header);
      r ← (if r1 <? 0 then mret r1
           else u ← deref (buf_read (rq_uri req) 0 (rq_uri_len req)); onep (send_all u));
      if r <? 0 then set_error err;; mret (-1) else mret 0 in
    if cn_version c =? OBJM_PROTO_V1
    then send (request_header_v1 req) (bs "Failed to send V1 request")
    else send (request_header_v2 req) (bs "Failed to send V2 request")
  | _, _ => mret (-1)
  end.

(** The end of [objm_client_recv_response]: the descriptor. *)
Definition recv_response_fd (r : objm_response_t) : M link (Z * option objm_response_t) :=
  if (rs_status r =? OBJM_STATUS_OK) && (rs_content_len r =? 0) then
    fd ← onep recv_fd;
    if fd <? 0 then
      set_error (bs "Failed to receive file descriptor");; mret (-1, None)
    else mret (0, Some (Response (rs_request_id r) (rs_status r) fd (rs_content_len r)
                          (rs_metadata r) (rs_metadata_len r) (rs_error_msg r)))
  else mret (0, Some r).

(** After the header: metadata, then the descriptor. *)
Definition recv_response_body (r : objm_response_t) : M link (Z * option objm_response_t) :=
  if 0 <? rs_metadata_len r then
    ok ← onep sys_alloc;
    if ok : bool then
      m ← onep (recv_all (rs_metadata_len r));
      match m with
      | None => set_error (bs "Failed to receive metadata");; mret (-1, None)
      | Some md => recv_response_fd (Response (rs_request_id r) (rs_status r) (rs_fd r) (rs_content_len r)
                              (Some md) (rs_metadata_len r) (rs_error_msg r))
      end
    else mret (-1, None)
  else recv_response_fd r.

(** [resp]: the out-parameter is not NULL. *)
Definition objm_client_recv_response (resp : bool) : M link (Z * option objm_response_t) :=
  c ← get_cn;
  match c with
  | Some c =>
    if negb resp then mret (-1, None) else
    ok ← onep sys_alloc;
    if negb ok then mret (-1, None) else
    if cn_version c =? OBJM_PROTO_V1 then
      h ← onep (recv_all 11);
      match h with
      | None => set_error (bs "Failed to receive V1 response header");; mret (-1, None)
      | Some h =>
        recv_response_body
          (Response 0 (bz (buf_at h 0)) (-1) (be_at h 1 8) None (be_at h 9 2) None)
      end
    else
      h ← onep (recv_all 16);
      match h with
      | None => set_error (bs "Failed to receive V2 response header");; mret (-1, None)
      | Some h =>
        if negb (bz (buf_at h 0) =? OBJM_MSG_RESPONSE) then
          set_error (unexpected_type (buf_at h 0));; mret (-1, None)
        else
          recv_response_body
            (Response (be_at h 1 4) (bz (buf_at h 5)) (-1) (be_at h 6 8) None (be_at h 14 2) None)
      end
  | None => mret (-1, None)
  end.

(** The [while (1)] of [objm_client_recv_response_for]. *)
Fixpoint recv_for_loop (fuel : nat) (request_id : Z) : M link (Z * option objm_response_t) :=
  match fuel with
  | O => block
  | S f =>
    '(ret, r) ← objm_client_recv_response true;
    if ret <? 0 then mret (-1, None) else
    r ← deref r;
    if rs_request_id r =? request_id then mret (0, Some r) else
    c ← (c ← get_cn; deref c);
    (if rs_request_id r <? cn_pending_capacity c then
       l ← deref (cn_pending_responses c);
       _ ← deref (l !! Z.to_nat (rs_request_id r));
       upd_cn (set_pending (cn_pending_capacity c)
                 (Some (<[Z.to_nat (rs_request_id r) := Some r]> l)))
     else onep (objm_response_free (Some r)));;
    recv_for_loop f request_id
  end.

(** Every pass reads at least a header, so the queued bytes bound the passes. *)
Definition recv_for (request_id : Z) : M link (Z * option objm_response_t) := fun l =>
  recv_for_loop (S (length (rx (ep l)))) request_id l.

Definition objm_client_recv_response_for (request_id : Z) (resp : bool)
    : M link (Z * option objm_response_t) :=
  c ← get_cn;
  match c with
  | Some c =>
    if negb resp || negb (cn_version c =? OBJM_PROTO_V2) then mret (-1, None) else
    p ← (if request_id <? cn_pending_capacity c then
           l ← deref (cn_pending_responses c);
           slot ← deref (l !! Z.to_nat request_id);
           match slot with
           | Some r =>
             upd_cn (set_pending (cn_pending_capacity c)
                       (Some (<[Z.to_nat request_id := None]> l)));;
             mret (Some r)
           | None => mret None
           end
         else mret None);
    match p with
    | Some r => mret (0, Some r)
    | None => recv_for request_id
    end
  | None => mret (-1, None)
  end.

Definition objm_client_close (reason : Z) : M link Z :=
  c ← get_cn;
  match c with
  | None => mret (-1)
  | Some c =>
    if cn_version c =? OBJM_PROTO_V2 then
      r ← onep (send_all [zb OBJM_MSG_CLOSE; zb reason]);
      if r <? 0 then mret (-1) else
      a ← onep (recv_all 6);
      match a with
      | None => mret (-1)
      | Some ack => if negb (bz (buf_at ack 0) =? OBJM_MSG_CLOSE_ACK) then mret (-1) else mret 0
      end
    else mret 0
  end.

Fixpoint free_pending (l : list (option objm_response_t)) : M endpoint () :=
  match l with
  | [] => mret ()
  | r :: l => objm_response_free r;; free_pending l
  end.

Definition objm_client_destroy : M link () :=
  c ← get_cn;
  match c with
  | None => mret ()
  | Some c =>
    match cn_pending_responses c with
    | Some l => b ← deref (if Z.of_nat (length l) <? cn_pending_capacity c then None
                           else Some (take (Z.to_nat (cn_pending_capacity c)) l));
                onep (free_pending b)
    | None => mret ()
    end;;
    modify (fun s => Link (ep s) None)
  end.

(** ** Server API *)

Definition objm_server_create (fd : Z) : M endpoint (option objm_connection) :=
  ok ← sys_alloc;
  if ok : bool then
    mret (Some (Connection fd 0 (Params 0 0 0 0) true 0 None 0 (Callbacks 0 0 0 0) 0 []))
  else mret None.

(** The negotiated parameters of a V2 HELLO. *)
Definition negotiate (hello : objm_hello_t) (client_caps client_pipeline : Z) : objm_params_t :=
  Params OBJM_PROTO_V2 (Z.land client_caps (he_capabilities hello))
    (if client_pipeline <? he_max_pipeline hello then client_pipeline else he_max_pipeline hello)
    (he_backend_parallelism hello).

Definition objm_server_handshake (hello : objm_hello_t) (params : bool)
    : M link (Z * option objm_params_t) :=
  c ← get_cn;
  match c with
  | None => mret (-1, None)
  | Some c =>
    if negb (cn_is_server c) then mret (-1, None) else
    first ← onep sys_peek;
    match first with
    | None => set_error (bs "Failed to peek first byte");; mret (-1, None)
    | Some first_byte =>
      if bool_decide (first_byte = "O"%byte) then
        m ← onep (recv_all 9);
        match m with
        | None => set_error (bs "Failed to receive HELLO");; mret (-1, None)
        | Some h =>
          if negb (bool_decide (take 4 h = OBJM_MAGIC)) || negb (bz (buf_at h 4) =? OBJM_VERSION_2)
          then set_error (bs "Invalid HELLO message");; mret (-1, None)
          else
            let p := negotiate hello (be_at h 5 2) (be_at h 7 2) in
            upd_cn (set_params p);;
            r ← onep (send_all (ack_msg p));
            if r <? 0 then set_error (bs "Failed to send HELLO_ACK");; mret (-1, None)
            else upd_cn (set_version OBJM_PROTO_V2);;
                 mret (0, if params then Some p else None)
        end
      else
        let p := Params OBJM_PROTO_V1 0 1 1 in
        upd_cn (set_version OBJM_PROTO_V1);;
        upd_cn (set_params p);;
        mret (0, if params then Some p else None)
    end
  end.

(** The URI part of both request formats. *)
Definition recv_request_uri (r : objm_request_t) : M link (Z * option objm_request_t) :=
  if OBJM_MAX_URI_LEN <? rq_uri_len r then
    set_error (bs "URI too long");; mret (-1, None)
  else
    ok ← onep sys_alloc;
    if negb ok then mret (-1, None) else
    u ← onep (recv_all (rq_uri_len r));
    match u with
    | None => mret (-1, None)
    | Some u => mret (0, Some (Request (rq_id r) (rq_flags r) (rq_mode r) (u ++ [x00]) (rq_uri_len r)))
    end.

Definition objm_server_recv_request (req : bool) : M link (Z * option objm_request_t) :=
  c ← get_cn;
  match c with
  | None => mret (-1, None)
  | Some c =>
    if negb req then mret (-1, None) else
    ok ← onep sys_alloc;
    if negb ok then mret (-1, None) else
    if cn_version c =? OBJM_PROTO_V1 then
      h ← onep (recv_all 3);
      match h with
      | None => mret (-1, None)
      | Some h => recv_request_uri (Request 0 0 (buf_at h 0) [] (be_at h 1 2))
      end
    else
      h ← onep (recv_all 9);
      match h with
      | None => mret (-1, None)
      | Some h =>
        if bz (buf_at h 0) =? OBJM_MSG_CLOSE then mret (1, None)
        else if negb (bz (buf_at h 0) =? OBJM_MSG_REQUEST) then
          set_error (unexpected_type (buf_at h 0));; mret (-1, None)
        else recv_request_uri (Request (be_at h 1 4) (bz (buf_at h 5)) (buf_at h 6) [] (be_at h 7 2))
      end
  end.

Definition objm_server_send_response (resp : option objm_response_t) : M link Z :=
  c ← get_cn;
  match c, resp with
  | Some c, Some resp =>
    let header := if cn_version c =? OBJM_PROTO_V1 then response_header_v1 resp
                  else response_header_v2 resp in
    r ← onep (send_all header);
    if r <? 0 then mret (-1) else
    r ← match rs_metadata resp with
        | Some md =>
          if 0 <? rs_metadata_len resp
          then d ← deref (buf_read md 0 (rs_metadata_len resp)); onep (send_all d)
          else mret 0
        | None => mret 0
        end;
    if r <? 0 then mret (-1) else
    if (rs_status resp =? OBJM_STATUS_OK) && (0 <=? rs_fd resp) then
      r ← onep (send_fd (rs_fd resp));
      if r <? 0 then mret (-1) else mret 0
    else mret 0
  | _, _ => mret (-1)
  end.

(** ** Metadata buffers *)

Definition objm_metadata_create (estimated_size : Z) : M endpoint (option (list byte)) :=
  ok ← sys_alloc;
  s ← get;
  mret (if ok : bool
        then Some (replicate (Z.to_nat (if 0 <? estimated_size then estimated_size else 128)) (junk s))
        else None).

(** Returns the buffer as the call leaves it and the new length. *)
Definition objm_metadata_add {S} (metadata : option (list byte)) (current_len type : Z)
    (data : list byte) (len : Z) : M S (option (list byte) * Z) :=
  match metadata with
  | None => mret (None, 0)
  | Some md =>
    if 65535 <? len then mret (Some md, 0) else
    md ← deref (buf_write md current_len [zb type]);
    md ← deref (buf_write md (current_len + 1) (be_bytes 2 len));
    d ← deref (buf_read data 0 len);
    md ← deref (buf_write md (current_len + 3) d);
    mret (Some md, u64 (current_len + 3 + len))
  end.

Definition objm_metadata_add_size {S} (md : option (list byte)) (current_len size : Z)
    : M S (option (list byte) * Z) :=
  objm_metadata_add md current_len OBJM_META_SIZE (be_bytes 8 size) 8.

Definition objm_metadata_add_mtime {S} (md : option (list byte)) (current_len mtime : Z)
    : M S (option (list byte) * Z) :=
  objm_metadata_add md current_len OBJM_META_MTIME (be_bytes 8 mtime) 8.

Definition objm_metadata_add_backend {S} (md : option (list byte)) (current_len backend_id : Z)
    : M S (option (list byte) * Z) :=
  objm_metadata_add md current_len OBJM_META_BACKEND [zb backend_id] 1.

(** First loop of [objm_metadata_parse]: count the complete entries. *)
Fixpoint meta_count {S} (fuel : nat) (md : list byte) (metadata_len offset count : Z) : M S Z :=
  match fuel with
  | O => block
  | Datatypes.S f =>
    if offset + 3 <=? metadata_len then
      l ← deref (buf_read md (offset + 1) 2);
      let len := be_val l in
      if metadata_len <? offset + 3 + len then mret count
      else meta_count f md metadata_len (offset + 3 + len) (count + 1)
    else mret count
  end.

(** Second loop: copy the entries out; [None] when an allocation fails. *)
Fixpoint meta_fill (fuel : nat) (md : list byte) (metadata_len offset idx count : Z)
    (arr : list objm_metadata_entry_t) : M endpoint (option (list objm_metadata_entry_t)) :=
  match fuel with
  | O => block
  | S f =>
    if (offset + 3 <=? metadata_len) && (idx <? count) then
      t ← deref (buf_read md offset 1);
      l ← deref (buf_read md (offset + 1) 2);
      ok ← sys_alloc;
      if negb ok then mret None else
      d ← deref (buf_read md (offset + 3) (be_val l));
      meta_fill f md metadata_len (offset + 3 + be_val l) (idx + 1) count
        (arr ++ [MetaEntry (be_val t) (be_val l) d])
    else mret (Some arr)
  end.

(** Entries are at least three bytes long, so the buffer bounds both loops. *)
Definition objm_metadata_parse (metadata : option (list byte)) (metadata_len : Z)
    : M endpoint (Z * list objm_metadata_entry_t) :=
  match metadata with
  | None => mret (-1, [])
  | Some md =>
    count ← meta_count (S (length md)) md metadata_len 0 0;
    ok ← sys_alloc;
    if negb ok then mret (-1, []) else
    r ← meta_fill (S (length md)) md metadata_len 0 0 count [];
    match r with
    | Some arr => mret (0, arr)
    | None => mret (-1, [])
    end
  end.

Fixpoint objm_metadata_get (entries : list objm_metadata_entry_t) (type : Z)
    : option objm_metadata_entry_t :=
  match entries with
  | [] => None
  | e :: es => if me_type e =? type then Some e else objm_metadata_get es type
  end.

(** ** Error responses, close acknowledgement, accessors *)

Definition objm_server_send_error (request_id status : Z) (error_msg : option (list byte)) : M link Z :=
  md ← match error_msg with
       | Some msg =>
         let msg_len := Z.of_nat (length (c_str msg)) in
         m ← onep (objm_metadata_create (msg_len + 10));
         match m with
         | Some _ => objm_metadata_add m 0 255 msg msg_len
         | None => mret (None, 0)
         end
       | None => mret (None, 0)
       end;
  let '(m, len) := md in
  objm_server_send_response (Some (Response request_id status (-1) 0 m len None)).

Definition objm_server_send_close_ack (outstanding : Z) : M link Z :=
  c ← get_cn;
  match c with
  | Some c => if negb (cn_version c =? OBJM_PROTO_V2) then mret (-1)
              else onep (send_all (close_ack_msg outstanding))
  | None => mret (-1)
  end.

Definition objm_server_destroy : M link () := modify (fun s => Link (ep s) None).

Definition objm_get_params : M link (Z * option objm_params_t) :=
  c ← get_cn;
  mret (match c with Some c => (0, Some (cn_params c)) | None => (-1, None) end).

Definition objm_has_capability (capability : Z) : M link Z :=
  c ← get_cn;
  mret (match c with
        | Some c => if Z.land (pa_capabilities (cn_params c)) capability =? 0 then 0 else 1
        | None => 0
        end).

Definition objm_get_fd : M link Z :=
  c ← get_cn; mret (match c with Some c => cn_fd c | None => -1 end).

Definition objm_set_callbacks (callbacks : option objm_callbacks_t) (user_data : Z) : M link () :=
  c ← get_cn;
  match c with
  | None => mret ()
  | Some _ => upd_cn (set_cbs (default (Callbacks 0 0 0 0) callbacks) user_data)
  end.

(** ** Names *)

Definition objm_status_name (status : Z) : string :=
  if status =? OBJM_STATUS_OK then "OK"
  else if status =? OBJM_STATUS_NOT_FOUND then "NOT_FOUND"
  else if status =? OBJM_STATUS_INVALID_REQUEST then "INVALID_REQUEST"
  else if status =? OBJM_STATUS_INVALID_MODE then "INVALID_MODE"
  else if status =? OBJM_STATUS_URI_TOO_LONG then "URI_TOO_LONG"
  else if status =? OBJM_STATUS_UNSUPPORTED_OP then "UNSUPPORTED_OP"
  else if status =? OBJM_STATUS_INTERNAL_ERROR then "INTERNAL_ERROR"
  else if status =? OBJM_STATUS_STORAGE_ERROR then "STORAGE_ERROR"
  else if status =? OBJM_STATUS_OUT_OF_MEMORY then "OUT_OF_MEMORY"
  else if status =? OBJM_STATUS_TIMEOUT then "TIMEOUT"
  else if status =? OBJM_STATUS_UNAVAILABLE then "UNAVAILABLE"
  else if status =? OBJM_STATUS_PROTOCOL_ERROR then "PROTOCOL_ERROR"
  else if status =? OBJM_STATUS_VERSION_MISMATCH then "VERSION_MISMATCH"
  else if status =? OBJM_STATUS_CAPABILITY_ERROR then "CAPABILITY_ERROR"
  else "UNKNOWN".

Definition objm_mode_name (mode : byte) : string :=
  if decide (mode = OBJM_MODE_FDPASS) then "FD_PASS"
  else if decide (mode = OBJM_MODE_COPY) then "COPY"
  else if decide (mode = OBJM_MODE_SPLICE) then "SPLICE"
  else "UNKNOWN".

(** One [snprintf(buffer + written, size - written, "%s<name>", ...)] of
    [objm_capability_names]: the remaining size is a [size_t], the text is cut
    to it, and the full length is returned. *)
Definition cap_piece {S} (bit : Z) (name : list byte) (capabilities size : Z)
    (st : list byte * Z * bool) : M S (list byte * Z * bool) :=
  let '(buffer, written, first) := st in
  if Z.land capabilities bit =? 0 then mret st else
  let text := (if first : bool then [] else bs "|") ++ name in
  let avail := u64 (size - written) in
  buffer ← (if avail =? 0 then mret buffer
            else deref (buf_write buffer written (snprintf_text avail text ++ [x00])));
  mret (buffer, written + Z.of_nat (length text), false).

Definition objm_capability_names {S} (capabilities : Z) (buffer : list byte) (size : Z)
    : M S (list byte * Z) :=
  st ← cap_piece OBJM_CAP_OOO_REPLIES (bs "OOO_REPLIES") capabilities size (buffer, 0, true);
  st ← cap_piece OBJM_CAP_PIPELINING (bs "PIPELINING") capabilities size st;
  st ← cap_piece OBJM_CAP_COMPRESSION (bs "COMPRESSION") capabilities size st;
  st ← cap_piece OBJM_CAP_MULTIPLEXING (bs "MULTIPLEXING") capabilities size st;
  let '(buffer, written, _) := st in
  mret (buffer, written).
