(* ===== verification/ProtocolProofs.v ===== *)
(** * ProtocolProofs: what the wire protocol guarantees

    Transfers are complete whatever the kernel's schedule; requests and
    responses survive the round trip through the wire in both protocol
    versions, descriptors included; the handshake leaves both sides with the
    same parameters; responses that arrive out of order are kept for the caller
    that waits for them; metadata buffers parse back. *)

From S2P Require Import Prelude Socket Protocol.

(** ** Transfers *)

Lemma send_all_loop_spec fuel d s :
  (length (wr_sched s) < fuel)%nat ->
  exists r n w,
    send_all_loop fuel d s = Ret r (set_tx (tx s ++ (plain <$> take n d)) w s) /\
    w `suffix_of` wr_sched s /\
    (r = 0 /\ (length d <= n)%nat \/ r = -1 /\ IoFail ∈ wr_sched s).
Proof.
  revert d s. induction fuel as [|f IH]; intros d s Hf; [lia|].
  destruct d as [|b d].
  { exists 0, 0%nat, (wr_sched s). simpl. rewrite app_nil_r. destruct s; simpl.
    split; [done|]. split; [done|]. left. split; [done|lia]. }
  cbn [send_all_loop]. unfold mbind, M_bind, sys_write.
  destruct (wr_sched s) as [|[k| |] w] eqn:Ew.
  - simpl. rewrite drop_ge by done.
    exists 0, (S (length d)), []. destruct f; simpl; rewrite firstn_all;
      (split; [done|]; split; [done|left; split; [done|lia]]).
  - set (n := Nat.min k (length (b :: d))).
    destruct (IH (drop n (b :: d)) (set_tx (tx s ++ (plain <$> take n (b :: d))) w s))
      as (r & m & w' & Hr & Hw & Hc); [simpl in *; lia|].
    exists r, (n + m)%nat, w'. rewrite Hr. simpl in Hw, Hc |- *. split.
    + unfold set_tx; simpl. do 2 f_equal. rewrite <- app_assoc. f_equal.
      rewrite <- fmap_app. f_equal. apply take_take_drop.
    + split; [by apply suffix_cons_r|]. destruct Hc as [[-> Hc]|[-> Hc]].
      * left. split; [done|]. rewrite length_drop in Hc. simpl in *. lia.
      * right. split; [done|]. by right.
  - destruct (IH (b :: d) (set_tx (tx s) w s)) as (r & m & w' & Hr & Hw & Hc); [simpl in *; lia|].
    exists r, m, w'. rewrite Hr. simpl in *. split; [done|]. split; [by apply suffix_cons_r|].
    destruct Hc as [Hc|[-> Hc]]; [by left|]. right. split; [done|]. by right.
  - exists (-1), 0%nat, w. simpl. rewrite app_nil_r. split; [done|].
    split; [by apply suffix_cons_r|]. right. split; [done|]. by left.
Qed.

Lemma send_all_total d s :
  exists r n w,
    send_all d s = Ret r (set_tx (tx s ++ (plain <$> take n d)) w s) /\
    w `suffix_of` wr_sched s /\
    (r = 0 /\ (length d <= n)%nat \/ r = -1 /\ IoFail ∈ wr_sched s).
Proof. apply send_all_loop_spec. lia. Qed.

Lemma send_all_ok d s :
  no_fail (wr_sched s) ->
  exists w, send_all d s = Ret 0 (set_tx (tx s ++ (plain <$> d)) w s) /\ w `suffix_of` wr_sched s.
Proof.
  intros Hn. destruct (send_all_total d s) as (r & n & w & Hr & Hw & [[-> Hl]|[_ Hc]]); [|done].
  exists w. split; [|done]. by rewrite Hr, take_ge.
Qed.

(** The three ways a [recv_all] can end: the whole buffer; an error, which only a
    failing call or a closed peer causes; or waiting for a peer that is still
    connected and has not sent enough. *)
Inductive recv_result (s : endpoint) (acc : list byte) (n : nat)
    : outcome endpoint (option (list byte)) -> Prop :=
| rr_full w :
    (n <= length (rx s))%nat -> w `suffix_of` rd_sched s ->
    recv_result s acc n (Ret (Some (acc ++ (c_byte <$> take n (rx s)))) (set_rx (drop n (rx s)) w s))
| rr_fail k w :
    w `suffix_of` rd_sched s ->
    IoFail ∈ rd_sched s \/ peer_closed s = true /\ (length (rx s) < n)%nat ->
    recv_result s acc n (Ret None (set_rx (drop k (rx s)) w s))
| rr_block :
    peer_closed s = false -> (length (rx s) < n)%nat -> recv_result s acc n Blocked.

Lemma recv_result_step s acc n m w o :
  (m <= n)%nat -> w `suffix_of` rd_sched s ->
  recv_result (set_rx (drop m (rx s)) w s) (acc ++ (c_byte <$> take m (rx s)))
    (n - length (take m (rx s))) o ->
  recv_result s acc n o.
Proof.
  intros Hm Hw. inversion 1 as [w' Hl Hw'|k w' Hw' Hc|Hp Hl]; subst; simpl in *;
    rewrite ?length_take, ?length_drop in *.
  - replace (set_rx _ w' _) with (set_rx (drop n (rx s)) w' s).
    2:{ unfold set_rx; simpl. f_equal. rewrite drop_drop. f_equal. lia. }
    replace (_ ++ _) with (acc ++ (c_byte <$> take n (rx s))).
    2:{ rewrite <- app_assoc, <- fmap_app, take_take_drop. do 3 f_equal. lia. }
    apply rr_full; [lia|by etrans].
  - unfold set_rx at 1. simpl. rewrite drop_drop. apply (rr_fail s acc n (m + k)); [by etrans|].
    destruct Hc as [Hc|[Hc Hl]]; [left; by eapply elem_of_suffix|right; split; [done|lia]].
  - apply rr_block; [done|lia].
Qed.

Lemma recv_all_loop_0 fuel acc s : recv_result s acc 0 (recv_all_loop fuel acc 0 s).
Proof.
  assert (recv_all_loop fuel acc 0 s =
    Ret (Some (acc ++ (c_byte <$> take 0 (rx s)))) (set_rx (drop 0 (rx s)) (rd_sched s) s)) as ->.
  { destruct fuel, s; simpl; by rewrite app_nil_r, drop_0. }
  apply rr_full; [lia|done].
Qed.

Lemma recv_all_loop_spec fuel acc n s :
  (length (rd_sched s) + (if decide (rx s = []) then 0 else 1) < fuel)%nat ->
  recv_result s acc n (recv_all_loop fuel acc n s).
Proof.
  revert acc n s. induction fuel as [|f IH]; intros acc n s Hf; [lia|].
  destruct n as [|n].
  { apply recv_all_loop_0. }
  cbn [recv_all_loop]. unfold mbind, M_bind, sys_read.
  assert (Hread : forall m w, (0 < m <= S n)%nat -> w `suffix_of` rd_sched s ->
    (length w < length (rd_sched s) \/ m = S n)%nat ->
    recv_result s acc (S n)
      match (match rx s with
             | [] => if peer_closed s then Ret (inl []) (set_rx [] w s) else Blocked
             | _ => Ret (inl (c_byte <$> take m (rx s))) (set_rx (drop m (rx s)) w s)
             end) with
      | Ret a s' => (match a with
             | inl [] => mret None
             | inl ((_ :: _) as got) => recv_all_loop f (acc ++ got) (S n - length got)
             | inr EINTR => recv_all_loop f acc (S n)
             | inr EIO => mret None
             end) s'
      | Blocked => Blocked
      | Fault => Fault
      end).
  { intros m w Hm Hw Hd. pose proof (suffix_length _ _ Hw) as Hlw.
    destruct (rx s) as [|c r] eqn:Er.
    - destruct (peer_closed s) eqn:Ep; [|apply rr_block; [done|rewrite Er; simpl; lia]].
      rewrite <- (drop_nil (A:=cell) 0). rewrite <- Er.
      apply rr_fail; [done|]. right. rewrite Er. simpl. split; [done|lia].
    - destruct m as [|m]; [lia|]. rewrite <- Er in *.
      apply recv_result_step with (S m) w; [lia|done|].
      replace (c_byte <$> take (S m) (rx s)) with (c_byte c :: (c_byte <$> take m r))
        by (by rewrite Er).
      replace (length (c_byte c :: (c_byte <$> take m r))) with (length (take (S m) (rx s)))
        by (rewrite Er; simpl; by rewrite length_fmap).
      destruct (decide (S n - length (take (S m) (rx s)) = 0)%nat) as [E0|E0].
      { rewrite E0. apply recv_all_loop_0. }
      apply IH. simpl. rewrite decide_False in Hf by (rewrite Er; done).
      destruct Hd as [Hd|Hd]; [destruct (decide _); lia|].
      rewrite decide_True; [lia|]. apply drop_ge.
      rewrite length_take in E0. lia. }
  destruct (rd_sched s) as [|[k| |] w] eqn:Es.
  - apply Hread; [lia|done|by right].
  - apply Hread; [lia|by apply suffix_cons_r|left; simpl; lia].
  - apply recv_result_step with 0%nat w; [lia|rewrite Es; by apply suffix_cons_r|].
    simpl. rewrite app_nil_r, drop_0. apply IH. simpl in *. lia.
  - rewrite <- (drop_0 (rx s)). apply rr_fail; rewrite Es; [by apply suffix_cons_r|left; by left].
Qed.

Lemma recv_all_spec len s : recv_result s [] (Z.to_nat len) (recv_all len s).
Proof. apply recv_all_loop_spec. destruct (decide _); lia. Qed.

Lemma recv_all_ok len s :
  no_fail (rd_sched s) -> (Z.to_nat len <= length (rx s))%nat ->
  exists w, recv_all len s = Ret (Some (c_byte <$> take (Z.to_nat len) (rx s)))
              (set_rx (drop (Z.to_nat len) (rx s)) w s) /\ w `suffix_of` rd_sched s.
Proof.
  intros Hn Hl. destruct (recv_all_spec len s) as [w _ Hw|k w _ [Hc|[_ Hc]]|_ Hc]; [eauto|done|lia|lia].
Qed.

Lemma recv_all_prefix (d : list byte) rest s :
  no_fail (rd_sched s) -> rx s = (plain <$> d) ++ rest ->
  exists w, recv_all (Z.of_nat (length d)) s = Ret (Some d) (set_rx rest w s) /\ w `suffix_of` rd_sched s.
Proof.
  intros Hn Hrx. destruct (recv_all_ok (Z.of_nat (length d)) s) as (w & Hr & Hw); [done| |].
  { rewrite Hrx, length_app, length_fmap. lia. }
  exists w. split; [|done]. rewrite Hr, Nat2Z.id, Hrx.
  rewrite take_app_length', drop_app_length' by (by rewrite length_fmap).
  rewrite <- list_fmap_compose. by rewrite (list_fmap_ext _ id), list_fmap_id.
Qed.

(** ** Running library functions on a healthy link *)

(** The kernel answers no call of this end with an error, and memory is there. *)
Definition healthy (l : link) : Prop :=
  no_fail (wr_sched (ep l)) /\ no_fail (rd_sched (ep l)) /\ oom (ep l) = [].

(** No call of this end is interrupted either ([sendmsg]/[recvmsg] are not retried). *)
Definition calm (l : link) : Prop :=
  quiet (wr_sched (ep l)) /\ quiet (rd_sched (ep l)) /\ oom (ep l) = [].

(** This end can receive: no read fails, allocations succeed. *)
Definition readable (l : link) : Prop := no_fail (rd_sched (ep l)) /\ oom (ep l) = [].

Lemma healthy_readable l : healthy l -> readable l.
Proof. by intros (_ & H1 & H2). Qed.

Lemma calm_healthy l : calm l -> healthy l.
Proof. intros (H1 & H2 & H3). split; [|split; [|done]]; by apply quiet_no_fail. Qed.

Lemma no_fail_suffix w l : w `suffix_of` l -> no_fail l -> no_fail w.
Proof. unfold no_fail. intros H Hn Hin. apply Hn. by eapply elem_of_suffix. Qed.

Lemma quiet_suffix w l : w `suffix_of` l -> quiet l -> quiet w.
Proof. unfold quiet. intros [k ->] H. by apply Forall_app in H as [_ H]. Qed.

Lemma onep_Ret {A} (m : M endpoint A) l a e :
  m (ep l) = Ret a e -> onep m l = Ret a (Link e (cn l)).
Proof. unfold onep. by intros ->. Qed.

(** Which of the three reading regimes a link is in is kept by every transfer. *)
Lemma onep_send_all d l :
  no_fail (wr_sched (ep l)) ->
  exists w, onep (send_all d) l = Ret 0 (Link (set_tx (tx (ep l) ++ (plain <$> d)) w (ep l)) (cn l)) /\
    w `suffix_of` wr_sched (ep l).
Proof. intros Hn. destruct (send_all_ok d (ep l) Hn) as (w & Hr & Hw). exists w. by rewrite (onep_Ret _ _ _ _ Hr). Qed.

Lemma onep_recv_all d rest l :
  no_fail (rd_sched (ep l)) -> rx (ep l) = (plain <$> d) ++ rest ->
  exists w, onep (recv_all (Z.of_nat (length d))) l = Ret (Some d) (Link (set_rx rest w (ep l)) (cn l)) /\
    w `suffix_of` rd_sched (ep l).
Proof.
  intros Hn Hrx. destruct (recv_all_prefix d rest (ep l) Hn Hrx) as (w & Hr & Hw).
  exists w. by rewrite (onep_Ret _ _ _ _ Hr).
Qed.

Lemma onep_alloc l : oom (ep l) = [] -> onep sys_alloc l = Ret true l.
Proof. intros H. unfold onep, sys_alloc. rewrite H. by destruct l. Qed.

Lemma get_cn_eq l : get_cn l = Ret (cn l) l.
Proof. done. Qed.

Lemma upd_cn_eq f e c : upd_cn f (Link e (Some c)) = Ret () (Link e (Some (f c))).
Proof. done. Qed.

#[export] Hint Resolve no_fail_suffix quiet_suffix calm_healthy healthy_readable quiet_no_fail : objm.

(** ** Requests *)

(** The bytes a request occupies on the wire. *)
Definition request_wire (v : Z) (r : objm_request_t) : list byte :=
  (if v =? OBJM_PROTO_V1 then request_header_v1 r else request_header_v2 r) ++
  take (Z.to_nat (rq_uri_len r)) (rq_uri r).

(** A request as its sender builds it: a NUL-terminated URI within the limit,
    field values of their C types. *)
Definition wf_request (r : objm_request_t) : Prop :=
  0 <= rq_id r < 2 ^ 32 /\ 0 <= rq_flags r < 2 ^ 8 /\
  0 <= rq_uri_len r <= OBJM_MAX_URI_LEN /\
  exists u, rq_uri r = u ++ [x00] /\ Z.of_nat (length u) = rq_uri_len r.

(** What arrives: a V1 request carries neither id nor flags. *)
Definition as_received (v : Z) (r : objm_request_t) : objm_request_t :=
  if v =? OBJM_PROTO_V1 then Request 0 0 (rq_mode r) (rq_uri r) (rq_uri_len r) else r.

Definition speaks (v : Z) (l : link) : Prop :=
  (v = OBJM_PROTO_V1 \/ v = OBJM_PROTO_V2) /\ exists c, cn l = Some c /\ cn_version c = v.

Lemma buf_read_prefix b u t :
  b = u ++ t -> buf_read b 0 (Z.of_nat (length u)) = Some u.
Proof.
  intros ->. unfold buf_read. rewrite length_app.
  rewrite Z.leb_refl, (proj2 (Z.leb_le 0 (Z.of_nat _))), (proj2 (Z.leb_le (0 + _) _)) by lia.
  simpl. by rewrite drop_0, Nat2Z.id, take_app_length.
Qed.

Lemma send_request_ok v r l :
  speaks v l -> wf_request r -> no_fail (wr_sched (ep l)) ->
  exists w, objm_client_send_request (Some r) l =
      Ret 0 (Link (set_tx (tx (ep l) ++ (plain <$> request_wire v r)) w (ep l)) (cn l)) /\
    w `suffix_of` wr_sched (ep l).
Proof.
  intros (Hv & c & Hc & Hver) (_ & _ & Hlen & u & Hu & Hul) Hn.
  assert (Hrun : forall h err, exists w,
    (r1 ← onep (send_all h);
     r0 ← (if r1 <? 0 then mret r1
           else u ← deref (buf_read (rq_uri r) 0 (rq_uri_len r)); onep (send_all u));
     if r0 <? 0 then set_error err;; mret (-1) else mret 0) l =
    Ret 0 (Link (set_tx (tx (ep l) ++ (plain <$> (h ++ u))) w (ep l)) (cn l)) /\
    w `suffix_of` wr_sched (ep l)).
  { intros h err. destruct (onep_send_all h l Hn) as (w & Hr & Hw).
    run Hr. change (0 <? 0) with false. cbv iota.
    rewrite <- Hul, (buf_read_prefix _ _ _ Hu).
    edestruct (onep_send_all u) as (w2 & Hr2 & Hw2).
    2:{ exists w2. rewrite bind_assoc. unfold deref. rewrite bind_ret_l.
        run Hr2. simpl. rewrite fmap_app, app_assoc.
        split; [done|]. by etrans. }
    simpl. eauto with objm. }
  unfold objm_client_send_request. run (get_cn_eq l). rewrite Hc, Hver.
  assert (Ht : take (Z.to_nat (rq_uri_len r)) (rq_uri r) = u)
    by (by rewrite Hu, <- Hul, Nat2Z.id, take_app_length).
  unfold request_wire. rewrite Ht.
  destruct (v =? OBJM_PROTO_V1); rewrite <- Hc; apply Hrun.
Qed.

Lemma recv_request_uri_ok r0 u rest l :
  readable l -> rq_uri_len r0 = Z.of_nat (length u) -> rq_uri_len r0 <= OBJM_MAX_URI_LEN ->
  rx (ep l) = (plain <$> u) ++ rest ->
  exists w, recv_request_uri r0 l =
     Ret (0, Some (Request (rq_id r0) (rq_flags r0) (rq_mode r0) (u ++ [x00]) (rq_uri_len r0)))
       (Link (set_rx rest w (ep l)) (cn l)) /\ w `suffix_of` rd_sched (ep l).
Proof.
  intros (Hr & Ho) Hlen Hmax Hrx. unfold recv_request_uri.
  rewrite (proj2 (Z.ltb_ge _ _)) by lia.
  run (onep_alloc l Ho). simpl.
  destruct (onep_recv_all u rest l Hr Hrx) as (w & Hw & Hs).
  rewrite Hlen, (bind_Ret _ _ _ _ _ Hw). eauto.
Qed.

Lemma recv_request_ok v r rest l :
  speaks v l -> wf_request r -> readable l -> rx (ep l) = (plain <$> request_wire v r) ++ rest ->
  exists w, objm_server_recv_request true l =
      Ret (0, Some (as_received v r)) (Link (set_rx rest w (ep l)) (cn l)) /\
    w `suffix_of` rd_sched (ep l).
Proof.
  intros (Hv & c & Hc & Hver) (Hid & Hfl & Hlen & u & Hu & Hul) (Hr & Ho) Hrx.
  destruct l as [e c0]. cbn [ep cn] in *. subst c0.
  unfold objm_server_recv_request. run (get_cn_eq _). cbn [cn]. rewrite Hver. simpl.
  run (onep_alloc (Link e _) Ho). simpl.
  unfold request_wire in Hrx. rewrite Hu, <- Hul, Nat2Z.id, take_app_length in Hrx.
  rewrite fmap_app, <- app_assoc in Hrx.
  assert (Hl16 : rq_uri_len r mod 256 ^ Z.of_nat 2 = rq_uri_len r).
  { apply Z.mod_small. unfold OBJM_MAX_URI_LEN in Hlen. lia. }
  unfold as_received. destruct Hv as [->| ->]; simpl in *.
  - destruct (onep_recv_all (request_header_v1 r) ((plain <$> u) ++ rest) (Link e (Some c)) Hr Hrx) as (w & H1 & Hs).
    run H1.
    change (be_at (request_header_v1 r) 1 2) with (be_val (be_bytes 2 (rq_uri_len r))).
    rewrite be_val_bytes, Hl16. change (buf_at (request_header_v1 r) 0) with (rq_mode r).
    edestruct (recv_request_uri_ok (Request 0 0 (rq_mode r) [] (rq_uri_len r)) u rest) as (w2 & H2 & Hs2).
    5:{ rewrite H2, Hu. exists w2. simpl. split; [done|]. by etrans. }
    all: unfold readable; simpl; eauto with objm; lia.
  - destruct (onep_recv_all (request_header_v2 r) ((plain <$> u) ++ rest) (Link e (Some c)) Hr Hrx) as (w & H1 & Hs).
    run H1.
    change (be_at (request_header_v2 r) 7 2) with (be_val (be_bytes 2 (rq_uri_len r))).
    change (be_at (request_header_v2 r) 1 4) with (be_val (be_bytes 4 (rq_id r))).
    rewrite !be_val_bytes, Hl16. change (buf_at (request_header_v2 r) 6) with (rq_mode r).
    change (buf_at (request_header_v2 r) 5) with (zb (rq_flags r)).
    change (bz (buf_at (request_header_v2 r) 0)) with 1. simpl.
    rewrite bz_zb, !Z.mod_small by lia.
    edestruct (recv_request_uri_ok (Request (rq_id r) (rq_flags r) (rq_mode r) [] (rq_uri_len r)) u rest)
      as (w2 & H2 & Hs2).
    5:{ rewrite H2. exists w2. simpl. rewrite <- Hu. destruct r; simpl. split; [done|]. by etrans. }
    all: unfold readable; simpl; eauto with objm; lia.
Qed.

(** Several requests sent in a row, and as many received in a row. *)
Fixpoint send_requests (rs : list objm_request_t) : M link Z :=
  match rs with
  | [] => mret 0
  | r :: rs => x ← objm_client_send_request (Some r); if x <? 0 then mret x else send_requests rs
  end.

Fixpoint recv_requests (n : nat) : M link (list (Z * option objm_request_t)) :=
  match n with
  | O => mret []
  | S n => x ← objm_server_recv_request true; xs ← recv_requests n; mret (x :: xs)
  end.

Lemma send_requests_ok v rs l :
  speaks v l -> Forall wf_request rs -> no_fail (wr_sched (ep l)) ->
  exists w, send_requests rs l =
    Ret 0 (Link (set_tx (tx (ep l) ++ (plain <$> (rs ≫= request_wire v))) w (ep l)) (cn l)) /\
    w `suffix_of` wr_sched (ep l).
Proof.
  intros Hs Hwf. revert l Hs. induction Hwf as [|r rs Hr Hrs IH]; intros l Hs Hn; simpl.
  { exists (wr_sched (ep l)). rewrite app_nil_r. destruct l as [[] ?]; done. }
  destruct (send_request_ok v r l Hs Hr Hn) as (w & H1 & Hw). run H1. simpl.
  edestruct IH as (w2 & H2 & Hw2).
  3:{ rewrite H2. exists w2. simpl. rewrite fmap_app, app_assoc. split; [done|]. by etrans. }
  all: simpl; eauto with objm.
Qed.

Lemma recv_requests_ok v rs rest l :
  speaks v l -> Forall wf_request rs -> healthy l ->
  rx (ep l) = (plain <$> (rs ≫= request_wire v)) ++ rest ->
  exists w, recv_requests (length rs) l =
    Ret ((fun r => (0, Some (as_received v r))) <$> rs) (Link (set_rx rest w (ep l)) (cn l)) /\
    w `suffix_of` rd_sched (ep l).
Proof.
  intros Hs Hwf. revert l Hs. induction Hwf as [|r rs Hr Hrs IH]; intros l Hs Hh Hrx; simpl in *.
  { exists (rd_sched (ep l)). subst. destruct l as [[] ?]; done. }
  rewrite fmap_app, <- app_assoc in Hrx.
  destruct (recv_request_ok v r _ l Hs Hr (healthy_readable _ Hh) Hrx) as (w & H1 & Hw). run H1.
  edestruct IH as (w2 & H2 & Hw2).
  4:{ run H2. exists w2. simpl. split; [done|]. by etrans. }
  all: simpl; eauto. destruct Hh as (? & ? & ?). split; [done|]. simpl. eauto with objm.
Qed.

(** C12: Any sequence of requests a client sends on a V1 or V2 connection is what
    the server at the other end receives, in order and with every field intact
    (a V1 request carries no id and no flags), however the kernel splits or
    interrupts the transfers; the server stops exactly at the end of the last
    request. *)
Theorem request_pipeline_roundtrip v rs lc ls rest :
  speaks v lc -> speaks v ls -> healthy lc -> healthy ls -> Forall wf_request rs ->
  exists lc' sent,
    send_requests rs lc = Ret 0 lc' /\ tx (ep lc') = tx (ep lc) ++ sent /\
    (rx (ep ls) = sent ++ rest ->
     exists ls', recv_requests (length rs) ls =
         Ret ((fun r => (0, Some (as_received v r))) <$> rs) ls' /\
       rx (ep ls') = rest /\ cn ls' = cn ls).
Proof.
  intros Hc Hs Hhc Hhs Hwf.
  destruct (send_requests_ok v rs lc Hc Hwf) as (w & H1 & Hw); [apply Hhc|].
  eexists _, _. split; [exact H1|]. split; [done|]. intros Hrx.
  destruct (recv_requests_ok v rs rest ls Hs Hwf Hhs Hrx) as (w2 & H2 & _).
  rewrite H2. by eexists.
Qed.

(** ** Responses *)

Definition meta_bytes (r : objm_response_t) : list byte :=
  match rs_metadata r with
  | Some md => if 0 <? rs_metadata_len r then take (Z.to_nat (rs_metadata_len r)) md else []
  | None => []
  end.

Definition fd_cells (f : gmap Z Z) (r : objm_response_t) : list cell :=
  if (rs_status r =? OBJM_STATUS_OK) && (0 <=? rs_fd r)
  then match f !! rs_fd r with Some o => [Cell "X"%byte (Some o)] | None => [] end
  else [].

(** What a response puts on the wire, descriptor included. *)
Definition response_wire (v : Z) (f : gmap Z Z) (r : objm_response_t) : list cell :=
  (plain <$> ((if v =? OBJM_PROTO_V1 then response_header_v1 r else response_header_v2 r) ++
              meta_bytes r)) ++ fd_cells f r.

(** Field values of their C types; metadata and its length agree; a descriptor
    to pass is open. *)
Definition wf_response (f : gmap Z Z) (r : objm_response_t) : Prop :=
  0 <= rs_request_id r < 2 ^ 32 /\ 0 <= rs_status r < 2 ^ 8 /\ 0 <= rs_content_len r < 2 ^ 64 /\
  0 <= rs_metadata_len r < 2 ^ 16 /\
  (0 < rs_metadata_len r -> exists md t, rs_metadata r = Some (md ++ t) /\ Z.of_nat (length md) = rs_metadata_len r) /\
  (rs_status r = OBJM_STATUS_OK -> 0 <= rs_fd r -> is_Some (f !! rs_fd r)).

(** The convention both sides rely on: a successful response passes a
    descriptor exactly when its content length is 0. *)
Definition fd_discipline (r : objm_response_t) : Prop :=
  rs_status r = OBJM_STATUS_OK -> (rs_content_len r = 0 <-> 0 <= rs_fd r).

(** *** Concrete ends of a connection, for the examples *)

(** An end that has [r] to read, on a kernel that splits and interrupts. *)
Definition sample_ep (r : list cell) : endpoint :=
  Endpoint r false [] [IoPartial 1] [IoPartial 2; IoPartial 0] {[0 := 10; 5 := 77]} [] x00.
Definition sample_conn (server : bool) (v : Z) : objm_connection :=
  Connection 3 v (Params 0 0 0 0) server 0 None 0 (Callbacks 0 0 0 0) 0 [].
Definition sample_link (server : bool) (v : Z) (r : list cell) : link :=
  Link (sample_ep r) (Some (sample_conn server v)).

Lemma sample_speaks server v r : v = OBJM_PROTO_V1 \/ v = OBJM_PROTO_V2 -> speaks v (sample_link server v r).
Proof. intros H. split; [done|]. by eexists. Qed.
Lemma sample_calm server v r : calm (sample_link server v r).
Proof. split; [|split; [|done]]; repeat constructor; by eexists. Qed.
Lemma sample_healthy server v r : healthy (sample_link server v r).
Proof. apply calm_healthy, sample_calm. Qed.

Definition sample_request : objm_request_t := Request 7 2 OBJM_MODE_FDPASS (bs "/a" ++ [x00]) 2.

Lemma sample_request_wf : wf_request sample_request.
Proof. unfold wf_request, OBJM_MAX_URI_LEN. simpl. repeat (split; [lia|]). by exists (bs "/a"). Qed.

Definition sample_response (id : Z) : objm_response_t := Response id OBJM_STATUS_OK 5 0 None 0 None.

Lemma sample_response_wf id : 0 <= id < 2 ^ 32 -> wf_response {[0 := 10; 5 := 77]} (sample_response id).
Proof.
  intros H. unfold wf_response, sample_response, OBJM_STATUS_OK. simpl. split; [done|]. do 3 (split; [lia|]).
  split; [intros; lia|]. intros _ _. by eexists.
Qed.
Lemma sample_response_fd id : fd_discipline (sample_response id).
Proof. unfold fd_discipline. simpl. split; [intros; lia|done]. Qed.

Lemma request_pipeline_roundtrip_witness :
  exists lc' ls',
    send_requests [sample_request; sample_request] (sample_link false OBJM_PROTO_V2 []) = Ret 0 lc' /\
    recv_requests 2 (sample_link true OBJM_PROTO_V2 (tx (ep lc'))) =
      Ret [(0, Some sample_request); (0, Some sample_request)] ls' /\
    rx (ep ls') = [].
Proof.
  set (w := plain <$> ([sample_request; sample_request] ≫= request_wire OBJM_PROTO_V2)).
  destruct (request_pipeline_roundtrip OBJM_PROTO_V2 [sample_request; sample_request]
    (sample_link false OBJM_PROTO_V2 []) (sample_link true OBJM_PROTO_V2 w) [])
    as (lc' & sent & H1 & Htx & H2).
  - apply sample_speaks. by right.
  - apply sample_speaks. by right.
  - apply sample_healthy.
  - apply sample_healthy.
  - repeat constructor; apply sample_request_wf.
  - assert (Hs : sent = w).
    { assert (Hl : send_requests [sample_request; sample_request] (sample_link false OBJM_PROTO_V2 []) = Ret 0 lc') by exact H1.
      vm_compute in Hl. injection Hl as <-. simpl in Htx. rewrite <- Htx. reflexivity. }
    subst sent. destruct H2 as (ls' & H2 & Hr & _); [by rewrite app_nil_r|].
    exists lc', ls'. split; [done|]. split; [|done]. rewrite Htx. exact H2.
Defined.

(** The response the client hands to its caller. *)
Definition response_seen (v : Z) (r : objm_response_t) (fd : Z) : objm_response_t :=
  Response (if v =? OBJM_PROTO_V1 then 0 else rs_request_id r) (rs_status r) fd (rs_content_len r)
    (if 0 <? rs_metadata_len r then Some (meta_bytes r) else None) (rs_metadata_len r) None.

Lemma send_fd_ok fd o l :
  quiet (wr_sched (ep l)) -> fdt (ep l) !! fd = Some o ->
  exists w, onep (send_fd fd) l =
    Ret 0 (Link (set_tx (tx (ep l) ++ [Cell "X"%byte (Some o)]) w (ep l)) (cn l)) /\
    w `suffix_of` wr_sched (ep l).
Proof.
  intros Hq Ho. unfold onep, send_fd, mbind, M_bind, sys_sendmsg_fd. rewrite Ho.
  destruct (wr_sched (ep l)) as [|e w]; [by exists []|].
  inversion Hq as [|?? [k ->] Hq']; subst. exists w. split; [done|]. by apply suffix_cons_r.
Qed.

Lemma recv_fd_ok b o rest l :
  quiet (rd_sched (ep l)) -> rx (ep l) = Cell b (Some o) :: rest ->
  exists w, onep recv_fd l =
    Ret (lowest_free (fdt (ep l)))
      (Link (set_fdt (<[lowest_free (fdt (ep l)) := o]> (fdt (ep l))) (set_rx rest w (ep l))) (cn l)) /\
    w `suffix_of` rd_sched (ep l).
Proof.
  intros Hq Hrx. unfold onep, recv_fd, mbind, M_bind, sys_recvmsg_fd. rewrite Hrx.
  destruct (rd_sched (ep l)) as [|e w]; [by exists []|].
  inversion Hq as [|?? [k ->] Hq']; subst. exists w. split; [done|]. by apply suffix_cons_r.
Qed.

Lemma buf_read_meta r md t :
  rs_metadata r = Some (md ++ t) -> Z.of_nat (length md) = rs_metadata_len r ->
  buf_read (md ++ t) 0 (rs_metadata_len r) = Some md /\ (0 < rs_metadata_len r -> meta_bytes r = md).
Proof.
  intros H1 H2. split.
  - rewrite <- H2. by eapply buf_read_prefix.
  - intros H. unfold meta_bytes. rewrite H1, (proj2 (Z.ltb_lt _ _)) by lia.
    by rewrite <- H2, Nat2Z.id, take_app_length.
Qed.

(** Sending a response, on a link that no signal interrupts. *)
Lemma send_response_ok v r l :
  speaks v l -> wf_response (fdt (ep l)) r -> quiet (wr_sched (ep l)) ->
  exists w, objm_server_send_response (Some r) l =
    Ret 0 (Link (set_tx (tx (ep l) ++ response_wire v (fdt (ep l)) r) w (ep l)) (cn l)) /\
    w `suffix_of` wr_sched (ep l).
Proof.
  intros (Hv & c & Hc & Hver) (_ & _ & _ & Hml & Hmd & Hfd) Hq.
  destruct l as [e c0]. cbn [ep cn] in *. subst c0.
  unfold objm_server_send_response. run (get_cn_eq _). cbn [cn ep]. rewrite Hver.
  unfold response_wire.
  set (h := if v =? OBJM_PROTO_V1 then response_header_v1 r else response_header_v2 r).
  destruct (onep_send_all h (Link e (Some c))) as (w & H1 & Hw); [simpl; eauto with objm|].
  cbn [ep cn] in *. run H1. simpl. clear H1.
  assert (Hmeta : exists w', (match rs_metadata r with
        | Some md => if 0 <? rs_metadata_len r
                     then d ← deref (buf_read md 0 (rs_metadata_len r)); onep (send_all d) else mret 0
        | None => mret 0 end) (Link (set_tx (tx e ++ (plain <$> h)) w e) (Some c)) =
     Ret 0 (Link (set_tx (tx e ++ (plain <$> (h ++ meta_bytes r))) w' e) (Some c)) /\
     w' `suffix_of` wr_sched e).
  { destruct (0 <? rs_metadata_len r) eqn:El.
    - destruct Hmd as (md & t & Hm1 & Hm2); [lia|].
      destruct (buf_read_meta r md t Hm1 Hm2) as [Hb Hmb]. rewrite Hm1, Hb, Hmb by lia.
      edestruct (onep_send_all md) as (w2 & H2 & Hw2).
      2:{ unfold deref. rewrite bind_ret_l, H2. exists w2. simpl.
          rewrite fmap_app, app_assoc. split; [done|by etrans]. }
      simpl. eauto with objm.
    - exists w. unfold meta_bytes. rewrite El.
      destruct (rs_metadata r); rewrite app_nil_r; done. }
  destruct Hmeta as (w2 & H2 & Hw2). run H2. simpl.
  unfold fd_cells. destruct ((rs_status r =? OBJM_STATUS_OK) && (0 <=? rs_fd r)) eqn:Ef.
  - apply andb_prop in Ef as [Ef1 Ef2]. destruct Hfd as [o Ho]; [lia|lia|].
    edestruct (send_fd_ok (rs_fd r) o) as (w3 & H3 & Hw3).
    3:{ run H3. simpl. rewrite Ho. exists w3. rewrite app_assoc. split; [done|by etrans]. }
    all: simpl; eauto with objm.
  - exists w2. rewrite app_nil_r. done.
Qed.

(** The descriptor the receiving process ends up with, and its table. *)
Definition seen_fd (f : gmap Z Z) (cs : list cell) : Z :=
  match cs with Cell _ (Some _) :: _ => lowest_free f | _ => -1 end.
Definition seen_fdt (f : gmap Z Z) (cs : list cell) : gmap Z Z :=
  match cs with Cell _ (Some o) :: _ => <[lowest_free f := o]> f | _ => f end.

Lemma recv_response_fd_ok r fdc rest l :
  quiet (rd_sched (ep l)) -> rs_fd r = -1 -> rs_error_msg r = None ->
  rx (ep l) = fdc ++ rest ->
  (if (rs_status r =? OBJM_STATUS_OK) && (rs_content_len r =? 0)
   then exists o, fdc = [Cell "X"%byte (Some o)] else fdc = []) ->
  exists w, recv_response_fd r l =
    Ret (0, Some (Response (rs_request_id r) (rs_status r) (seen_fd (fdt (ep l)) fdc)
             (rs_content_len r) (rs_metadata r) (rs_metadata_len r) None))
      (Link (set_fdt (seen_fdt (fdt (ep l)) fdc) (set_rx rest w (ep l))) (cn l)) /\
    w `suffix_of` rd_sched (ep l).
Proof.
  intros Hq Hf He Hrx Hcase. unfold recv_response_fd.
  destruct ((rs_status r =? OBJM_STATUS_OK) && (rs_content_len r =? 0)).
  - destruct Hcase as [o ->].
    destruct (recv_fd_ok "X"%byte o rest l Hq Hrx) as (w & H1 & Hw).
    run H1. simpl. pose proof (lowest_free_nonneg (fdt (ep l))).
    rewrite (proj2 (Z.ltb_ge _ _)) by lia. rewrite He. by exists w.
  - subst fdc. exists (rd_sched (ep l)). split; [|done]. simpl in Hrx |- *. subst rest.
    destruct r, l as [[] ?]; simpl in *. by subst.
Qed.

Lemma recv_response_body_ok r0 mb fdc rest l :
  calm l ->
  rs_fd r0 = -1 -> rs_metadata r0 = None -> rs_error_msg r0 = None ->
  rs_metadata_len r0 = Z.of_nat (length mb) ->
  rx (ep l) = (plain <$> mb) ++ fdc ++ rest ->
  (if (rs_status r0 =? OBJM_STATUS_OK) && (rs_content_len r0 =? 0)
   then exists o, fdc = [Cell "X"%byte (Some o)] else fdc = []) ->
  exists w, recv_response_body r0 l =
    Ret (0, Some (Response (rs_request_id r0) (rs_status r0) (seen_fd (fdt (ep l)) fdc)
             (rs_content_len r0) (if 0 <? rs_metadata_len r0 then Some mb else None)
             (rs_metadata_len r0) None))
      (Link (set_fdt (seen_fdt (fdt (ep l)) fdc) (set_rx rest w (ep l))) (cn l)) /\
    w `suffix_of` rd_sched (ep l).
Proof.
  intros (Hqw & Hqr & Ho) Hfd Hmd Herr Hlen Hrx Hcase.
  unfold recv_response_body. destruct (0 <? rs_metadata_len r0) eqn:El.
  - run (onep_alloc l Ho). simpl.
    destruct (onep_recv_all mb (fdc ++ rest) l) as (w & H1 & Hw); [eauto with objm|done|].
    rewrite Hlen. run H1.
    edestruct (recv_response_fd_ok (Response (rs_request_id r0) (rs_status r0) (rs_fd r0)
      (rs_content_len r0) (Some mb) (Z.of_nat (length mb)) (rs_error_msg r0)) fdc rest)
      as (w2 & H2 & Hw2); [..|rewrite H2; exists w2; split; [done|by etrans]];
      simpl; eauto with objm.
  - assert (mb = []) as -> by (apply length_zero_iff_nil; lia).
    destruct (recv_response_fd_ok r0 fdc rest l) as (w & H1 & Hw); try done.
    rewrite H1, Hmd. by exists w.
Qed.

Lemma fd_cells_case f r :
  wf_response f r -> fd_discipline r ->
  if (rs_status r =? OBJM_STATUS_OK) && (rs_content_len r =? 0)
  then exists o, fd_cells f r = [Cell "X"%byte (Some o)] else fd_cells f r = [].
Proof.
  intros (_ & _ & _ & _ & _ & Hfd) Hd. unfold fd_cells, fd_discipline in *.
  destruct (rs_status r =? OBJM_STATUS_OK) eqn:Es; simpl; [|done].
  apply Z.eqb_eq in Es. specialize (Hd Es). specialize (Hfd Es).
  destruct (rs_content_len r =? 0) eqn:Ec.
  - rewrite (proj2 (Z.leb_le 0 _)) by lia. destruct Hfd as [o Ho]; [lia|]. rewrite Ho. by exists o.
  - by rewrite (proj2 (Z.leb_gt 0 _)) by lia.
Qed.

Lemma length_meta_bytes f r : wf_response f r -> Z.of_nat (length (meta_bytes r)) = rs_metadata_len r.
Proof.
  intros (_ & _ & _ & Hl & Hm & _).
  destruct (decide (0 < rs_metadata_len r)) as [Hp|Hn].
  - destruct (Hm Hp) as (md & t & H1 & H2).
    destruct (buf_read_meta r md t H1 H2) as [_ ->]; lia.
  - unfold meta_bytes. rewrite (proj2 (Z.ltb_ge 0 _)) by lia.
    destruct (rs_metadata r); simpl; lia.
Qed.

Lemma recv_response_ok v f r rest l :
  speaks v l -> calm l -> wf_response f r -> fd_discipline r ->
  rx (ep l) = response_wire v f r ++ rest ->
  exists w, objm_client_recv_response true l =
    Ret (0, Some (response_seen v r (seen_fd (fdt (ep l)) (fd_cells f r))))
      (Link (set_fdt (seen_fdt (fdt (ep l)) (fd_cells f r)) (set_rx rest w (ep l))) (cn l)) /\
    w `suffix_of` rd_sched (ep l).
Proof.
  intros (Hv & c & Hc & Hver) (Hqw & Hqr & Ho) Hwf Hd Hrx.
  pose proof (fd_cells_case f r Hwf Hd) as Hcase. pose proof (length_meta_bytes f r Hwf) as Hlm.
  destruct Hwf as (Hid & Hst & Hcl & Hml & _ & _).
  destruct l as [e c0]. cbn [ep cn] in *. subst c0.
  unfold objm_client_recv_response. run (get_cn_eq _). cbn [cn ep negb].
  run (onep_alloc (Link e _) Ho). rewrite Hver. cbn [negb].
  unfold response_wire in Hrx. rewrite fmap_app, <- !app_assoc in Hrx.
  assert (Hm16 : rs_metadata_len r mod 256 ^ Z.of_nat 2 = rs_metadata_len r) by (apply Z.mod_small; lia).
  unfold response_seen. destruct Hv as [->| ->]; simpl in Hrx |- *.
  - destruct (onep_recv_all (response_header_v1 r) _ (Link e (Some c)) (quiet_no_fail _ Hqr) Hrx) as (w & H1 & Hw).
    run H1. cbn [cn ep] in *.
    change (buf_at (response_header_v1 r) 0) with (zb (rs_status r)).
    change (be_at (response_header_v1 r) 1 8) with (be_val (be_bytes 8 (rs_content_len r))).
    change (be_at (response_header_v1 r) 9 2) with (be_val (be_bytes 2 (rs_metadata_len r))).
    rewrite !be_val_bytes, Hm16, bz_zb, !Z.mod_small by lia.
    edestruct (recv_response_body_ok (Response 0 (rs_status r) (-1) (rs_content_len r) None (rs_metadata_len r) None)
      (meta_bytes r) (fd_cells f r) rest) as (w2 & H2 & Hw2).
    8:{ rewrite H2. exists w2. split; [done|]. by etrans. }
    all: unfold calm; simpl; eauto with objm.
  - destruct (onep_recv_all (response_header_v2 r) _ (Link e (Some c)) (quiet_no_fail _ Hqr) Hrx) as (w & H1 & Hw).
    run H1. cbn [cn ep] in *.
    change (bz (buf_at (response_header_v2 r) 0)) with 2. cbn [Z.eqb negb OBJM_MSG_RESPONSE Pos.eqb].
    change (buf_at (response_header_v2 r) 5) with (zb (rs_status r)).
    change (be_at (response_header_v2 r) 1 4) with (be_val (be_bytes 4 (rs_request_id r))).
    change (be_at (response_header_v2 r) 6 8) with (be_val (be_bytes 8 (rs_content_len r))).
    change (be_at (response_header_v2 r) 14 2) with (be_val (be_bytes 2 (rs_metadata_len r))).
    rewrite !be_val_bytes, Hm16, bz_zb, !Z.mod_small by lia.
    edestruct (recv_response_body_ok
      (Response (rs_request_id r) (rs_status r) (-1) (rs_content_len r) None (rs_metadata_len r) None)
      (meta_bytes r) (fd_cells f r) rest) as (w2 & H2 & Hw2).
    8:{ rewrite H2. exists w2. split; [done|]. by etrans. }
    all: unfold calm; simpl; eauto with objm.
Qed.

(** [x] is the response [r] as the client sees it: all fields as sent, and when
    [r] passes a descriptor ([cs] are its descriptor cells) the descriptor of [x]
    is open in the client's table [f] on the same open file. *)
Definition delivers (v : Z) (f : gmap Z Z) (cs : list cell) (r x : objm_response_t) : Prop :=
  x = response_seen v r (rs_fd x) /\
  match cs with
  | Cell _ (Some o) :: _ => f !! rs_fd x = Some o
  | _ => rs_fd x = -1
  end.

Lemma delivers_mono v f f' cs r x : f ⊆ f' -> delivers v f cs r x -> delivers v f' cs r x.
Proof.
  intros Hf [H1 H2]. split; [done|]. destruct cs as [|[b [o|]] cs]; [done| |done].
  by eapply lookup_weaken.
Qed.

Lemma seen_fdt_grows f cs : f ⊆ seen_fdt f cs.
Proof. destruct cs as [|[b [o|]] cs]; [done| |done]. apply insert_subseteq, lowest_free_None. Qed.

Lemma delivers_seen v f cs r : delivers v (seen_fdt f cs) cs r (response_seen v r (seen_fd f cs)).
Proof.
  split; [done|]. destruct cs as [|[b [o|]] cs]; simpl; [done| |done]. apply lookup_insert_eq.
Qed.

(** C16: A response survives the trip from the server to the client on V1 and V2
    connections: every field arrives as sent, the metadata bytes included, a
    passed descriptor becomes a fresh descriptor of the client on the same open
    file, no other descriptor of the client changes, and the client stops
    exactly at the end of the response. *)
Theorem response_roundtrip v r ls lc rest :
  speaks v ls -> speaks v lc -> calm ls -> calm lc ->
  wf_response (fdt (ep ls)) r -> fd_discipline r ->
  exists ls' sent,
    objm_server_send_response (Some r) ls = Ret 0 ls' /\ tx (ep ls') = tx (ep ls) ++ sent /\
    (rx (ep lc) = sent ++ rest ->
     exists lc' x, objm_client_recv_response true lc = Ret (0, Some x) lc' /\
       rx (ep lc') = rest /\
       delivers v (fdt (ep lc')) (fd_cells (fdt (ep ls)) r) r x /\
       (rs_fd x = -1 \/ fdt (ep lc) !! rs_fd x = None) /\ fdt (ep lc) ⊆ fdt (ep lc')).
Proof.
  intros Hs Hc Hqs Hqc Hwf Hd.
  destruct (send_response_ok v r ls Hs Hwf) as (w & H1 & _); [apply Hqs|].
  eexists _, _. split; [exact H1|]. split; [done|]. intros Hrx.
  destruct (recv_response_ok v _ r rest lc Hc Hqc Hwf Hd Hrx) as (w2 & H2 & _).
  eexists _, _. split; [exact H2|]. simpl. split; [done|]. split; [apply delivers_seen|].
  split; [|apply seen_fdt_grows].
  destruct (fd_cells (fdt (ep ls)) r) as [|[b [o|]] cs]; simpl; [by left| |by left].
  right. apply lowest_free_None.
Qed.

Lemma response_roundtrip_witness :
  exists ls' lc' x,
    objm_server_send_response (Some (sample_response 3)) (sample_link true OBJM_PROTO_V2 []) = Ret 0 ls' /\
    objm_client_recv_response true (sample_link false OBJM_PROTO_V2 (tx (ep ls'))) = Ret (0, Some x) lc' /\
    rs_request_id x = 3 /\ fdt (ep lc') !! rs_fd x = Some 77.
Proof.
  set (w := response_wire OBJM_PROTO_V2 {[0 := 10; 5 := 77]} (sample_response 3)).
  destruct (response_roundtrip OBJM_PROTO_V2 (sample_response 3) (sample_link true OBJM_PROTO_V2 [])
    (sample_link false OBJM_PROTO_V2 w) []) as (ls' & sent & H1 & Htx & H2).
  - apply sample_speaks. by right.
  - apply sample_speaks. by right.
  - apply sample_calm.
  - apply sample_calm.
  - apply sample_response_wf. lia.
  - apply sample_response_fd.
  - assert (Hs : sent = w).
    { pose proof H1 as Hl. vm_compute in Hl. injection Hl as <-. simpl in Htx. rewrite <- Htx. reflexivity. }
    subst sent. destruct H2 as (lc' & x & H2 & _ & [Hx1 Hx2] & _); [by rewrite app_nil_r|].
    exists ls', lc', x. split; [done|]. split; [rewrite Htx; exact H2|]. split; [by rewrite Hx1|]. exact Hx2.
Defined.

(** ** Out-of-order delivery *)

Definition response_ok (fs : gmap Z Z) (cap : Z) (r : objm_response_t) : Prop :=
  wf_response fs r /\ fd_discipline r /\ rs_request_id r < cap.

(** The client's side while responses are outstanding: [stored] ones wait in the
    pending array, [flight] ones are still in the socket, in that order. *)
Record ooo_inv (fs : gmap Z Z) (stored flight : list objm_response_t) (rest : list cell) (l : link) : Prop := {
  oi_calm : calm l;
  oi_conn : exists c p, cn l = Some c /\ cn_version c = OBJM_PROTO_V2 /\
    cn_pending_responses c = Some p /\ cn_pending_capacity c = Z.of_nat (length p) /\
    Forall (response_ok fs (cn_pending_capacity c)) (stored ++ flight) /\
    (forall r, r ∈ stored -> exists x, p !! Z.to_nat (rs_request_id r) = Some (Some x) /\
       delivers OBJM_PROTO_V2 (fdt (ep l)) (fd_cells fs r) r x) /\
    (forall r, r ∈ flight -> p !! Z.to_nat (rs_request_id r) = Some None);
  oi_rx : rx (ep l) = (flight ≫= response_wire OBJM_PROTO_V2 fs) ++ rest;
  oi_ids : NoDup (rs_request_id <$> (stored ++ flight))
}.

(** One pass of the loop on the response at the head of the stream. *)
Lemma recv_head_ok fs r flight stored rest l :
  ooo_inv fs stored (r :: flight) rest l ->
  exists x l1, objm_client_recv_response true l = Ret (0, Some x) l1 /\
    rs_request_id x = rs_request_id r /\ cn l1 = cn l /\ calm l1 /\
    delivers OBJM_PROTO_V2 (fdt (ep l1)) (fd_cells fs r) r x /\
    fdt (ep l) ⊆ fdt (ep l1) /\
    rx (ep l1) = (flight ≫= response_wire OBJM_PROTO_V2 fs) ++ rest.
Proof.
  intros [Hcalm (c & p & Hc & Hv & Hp & Hcap & Hok & _ & _) Hrx _].
  assert (response_ok fs (cn_pending_capacity c) r) as (Hwf & Hd & _).
  { apply Forall_app in Hok as [_ Hok]. by inversion Hok. }
  assert (Hsp : speaks OBJM_PROTO_V2 l) by (split; [by right|eauto]).
  simpl in Hrx. rewrite <- app_assoc in Hrx.
  destruct (recv_response_ok OBJM_PROTO_V2 fs r _ l Hsp Hcalm Hwf Hd Hrx) as (w & H1 & Hw).
  eexists _, _. split; [exact H1|]. split; [done|]. split; [done|].
  destruct Hcalm as (? & ? & ?).
  split; [split; [done|split; [simpl; by eapply quiet_suffix|done]]|].
  split; [apply delivers_seen|]. split; [apply seen_fdt_grows|done].
Qed.

Lemma id_nonneg fs cap r : response_ok fs cap r -> 0 <= rs_request_id r < cap.
Proof. intros ((H & _) & _ & H2). lia. Qed.

Lemma ids_ne (r r' : objm_response_t) l1 l2 :
  NoDup (rs_request_id <$> (l1 ++ r :: l2)) -> r' ∈ l1 ++ l2 -> rs_request_id r <> rs_request_id r'.
Proof.
  rewrite fmap_app, fmap_cons. intros Hnd Hin.
  rewrite <- Permutation_middle in Hnd. apply list.NoDup_cons in Hnd as [Hn _].
  intros He. apply Hn. rewrite He, <- fmap_app. by apply list_elem_of_fmap_2.
Qed.

(** Storing the response at the head of the stream for a later caller. *)
Lemma ooo_store fs stored r flight rest l l1 c p x :
  ooo_inv fs stored (r :: flight) rest l -> cn l = Some c -> cn_pending_responses c = Some p ->
  cn l1 = cn l -> calm l1 -> rs_request_id x = rs_request_id r ->
  delivers OBJM_PROTO_V2 (fdt (ep l1)) (fd_cells fs r) r x -> fdt (ep l) ⊆ fdt (ep l1) ->
  rx (ep l1) = (flight ≫= response_wire OBJM_PROTO_V2 fs) ++ rest ->
  ooo_inv fs (stored ++ [r]) flight rest
    (Link (ep l1) (Some (set_pending (cn_pending_capacity c)
       (Some (<[Z.to_nat (rs_request_id x) := Some x]> p)) c))).
Proof.
  intros [Hcalm (c' & p' & Hc & Hv & Hp & Hcap & Hok & Hst & Hfl) Hrx Hnd] Hc' Hp' Hl1 Hcalm1 Hid Hdel Hsub Hrx1.
  assert (c' = c) as -> by congruence. assert (p' = p) as -> by congruence.
  assert (Happ : (stored ++ [r]) ++ flight = stored ++ r :: flight) by (by rewrite <- app_assoc).
  assert (Hin : forall r', r' ∈ stored ++ r :: flight -> 0 <= rs_request_id r' < cn_pending_capacity c).
  { intros r' Hr'. eapply list.Forall_forall in Hok; [|done]. by eapply id_nonneg. }
  assert (Hr : 0 <= rs_request_id r < cn_pending_capacity c) by (apply Hin; set_solver).
  assert (Hother : forall r', r' ∈ stored ++ flight ->
    <[Z.to_nat (rs_request_id x) := Some x]> p !! Z.to_nat (rs_request_id r') = p !! Z.to_nat (rs_request_id r')).
  { intros r' Hr'. apply list_lookup_insert_ne. rewrite Hid.
    pose proof (ids_ne r r' stored flight Hnd Hr'). assert (r' ∈ stored ++ r :: flight) by set_solver.
    specialize (Hin r' ltac:(done)). lia. }
  split; [done| |done|by rewrite Happ]. simpl.
  eexists _, _. split; [done|]. split; [done|]. split; [done|].
  split; [by rewrite length_insert|]. split; [by rewrite Happ|]. split.
  - intros r' [Hr'| ->%list_elem_of_singleton]%elem_of_app.
    + destruct (Hst r' Hr') as (y & Hy & Hd). exists y. rewrite Hother by set_solver.
      split; [done|]. by eapply delivers_mono.
    + exists x. rewrite Hid. split; [|done]. apply list_lookup_insert_eq. lia.
  - intros r' Hr'. rewrite Hother by set_solver. apply Hfl. set_solver.
Qed.

(** The loop delivers the response it waits for and keeps the earlier ones. *)
Lemma recv_for_loop_ok fs r f1 f2 fuel stored rest l :
  ooo_inv fs stored (f1 ++ r :: f2) rest l -> (length f1 < fuel)%nat ->
  exists x l', recv_for_loop fuel (rs_request_id r) l = Ret (0, Some x) l' /\
    delivers OBJM_PROTO_V2 (fdt (ep l')) (fd_cells fs r) r x /\
    fdt (ep l) ⊆ fdt (ep l') /\
    ooo_inv fs (stored ++ f1) f2 rest l'.
Proof.
  revert fuel stored l. induction f1 as [|r1 f1 IH]; intros fuel stored l Hinv Hf;
    (destruct fuel as [|fuel]; [simpl in Hf; lia|]); simpl in Hinv.
  - destruct (recv_head_ok _ _ _ _ _ _ Hinv) as (x & l1 & H1 & Hid & Hcn & Hcalm & Hdel & Hsub & Hrx).
    exists x, l1. cbn [recv_for_loop]. run H1. cbn [Z.ltb Z.compare].
    rewrite deref_bind, Hid, Z.eqb_refl.
    split; [done|]. split; [done|]. split; [done|]. rewrite app_nil_r.
    destruct Hinv as [_ (c & p & Hc & Hv & Hp & Hcap & Hok & Hst & Hfl) _ Hnd].
    split; [done| |done|].
    + exists c, p. rewrite Hcn. split; [done|]. split; [done|]. split; [done|]. split; [done|].
      split; [by eapply Forall_app_cons_drop|]. split.
      * intros r' Hr'. destruct (Hst r' Hr') as (y & Hy & Hd). exists y. split; [done|]. by eapply delivers_mono.
      * intros r' Hr'. apply Hfl. by right.
    + revert Hnd. rewrite !fmap_app, fmap_cons, <- Permutation_middle. by intros [_ ?]%list.NoDup_cons.
  - destruct (recv_head_ok _ _ _ _ _ _ Hinv) as (x & l1 & H1 & Hid & Hcn & Hcalm & Hdel & Hsub & Hrx).
    pose proof Hinv as [_ (c & p & Hc & Hv & Hp & Hcap & Hok & Hst & Hfl) _ Hnd].
    assert (Hne : rs_request_id r1 <> rs_request_id r) by (eapply ids_ne; [done|set_solver]).
    assert (Hr1 : 0 <= rs_request_id r1 < cn_pending_capacity c).
    { eapply list.Forall_forall in Hok; [by eapply id_nonneg|set_solver]. }
    pose proof (ooo_store _ _ _ _ _ _ _ _ _ _ Hinv Hc Hp Hcn Hcalm Hid Hdel Hsub Hrx) as Hinv'.
    destruct (IH fuel _ _ Hinv') as (y & l' & H2 & Hd2 & Hs2 & Hi2); [simpl in Hf; lia|].
    exists y, l'. cbn [recv_for_loop]. run H1. cbn [Z.ltb Z.compare]. rewrite deref_bind, Hid.
    rewrite (proj2 (Z.eqb_neq _ _)) by done. rewrite bind_assoc. run (get_cn_eq _).
    rewrite Hcn, Hc, deref_bind, (proj2 (Z.ltb_lt _ _)) by lia.
    rewrite Hp, bind_assoc, deref_bind, bind_assoc, (Hfl r1), deref_bind by (by left).
    rewrite <- Hid.
    assert (Hu : upd_cn (set_pending (cn_pending_capacity c) (Some (<[Z.to_nat (rs_request_id x):=Some x]> p))) l1 =
      Ret () (Link (ep l1) (Some (set_pending (cn_pending_capacity c)
        (Some (<[Z.to_nat (rs_request_id x):=Some x]> p)) c)))).
    { unfold upd_cn. by rewrite Hcn, Hc. }
    run Hu. rewrite H2. split; [done|]. split; [done|]. split; [by etrans|].
    rewrite <- app_assoc in Hi2. done.
Qed.

(** Taking a stored response out of the pending array. *)
Lemma ooo_take fs s1 r s2 flight rest l c p x :
  ooo_inv fs (s1 ++ r :: s2) flight rest l -> cn l = Some c -> cn_pending_responses c = Some p ->
  p !! Z.to_nat (rs_request_id r) = Some (Some x) ->
  ooo_inv fs (s1 ++ s2) flight rest
    (Link (ep l) (Some (set_pending (cn_pending_capacity c)
       (Some (<[Z.to_nat (rs_request_id r) := None]> p)) c))).
Proof.
  intros [Hcalm (c' & p' & Hc & Hv & Hp & Hcap & Hok & Hst & Hfl) Hrx Hnd] Hc' Hp' Hx.
  assert (c' = c) as -> by congruence. assert (p' = p) as -> by congruence.
  rewrite <- app_assoc in Hok, Hnd. simpl in Hok, Hnd.
  assert (Hin : forall r', r' ∈ s1 ++ r :: s2 ++ flight -> 0 <= rs_request_id r' < cn_pending_capacity c).
  { intros r' Hr'. eapply list.Forall_forall in Hok; [|done]. by eapply id_nonneg. }
  assert (Hother : forall r', r' ∈ s1 ++ s2 ++ flight ->
    <[Z.to_nat (rs_request_id r) := None]> p !! Z.to_nat (rs_request_id r') = p !! Z.to_nat (rs_request_id r')).
  { intros r' Hr'. apply list_lookup_insert_ne.
    pose proof (ids_ne r r' s1 (s2 ++ flight) Hnd Hr').
    assert (Ha : r ∈ s1 ++ r :: s2 ++ flight) by set_solver.
    assert (Hb : r' ∈ s1 ++ r :: s2 ++ flight) by set_solver.
    apply Hin in Ha. apply Hin in Hb. lia. }
  split; [done| |done|].
  - eexists _, _. split; [done|]. split; [done|]. split; [done|].
    split; [by rewrite length_insert|].
    split; [rewrite <- app_assoc; by eapply Forall_app_cons_drop|]. split.
    + intros r' Hr'. rewrite Hother by set_solver. apply Hst. set_solver.
    + intros r' Hr'. rewrite Hother by set_solver. by apply Hfl.
  - revert Hnd. rewrite <- app_assoc, !fmap_app, fmap_cons, <- Permutation_middle.
    rewrite fmap_app. by intros [_ ?]%list.NoDup_cons.
Qed.

Lemma length_response_wire v fs r : (1 <= length (response_wire v fs r))%nat.
Proof.
  unfold response_wire. rewrite length_app, length_fmap, length_app.
  destruct (v =? OBJM_PROTO_V1); simpl; lia.
Qed.

Lemma length_flight fs (fl : list objm_response_t) :
  (length fl <= length (fl ≫= response_wire OBJM_PROTO_V2 fs))%nat.
Proof.
  induction fl as [|r fl IH]; [simpl; lia|]. rewrite bind_cons, length_app. cbn [length].
  pose proof (length_response_wire OBJM_PROTO_V2 fs r). lia.
Qed.

Lemma recv_response_for_ok fs r stored flight rest l :
  ooo_inv fs stored flight rest l -> r ∈ stored ++ flight ->
  exists x l' stored' flight',
    objm_client_recv_response_for (rs_request_id r) true l = Ret (0, Some x) l' /\
    delivers OBJM_PROTO_V2 (fdt (ep l')) (fd_cells fs r) r x /\
    fdt (ep l) ⊆ fdt (ep l') /\
    ooo_inv fs stored' flight' rest l' /\ r :: stored' ++ flight' ≡ₚ stored ++ flight.
Proof.
  intros Hinv Hr. pose proof Hinv as [_ (c & p & Hc & Hv & Hp & Hcap & Hok & Hst & Hfl) Hrx Hnd].
  assert (Hid : 0 <= rs_request_id r < cn_pending_capacity c).
  { eapply list.Forall_forall in Hok; [|done]. by eapply id_nonneg. }
  unfold objm_client_recv_response_for. run (get_cn_eq _). rewrite Hc. simpl. rewrite Hv. simpl.
  rewrite (proj2 (Z.ltb_lt _ _)) by lia. rewrite Hp, bind_assoc, deref_bind, bind_assoc.
  apply elem_of_app in Hr as [Hr|Hr].
  - destruct (Hst r Hr) as (x & Hx & Hd). rewrite Hx, deref_bind, bind_assoc.
    apply list_elem_of_split in Hr as (s1 & s2 & ->).
    pose proof (ooo_take _ _ _ _ _ _ _ _ _ _ Hinv Hc Hp Hx) as Hinv'.
    eexists x, _, (s1 ++ s2), flight.
    assert (Hu : upd_cn (set_pending (cn_pending_capacity c) (Some (<[Z.to_nat (rs_request_id r):=None]> p))) l =
      Ret () (Link (ep l) (Some (set_pending (cn_pending_capacity c)
        (Some (<[Z.to_nat (rs_request_id r):=None]> p)) c)))) by (unfold upd_cn; by rewrite Hc).
    run Hu. rewrite bind_ret_l. split; [done|]. split; [done|]. split; [done|]. split; [done|].
    rewrite <- !app_assoc. apply Permutation_middle.
  - rewrite (Hfl r Hr), deref_bind, bind_ret_l.
    apply list_elem_of_split in Hr as (f1 & f2 & ->). unfold recv_for.
    destruct (recv_for_loop_ok fs r f1 f2 (S (length (rx (ep l)))) stored rest l Hinv)
      as (x & l' & H1 & Hd & Hs & Hi).
    { rewrite Hrx, length_app. pose proof (length_flight fs (f1 ++ r :: f2)) as Hlen.
      rewrite length_app in Hlen. lia. }
    exists x, l', (stored ++ f1), f2. split; [done|]. split; [done|]. split; [done|]. split; [done|].
    rewrite !app_assoc. apply Permutation_middle.
Qed.

(** The client asks for responses in the order of [ids]. *)
Fixpoint recv_each (ids : list Z) : M link (list (Z * option objm_response_t)) :=
  match ids with
  | [] => mret []
  | i :: ids => x ← objm_client_recv_response_for i true; xs ← recv_each ids; mret (x :: xs)
  end.

Lemma recv_each_ok fs order stored flight rest l :
  ooo_inv fs stored flight rest l -> order ≡ₚ stored ++ flight ->
  exists xs l', recv_each (rs_request_id <$> order) l = Ret ((fun x => (0, Some x)) <$> xs) l' /\
    Forall2 (fun r x => delivers OBJM_PROTO_V2 (fdt (ep l')) (fd_cells fs r) r x) order xs /\
    fdt (ep l) ⊆ fdt (ep l') /\ rx (ep l') = rest.
Proof.
  revert stored flight l. induction order as [|r order IH]; intros stored flight l Hinv Hperm.
  { apply Permutation_nil_l in Hperm. symmetry in Hperm. apply app_nil in Hperm as [-> ->].
    exists [], l. split; [done|]. split; [constructor|]. split; [done|]. apply (oi_rx _ _ _ _ _ Hinv). }
  destruct (recv_response_for_ok fs r stored flight rest l Hinv) as (x & l1 & s' & f' & H1 & Hd & Hs & Hi & Hp).
  { rewrite <- Hperm. by left. }
  destruct (IH s' f' l1 Hi) as (xs & l2 & H2 & Hd2 & Hs2 & Hr2).
  { apply (Permutation_cons_inv (a := r)). by rewrite Hp. }
  exists (x :: xs), l2. simpl. run H1. run H2. split; [done|].
  split; [constructor; [by eapply delivers_mono|done]|]. split; [by etrans|done].
Qed.

(** C11: Out-of-order replies (V2).  When the server's responses to the
    outstanding requests have distinct ids below the negotiated pipeline depth,
    the client may ask for them with [objm_client_recv_response_for] in any
    order: each call terminates and returns the response with the id asked for,
    all fields and the passed descriptor included; responses that arrived
    earlier than asked for are kept, none is lost or duplicated. *)
Theorem ooo_delivery fs rs order rest c p l :
  calm l -> cn l = Some c -> cn_version c = OBJM_PROTO_V2 ->
  cn_pending_responses c = Some p -> cn_pending_capacity c = Z.of_nat (length p) ->
  Forall (fun s => s = None) p ->
  Forall (response_ok fs (cn_pending_capacity c)) rs -> NoDup (rs_request_id <$> rs) ->
  rx (ep l) = (rs ≫= response_wire OBJM_PROTO_V2 fs) ++ rest ->
  order ≡ₚ rs ->
  exists xs l', recv_each (rs_request_id <$> order) l = Ret ((fun x => (0, Some x)) <$> xs) l' /\
    Forall2 (fun r x => delivers OBJM_PROTO_V2 (fdt (ep l')) (fd_cells fs r) r x) order xs /\
    rx (ep l') = rest.
Proof.
  intros Hcalm Hc Hv Hp Hcap Hnone Hok Hnd Hrx Hperm.
  destruct (recv_each_ok fs order [] rs rest l) as (xs & l' & H1 & H2 & _ & H3); [|done|eauto].
  split; [done| |done|done]. exists c, p. simpl.
  split; [done|]. split; [done|]. split; [done|]. split; [done|]. split; [done|].
  split; [by inversion 1|]. intros r Hr.
  eapply list.Forall_forall in Hok; [|done]. apply id_nonneg in Hok.
  destruct (lookup_lt_is_Some_2 p (Z.to_nat (rs_request_id r))) as [y Hy]; [lia|].
  rewrite Hy. by eapply Forall_lookup_1 in Hnone as ->.
Qed.

Lemma ooo_delivery_witness :
  let rs := [sample_response 2; sample_response 0] in
  let c := set_pending 4 (Some (replicate 4 None)) (sample_conn false OBJM_PROTO_V2) in
  let fs : gmap Z Z := {[0 := 10; 5 := 77]} in
  exists x0 x2 l', recv_each [0; 2] (Link (sample_ep (rs ≫= response_wire OBJM_PROTO_V2 fs)) (Some c)) =
      Ret [(0, Some x0); (0, Some x2)] l' /\ rs_request_id x0 = 0 /\ rs_request_id x2 = 2 /\ rx (ep l') = [].
Proof.
  intros rs c fs.
  destruct (ooo_delivery fs rs [sample_response 0; sample_response 2] [] c (replicate 4 None)
    (Link (sample_ep (rs ≫= response_wire OBJM_PROTO_V2 fs)) (Some c))) as (xs & l' & H1 & H2 & H3).
  - apply (sample_calm false OBJM_PROTO_V2).
  - done.
  - done.
  - done.
  - done.
  - repeat constructor.
  - constructor; [|constructor; [|constructor]];
      (split; [apply sample_response_wf; lia|split; [apply sample_response_fd|simpl; lia]]).
  - repeat constructor; set_solver.
  - by rewrite app_nil_r.
  - apply perm_swap.
  - inversion H2 as [|? x0 ? ? [Hx0 _] H2']; subst. inversion H2' as [|? x2 ? ? [Hx2 _] H2'']; subst. inversion H2''; subst.
    exists x0, x2, l'. split; [exact H1|]. rewrite Hx0, Hx2. done.
Defined.

(** ** Handshake *)

Definition wf_hello (h : objm_hello_t) : Prop :=
  0 <= he_capabilities h < 2 ^ 16 /\ 0 <= he_max_pipeline h < 2 ^ 16 /\
  0 <= he_backend_parallelism h < 2 ^ 8.

Lemma land_range a b n : 0 <= n -> 0 <= a -> 0 <= b < 2 ^ n -> 0 <= Z.land a b < 2 ^ n.
Proof.
  intros Hn Ha Hb. split; [apply Z.land_nonneg; lia|].
  destruct (decide (Z.land a b = 0)) as [->|Hne]; [lia|].
  apply Z.log2_lt_pow2; [pose proof (Z.land_nonneg a b); lia|].
  eapply Z.le_lt_trans; [apply Z.log2_land; lia|].
  destruct (decide (b = 0)) as [->|]; [by rewrite Z.land_0_r in Hne|].
  apply Z.min_lt_iff. right. apply Z.log2_lt_pow2; lia.
Qed.

Definition wf_params (p : objm_params_t) : Prop :=
  pa_version p = OBJM_PROTO_V2 /\ 0 <= pa_capabilities p < 2 ^ 16 /\
  0 <= pa_max_pipeline p < 2 ^ 16 /\ 0 <= pa_backend_parallelism p < 2 ^ 8.

Lemma negotiate_wf hs caps pipe :
  wf_hello hs -> 0 <= caps < 2 ^ 16 -> 0 <= pipe < 2 ^ 16 -> wf_params (negotiate hs caps pipe).
Proof.
  intros (H1 & H2 & H3) Hc Hp. unfold negotiate, wf_params. simpl.
  split; [done|]. split; [apply land_range; lia|]. destruct (Z.ltb_spec pipe (he_max_pipeline hs)); lia.
Qed.

Lemma peek_ok c rest l :
  quiet (rd_sched (ep l)) -> rx (ep l) = c :: rest ->
  exists w, onep sys_peek l = Ret (Some (c_byte c)) (Link (set_rx (c :: rest) w (ep l)) (cn l)) /\
    w `suffix_of` rd_sched (ep l).
Proof.
  intros Hq Hrx. unfold onep, sys_peek. rewrite Hrx.
  destruct (rd_sched (ep l)) as [|e w]; [by exists []|].
  inversion Hq as [|?? [k ->] Hq']; subst. exists w. split; [done|]. by apply suffix_cons_r.
Qed.

(** What a transfer leaves of an endpoint besides the queues. *)
Record steady (e e' : endpoint) : Prop := {
  st_fdt : fdt e' = fdt e;
  st_oom : oom e' = oom e;
  st_closed : peer_closed e' = peer_closed e;
  st_rd : rd_sched e' `suffix_of` rd_sched e;
  st_wr : wr_sched e' `suffix_of` wr_sched e
}.

Lemma server_handshake_ok hs hc rest c e :
  cn_is_server c = true -> calm (Link e (Some c)) -> wf_hello hc ->
  rx e = (plain <$> hello_msg hc) ++ rest ->
  let p := negotiate hs (he_capabilities hc) (he_max_pipeline hc) in
  exists e', objm_server_handshake hs true (Link e (Some c)) =
      Ret (0, Some p) (Link e' (Some (set_version OBJM_PROTO_V2 (set_params p c)))) /\
    tx e' = tx e ++ (plain <$> ack_msg p) /\ rx e' = rest /\ steady e e'.
Proof.
  intros Hsrv (Hqw & Hqr & Ho) (Hhc & Hhp & _) Hrx p. simpl in Hqw, Hqr, Ho.
  unfold objm_server_handshake. run (get_cn_eq _). cbn [cn]. rewrite Hsrv. cbn [negb].
  destruct (peek_ok (plain "O"%byte) ((plain <$> tail (hello_msg hc)) ++ rest) (Link e (Some c)) Hqr)
    as (w & H1 & Hw); [exact Hrx|].
  run H1. clear H1. cbn [c_byte plain ep cn]. rewrite bool_decide_true by done.
  edestruct (onep_recv_all (hello_msg hc) rest) as (w1 & H1 & Hw1).
  3:{ run H1. clear H1. cbn [ep cn].
      rewrite (bool_decide_true (take 4 _ = _)) by done.
      change (bz (buf_at (hello_msg hc) 4) =? OBJM_VERSION_2) with true. cbn [negb orb].
      change (be_at (hello_msg hc) 5 2) with (be_val (be_bytes 2 (he_capabilities hc))).
      change (be_at (hello_msg hc) 7 2) with (be_val (be_bytes 2 (he_max_pipeline hc))).
      rewrite !be_val_bytes, !Z.mod_small by lia. fold p.
      run (upd_cn_eq _ _ _).
      edestruct (onep_send_all (ack_msg p)) as (w2 & H2 & Hw2); [|run H2; eexists; split; [done|]; split; [done|]; split; [done|];
        split; simpl in *; [done|done|done|by etrans|done]].
      simpl. eauto with objm. }
  - simpl. eauto with objm.
  - done.
Qed.

Lemma client_hello_ok hc p rest c e :
  cn_version c = OBJM_PROTO_V2 -> calm (Link e (Some c)) -> wf_params p ->
  rx e = (plain <$> ack_msg p) ++ rest ->
  exists e' c', objm_client_hello hc true (Link e (Some c)) = Ret (0, Some p) (Link e' (Some c')) /\
    tx e' = tx e ++ (plain <$> hello_msg hc) /\ rx e' = rest /\ cn_params c' = p /\
    cn_version c' = OBJM_PROTO_V2 /\
    (Z.land (pa_capabilities p) OBJM_CAP_OOO_REPLIES <> 0 ->
     cn_pending_capacity c' = pa_max_pipeline p /\
     cn_pending_responses c' = Some (replicate (Z.to_nat (pa_max_pipeline p)) None)) /\ steady e e'.
Proof.
  intros Hv (Hqw & Hqr & Ho) (Hpv & Hpc & Hpp & Hpb) Hrx. simpl in Hqw, Hqr, Ho.
  unfold objm_client_hello. run (get_cn_eq _). cbn [cn]. rewrite Hv. cbn [negb Z.eqb OBJM_PROTO_V2 OBJM_VERSION_2 Pos.eqb].
  destruct (onep_send_all (hello_msg hc) (Link e (Some c))) as (w & H1 & Hw); [simpl; eauto with objm|].
  run H1. clear H1. cbn [Z.ltb Z.compare ep cn].
  edestruct (onep_recv_all (ack_msg p) rest) as (w1 & H1 & Hw1).
  3:{ run H1. clear H1. cbn [ep cn].
      rewrite (bool_decide_true (take 4 _ = _)) by done.
      change (bz (buf_at (ack_msg p) 4) =? OBJM_VERSION_2) with true. cbn [negb].
      change (be_at (ack_msg p) 5 2) with (be_val (be_bytes 2 (pa_capabilities p))).
      change (be_at (ack_msg p) 7 2) with (be_val (be_bytes 2 (pa_max_pipeline p))).
      change (buf_at (ack_msg p) 9) with (zb (pa_backend_parallelism p)).
      rewrite !be_val_bytes, bz_zb, !Z.mod_small by lia.
      assert (Hp : Params OBJM_PROTO_V2 (pa_capabilities p) (pa_max_pipeline p) (pa_backend_parallelism p) = p)
        by (destruct p; simpl in *; by subst).
      rewrite Hp. run (upd_cn_eq _ _ _).
      destruct (Z.eqb_spec (Z.land (pa_capabilities p) OBJM_CAP_OOO_REPLIES) 0) as [E|E]; cbn [negb].
      - rewrite bind_ret_l. eexists _, _. split; [done|]. simpl. repeat (split; [done|]). by split.
      - rewrite bind_assoc. match goal with |- context [ (onep sys_alloc ≫= _) ?l ] => run (onep_alloc l Ho) end.
        eexists _, _. split; [done|]. simpl. repeat (split; [done|]). by split. }
  - simpl. eauto with objm.
  - simpl. exact Hrx.
Qed.

(** C22: V2 handshake.  When the server answers a client's HELLO, both ends finish
    with the same parameters: the capabilities both announced, the smaller of
    the two pipeline depths and the server's backend parallelism; both are in V2
    mode, and a client that negotiated out-of-order replies has one empty pending
    slot per request of the pipeline. *)
Theorem handshake_agreement hc hs cc cs ec es rest rest' :
  wf_hello hc -> wf_hello hs ->
  cn_version cc = OBJM_PROTO_V2 -> cn_is_server cs = true ->
  calm (Link ec (Some cc)) -> calm (Link es (Some cs)) ->
  rx es = (plain <$> hello_msg hc) ++ rest ->
  exists p es' cs' ack,
    objm_server_handshake hs true (Link es (Some cs)) = Ret (0, Some p) (Link es' (Some cs')) /\
    tx es' = tx es ++ ack /\ rx es' = rest /\ cn_params cs' = p /\ cn_version cs' = OBJM_PROTO_V2 /\
    pa_capabilities p = Z.land (he_capabilities hc) (he_capabilities hs) /\
    pa_max_pipeline p = Z.min (he_max_pipeline hc) (he_max_pipeline hs) /\
    pa_backend_parallelism p = he_backend_parallelism hs /\
    (rx ec = ack ++ rest' ->
     exists ec' cc', objm_client_hello hc true (Link ec (Some cc)) = Ret (0, Some p) (Link ec' (Some cc')) /\
       tx ec' = tx ec ++ (plain <$> hello_msg hc) /\ rx ec' = rest' /\
       cn_params cc' = p /\ cn_version cc' = OBJM_PROTO_V2 /\
       (Z.land (pa_capabilities p) OBJM_CAP_OOO_REPLIES <> 0 ->
        cn_pending_capacity cc' = pa_max_pipeline p /\
        cn_pending_responses cc' = Some (replicate (Z.to_nat (pa_max_pipeline p)) None))).
Proof.
  intros Hhc Hhs Hv Hsrv Hqc Hqs Hrx.
  destruct (server_handshake_ok hs hc rest cs es Hsrv Hqs Hhc Hrx) as (es' & H1 & Htx & Hrx' & _).
  eexists _, es', _, _. split; [exact H1|]. split; [done|]. split; [done|]. split; [done|]. split; [done|].
  split; [done|]. split; [simpl; destruct (Z.ltb_spec (he_max_pipeline hc) (he_max_pipeline hs)); lia|].
  split; [done|]. intros Hack.
  destruct (client_hello_ok hc (negotiate hs (he_capabilities hc) (he_max_pipeline hc)) rest' cc ec) as (ec' & cc' & H2 & H3 & H4 & H5 & H6 & H7 & _);
    try done; [destruct Hhc as (? & ? & _); by apply negotiate_wf|]. by exists ec', cc'.
Qed.

Lemma handshake_agreement_witness :
  let hc := Hello 3 10 0 in let hs := Hello 1 4 2 in
  exists p es' cs',
    objm_server_handshake hs true (sample_link true 0 (plain <$> hello_msg hc)) = Ret (0, Some p) (Link es' (Some cs')) /\
    p = Params 2 1 4 2.
Proof.
  intros hc hs.
  destruct (handshake_agreement hc hs (sample_conn false OBJM_PROTO_V2) (sample_conn true 0) (sample_ep [])
    (sample_ep (plain <$> hello_msg hc)) [] []) as (p & es' & cs' & ack & H1 & _ & _ & _ & _ & Hc & Hp & Hb & _).
  - unfold wf_hello; simpl; lia.
  - unfold wf_hello; simpl; lia.
  - done.
  - done.
  - apply (sample_calm false OBJM_PROTO_V2).
  - apply (sample_calm true 0).
  - by rewrite app_nil_r.
  - exists p, es', cs'. split; [exact H1|]. vm_compute in H1. injection H1 as <- _ _. reflexivity.
Defined.
