(* ===== verification/Metadata.v ===== *)
(** * Metadata: building and parsing metadata buffers

    The type-length-value buffers of [protocol.c]: what [objm_metadata_add]
    writes, [objm_metadata_parse] reads back; parsing is safe on any buffer; error
    messages travel as metadata. *)

From S2P Require Import Prelude Socket Protocol ProtocolProofs.

(** An entry as it is laid out: type(1) + length(2) + data. *)
Definition enc_entry (e : objm_metadata_entry_t) : list byte :=
  zb (me_type e) :: be_bytes 2 (me_length e) ++ me_data e.

Definition enc_entries (es : list objm_metadata_entry_t) : list byte := es ≫= enc_entry.

Definition wf_entry (e : objm_metadata_entry_t) : Prop :=
  0 <= me_type e < 2 ^ 8 /\ me_length e = Z.of_nat (length (me_data e)) /\ me_length e < 2 ^ 16.

(** The rest of a buffer holds no complete entry. *)
Definition incomplete (l : list byte) : Prop :=
  Z.of_nat (length l) < 3 \/ Z.of_nat (length l) < 3 + be_val (take 2 (drop 1 l)).

Lemma length_enc_entry e :
  wf_entry e -> Z.of_nat (length (enc_entry e)) = 3 + me_length e /\ 0 <= me_length e.
Proof. intros (_ & H & _). unfold enc_entry. simpl. lia. Qed.

(** ** Reading *)

(** A buffer splits into complete entries and an incomplete rest. *)
Inductive parses : list byte -> list objm_metadata_entry_t -> Prop :=
| parses_nil l : incomplete l -> parses l []
| parses_cons e l es : wf_entry e -> parses l es -> parses (enc_entry e ++ l) (e :: es).

Lemma be_bytes_2 h lo : be_bytes 2 (be_val [h; lo]) = [h; lo].
Proof.
  pose proof (bz_range h). pose proof (bz_range lo).
  assert (Hv : be_val [h; lo] = bz h * 256 + bz lo) by (unfold be_val; simpl; lia).
  rewrite Hv. cbv [be_bytes le_bytes rev app]. f_equal; [|f_equal]; apply bz_inj; rewrite bz_zb.
  - rewrite Z.div_add_l, (Z.div_small (bz lo)), Z.mod_small by lia. lia.
  - rewrite Z.add_comm, Z.mod_add, Z.mod_small by lia. done.
Qed.

Lemma parses_total l : exists es, parses l es.
Proof.
  remember (length l) as n eqn:Hn. revert l Hn.
  induction (lt_wf n) as [n _ IH]. intros l ->.
  destruct (decide (incomplete l)) as [Hi|Hi]; [exists []; by constructor|].
  destruct l as [|t [|h [|lo l]]]; try (exfalso; apply Hi; left; simpl; lia).
  set (len := be_val [h; lo]).
  assert (Hlen : 0 <= len < 2 ^ 16) by (pose proof (be_val_range [h; lo]); simpl in *; lia).
  assert (Hl : len <= Z.of_nat (length l)).
  { unfold incomplete in Hi. change (take 2 (drop 1 (t :: h :: lo :: l))) with [h; lo] in Hi.
    fold len in Hi. cbn [length] in Hi. lia. }
  set (e := MetaEntry (bz t) len (take (Z.to_nat len) l)).
  assert (Hwf : wf_entry e).
  { unfold wf_entry, e. simpl. pose proof (bz_range t). rewrite length_take. lia. }
  assert (He : t :: h :: lo :: l = enc_entry e ++ drop (Z.to_nat len) l).
  { unfold enc_entry, e, len. cbn [me_type me_length me_data].
    rewrite zb_bz, be_bytes_2. simpl. by rewrite take_drop. }
  destruct (IH (length (drop (Z.to_nat len) l))) with (l := drop (Z.to_nat len) l) as [es Hes]; [|done|].
  { rewrite length_drop. simpl. lia. }
  exists (e :: es). rewrite He. by constructor.
Qed.

Lemma parses_split l es : parses l es -> exists rest, l = enc_entries es ++ rest /\ incomplete rest /\ Forall wf_entry es.
Proof.
  induction 1 as [l Hi|e l es He Hp (rest & -> & Hi & Hf)]; [by exists l|].
  exists rest. unfold enc_entries. rewrite bind_cons, <- app_assoc. split; [done|]. split; [done|]. by constructor.
Qed.

Lemma parses_enc es rest : Forall wf_entry es -> incomplete rest -> parses (enc_entries es ++ rest) es.
Proof.
  induction 1 as [|e es He Hes IH]; intros Hr; [by constructor|].
  unfold enc_entries. rewrite bind_cons, <- app_assoc. constructor; [done|]. by apply IH.
Qed.

(** Bounds-checked reads inside a buffer known to be [pre ++ mid ++ post]. *)
Lemma buf_read_mid b pre mid post off len :
  b = pre ++ mid ++ post -> off = Z.of_nat (length pre) -> len = Z.of_nat (length mid) ->
  buf_read b off len = Some mid.
Proof.
  intros -> -> ->. unfold buf_read. rewrite !length_app.
  rewrite (proj2 (Z.leb_le 0 (Z.of_nat (length pre)))), (proj2 (Z.leb_le 0 (Z.of_nat (length mid)))),
    (proj2 (Z.leb_le (_ + _) _)) by lia. simpl.
  by rewrite !Nat2Z.id, drop_app_length, take_app_length.
Qed.

Lemma buf_read_len2 md pre l post :
  md = pre ++ l ++ post -> (3 <= length l)%nat ->
  buf_read md (Z.of_nat (length pre) + 1) 2 = Some (take 2 (drop 1 l)).
Proof.
  intros -> Hl. destruct l as [|t [|h [|lo l]]]; simpl in Hl; try lia.
  eapply (buf_read_mid _ (pre ++ [t]) [h; lo] (l ++ post)); [|rewrite length_app; simpl; lia|done].
  rewrite <- app_assoc. simpl. done.
Qed.

Lemma take_enc_header e l : take 2 (drop 1 (enc_entry e ++ l)) = be_bytes 2 (me_length e).
Proof. reflexivity. Qed.

Lemma enc_len_val e : wf_entry e -> be_val (be_bytes 2 (me_length e)) = me_length e.
Proof. intros (_ & H & H2). rewrite be_val_bytes, Z.mod_small; lia. Qed.

(** First loop: the number of complete entries of the region. *)
Lemma meta_count_ok {S0} l es : parses l es -> forall fuel pre post count (s : S0),
  (length es < fuel)%nat ->
  meta_count fuel (pre ++ l ++ post) (Z.of_nat (length pre + length l)) (Z.of_nat (length pre)) count s =
  Ret (count + Z.of_nat (length es)) s.
Proof.
  induction 1 as [l Hi|e l es He Hp IH]; intros fuel pre post count s Hf;
    (destruct fuel as [|fuel]; [lia|]); cbn [meta_count].
  - rewrite Z.add_0_r. destruct (Z.leb_spec (Z.of_nat (length pre) + 3) (Z.of_nat (length pre + length l)));
      [|done].
    rewrite (buf_read_len2 _ pre l post) by (done || lia). rewrite deref_bind.
    destruct Hi as [Hi|Hi]; [lia|]. by rewrite (proj2 (Z.ltb_lt _ _)) by lia.
  - pose proof (length_enc_entry e He) as Hle. rewrite length_app.
    rewrite (proj2 (Z.leb_le _ _)) by lia.
    rewrite (buf_read_len2 _ pre (enc_entry e ++ l) post) by (rewrite ?length_app; done || lia).
    rewrite deref_bind, take_enc_header, enc_len_val by done.
    rewrite (proj2 (Z.ltb_ge _ _)) by lia.
    specialize (IH fuel (pre ++ enc_entry e) post (count + 1) s).
    rewrite !length_app, <- !app_assoc in IH.
    replace (Z.of_nat (length pre) + 3 + me_length e)
      with (Z.of_nat (length pre + length (enc_entry e))) by lia.
    rewrite <- app_assoc, Nat.add_assoc, IH by (simpl in Hf; lia). f_equal. simpl. lia.
Qed.

Lemma buf_read_type md pre e l post :
  md = pre ++ (enc_entry e ++ l) ++ post ->
  buf_read md (Z.of_nat (length pre)) 1 = Some [zb (me_type e)].
Proof.
  intros ->. eapply (buf_read_mid _ pre [zb (me_type e)]
    ((be_bytes 2 (me_length e) ++ me_data e) ++ l ++ post)); [|done|done].
  unfold enc_entry. simpl. by rewrite app_assoc.
Qed.

Lemma buf_read_data md pre e l post :
  wf_entry e -> md = pre ++ (enc_entry e ++ l) ++ post ->
  buf_read md (Z.of_nat (length pre) + 3) (me_length e) = Some (me_data e).
Proof.
  intros (_ & Hl & _) ->.
  eapply (buf_read_mid _ (pre ++ zb (me_type e) :: be_bytes 2 (me_length e)) (me_data e) (l ++ post)); [| |done].
  - unfold enc_entry. rewrite <- !app_assoc. reflexivity.
  - rewrite length_app. simpl. lia.
Qed.

(** Second loop: the entries themselves. *)
Lemma meta_fill_ok l es : parses l es -> forall fuel pre post idx arr s,
  oom s = [] -> (length es < fuel)%nat ->
  meta_fill fuel (pre ++ l ++ post) (Z.of_nat (length pre + length l)) (Z.of_nat (length pre))
    idx (idx + Z.of_nat (length es)) arr s = Ret (Some (arr ++ es)) s.
Proof.
  induction 1 as [l Hi|e l es He Hp IH]; intros fuel pre post idx arr s Ho Hf;
    (destruct fuel as [|fuel]; [lia|]); cbn [meta_fill].
  - rewrite Z.add_0_r, Z.ltb_irrefl, andb_false_r, app_nil_r. done.
  - pose proof (length_enc_entry e He) as Hle. rewrite length_app.
    rewrite (proj2 (Z.leb_le _ _)), (proj2 (Z.ltb_lt _ _)) by (cbn [length]; lia). cbn [andb].
    rewrite (buf_read_type _ pre e l post), deref_bind by done.
    rewrite (buf_read_len2 _ pre (enc_entry e ++ l) post) by (rewrite ?length_app; done || lia).
    rewrite deref_bind, take_enc_header, enc_len_val by done.
    assert (Ha : sys_alloc s = Ret true s) by (unfold sys_alloc; by rewrite Ho). run Ha. cbn [negb].
    rewrite (buf_read_data _ pre e l post), deref_bind by done.
    specialize (IH fuel (pre ++ enc_entry e) post (idx + 1) (arr ++ [e]) s Ho).
    rewrite !length_app, <- !app_assoc in IH.
    replace (Z.of_nat (length pre) + 3 + me_length e)
      with (Z.of_nat (length pre + length (enc_entry e))) by lia.
    replace (MetaEntry (be_val [zb (me_type e)]) (me_length e) (me_data e)) with e.
    2:{ destruct He as (Ht & _). destruct e as [t len d]. simpl in *. f_equal.
        unfold be_val. simpl. rewrite bz_zb, Z.mod_small; lia. }
    replace (idx + Z.of_nat (length (e :: es))) with (idx + 1 + Z.of_nat (length es)) by (simpl; lia).
    rewrite <- app_assoc, Nat.add_assoc, IH by (simpl in Hf; lia). done.
Qed.

Lemma parses_length l es : parses l es -> (length es <= length l)%nat.
Proof. induction 1 as [|e l es He Hp IH]; simpl; [lia|]. rewrite length_app. simpl. lia. Qed.

Lemma metadata_parse_ok md n es s :
  oom s = [] -> (n <= length md)%nat -> parses (take n md) es ->
  objm_metadata_parse (Some md) (Z.of_nat n) s = Ret (0, es) s.
Proof.
  intros Ho Hn Hp. unfold objm_metadata_parse.
  pose proof (parses_length _ _ Hp) as Hl. rewrite length_take in Hl.
  pose proof (meta_count_ok _ _ Hp (S (length md)) [] (drop n md) 0 s) as Hc.
  pose proof (meta_fill_ok _ _ Hp (S (length md)) [] (drop n md) 0 [] s Ho) as Hm.
  simpl app in Hc, Hm. rewrite take_drop, length_take, Nat.min_l in Hc, Hm by lia.
  change (0 + n)%nat with n in *. change (length []) with 0%nat in *. cbn [Nat.add Z.of_nat] in Hc, Hm.
  run (Hc ltac:(lia)).
  assert (Ha : sys_alloc s = Ret true s) by (unfold sys_alloc; by rewrite Ho). run Ha. cbn [negb].
  rewrite Z.add_0_l in *. by run (Hm ltac:(lia)).
Qed.

(** C37: [objm_metadata_parse] is safe and complete on every buffer: for any
    length within the buffer it terminates without reading outside it, returns
    success, and the entries it returns are exactly the complete entries the
    region starts with, in order; what is left over is too short to be one. *)
Theorem metadata_parse_total md n s :
  oom s = [] -> (n <= length md)%nat ->
  exists es rest, objm_metadata_parse (Some md) (Z.of_nat n) s = Ret (0, es) s /\
    take n md = enc_entries es ++ rest /\ incomplete rest /\ Forall wf_entry es.
Proof.
  intros Ho Hn. destruct (parses_total (take n md)) as [es Hes].
  destruct (parses_split _ _ Hes) as (rest & Hs & Hi & Hf).
  exists es, rest. split; [by apply metadata_parse_ok|done].
Qed.

Lemma metadata_parse_total_witness :
  let md := [x01; x00; x02; x61; x62; x05; x00; x09; x63] in
  exists es rest, objm_metadata_parse (Some md) 9 (sample_ep []) = Ret (0, es) (sample_ep []) /\
    take 9 md = enc_entries es ++ rest /\ incomplete rest /\ es = [MetaEntry 1 2 [x61; x62]].
Proof.
  intros md. destruct (metadata_parse_total md 9 (sample_ep [])) as (es & rest & H1 & H2 & H3 & _); [done|simpl; lia|].
  exists es, rest. split; [exact H1|]. split; [done|]. split; [done|]. vm_compute in H1. by injection H1 as <-.
Defined.

(** ** Writing *)

Lemma buf_write_mid b pre old post d off :
  b = pre ++ old ++ post -> off = Z.of_nat (length pre) -> length d = length old ->
  buf_write b off d = Some (pre ++ d ++ post).
Proof.
  intros -> -> Hd. unfold buf_write. rewrite !length_app.
  rewrite (proj2 (Z.leb_le 0 (Z.of_nat (length pre)))), (proj2 (Z.leb_le (_ + _) _)) by lia. simpl.
  rewrite Nat2Z.id, take_app_length, Hd. do 3 f_equal.
  rewrite drop_app_add', drop_app_length; done.
Qed.

Lemma metadata_add_ok {S0} pre old post e data (s : S0) :
  wf_entry e -> buf_read data 0 (me_length e) = Some (me_data e) -> Z.of_nat (length old) = 3 + me_length e ->
  Z.of_nat (length pre) + 3 + me_length e < 2 ^ 64 ->
  objm_metadata_add (Some (pre ++ old ++ post)) (Z.of_nat (length pre)) (me_type e) data (me_length e) s =
  Ret (Some (pre ++ enc_entry e ++ post), Z.of_nat (length (pre ++ enc_entry e))) s.
Proof.
  intros He Hdata Hold Hmax. pose proof (length_enc_entry e He) as [Hle Hpos]. destruct He as (Ht & Hl & Hm).
  unfold objm_metadata_add. rewrite (proj2 (Z.ltb_ge _ _)) by lia.
  destruct old as [|o1 [|o2 [|o3 old]]]; simpl in Hold; try lia.
  rewrite (buf_write_mid _ pre [o1] (o2 :: o3 :: old ++ post)) by done. rewrite deref_bind.
  erewrite (buf_write_mid _ (pre ++ [zb (me_type e)]) [o2; o3] (old ++ post)).
  2:{ by rewrite <- app_assoc. } 2:{ rewrite length_app. simpl. lia. } 2:{ done. }
  rewrite deref_bind.
  rewrite Hdata, deref_bind.
  erewrite (buf_write_mid _ (pre ++ [zb (me_type e)] ++ be_bytes 2 (me_length e)) old post).
  2:{ by rewrite <- !app_assoc. } 2:{ rewrite length_app. simpl. lia. } 2:{ lia. }
  rewrite deref_bind. unfold mret, M_ret. rewrite u64_small by lia. do 2 f_equal.
  - f_equal. unfold enc_entry. rewrite <- !app_assoc. done.
  - rewrite length_app. lia.
Qed.

(** Entries added one after the other. *)
Fixpoint add_entries {S0} (es : list objm_metadata_entry_t) (md : option (list byte)) (cur : Z)
    : M S0 (option (list byte) * Z) :=
  match es with
  | [] => mret (md, cur)
  | e :: es => x ← objm_metadata_add md cur (me_type e) (me_data e) (me_length e);
               add_entries es x.1 x.2
  end.

Lemma add_entries_ok {S0} es pre old post (s : S0) :
  Forall wf_entry es -> length old = length (enc_entries es) ->
  Z.of_nat (length pre + length old) < 2 ^ 64 ->
  add_entries es (Some (pre ++ old ++ post)) (Z.of_nat (length pre)) s =
  Ret (Some (pre ++ enc_entries es ++ post), Z.of_nat (length (pre ++ enc_entries es))) s.
Proof.
  intros Hf. revert pre old. induction Hf as [|e es He Hes IH]; intros pre old Hold Hmax; cbn [add_entries].
  { apply length_zero_iff_nil in Hold as ->. simpl. by rewrite app_nil_r. }
  unfold enc_entries in *. rewrite bind_cons, length_app in Hold.
  pose proof (length_enc_entry e He) as [Hle Hpos].
  rewrite <- (take_drop (length (enc_entry e)) old), <- app_assoc.
  pose proof (metadata_add_ok pre (take (length (enc_entry e)) old)
    (drop (length (enc_entry e)) old ++ post) e (me_data e) s He) as Hadd.
  specialize (Hadd ltac:(apply (buf_read_mid _ [] (me_data e) []); [by rewrite app_nil_r|done|apply He])).
  run (Hadd ltac:(rewrite length_take; lia) ltac:(lia)). cbn [fst snd].
  specialize (IH (pre ++ enc_entry e) (drop (length (enc_entry e)) old)).
  rewrite <- !app_assoc in IH. rewrite IH.
  - by rewrite bind_cons, <- !app_assoc.
  - rewrite length_drop. lia.
  - rewrite length_app, length_drop. lia.
Qed.

(** C40: Metadata round trip.  Entries added one after the other to a buffer
    [objm_metadata_create] allocated large enough never write outside it, the
    returned length is the number of bytes used, and [objm_metadata_parse] of
    that many bytes gives back exactly these entries in order. *)
Theorem metadata_roundtrip es size s :
  oom s = [] -> Forall wf_entry es -> 0 < size < 2 ^ 64 ->
  Z.of_nat (length (enc_entries es)) <= size ->
  exists md, (m ← objm_metadata_create size; add_entries es m 0) s =
      Ret (Some md, Z.of_nat (length (enc_entries es))) s /\
    objm_metadata_parse (Some md) (Z.of_nat (length (enc_entries es))) s = Ret (0, es) s.
Proof.
  intros Ho Hf Hs Hl. set (n := length (enc_entries es)) in *.
  set (rest := replicate (Z.to_nat size - n) (junk s)).
  exists (enc_entries es ++ rest). split.
  - assert (Hc : objm_metadata_create size s = Ret (Some ([] ++ replicate n (junk s) ++ rest)) s).
    { unfold objm_metadata_create, mbind, M_bind, sys_alloc, get. rewrite Ho.
      rewrite (proj2 (Z.ltb_lt _ _)) by lia. unfold rest. simpl.
      rewrite <- replicate_add. do 3 f_equal. lia. }
    run Hc. change 0 with (Z.of_nat (length (A:=byte) [])).
    rewrite add_entries_ok; [done|done|by rewrite length_replicate|]. rewrite length_replicate. simpl. lia.
  - apply metadata_parse_ok; [done|rewrite length_app; lia|].
    unfold n. rewrite take_app_length, <- (app_nil_r (enc_entries es)). apply parses_enc; [done|].
    left. simpl. lia.
Qed.

Lemma metadata_roundtrip_witness :
  let es := [MetaEntry OBJM_META_SIZE 8 (be_bytes 8 4096); MetaEntry OBJM_META_BACKEND 1 [x02]] in
  exists md, (m ← objm_metadata_create 64; add_entries es m 0) (sample_ep []) = Ret (Some md, 15) (sample_ep []) /\
    objm_metadata_parse (Some md) 15 (sample_ep []) = Ret (0, es) (sample_ep []).
Proof.
  intros es. apply (metadata_roundtrip es 64 (sample_ep [])).
  - done.
  - apply list.Forall_cons; split; [|apply list.Forall_cons; split; [|done]];
      (split; [vm_compute; split; [discriminate|reflexivity]|split; [reflexivity|vm_compute; reflexivity]]).
  - lia.
  - vm_compute. discriminate.
Defined.

(** ** Error responses *)

Lemma onep_create size l :
  oom (ep l) = [] -> 0 < size ->
  onep (objm_metadata_create size) l = Ret (Some (replicate (Z.to_nat size) (junk (ep l)))) l.
Proof.
  intros Ho Hs. unfold onep, objm_metadata_create, mbind, M_bind, sys_alloc, get. rewrite Ho.
  rewrite (proj2 (Z.ltb_lt _ _)) by lia. by destruct l.
Qed.

(** The entry of an error message. *)
Definition error_entry (m : list byte) : objm_metadata_entry_t := MetaEntry 255 (Z.of_nat (length m)) m.

(** The response [objm_server_send_error] builds; [junk] is what its buffer
    holds behind the entry. *)
Definition error_response (id status : Z) (m junk : list byte) : objm_response_t :=
  Response id status (-1) 0 (Some (enc_entry (error_entry m) ++ junk)) (3 + Z.of_nat (length m)) None.

(** The message is a C string; [t] is what follows it in memory. *)
Definition c_string (m t : list byte) : Prop := c_str (m ++ t) = m /\ 3 + Z.of_nat (length m) < 2 ^ 16.

Lemma error_entry_wf m t : c_string m t -> wf_entry (error_entry m) /\
  Z.of_nat (length (enc_entry (error_entry m))) = 3 + Z.of_nat (length m).
Proof.
  intros [_ Hl]. assert (He : wf_entry (error_entry m)) by (unfold wf_entry; simpl; lia).
  split; [done|]. apply (length_enc_entry _ He).
Qed.

Lemma send_error_eq id status m t l :
  oom (ep l) = [] -> c_string m t ->
  objm_server_send_error id status (Some (m ++ t)) l =
  objm_server_send_response (Some (error_response id status m (replicate 7 (junk (ep l))))) l.
Proof.
  intros Ho Hm. pose proof (error_entry_wf _ _ Hm) as [He Hle]. destruct Hm as [Hn Hl].
  unfold objm_server_send_error. rewrite Hn.
  rewrite bind_assoc. run (onep_create (Z.of_nat (length m) + 10) l Ho ltac:(lia)).
  assert (Hadd : objm_metadata_add (Some (replicate (Z.to_nat (Z.of_nat (length m) + 10)) (junk (ep l))))
    0 255 (m ++ t) (Z.of_nat (length m)) l =
    Ret (Some (enc_entry (error_entry m) ++ replicate 7 (junk (ep l))), 3 + Z.of_nat (length m)) l).
  { replace (Z.to_nat (Z.of_nat (length m) + 10)) with (length (enc_entry (error_entry m)) + 7)%nat by lia.
    rewrite replicate_add.
    pose proof (metadata_add_ok [] (replicate (length (enc_entry (error_entry m))) (junk (ep l)))
      (replicate 7 (junk (ep l))) (error_entry m) (m ++ t) l He) as H. rewrite length_replicate in H.
    specialize (H ltac:(by apply (buf_read_mid _ [] m t)) Hle ltac:(simpl; lia)).
    etrans; [exact H|]. change ([] ++ enc_entry (error_entry m)) with (enc_entry (error_entry m)). rewrite Hle. done. }
  run Hadd. done.
Qed.

Lemma error_response_wf id status m t j f :
  0 <= id < 2 ^ 32 -> 0 < status < 2 ^ 8 -> c_string m t ->
  wf_response f (error_response id status m j) /\ fd_discipline (error_response id status m j) /\
  (forall f, fd_cells f (error_response id status m j) = []) /\
  meta_bytes (error_response id status m j) = enc_entry (error_entry m).
Proof.
  intros Hid Hst Hm. pose proof (error_entry_wf _ _ Hm) as [He Hle]. destruct Hm as [_ Hl].
  unfold error_response. split; [|split; [|split]].
  - unfold wf_response, OBJM_STATUS_OK. cbn [rs_request_id rs_status rs_metadata_len rs_content_len rs_metadata rs_fd].
    repeat (split; [lia|]). split; [|lia]. intros _. exists (enc_entry (error_entry m)), j. split; [done|]. lia.
  - unfold fd_discipline, OBJM_STATUS_OK. simpl. lia.
  - intros f'. unfold fd_cells. simpl. by rewrite andb_false_r.
  - unfold meta_bytes. cbn [rs_metadata rs_metadata_len].
    rewrite (proj2 (Z.ltb_lt _ _)) by lia. rewrite <- Hle, Nat2Z.id. apply take_app_length.
Qed.

(** The bytes of an error response. *)
Definition error_wire (v id status : Z) (m : list byte) : list cell := response_wire v ∅ (error_response id status m []).

Lemma send_error_ok v id status m t l :
  speaks v l -> quiet (wr_sched (ep l)) -> oom (ep l) = [] ->
  0 <= id < 2 ^ 32 -> 0 < status < 2 ^ 8 -> c_string m t ->
  exists w, objm_server_send_error id status (Some (m ++ t)) l =
      Ret 0 (Link (set_tx (tx (ep l) ++ error_wire v id status m) w (ep l)) (cn l)) /\ w `suffix_of` wr_sched (ep l).
Proof.
  intros Hs Hq Ho Hid Hst Hm. rewrite (send_error_eq id status m t l Ho Hm).
  destruct (error_response_wf id status m t (replicate 7 (junk (ep l))) (fdt (ep l)) Hid Hst Hm) as (Hwf & _ & Hc & Hb).
  destruct (error_response_wf id status m t [] (fdt (ep l)) Hid Hst Hm) as (_ & _ & Hc' & Hb').
  destruct (send_response_ok v _ l Hs Hwf Hq) as (w & -> & Hw). exists w. split; [|done].
  unfold error_wire, response_wire. by rewrite Hc, Hc', Hb, Hb'.
Qed.

Lemma recv_error_ok v id status m t rest l :
  speaks v l -> calm l -> 0 <= id < 2 ^ 32 -> 0 < status < 2 ^ 8 -> c_string m t ->
  rx (ep l) = error_wire v id status m ++ rest ->
  exists w, objm_client_recv_response true l =
    Ret (0, Some (Response (if v =? OBJM_PROTO_V1 then 0 else id) status (-1) 0 (Some (enc_entry (error_entry m)))
                    (3 + Z.of_nat (length m)) None))
      (Link (set_fdt (fdt (ep l)) (set_rx rest w (ep l))) (cn l)).
Proof.
  intros Hs Hc Hid Hst Hm Hrx.
  destruct (error_response_wf id status m t [] ∅ Hid Hst Hm) as (Hwf & Hd & Hcells & Hb).
  destruct (recv_response_ok v _ _ rest l Hs Hc Hwf Hd Hrx) as (w & Hr & _). exists w.
  rewrite Hr, Hcells. unfold response_seen. rewrite Hb. unfold error_response.
  cbn [rs_metadata_len rs_status rs_request_id rs_content_len seen_fd seen_fdt].
  by rewrite (proj2 (Z.ltb_lt 0 _)) by lia.
Qed.

Lemma parse_error_ok m t l :
  oom (ep l) = [] -> c_string m t ->
  objm_metadata_parse (Some (enc_entry (error_entry m))) (3 + Z.of_nat (length m)) (ep l) = Ret (0, [error_entry m]) (ep l).
Proof.
  intros Ho Hm. pose proof (error_entry_wf _ _ Hm) as [He Hle]. set (e := error_entry m) in *.
  rewrite <- Hle. apply metadata_parse_ok; [done|lia|].
  rewrite firstn_all. rewrite <- (app_nil_r (enc_entry e)).
  change (enc_entry e ++ []) with (enc_entries [e]). rewrite <- (app_nil_r (enc_entries [e])).
  apply parses_enc; [by constructor|]. left. simpl. lia.
Qed.

(** Error responses.  An error status with its message reaches the client on
    V1 and V2: the client sees the status, no descriptor and no change of its
    descriptor table, and parsing the metadata of the response gives one entry
    of type 0xFF holding the message. *)
Theorem error_response_roundtrip v id status m ls lc rest :
  speaks v ls -> speaks v lc -> calm ls -> calm lc ->
  0 <= id < 2 ^ 32 -> 0 < status < 2 ^ 8 -> no_nul m -> 3 + Z.of_nat (length m) < 2 ^ 16 ->
  exists ls' sent,
    objm_server_send_error id status (Some (m ++ [x00])) ls = Ret 0 ls' /\
    tx (ep ls') = tx (ep ls) ++ sent /\
    (rx (ep lc) = sent ++ rest ->
     exists lc' md,
       objm_client_recv_response true lc =
         Ret (0, Some (Response (if v =? OBJM_PROTO_V1 then 0 else id) status (-1) 0 (Some md)
                         (3 + Z.of_nat (length m)) None)) lc' /\
       rx (ep lc') = rest /\ fdt (ep lc') = fdt (ep lc) /\
       objm_metadata_parse (Some md) (3 + Z.of_nat (length m)) (ep lc') =
         Ret (0, [MetaEntry 255 (Z.of_nat (length m)) m]) (ep lc')).
Proof.
  intros Hs Hc Hqs Hqc Hid Hst Hn Hl.
  assert (Hm : c_string m [x00]) by (split; [by apply c_str_app_nul|done]).
  destruct (send_error_ok v id status m [x00] ls Hs) as (w & Hsend & _); try done; [apply Hqs|apply Hqs|].
  eexists _, _. split; [exact Hsend|]. split; [done|]. intros Hrx.
  destruct (recv_error_ok v id status m [x00] rest lc Hc Hqc Hid Hst Hm Hrx) as (w2 & Hrecv).
  eexists _, _. split; [exact Hrecv|]. split; [done|]. split; [done|].
  apply (parse_error_ok m [x00] (Link _ (cn lc))); [|done]. apply Hqc.
Qed.

Lemma error_response_roundtrip_witness :
  let w := response_wire OBJM_PROTO_V1 ∅ (Response 0 1 (-1) 0 (Some (enc_entry (MetaEntry 255 2 (bs "no")))) 5 None) in
  exists ls' lc' md,
    objm_server_send_error 9 OBJM_STATUS_NOT_FOUND (Some (bs "no" ++ [x00])) (sample_link true OBJM_PROTO_V1 []) = Ret 0 ls' /\
    objm_client_recv_response true (sample_link false OBJM_PROTO_V1 w) =
      Ret (0, Some (Response 0 1 (-1) 0 (Some md) 5 None)) lc' /\
    objm_metadata_parse (Some md) 5 (ep lc') = Ret (0, [MetaEntry 255 2 (bs "no")]) (ep lc').
Proof.
  intros w. destruct (error_response_roundtrip OBJM_PROTO_V1 9 OBJM_STATUS_NOT_FOUND (bs "no")
    (sample_link true OBJM_PROTO_V1 []) (sample_link false OBJM_PROTO_V1 w) []) as (ls' & sent & H1 & Htx & H2).
  - apply sample_speaks. by left.
  - apply sample_speaks. by left.
  - apply sample_calm.
  - apply sample_calm.
  - lia.
  - unfold OBJM_STATUS_NOT_FOUND. lia.
  - repeat constructor; done.
  - simpl. lia.
  - assert (Hs : sent = w).
    { pose proof H1 as Hl. vm_compute in Hl. injection Hl as <-. simpl in Htx. rewrite <- Htx. reflexivity. }
    subst sent. destruct H2 as (lc' & md & H2 & _ & _ & H3); [by rewrite app_nil_r|].
    exists ls', lc', md. split; [exact H1|]. split; [exact H2|exact H3].
Defined.
