(* ===== verification/ProtocolLimits.v ===== *)
(** * ProtocolLimits: incomplete transfers, fallback and the ends of connections

    What the transfer loops do under every behaviour of the kernel, how the
    server recognises V1 clients, and the protocol situations in which one side
    waits for bytes the other never sends. *)

From S2P Require Import Prelude Socket Protocol ProtocolProofs.


(** ** V1 clients *)

(** V1 detection.  When the first byte on the connection is not the 'O' of the
    magic, the server handshake succeeds in V1 mode with a pipeline of one and
    no capabilities, sends nothing and leaves every byte for the first request. *)
Theorem v1_fallback hs c e b rest :
  cn_is_server c = true -> quiet (rd_sched e) -> rx e = b :: rest -> c_byte b <> "O"%byte ->
  exists w, objm_server_handshake hs true (Link e (Some c)) =
    Ret (0, Some (Params OBJM_PROTO_V1 0 1 1))
        (Link (set_rx (b :: rest) w e) (Some (set_params (Params OBJM_PROTO_V1 0 1 1) (set_version OBJM_PROTO_V1 c)))).
Proof.
  intros Hsrv Hq Hrx Hb. unfold objm_server_handshake. rewrite (bind_Ret _ _ _ _ _ (get_cn_eq _)). cbn [cn].
  rewrite Hsrv. cbn [negb]. destruct (peek_ok b rest (Link e (Some c)) Hq Hrx) as (w & H1 & _). exists w.
  rewrite (bind_Ret _ _ _ _ _ H1). cbn [ep cn]. by rewrite bool_decide_eq_false_2.
Qed.

Lemma v1_fallback_witness :
  let wire := plain <$> ["1"%byte; x00; x02; "/"%byte; "a"%byte] in
  exists l', objm_server_handshake (Hello 0 1 2) true (sample_link true 0 wire) = Ret (0, Some (Params OBJM_PROTO_V1 0 1 1)) l' /\
    rx (ep l') = wire.
Proof.
  intros wire.
  destruct (v1_fallback (Hello 0 1 2) (sample_conn true 0) (sample_ep wire) (plain "1"%byte)
              (plain <$> [x00; x02; "/"%byte; "a"%byte])) as (w & H).
  - reflexivity.
  - apply (sample_calm true 0).
  - reflexivity.
  - simpl. discriminate.
  - eexists. split; [exact H|]. reflexivity.
Defined.

(** ** Waiting for bytes that do not come *)

Lemma recv_all_blocks len s :
  no_fail (rd_sched s) -> peer_closed s = false -> (length (rx s) < Z.to_nat len)%nat -> recv_all len s = Blocked.
Proof.
  intros Hn Hp Hl. destruct (recv_all_spec len s) as [w Hl' _|k w _ [Hc|[Hc _]]|]; [lia|done|congruence|done].
Qed.

Lemma recv_all_eof len s :
  no_fail (rd_sched s) -> peer_closed s = true -> (length (rx s) < Z.to_nat len)%nat ->
  exists s', recv_all len s = Ret None s'.
Proof.
  intros Hn Hp Hl. destruct (recv_all_spec len s) as [w Hl' _|k w _ _|]; [lia|eauto|congruence].
Qed.

Lemma onep_Blocked {A} (m : M endpoint A) l : m (ep l) = Blocked -> onep m l = Blocked.
Proof. unfold onep. by intros ->. Qed.

Lemma bind_Blocked {S A B} (m : M S A) (f : A -> M S B) s : m s = Blocked -> (m ≫= f) s = Blocked.
Proof. unfold mbind, M_bind. by intros ->. Qed.

(** The V2 close handshake cannot complete.  [objm_client_close] sends a
    CLOSE of two bytes and waits for an acknowledgement; the server reads nine
    bytes before it looks at the message type, so it waits too, and both ends
    are stuck while the connection is open.  When the client gives up and closes
    the socket, the server reports an error (-1) instead of a clean close (1). *)
Theorem v2_close_deadlock reason lc ls :
  speaks OBJM_PROTO_V2 lc -> speaks OBJM_PROTO_V2 ls -> healthy lc -> healthy ls ->
  rx (ep lc) = [] -> peer_closed (ep lc) = false ->
  rx (ep ls) = plain <$> [zb OBJM_MSG_CLOSE; zb reason] ->
  objm_client_close reason lc = Blocked /\
  (peer_closed (ep ls) = false -> objm_server_recv_request true ls = Blocked) /\
  (peer_closed (ep ls) = true -> exists ls', objm_server_recv_request true ls = Ret (-1, None) ls').
Proof.
  intros (_ & cc & Hcc & Hcv) (_ & cs & Hcs & Hsv) (Hw & Hr & _) (_ & Hr2 & Ho2) Hrx Hpc Hrx2. split; [|split].
  - unfold objm_client_close. run (get_cn_eq lc). rewrite Hcc, Hcv. simpl (_ =? _). cbv iota.
    destruct (onep_send_all [zb OBJM_MSG_CLOSE; zb reason] lc Hw) as (w & H1 & _). run H1.
    simpl (_ <? _). cbv iota. apply bind_Blocked, onep_Blocked. apply recv_all_blocks; simpl; [done|done|rewrite Hrx; simpl; lia].
  - intros Hp. unfold objm_server_recv_request. run (get_cn_eq ls). rewrite Hcs. cbn [negb]. run (onep_alloc ls Ho2).
    cbn [negb]. rewrite Hsv. simpl (_ =? _). cbv iota. apply bind_Blocked, onep_Blocked.
    apply recv_all_blocks; [done|done|rewrite Hrx2; simpl; lia].
  - intros Hp. unfold objm_server_recv_request. run (get_cn_eq ls). rewrite Hcs. cbn [negb]. run (onep_alloc ls Ho2).
    cbn [negb]. rewrite Hsv. simpl (_ =? _). cbv iota.
    destruct (recv_all_eof 9 (ep ls)) as [e' He]; [done|done|rewrite Hrx2; simpl; lia|].
    run (onep_Ret _ _ _ _ He). by eexists.
Qed.

Lemma v2_close_deadlock_witness :
  objm_client_close 0 (sample_link false OBJM_PROTO_V2 []) = Blocked /\
  objm_server_recv_request true (sample_link true OBJM_PROTO_V2 (plain <$> [x03; x00])) = Blocked.
Proof.
  destruct (v2_close_deadlock 0 (sample_link false OBJM_PROTO_V2 []) (sample_link true OBJM_PROTO_V2 (plain <$> [x03; x00])))
    as (H1 & H2 & _).
  - apply sample_speaks. by right.
  - apply sample_speaks. by right.
  - apply sample_healthy.
  - apply sample_healthy.
  - reflexivity.
  - reflexivity.
  - reflexivity.
  - split; [exact H1|]. by apply H2.
Defined.

(** A successful response without a descriptor stalls the client.  When the
    server could not open an object's file it still answers OK with descriptor -1
    and content length 0, and sends the header only; the client, told by the
    length 0 that a descriptor follows, waits for it (or takes the first byte of
    the next response for it). *)
Theorem ok_without_descriptor_stalls v id ls lc :
  speaks v ls -> speaks v lc -> calm ls -> calm lc -> 0 <= id < 2 ^ 32 -> peer_closed (ep lc) = false ->
  let r := Response id OBJM_STATUS_OK (-1) 0 None 0 None in
  exists ls' sent, objm_server_send_response (Some r) ls = Ret 0 ls' /\ tx (ep ls') = tx (ep ls) ++ sent /\
    (rx (ep lc) = sent -> objm_client_recv_response true lc = Blocked).
Proof.
  intros Hs Hc (Hw & _) (_ & Hqr & Ho) Hid Hpc r.
  assert (Hwf : wf_response (fdt (ep ls)) r).
  { unfold wf_response, r, OBJM_STATUS_OK. simpl. split; [done|]. do 3 (split; [lia|]). split; intros; lia. }
  destruct (send_response_ok v r ls Hs Hwf Hw) as (w & H1 & _). eexists _, _. split; [exact H1|]. split; [done|].
  intros Hrx. destruct Hc as [Hv (c & Hcn & Hver)]. unfold objm_client_recv_response. run (get_cn_eq lc). rewrite Hcn. cbn [negb].
  run (onep_alloc lc Ho). cbn [negb]. rewrite Hver.
  assert (Hcells : response_wire v (fdt (ep ls)) r =
    (plain <$> (if v =? OBJM_PROTO_V1 then response_header_v1 r else response_header_v2 r)) ++ []).
  { unfold response_wire. change (meta_bytes r) with (@nil byte). change (fd_cells (fdt (ep ls)) r) with (@nil cell).
    by destruct (v =? OBJM_PROTO_V1); rewrite !app_nil_r. }
  rewrite Hcells in Hrx.
  assert (Hbody : forall r0 e, rd_sched e `suffix_of` rd_sched (ep lc) -> rx e = [] -> peer_closed e = false ->
    rs_metadata_len r0 = 0 -> rs_status r0 = 0 -> rs_content_len r0 = 0 -> recv_response_body r0 (Link e (cn lc)) = Blocked).
  { intros r0 e Hsf Hr0 Hp0 M0 S0 C0. unfold recv_response_body. rewrite M0. simpl (_ <? _). cbv iota.
    unfold recv_response_fd. rewrite S0, C0. simpl (_ && _). cbv iota. apply bind_Blocked, onep_Blocked. unfold recv_fd, mbind, M_bind.
    unfold sys_recvmsg_fd. simpl. rewrite Hr0, Hp0. assert (Hq : quiet (rd_sched e)) by eauto with objm.
    destruct (rd_sched e) as [|ev l]; [done|]. inversion Hq as [|?? [k ->] _]; subst. done. }
  destruct Hv as [->| ->]; simpl (_ =? _) in *; cbv iota in *.
  - destruct (onep_recv_all (response_header_v1 r) [] lc (quiet_no_fail _ Hqr) Hrx) as (w2 & H2 & Hs2). run H2. by apply Hbody.
  - destruct (onep_recv_all (response_header_v2 r) [] lc (quiet_no_fail _ Hqr) Hrx) as (w2 & H2 & Hs2). run H2.
    change (bz (buf_at (response_header_v2 r) 0)) with 2. simpl (negb _). cbv iota. by apply Hbody.
Qed.

Lemma ok_without_descriptor_stalls_witness :
  exists ls', objm_server_send_response (Some (Response 4 OBJM_STATUS_OK (-1) 0 None 0 None)) (sample_link true OBJM_PROTO_V1 []) = Ret 0 ls' /\
    objm_client_recv_response true (sample_link false OBJM_PROTO_V1 (plain <$> replicate 11 x00)) = Blocked.
Proof.
  destruct (ok_without_descriptor_stalls OBJM_PROTO_V1 4 (sample_link true OBJM_PROTO_V1 [])
    (sample_link false OBJM_PROTO_V1 (plain <$> replicate 11 x00))) as (ls' & sent & H1 & Htx & H2).
  - apply sample_speaks. by left.
  - apply sample_speaks. by left.
  - apply sample_calm.
  - apply sample_calm.
  - lia.
  - reflexivity.
  - exists ls'. split; [exact H1|]. apply H2.
    pose proof H1 as Hl. vm_compute in Hl. injection Hl as <-. simpl in Htx. rewrite <- Htx. reflexivity.
Defined.

(** ** Capability names *)

(** [objm_capability_names] stops respecting [size] once the text is longer:
    [size - written] wraps around as a [size_t], and the second name is written
    behind a buffer that is already full.  Five bytes and two capabilities
    suffice. *)
Theorem capability_names_overflow :
  objm_capability_names (Z.lor OBJM_CAP_OOO_REPLIES OBJM_CAP_PIPELINING) (replicate 5 x00) 5 tt = Fault.
Proof. vm_compute. reflexivity. Qed.

(** One name appended to a text; the flag says that the text is empty. *)
Definition add_name (caps bit : Z) (name : list byte) (st : list byte * bool) : list byte * bool :=
  if Z.land caps bit =? 0 then st else (st.1 ++ (if st.2 then [] else bs "|") ++ name, false).

(** The names of the set capabilities, separated by bars. *)
Definition capability_text (caps : Z) : list byte :=
  (add_name caps OBJM_CAP_MULTIPLEXING (bs "MULTIPLEXING")
    (add_name caps OBJM_CAP_COMPRESSION (bs "COMPRESSION")
      (add_name caps OBJM_CAP_PIPELINING (bs "PIPELINING")
        (add_name caps OBJM_CAP_OOO_REPLIES (bs "OOO_REPLIES") ([], true))))).1.

(** The buffer holds the text, terminated once it is not empty. *)
Definition holds_text (n : nat) (buf : list byte) (st : list byte * bool) : Prop :=
  length buf = n /\ take (length st.1) buf = st.1 /\ (st.1 <> [] -> buf !! length st.1 = Some x00).

Lemma add_name_length caps bit name st :
  (length (add_name caps bit name st).1 <= length st.1 + 1 + length name)%nat.
Proof.
  unfold add_name. destruct (_ =? 0); simpl; [lia|]. rewrite !length_app. destruct st.2; simpl; lia.
Qed.

Lemma cap_piece_ok {S0} bit name caps n buf st (s : S0) :
  Z.of_nat n < 2 ^ 64 -> holds_text n buf st -> (length st.1 + 1 + length name < n)%nat ->
  exists buf', cap_piece bit name caps (Z.of_nat n) (buf, Z.of_nat (length st.1), st.2) s =
      Ret (buf', Z.of_nat (length (add_name caps bit name st).1), (add_name caps bit name st).2) s /\
    holds_text n buf' (add_name caps bit name st).
Proof.
  intros Hn (Hlen & Htake & Hnul) Hfit. unfold cap_piece, add_name. destruct st as [text first]. simpl in *.
  destruct (Z.land caps bit =? 0) eqn:E; simpl; [exists buf; done|].
  assert (Hadd : (length ((if first then [] else bs "|") ++ name) <= 1 + length name)%nat)
    by (rewrite length_app; destruct first; simpl; lia).
  generalize dependent ((if first then [] else bs "|") ++ name). intros add Hadd.
  rewrite u64_small by lia. destruct (Z.of_nat n - Z.of_nat (length text) =? 0) eqn:E0; [apply Z.eqb_eq in E0; lia|].
  assert (Hsn : snprintf_text (Z.of_nat n - Z.of_nat (length text)) add = add).
  { unfold snprintf_text. apply take_ge. lia. }
  rewrite Hsn. unfold buf_write. rewrite (length_app add [x00]). change (length [x00]) with 1%nat.
  destruct ((0 <=? Z.of_nat (length text)) && _) eqn:E1;
    [|apply andb_false_iff in E1 as [E1|E1]; apply Z.leb_gt in E1; lia].
  simpl deref. rewrite bind_ret_l, Nat2Z.id, Htake, <- (app_assoc add), app_assoc. eexists. split.
  - rewrite length_app, Nat2Z.inj_add. reflexivity.
  - unfold holds_text. simpl. split; [|split].
    + rewrite !length_app. simpl. rewrite length_drop. lia.
    + apply take_app_length.
    + intros _. rewrite lookup_app_r by lia. by rewrite Nat.sub_diag.
Qed.

(** A buffer of at least 49 bytes holds every set of capabilities: the
    names of the set ones separated by bars, terminated unless there are none,
    their length returned and nothing written outside. *)
Theorem capability_names_text {S0} caps buf (s : S0) :
  49 <= Z.of_nat (length buf) < 2 ^ 64 ->
  exists buf', objm_capability_names caps buf (Z.of_nat (length buf)) s =
      Ret (buf', Z.of_nat (length (capability_text caps))) s /\
    length buf' = length buf /\ take (length (capability_text caps)) buf' = capability_text caps /\
    (capability_text caps <> [] -> buf' !! length (capability_text caps) = Some x00).
Proof.
  intros Hsz. unfold objm_capability_names, capability_text, mbind, M_bind.
  pose proof (add_name_length caps OBJM_CAP_OOO_REPLIES (bs "OOO_REPLIES") ([], true)) as L1.
  destruct (cap_piece_ok OBJM_CAP_OOO_REPLIES (bs "OOO_REPLIES") caps (length buf) buf ([], true) s)
    as (b1 & E1 & H1); [lia|done|simpl; lia|].
  cbn [fst snd length] in E1. change (Z.of_nat 0) with 0 in E1. rewrite E1. clear E1.
  revert H1 L1. generalize (add_name caps OBJM_CAP_OOO_REPLIES (bs "OOO_REPLIES") ([], true)). intros t1 H1 L1.
  pose proof (add_name_length caps OBJM_CAP_PIPELINING (bs "PIPELINING") t1) as L2.
  destruct (cap_piece_ok OBJM_CAP_PIPELINING (bs "PIPELINING") caps (length buf) b1 t1 s)
    as (b2 & -> & H2); [lia|done|simpl in *; lia|].
  revert H2 L2. generalize (add_name caps OBJM_CAP_PIPELINING (bs "PIPELINING") t1). intros t2 H2 L2.
  pose proof (add_name_length caps OBJM_CAP_COMPRESSION (bs "COMPRESSION") t2) as L3.
  destruct (cap_piece_ok OBJM_CAP_COMPRESSION (bs "COMPRESSION") caps (length buf) b2 t2 s)
    as (b3 & -> & H3); [lia|done|simpl in *; lia|].
  revert H3 L3. generalize (add_name caps OBJM_CAP_COMPRESSION (bs "COMPRESSION") t2). intros t3 H3 L3.
  destruct (cap_piece_ok OBJM_CAP_MULTIPLEXING (bs "MULTIPLEXING") caps (length buf) b3 t3 s)
    as (b4 & -> & H4 & H5 & H6); [lia|done|simpl in *; lia|].
  exists b4. done.
Qed.

Lemma capability_names_text_witness :
  49 <= Z.of_nat (length (replicate 64 x00)) < 2 ^ 64 /\
  exists buf', objm_capability_names 15 (replicate 64 x00) 64 tt = Ret (buf', 47) tt /\
    take 47 buf' = bs "OOO_REPLIES|PIPELINING|COMPRESSION|MULTIPLEXING".
Proof.
  split; [vm_compute; split; [discriminate|reflexivity]|].
  destruct (capability_names_text 15 (replicate 64 x00) tt) as (buf' & H1 & _ & H2 & _);
    [vm_compute; split; [discriminate|reflexivity]|].
  exists buf'. split; [exact H1 | exact H2].
Defined.
