(* ===== verification/Kernel.v ===== *)
(** * Kernel: files, descriptors, clock and allocator as the server uses them

    The POSIX state behind [index.c], [backend.c] and [server.c]: the directory
    tree, the file contents, the open file descriptions, the process's
    descriptor table, the monotonic clock and the allocator.  A schedule of
    [io_event]s says how the kernel answers the next calls that may fail for a
    reason outside this state (permissions, space, interrupted transfers): the
    theorems either quantify over it or say that it is empty.  Symbolic links
    are not represented. *)

From S2P Require Import Prelude Socket.

(** ** State *)

(** What a path names: a directory, or a regular file by inode number. *)
Inductive node := Dir | File (ino : Z).

#[global] Instance node_eq_dec : EqDecision node.
Proof. solve_decision. Defined.

(** A path from the root as its components, the last one first. *)
Definition key : Type := list (list byte).
#[global] Instance key_eq_dec : EqDecision key := _.
#[global] Instance key_countable : Countable key := _.

(** An open file description; [o_ino] is [None] for a directory. *)
Record ofd := Ofd { o_ino : option Z; o_pos : nat; o_rd : bool; o_wr : bool }.

Record kernel := Kernel {
  names : gmap key node;         (* the root is the empty key *)
  inodes : gmap Z (list byte);   (* contents of the regular files *)
  ofds : gmap Z ofd;             (* open file descriptions *)
  fdtab : gmap Z Z;              (* descriptor -> open file description *)
  sched : list io_event;         (* answers to the next calls; then: success *)
  ticks : list Z;                (* microseconds before the next clock readings *)
  now : Z;                       (* CLOCK_MONOTONIC, in microseconds *)
  k_oom : list bool;             (* do the next allocations succeed?; then: yes *)
  cwd : key                      (* current directory *)
}.

Definition set_names (n : gmap key node) (k : kernel) : kernel :=
  Kernel n (inodes k) (ofds k) (fdtab k) (sched k) (ticks k) (now k) (k_oom k) (cwd k).
Definition set_inodes (i : gmap Z (list byte)) (k : kernel) : kernel :=
  Kernel (names k) i (ofds k) (fdtab k) (sched k) (ticks k) (now k) (k_oom k) (cwd k).
Definition set_ofds (o : gmap Z ofd) (k : kernel) : kernel :=
  Kernel (names k) (inodes k) o (fdtab k) (sched k) (ticks k) (now k) (k_oom k) (cwd k).
Definition set_fdtab (f : gmap Z Z) (k : kernel) : kernel :=
  Kernel (names k) (inodes k) (ofds k) f (sched k) (ticks k) (now k) (k_oom k) (cwd k).
Definition set_sched (l : list io_event) (k : kernel) : kernel :=
  Kernel (names k) (inodes k) (ofds k) (fdtab k) l (ticks k) (now k) (k_oom k) (cwd k).
Definition set_clock (l : list Z) (t : Z) (k : kernel) : kernel :=
  Kernel (names k) (inodes k) (ofds k) (fdtab k) (sched k) l t (k_oom k) (cwd k).
Definition set_k_oom (l : list bool) (k : kernel) : kernel :=
  Kernel (names k) (inodes k) (ofds k) (fdtab k) (sched k) (ticks k) (now k) l (cwd k).

(** The number a new inode or description gets: not in use. *)
Definition fresh_id {A} (m : gmap Z A) : Z := lowest_free m.

(** ** Path resolution *)

Definition NAME_MAX : nat := 255.
Definition PATH_MAX : Z := 4096.

(** The pieces of a path between the slashes. *)
Fixpoint split_slash (p : list byte) : list (list byte) :=
  match p with
  | [] => [[]]
  | b :: p =>
      if decide (b = "/"%byte) then [] :: split_slash p
      else match split_slash p with
           | c :: cs => (b :: c) :: cs
           | [] => [[b]]
           end
  end.

Definition is_dir (k : kernel) (d : key) : bool :=
  match d with [] => true | _ => bool_decide (names k !! d = Some Dir) end.

(** Every component but the last must be a directory; ["."], [".."] and empty
    components are resolved away (a trailing slash asks for a directory). *)
Fixpoint walk (k : kernel) (cur : key) (cs : list (list byte)) : option key :=
  match cs with
  | [] => Some cur
  | c :: cs =>
      if is_dir k cur then
        if decide (c = []) then walk k cur cs
        else if decide (c = bs ".") then walk k cur cs
        else if decide (c = bs "..") then walk k (tail cur) cs
        else if decide (length c <= NAME_MAX)%nat then walk k (c :: cur) cs
        else None
      else None
  end.

Definition resolve (k : kernel) (p : list byte) : option key :=
  if decide (p = []) then None
  else if PATH_MAX <=? Z.of_nat (length p) then None
  else match p with
       | b :: _ => if decide (b = "/"%byte) then walk k [] (split_slash p)
                   else walk k (cwd k) (split_slash p)
       | [] => None
       end.

(** What a resolved key names; the root is a directory. *)
Definition node_at (k : kernel) (d : key) : option node :=
  match d with [] => Some Dir | _ => names k !! d end.

(** ** System calls *)

(** Does the kernel refuse this call for a reason outside the model? *)
Definition refused : M kernel bool := fun k =>
  match sched k with
  | [] => Ret false k
  | IoPartial _ :: w => Ret false (set_sched w k)
  | _ :: w => Ret true (set_sched w k)
  end.

(** Install a new open file description under the lowest free descriptor. *)
Definition install (o : ofd) : M kernel Z := fun k =>
  let id := fresh_id (ofds k) in
  let fd := lowest_free (fdtab k) in
  Ret fd (set_fdtab (<[fd:=id]> (fdtab k)) (set_ofds (<[id:=o]> (ofds k)) k)).

Definition O_RDONLY := (true, false).
Definition O_WRONLY := (false, true).
Definition O_RDWR := (true, true).

(** [open(path, mode | O_CREAT? | O_TRUNC?)]. *)
Definition sys_open (path : list byte) (mode : bool * bool) (creat trunc : bool) : M kernel Z :=
  r ← refused;
  k ← get;
  if (r : bool) then mret (-1)
  else match resolve k path with
       | None => mret (-1)
       | Some d =>
           match node_at k d with
           | Some Dir => if mode.2 || creat then mret (-1) else install (Ofd None 0 true false)
           | Some (File i) =>
               _ ← (if trunc then modify (fun k => set_inodes (<[i:=[]]> (inodes k)) k) else mret ());
               install (Ofd (Some i) 0 mode.1 mode.2)
           | None =>
               if creat then
                 let i := fresh_id (inodes k) in
                 _ ← modify (fun k => set_names (<[d:=File i]> (names k)) (set_inodes (<[i:=[]]> (inodes k)) k));
                 install (Ofd (Some i) 0 mode.1 mode.2)
               else mret (-1)
           end
       end.

(** [close]: on a descriptor that is not open, nothing happens (EBADF). *)
Definition sys_close_fd (fd : Z) : M kernel () :=
  modify (fun k => set_fdtab (delete fd (fdtab k)) k).

(** [dup]: the new descriptor shares the open file description. *)
Definition sys_dup (fd : Z) : M kernel Z :=
  r ← refused;
  k ← get;
  match fdtab k !! fd with
  | Some o => if (r : bool) then mret (-1)
              else let n := lowest_free (fdtab k) in
                   _ ← put (set_fdtab (<[n:=o]> (fdtab k)) k); mret n
  | None => mret (-1)
  end.

Definition sys_unlink (path : list byte) : M kernel Z :=
  r ← refused;
  k ← get;
  match resolve k path with
  | Some d =>
      match node_at k d with
      | Some (File _) =>
          if (r : bool) then mret (-1)
          else _ ← put (set_names (delete d (names k)) k); mret 0
      | _ => mret (-1)
      end
  | None => mret (-1)
  end.

(** [mkdir] ignores slashes at the end of the path. *)
Fixpoint strip_slashes (p : list byte) : list byte :=
  match p with
  | b :: q => if decide (b = "/"%byte) then strip_slashes q else p
  | [] => []
  end.
Definition chomp (p : list byte) : list byte :=
  match rev (strip_slashes (rev p)) with [] => take 1 p | q => q end.

Inductive mkdir_result := MkOk | MkExists | MkError.

Definition sys_mkdir (path : list byte) : M kernel mkdir_result :=
  r ← refused;
  k ← get;
  if (r : bool) then mret MkError
  else match resolve k (chomp path) with
       | None => mret MkError
       | Some d =>
           match node_at k d with
           | Some _ => mret MkExists
           | None => _ ← put (set_names (<[d:=Dir]> (names k)) k); mret MkOk
           end
       end.

(** [rename] of a regular file over nothing or over another regular file. *)
Definition sys_rename (old new : list byte) : M kernel Z :=
  r ← refused;
  k ← get;
  match resolve k old, resolve k new with
  | Some d, Some d' =>
      match node_at k d, node_at k d' with
      | Some (File i), (None | Some (File _)) =>
          if (r : bool) then mret (-1)
          else _ ← put (set_names (<[d':=File i]> (delete d (names k))) k); mret 0
      | _, _ => mret (-1)
      end
  | _, _ => mret (-1)
  end.

(** [stat]: the kind of node and, for a regular file, its size. *)
Inductive stat_result := StDir | StReg (size : Z).

Definition sys_stat (path : list byte) : M kernel (option stat_result) :=
  r ← refused;
  k ← get;
  if (r : bool) then mret None
  else match resolve k path ≫= node_at k with
       | Some Dir => mret (Some StDir)
       | Some (File i) => mret (Some (StReg (Z.of_nat (length (default [] (inodes k !! i))))))
       | None => mret None
       end.

(** [opendir] and the names [readdir] then returns, besides ["."] and [".."];
    POSIX leaves their order open. *)
Definition children (k : kernel) (d : key) : list (list byte) :=
  omap (fun p : key * node => match p.1 with c :: d' => if decide (d' = d) then Some c else None | [] => None end)
       (map_to_list (names k)).

Definition sys_opendir (path : list byte) : M kernel (option (list (list byte))) :=
  r ← refused;
  k ← get;
  if (r : bool) then mret None
  else match resolve k path with
       | Some d => if is_dir k d then mret (Some (children k d)) else mret None
       | None => mret None
       end.

(** Contents after writing [d] at offset [pos]; a gap reads as zeros. *)
Definition write_at (old : list byte) (pos : nat) (d : list byte) : list byte :=
  take pos (old ++ replicate (pos - length old) x00) ++ d ++ drop (pos + length d) old.

(** The description behind a descriptor. *)
Definition ofd_of (k : kernel) (fd : Z) : option (Z * ofd) :=
  o ← fdtab k !! fd; e ← ofds k !! o; Some (o, e).

Definition set_pos (n : nat) (e : ofd) : ofd := Ofd (o_ino e) n (o_rd e) (o_wr e).

(** One [write] or [sendfile] call transfers at most this many bytes. *)
Definition MAX_RW_COUNT : Z := 2147479552.

Definition sys_fwrite (fd : Z) (d : list byte) : M kernel (nat + errno) := fun k =>
  let go n w :=
    match ofd_of k fd with
    | Some (o, Ofd (Some i) pos rd true as e) =>
        let d' := take (Z.to_nat (Z.min (Z.of_nat n) MAX_RW_COUNT)) d in
        Ret (inl (length d'))
            (set_sched w (set_ofds (<[o:=set_pos (pos + length d') e]> (ofds k))
              (set_inodes (<[i:=write_at (default [] (inodes k !! i)) pos d']> (inodes k)) k)))
    | _ => Ret (inr EIO) (set_sched w k)
    end in
  match sched k with
  | [] => go (length d) []
  | IoPartial n :: w => go n w
  | IoEintr :: w => Ret (inr EINTR) (set_sched w k)
  | IoFail :: w => Ret (inr EIO) (set_sched w k)
  end.

Definition sys_fread (fd : Z) (len : nat) : M kernel (list byte + errno) := fun k =>
  let go n w :=
    match ofd_of k fd with
    | Some (o, Ofd (Some i) pos true wr as e) =>
        let d := take n (drop pos (default [] (inodes k !! i))) in
        Ret (inl d) (set_sched w (set_ofds (<[o:=set_pos (pos + length d) e]> (ofds k)) k))
    | _ => Ret (inr EIO) (set_sched w k)
    end in
  match sched k with
  | [] => go len []
  | IoPartial n :: w => go (Nat.min (S n) len) w
  | IoEintr :: w => Ret (inr EINTR) (set_sched w k)
  | IoFail :: w => Ret (inr EIO) (set_sched w k)
  end.

(** [sendfile(out, in, &off, count)] with [off = 0]: one call, which transfers
    at most [MAX_RW_COUNT] bytes and may stop early; the number of bytes copied
    or -1. *)
Definition sys_sendfile (dst src : Z) (count : Z) : M kernel Z := fun k =>
  let go lim w :=
    match ofd_of k dst, ofd_of k src with
    | Some (o, Ofd (Some i) pos rd true as e), Some (_, Ofd (Some j) _ true _) =>
        let data := default [] (inodes k !! j) in
        let n := Z.to_nat (Z.min (Z.min (u64 count) MAX_RW_COUNT) (Z.of_nat (length data))) in
        let d := take (match lim with Some m => Nat.min m n | None => n end) data in
        Ret (Z.of_nat (length d))
            (set_sched w (set_ofds (<[o:=set_pos (pos + length d) e]> (ofds k))
              (set_inodes (<[i:=write_at (default [] (inodes k !! i)) pos d]> (inodes k)) k)))
    | _, _ => Ret (-1) (set_sched w k)
    end in
  match sched k with
  | [] => go None []
  | IoPartial n :: w => go (Some n) w
  | _ :: w => Ret (-1) (set_sched w k)
  end.

(** [fstat]. *)
Definition sys_fstat (fd : Z) : M kernel (option stat_result) :=
  r ← refused;
  k ← get;
  if (r : bool) then mret None
  else match ofd_of k fd with
       | Some (_, Ofd (Some i) _ _ _) => mret (Some (StReg (Z.of_nat (length (default [] (inodes k !! i))))))
       | Some (_, Ofd None _ _ _) => mret (Some StDir)
       | None => mret None
       end.

(** [lseek(fd, 0, SEEK_END)] moves the position of the shared description; what it
    returns for a directory depends on the file system. *)
Definition sys_seek_end (dir_end : Z) (fd : Z) : M kernel Z := fun k =>
  match ofd_of k fd with
  | Some (o, Ofd (Some i) _ _ _ as e) =>
      let n := length (default [] (inodes k !! i)) in
      Ret (Z.of_nat n) (set_ofds (<[o:=set_pos n e]> (ofds k)) k)
  | Some _ => Ret dir_end k
  | None => Ret (-1) k
  end.

(** [lseek(fd, 0, SEEK_SET)]. *)
Definition sys_rewind (fd : Z) : M kernel () := fun k =>
  match ofd_of k fd with
  | Some (o, e) => Ret () (set_ofds (<[o:=set_pos 0 e]> (ofds k)) k)
  | None => Ret () k
  end.

(** [clock_gettime(CLOCK_MONOTONIC)], in microseconds; the clock never goes back. *)
Definition sys_clock : M kernel Z := fun k =>
  match ticks k with
  | [] => Ret (now k) k
  | t :: l => let n := now k + Z.abs t in Ret n (set_clock l n k)
  end.

Definition sys_malloc : M kernel bool := fun k =>
  match k_oom k with
  | [] => Ret true k
  | b :: o => Ret b (set_k_oom o k)
  end.
