(* ===== verification/KernelProofs.v ===== *)
(** * KernelProofs: files and directories

    Shared facts about the file system model: which paths name the files of a
    directory, the well-formedness every system call keeps, and what the calls
    do when the kernel refuses nothing. *)

From S2P Require Import Prelude Socket Kernel.

(** ** Path resolution *)

Lemma walk_names k k' : (forall d, is_dir k' d = is_dir k d) -> forall cs cur, walk k' cur cs = walk k cur cs.
Proof. intros Hn cs. induction cs as [|c cs IH]; intros cur; simpl; [done|]. by rewrite Hn, !IH. Qed.

Lemma resolve_names k k' p : (forall d, is_dir k' d = is_dir k d) -> cwd k' = cwd k -> resolve k' p = resolve k p.
Proof. intros Hn Hc. unfold resolve. destruct p; repeat case_match; try done; rewrite ?Hc; by apply walk_names. Qed.

Lemma walk_app k cs1 cs2 cur : walk k cur (cs1 ++ cs2) = d ← walk k cur cs1; walk k d cs2.
Proof. revert cur. induction cs1 as [|c cs1 IH]; intros cur; simpl; [done|]. repeat case_match; by rewrite ?IH. Qed.

Lemma split_slash_ne p : split_slash p <> [].
Proof. destruct p as [|b p]; simpl; [done|]. case_decide; [done|]. by destruct (split_slash p). Qed.

Lemma split_slash_app p q : split_slash (p ++ "/"%byte :: q) = split_slash p ++ split_slash q.
Proof.
  induction p as [|b p IH]; simpl.
  - done.
  - rewrite IH. case_decide; [done|]. pose proof (split_slash_ne p). by destruct (split_slash p).
Qed.

Lemma split_slash_plain p : "/"%byte ∉ p -> split_slash p = [p].
Proof.
  induction p as [|b p IH]; intros Hn; simpl; [done|]. apply not_elem_of_cons in Hn as [Hb Hp].
  rewrite decide_False by congruence. by rewrite IH.
Qed.

(** A file name: one component of a path, not special, and not too long. *)
Definition plain_name (u : list byte) : Prop :=
  u <> [] /\ u <> bs "." /\ u <> bs ".." /\ (length u <= NAME_MAX)%nat /\ "/"%byte ∉ u.

#[global] Instance plain_name_dec u : Decision (plain_name u).
Proof. unfold plain_name. apply _. Defined.

(** Path [b] names the directory [D]. *)
Definition dir_at (k : kernel) (b : list byte) (D : key) : Prop := resolve k b = Some D /\ is_dir k D = true.

Lemma dir_at_names k k' b D : (forall d, is_dir k' d = is_dir k d) -> cwd k' = cwd k -> dir_at k b D -> dir_at k' b D.
Proof. intros Hn Hc [H1 H2]. split; [by rewrite (resolve_names k)|by rewrite Hn]. Qed.

(** The name [u] in the directory [D]. *)
Definition child (D : key) (u : list byte) : key := u :: D.

Lemma child_inj D u v : child D u = child D v -> u = v.
Proof. by intros [= ->]. Qed.

Lemma resolve_child k b D u :
  dir_at k b D -> plain_name u -> Z.of_nat (length (b ++ bs "/" ++ u)) < PATH_MAX ->
  resolve k (b ++ bs "/" ++ u) = Some (child D u).
Proof.
  unfold child. intros [Hr Hd] (H1 & H2 & H3 & H4 & H5) Hl. change (bs "/" ++ u) with ("/"%byte :: u) in *.
  assert (Hw : forall cur, walk k cur (split_slash b) = Some D -> walk k cur (split_slash (b ++ "/"%byte :: u)) = Some (u :: D)).
  { intros cur Hw. rewrite split_slash_app, walk_app, Hw. simpl. rewrite (split_slash_plain u H5). simpl. rewrite Hd.
    by rewrite !decide_False, decide_True by done. }
  unfold resolve in *. destruct b as [|c b]; [done|]. simpl app in *.
  rewrite decide_False by done. rewrite decide_False in Hr by done.
  rewrite (proj2 (Z.leb_gt _ _)) by lia. destruct (PATH_MAX <=? Z.of_nat (length (c :: b))); [done|].
  case_decide; by apply Hw.
Qed.

(** ** Well-formedness *)

(** No two names for one file, no dangling references. *)
Record fs_ok (k : kernel) : Prop := {
  fo_inj : forall d1 d2 i, names k !! d1 = Some (File i) -> names k !! d2 = Some (File i) -> d1 = d2;
  fo_file : forall d i, names k !! d = Some (File i) -> is_Some (inodes k !! i);
  fo_ofd : forall o e i, ofds k !! o = Some e -> o_ino e = Some i -> is_Some (inodes k !! i);
  fo_fd : forall fd o, fdtab k !! fd = Some o -> is_Some (ofds k !! o)
}.

Lemma fresh_id_None {A} (m : gmap Z A) : m !! fresh_id m = None.
Proof. apply lowest_free_None. Qed.

(** No call is refused and memory does not run out. *)
Definition willing (k : kernel) : Prop := sched k = [] /\ k_oom k = [].

Lemma fs_ok_close fd k : fs_ok k -> fs_ok (set_fdtab (delete fd (fdtab k)) k).
Proof. intros [H1 H2 H3 H4]. split; simpl; try done. intros f o Hf. apply lookup_delete_Some in Hf as [_ Hf]. eauto. Qed.

Lemma fs_ok_fd fd o k : fs_ok k -> is_Some (ofds k !! o) -> fs_ok (set_fdtab (<[fd:=o]> (fdtab k)) k).
Proof.
  intros [H1 H2 H3 H4] Ho. split; simpl; try done. intros f o' Hf.
  apply lookup_insert_Some in Hf as [[_ <-]|[_ Hf]]; eauto.
Qed.

Lemma fs_ok_inode i d k : fs_ok k -> fs_ok (set_inodes (<[i:=d]> (inodes k)) k).
Proof.
  intros [H1 H2 H3 H4]. assert (Hm : forall j, is_Some (inodes k !! j) -> is_Some (<[i:=d]> (inodes k) !! j)).
  { intros j Hj. destruct (decide (i = j)) as [->|]; [by rewrite lookup_insert_eq|by rewrite lookup_insert_ne]. }
  split; simpl; eauto.
Qed.

Lemma fs_ok_ofd o e k : fs_ok k -> (forall i, o_ino e = Some i -> is_Some (inodes k !! i)) -> fs_ok (set_ofds (<[o:=e]> (ofds k)) k).
Proof.
  intros [H1 H2 H3 H4] He. split; simpl; try done.
  - intros o' e' i Ho. apply lookup_insert_Some in Ho as [[_ <-]|[_ Ho]]; eauto.
  - intros fd o' Hf. destruct (decide (o = o')) as [->|]; [by rewrite lookup_insert_eq|]. rewrite lookup_insert_ne by done. eauto.
Qed.

Lemma fs_ok_unlink d k : fs_ok k -> fs_ok (set_names (delete d (names k)) k).
Proof.
  intros [H1 H2 H3 H4]. split; simpl; try done.
  - intros d1 d2 i [_ A]%lookup_delete_Some [_ B]%lookup_delete_Some. eauto.
  - intros d1 i [_ A]%lookup_delete_Some. eauto.
Qed.

(** A new name for a new file. *)
Lemma fs_ok_create d k : fs_ok k ->
  let i := fresh_id (inodes k) in fs_ok (set_names (<[d:=File i]> (names k)) (set_inodes (<[i:=[]]> (inodes k)) k)).
Proof.
  intros Hk i. assert (Hi : forall d', names k !! d' <> Some (File i)).
  { intros d' Hd. apply (fo_file _ Hk) in Hd as [x Hx]. unfold i in Hx. by rewrite fresh_id_None in Hx. }
  apply (fs_ok_inode i []) in Hk as Hk'. split; simpl; [| |apply Hk'|apply Hk'].
  - intros d1 d2 j H1 H2. apply lookup_insert_Some in H1 as [[<- [= <-]]|[N1 H1]], H2 as [[<- E]|[N2 H2]]; try done.
    + by apply Hi in H2.
    + injection E as <-. by apply Hi in H1.
    + by eapply (fo_inj _ Hk).
  - intros d1 j H1. apply lookup_insert_Some in H1 as [[_ [= <-]]|[_ H1]]; [by rewrite lookup_insert_eq|].
    eapply (fo_file _ Hk'). exact H1.
Qed.

(** Files do not make or unmake directories. *)
Lemma is_dir_add_file k d i : names k !! d <> Some Dir -> forall x, is_dir (set_names (<[d:=File i]> (names k)) k) x = is_dir k x.
Proof.
  intros Hd [|c x]; [done|]. unfold is_dir. simpl. destruct (decide (c :: x = d)) as [<-|]; [|by rewrite lookup_insert_ne].
  rewrite lookup_insert_eq. rewrite !bool_decide_eq_false_2 by done. done.
Qed.

Lemma is_dir_del_file k d i : names k !! d = Some (File i) -> forall x, is_dir (set_names (delete d (names k)) k) x = is_dir k x.
Proof.
  intros Hd [|c x]; [done|]. unfold is_dir. simpl. destruct (decide (c :: x = d)) as [<-|]; [|by rewrite lookup_delete_ne].
  rewrite lookup_delete_eq, Hd. rewrite !bool_decide_eq_false_2 by done. done.
Qed.

(** ** Reading and writing *)

Lemma write_at_end old d : write_at old (length old) d = old ++ d.
Proof.
  unfold write_at. rewrite Nat.sub_diag. simpl. rewrite app_nil_r, take_ge by lia. rewrite drop_ge by lia. by rewrite app_nil_r.
Qed.

(** ** Calls on a willing kernel *)

(** The file at [d] made empty, or a new empty file. *)
Definition touch (d : key) (k : kernel) : Z * kernel :=
  match names k !! d with
  | Some (File i) => (i, set_inodes (<[i:=[]]> (inodes k)) k)
  | _ => let i := fresh_id (inodes k) in
         (i, set_names (<[d:=File i]> (names k)) (set_inodes (<[i:=[]]> (inodes k)) k))
  end.

Lemma touch_spec d k : fs_ok k -> names k !! d <> Some Dir ->
  let '(i, k') := touch d k in
  fs_ok k' /\ names k' !! d = Some (File i) /\ (forall x, x <> d -> names k' !! x = names k !! x) /\
  inodes k' !! i = Some [] /\ (forall x j, names k !! x = Some (File j) -> x <> d -> i <> j) /\
  (forall j, j <> i -> inodes k' !! j = inodes k !! j) /\ (forall x, is_dir k' x = is_dir k x) /\
  ofds k' = ofds k /\ fdtab k' = fdtab k /\ sched k' = sched k /\ k_oom k' = k_oom k /\ cwd k' = cwd k.
Proof.
  intros Hk Hd. unfold touch. destruct (names k !! d) as [[|i]|] eqn:E; [done| |].
  - split; [by apply fs_ok_inode|]. simpl. split; [done|]. split; [done|]. split; [apply lookup_insert_eq|].
    split; [|split; [intros; by rewrite lookup_insert_ne|done]].
    intros x j Hx Hne ->. apply Hne. by eapply (fo_inj _ Hk).
  - split; [by apply fs_ok_create|]. simpl. split; [apply lookup_insert_eq|]. split; [intros; by rewrite lookup_insert_ne|].
    split; [apply lookup_insert_eq|]. split; [|split; [intros; by rewrite lookup_insert_ne|]].
    + intros x j Hx _ <-. apply (fo_file _ Hk) in Hx as [y Hy]. by rewrite fresh_id_None in Hy.
    + split; [|done]. intros x. rewrite <- (is_dir_add_file k d (fresh_id (inodes k)) ltac:(congruence) x). done.
Qed.

(** The descriptor [open] returns, on a new description. *)
Definition with_ofd (e : ofd) (k : kernel) : kernel :=
  set_fdtab (<[lowest_free (fdtab k):=fresh_id (ofds k)]> (fdtab k)) (set_ofds (<[fresh_id (ofds k):=e]> (ofds k)) k).

Lemma node_at_ne k (d : key) : d <> [] -> node_at k d = names k !! d.
Proof. by destruct d. Qed.

Lemma open_touch p m (d : key) k :
  willing k -> resolve k p = Some d -> d <> [] -> names k !! d <> Some Dir ->
  let '(i, k') := touch d k in
  sys_open p m true true k = Ret (lowest_free (fdtab k)) (with_ofd (Ofd (Some i) 0 m.1 m.2) k').
Proof.
  intros [Hs Hm] Hr Hne Hd. unfold touch, sys_open, mbind, M_bind, refused, get. rewrite Hs, Hr, node_at_ne by done.
  by destruct (names k !! d) as [[|i]|].
Qed.

Lemma open_existing p m (d : key) i k :
  willing k -> resolve k p = Some d -> d <> [] -> names k !! d = Some (File i) ->
  sys_open p m false false k = Ret (lowest_free (fdtab k)) (with_ofd (Ofd (Some i) 0 m.1 m.2) k).
Proof.
  intros [Hs Hm] Hr Hne Hd. unfold sys_open, mbind, M_bind, refused, get. by rewrite Hs, Hr, node_at_ne, Hd.
Qed.

Lemma fs_ok_with_ofd e k : fs_ok k -> (forall i, o_ino e = Some i -> is_Some (inodes k !! i)) -> fs_ok (with_ofd e k).
Proof.
  intros Hk He. unfold with_ofd. apply (fs_ok_ofd (fresh_id (ofds k)) e) in Hk; [|done].
  apply (fs_ok_fd (lowest_free (fdtab k)) (fresh_id (ofds k))) in Hk; [done|]. simpl. by rewrite lookup_insert_eq.
Qed.

Lemma ofd_with_ofd e k : ofd_of (with_ofd e k) (lowest_free (fdtab k)) = Some (fresh_id (ofds k), e).
Proof. unfold ofd_of, with_ofd. simpl. rewrite lookup_insert_eq. simpl. by rewrite lookup_insert_eq. Qed.

(** One [write] behind everything written before. *)
Lemma fwrite_append fd o i rd old d k :
  sched k = [] -> ofd_of k fd = Some (o, Ofd (Some i) (length old) rd true) -> inodes k !! i = Some old ->
  Z.of_nat (length d) <= MAX_RW_COUNT ->
  sys_fwrite fd d k = Ret (inl (length d))
    (set_ofds (<[o:=Ofd (Some i) (length (old ++ d)) rd true]> (ofds k)) (set_inodes (<[i:=old ++ d]> (inodes k)) k)).
Proof.
  intros Hs Ho Hi Hl. unfold sys_fwrite. rewrite Hs, Ho. rewrite Z.min_l, Nat2Z.id, (take_ge d) by lia.
  rewrite Hi. simpl default. rewrite write_at_end. rewrite length_app. destruct k. simpl in *. by subst.
Qed.

(** One [read] of at most [n] bytes from a readable description. *)
Lemma fread_chunk fd o i pos wr d n k :
  sched k = [] -> ofd_of k fd = Some (o, Ofd (Some i) pos true wr) -> inodes k !! i = Some d ->
  let c := take n (drop pos d) in
  sys_fread fd n k = Ret (inl c) (set_ofds (<[o:=Ofd (Some i) (pos + length c) true wr]> (ofds k)) k).
Proof.
  intros Hs Ho Hi. unfold sys_fread. rewrite Hs, Ho, Hi. simpl. destruct k. simpl in *. by subst.
Qed.

Lemma unlink_file p (d : key) i k :
  willing k -> resolve k p = Some d -> d <> [] -> names k !! d = Some (File i) ->
  sys_unlink p k = Ret 0 (set_names (delete d (names k)) k).
Proof.
  intros [Hs Hm] Hr Hne Hd. unfold sys_unlink, mbind, M_bind, refused, get. by rewrite Hs, Hr, node_at_ne, Hd.
Qed.

Lemma dup_ok fd o k : sched k = [] -> fdtab k !! fd = Some o ->
  sys_dup fd k = Ret (lowest_free (fdtab k)) (set_fdtab (<[lowest_free (fdtab k):=o]> (fdtab k)) k).
Proof. intros Hs Ho. unfold sys_dup, mbind, M_bind, refused, get. by rewrite Hs, Ho. Qed.

Lemma delete_lowest_free {A} (m : gmap Z A) x : delete (lowest_free m) (<[lowest_free m:=x]> m) = m.
Proof. apply delete_insert_id, lowest_free_None. Qed.

(** ** Storing a whole file: open, write, close *)

(** The kernel after a file at [d] has been written with [data]. *)
Definition stored (d : key) (data : list byte) (rd : bool) (k : kernel) : kernel :=
  let '(i, k1) := touch d k in
  set_inodes (<[i:=data]> (inodes k1)) (set_ofds (<[fresh_id (ofds k):=Ofd (Some i) (length data) rd true]> (ofds k1)) k1).

Lemma store_file p rd (d : key) data k :
  willing k -> fs_ok k -> resolve k p = Some d -> d <> [] -> names k !! d <> Some Dir ->
  Z.of_nat (length data) <= MAX_RW_COUNT ->
  exists k1 k2, sys_open p (rd, true) true true k = Ret (lowest_free (fdtab k)) k1 /\
    sys_fwrite (lowest_free (fdtab k)) data k1 = Ret (inl (length data)) k2 /\
    sys_close_fd (lowest_free (fdtab k)) k2 = Ret () (stored d data rd k).
Proof.
  intros Hw Hk Hr Hne Hd Hl. pose proof (open_touch p (rd, true) d k Hw Hr Hne Hd) as Ho. pose proof (touch_spec _ _ Hk Hd) as Ht.
  unfold stored. destruct (touch d k) as [i k1] eqn:Et. destruct Ht as (T1 & T2 & T3 & T4 & T5 & T6 & T7 & T8 & T9 & T10 & T11 & T12).
  simpl in Ho. eexists _, _. split; [exact Ho|].
  assert (Hof : ofd_of (with_ofd (Ofd (Some i) 0 rd true) k1) (lowest_free (fdtab k)) = Some (fresh_id (ofds k1), Ofd (Some i) 0 rd true))
    by (rewrite <- T9; apply ofd_with_ofd).
  split.
  - apply (fwrite_append _ (fresh_id (ofds k1)) i rd []); [|exact Hof|done|done]. simpl. by rewrite T10, (proj1 Hw).
  - unfold sys_close_fd, modify. f_equal. unfold with_ofd. rewrite T9, T8. destruct k1 as [n1 in1 o1 f1 s1 t1 w1 m1 c1]. simpl in *.
    unfold set_inodes, set_ofds, set_fdtab. simpl. subst. rewrite insert_insert_eq, delete_lowest_free. done.
Qed.

Lemma stored_spec d data rd k : fs_ok k -> names k !! d <> Some Dir ->
  fs_ok (stored d data rd k) /\
  (exists i, names (stored d data rd k) !! d = Some (File i) /\ inodes (stored d data rd k) !! i = Some data /\
    (forall x j, names k !! x = Some (File j) -> x <> d -> i <> j) /\
    (forall j, j <> i -> inodes (stored d data rd k) !! j = inodes k !! j)) /\
  (forall x, x <> d -> names (stored d data rd k) !! x = names k !! x) /\
  (forall x, is_dir (stored d data rd k) x = is_dir k x) /\
  (forall o, is_Some (ofds k !! o) -> ofds (stored d data rd k) !! o = ofds k !! o) /\
  fdtab (stored d data rd k) = fdtab k /\ sched (stored d data rd k) = sched k /\ k_oom (stored d data rd k) = k_oom k /\
  cwd (stored d data rd k) = cwd k.
Proof.
  intros Hk Hd. pose proof (touch_spec _ _ Hk Hd) as Ht. unfold stored. destruct (touch d k) as [i k1].
  destruct Ht as (T1 & T2 & T3 & T4 & T5 & T6 & T7 & T8 & T9 & T10 & T11 & T12).
  assert (Hofd : fs_ok (set_ofds (<[fresh_id (ofds k):=Ofd (Some i) (length data) rd true]> (ofds k1)) k1)).
  { apply fs_ok_ofd; [done|]. simpl. intros j [= <-]. eauto. }
  split; [by apply (fs_ok_inode i data) in Hofd|]. split; [|split; [|split; [|split]]]; simpl; try done.
  - exists i. split; [done|]. split; [apply lookup_insert_eq|]. split; [done|]. intros j Hj. rewrite lookup_insert_ne by done. auto.
  - intros o [e He]. rewrite T8. rewrite lookup_insert_ne; [done|]. intros <-. by rewrite fresh_id_None in He.
Qed.

(** ** Two processes *)

(** The process of [k] sees the files of [k']. *)
Definition share (k k' : kernel) : kernel :=
  Kernel (names k') (inodes k') (ofds k') (fdtab k) (sched k) (ticks k) (now k) (k_oom k) (cwd k).

Lemma share_back k k' : share k k' = k -> share k' k = k'.
Proof. destruct k, k'. unfold share. simpl. intros [= -> -> ->]. done. Qed.

(** ** Descriptions *)

Lemma ofd_of_Some k fd o e : ofd_of k fd = Some (o, e) <-> fdtab k !! fd = Some o /\ ofds k !! o = Some e.
Proof.
  unfold ofd_of. destruct (fdtab k !! fd) as [x|]; simpl; [|split; [done|by intros [? _]]].
  destruct (ofds k !! x) as [y|] eqn:E; simpl; split; [intros [= -> ->]; done|intros [[= ->] ?]; congruence|done|intros [[= ->] ?]; congruence].
Qed.

(** Moving the description [o] moves its descriptors, and only those. *)
Lemma ofd_of_move k k' o e fd o' e' :
  ofds k' = <[o:=e]> (ofds k) -> fdtab k' = fdtab k -> ofd_of k fd = Some (o', e') ->
  ofd_of k' fd = Some (o', if decide (o' = o) then e else e').
Proof.
  intros H1 H2 [H3 H4]%ofd_of_Some. apply ofd_of_Some. rewrite H1, H2. split; [done|].
  case_decide; [subst; apply lookup_insert_eq|]. by rewrite lookup_insert_ne.
Qed.
