(* ===== verification/Index.v ===== *)
(** * Index: the hash indexes of lib/index

    [index.c] and the types of [index.h]: entries in a heap addressed by
    pointers, with the one [next] field that every table links through; the
    global index, the per-backend index with its on-disk format; entry and
    descriptor reference counts.  Each definition is one C function (a loop is a
    [Fixpoint] of its own).  An access through a freed or invalid pointer, or
    outside a bucket array, is a [Fault]; a walk of a cyclic chain, which never
    ends, is [Blocked]. *)

From stdpp Require Import sorting.
From S2P Require Import Prelude Socket Kernel.

(** ** IEEE arithmetic *)

(** [(double)z], and a literal [a/b] rounded to the nearest [double]. *)
Definition dbl (z : Z) : spec_float := binary_normalize 53 1024 z 0 false.
Definition ddiv (a b : spec_float) : spec_float := SFdiv 53 1024 a b.
Definition dlit (a b : Z) : spec_float := ddiv (dbl a) (dbl b).

(** ** Constants and types (index.h) *)

Definition INDEX_MAGIC : list byte := bs "OBJIDX".
Definition INDEX_VERSION : Z := 1.
Definition INDEX_FLAG_EPHEMERAL : Z := 1.
Definition INDEX_FLAG_PERSISTENT : Z := 2.

(** An [index_entry_t *] (and every other pointer) is a number; 0 is NULL. *)
Definition ptr : Type := Z.
Definition NULL : ptr := 0.

Record index_entry := Entry {
  uri : list byte;
  uri_hash : Z;
  backend_id : Z;
  backend_path : option (list byte);   (* [None]: NULL *)
  e_fd : Z;
  fd_refcount : Z;
  fd_generation : Z;
  size_bytes : Z;
  mtime : Z;
  flags : Z;
  access_count : Z;
  last_access : Z;
  hotness_score : spec_float;
  entry_refcount : Z;
  next : ptr
}.

Record fd_ref_t := FdRef { fr_entry : ptr; fr_fd : Z; fr_generation : Z }.

Record global_index := GlobalIndex {
  g_buckets : gmap Z ptr;      (* a bucket not listed is NULL *)
  g_num_buckets : Z;
  g_num_entries : Z;
  g_max_open_fds : Z;
  g_num_open_fds : Z;
  g_lookups : Z;
  g_hits : Z;
  g_misses : Z;
  g_fd_cache_hits : Z;
  g_fd_opens : Z;
  g_fd_closes : Z;
  g_fd_evictions : Z
}.

Record backend_index := BackendIndex {
  b_backend_id : Z;
  b_buckets : gmap Z ptr;
  b_num_buckets : Z;
  b_num_entries : Z;
  index_file_path : option (list byte);
  persist_enabled : bool;
  dirty : bool;
  b_lookups : Z;
  b_hits : Z
}.

Record index_stats_t := IndexStats {
  st_num_entries : Z; st_num_open_fds : Z; st_lookups : Z; st_hits : Z; st_misses : Z;
  st_fd_cache_hits : Z; st_fd_opens : Z; st_fd_closes : Z; st_fd_evictions : Z;
  st_hit_rate : spec_float; st_fd_cache_rate : spec_float
}.

(** The process: the kernel, the live objects and the next address. *)
Record world := World {
  kern : kernel;
  ents : gmap ptr index_entry;
  gidxs : gmap ptr global_index;
  bidxs : gmap ptr backend_index;
  brk : ptr;                     (* every live object is below *)
  w_junk : byte                  (* contents of uninitialised locals *)
}.

Definition set_kern (k : kernel) (w : world) : world :=
  World k (ents w) (gidxs w) (bidxs w) (brk w) (w_junk w).
Definition set_ents (h : gmap ptr index_entry) (w : world) : world :=
  World (kern w) h (gidxs w) (bidxs w) (brk w) (w_junk w).
Definition set_gidxs (h : gmap ptr global_index) (w : world) : world :=
  World (kern w) (ents w) h (bidxs w) (brk w) (w_junk w).
Definition set_bidxs (h : gmap ptr backend_index) (w : world) : world :=
  World (kern w) (ents w) (gidxs w) h (brk w) (w_junk w).
Definition set_brk (p : ptr) (w : world) : world :=
  World (kern w) (ents w) (gidxs w) (bidxs w) p (w_junk w).

(** A system call made by the process. *)
Definition onk {A} (m : M kernel A) : M world A := fun w =>
  match m (kern w) with
  | Ret a k => Ret a (set_kern k w)
  | Blocked => Blocked
  | Fault => Fault
  end.

Definition rd_entry (e : ptr) : M world index_entry := fun w => deref (ents w !! e) w.
Definition upd_entry (e : ptr) (f : index_entry -> index_entry) : M world () := fun w =>
  match ents w !! e with
  | Some x => Ret () (set_ents (<[e:=f x]> (ents w)) w)
  | None => Fault
  end.
Definition rd_g (i : ptr) : M world global_index := fun w => deref (gidxs w !! i) w.
Definition upd_g (i : ptr) (f : global_index -> global_index) : M world () := fun w =>
  match gidxs w !! i with
  | Some x => Ret () (set_gidxs (<[i:=f x]> (gidxs w)) w)
  | None => Fault
  end.
Definition rd_b (i : ptr) : M world backend_index := fun w => deref (bidxs w !! i) w.
Definition upd_b (i : ptr) (f : backend_index -> backend_index) : M world () := fun w =>
  match bidxs w !! i with
  | Some x => Ret () (set_bidxs (<[i:=f x]> (bidxs w)) w)
  | None => Fault
  end.

(** [buckets[i]] of an array of [n]. *)
Definition bucket_get (b : gmap Z ptr) (n i : Z) : option ptr :=
  if (0 <=? i) && (i <? n) then Some (default NULL (b !! i)) else None.

(** Field updates. *)
Definition set_next (p : ptr) (e : index_entry) : index_entry :=
  Entry (uri e) (uri_hash e) (backend_id e) (backend_path e) (e_fd e) (fd_refcount e) (fd_generation e)
    (size_bytes e) (mtime e) (flags e) (access_count e) (last_access e) (hotness_score e) (entry_refcount e) p.
Definition set_refcount (n : Z) (e : index_entry) : index_entry :=
  Entry (uri e) (uri_hash e) (backend_id e) (backend_path e) (e_fd e) (fd_refcount e) (fd_generation e)
    (size_bytes e) (mtime e) (flags e) (access_count e) (last_access e) (hotness_score e) n (next e).
Definition set_fd (n : Z) (e : index_entry) : index_entry :=
  Entry (uri e) (uri_hash e) (backend_id e) (backend_path e) n (fd_refcount e) (fd_generation e)
    (size_bytes e) (mtime e) (flags e) (access_count e) (last_access e) (hotness_score e) (entry_refcount e) (next e).
Definition set_fd_refcount (n : Z) (e : index_entry) : index_entry :=
  Entry (uri e) (uri_hash e) (backend_id e) (backend_path e) (e_fd e) n (fd_generation e)
    (size_bytes e) (mtime e) (flags e) (access_count e) (last_access e) (hotness_score e) (entry_refcount e) (next e).
Definition set_fd_generation (n : Z) (e : index_entry) : index_entry :=
  Entry (uri e) (uri_hash e) (backend_id e) (backend_path e) (e_fd e) (fd_refcount e) n
    (size_bytes e) (mtime e) (flags e) (access_count e) (last_access e) (hotness_score e) (entry_refcount e) (next e).
Definition set_meta (size mt fl : Z) (e : index_entry) : index_entry :=
  Entry (uri e) (uri_hash e) (backend_id e) (backend_path e) (e_fd e) (fd_refcount e) (fd_generation e)
    size mt fl (access_count e) (last_access e) (hotness_score e) (entry_refcount e) (next e).
Definition set_access (n t : Z) (e : index_entry) : index_entry :=
  Entry (uri e) (uri_hash e) (backend_id e) (backend_path e) (e_fd e) (fd_refcount e) (fd_generation e)
    (size_bytes e) (mtime e) (flags e) n t (hotness_score e) (entry_refcount e) (next e).
Definition set_backend (id : Z) (p : option (list byte)) (e : index_entry) : index_entry :=
  Entry (uri e) (uri_hash e) id p (e_fd e) (fd_refcount e) (fd_generation e)
    (size_bytes e) (mtime e) (flags e) (access_count e) (last_access e) (hotness_score e) (entry_refcount e) (next e).

Definition set_g_table (b : gmap Z ptr) (n : Z) (g : global_index) : global_index :=
  GlobalIndex b (g_num_buckets g) n (g_max_open_fds g) (g_num_open_fds g) (g_lookups g) (g_hits g) (g_misses g)
    (g_fd_cache_hits g) (g_fd_opens g) (g_fd_closes g) (g_fd_evictions g).
Definition set_g_open (n : Z) (g : global_index) : global_index :=
  GlobalIndex (g_buckets g) (g_num_buckets g) (g_num_entries g) (g_max_open_fds g) n (g_lookups g) (g_hits g)
    (g_misses g) (g_fd_cache_hits g) (g_fd_opens g) (g_fd_closes g) (g_fd_evictions g).
Definition set_g_stats (l h m : Z) (g : global_index) : global_index :=
  GlobalIndex (g_buckets g) (g_num_buckets g) (g_num_entries g) (g_max_open_fds g) (g_num_open_fds g) l h m
    (g_fd_cache_hits g) (g_fd_opens g) (g_fd_closes g) (g_fd_evictions g).
Definition set_b_table (b : gmap Z ptr) (n : Z) (d : bool) (i : backend_index) : backend_index :=
  BackendIndex (b_backend_id i) b (b_num_buckets i) n (index_file_path i) (persist_enabled i) d (b_lookups i) (b_hits i).
Definition set_b_stats (l h : Z) (i : backend_index) : backend_index :=
  BackendIndex (b_backend_id i) (b_buckets i) (b_num_buckets i) (b_num_entries i) (index_file_path i)
    (persist_enabled i) (dirty i) l h.

(** ** Helpers *)

Definition get_monotonic_us : M world Z := t ← onk sys_clock; mret (u64 t).

(** FNV-1a over the characters of a C string. *)
Definition FNV_OFFSET : Z := 14695981039346656037.
Definition FNV_PRIME : Z := 1099511628211.
Definition fnv_step (hash : Z) (c : byte) : Z := u64 (Z.lxor hash (bz c) * FNV_PRIME).
Definition index_hash_string (str : list byte) : Z := foldl fnv_step FNV_OFFSET str.

(** [n |= n >> k]. *)
Definition smear (n k : Z) : Z := Z.lor n (Z.shiftr n k).
Definition index_next_power_of_2 (n : Z) : Z :=
  let n := u64 (n - 1) in
  let n := smear n 1 in
  let n := smear n 2 in
  let n := smear n 4 in
  let n := smear n 8 in
  let n := smear n 16 in
  let n := smear n 32 in
  u64 (n + 1).

(** [hash & (num_buckets - 1)] on [size_t]. *)
Definition bucket_of (hash num_buckets : Z) : Z := Z.land hash (u64 (num_buckets - 1)).

(** ** Entries *)

Definition alloc_ptr : M world ptr := fun w => Ret (brk w) (set_brk (brk w + 1) w).

Definition index_entry_create (u : list byte) (bid : Z) (path : list byte) : M world ptr :=
  m0 ← onk sys_malloc;
  if negb m0 then mret NULL
  else
    m1 ← onk sys_malloc;
    m2 ← onk sys_malloc;
    if negb m1 || negb m2 then mret NULL
    else
      p ← alloc_ptr;
      _ ← modify (fun w => set_ents (<[p := Entry u (index_hash_string u) (u32 bid) (Some path) (-1) 0 0
                                              0 0 0 0 0 (S754_zero false) 1 NULL]> (ents w)) w);
      mret p.

Definition index_entry_get (entry : ptr) : M world () :=
  if entry =? NULL then mret ()
  else upd_entry entry (fun e => set_refcount (s32 (entry_refcount e + 1)) e).

Definition index_entry_put (entry : ptr) : M world () :=
  if entry =? NULL then mret ()
  else
    e ← rd_entry entry;
    let prev := entry_refcount e in
    _ ← upd_entry entry (set_refcount (s32 (prev - 1)));
    if prev =? 1 then
      _ ← (if 0 <=? e_fd e then onk (sys_close_fd (e_fd e)) else mret ());
      modify (fun w => set_ents (delete entry (ents w)) w)
    else mret ().

(** [open] on a NULL path fails with EFAULT. *)
Definition open_path (path : option (list byte)) (mode : bool * bool) : M world Z :=
  match path with
  | Some p => onk (sys_open p mode false false)
  | None => mret (-1)
  end.

(** The compare-and-exchange cannot lose against another thread here. *)
Definition index_entry_open_fd (entry : ptr) : M world Z :=
  if entry =? NULL then mret (-1)
  else
    e ← rd_entry entry;
    if 0 <=? e_fd e then mret 0
    else
      fd ← open_path (backend_path e) O_RDONLY;
      if fd <? 0 then mret (-1)
      else
        e' ← rd_entry entry;
        if e_fd e' =? -1 then _ ← upd_entry entry (set_fd fd); mret 0
        else _ ← onk (sys_close_fd fd); mret 0.

Definition index_entry_close_fd (entry : ptr) : M world () :=
  if entry =? NULL then mret ()
  else
    e ← rd_entry entry;
    if 0 <? fd_refcount e then mret ()
    else
      let fd := e_fd e in
      _ ← upd_entry entry (set_fd (-1));
      if 0 <=? fd then
        _ ← onk (sys_close_fd fd);
        upd_entry entry (fun e => set_fd_generation (s32 (fd_generation e + 1)) e)
      else mret ().

Definition index_entry_record_access (entry : ptr) : M world () :=
  if entry =? NULL then mret ()
  else
    e ← rd_entry entry;
    _ ← upd_entry entry (fun e => set_access (u64 (access_count e + 1)) (last_access e) e);
    t ← get_monotonic_us;
    upd_entry entry (fun e => set_access (access_count e) t e).

(** ** Descriptor references *)

(** [None] is a NULL handle; the handle's new value is returned. *)
Definition fd_ref_acquire (r : option fd_ref_t) : M world (Z * option fd_ref_t) :=
  match r with
  | None => mret (-1, r)
  | Some ref =>
      let entry := fr_entry ref in
      if entry =? NULL then mret (-1, r)
      else
        let slow :=
          rc ← index_entry_open_fd entry;
          if rc <? 0 then mret (-1, r)
          else
            _ ← upd_entry entry (fun e => set_fd_refcount (s32 (fd_refcount e + 1)) e);
            e ← rd_entry entry;
            mret (e_fd e, Some (FdRef entry (e_fd e) (fd_generation e))) in
        e ← rd_entry entry;
        if 0 <=? e_fd e then
          _ ← upd_entry entry (fun e => set_fd_refcount (s32 (fd_refcount e + 1)) e);
          e1 ← rd_entry entry;
          if 0 <=? e_fd e1 then mret (e_fd e1, Some (FdRef entry (e_fd e1) (fd_generation e1)))
          else _ ← upd_entry entry (fun e => set_fd_refcount (s32 (fd_refcount e - 1)) e); slow
        else slow
  end.

Definition fd_ref_release (r : option fd_ref_t) : M world (option fd_ref_t) :=
  match r with
  | None => mret r
  | Some ref =>
      let entry := fr_entry ref in
      if entry =? NULL then mret r
      else
        _ ← (if 0 <=? fr_fd ref then
               _ ← onk (sys_close_fd (fr_fd ref));
               upd_entry entry (fun e => set_fd_refcount (s32 (fd_refcount e - 1)) e)
             else mret ());
        _ ← index_entry_put entry;
        mret (Some (FdRef NULL (-1) (fr_generation ref)))
  end.

Definition fd_ref_dup (r : option fd_ref_t) : M world Z :=
  match r with
  | None => mret (-1)
  | Some ref => if fr_fd ref <? 0 then mret (-1) else onk (sys_dup (fr_fd ref))
  end.

(** ** Chains *)

(** [while (entry)]: the first entry with this hash and URI.  A walk longer than
    the number of live entries has met one of them twice. *)
Fixpoint chain_find (fuel : nat) (entry : ptr) (hash : Z) (u : list byte) : M world ptr :=
  if entry =? NULL then mret NULL
  else match fuel with
       | O => block
       | S fuel =>
           e ← rd_entry entry;
           if (uri_hash e =? hash) && bool_decide (uri e = u) then mret entry
           else chain_find fuel (next e) hash u
       end.

Definition chain_fuel (w : world) : nat := S (size (ents w)).

Definition find_in (head : ptr) (hash : Z) (u : list byte) : M world ptr := fun w =>
  chain_find (chain_fuel w) head hash u w.

(** The [prev_next] cursor of the removal loops: [None] is the bucket itself. *)
Fixpoint chain_find_prev (fuel : nat) (prev : option ptr) (entry : ptr) (hash : Z) (u : list byte)
  : M world (option (option ptr * ptr)) :=
  if entry =? NULL then mret None
  else match fuel with
       | O => block
       | S fuel =>
           e ← rd_entry entry;
           if (uri_hash e =? hash) && bool_decide (uri e = u) then mret (Some (prev, entry))
           else chain_find_prev fuel (Some entry) (next e) hash u
       end.

Definition find_prev_in (head : ptr) (hash : Z) (u : list byte) : M world (option (option ptr * ptr)) := fun w =>
  chain_find_prev (chain_fuel w) None head hash u w.

(** ** Global index *)

Definition empty_global (nb mx : Z) : global_index := GlobalIndex ∅ nb 0 mx 0 0 0 0 0 0 0 0.

Definition global_index_create (num_buckets max_open_fds : Z) : M world ptr :=
  m0 ← onk sys_malloc;
  if negb m0 then mret NULL
  else
    m1 ← onk sys_malloc;
    if negb m1 then mret NULL
    else
      p ← alloc_ptr;
      _ ← modify (fun w => set_gidxs (<[p := empty_global (index_next_power_of_2 num_buckets) max_open_fds]> (gidxs w)) w);
      mret p.

(** Release every entry of a chain.  A walk that meets an entry again goes round
    until that entry's count is used up, and then reads freed memory. *)
Fixpoint put_chain (fuel : nat) (entry : ptr) : M world () :=
  if entry =? NULL then mret ()
  else match fuel with
       | O => fault
       | S fuel =>
           e ← rd_entry entry;
           _ ← index_entry_put entry;
           put_chain fuel (next e)
       end.

(** [for (i = 0; i < num_buckets; i++)]; an empty bucket is skipped, so the
    buckets the array lists are visited in order. *)
Definition bucket_heads (b : gmap Z ptr) (num_buckets : Z) : list ptr :=
  omap (fun i => b !! i) (filter (fun i => 0 <= i < num_buckets) (merge_sort Z.le (map_to_list b).*1)).

Fixpoint put_chains (heads : list ptr) : M world () :=
  match heads with
  | [] => mret ()
  | h :: heads => _ ← (fun w => put_chain (chain_fuel w) h w); put_chains heads
  end.

Definition global_index_destroy (idx : ptr) : M world () :=
  if idx =? NULL then mret ()
  else
    g ← rd_g idx;
    _ ← put_chains (bucket_heads (g_buckets g) (g_num_buckets g));
    modify (fun w => set_gidxs (delete idx (gidxs w)) w).

Definition global_index_lookup (idx : ptr) (u : option (list byte)) (fd_ref : bool) : M world (Z * option fd_ref_t) :=
  match u with
  | None => mret (-1, None)
  | Some u =>
      if (idx =? NULL) || negb fd_ref then mret (-1, None)
      else
        _ ← upd_g idx (fun g => set_g_stats (u64 (g_lookups g + 1)) (g_hits g) (g_misses g) g);
        g ← rd_g idx;
        let hash := index_hash_string u in
        head ← deref (bucket_get (g_buckets g) (g_num_buckets g) (bucket_of hash (g_num_buckets g)));
        entry ← find_in head hash u;
        if entry =? NULL then
          _ ← upd_g idx (fun g => set_g_stats (g_lookups g) (g_hits g) (u64 (g_misses g + 1)) g);
          mret (-1, None)
        else
          _ ← index_entry_get entry;
          e ← rd_entry entry;
          fd ← match backend_path e with
               | None => mret (-1)
               | Some p =>
                   fd ← onk (sys_open p O_RDWR false false);
                   if fd <? 0 then onk (sys_open p O_RDONLY false false) else mret fd
               end;
          _ ← index_entry_record_access entry;
          _ ← (if 0 <=? fd then upd_entry entry (fun e => set_fd_refcount (s32 (fd_refcount e + 1)) e) else mret ());
          _ ← upd_g idx (fun g => set_g_stats (g_lookups g) (u64 (g_hits g + 1)) (g_misses g) g);
          mret (0, Some (FdRef entry fd 0))
  end.

Definition global_index_insert (idx entry : ptr) : M world Z :=
  if (idx =? NULL) || (entry =? NULL) then mret (-1)
  else
    g ← rd_g idx;
    e ← rd_entry entry;
    let bucket := bucket_of (uri_hash e) (g_num_buckets g) in
    head ← deref (bucket_get (g_buckets g) (g_num_buckets g) bucket);
    existing ← find_in head (uri_hash e) (uri e);
    if negb (existing =? NULL) then mret (-1)
    else
      _ ← upd_entry entry (set_next head);
      _ ← upd_g idx (fun g => set_g_table (<[bucket:=entry]> (g_buckets g)) (u64 (g_num_entries g + 1)) g);
      mret 0.

(** [atomic_store(prev_next, next)]. *)
Definition g_link (idx : ptr) (bucket : Z) (prev : option ptr) (n : ptr) : M world () :=
  match prev with
  | None => upd_g idx (fun g => set_g_table (<[bucket:=n]> (g_buckets g)) (g_num_entries g) g)
  | Some p => upd_entry p (set_next n)
  end.

Definition global_index_remove (idx : ptr) (u : option (list byte)) : M world Z :=
  match u with
  | None => mret (-1)
  | Some u =>
      if idx =? NULL then mret (-1)
      else
        g ← rd_g idx;
        let hash := index_hash_string u in
        let bucket := bucket_of hash (g_num_buckets g) in
        head ← deref (bucket_get (g_buckets g) (g_num_buckets g) bucket);
        found ← find_prev_in head hash u;
        match found with
        | None => mret (-1)
        | Some (prev, entry) =>
            e ← rd_entry entry;
            _ ← g_link idx bucket prev (next e);
            _ ← upd_entry entry (set_fd (-1));
            _ ← (if 0 <=? e_fd e then
                   _ ← onk (sys_close_fd (e_fd e));
                   upd_g idx (fun g => set_g_open (u64 (g_num_open_fds g - 1)) g)
                 else mret ());
            _ ← index_entry_put entry;
            _ ← upd_g idx (fun g => set_g_table (g_buckets g) (u64 (g_num_entries g - 1)) g);
            mret 0
        end
  end.

Definition global_index_update_backend (idx : ptr) (u : option (list byte)) (bid : Z) (path : option (list byte)) : M world Z :=
  match u, path with
  | Some _, Some path =>
      if idx =? NULL then mret (-1)
      else
        r ← global_index_lookup idx u true;
        match r with
        | (rc, Some ref) =>
            if rc <? 0 then mret (-1)
            else
              let entry := fr_entry ref in
              e ← rd_entry entry;
              _ ← upd_entry entry (set_fd (-1));
              _ ← (if 0 <=? e_fd e then
                     _ ← onk (sys_close_fd (e_fd e));
                     _ ← upd_g idx (fun g => set_g_open (u64 (g_num_open_fds g - 1)) g);
                     upd_entry entry (fun e => set_fd_generation (s32 (fd_generation e + 1)) e)
                   else mret ());
              m ← onk sys_malloc;
              _ ← upd_entry entry (set_backend (u32 bid) (if m : bool then Some path else None));
              _ ← fd_ref_release (Some ref);
              mret 0
        | (_, None) => mret (-1)
        end
  | _, _ => mret (-1)
  end.

Definition global_index_get_stats (idx : ptr) : M world (option index_stats_t) :=
  if idx =? NULL then mret None
  else
    g ← rd_g idx;
    mret (Some (IndexStats (g_num_entries g) (g_num_open_fds g) (g_lookups g) (g_hits g) (g_misses g)
      (g_fd_cache_hits g) (g_fd_opens g) (g_fd_closes g) (g_fd_evictions g)
      (if 0 <? g_lookups g then ddiv (dbl (g_hits g)) (dbl (g_lookups g)) else S754_zero false)
      (if 0 <? g_fd_opens g then ddiv (dbl (g_fd_cache_hits g)) (dbl (g_fd_opens g)) else S754_zero false))).

(** ** Backend index *)

Definition backend_index_create (bid : Z) (path : option (list byte)) (num_buckets : Z) : M world ptr :=
  m0 ← onk sys_malloc;
  if negb m0 then mret NULL
  else
    file ← match path with
           | Some p => m ← onk sys_malloc; mret (if m : bool then Some p else None)
           | None => mret None
           end;
    m1 ← onk sys_malloc;
    if negb m1 then mret NULL
    else
      p ← alloc_ptr;
      _ ← modify (fun w => set_bidxs (<[p := BackendIndex (u32 bid) ∅ (index_next_power_of_2 num_buckets) 0 file
                                               (bool_decide (is_Some path)) false 0 0]> (bidxs w)) w);
      mret p.

Definition backend_index_destroy (idx : ptr) : M world () :=
  if idx =? NULL then mret ()
  else
    b ← rd_b idx;
    _ ← put_chains (bucket_heads (b_buckets b) (b_num_buckets b));
    modify (fun w => set_bidxs (delete idx (bidxs w)) w).

Definition backend_index_insert (idx entry : ptr) : M world Z :=
  if (idx =? NULL) || (entry =? NULL) then mret (-1)
  else
    b ← rd_b idx;
    e ← rd_entry entry;
    let bucket := bucket_of (uri_hash e) (b_num_buckets b) in
    _ ← index_entry_get entry;
    head ← deref (bucket_get (b_buckets b) (b_num_buckets b) bucket);
    _ ← upd_entry entry (set_next head);
    _ ← upd_b idx (fun b => set_b_table (<[bucket:=entry]> (b_buckets b)) (u64 (b_num_entries b + 1)) true b);
    mret 0.

Definition backend_index_lookup (idx : ptr) (u : option (list byte)) : M world ptr :=
  match u with
  | None => mret NULL
  | Some u =>
      if idx =? NULL then mret NULL
      else
        _ ← upd_b idx (fun b => set_b_stats (u64 (b_lookups b + 1)) (b_hits b) b);
        b ← rd_b idx;
        let hash := index_hash_string u in
        head ← deref (bucket_get (b_buckets b) (b_num_buckets b) (bucket_of hash (b_num_buckets b)));
        entry ← find_in head hash u;
        if entry =? NULL then mret NULL
        else
          _ ← upd_b idx (fun b => set_b_stats (b_lookups b) (u64 (b_hits b + 1)) b);
          mret entry
  end.

Definition b_link (idx : ptr) (bucket : Z) (prev : option ptr) (n : ptr) : M world () :=
  match prev with
  | None => upd_b idx (fun b => set_b_table (<[bucket:=n]> (b_buckets b)) (b_num_entries b) (dirty b) b)
  | Some p => upd_entry p (set_next n)
  end.

Definition backend_index_remove (idx : ptr) (u : option (list byte)) : M world Z :=
  match u with
  | None => mret (-1)
  | Some u =>
      if idx =? NULL then mret (-1)
      else
        b ← rd_b idx;
        let hash := index_hash_string u in
        let bucket := bucket_of hash (b_num_buckets b) in
        head ← deref (bucket_get (b_buckets b) (b_num_buckets b) bucket);
        found ← find_prev_in head hash u;
        match found with
        | None => mret (-1)
        | Some (prev, entry) =>
            e ← rd_entry entry;
            _ ← b_link idx bucket prev (next e);
            _ ← index_entry_put entry;
            _ ← upd_b idx (fun b => set_b_table (b_buckets b) (u64 (b_num_entries b - 1)) true b);
            mret 0
        end
  end.

(** ** Persistence *)

(** The CRC table as written: four values, the rest of the array is zero. *)
Definition crc32_table (i : Z) : Z :=
  if i =? 1 then 0x77073096 else if i =? 2 then 0xee0e612c else if i =? 3 then 0x990951ba else 0.
Definition crc32_step (crc : Z) (b : byte) : Z :=
  Z.lxor (Z.shiftr crc 8) (crc32_table (Z.land (Z.lxor crc (bz b)) 0xff)).
Definition crc32 (crc : Z) (buf : list byte) : Z :=
  u32 (Z.lnot (foldl crc32_step (u32 (Z.lnot crc)) buf)).

Fixpoint write_all_loop (fuel : nat) (fd : Z) (d : list byte) (written : Z) : M kernel Z :=
  match d with
  | [] => mret written
  | _ =>
      match fuel with
      | O => block
      | S fuel =>
          n ← sys_fwrite fd d;
          match n with
          | inl n => write_all_loop fuel fd (drop n d) (written + Z.of_nat n)
          | inr EINTR => write_all_loop fuel fd d written
          | inr EIO => mret (-1)
          end
      end
  end.

(** Each call uses up an event of the schedule or writes everything. *)
Definition write_all (fd : Z) (d : list byte) : M kernel Z := fun k =>
  write_all_loop (S (length (sched k))) fd d 0 k.

Fixpoint read_all_loop (fuel : nat) (fd : Z) (acc : list byte) (remaining : nat) : M kernel (Z * list byte) :=
  match remaining with
  | O => mret (Z.of_nat (length acc), acc)
  | _ =>
      match fuel with
      | O => block
      | S fuel =>
          r ← sys_fread fd remaining;
          match r with
          | inl [] => mret (Z.of_nat (length acc), acc)
          | inl d => read_all_loop fuel fd (acc ++ d) (remaining - length d)
          | inr EINTR => read_all_loop fuel fd acc remaining
          | inr EIO => mret (-1, acc)
          end
      end
  end.

(** The return value and the bytes stored in the buffer: after the schedule
    each call reads to the end of the request or of the file, then a last call
    sees the end of the file. *)
Definition read_all (fd : Z) (len : Z) : M kernel (Z * list byte) := fun k =>
  read_all_loop (S (S (length (sched k)))) fd [] (Z.to_nat len) k.

(** The 32 bytes of the header structure: four bytes of padding after
    [backend_id]. *)
Definition index_header (junk : byte) (bid n nb : Z) : list byte :=
  INDEX_MAGIC ++ le_bytes 2 INDEX_VERSION ++ le_bytes 4 bid ++ replicate 4 junk ++ le_bytes 8 n ++ le_bytes 8 nb.

(** One entry of the file; the length fields keep 16 bits and bound what is
    written of the strings. *)
Definition entry_fields (e : index_entry) (path : list byte) : list (list byte) :=
  let uri_len := u16 (Z.of_nat (length (uri e))) in
  let path_len := u16 (Z.of_nat (length path)) in
  [le_bytes 2 uri_len; take (Z.to_nat uri_len) (uri e);
   le_bytes 2 path_len; take (Z.to_nat path_len) path;
   le_bytes 8 (size_bytes e); le_bytes 8 (mtime e); le_bytes 4 (flags e)].

(** The results of these writes are not checked. *)
Fixpoint write_fields (fd : Z) (l : list (list byte)) : M kernel () :=
  match l with
  | [] => mret ()
  | d :: l => _ ← write_all fd d; write_fields fd l
  end.

Fixpoint save_chain (fuel : nat) (fd : Z) (entry : ptr) : M world () :=
  if entry =? NULL then mret ()
  else match fuel with
       | O => block
       | S fuel =>
           e ← rd_entry entry;
           path ← deref (backend_path e);
           _ ← onk (write_fields fd (entry_fields e path));
           save_chain fuel fd (next e)
       end.

Fixpoint save_chains (fd : Z) (heads : list ptr) : M world () :=
  match heads with
  | [] => mret ()
  | h :: heads => _ ← (fun w => save_chain (chain_fuel w) fd h w); save_chains fd heads
  end.

Definition set_dirty (d : bool) (b : backend_index) : backend_index :=
  set_b_table (b_buckets b) (b_num_entries b) d b.

Definition backend_index_save (idx : ptr) : M world Z :=
  if idx =? NULL then mret (-1)
  else
    b ← rd_b idx;
    if negb (persist_enabled b) then mret (-1)
    else
      file ← deref (index_file_path b);
      let tmp_path := snprintf_text PATH_MAX (file ++ bs ".tmp") in
      fd ← onk (sys_open tmp_path O_WRONLY true true);
      if fd <? 0 then mret (-1)
      else
        w ← get;
        n ← onk (write_all fd (index_header (w_junk w) (b_backend_id b) (b_num_entries b) (b_num_buckets b)));
        if n <? 0 then
          _ ← onk (sys_close_fd fd);
          _ ← onk (sys_unlink tmp_path);
          mret (-1)
        else
          _ ← save_chains fd (bucket_heads (b_buckets b) (b_num_buckets b));
          _ ← onk (sys_close_fd fd);
          rc ← onk (sys_rename tmp_path file);
          if rc <? 0 then _ ← onk (sys_unlink tmp_path); mret (-1)
          else _ ← upd_b idx (set_dirty false); mret 0.

(** A [size]-byte local after [read_all]: what was not read keeps its old bytes. *)
Definition local (junk : byte) (size : nat) (d : list byte) : list byte :=
  d ++ replicate (size - length d) junk.

(** One iteration of the load loop: [false] when it leaves the loop. *)
Definition load_entry (idx : ptr) (fd : Z) : M world bool :=
  ul ← onk (read_all fd 2);
  if negb (ul.1 =? 2) then mret false
  else
    let uri_len := le_val ul.2 in
    m0 ← onk sys_malloc;
    if negb m0 then mret false
    else
      u ← onk (read_all fd uri_len);
      if negb (u.1 =? uri_len) then mret false
      else
        pl ← onk (read_all fd 2);
        if negb (pl.1 =? 2) then mret false
        else
          let path_len := le_val pl.2 in
          m1 ← onk sys_malloc;
          if negb m1 then mret false
          else
            p ← onk (read_all fd path_len);
            if negb (p.1 =? path_len) then mret false
            else
              b ← rd_b idx;
              entry ← index_entry_create (c_str u.2) (b_backend_id b) (c_str p.2);
              if entry =? NULL then mret false
              else
                w ← get;
                s ← onk (read_all fd 8);
                mt ← onk (read_all fd 8);
                fl ← onk (read_all fd 4);
                _ ← upd_entry entry (set_meta (le_val (local (w_junk w) 8 s.2)) (le_val (local (w_junk w) 8 mt.2))
                                              (le_val (local (w_junk w) 4 fl.2)));
                _ ← backend_index_insert idx entry;
                mret true.

Fixpoint load_loop (fuel : nat) (idx : ptr) (fd : Z) (num_entries i loaded : Z) : M world Z :=
  if num_entries <=? i then mret loaded
  else match fuel with
       | O => block
       | S fuel =>
           go ← load_entry idx fd;
           if go : bool then load_loop fuel idx fd num_entries (i + 1) (s32 (loaded + 1)) else mret loaded
       end.

(** Size of the file behind a descriptor: every iteration that stays in the
    loop reads at least two bytes, so more iterations never happen. *)
Definition file_len (k : kernel) (fd : Z) : nat :=
  match ofd_of k fd with
  | Some (_, Ofd (Some i) _ _ _) => length (default [] (inodes k !! i))
  | _ => 0%nat
  end.

Definition backend_index_load (idx : ptr) : M world Z :=
  if idx =? NULL then mret (-1)
  else
    b ← rd_b idx;
    if negb (persist_enabled b) then mret (-1)
    else
      fd ← open_path (index_file_path b) O_RDONLY;
      if fd <? 0 then mret (-1)
      else
        h ← onk (read_all fd 32);
        if negb (h.1 =? 32) then _ ← onk (sys_close_fd fd); mret (-1)
        else if negb (bool_decide (take 6 h.2 = INDEX_MAGIC)) then _ ← onk (sys_close_fd fd); mret (-1)
        else if negb (le_val (take 2 (drop 6 h.2)) =? INDEX_VERSION) then _ ← onk (sys_close_fd fd); mret (-1)
        else
          let num_entries := le_val (take 8 (drop 16 h.2)) in
          w ← get;
          loaded ← load_loop (S (file_len (kern w) fd)) idx fd num_entries 0 0;
          _ ← onk (sys_close_fd fd);
          _ ← upd_b idx (set_dirty false);
          mret loaded.

(** ** Scan *)

(** The entry for a regular file found by the scan of a backend index; the new
    value of [count], and the value passed to the progress callback if it runs. *)
Definition scan_file (idx : ptr) (cb : bool) (base_len : nat) (full_path : list byte) (size : Z) (st : Z * list Z)
  : M world (Z * list Z) :=
  b ← rd_b idx;
  entry ← index_entry_create (drop base_len full_path) (b_backend_id b) full_path;
  if entry =? NULL then mret st
  else
    _ ← upd_entry entry (fun e => set_meta (u64 size) (mtime e) INDEX_FLAG_PERSISTENT e);
    _ ← backend_index_insert idx entry;
    _ ← index_entry_put entry;
    let count := u64 (st.1 + 1) in
    mret (count, if cb && (count mod 100 =? 0) then st.2 ++ [count] else st.2).

Section Scan.
(** The order in which [readdir] returns the names of a directory. *)
Variable readdir_order : list (list byte) -> list (list byte).

(** [scan_dir_recursive] over an action on regular files; the names ["."] and
    [".."], which the code skips, are not among the [children].  A path that
    is cut at 2047 bytes may name its own directory, so the depth is fuel. *)
Fixpoint scan_dir {St : Type} (act : list byte -> Z -> St -> M world St) (fuel : nat) (dir_path : list byte) (st : St)
  : M world St :=
  match fuel with
  | O => block
  | S fuel =>
      d ← onk (sys_opendir dir_path);
      match d with
      | None => mret st
      | Some l =>
          (fix each (l : list (list byte)) (st : St) : M world St :=
             match l with
             | [] => mret st
             | n :: l =>
                 let full_path := snprintf_text 2048 (dir_path ++ bs "/" ++ n) in
                 s ← onk (sys_stat full_path);
                 match s with
                 | None => each l st
                 | Some StDir => st ← scan_dir act fuel full_path st; each l st
                 | Some (StReg size) => st ← act full_path size st; each l st
                 end
             end) (readdir_order l) st
      end
  end.

Definition scan_fuel (w : world) : nat := S (size (names (kern w))).

(** The number of objects, and the values the progress callback was called with. *)
Definition backend_index_scan (idx : ptr) (mount_path : option (list byte)) (progress_cb : bool)
  : M world (Z * list Z) :=
  match mount_path with
  | None => mret (-1, [])
  | Some mp =>
      if idx =? NULL then mret (-1, [])
      else
        w ← get;
        r ← scan_dir (scan_file idx progress_cb (length mp)) (scan_fuel w) mp (0, []);
        mret (s32 r.1, if progress_cb then r.2 ++ [r.1] else r.2)
  end.
End Scan.

(** ** Hotness *)

Section Hotness.
(** The mathematical library's [exp]. *)
Variable libm_exp : spec_float -> spec_float.

Definition dmul (a b : spec_float) : spec_float := SFmul 53 1024 a b.
Definition dadd (a b : spec_float) : spec_float := SFadd 53 1024 a b.
Definition dgt (a b : spec_float) : bool := SFltb b a.
(** Conversion of a [double] to [float], and of a literal [a/b] to [float]. *)
Definition to_float (x : spec_float) : spec_float :=
  match x with
  | S754_finite s m e => binary_normalize 24 128 (if s then Z.neg m else Z.pos m) e s
  | _ => x
  end.
Definition flit (a b : Z) : spec_float := SFdiv 24 128 (dbl a) (dbl b).

Definition index_calculate_hotness (e : option index_entry) (current_time decay_halflife : Z) : spec_float :=
  match e with
  | None => S754_zero false
  | Some e =>
      if last_access e =? 0 then S754_zero false
      else
        let age_us := u64 (current_time - last_access e) in
        let age_secs := ddiv (dbl age_us) (dbl 1000000) in
        let time_factor :=
          libm_exp (ddiv (dmul (SFopp (dlit 693 1000)) age_secs) (dbl decay_halflife)) in
        let access_factor := ddiv (dbl (access_count e)) (dbl 1000) in
        let access_factor := if dgt access_factor (dbl 1) then dbl 1 else access_factor in
        let hotness := to_float (dadd (dmul (flit 7 10) time_factor) (dmul (flit 3 10) access_factor)) in
        if dgt hotness (dbl 1) then dbl 1 else hotness
  end.
End Hotness.

#[global] Arguments index_entry_create : simpl never.
#[global] Arguments index_entry_get : simpl never.
#[global] Arguments index_entry_put : simpl never.
#[global] Arguments index_entry_record_access : simpl never.
#[global] Arguments fd_ref_acquire : simpl never.
#[global] Arguments fd_ref_release : simpl never.
#[global] Arguments global_index_lookup : simpl never.
#[global] Arguments global_index_insert : simpl never.
#[global] Arguments global_index_remove : simpl never.
#[global] Arguments global_index_update_backend : simpl never.
#[global] Arguments backend_index_insert : simpl never.
#[global] Arguments backend_index_remove : simpl never.
#[global] Arguments index_hash_string : simpl never.
#[global] Arguments bucket_of : simpl never.
#[global] Arguments s32 : simpl never.
#[global] Arguments u64 : simpl never.
#[global] Arguments u32 : simpl never.
