(* ===== verification/IndexProofs.v ===== *)
(** * IndexProofs: the index implements a map

    Bucket counts are powers of two, chains represent the table's contents, and
    each operation of the global and of the backend index does on that contents
    what it should.  [chain] and [table_rep] relate the linked entries in the heap
    to a list of entries, most recently inserted first. *)

From S2P Require Import Prelude Socket Kernel Index.

(** ** Rounding to a power of two *)

(** [n] has bit [i] set exactly when [n0] has one of the bits [i .. i + k - 1]. *)
Definition smeared (k n0 n : Z) : Prop :=
  forall i, 0 <= i -> Z.testbit n i = true <-> exists j, i <= j < i + k /\ Z.testbit n0 j = true.

Lemma smeared_1 n : smeared 1 n n.
Proof.
  intros i Hi. split; [intros H; exists i; split; [lia|done]|].
  intros (j & Hj & H). by replace i with j by lia.
Qed.

Lemma smeared_double k n0 n : 0 < k -> smeared k n0 n -> smeared (2 * k) n0 (smear n k).
Proof.
  intros Hk H i Hi. unfold smear.
  rewrite Z.lor_spec, Z.shiftr_spec, orb_true_iff, (H i), (H (i + k)) by lia.
  split.
  - intros [(j & Hj & Hb)|(j & Hj & Hb)]; exists j; (split; [lia|done]).
  - intros (j & Hj & Hb). destruct (decide (j < i + k)).
    + left. exists j. split; [lia|done].
    + right. exists j. split; [lia|done].
Qed.

Lemma smeared_ones n0 n : 0 < n0 < 2 ^ 64 -> 0 <= n -> smeared 64 n0 n -> n = Z.ones (Z.log2 n0 + 1).
Proof.
  intros Hn0 Hn H. pose proof (Z.log2_nonneg n0). apply Z.bits_inj'. intros i Hi.
  assert (Hlog : Z.log2 n0 < 64) by (apply Z.log2_lt_pow2; lia).
  destruct (decide (i <= Z.log2 n0)).
  - rewrite Z.ones_spec_low by lia. apply H; [done|].
    exists (Z.log2 n0). split; [lia|]. apply Z.bit_log2. lia.
  - rewrite Z.ones_spec_high by lia. apply not_true_is_false. intros Ht.
    apply H in Ht as (j & Hj & Hb); [|done].
    rewrite Z.bits_above_log2 in Hb; [done|lia|lia].
Qed.

Lemma smear_nonneg n k : 0 <= n -> 0 <= smear n k.
Proof. intros H. unfold smear. apply Z.lor_nonneg. split; [done|]. by apply Z.shiftr_nonneg. Qed.

Lemma next_pow2_eq n : 2 <= n <= 2 ^ 64 ->
  index_next_power_of_2 n = u64 (2 ^ (Z.log2 (n - 1) + 1)).
Proof.
  intros Hn. unfold index_next_power_of_2. rewrite (u64_small (n - 1)) by lia.
  set (m := smear _ 32). assert (Hm : m = Z.ones (Z.log2 (n - 1) + 1)).
  { apply smeared_ones; [lia| |].
    - repeat apply smear_nonneg. lia.
    - unfold m. change 64 with (2 * 32). apply smeared_double; [lia|].
      change 32 with (2 * 16) at 1. apply smeared_double; [lia|].
      change 16 with (2 * 8) at 1. apply smeared_double; [lia|].
      change 8 with (2 * 4) at 1. apply smeared_double; [lia|].
      change 4 with (2 * 2) at 1. apply smeared_double; [lia|].
      change 2 with (2 * 1) at 1. apply smeared_double; [lia|].
      apply smeared_1. }
  rewrite Hm, Z.ones_equiv. f_equal. lia.
Qed.

(** Between 1 and 2^63 the result is a power of two, at least [n] and less than
    twice [n]. *)
Lemma next_pow2_spec n : 1 <= n <= 2 ^ 63 ->
  exists k, 0 <= k <= 63 /\ index_next_power_of_2 n = 2 ^ k /\ n <= 2 ^ k < 2 * n.
Proof.
  intros Hn. destruct (decide (n = 1)) as [->|].
  { exists 0. split; [lia|]. split; [vm_compute; done|lia]. }
  pose proof (Z.log2_spec (n - 1) ltac:(lia)) as [Hlo Hhi].
  pose proof (Z.log2_nonneg (n - 1)) as Hnn.
  assert (Hlt : Z.log2 (n - 1) < 63) by (apply Z.log2_lt_pow2; lia).
  exists (Z.log2 (n - 1) + 1). split; [lia|].
  rewrite next_pow2_eq by lia. rewrite <- Z.add_1_r in Hhi.
  pose proof (Z.pow_add_r 2 (Z.log2 (n - 1)) 1 ltac:(lia) ltac:(lia)) as Hp.
  rewrite u64_small; [split; [done|lia]|].
  split; [lia|]. apply Z.pow_lt_mono_r; lia.
Qed.

Lemma bucket_of_mod h k : 0 <= k <= 63 -> bucket_of h (2 ^ k) = h mod 2 ^ k.
Proof.
  intros Hk. unfold bucket_of. rewrite u64_small.
  - rewrite <- Z.land_ones by lia. by rewrite Z.ones_equiv, Z.sub_1_r.
  - pose proof (Z.pow_pos_nonneg 2 k ltac:(lia) ltac:(lia)).
    pose proof (Z.pow_lt_mono_r 2 k 64 ltac:(lia) ltac:(lia) ltac:(lia)). lia.
Qed.

(** A table has a power of two of buckets that fits a [size_t]. *)
Definition pow2 (nb : Z) : Prop := exists k, 0 <= k <= 63 /\ nb = 2 ^ k.

Lemma bucket_of_range h nb : pow2 nb -> 0 <= bucket_of h nb < nb.
Proof.
  intros (k & Hk & ->). rewrite bucket_of_mod by done.
  apply Z.mod_pos_bound. apply Z.pow_pos_nonneg; lia.
Qed.

(** C39: [index_next_power_of_2] returns, for every [n] from 1 to 2^63, a power of
    two that is at least [n] and less than [2 * n] (so the least one), and
    the bucket number [hash & (num_buckets - 1)] computed with it is the hash
    modulo the number of buckets, always inside the bucket array. *)
Theorem next_power_of_2_correct n h :
  1 <= n <= 2 ^ 63 ->
  let nb := index_next_power_of_2 n in
  (exists k, 0 <= k <= 63 /\ nb = 2 ^ k) /\ n <= nb < 2 * n /\
  bucket_of h nb = h mod nb /\ 0 <= bucket_of h nb < nb.
Proof.
  intros Hn nb. destruct (next_pow2_spec n Hn) as (k & Hk & Heq & Hle). unfold nb. rewrite Heq.
  split; [by exists k|]. split; [done|]. split; [by apply bucket_of_mod|].
  apply bucket_of_range. by exists k.
Qed.

Lemma next_power_of_2_correct_witness :
  (1 <= 1000 <= 2 ^ 63) /\ index_next_power_of_2 1000 = 1024 /\ bucket_of (2 ^ 64 - 1) (index_next_power_of_2 1000) = 1023.
Proof.
  destruct (next_power_of_2_correct 1000 (2 ^ 64 - 1) ltac:(lia)) as (_ & _ & Hmod & _).
  split; [lia|]. split; [reflexivity|]. rewrite Hmod. reflexivity.
Defined.

(** Zero buckets, and more than 2^63, round to zero: the mask is then all
    ones, the bucket number is the hash itself, and it is outside the array of
    zero buckets, so the first lookup in such an index is an invalid access. *)
Theorem next_power_of_2_degenerate n h :
  n = 0 \/ 2 ^ 63 < n <= 2 ^ 64 ->
  index_next_power_of_2 n = 0 /\
  forall b : gmap Z ptr, bucket_get b (index_next_power_of_2 n) (bucket_of h (index_next_power_of_2 n)) = None.
Proof.
  intros Hn. assert (H0 : index_next_power_of_2 n = 0).
  { destruct Hn as [->|Hn]; [vm_compute; done|].
    rewrite next_pow2_eq by lia.
    assert (Hl : Z.log2 (n - 1) = 63) by (apply Z.log2_unique; lia).
    by rewrite Hl. }
  split; [done|]. intros b. rewrite H0. unfold bucket_get.
  destruct (0 <=? bucket_of h 0) eqn:E; [|done]. simpl.
  apply Z.leb_le in E. destruct (_ <? 0) eqn:E2; [|done]. apply Z.ltb_lt in E2. lia.
Qed.

Lemma next_power_of_2_degenerate_witness :
  (0 = 0 \/ 2 ^ 63 < 0 <= 2 ^ 64) /\ index_next_power_of_2 0 = 0.
Proof. split; [by left|]. apply (next_power_of_2_degenerate 0 5). by left. Defined.

(** ** Chains *)

(** [chain h p l]: following [next] from [p] visits the entries [l] and ends. *)
Inductive chain (h : gmap ptr index_entry) : ptr -> list ptr -> Prop :=
| chain_nil : chain h NULL []
| chain_cons p e l : p <> NULL -> h !! p = Some e -> chain h (next e) l -> chain h p (p :: l).

#[export] Hint Constructors chain : objm.

Lemma chain_det h p l l' : chain h p l -> chain h p l' -> l = l'.
Proof.
  intros H. revert l'. induction H as [|p e l Hp He _ IH]; intros l' H'; inversion H'; subst; try done.
  f_equal. apply IH. congruence.
Qed.

Lemma chain_suffix h p l1 q l2 : chain h p (l1 ++ q :: l2) -> chain h q (q :: l2).
Proof.
  revert p. induction l1 as [|a l1 IH]; intros p H; simpl in H.
  - inversion H; subst. econstructor; eauto.
  - inversion H; subst. eauto.
Qed.

Lemma chain_NoDup h p l : chain h p l -> NoDup l.
Proof.
  induction 1 as [|p e l Hp He Hc IH]; [constructor|]. constructor; [|done].
  intros Hin. apply list_elem_of_split in Hin as (l1 & l2 & ->).
  pose proof (chain_suffix _ _ _ _ _ Hc) as Hs.
  assert (Hp2 : chain h p (p :: l1 ++ p :: l2)) by (econstructor; eauto).
  pose proof (chain_det _ _ _ _ Hs Hp2) as Heq. apply (f_equal length) in Heq.
  simpl in Heq. rewrite length_app in Heq. simpl in Heq. lia.
Qed.

Lemma chain_dom h p l q : chain h p l -> q ∈ l -> q <> NULL /\ is_Some (h !! q).
Proof.
  induction 1 as [|p e l Hp He Hc IH]; [by intros ?%elem_of_nil|].
  intros [->|Hin]%elem_of_cons; [by rewrite He; eauto|auto].
Qed.

Lemma chain_length h p l : chain h p l -> (length l <= size h)%nat.
Proof.
  intros Hc. pose proof (chain_NoDup _ _ _ Hc) as Hnd.
  rewrite <- (size_list_to_set (C:=gset Z) l) by done. rewrite <- size_dom.
  apply subseteq_size. intros q Hq%elem_of_list_to_set. apply elem_of_dom.
  by apply (chain_dom h p l).
Qed.

(** Only the [next] fields of its entries matter to a chain. *)
Lemma chain_frame h h' p l :
  chain h p l -> (forall q, q ∈ l -> next <$> h' !! q = next <$> h !! q) -> chain h' p l.
Proof.
  induction 1 as [|p e l Hp He Hc IH]; intros Hf; [constructor|].
  pose proof (Hf p ltac:(left)) as Hn. rewrite He in Hn. simpl in Hn.
  apply fmap_Some in Hn as (e' & He' & Hnx). econstructor; [done|done|].
  rewrite <- Hnx. apply IH. intros q Hq. apply Hf. by right.
Qed.

(** Redirecting the last entry before [q] to the entry after [q] unlinks [q]. *)
Lemma chain_unlink h p l1 a q l2 ea eq :
  chain h p (l1 ++ a :: q :: l2) -> h !! a = Some ea -> h !! q = Some eq ->
  chain (<[a:=set_next (next eq) ea]> h) p (l1 ++ a :: l2).
Proof.
  intros Hc Ha Hq. pose proof (chain_NoDup _ _ _ Hc) as Hnd.
  revert p Hc Hnd. induction l1 as [|b l1 IH]; intros p Hc Hnd; simpl in *.
  - inversion Hc as [|? e1 ? Hp1 He1 Hc1]; subst. inversion Hc1 as [|? e2 ? Hp2 He2 Hc2]; subst.
    econstructor; [done|by rewrite lookup_insert_eq|]. simpl.
    replace (next eq) with (next e2) by congruence.
    apply chain_frame with h; [done|]. intros q' Hq'.
    rewrite lookup_insert_ne; [done|]. intros <-.
    apply list.NoDup_cons in Hnd as [Hnd _]. apply Hnd. by right.
  - inversion Hc as [|? e1 ? Hp1 He1 Hc1]; subst.
    apply list.NoDup_cons in Hnd as [Hb Hnd].
    econstructor; [done| |apply IH; eauto].
    rewrite lookup_insert_ne; [done|]. intros <-. apply Hb. set_solver.
Qed.

(** ** Finding a URI *)

(** The first entry of [l] whose URI is [u]. *)
Fixpoint find_uri (h : gmap ptr index_entry) (l : list ptr) (u : list byte) : option ptr :=
  match l with
  | [] => None
  | p :: l => if decide (uri <$> h !! p = Some u) then Some p else find_uri h l u
  end.

(** The entry at [p] is live and carries the hash of its URI. *)
Definition hashed (h : gmap ptr index_entry) (p : ptr) : Prop :=
  p <> NULL /\ exists e, h !! p = Some e /\ uri_hash e = index_hash_string (uri e).

Lemma find_uri_split h l u q :
  find_uri h l u = Some q ->
  exists l1 l2, l = l1 ++ q :: l2 /\ find_uri h l1 u = None /\ uri <$> h !! q = Some u.
Proof.
  induction l as [|p l IH]; simpl; [done|]. case_decide as E.
  - intros [= ->]. exists [], l. done.
  - intros H. destruct (IH H) as (l1 & l2 & -> & H1 & H2).
    exists (p :: l1), l2. split; [done|]. split; [|done]. simpl. by rewrite decide_False.
Qed.

Lemma find_uri_None h l u : find_uri h l u = None <-> Forall (fun p => uri <$> h !! p <> Some u) l.
Proof.
  induction l as [|p l IH]; simpl; [split; [constructor|done]|].
  rewrite list.Forall_cons, <- IH. case_decide; [split; [done|by intros [? _]]|by split; [intros; split|intros [_ ?]]].
Qed.

Lemma find_uri_app_None h l1 l2 u : find_uri h l1 u = None -> find_uri h (l1 ++ l2) u = find_uri h l2 u.
Proof. induction l1 as [|p l1 IH]; simpl; [done|]. case_decide; [done|auto]. Qed.

Lemma find_uri_ext h h' l u :
  (forall p, p ∈ l -> uri <$> h' !! p = uri <$> h !! p) -> find_uri h' l u = find_uri h l u.
Proof.
  induction l as [|p l IH]; intros H; simpl; [done|].
  rewrite (H p) by left. case_decide; [done|]. apply IH. intros q Hq. apply H. by right.
Qed.

(** The loop's test selects exactly the entry with the URI. *)
Lemma match_test h p e u :
  hashed h p -> h !! p = Some e ->
  (uri_hash e =? index_hash_string u) && bool_decide (uri e = u) = bool_decide (uri <$> h !! p = Some u).
Proof.
  intros (_ & e' & He' & Hh) He. rewrite He. simpl. replace e' with e in Hh by congruence.
  destruct (decide (uri e = u)) as [Heq|Hne].
  - rewrite Hh, Heq, Z.eqb_refl. by rewrite !bool_decide_eq_true_2 by congruence.
  - rewrite (bool_decide_eq_false_2 (uri e = u)) by done. rewrite andb_false_r.
    by rewrite bool_decide_eq_false_2 by congruence.
Qed.

Lemma rd_entry_eq p e w : ents w !! p = Some e -> rd_entry p w = Ret e w.
Proof. unfold rd_entry. by intros ->. Qed.

Lemma NULL_eqb p : p <> NULL -> (p =? NULL) = false.
Proof. apply Z.eqb_neq. Qed.

Lemma chain_find_ok l : forall fuel p u w,
  chain (ents w) p l -> Forall (hashed (ents w)) l -> (length l <= fuel)%nat ->
  chain_find fuel p (index_hash_string u) u w = Ret (default NULL (find_uri (ents w) l u)) w.
Proof.
  induction l as [|q l IH]; intros fuel p u w Hc Hl Hf; inversion Hc; subst.
  { by destruct fuel. }
  match goal with H : ents w !! _ = Some ?e0 |- _ => rename H into He; rename e0 into e end.
  apply list.Forall_cons in Hl as [Hq Hl].
  destruct fuel as [|fuel]; [simpl in Hf; lia|]. cbn [chain_find].
  rewrite NULL_eqb by done. run (rd_entry_eq _ _ _ He).
  rewrite (match_test _ _ _ _ Hq He). simpl find_uri.
  case_decide as E; case_bool_decide as E'; try done.
  apply IH; [done|done|simpl in Hf; lia].
Qed.

Lemma find_in_ok p l u w :
  chain (ents w) p l -> Forall (hashed (ents w)) l ->
  find_in p (index_hash_string u) u w = Ret (default NULL (find_uri (ents w) l u)) w.
Proof.
  intros Hc Hl. apply chain_find_ok; [done|done|]. pose proof (chain_length _ _ _ Hc).
  unfold chain_fuel. lia.
Qed.

(** The last entry of [l], or what was before. *)
Definition last_or (prev : option ptr) (l : list ptr) : option ptr :=
  match list.last l with Some a => Some a | None => prev end.

Lemma last_or_cons prev q l : last_or (Some q) l = last_or prev (q :: l).
Proof. unfold last_or. rewrite list.last_cons. by destruct (list.last l). Qed.

Lemma chain_find_prev_ok l : forall fuel prev p u w,
  chain (ents w) p l -> Forall (hashed (ents w)) l -> (length l <= fuel)%nat ->
  match find_uri (ents w) l u with
  | None => chain_find_prev fuel prev p (index_hash_string u) u w = Ret None w
  | Some q => exists l1 l2, l = l1 ++ q :: l2 /\ find_uri (ents w) l1 u = None /\ uri <$> ents w !! q = Some u /\
      chain_find_prev fuel prev p (index_hash_string u) u w = Ret (Some (last_or prev l1, q)) w
  end.
Proof.
  induction l as [|q l IH]; intros fuel prev p u w Hc Hl Hf; inversion Hc; subst.
  { by destruct fuel. }
  match goal with H : ents w !! _ = Some ?e0 |- _ => rename H into He; rename e0 into e end.
  apply list.Forall_cons in Hl as [Hq Hl].
  destruct fuel as [|fuel]; [simpl in Hf; lia|]. cbn [chain_find_prev].
  rewrite NULL_eqb by done. rewrite !(bind_Ret _ _ _ _ _ (rd_entry_eq _ _ _ He)).
  rewrite (match_test _ _ _ _ Hq He). simpl find_uri.
  case_decide as E; case_bool_decide as E'; try done.
  - exists [], l. done.
  - specialize (IH fuel (Some q) (next e) u w). destruct (find_uri (ents w) l u) as [r|].
    + destruct IH as (l1 & l2 & -> & Hn & Hu & Hr); [done|done|simpl in Hf; lia|].
      exists (q :: l1), l2. split; [done|]. split; [simpl; by rewrite decide_False|]. split; [done|].
      by rewrite <- last_or_cons with (prev := prev).
    + apply IH; [done|done|simpl in Hf; lia].
Qed.

Lemma find_prev_in_ok p l u w :
  chain (ents w) p l -> Forall (hashed (ents w)) l ->
  match find_uri (ents w) l u with
  | None => find_prev_in p (index_hash_string u) u w = Ret None w
  | Some q => exists l1 l2, l = l1 ++ q :: l2 /\ find_uri (ents w) l1 u = None /\ uri <$> ents w !! q = Some u /\
      find_prev_in p (index_hash_string u) u w = Ret (Some (last_or None l1, q)) w
  end.
Proof.
  intros Hc Hl. apply chain_find_prev_ok; [done|done|]. pose proof (chain_length _ _ _ Hc).
  unfold chain_fuel. lia.
Qed.

(** ** Tables *)

(** The entries of [L] that hash to bucket [i]. *)
Definition in_bucket (h : gmap ptr index_entry) (nb i : Z) (p : ptr) : Prop :=
  (fun e => bucket_of (uri_hash e) nb) <$> h !! p = Some i.

#[global] Instance in_bucket_dec h nb i p : Decision (in_bucket h nb i p).
Proof. unfold in_bucket. apply _. Defined.

Lemma in_bucket_iff h nb i p e : h !! p = Some e -> in_bucket h nb i p <-> bucket_of (uri_hash e) nb = i.
Proof. unfold in_bucket. intros ->. simpl. split; [by intros [= ->]|by intros ->]. Qed.

Definition bucket_list (h : gmap ptr index_entry) (nb i : Z) (L : list ptr) : list ptr :=
  filter (in_bucket h nb i) L.

(** The bucket array [b] of [nb] buckets holds the entries [L], most recently
    inserted first. *)
Record table_rep (h : gmap ptr index_entry) (b : gmap Z ptr) (nb : Z) (L : list ptr) : Prop := {
  tr_pow2 : pow2 nb;
  tr_nodup : NoDup L;
  tr_hashed : Forall (hashed h) L;
  tr_chain i : 0 <= i < nb -> chain h (default NULL (b !! i)) (bucket_list h nb i L)
}.

Lemma table_rep_empty h nb : pow2 nb -> table_rep h ∅ nb [].
Proof. intros H. split; [done|constructor|constructor|]. intros i Hi. rewrite lookup_empty. constructor. Qed.

Lemma bucket_get_ok b nb h : pow2 nb -> bucket_get b nb (bucket_of h nb) = Some (default NULL (b !! bucket_of h nb)).
Proof.
  intros H. unfold bucket_get. pose proof (bucket_of_range h nb H).
  destruct (0 <=? _) eqn:E1; destruct (_ <? nb) eqn:E2; simpl; try done; lia.
Qed.

Lemma find_uri_bucket h nb L u :
  Forall (hashed h) L -> find_uri h (bucket_list h nb (bucket_of (index_hash_string u) nb) L) u = find_uri h L u.
Proof.
  induction 1 as [|p L (Hp & e & He & Hh) HL IH]; [done|]. unfold bucket_list. rewrite filter_cons.
  fold (bucket_list h nb (bucket_of (index_hash_string u) nb) L). simpl find_uri.
  case_decide as E; rewrite (in_bucket_iff _ _ _ _ _ He) in E.
  - simpl. by rewrite IH.
  - rewrite IH, decide_False; [done|]. rewrite He. intros [= <-]. apply E. by rewrite Hh.
Qed.

Lemma bucket_list_hashed h nb i L : Forall (hashed h) L -> Forall (hashed h) (bucket_list h nb i L).
Proof.
  rewrite !list.Forall_forall. intros H p Hp. apply list_elem_of_filter in Hp as [_ Hp]. auto.
Qed.

(** The part of an entry the tables rely on. *)
Definition tkey (e : index_entry) : list byte * Z * ptr := (uri e, uri_hash e, next e).
(** The same without the link. *)
Definition ekey (e : index_entry) : list byte * Z := (uri e, uri_hash e).

Lemma ekey_hashed h h' p : ekey <$> h' !! p = ekey <$> h !! p -> hashed h p -> hashed h' p.
Proof.
  intros Hk (Hp & e & He & Hh). split; [done|]. rewrite He in Hk. simpl in Hk.
  apply fmap_Some in Hk as (e' & He' & [= H1 H2]). exists e'. split; [done|]. by rewrite <- H1, <- H2.
Qed.

Lemma ekey_in_bucket h h' nb i p : ekey <$> h' !! p = ekey <$> h !! p -> in_bucket h' nb i p <-> in_bucket h nb i p.
Proof.
  unfold in_bucket, ekey. destruct (h' !! p), (h !! p); simpl; intros; simplify_eq; try done.
  match goal with H : _ = uri_hash _ |- _ => by rewrite H end.
Qed.

Lemma bucket_list_ext h h' nb i L :
  (forall p, p ∈ L -> ekey <$> h' !! p = ekey <$> h !! p) -> bucket_list h' nb i L = bucket_list h nb i L.
Proof.
  unfold bucket_list. induction L as [|p L IH]; intros H; [done|]. rewrite !filter_cons.
  destruct (ekey_in_bucket h h' nb i p (H p ltac:(left))) as [HA HB].
  rewrite IH by (intros q Hq; apply H; by right). repeat case_decide; tauto.
Qed.

Lemma tkey_ekey (a b : option index_entry) : tkey <$> a = tkey <$> b -> ekey <$> a = ekey <$> b.
Proof. unfold tkey, ekey. destruct a, b; simpl; [|done..]. intros [= H1 H2 H3]. congruence. Qed.
Lemma tkey_next (a b : option index_entry) : tkey <$> a = tkey <$> b -> next <$> a = next <$> b.
Proof. unfold tkey. destruct a, b; simpl; [|done..]. intros [= H1 H2 H3]. congruence. Qed.
Lemma ekey_uri (a b : option index_entry) : ekey <$> a = ekey <$> b -> uri <$> a = uri <$> b.
Proof. unfold ekey. destruct a, b; simpl; [|done..]. intros [= H1 H2]. congruence. Qed.
#[export] Hint Resolve tkey_ekey tkey_next ekey_uri : objm.

Lemma Forall_hashed_ext h h' L :
  (forall p, p ∈ L -> ekey <$> h' !! p = ekey <$> h !! p) -> Forall (hashed h) L -> Forall (hashed h') L.
Proof.
  rewrite !list.Forall_forall. intros Hk H p Hp. eapply ekey_hashed; [by apply Hk|by apply H].
Qed.

Lemma bucket_list_elem h nb i L p : p ∈ bucket_list h nb i L <-> in_bucket h nb i p /\ p ∈ L.
Proof. apply list_elem_of_filter. Qed.

(** Writes to other entries, or to other fields, keep a table. *)
Lemma table_rep_frame h h' b nb L :
  table_rep h b nb L -> (forall p, p ∈ L -> tkey <$> h' !! p = tkey <$> h !! p) -> table_rep h' b nb L.
Proof.
  intros [H1 H2 H3 H4] Hk. split; [done|done|apply Forall_hashed_ext with h; auto with objm|].
  intros i Hi. rewrite (bucket_list_ext h) by auto with objm.
  apply chain_frame with h; [by apply H4|]. intros q [_ Hq]%bucket_list_elem. auto with objm.
Qed.

Lemma table_rep_insert h b nb L p e :
  table_rep h b nb L -> p ∉ L -> p <> NULL -> h !! p = Some e -> uri_hash e = index_hash_string (uri e) ->
  let i := bucket_of (uri_hash e) nb in
  next e = default NULL (b !! i) ->
  table_rep h (<[i:=p]> b) nb (p :: L).
Proof.
  intros [H1 H2 H3 H4] Hnin Hp He Hh i Hn. split; [done|by constructor| |].
  { constructor; [|done]. split; [done|]. eauto. }
  intros j Hj. unfold bucket_list. rewrite filter_cons. case_decide as E; rewrite (in_bucket_iff _ _ _ _ _ He) in E.
  - subst j. fold i. rewrite lookup_insert_eq. simpl.
    econstructor; [done|done|]. rewrite Hn. by apply H4.
  - rewrite lookup_insert_ne by done. by apply H4.
Qed.

(** The table without [q]. *)
Definition without (q : ptr) (L : list ptr) : list ptr := filter (fun p => p <> q) L.

Lemma without_split q l1 l2 : NoDup (l1 ++ q :: l2) -> without q (l1 ++ q :: l2) = l1 ++ l2.
Proof.
  intros (H1 & H2 & H3)%list.NoDup_app. unfold without. rewrite list.filter_app, filter_cons_False by auto.
  apply list.NoDup_cons in H3 as [H3 _].
  rewrite !filter_all; [done| |].
  - apply list.Forall_forall. intros x Hx ->. done.
  - apply list.Forall_forall. intros x Hx ->. apply (H2 _ Hx). left.
Qed.

Lemma without_notin q L : q ∉ L -> without q L = L.
Proof. intros H. apply filter_all. apply list.Forall_forall. intros x Hx ->. done. Qed.

Lemma without_elem q L p : p ∈ without q L <-> p <> q /\ p ∈ L.
Proof. apply (list_elem_of_filter (fun p => p <> q)). Qed.

Lemma bucket_list_without h nb i q L : bucket_list h nb i (without q L) = without q (bucket_list h nb i L).
Proof.
  unfold bucket_list, without. rewrite !list_filter_filter. apply list_filter_iff. intros x. tauto.
Qed.

Lemma last_or_None l1 : last_or None l1 = None -> l1 = [].
Proof. unfold last_or. destruct (list.last l1) eqn:E; [done|]. intros _. by apply list.last_None. Qed.

Lemma last_or_Some l1 a : last_or None l1 = Some a -> exists l, l1 = l ++ [a].
Proof.
  unfold last_or. destruct (list.last l1) eqn:E; [|done]. intros [= <-]. by apply list.last_Some.
Qed.

Lemma without_nodup q L : NoDup L -> NoDup (without q L).
Proof. apply list.NoDup_filter. Qed.

(** Unlinking at the head of a bucket. *)
Lemma table_rep_unlink_head h b nb L q eq i :
  table_rep h b nb L -> h !! q = Some eq -> i = bucket_of (uri_hash eq) nb ->
  (exists l2, bucket_list h nb i L = q :: l2) ->
  table_rep h (<[i:=next eq]> b) nb (without q L).
Proof.
  intros [H1 H2 H3 H4] Hq -> [l2 Hl]. set (i := bucket_of _ _) in *.
  assert (Hi : 0 <= i < nb) by (by apply bucket_of_range).
  pose proof (H4 i Hi) as Hc. rewrite Hl in Hc. pose proof (chain_NoDup _ _ _ Hc) as Hnd.
  split; [done|by apply without_nodup| |].
  { apply list.Forall_forall. intros p [_ Hp]%without_elem. rewrite list.Forall_forall in H3. auto. }
  intros j Hj. rewrite bucket_list_without. destruct (decide (j = i)) as [->|Hne].
  - rewrite lookup_insert_eq, Hl. simpl. change (q :: l2) with ([] ++ q :: l2).
    rewrite without_split by done. inversion Hc; subst. simpl. congruence.
  - rewrite lookup_insert_ne by done. rewrite without_notin; [by apply H4|].
    intros [Hb _]%bucket_list_elem. apply Hne. unfold in_bucket in Hb. rewrite Hq in Hb. simpl in Hb.
    by injection Hb.
Qed.

(** Unlinking behind another entry of the bucket. *)
Lemma table_rep_unlink_mid h b nb L q eq a ea l1 l2 :
  table_rep h b nb L -> h !! q = Some eq -> h !! a = Some ea ->
  bucket_list h nb (bucket_of (uri_hash eq) nb) L = (l1 ++ [a]) ++ q :: l2 ->
  table_rep (<[a:=set_next (next eq) ea]> h) b nb (without q L).
Proof.
  intros [H1 H2 H3 H4] Hq Ha Hl. set (i := bucket_of (uri_hash eq) nb) in *.
  assert (Hi : 0 <= i < nb) by (by apply bucket_of_range).
  pose proof (H4 i Hi) as Hc. rewrite Hl in Hc. pose proof (chain_NoDup _ _ _ Hc) as Hnd.
  assert (Hk : forall p, p ∈ without q L -> ekey <$> <[a:=set_next (next eq) ea]> h !! p = ekey <$> h !! p).
  { intros p _. destruct (decide (p = a)) as [->|]; [by rewrite lookup_insert_eq, Ha|].
    by rewrite lookup_insert_ne. }
  split; [done|by apply without_nodup| |].
  { eapply Forall_hashed_ext; [exact Hk|]. apply list.Forall_forall. intros p [_ Hp]%without_elem.
    rewrite list.Forall_forall in H3. auto. }
  intros j Hj. rewrite (bucket_list_ext h) by done. rewrite bucket_list_without.
  destruct (decide (j = i)) as [->|Hne].
  - rewrite Hl, without_split by done. rewrite <- app_assoc in Hc |- *.
    by apply chain_unlink with q.
  - rewrite without_notin.
    + apply chain_frame with h; [by apply H4|]. intros p Hp. rewrite lookup_insert_ne; [done|]. intros <-.
      assert (Hai : a ∈ bucket_list h nb i L) by (rewrite Hl, !elem_of_app; left; right; left).
      apply bucket_list_elem in Hp as [Hp _], Hai as [Hai _]. unfold in_bucket in *. congruence.
    + intros [Hb _]%bucket_list_elem. apply (in_bucket_iff _ _ _ _ _ Hq) in Hb. by apply Hne.
Qed.

(** ** Running the operations *)

Lemma upd_entry_eq p f e w : ents w !! p = Some e -> upd_entry p f w = Ret () (set_ents (<[p:=f e]> (ents w)) w).
Proof. unfold upd_entry. by intros ->. Qed.
Lemma rd_g_eq i g w : gidxs w !! i = Some g -> rd_g i w = Ret g w.
Proof. unfold rd_g. by intros ->. Qed.
Lemma upd_g_eq i f g w : gidxs w !! i = Some g -> upd_g i f w = Ret () (set_gidxs (<[i:=f g]> (gidxs w)) w).
Proof. unfold upd_g. by intros ->. Qed.
Lemma rd_b_eq i b w : bidxs w !! i = Some b -> rd_b i w = Ret b w.
Proof. unfold rd_b. by intros ->. Qed.
Lemma upd_b_eq i f b w : bidxs w !! i = Some b -> upd_b i f w = Ret () (set_bidxs (<[i:=f b]> (bidxs w)) w).
Proof. unfold upd_b. by intros ->. Qed.
Lemma onk_Ret {A} (m : M kernel A) a k w : m (kern w) = Ret a k -> onk m w = Ret a (set_kern k w).
Proof. unfold onk. by intros ->. Qed.

Lemma s32_inc_dec z : - 2 ^ 31 <= z < 2 ^ 31 -> s32 (s32 (z + 1) - 1) = z.
Proof.
  intros H. unfold s32.
  replace (((z + 1 + 2 ^ 31) mod 2 ^ 32 - 2 ^ 31 - 1 + 2 ^ 31)) with ((z + 1 + 2 ^ 31) mod 2 ^ 32 - 1) by lia.
  rewrite Zminus_mod_idemp_l. replace (z + 1 + 2 ^ 31 - 1) with (z + 2 ^ 31) by lia.
  rewrite Z.mod_small; lia.
Qed.

Lemma set_ents_ents w h h' : set_ents h (set_ents h' w) = set_ents h w.
Proof. by destruct w. Qed.
Lemma set_kern_kern w k k' : set_kern k (set_kern k' w) = set_kern k w.
Proof. by destruct w. Qed.
Lemma set_ents_id w : set_ents (ents w) w = w.
Proof. by destruct w. Qed.
Lemma set_kern_id w : set_kern (kern w) w = w.
Proof. by destruct w. Qed.

(** *** Opening for reading changes nothing but the descriptors *)

Definition same_fs (k k' : kernel) : Prop :=
  names k' = names k /\ inodes k' = inodes k /\ k_oom k' = k_oom k /\ cwd k' = cwd k.

(** [k'] is [k] after an attempt to open a descriptor that returned [fd]. *)
Definition opened (k : kernel) (fd : Z) (k' : kernel) : Prop :=
  same_fs k k' /\
  ((fd = -1 /\ fdtab k' = fdtab k) \/
   exists o, fd = lowest_free (fdtab k) /\ fdtab k' = <[fd:=o]> (fdtab k)).

Lemma opened_range k fd k' : opened k fd k' -> fd = -1 \/ 0 <= fd.
Proof. intros [_ [[-> _]|(o & -> & _)]]; [by left|right]. apply lowest_free_nonneg. Qed.

Lemma install_spec o k :
  exists k', install o k = Ret (lowest_free (fdtab k)) k' /\ same_fs k k' /\
    exists i, fdtab k' = <[lowest_free (fdtab k):=i]> (fdtab k).
Proof. eexists. split; [reflexivity|]. split; [done|]. eexists. reflexivity. Qed.

Lemma refused_spec k : exists b l, refused k = Ret b (set_sched l k).
Proof. unfold refused. destruct (sched k) as [|[]] eqn:E; destruct k; simpl in *; subst; eauto. Qed.

Lemma open_spec p m k : exists fd k', sys_open p m false false k = Ret fd k' /\ opened k fd k'.
Proof.
  unfold sys_open. destruct (refused_spec k) as (b & l & Hr). run Hr. unfold get.
  set (k1 := set_sched l k). change ((mret k1 : M kernel kernel) k1) with (Ret k1 k1 : outcome kernel kernel).
  assert (Hno : opened k (-1) k1) by (split; [done|left; done]).
  assert (Hins : forall o, exists fd k', install o k1 = Ret fd k' /\ opened k fd k').
  { intros o. destruct (install_spec o k1) as (k' & -> & Hs & i & Hf).
    do 2 eexists. split; [reflexivity|]. split; [done|]. right. exists i. done. }
  unfold mbind, M_bind. destruct b; [by do 2 eexists|].
  destruct (resolve k1 p) as [d|]; [|by do 2 eexists].
  destruct (node_at k1 d) as [[|i]|].
  - destruct (m.2 || false); [by do 2 eexists|apply Hins].
  - apply Hins.
  - by do 2 eexists.
Qed.

(** When no call is refused and [path] names a regular file, the descriptor
    stands for a new description of that file, for reading and writing. *)
Definition opens (k : kernel) (path : option (list byte)) (fd : Z) (k' : kernel) : Prop :=
  sched k = [] -> sched k' = [] /\
  forall p d i, path = Some p -> resolve k p = Some d -> node_at k d = Some (File i) ->
    0 <= fd /\ exists o, fdtab k' !! fd = Some o /\ ofds k' !! o = Some (Ofd (Some i) 0 true true).

Lemma open_file_eq p m d i k :
  sched k = [] -> resolve k p = Some d -> node_at k d = Some (File i) ->
  let o := fresh_id (ofds k) in let fd := lowest_free (fdtab k) in
  sys_open p m false false k =
    Ret fd (set_fdtab (<[fd:=o]> (fdtab k)) (set_ofds (<[o:=Ofd (Some i) 0 m.1 m.2]> (ofds k)) k)).
Proof. intros Hs Hr Hn. unfold sys_open, mbind, M_bind, refused, get. by rewrite Hs, Hr, Hn. Qed.

Lemma open_sched p m k fd k' : sys_open p m false false k = Ret fd k' -> sched k = [] -> sched k' = [].
Proof.
  unfold sys_open, mbind, M_bind, refused, get. intros H Hs. rewrite Hs in H.
  destruct (resolve k p) as [d|]; [|by injection H as _ <-].
  destruct (node_at k d) as [[|i]|]; [destruct (m.2 || false)| |]; by injection H as _ <-.
Qed.

(** The two attempts of [global_index_lookup]. *)
Lemma open_either_spec (path : option (list byte)) w :
  exists fd k', (match path with
                 | None => mret (-1)
                 | Some p =>
                     fd ← onk (sys_open p O_RDWR false false);
                     if fd <? 0 then onk (sys_open p O_RDONLY false false) else mret fd
                 end : M world Z) w = Ret fd (set_kern k' w) /\ opened (kern w) fd k' /\ opens (kern w) path fd k'.
Proof.
  destruct path as [p|].
  - destruct (open_spec p O_RDWR (kern w)) as (fd & k1 & H1 & Ho1).
    run (onk_Ret _ _ _ _ H1). destruct (fd <? 0) eqn:E.
    2: { exists fd, k1. split; [done|]. split; [done|]. intros Hs. split; [by eapply open_sched|].
         intros p' d i [= <-] Hr Hn. split; [by apply Z.ltb_ge in E|].
         rewrite (open_file_eq p O_RDWR d i _ Hs Hr Hn) in H1. injection H1 as <- <-.
         eexists. split; apply lookup_insert_eq. }
    apply Z.ltb_lt in E. destruct (opened_range _ _ _ Ho1) as [->|]; [|lia].
    destruct (open_spec p O_RDONLY k1) as (fd & k2 & H2 & Ho2). exists fd, k2.
    rewrite (onk_Ret _ _ k2 (set_kern k1 w)) by done. rewrite set_kern_kern. split; [done|]. split.
    2: { intros Hs. split; [eapply open_sched; [done|by eapply open_sched]|]. intros p' d i [= <-] Hr Hn.
         rewrite (open_file_eq p O_RDWR d i _ Hs Hr Hn) in H1. injection H1 as Hneg _.
         pose proof (lowest_free_nonneg (fdtab (kern w))). lia. }
    destruct Ho1 as [(A1 & A2 & A3 & A4) [[_ Hf]|(o & Hneg & _)]];
      [|pose proof (lowest_free_nonneg (fdtab (kern w))); lia].
    destruct Ho2 as [(B1 & B2 & B3 & B4) Ho2]. rewrite Hf in Ho2.
    split; [repeat split; congruence|done].
  - exists (-1), (kern w). rewrite set_kern_id. split; [done|]. split; [split; [done|by left]|]. by intros Hs.
Qed.

Lemma clock_spec k : exists t k', sys_clock k = Ret t k' /\ same_fs k k' /\ fdtab k' = fdtab k /\
  ofds k' = ofds k /\ sched k' = sched k.
Proof. unfold sys_clock. destruct (ticks k); do 2 eexists; split; try reflexivity; done. Qed.

(** *** Entries *)

Lemma entry_get_eq p e w : p <> NULL -> ents w !! p = Some e ->
  index_entry_get p w = Ret () (set_ents (<[p:=set_refcount (s32 (entry_refcount e + 1)) e]> (ents w)) w).
Proof. intros Hp He. unfold index_entry_get. rewrite NULL_eqb by done. by rewrite (upd_entry_eq _ _ _ _ He). Qed.

Lemma record_access_ok p e w : p <> NULL -> ents w !! p = Some e ->
  exists t k', index_entry_record_access p w =
    Ret () (set_kern k' (set_ents (<[p:=set_access (u64 (access_count e + 1)) t e]> (ents w)) w)) /\
    same_fs (kern w) k' /\ fdtab k' = fdtab (kern w) /\ ofds k' = ofds (kern w) /\ sched k' = sched (kern w).
Proof.
  intros Hp He. unfold index_entry_record_access. rewrite NULL_eqb by done.
  run (rd_entry_eq _ _ _ He). run (upd_entry_eq _ _ _ _ He).
  destruct (clock_spec (kern w)) as (t & k' & Hc & Hs).
  unfold get_monotonic_us. rewrite bind_assoc.
  run (onk_Ret sys_clock t k' (set_ents (<[p:=set_access (u64 (access_count e + 1)) (last_access e) e]> (ents w)) w) Hc).
  rewrite bind_ret_l. exists (u64 t), k'. split; [|done].
  erewrite upd_entry_eq by (simpl; by rewrite lookup_insert_eq). simpl. rewrite insert_insert_eq. by destruct w.
Qed.

(** Dropping a reference that is not the last one. *)
Lemma entry_put_shared p e w : p <> NULL -> ents w !! p = Some e -> entry_refcount e <> 1 ->
  index_entry_put p w = Ret () (set_ents (<[p:=set_refcount (s32 (entry_refcount e - 1)) e]> (ents w)) w).
Proof.
  intros Hp He Hr. unfold index_entry_put. rewrite NULL_eqb by done.
  run (rd_entry_eq _ _ _ He). run (upd_entry_eq _ _ _ _ He).
  by rewrite (proj2 (Z.eqb_neq _ _) Hr).
Qed.

(** Closing a descriptor that may be negative ("none"). *)
Definition close_if (fd : Z) (k : kernel) : kernel :=
  if 0 <=? fd then set_fdtab (delete fd (fdtab k)) k else k.

Lemma close_if_neg k : close_if (-1) k = k.
Proof. done. Qed.

Lemma entry_put_last p e w : p <> NULL -> ents w !! p = Some e -> entry_refcount e = 1 ->
  index_entry_put p w = Ret () (set_kern (close_if (e_fd e) (kern w)) (set_ents (delete p (ents w)) w)).
Proof.
  intros Hp He Hr. unfold index_entry_put. rewrite NULL_eqb by done.
  run (rd_entry_eq _ _ _ He). run (upd_entry_eq _ _ _ _ He). rewrite Hr. simpl.
  unfold close_if. unfold mbind, M_bind. destruct (0 <=? e_fd e); simpl; unfold modify; simpl;
    rewrite delete_insert_eq; by destruct w.
Qed.

(** ** The global index *)

(** Index [idx] of the process holds the entries [L]. *)
Definition global_rep (w : world) (idx : ptr) (L : list ptr) : Prop :=
  idx <> NULL /\
  exists g, gidxs w !! idx = Some g /\ table_rep (ents w) (g_buckets g) (g_num_buckets g) L /\
    g_num_entries g = u64 (Z.of_nat (length L)).

(** The bucket of a URI: readable, and its chain is the URI's part of the table. *)
Lemma bucket_chain h b nb L u :
  table_rep h b nb L ->
  let i := bucket_of (index_hash_string u) nb in
  bucket_get b nb i = Some (default NULL (b !! i)) /\
  chain h (default NULL (b !! i)) (bucket_list h nb i L) /\
  Forall (hashed h) (bucket_list h nb i L) /\
  find_uri h (bucket_list h nb i L) u = find_uri h L u.
Proof.
  intros [H1 H2 H3 H4] i. split; [by apply bucket_get_ok|]. split; [apply H4; by apply bucket_of_range|].
  split; [by apply bucket_list_hashed|]. by apply find_uri_bucket.
Qed.

(** A world that differs in the index's statistics only. *)
Definition with_g (idx : ptr) (g : global_index) (w : world) : world := set_gidxs (<[idx:=g]> (gidxs w)) w.

Lemma with_g_with_g idx g g' w : with_g idx g (with_g idx g' w) = with_g idx g w.
Proof. unfold with_g. destruct w; simpl. by rewrite insert_insert_eq. Qed.

(** The entry after a lookup that returned [fd] at time [t]. *)
Definition looked_up (fd t : Z) (e : index_entry) : index_entry :=
  let e := set_access (u64 (access_count e + 1)) t (set_refcount (s32 (entry_refcount e + 1)) e) in
  if 0 <=? fd then set_fd_refcount (s32 (fd_refcount e + 1)) e else e.

Lemma upd_if_entry (b : bool) p f e w : ents w !! p = Some e ->
  (if b then upd_entry p f else mret ()) w = Ret () (set_ents (<[p:=if b then f e else e]> (ents w)) w).
Proof.
  intros He. destruct b; [by rewrite (upd_entry_eq _ _ _ _ He)|].
  rewrite insert_id by done. by rewrite set_ents_id.
Qed.

Lemma global_lookup_miss idx u w g L :
  idx <> NULL -> gidxs w !! idx = Some g -> table_rep (ents w) (g_buckets g) (g_num_buckets g) L ->
  find_uri (ents w) L u = None ->
  global_index_lookup idx (Some u) true w =
    Ret (-1, None) (with_g idx (set_g_stats (u64 (g_lookups g + 1)) (g_hits g) (u64 (g_misses g + 1)) g) w).
Proof.
  intros Hi Hg Hrep Hf. unfold global_index_lookup. rewrite NULL_eqb by done. cbn [orb negb].
  run (upd_g_eq _ _ _ _ Hg).
  destruct (bucket_chain _ _ _ _ u Hrep) as (Hb & Hc & Hh & Hfu).
  set (w1 := set_gidxs _ w). set (g1 := set_g_stats _ _ _ g) in w1.
  assert (Hg1 : gidxs w1 !! idx = Some g1) by apply lookup_insert_eq.
  run (rd_g_eq _ _ _ Hg1). cbv zeta. change (g_buckets g1) with (g_buckets g). change (g_num_buckets g1) with (g_num_buckets g).
  rewrite Hb, deref_bind. run (find_in_ok _ _ u w1 Hc Hh).
  change (ents w1) with (ents w). rewrite Hfu, Hf. simpl default. rewrite Z.eqb_refl.
  run (upd_g_eq _ _ _ _ Hg1). unfold w1.
  unfold mret, M_ret, with_g. simpl. rewrite insert_insert_eq. by destruct w.
Qed.

(** A lookup whose walk of the bucket finds [q]. *)
Lemma global_lookup_found idx u w g head q e :
  idx <> NULL -> gidxs w !! idx = Some g ->
  bucket_get (g_buckets g) (g_num_buckets g) (bucket_of (index_hash_string u) (g_num_buckets g)) = Some head ->
  (forall w1, ents w1 = ents w -> find_in head (index_hash_string u) u w1 = Ret q w1) ->
  q <> NULL -> ents w !! q = Some e ->
  exists fd t k', global_index_lookup idx (Some u) true w =
    Ret (0, Some (FdRef q fd 0))
        (set_kern k' (set_ents (<[q:=looked_up fd t e]> (ents w))
           (with_g idx (set_g_stats (u64 (g_lookups g + 1)) (u64 (g_hits g + 1)) (g_misses g) g) w))) /\
    opened (kern w) fd k' /\ opens (kern w) (backend_path e) fd k'.
Proof.
  intros Hi Hg Hb Hfind Hq He. unfold global_index_lookup. rewrite NULL_eqb by done. cbn [orb negb].
  run (upd_g_eq _ _ _ _ Hg).
  set (w1 := set_gidxs _ w). set (g1 := set_g_stats _ _ _ g) in w1.
  assert (Hg1 : gidxs w1 !! idx = Some g1) by apply lookup_insert_eq.
  run (rd_g_eq _ _ _ Hg1). cbv zeta. change (g_buckets g1) with (g_buckets g). change (g_num_buckets g1) with (g_num_buckets g).
  rewrite Hb, deref_bind. run (Hfind w1 eq_refl).
  rewrite NULL_eqb by done. run (entry_get_eq q e w1 Hq He).
  set (w2 := set_ents _ w1). set (e2 := set_refcount _ e) in w2.
  assert (He2 : ents w2 !! q = Some e2) by apply lookup_insert_eq.
  run (rd_entry_eq _ _ _ He2).
  destruct (open_either_spec (backend_path e2) w2) as (fd & k1 & Ho & Hopen & Hfile). run Ho.
  destruct (record_access_ok q e2 (set_kern k1 w2) Hq He2) as (t & k2 & Ha & Hfs & Hfd & Hofd & Hsch). run Ha.
  set (w3 := set_kern k2 _). set (e3 := set_access _ t e2) in w3.
  assert (He3 : ents w3 !! q = Some e3) by (simpl; apply lookup_insert_eq).
  run (upd_if_entry (0 <=? fd) q (fun e => set_fd_refcount (s32 (fd_refcount e + 1)) e) e3 w3 He3).
  set (w4 := set_ents _ w3).
  assert (Hg4 : gidxs w4 !! idx = Some g1) by done.
  run (upd_g_eq _ _ _ _ Hg4). exists fd, t, k2. split.
  - unfold mret, M_ret, looked_up. f_equal. unfold w4, w3, w2, w1, with_g. simpl.
    rewrite !insert_insert_eq. by destruct w.
  - destruct Hopen as [(A1 & A2 & A3 & A4) Hor]. destruct Hfs as (B1 & B2 & B3 & B4). simpl in *.
    split; [split; [repeat split; congruence|by rewrite Hfd]|].
    intros Hs. destruct (Hfile Hs) as [Hs1 Hf]. split; [congruence|]. rewrite Hfd, Hofd. exact Hf.
Qed.

Lemma global_lookup_hit idx u w g L q e :
  idx <> NULL -> gidxs w !! idx = Some g -> table_rep (ents w) (g_buckets g) (g_num_buckets g) L ->
  find_uri (ents w) L u = Some q -> ents w !! q = Some e ->
  exists fd t k', global_index_lookup idx (Some u) true w =
    Ret (0, Some (FdRef q fd 0))
        (set_kern k' (set_ents (<[q:=looked_up fd t e]> (ents w))
           (with_g idx (set_g_stats (u64 (g_lookups g + 1)) (u64 (g_hits g + 1)) (g_misses g) g) w))) /\
    opened (kern w) fd k' /\ opens (kern w) (backend_path e) fd k'.
Proof.
  intros Hi Hg Hrep Hf He. destruct (bucket_chain _ _ _ _ u Hrep) as (Hb & Hc & Hh & Hfu). rewrite Hf in Hfu.
  eapply global_lookup_found; try done.
  - intros w1 Hw1. rewrite <- Hw1 in *. rewrite (find_in_ok _ _ u w1 Hc Hh). by rewrite Hfu.
  - apply find_uri_split in Hfu as (l1 & l2 & Hl & _).
    apply (chain_dom (ents w) _ _ q Hc). rewrite Hl. apply elem_of_app. right. left.
Qed.

(** Releasing a handle while others hold the entry. *)
Definition released (fd : Z) (e : index_entry) : index_entry :=
  let e := if 0 <=? fd then set_fd_refcount (s32 (fd_refcount e - 1)) e else e in
  set_refcount (s32 (entry_refcount e - 1)) e.

Lemma close_if_eq fd p f e w : ents w !! p = Some e ->
  ((if 0 <=? fd then _ ← onk (sys_close_fd fd); upd_entry p f else mret ()) : M world ()) w =
  Ret () (set_kern (close_if fd (kern w)) (set_ents (<[p:=if 0 <=? fd then f e else e]> (ents w)) w)).
Proof.
  intros He. unfold close_if. destruct (0 <=? fd).
  - unfold mbind, M_bind. simpl. unfold upd_entry. simpl. rewrite He. by destruct w.
  - rewrite insert_id by done. unfold mret, M_ret. by destruct w.
Qed.

Lemma release_shared q fd gen e w :
  q <> NULL -> ents w !! q = Some e -> entry_refcount e <> 1 ->
  fd_ref_release (Some (FdRef q fd gen)) w =
    Ret (Some (FdRef NULL (-1) gen)) (set_kern (close_if fd (kern w)) (set_ents (<[q:=released fd e]> (ents w)) w)).
Proof.
  intros Hq He Hr. unfold fd_ref_release. simpl fr_entry. rewrite NULL_eqb by done. simpl fr_fd.
  run (close_if_eq fd q (fun e => set_fd_refcount (s32 (fd_refcount e - 1)) e) e w He).
  set (w1 := set_kern _ _). set (e1 := if (0 <=? fd) then _ else e) in w1.
  assert (He1 : ents w1 !! q = Some e1) by apply lookup_insert_eq.
  assert (Hr1 : entry_refcount e1 <> 1) by (unfold e1; by destruct (0 <=? fd)).
  run (entry_put_shared _ _ _ Hq He1 Hr1). unfold mret, M_ret, w1, released. simpl.
  rewrite insert_insert_eq. by destruct w.
Qed.

(** The fields of an entry that identify the object and where it is. *)
Definition located (e : index_entry) : list byte * Z * Z * option (list byte) :=
  (uri e, uri_hash e, backend_id e, backend_path e).

(** The descriptors after a lookup and its release are those before. *)
Lemma opened_closed k fd k' : opened k fd k' -> fdtab (close_if fd k') = fdtab k /\ same_fs k (close_if fd k').
Proof.
  intros [(A1 & A2 & A3 & A4) [[-> Hf]|(o & -> & Hf)]].
  - rewrite close_if_neg. done.
  - unfold close_if. pose proof (lowest_free_nonneg (fdtab k)).
    destruct (0 <=? _) eqn:E; [|lia]. simpl. rewrite Hf. split; [|done].
    apply delete_insert_id. apply lowest_free_None.
Qed.

Lemma looked_up_released fd t e :
  1 <= entry_refcount e < 2 ^ 31 - 1 -> 0 <= fd_refcount e < 2 ^ 31 ->
  released fd (looked_up fd t e) = set_access (u64 (access_count e + 1)) t e.
Proof.
  intros Hr Hf.
  assert (H1 : s32 (s32 (entry_refcount e + 1) - 1) = entry_refcount e) by (apply s32_inc_dec; lia).
  assert (H2 : s32 (s32 (fd_refcount e + 1) - 1) = fd_refcount e) by (apply s32_inc_dec; lia).
  unfold released, looked_up. destruct (0 <=? fd); unfold set_access, set_refcount, set_fd_refcount;
    cbn [entry_refcount fd_refcount uri uri_hash backend_id backend_path e_fd fd_generation size_bytes mtime flags
         access_count last_access hotness_score next]; by rewrite ?H1, ?H2.
Qed.

(** [global_index_lookup] followed by [fd_ref_release]: the access is recorded,
    and nothing else has changed. *)
Lemma global_lookup_release idx u w g L q e :
  idx <> NULL -> gidxs w !! idx = Some g -> table_rep (ents w) (g_buckets g) (g_num_buckets g) L ->
  find_uri (ents w) L u = Some q -> ents w !! q = Some e -> q <> NULL ->
  1 <= entry_refcount e < 2 ^ 31 - 1 -> 0 <= fd_refcount e < 2 ^ 31 ->
  exists r w1 t k', global_index_lookup idx (Some u) true w = Ret (0, Some r) w1 /\ fr_entry r = q /\
    located <$> ents w1 !! q = Some (located e) /\
    fd_ref_release (Some r) w1 = Ret (Some (FdRef NULL (-1) 0))
      (set_kern k' (set_ents (<[q:=set_access (u64 (access_count e + 1)) t e]> (ents w))
        (with_g idx (set_g_stats (u64 (g_lookups g + 1)) (u64 (g_hits g + 1)) (g_misses g) g) w))) /\
    fdtab k' = fdtab (kern w) /\ same_fs (kern w) k'.
Proof.
  intros Hi Hg Hrep Hf He Hq Hrc Hfr.
  destruct (global_lookup_hit idx u w g L q e Hi Hg Hrep Hf He) as (fd & t & k' & Hl & Hop & _).
  do 3 eexists. exists (close_if fd k'). split; [exact Hl|]. split; [done|].
  destruct (opened_closed _ _ _ Hop) as [Hfd Hfs]. split; [|split; [|done]].
  - simpl. rewrite lookup_insert_eq. simpl. f_equal. unfold looked_up. by destruct (0 <=? fd).
  - erewrite (release_shared q fd 0 (looked_up fd t e)); [|done|simpl; apply lookup_insert_eq|].
    + simpl. rewrite insert_insert_eq. rewrite (looked_up_released fd t e) by done. by destruct w.
    + unfold looked_up. destruct (0 <=? fd); simpl; rewrite s32_small; lia.
Qed.

Lemma global_insert_dup idx p e w g L q :
  idx <> NULL -> gidxs w !! idx = Some g -> table_rep (ents w) (g_buckets g) (g_num_buckets g) L ->
  p <> NULL -> ents w !! p = Some e -> uri_hash e = index_hash_string (uri e) ->
  find_uri (ents w) L (uri e) = Some q ->
  global_index_insert idx p w = Ret (-1) w.
Proof.
  intros Hi Hg Hrep Hp He Hh Hf. unfold global_index_insert. rewrite !NULL_eqb by done. cbn [orb].
  run (rd_g_eq _ _ _ Hg). run (rd_entry_eq _ _ _ He). cbv zeta. rewrite Hh.
  destruct (bucket_chain _ _ _ _ (uri e) Hrep) as (Hb & Hc & Hhd & Hfu).
  rewrite Hb, deref_bind. run (find_in_ok _ _ (uri e) w Hc Hhd). rewrite Hfu, Hf. simpl default.
  rewrite NULL_eqb; [done|]. rewrite Hf in Hfu. apply find_uri_split in Hfu as (l1 & l2 & Hl & _).
  apply (chain_dom _ _ _ q Hc). rewrite Hl. apply elem_of_app. right. left.
Qed.

Lemma global_insert_new idx p e w g L :
  idx <> NULL -> gidxs w !! idx = Some g -> table_rep (ents w) (g_buckets g) (g_num_buckets g) L ->
  p <> NULL -> p ∉ L -> ents w !! p = Some e -> uri_hash e = index_hash_string (uri e) ->
  find_uri (ents w) L (uri e) = None ->
  exists n b, let w' := set_ents (<[p:=set_next n e]> (ents w)) (with_g idx (set_g_table b (u64 (g_num_entries g + 1)) g) w) in
    global_index_insert idx p w = Ret 0 w' /\ n = default NULL (g_buckets g !! bucket_of (uri_hash e) (g_num_buckets g)) /\
    table_rep (ents w') b (g_num_buckets g) (p :: L) /\ b = <[bucket_of (uri_hash e) (g_num_buckets g) := p]> (g_buckets g).
Proof.
  intros Hi Hg Hrep Hp Hnin He Hh Hf. unfold global_index_insert. rewrite !NULL_eqb by done. cbn [orb].
  rewrite (bind_Ret _ _ _ _ _ (rd_g_eq _ _ _ Hg)), (bind_Ret _ _ _ _ _ (rd_entry_eq _ _ _ He)). cbv zeta.
  destruct (bucket_chain _ _ _ _ (uri e) Hrep) as (Hb & Hc & Hhd & Hfu). rewrite Hh.
  rewrite Hb, deref_bind, (bind_Ret _ _ _ _ _ (find_in_ok _ _ (uri e) w Hc Hhd)), Hfu, Hf. simpl default.
  rewrite Z.eqb_refl. cbn [negb]. rewrite (bind_Ret _ _ _ _ _ (upd_entry_eq _ _ _ _ He)).
  do 2 eexists. split; [|split; [reflexivity|split; [|reflexivity]]].
  { set (w1 := set_ents _ w). assert (Hg1 : gidxs w1 !! idx = Some g) by done.
    run (upd_g_eq _ _ _ _ Hg1). unfold mret, M_ret, w1, with_g. simpl. f_equal; by destruct w. }
  simpl. set (e' := set_next _ e). rewrite <- Hh. change (uri_hash e) with (uri_hash e').
  apply table_rep_insert with (e := e'); [|done|done|by rewrite lookup_insert_eq|done|simpl; by rewrite Hh].
  apply table_rep_frame with (ents w); [done|]. intros x Hx. rewrite lookup_insert_ne; [done|]. by intros ->.
Qed.

(** *** Removal *)

(** What [atomic_store(prev_next, n)] does to the entries and the buckets. *)
Definition unlink_at (h : gmap ptr index_entry) (b : gmap Z ptr) (i : Z) (prev : option ptr) (n : ptr)
  : gmap ptr index_entry * gmap Z ptr :=
  match prev with
  | None => (h, <[i:=n]> b)
  | Some a => (alter (set_next n) a h, b)
  end.

(** An entry without its link. *)
Definition unlinked (e : index_entry) : index_entry := set_next NULL e.

(** The heaps agree on everything but links. *)
Definition same_but_links (h h' : gmap ptr index_entry) : Prop := forall p, unlinked <$> h' !! p = unlinked <$> h !! p.

Lemma table_rep_unlink h b nb L q e l1 l2 :
  table_rep h b nb L -> h !! q = Some e -> bucket_list h nb (bucket_of (uri_hash e) nb) L = l1 ++ q :: l2 ->
  let r := unlink_at h b (bucket_of (uri_hash e) nb) (last_or None l1) (next e) in
  table_rep r.1 r.2 nb (without q L) /\ same_but_links h r.1 /\ r.1 !! q = Some e.
Proof.
  intros Hrep Hq Hl. destruct (last_or None l1) as [a|] eqn:E; simpl.
  - apply last_or_Some in E as [l0 ->].
    assert (Hc := tr_chain _ _ _ _ Hrep _ (bucket_of_range (uri_hash e) nb (tr_pow2 _ _ _ _ Hrep))). rewrite Hl in Hc.
    assert (Hnd := chain_NoDup _ _ _ Hc).
    destruct (chain_dom _ _ _ a Hc) as [_ [ea Ha]]; [rewrite !elem_of_app; left; right; left|].
    assert (Hne : a <> q).
    { intros ->. rewrite <- app_assoc in Hnd. apply list.NoDup_app in Hnd as (_ & _ & Hnd). simpl in Hnd.
      apply list.NoDup_cons in Hnd as [Hnd _]. apply Hnd. left. }
    assert (Halt : alter (set_next (next e)) a h = <[a:=set_next (next e) ea]> h).
    { apply map_eq. intros p. destruct (decide (p = a)) as [->|]; [by rewrite lookup_alter_eq, Ha, lookup_insert_eq|].
      by rewrite lookup_alter_ne, lookup_insert_ne. }
    split; [rewrite Halt; by apply table_rep_unlink_mid with l0 l2|].
    split; [|by rewrite lookup_alter_ne].
    intros p. destruct (decide (p = a)) as [->|]; [by rewrite lookup_alter_eq, Ha|by rewrite lookup_alter_ne].
  - apply last_or_None in E as ->. split; [|done]. apply table_rep_unlink_head; [done|done|done|by exists l2].
Qed.

Lemma g_link_eq idx i prev n w g :
  gidxs w !! idx = Some g -> (forall a, prev = Some a -> is_Some (ents w !! a)) ->
  let r := unlink_at (ents w) (g_buckets g) i prev n in
  g_link idx i prev n w = Ret () (set_ents r.1 (with_g idx (set_g_table r.2 (g_num_entries g) g) w)).
Proof.
  intros Hg Hp. destruct prev as [a|]; simpl.
  - destruct (Hp a eq_refl) as [ea Ha]. rewrite (upd_entry_eq _ _ _ _ Ha).
    assert (Hsame : set_g_table (g_buckets g) (g_num_entries g) g = g) by by destruct g.
    unfold with_g. rewrite Hsame, (insert_id (gidxs w)) by done. f_equal. destruct w; simpl in *. f_equal.
    apply map_eq. intros p. destruct (decide (p = a)) as [->|]; [by rewrite lookup_alter_eq, Ha, lookup_insert_eq|].
    by rewrite lookup_alter_ne, lookup_insert_ne.
  - rewrite (upd_g_eq _ _ _ _ Hg). unfold with_g. by destruct w.
Qed.

(** Dropping the index's reference: freed when it was the last one. *)
Definition after_put (e : index_entry) : option index_entry :=
  if entry_refcount e =? 1 then None else Some (set_refcount (s32 (entry_refcount e - 1)) e).

Definition put_heap (p : ptr) (e : index_entry) (h : gmap ptr index_entry) : gmap ptr index_entry :=
  match after_put e with None => delete p h | Some e' => <[p:=e']> h end.

Lemma entry_put_eq p e w : p <> NULL -> ents w !! p = Some e ->
  index_entry_put p w =
    Ret () (set_kern (if entry_refcount e =? 1 then close_if (e_fd e) (kern w) else kern w)
                     (set_ents (put_heap p e (ents w)) w)).
Proof.
  intros Hp He. unfold put_heap, after_put. destruct (entry_refcount e =? 1) eqn:E.
  - apply Z.eqb_eq in E. by rewrite (entry_put_last _ _ _ Hp He E).
  - apply Z.eqb_neq in E. rewrite (entry_put_shared _ _ _ Hp He E). by destruct w.
Qed.

Lemma put_heap_eq p e h : put_heap p e h !! p = after_put e.
Proof. unfold put_heap. destruct (after_put e); [apply lookup_insert_eq|apply lookup_delete_eq]. Qed.
Lemma put_heap_ne p e h q : q <> p -> put_heap p e h !! q = h !! q.
Proof. intros Hne. unfold put_heap. destruct (after_put e); [by apply lookup_insert_ne|by apply lookup_delete_ne]. Qed.

Lemma find_prev_live h p l1 q l2 : chain h p (l1 ++ q :: l2) -> forall a, last_or None l1 = Some a -> is_Some (h !! a).
Proof.
  intros Hc a [l ->]%last_or_Some. apply (chain_dom _ _ _ a Hc). rewrite !elem_of_app. left. right. left.
Qed.

Lemma global_remove_miss idx u w g L :
  idx <> NULL -> gidxs w !! idx = Some g -> table_rep (ents w) (g_buckets g) (g_num_buckets g) L ->
  find_uri (ents w) L u = None -> global_index_remove idx (Some u) w = Ret (-1) w.
Proof.
  intros Hi Hg Hrep Hf. unfold global_index_remove. rewrite NULL_eqb by done.
  run (rd_g_eq _ _ _ Hg). cbv zeta. destruct (bucket_chain _ _ _ _ u Hrep) as (Hb & Hc & Hh & Hfu).
  rewrite Hb, deref_bind. pose proof (find_prev_in_ok _ _ u w Hc Hh) as Hfp. rewrite Hfu, Hf in Hfp. by run Hfp.
Qed.

Lemma close_open_eq fd idx w g : gidxs w !! idx = Some g ->
  exists g', ((if 0 <=? fd then _ ← onk (sys_close_fd fd); upd_g idx (fun g => set_g_open (u64 (g_num_open_fds g - 1)) g)
              else mret ()) : M world ()) w = Ret () (set_kern (close_if fd (kern w)) (with_g idx g' w)) /\
    g_buckets g' = g_buckets g /\ g_num_buckets g' = g_num_buckets g /\ g_num_entries g' = g_num_entries g.
Proof.
  intros Hg. unfold close_if. destruct (0 <=? fd).
  - exists (set_g_open (u64 (g_num_open_fds g - 1)) g). split; [|done]. unfold mbind, M_bind. simpl.
    rewrite (upd_g_eq _ _ g) by done. unfold with_g. by destruct w.
  - exists g. split; [|done]. unfold with_g. rewrite insert_id by done. unfold mret, M_ret. by destruct w.
Qed.

Lemma global_remove_hit idx u w g L q e :
  idx <> NULL -> gidxs w !! idx = Some g -> table_rep (ents w) (g_buckets g) (g_num_buckets g) L ->
  find_uri (ents w) L u = Some q -> ents w !! q = Some e ->
  exists h g', global_index_remove idx (Some u) w =
      Ret 0 (set_kern (close_if (e_fd e) (kern w)) (set_ents (put_heap q (set_fd (-1) e) h) (with_g idx g' w))) /\
    table_rep (put_heap q (set_fd (-1) e) h) (g_buckets g') (g_num_buckets g') (without q L) /\
    g_num_buckets g' = g_num_buckets g /\ g_num_entries g' = u64 (g_num_entries g - 1) /\ same_but_links (ents w) h.
Proof.
  intros Hi Hg Hrep Hf He. unfold global_index_remove. rewrite NULL_eqb by done.
  rewrite (bind_Ret _ _ _ _ _ (rd_g_eq _ _ _ Hg)). cbv zeta.
  destruct (bucket_chain _ _ _ _ u Hrep) as (Hb & Hc & Hh & Hfu).
  rewrite Hb, deref_bind. pose proof (find_prev_in_ok _ _ u w Hc Hh) as Hfp.
  rewrite Hfu, Hf in Hfp. destruct Hfp as (l1 & l2 & Hl & _ & Huq & Hfp).
  rewrite (bind_Ret _ _ _ _ _ Hfp), (bind_Ret _ _ _ _ _ (rd_entry_eq _ _ _ He)).
  assert (Hqh : hashed (ents w) q).
  { rewrite list.Forall_forall in Hh. apply Hh. rewrite Hl, elem_of_app. right. left. }
  assert (Hbu : bucket_of (uri_hash e) (g_num_buckets g) = bucket_of (index_hash_string u) (g_num_buckets g)).
  { destruct Hqh as (_ & e' & He' & Hhe). rewrite He in Huq, He'. simplify_eq/=. by rewrite Hhe. }
  rewrite Hl in Hc. destruct Hqh as [Hq _].
  destruct (table_rep_unlink (ents w) (g_buckets g) (g_num_buckets g) L q e l1 l2) as (Hrep' & Hlinks & Hq');
    [done|done|by rewrite Hbu|].
  rewrite (bind_Ret _ _ _ _ _ (g_link_eq _ _ _ (next e) w g Hg (find_prev_live _ _ _ _ _ Hc))). rewrite Hbu in *.
  set (r := unlink_at _ _ _ _ _) in *.
  set (w1 := set_ents r.1 _). assert (He1 : ents w1 !! q = Some e) by done.
  rewrite (bind_Ret _ _ _ _ _ (upd_entry_eq _ _ _ _ He1)). set (w2 := set_ents _ w1). set (g2 := set_g_table r.2 _ g) in w1.
  assert (Hg2 : gidxs w2 !! idx = Some g2) by apply lookup_insert_eq.
  destruct (close_open_eq (e_fd e) idx w2 g2 Hg2) as (g3 & Hclose & Hg3a & Hg3b & Hg3c).
  rewrite (bind_Ret _ _ _ _ _ Hclose). set (w3 := set_kern _ _).
  assert (He3 : ents w3 !! q = Some (set_fd (-1) e)) by apply lookup_insert_eq.
  rewrite (bind_Ret _ _ _ _ _ (entry_put_eq _ _ _ Hq He3)).
  set (w4 := set_kern _ _). assert (Hg4 : gidxs w4 !! idx = Some g3) by apply lookup_insert_eq.
  rewrite (bind_Ret _ _ _ _ _ (upd_g_eq _ _ _ _ Hg4)).
  exists r.1, (set_g_table (g_buckets g3) (u64 (g_num_entries g3 - 1)) g3).
  assert (Hph : put_heap q (set_fd (-1) e) (<[q:=set_fd (-1) e]> r.1) = put_heap q (set_fd (-1) e) r.1).
  { unfold put_heap. destruct (after_put _); [apply insert_insert_eq|apply delete_insert_eq]. }
  split; [|split; [|split; [|split]]].
  - unfold mret, M_ret, w4, w3, w2, w1, with_g. simpl. rewrite Hph, !insert_insert_eq.
    destruct (entry_refcount e =? 1); by destruct w.
  - simpl. rewrite Hg3a, Hg3b. apply table_rep_frame with r.1; [done|]. intros p [Hne _]%without_elem. by rewrite put_heap_ne.
  - done.
  - simpl. by rewrite Hg3c.
  - done.
Qed.
