(* ===== verification/IndexRefine.v ===== *)
(** * IndexRefine: the global index refines a finite map

    A client that inserts, looks up, relocates and removes objects through the
    global index observes a finite map from URIs to locations, for every sequence
    of operations, and the index leaks neither entries nor descriptors. *)

From S2P Require Import Prelude Socket Kernel Index IndexProofs.

(** ** The client's operations *)

Inductive gop :=
| GInsert (u : list byte) (bid : Z) (path : list byte)
| GRemove (u : list byte)
| GGet (u : list byte)
| GRelocate (u : list byte) (bid : Z) (path : list byte).

(** The return code and, for a lookup that found it, where the object is. *)
Definition gres : Type := Z * option (Z * option (list byte)).

(** How a client uses the API: the entry of a refused insertion is dropped, and
    a looked-up handle is released. *)
Definition run_gop (idx : ptr) (op : gop) : M world gres :=
  match op with
  | GInsert u bid path =>
      p ← index_entry_create u bid path;
      rc ← global_index_insert idx p;
      if rc <? 0 then _ ← index_entry_put p; mret (rc, None) else mret (rc, None)
  | GRemove u => rc ← global_index_remove idx (Some u); mret (rc, None)
  | GGet u =>
      r ← global_index_lookup idx (Some u) true;
      match r with
      | (rc, Some ref) =>
          e ← rd_entry (fr_entry ref);
          _ ← fd_ref_release (Some ref);
          mret (rc, Some (backend_id e, backend_path e))
      | (rc, None) => mret (rc, None)
      end
  | GRelocate u bid path => rc ← global_index_update_backend idx (Some u) bid (Some path); mret (rc, None)
  end.

Fixpoint run_gops (idx : ptr) (ops : list gop) : M world (list gres) :=
  match ops with
  | [] => mret []
  | op :: ops => r ← run_gop idx op; rs ← run_gops idx ops; mret (r :: rs)
  end.

(** ** The specification: a finite map *)

Notation "'objmap'" := (gmap (list byte) (Z * option (list byte))).

Definition spec_gop (m : objmap) (op : gop) : gres * objmap :=
  match op with
  | GInsert u bid path =>
      match m !! u with
      | Some _ => ((-1, None), m)
      | None => ((0, None), <[u:=(u32 bid, Some path)]> m)
      end
  | GRemove u => match m !! u with Some _ => ((0, None), delete u m) | None => ((-1, None), m) end
  | GGet u => match m !! u with Some v => ((0, Some v), m) | None => ((-1, None), m) end
  | GRelocate u bid path =>
      match m !! u with Some _ => ((0, None), <[u:=(u32 bid, Some path)]> m) | None => ((-1, None), m) end
  end.

Fixpoint spec_gops (m : objmap) (ops : list gop) : list gres * objmap :=
  match ops with
  | [] => ([], m)
  | op :: ops => let r := spec_gop m op in let rs := spec_gops r.2 ops in (r.1 :: rs.1, rs.2)
  end.

(** ** The simulation relation *)

(** The location of the entry at [p]. *)
Definition loc_at (h : gmap ptr index_entry) (p : ptr) : option (Z * option (list byte)) :=
  (fun e => (backend_id e, backend_path e)) <$> h !! p.

(** An entry only the index refers to, with no descriptor. *)
Definition idle (e : index_entry) : Prop := entry_refcount e = 1 /\ fd_refcount e = 0 /\ e_fd e = -1.

(** The index [idx] holds exactly the map [m], and every live entry is in it. *)
Record holds (w : world) (idx : ptr) (m : objmap) : Prop := {
  ho_idx : idx <> NULL;
  ho_rep : exists g L, gidxs w !! idx = Some g /\ table_rep (ents w) (g_buckets g) (g_num_buckets g) L /\
             g_num_entries g = u64 (Z.of_nat (length L)) /\
             dom (ents w) = list_to_set L /\
             (forall p q, p ∈ L -> q ∈ L -> uri <$> ents w !! p = uri <$> ents w !! q -> p = q) /\
             (forall u, m !! u = find_uri (ents w) L u ≫= loc_at (ents w));
  ho_idle : map_Forall (fun _ e => idle e) (ents w);
  ho_brk : 0 < brk w /\ map_Forall (fun p _ => p < brk w) (ents w);
  ho_mem : k_oom (kern w) = []
}.

(** ** Creation and relocation *)

Definition new_entry (u : list byte) (bid : Z) (path : list byte) : index_entry :=
  Entry u (index_hash_string u) (u32 bid) (Some path) (-1) 0 0 0 0 0 0 0 (S754_zero false) 1 NULL.

Lemma malloc_ok w : k_oom (kern w) = [] -> onk sys_malloc w = Ret true w.
Proof. intros H. unfold onk, sys_malloc. rewrite H. by destruct w. Qed.

Lemma entry_create_ok u bid path w : k_oom (kern w) = [] ->
  index_entry_create u bid path w =
    Ret (brk w) (set_brk (brk w + 1) (set_ents (<[brk w:=new_entry u bid path]> (ents w)) w)).
Proof.
  intros H. unfold index_entry_create. rewrite !(bind_Ret _ _ _ _ _ (malloc_ok w H)). cbn [negb].
  rewrite !(bind_Ret _ _ _ _ _ (malloc_ok w H)). cbn [negb orb]. by destruct w.
Qed.

Lemma loc_at_ext h h' p : located <$> h' !! p = located <$> h !! p -> loc_at h' p = loc_at h p.
Proof.
  unfold loc_at, located. destruct (h' !! p), (h !! p); simpl; [|done..]. intros [= H1 H2 H3 H4]. by rewrite H3, H4.
Qed.

Lemma find_uri_live h L u p : find_uri h L u = Some p -> p ∈ L /\ exists e, h !! p = Some e /\ uri e = u.
Proof.
  intros (l1 & l2 & -> & _ & Hu)%find_uri_split. split; [apply elem_of_app; right; left|].
  by apply fmap_Some in Hu as (e & He & ->); eauto.
Qed.

(** Rewriting the entry of [u], links and key apart, updates the map at [u]. *)
Lemma holds_move w idx m q e e' g g' k' :
  holds w idx m -> gidxs w !! idx = Some g -> ents w !! q = Some e -> tkey e' = tkey e -> idle e' ->
  g_buckets g' = g_buckets g -> g_num_buckets g' = g_num_buckets g -> g_num_entries g' = g_num_entries g ->
  k_oom k' = [] ->
  holds (set_kern k' (set_ents (<[q:=e']> (ents w)) (with_g idx g' w))) idx
        (<[uri e:=(backend_id e', backend_path e')]> m).
Proof.
  intros [H1 (g0 & L & Hg0 & Hrep & Hn & Hd & Hu & Hm) H3 [H4 H5] H6] Hg He Ht Hidle E1 E2 E3 Hk.
  replace g0 with g in * by congruence. clear Hg0.
  assert (Htt : forall p, tkey <$> <[q:=e']> (ents w) !! p = tkey <$> ents w !! p).
  { intros p. destruct (decide (p = q)) as [->|]; [by rewrite lookup_insert_eq, He; simpl; rewrite Ht|by rewrite lookup_insert_ne]. }
  assert (Huu : forall p, uri <$> <[q:=e']> (ents w) !! p = uri <$> ents w !! p) by auto with objm.
  assert (HqL : q ∈ L).
  { rewrite <- (elem_of_list_to_set (C:=gset ptr)), <- Hd. apply elem_of_dom. eauto. }
  split; simpl; [done| | |split; [done|]|done].
  - exists g', L. rewrite lookup_insert_eq, E1, E2, E3. split; [done|]. split; [|split; [done|split; [|split]]].
    + apply table_rep_frame with (ents w); auto.
    + rewrite dom_insert_lookup_L by eauto. done.
    + intros p p' Hp Hp'. rewrite !Huu. by apply Hu.
    + intros u. rewrite (find_uri_ext (ents w)) by done. destruct (decide (u = uri e)) as [->|Hne].
      * rewrite lookup_insert_eq. destruct (find_uri (ents w) L (uri e)) as [p|] eqn:E.
        -- apply find_uri_live in E as (Hp & x & Hx & Hxu). assert (p = q) as ->.
           { apply Hu; [done|done|]. rewrite Hx, He. simpl. congruence. }
           simpl. unfold loc_at. by rewrite lookup_insert_eq.
        -- apply find_uri_None in E. rewrite list.Forall_forall in E. exfalso. apply (E q HqL). by rewrite He.
      * rewrite lookup_insert_ne, Hm by done. destruct (find_uri (ents w) L u) as [p|] eqn:E; [|done]. simpl.
        apply find_uri_live in E as (Hp & x & Hx & Hxu). unfold loc_at. rewrite lookup_insert_ne; [done|].
        intros <-. congruence.
  - by apply map_Forall_insert_2.
  - apply map_Forall_insert_2; [|done]. by apply (map_Forall_lookup_1 _ _ _ _ H5 He).
Qed.

(** The map says where the entry with the URI is. *)
Lemma holds_lookup w idx m q e : holds w idx m -> ents w !! q = Some e -> m !! uri e = Some (backend_id e, backend_path e).
Proof.
  intros [H1 (g & L & Hg & Hrep & Hn & Hd & Hu & Hm) H3 H4 H6] He.
  assert (HqL : q ∈ L).
  { rewrite <- (elem_of_list_to_set (C:=gset ptr)), <- Hd. apply elem_of_dom. eauto. }
  rewrite Hm. destruct (find_uri (ents w) L (uri e)) as [p|] eqn:E.
  - apply find_uri_live in E as (Hp & x & Hx & Hxu). assert (p = q) as ->.
    { apply Hu; [done|done|]. rewrite Hx, He. simpl. congruence. }
    simpl. unfold loc_at. by rewrite He.
  - apply find_uri_None in E. rewrite list.Forall_forall in E. exfalso. apply (E q HqL). by rewrite He.
Qed.

(** Recording an access keeps the map. *)
Lemma holds_touch w idx m q e e' g g' k' :
  holds w idx m -> gidxs w !! idx = Some g -> ents w !! q = Some e ->
  located e' = located e -> tkey e' = tkey e -> idle e' ->
  g_buckets g' = g_buckets g -> g_num_buckets g' = g_num_buckets g -> g_num_entries g' = g_num_entries g ->
  k_oom k' = [] ->
  holds (set_kern k' (set_ents (<[q:=e']> (ents w)) (with_g idx g' w))) idx m.
Proof.
  intros H Hg He [= _ _ L3 L4] Ht Hi E1 E2 E3 Hk.
  rewrite <- (insert_id m (uri e) (backend_id e', backend_path e')); [by eapply holds_move|].
  rewrite L3, L4. by eapply holds_lookup.
Qed.

(** ** Each operation simulates the specification *)

(** The operation returns what the map says, and the descriptors are as before. *)
Definition simulates (w : world) (idx : ptr) (m : objmap) (op : gop) : Prop :=
  exists w', run_gop idx op w = Ret (spec_gop m op).1 w' /\ holds w' idx (spec_gop m op).2 /\
    fdtab (kern w') = fdtab (kern w).

Lemma holds_stats w idx m g g' :
  holds w idx m -> gidxs w !! idx = Some g ->
  g_buckets g' = g_buckets g -> g_num_buckets g' = g_num_buckets g -> g_num_entries g' = g_num_entries g ->
  holds (with_g idx g' w) idx m.
Proof.
  intros [H1 (g0 & L & Hg0 & Hrest) H3 H4 H6] Hg E1 E2 E3. replace g0 with g in * by congruence.
  split; simpl; try done. exists g', L. rewrite lookup_insert_eq, E1, E2, E3. done.
Qed.

Lemma sim_get w idx m u : holds w idx m -> simulates w idx m (GGet u).
Proof.
  intros H. pose proof H as [H1 (g & L & Hg & Hrep & Hn & Hd & Hu & Hm) H3 [H4 H5] H6].
  unfold simulates, run_gop, spec_gop. rewrite Hm. destruct (find_uri (ents w) L u) as [q|] eqn:Hf; simpl.
  - destruct (find_uri_live _ _ _ _ Hf) as (Hin & e & He & Hue).
    assert (Hq : q <> NULL).
    { pose proof (tr_hashed _ _ _ _ Hrep) as Hh. rewrite list.Forall_forall in Hh. by destruct (Hh q Hin). }
    pose proof (map_Forall_lookup_1 _ _ _ _ H3 He) as (Hrc & Hfc & Hfd).
    destruct (global_lookup_release idx u w g L q e H1 Hg Hrep Hf He Hq) as (r & w1 & t & k' & Hl & Hr & Hloc & Hrel & Hfdt & Hfs);
      [lia|lia|].
    run Hl. rewrite Hr. apply fmap_Some in Hloc as (e1 & He1 & Hloc). run (rd_entry_eq _ _ _ He1). run Hrel.
    injection Hloc as L1 L2 L3 L4. unfold loc_at. rewrite He. simpl. rewrite <- L3, <- L4.
    eexists. split; [reflexivity|]. split; [|done].
    eapply holds_touch; try done. destruct Hfs as (_ & _ & -> & _). done.
  - run (global_lookup_miss idx u w g L H1 Hg Hrep Hf). eexists. split; [reflexivity|]. split; [|done].
    by eapply holds_stats.
Qed.

Lemma sim_remove w idx m u : holds w idx m -> simulates w idx m (GRemove u).
Proof.
  intros H. pose proof H as [H1 (g & L & Hg & Hrep & Hn & Hd & Hu & Hm) H3 [H4 H5] H6].
  unfold simulates, run_gop, spec_gop. rewrite Hm. destruct (find_uri (ents w) L u) as [q|] eqn:Hf; simpl.
  2:{ run (global_remove_miss idx u w g L H1 Hg Hrep Hf). by eexists. }
  destruct (find_uri_live _ _ _ _ Hf) as (Hin & e & He & Hue).
  pose proof (map_Forall_lookup_1 _ _ _ _ H3 He) as (Hrc & Hfc & Hfd).
  destruct (global_remove_hit idx u w g L q e H1 Hg Hrep Hf He) as (h & g' & Hr & Hrep' & Hnb & Hn' & Hsl).
  run Hr. unfold loc_at. rewrite He, Hfd, close_if_neg. simpl. eexists. split; [reflexivity|]. split; [|done].
  assert (Hph : put_heap q (set_fd (-1) e) h = delete q h) by (unfold put_heap, after_put; simpl; by rewrite Hrc).
  rewrite Hph in *.
  assert (Hsl' : forall p, p <> q -> unlinked <$> delete q h !! p = unlinked <$> ents w !! p).
  { intros p Hp. rewrite lookup_delete_ne by done. apply Hsl. }
  assert (Hloc : forall p, p <> q -> located <$> delete q h !! p = located <$> ents w !! p).
  { intros p Hp. specialize (Hsl' p Hp). destruct (delete q h !! p), (ents w !! p); simpl in *; try done.
    injection Hsl' as A1 A2 A3 A4 _. unfold located. by rewrite A1, A2, A3, A4. }
  assert (Huri : forall p, p <> q -> uri <$> delete q h !! p = uri <$> ents w !! p).
  { intros p Hp. specialize (Hloc p Hp). destruct (delete q h !! p), (ents w !! p); simpl in *; try done.
    injection Hloc as A1 _. by rewrite A1. }
  assert (Hback : forall p x, delete q h !! p = Some x -> p <> q /\ exists y, ents w !! p = Some y /\ unlinked x = unlinked y).
  { intros p x Hx. assert (p <> q) by (intros ->; by rewrite lookup_delete_eq in Hx). split; [done|].
    specialize (Hsl' p ltac:(done)). rewrite Hx in Hsl'. destruct (ents w !! p); [|done]. simpl in Hsl'. eexists. split; [done|]. by apply (inj Some) in Hsl'. }
  split; simpl; [done| | |split; [done|]|done].
  - exists g', (without q L). rewrite lookup_insert_eq. split; [done|]. split; [done|].
    pose proof (tr_nodup _ _ _ _ Hrep) as Hnd.
    split; [|split; [|split]].
    + rewrite Hn', Hn. apply list_elem_of_split in Hin as (l1 & l2 & ->). rewrite without_split by done.
      rewrite !length_app. simpl. unfold u64. rewrite Zminus_mod_idemp_l. f_equal. lia.
    + apply set_eq. intros p. rewrite elem_of_list_to_set, without_elem, elem_of_dom.
      destruct (decide (p = q)) as [->|Hne]; [rewrite lookup_delete_eq; split; [by intros []|by intros []]|].
      rewrite <- (elem_of_list_to_set (C:=gset ptr)), <- Hd, elem_of_dom.
      specialize (Hsl' p Hne). destruct (delete q h !! p), (ents w !! p); simpl in *; try done.
      split; [by intros []|by intros [_ []]].
    + intros p p' [Hp1 Hp2]%without_elem [Hp1' Hp2']%without_elem. rewrite !Huri by done. by apply Hu.
    + intros u'. destruct (decide (u' = u)) as [->|Hne].
      * rewrite lookup_delete_eq. symmetry. destruct (find_uri _ (without q L) u) as [p|] eqn:E; [|done].
        apply find_uri_live in E as ([Hp1 Hp2]%without_elem & x & Hx & Hxu). exfalso. apply Hp1. apply Hu; [done|done|].
        rewrite <- Huri by done. rewrite Hx, He. simpl. congruence.
      * rewrite lookup_delete_ne, Hm by done.
        rewrite (find_uri_ext (ents w) (delete q h)) by (intros p [Hp _]%without_elem; by apply Huri).
        apply list_elem_of_split in Hin as (l1 & l2 & ->). rewrite without_split by done.
        assert (Hskip : find_uri (ents w) (l1 ++ q :: l2) u' = find_uri (ents w) (l1 ++ l2) u').
        { clear -He Hue Hne. induction l1 as [|a l1 IH]; simpl.
          - rewrite decide_False; [done|]. rewrite He. simpl. congruence.
          - by rewrite IH. }
        rewrite Hskip. destruct (find_uri (ents w) (l1 ++ l2) u') as [p|] eqn:E; [|done]. simpl. symmetry.
        apply loc_at_ext, Hloc. intros ->. apply find_uri_live in E as (_ & x & Hx & Hxu). congruence.
  - intros p x Hx. destruct (Hback p x Hx) as (_ & y & Hy & Hxy).
    pose proof (map_Forall_lookup_1 _ _ _ _ H3 Hy) as (I1 & I2 & I3).
    injection Hxy as _ _ _ _ X1 X2 _ _ _ _ _ _ _ X3. unfold idle. by rewrite X1, X2, X3.
  - intros p x Hx. destruct (Hback p x Hx) as (_ & y & Hy & _). by apply (map_Forall_lookup_1 _ _ _ _ H5 Hy).
Qed.

(** Adding a fresh entry that nothing links to. *)
Lemma fresh_frame w idx m u bid path :
  holds w idx m ->
  let p := brk w in
  let w1 := set_brk (p + 1) (set_ents (<[p:=new_entry u bid path]> (ents w)) w) in
  ents w !! p = None /\ p <> NULL /\
  (forall g L, table_rep (ents w) (g_buckets g) (g_num_buckets g) L -> dom (ents w) = list_to_set L ->
    (p ∉ L) /\ table_rep (ents w1) (g_buckets g) (g_num_buckets g) L /\
    (forall u', find_uri (ents w1) L u' = find_uri (ents w) L u') /\
    (forall q, q ∈ L -> ents w1 !! q = ents w !! q)).
Proof.
  intros [H1 _ H3 [H4 H5] H6] p w1.
  assert (Hfresh : ents w !! p = None).
  { destruct (ents w !! p) eqn:E; [|done]. pose proof (map_Forall_lookup_1 _ _ _ _ H5 E). simpl in *. unfold p in *. lia. }
  split; [done|]. split; [unfold p, NULL; lia|]. intros g L Hrep Hd.
  assert (Hnin : p ∉ L).
  { intros Hin. rewrite <- (elem_of_list_to_set (C:=gset ptr)), <- Hd, elem_of_dom, Hfresh in Hin. by destruct Hin. }
  assert (Hsame : forall q, q ∈ L -> ents w1 !! q = ents w !! q).
  { intros q Hq. simpl. rewrite lookup_insert_ne; [done|]. by intros <-. }
  split; [done|]. split; [|split; [|done]].
  - apply table_rep_frame with (ents w); [done|]. intros q Hq. by rewrite Hsame.
  - intros u'. apply find_uri_ext. intros q Hq. by rewrite Hsame.
Qed.

Lemma sim_insert w idx m u bid path : holds w idx m -> simulates w idx m (GInsert u bid path).
Proof.
  intros H. pose proof H as [H1 (g & L & Hg & Hrep & Hn & Hd & Hu & Hm) H3 [H4 H5] H6].
  destruct (fresh_frame w idx m u bid path H) as (Hfresh & Hp & Hfr). destruct (Hfr g L Hrep Hd) as (Hnin & Hrep1 & Hfu & Hsame).
  unfold simulates, run_gop, spec_gop. rewrite (bind_Ret _ _ _ _ _ (entry_create_ok u bid path w H6)).
  set (p := brk w) in *. set (w1 := set_brk _ _) in *. set (e := new_entry u bid path) in *.
  assert (He : ents w1 !! p = Some e) by apply lookup_insert_eq.
  assert (Hg1 : gidxs w1 !! idx = Some g) by done.
  rewrite Hm. destruct (find_uri (ents w) L u) as [q|] eqn:Hf; simpl.
  - destruct (find_uri_live _ _ _ _ Hf) as (Hin & eq & Heq & Huq). unfold loc_at. rewrite Heq. simpl.
    assert (Hf1 : find_uri (ents w1) L (uri e) = Some q) by (rewrite Hfu; exact Hf).
    run (global_insert_dup idx p e w1 g L q H1 Hg1 Hrep1 Hp He eq_refl Hf1). simpl.
    run (entry_put_last p e w1 Hp He eq_refl). eexists. split; [reflexivity|]. simpl. rewrite delete_insert_id by done.
    split; [|done]. split; simpl; [done|by exists g, L|done| |done]. split; [lia|].
    intros x y Hx. pose proof (map_Forall_lookup_1 _ _ _ _ H5 Hx). simpl in *. lia.
  - assert (Hf1 : find_uri (ents w1) L (uri e) = None) by (rewrite Hfu; exact Hf).
    destruct (global_insert_new idx p e w1 g L H1 Hg1 Hrep1 Hp Hnin He eq_refl Hf1) as (n & b & Hi & _ & Hrep2 & _).
    simpl in Hrep2. rewrite (bind_Ret _ _ _ _ _ Hi). simpl. eexists. split; [reflexivity|]. split; [|done].
    rewrite insert_insert_eq in *. set (e2 := set_next n e) in *.
    assert (Hsame2 : forall q, q ∈ L -> <[p:=e2]> (ents w) !! q = ents w !! q).
    { intros q Hq. rewrite lookup_insert_ne; [done|]. by intros <-. }
    split; simpl; rewrite ?insert_insert_eq; [done| | | |done].
    + eexists _, (p :: L). rewrite lookup_insert_eq. split; [reflexivity|]. simpl. split; [exact Hrep2|].
      split; [|split; [|split]].
      * rewrite Hn. unfold u64. rewrite Zplus_mod_idemp_l. f_equal. lia.
      * rewrite dom_insert_L, Hd. done.
      * intros x y [->|Hx]%elem_of_cons [->|Hy]%elem_of_cons; rewrite ?lookup_insert_eq, ?Hsame2 by done; [done| | |by apply Hu].
        -- simpl. intros E. exfalso. pose proof (proj1 (find_uri_None _ _ _) Hf) as Hall.
           rewrite list.Forall_forall in Hall. by apply (Hall y Hy).
        -- simpl. intros E. exfalso. pose proof (proj1 (find_uri_None _ _ _) Hf) as Hall.
           rewrite list.Forall_forall in Hall. by apply (Hall x Hx).
      * intros u'. rewrite lookup_insert_eq. simpl. destruct (decide (u' = u)) as [->|Hne].
        -- rewrite lookup_insert_eq, decide_True by done. simpl. unfold loc_at. by rewrite lookup_insert_eq.
        -- rewrite lookup_insert_ne by done. rewrite decide_False by (intros [=]; congruence).
           rewrite (find_uri_ext (ents w)) by (intros q Hq; by rewrite Hsame2). rewrite Hm.
           destruct (find_uri (ents w) L u') as [q|] eqn:E; [|done]. simpl. unfold loc_at. rewrite Hsame2; [done|].
           by apply find_uri_live in E as [? _].
    + by apply map_Forall_insert_2.
    + split; [lia|]. apply map_Forall_insert_2; [lia|]. intros x y Hx. pose proof (map_Forall_lookup_1 _ _ _ _ H5 Hx). simpl in *. lia.
Qed.

Lemma released_backend fd b p x :
  released fd (set_backend b p (set_fd (-1) x)) = set_backend b p (set_fd (-1) (released fd x)).
Proof. unfold released. destruct x, (0 <=? fd); reflexivity. Qed.

Lemma set_fd_id e n : e_fd e = n -> set_fd n e = e.
Proof. destruct e. by intros <-. Qed.

Lemma sim_relocate w idx m u bid path : holds w idx m -> simulates w idx m (GRelocate u bid path).
Proof.
  intros H. pose proof H as [H1 (g & L & Hg & Hrep & Hn & Hd & Hu & Hm) H3 [H4 H5] H6].
  unfold simulates, run_gop, spec_gop, global_index_update_backend. rewrite NULL_eqb by done.
  rewrite Hm. destruct (find_uri (ents w) L u) as [q|] eqn:Hf.
  2:{ simpl. rewrite bind_assoc. run (global_lookup_miss idx u w g L H1 Hg Hrep Hf). eexists. split; [reflexivity|].
      split; [|done]. by eapply holds_stats. }
  destruct (find_uri_live _ _ _ _ Hf) as (Hin & e & He & Hue).
  assert (Hq : q <> NULL).
  { pose proof (tr_hashed _ _ _ _ Hrep) as Hh. rewrite list.Forall_forall in Hh. by destruct (Hh q Hin). }
  pose proof (map_Forall_lookup_1 _ _ _ _ H3 He) as (Hrc & Hfc & Hfd).
  destruct (global_lookup_hit idx u w g L q e H1 Hg Hrep Hf He) as (fd & t & k' & Hl & Hop & _).
  rewrite bind_assoc, (bind_Ret _ _ _ _ _ Hl). 
  replace (Some q ≫= loc_at (ents w)) with (Some (backend_id e, backend_path e)) by (simpl; unfold loc_at; by rewrite He).
  cbn [fst snd]. change (0 <? 0) with false. cbv iota. cbn [fr_entry]. set (w1 := set_kern _ _).
  assert (He1 : ents w1 !! q = Some (looked_up fd t e)) by apply lookup_insert_eq.
  assert (Hfd1 : e_fd (looked_up fd t e) = -1) by (unfold looked_up; by destruct (0 <=? fd)).
  rewrite bind_assoc, (bind_Ret _ _ _ _ _ (rd_entry_eq _ _ _ He1)), bind_assoc, (bind_Ret _ _ _ _ _ (upd_entry_eq _ _ _ _ He1)).
  rewrite Hfd1. change (0 <=? -1) with false. cbv iota. rewrite bind_assoc, bind_ret_l.
  set (w2 := set_ents _ w1). assert (He2 : ents w2 !! q = Some (set_fd (-1) (looked_up fd t e))) by apply lookup_insert_eq.
  destruct Hop as [(F1 & F2 & F3 & F4) Hor]. assert (Hk2 : k_oom (kern w2) = []) by (simpl; congruence).
  rewrite bind_assoc, (bind_Ret _ _ _ _ _ (malloc_ok _ Hk2)), bind_assoc, (bind_Ret _ _ _ _ _ (upd_entry_eq _ _ _ _ He2)).
  set (w3 := set_ents _ w2). set (e3 := set_backend _ _ _) in w3.
  assert (He3 : ents w3 !! q = Some e3) by apply lookup_insert_eq.
  rewrite bind_assoc. assert (Hrc3 : entry_refcount e3 <> 1).
  { unfold e3, looked_up. destruct (0 <=? fd); simpl; rewrite Hrc; vm_compute; done. }
  run (release_shared q fd 0 e3 w3 Hq He3 Hrc3). rewrite bind_ret_l.
  destruct (opened_closed (kern w) fd k') as [Hc1 (_ & _ & Hc2 & _)]; [by split|].
  eexists. split; [reflexivity|]. split; [|done].
  assert (Hfinal : released fd e3 = set_backend (u32 bid) (Some path) (set_access (u64 (access_count e + 1)) t e)).
  { unfold e3. rewrite released_backend, (looked_up_released fd t e) by lia. f_equal. apply set_fd_id. exact Hfd. }
  rewrite Hfinal. set (e4 := set_backend (u32 bid) (Some path) (set_access (u64 (access_count e + 1)) t e)).
  set (g' := set_g_stats (u64 (g_lookups g + 1)) (u64 (g_hits g + 1)) (g_misses g) g) in *.
  assert (Hw : set_kern (close_if fd (kern w3)) (set_ents (<[q:=e4]> (ents w3)) w3) =
               set_kern (close_if fd k') (set_ents (<[q:=e4]> (ents w)) (with_g idx g' w))).
  { unfold w3, w2, w1. simpl. rewrite !insert_insert_eq. by destruct w. }
  rewrite Hw. simpl snd. rewrite <- Hue. change (u32 bid, Some path) with (backend_id e4, backend_path e4).
  eapply holds_move; try done. congruence.
Qed.

Lemma sim_gop w idx m op : holds w idx m -> simulates w idx m op.
Proof. destruct op; [apply sim_insert|apply sim_remove|apply sim_get|apply sim_relocate]. Qed.

(** ** Sequences of operations *)

Lemma sim_gops ops : forall w idx m, holds w idx m ->
  exists w', run_gops idx ops w = Ret (spec_gops m ops).1 w' /\ holds w' idx (spec_gops m ops).2 /\
    fdtab (kern w') = fdtab (kern w).
Proof.
  induction ops as [|op ops IH]; intros w idx m H; simpl; [by exists w|].
  destruct (sim_gop w idx m op H) as (w1 & H1 & H2 & H3). run H1.
  destruct (IH w1 idx _ H2) as (w2 & H4 & H5 & H6). run H4. exists w2. split; [done|]. split; [done|]. congruence.
Qed.

Lemma holds_size w idx m : holds w idx m ->
  size (ents w) = size m /\ exists g, gidxs w !! idx = Some g /\ g_num_entries g = u64 (Z.of_nat (size m)).
Proof.
  intros [H1 (g & L & Hg & Hrep & Hn & Hd & Hu & Hm) H3 H4 H6].
  pose proof (tr_nodup _ _ _ _ Hrep) as Hnd. pose proof (tr_hashed _ _ _ _ Hrep) as Hh. rewrite list.Forall_forall in Hh.
  set (key_of := fun p => default [] (uri <$> ents w !! p)).
  assert (Hlive : forall p, p ∈ L -> exists e, ents w !! p = Some e) by (intros p Hp; destruct (Hh p Hp) as (_ & e & He & _); eauto).
  assert (Hdm : dom m = list_to_set (C:=gset (list byte)) (key_of <$> L)).
  { apply set_eq. intros u. rewrite elem_of_dom, elem_of_list_to_set, list_elem_of_fmap, Hm. split.
    - intros [v Hv]. destruct (find_uri (ents w) L u) as [p|] eqn:E; [|done].
      apply find_uri_live in E as (Hp & e & He & <-). exists p. unfold key_of. by rewrite He.
    - intros (p & -> & Hp). destruct (Hlive p Hp) as [e He]. unfold key_of. rewrite He. simpl.
      destruct (find_uri (ents w) L (uri e)) as [q|] eqn:E.
      + apply find_uri_live in E as (_ & x & Hx & _). simpl. unfold loc_at. rewrite Hx. by eexists.
      + apply find_uri_None in E. rewrite list.Forall_forall in E. exfalso. apply (E p Hp). by rewrite He. }
  assert (HL : size m = length L).
  { rewrite <- size_dom, Hdm, size_list_to_set; [by rewrite length_fmap|].
    apply NoDup_fmap_2_strong; [|done]. intros p q Hp Hq Heq. apply Hu; [done|done|].
    destruct (Hlive p Hp) as [x Hx], (Hlive q Hq) as [y Hy]. unfold key_of in Heq. rewrite Hx, Hy in Heq |- *. simpl in *. congruence. }
  split; [|exists g; by rewrite HL]. rewrite HL, <- size_dom, Hd. by apply size_list_to_set.
Qed.

(** A process that has room and no index entries. *)
Definition fresh_process (w : world) : Prop := ents w = ∅ /\ 0 < brk w /\ k_oom (kern w) = [].

Lemma global_create_ok nb mx w : 1 <= nb <= 2 ^ 63 -> fresh_process w ->
  exists w', global_index_create nb mx w = Ret (brk w) w' /\ holds w' (brk w) ∅ /\ kern w' = kern w.
Proof.
  intros Hnb (He & Hb & Hk). unfold global_index_create.
  rewrite !(bind_Ret _ _ _ _ _ (malloc_ok w Hk)). cbn [negb]. rewrite (bind_Ret _ _ _ _ _ (malloc_ok w Hk)). cbn [negb].
  eexists. split; [reflexivity|]. split; [|done].
  destruct (next_pow2_spec nb Hnb) as (k & Hk2 & Heq & _).
  split; simpl; [unfold NULL; lia| | | |done].
  - eexists _, []. rewrite lookup_insert_eq. split; [reflexivity|]. simpl. split.
    + apply table_rep_empty. exists k. done.
    + split; [done|]. rewrite He, dom_empty_L. split; [done|]. split; [by intros p q ?%elem_of_nil|]. intros u. by rewrite lookup_empty.
  - rewrite He. apply map_Forall_empty.
  - rewrite He. split; [lia|apply map_Forall_empty].
Qed.

(** C1: Refinement.  A global index created with any bucket count between 1 and
    2^63 behaves, over every sequence of insertions, removals, lookups (with
    release) and relocations, exactly like a finite map from URIs to locations: each
    operation returns what the map says, a duplicate insertion and an operation on an
    absent URI return -1.  It never faults or runs forever whatever collisions the
    hash makes and however [open] fails, the live entries are exactly those of the map
    (nothing leaks), the descriptor table is what it was, and the reported number
    of entries is the size of the map. *)
Theorem global_index_refines_map nb mx ops w :
  1 <= nb <= 2 ^ 63 -> fresh_process w ->
  exists idx w' st,
    (idx ← global_index_create nb mx; rs ← run_gops idx ops; st ← global_index_get_stats idx; mret (idx, rs, st)) w
      = Ret (idx, (spec_gops ∅ ops).1, Some st) w' /\
    st_num_entries st = u64 (Z.of_nat (size (spec_gops ∅ ops).2)) /\
    size (ents w') = size (spec_gops ∅ ops).2 /\
    fdtab (kern w') = fdtab (kern w).
Proof.
  intros Hnb Hw. destruct (global_create_ok nb mx w Hnb Hw) as (w1 & Hc & Hh & Hk).
  destruct (sim_gops ops w1 _ _ Hh) as (w2 & Hr & Hh2 & Hf).
  destruct (holds_size _ _ _ Hh2) as (Hs & g & Hg & Hn). pose proof (ho_idx _ _ _ Hh2) as Hi.
  eexists (brk w), w2, _. rewrite (bind_Ret _ _ _ _ _ Hc), (bind_Ret _ _ _ _ _ Hr).
  unfold global_index_get_stats. rewrite NULL_eqb by done. rewrite bind_assoc, (bind_Ret _ _ _ _ _ (rd_g_eq _ _ _ Hg)), bind_ret_l.
  split; [reflexivity|]. simpl. split; [done|]. split; [done|]. congruence.
Qed.

(** An empty machine. *)
Definition bare_kernel : kernel := Kernel ∅ ∅ ∅ ∅ [] [] 0 [] [].
Definition bare_world : world := World bare_kernel ∅ ∅ ∅ 1 x00.

Lemma global_index_refines_map_witness :
  fresh_process bare_world /\
  let ops := [GInsert (bs "/a") 0 (bs "/m/a"); GInsert (bs "/a") 1 (bs "/n/a"); GInsert (bs "/b") 1 (bs "/n/b");
              GGet (bs "/a"); GRelocate (bs "/a") 1 (bs "/n/a"); GGet (bs "/a"); GRemove (bs "/b"); GGet (bs "/b")] in
  exists idx w' st,
    (idx ← global_index_create 1 10; rs ← run_gops idx ops; st ← global_index_get_stats idx; mret (idx, rs, st)) bare_world
      = Ret (idx, [(0, None); (-1, None); (0, None); (0, Some (0, Some (bs "/m/a"))); (0, None);
                   (0, Some (1, Some (bs "/n/a"))); (0, None); (-1, None)], Some st) w' /\
    st_num_entries st = 1.
Proof.
  split; [done|]. intros ops.
  destruct (global_index_refines_map 1 10 ops bare_world) as (idx & w' & st & Hrun & Hn & _); [lia|done|].
  exists idx, w', st. rewrite Hrun, Hn. split; vm_compute; reflexivity.
Defined.
