(* ===== verification/IndexConc.v ===== *)
(** * IndexConc: the global index under concurrency

    [index.c] runs with many threads: [global_index_lookup] walks the chains without
    a lock while [global_index_insert] and [global_index_remove] change them under
    [write_lock].  Here each of these functions is cut into its atomic steps (a
    load or store of an [atomic_uintptr_t], a change of a reference count, taking or
    releasing the lock), and threads take steps in any order on one shared state
    (sequentially consistent, as the default [atomic_load] and [atomic_store] are).
    A walk under the lock is one step: nobody else can change a chain.  A lookup
    ends here when it has its reference; opening the file follows. *)

From S2P Require Import Prelude Socket Kernel Index.

(** ** Threads *)

(** Where a thread is in its function. *)
Inductive tpc :=
| LStart (u : list byte)
| LAt (u : list byte) (entry : ptr)          (* [while (entry)] *)
| LNext (u : list byte) (entry : ptr)        (* before [atomic_load(&entry->next)] *)
| LGet (entry : ptr)                         (* before [index_entry_get(entry)] *)
| LDone (r : option ptr)
| IStart (entry : ptr)
| ILocked (entry : ptr)
| ILink (entry : ptr)
| IPublish (entry : ptr)
| ICount
| IUnlock (rc : Z)
| IDone (rc : Z)
| RStart (u : list byte)
| RLocked (u : list byte)
| RUnlink (u : list byte) (prev : option ptr) (entry : ptr)
| RClose (entry : ptr)
| RPut (entry : ptr)
| RCount
| RUnlock (rc : Z)
| RDone (rc : Z).

(** The process and the state of [write_lock]. *)
Record cstate := CState { cw : world; locked : bool }.

Definition onw {A} (m : M world A) : M cstate A := fun c =>
  match m (cw c) with
  | Ret a w => Ret a (CState w (locked c))
  | Blocked => Blocked
  | Fault => Fault
  end.

Definition lock : M cstate () := fun c => if locked c then Blocked else Ret () (CState (cw c) true).
Definition unlock : M cstate () := fun c => Ret () (CState (cw c) false).

(** The head of the chain of [hash]. *)
Definition load_head (idx : ptr) (hash : Z) : M world ptr :=
  g ← rd_g idx;
  deref (bucket_get (g_buckets g) (g_num_buckets g) (bucket_of hash (g_num_buckets g))).

(** [atomic_store(&idx->buckets[bucket], ...)]. *)
Definition store_head (idx : ptr) (hash : Z) (p : ptr) : M world () :=
  upd_g idx (fun g => set_g_table (<[bucket_of hash (g_num_buckets g):=p]> (g_buckets g)) (g_num_entries g) g).

Definition add_entries (idx : ptr) (n : Z) : M world () :=
  upd_g idx (fun g => set_g_table (g_buckets g) (u64 (g_num_entries g + n)) g).

(** ** Steps *)

(** [global_index_lookup] up to the reference to the entry. *)
Definition lookup_step (idx : ptr) (t : tpc) : M cstate tpc :=
  match t with
  | LStart u =>
      onw (_ ← upd_g idx (fun g => set_g_stats (u64 (g_lookups g + 1)) (g_hits g) (g_misses g) g);
           head ← load_head idx (index_hash_string u);
           mret (LAt u head))
  | LAt u entry =>
      if entry =? NULL then
        onw (_ ← upd_g idx (fun g => set_g_stats (g_lookups g) (g_hits g) (u64 (g_misses g + 1)) g); mret (LDone None))
      else
        onw (e ← rd_entry entry;
             mret (if (uri_hash e =? index_hash_string u) && bool_decide (uri e = u) then LGet entry else LNext u entry))
  | LNext u entry => onw (e ← rd_entry entry; mret (LAt u (next e)))
  | LGet entry => onw (_ ← index_entry_get entry; mret (LDone (Some entry)))
  | t => mret t
  end.

Definition insert_step (idx : ptr) (t : tpc) : M cstate tpc :=
  match t with
  | IStart entry => _ ← lock; mret (ILocked entry)
  | ILocked entry =>
      onw (e ← rd_entry entry;
           head ← load_head idx (uri_hash e);
           existing ← find_in head (uri_hash e) (uri e);
           mret (if negb (existing =? NULL) then IUnlock (-1) else ILink entry))
  | ILink entry =>
      onw (e ← rd_entry entry;
           old_head ← load_head idx (uri_hash e);
           _ ← upd_entry entry (set_next old_head);
           mret (IPublish entry))
  | IPublish entry => onw (e ← rd_entry entry; _ ← store_head idx (uri_hash e) entry; mret ICount)
  | ICount => onw (_ ← add_entries idx 1; mret (IUnlock 0))
  | IUnlock rc => _ ← unlock; mret (IDone rc)
  | t => mret t
  end.

Definition remove_step (idx : ptr) (t : tpc) : M cstate tpc :=
  match t with
  | RStart u => _ ← lock; mret (RLocked u)
  | RLocked u =>
      onw (head ← load_head idx (index_hash_string u);
           found ← find_prev_in head (index_hash_string u) u;
           mret (match found with
                 | None => RUnlock (-1)
                 | Some (prev, entry) => RUnlink u prev entry
                 end))
  | RUnlink u prev entry =>
      onw (e ← rd_entry entry;
           g ← rd_g idx;
           _ ← g_link idx (bucket_of (index_hash_string u) (g_num_buckets g)) prev (next e);
           mret (RClose entry))
  | RClose entry =>
      onw (e ← rd_entry entry;
           _ ← upd_entry entry (set_fd (-1));
           _ ← (if 0 <=? e_fd e then
                  _ ← onk (sys_close_fd (e_fd e));
                  upd_g idx (fun g => set_g_open (u64 (g_num_open_fds g - 1)) g)
                else mret ());
           mret (RPut entry))
  | RPut entry => onw (_ ← index_entry_put entry; mret RCount)
  | RCount => onw (_ ← add_entries idx (-1); mret (RUnlock 0))
  | RUnlock rc => _ ← unlock; mret (RDone rc)
  | t => mret t
  end.

(** The next step of a thread; [Blocked]: it waits for the lock; [Fault]: it reads
    memory that has been freed. *)
Definition tstep (idx : ptr) (t : tpc) : M cstate tpc :=
  match t with
  | LStart _ | LAt _ _ | LNext _ _ | LGet _ | LDone _ => lookup_step idx t
  | IStart _ | ILocked _ | ILink _ | IPublish _ | ICount | IUnlock _ | IDone _ => insert_step idx t
  | _ => remove_step idx t
  end.

(** ** Interleavings *)

Record config := Config { cs : cstate; ths : list tpc }.

(** Thread [i] takes a step. *)
Inductive cstep (idx : ptr) (i : nat) (c : config) : config -> Prop :=
| cstep_intro t t' s' :
    ths c !! i = Some t -> tstep idx t (cs c) = Ret t' s' -> cstep idx i c (Config s' (<[i:=t']> (ths c))).

(** An execution by the schedule [l], with [P] in every state. *)
Inductive crun (idx : ptr) (P : config -> Prop) : list nat -> config -> config -> Prop :=
| crun_nil c : P c -> crun idx P [] c c
| crun_cons i l c c1 c2 : P c -> cstep idx i c c1 -> crun idx P l c1 c2 -> crun idx P (i :: l) c c2.

(** A thread on its own. *)
Fixpoint solo (fuel : nat) (idx : ptr) (t : tpc) : M cstate tpc :=
  match fuel with
  | O => mret t
  | S fuel => t' ← tstep idx t; solo fuel idx t'
  end.

(** A schedule, executed, when [ok] holds all the way. *)
Fixpoint replay (idx : ptr) (ok : config -> bool) (l : list nat) (c : config) : option config :=
  if negb (ok c) then None
  else match l with
       | [] => Some c
       | i :: l =>
           match ths c !! i with
           | None => None
           | Some t => match tstep idx t (cs c) with
                       | Ret t' s' => replay idx ok l (Config s' (<[i:=t']> (ths c)))
                       | _ => None
                       end
           end
       end.
