(* ===== verification/IndexConcProofs.v ===== *)
(** * IndexConcProofs: lookups without a lock

    In every interleaving the index stays a well-formed table without duplicates;
    a lookup returns what the table holds as long as that does not change and no
    entry is freed, in a bounded number of its own steps and without ever waiting;
    a run in which an entry is freed under a lookup ends in an invalid access. *)

From S2P Require Import Prelude Socket Kernel Index IndexProofs IndexRefine IndexConc.

(** ** A thread on its own runs the sequential function *)

Definition solo_result (f : Z -> tpc) (x : outcome world Z) : outcome cstate tpc :=
  match x with
  | Ret rc w => Ret (f rc) (CState w false)
  | Blocked => Blocked
  | Fault => Fault
  end.

Lemma onw_eq {A} (m : M world A) w b : onw m (CState w b) = match m w with Ret a w' => Ret a (CState w' b) | Blocked => Blocked | Fault => Fault end.
Proof. done. Qed.

Lemma chain_find_pure fuel : forall p hash u w, match chain_find fuel p hash u w with Ret _ w' => w' = w | _ => True end.
Proof.
  induction fuel as [|fuel IH]; intros p hash u w; simpl; destruct (p =? NULL); try done.
  unfold mbind, M_bind, rd_entry. destruct (ents w !! p) as [e|]; simpl; [|done]. destruct (_ && _); [done|apply IH].
Qed.

Lemma chain_find_prev_pure fuel : forall prev p hash u w, match chain_find_prev fuel prev p hash u w with Ret _ w' => w' = w | _ => True end.
Proof.
  induction fuel as [|fuel IH]; intros prev p hash u w; simpl; destruct (p =? NULL); try done.
  unfold mbind, M_bind, rd_entry. destruct (ents w !! p) as [e|]; simpl; [|done]. destruct (_ && _); [done|apply IH].
Qed.

Lemma solo_S fuel idx t t' c c' : tstep idx t c = Ret t' c' -> solo (S fuel) idx t c = solo fuel idx t' c'.
Proof. intros H. cbn [solo]. by rewrite (bind_Ret _ _ _ _ _ H). Qed.

Lemma solo_stop fuel idx t c : (tstep idx t c = Fault -> solo (S fuel) idx t c = Fault) /\ (tstep idx t c = Blocked -> solo (S fuel) idx t c = Blocked).
Proof. split; intros H; cbn [solo]; unfold mbind, M_bind; by rewrite H. Qed.

Lemma onw_Ret {A} (m : M world A) a w w' b : m w = Ret a w' -> onw m (CState w b) = Ret a (CState w' b).
Proof. intros H. unfold onw. simpl. by rewrite H. Qed.

Lemma load_head_eq idx hash g head w : gidxs w !! idx = Some g ->
  bucket_get (g_buckets g) (g_num_buckets g) (bucket_of hash (g_num_buckets g)) = Some head -> load_head idx hash w = Ret head w.
Proof. intros Hg Hb. unfold load_head. run (rd_g_eq _ _ _ Hg). by rewrite Hb. Qed.

(** The steps of an insertion in a row are [global_index_insert]. *)
Lemma solo_insert idx p e g w : idx <> NULL -> p <> NULL -> gidxs w !! idx = Some g -> ents w !! p = Some e ->
  solo 6 idx (IStart p) (CState w false) = solo_result IDone (global_index_insert idx p w).
Proof.
  intros Hi Hp Hg He. unfold global_index_insert. rewrite !NULL_eqb by done. cbn [orb]. run (rd_g_eq _ _ _ Hg). run (rd_entry_eq _ _ _ He).
  rewrite (solo_S 5 idx (IStart p) (ILocked p) (CState w false) (CState w true) eq_refl).
  destruct (bucket_get (g_buckets g) (g_num_buckets g) (bucket_of (uri_hash e) (g_num_buckets g))) as [head|] eqn:Eb.
  2: { apply solo_stop. cbn [tstep insert_step]. rewrite onw_eq. run (rd_entry_eq _ _ _ He). unfold load_head. rewrite bind_assoc.
       run (rd_g_eq _ _ _ Hg). by rewrite Eb. }
  rewrite deref_bind. pose proof (load_head_eq idx _ g head w Hg Eb) as Hl. 
  assert (H2 : tstep idx (ILocked p) (CState w true) = onw (existing ← find_in head (uri_hash e) (uri e);
    mret (if negb (existing =? NULL) then IUnlock (-1) else ILink p)) (CState w true)).
  { cbn [tstep insert_step]. rewrite !onw_eq. run (rd_entry_eq _ _ _ He). by run Hl. }
  pose proof (chain_find_pure (chain_fuel w) head (uri_hash e) (uri e) w) as Hpure. fold (find_in head (uri_hash e) (uri e) w) in Hpure.
  destruct (find_in head (uri_hash e) (uri e) w) as [q w'| |] eqn:Ef; [subst w'| |].
  2: { unfold mbind at 1, M_bind at 1. rewrite Ef. apply solo_stop. rewrite H2, onw_eq. unfold mbind, M_bind. by rewrite Ef. }
  2: { unfold mbind at 1, M_bind at 1. rewrite Ef. apply solo_stop. rewrite H2, onw_eq. unfold mbind, M_bind. by rewrite Ef. }
  rewrite (bind_Ret _ _ _ _ _ Ef). rewrite onw_eq, (bind_Ret _ _ _ _ _ Ef) in H2. rewrite (solo_S _ _ _ _ _ _ H2). destruct (q =? NULL); cbn [negb]; [|done].
  set (w1 := set_ents (<[p:=set_next head e]> (ents w)) w).
  assert (H3 : tstep idx (ILink p) (CState w true) = Ret (IPublish p) (CState w1 true)).
  { cbn [tstep insert_step]. apply onw_Ret. run (rd_entry_eq _ _ _ He). run Hl. by run (upd_entry_eq p (set_next head) e w He). }
  rewrite (solo_S _ _ _ _ _ _ H3). run (upd_entry_eq p (set_next head) e w He). fold w1.
  assert (He1 : ents w1 !! p = Some (set_next head e)) by apply lookup_insert_eq. assert (Hg1 : gidxs w1 !! idx = Some g) by done.
  set (g1 := set_g_table (<[bucket_of (uri_hash e) (g_num_buckets g):=p]> (g_buckets g)) (g_num_entries g) g).
  set (w2 := set_gidxs (<[idx:=g1]> (gidxs w1)) w1).
  assert (H4 : tstep idx (IPublish p) (CState w1 true) = Ret ICount (CState w2 true)).
  { cbn [tstep insert_step]. apply onw_Ret. run (rd_entry_eq _ _ _ He1). unfold store_head. by run (upd_g_eq idx
      (fun g => set_g_table (<[bucket_of (uri_hash (set_next head e)) (g_num_buckets g):=p]> (g_buckets g)) (g_num_entries g) g) g w1 Hg1). }
  rewrite (solo_S _ _ _ _ _ _ H4). assert (Hg2 : gidxs w2 !! idx = Some g1) by apply lookup_insert_eq.
  run (upd_g_eq idx (fun g0 => set_g_table (<[bucket_of (uri_hash e) (g_num_buckets g):=p]> (g_buckets g0)) (u64 (g_num_entries g0 + 1)) g0) g w1 Hg1).
  set (w3 := set_gidxs _ w1). assert (H5 : tstep idx ICount (CState w2 true) = Ret (IUnlock 0) (CState w3 true)).
  { cbn [tstep insert_step]. apply onw_Ret. unfold add_entries.
    run (upd_g_eq idx (fun g => set_g_table (g_buckets g) (u64 (g_num_entries g + 1)) g) g1 w2 Hg2).
    unfold mret, M_ret, w3, w2, set_gidxs. simpl. by rewrite insert_insert_eq. }
  by rewrite (solo_S _ _ _ _ _ _ H5).
Qed.

(** The steps of a removal in a row are [global_index_remove]. *)
Lemma solo_remove idx u g L w : idx <> NULL -> gidxs w !! idx = Some g -> table_rep (ents w) (g_buckets g) (g_num_buckets g) L ->
  solo 7 idx (RStart u) (CState w false) = solo_result RDone (global_index_remove idx (Some u) w).
Proof.
  intros Hi Hg Hrep. unfold global_index_remove. rewrite NULL_eqb by done. run (rd_g_eq _ _ _ Hg).
  rewrite (solo_S 6 idx (RStart u) (RLocked u) (CState w false) (CState w true) eq_refl).
  destruct (bucket_chain _ _ _ _ u Hrep) as (Hb & Hc & Hh & Hfu). rewrite Hb, deref_bind. pose proof (load_head_eq idx _ g _ w Hg Hb) as Hl.
  pose proof (find_prev_in_ok _ _ u w Hc Hh) as Hfp. destruct (find_uri (ents w) _ u) as [q|] eqn:Ef.
  2: { run Hfp. erewrite solo_S; [|cbn [tstep remove_step]; apply onw_Ret; run Hl; by run Hfp]. done. }
  destruct Hfp as (l1 & l2 & Hbl & _ & Huq & Hfp). run Hfp. erewrite solo_S; [|cbn [tstep remove_step]; apply onw_Ret; run Hl; by run Hfp].
  rewrite Hbl in Hc. destruct (chain_dom _ _ _ q Hc) as [Hq0 [e He]]; [rewrite elem_of_app; right; left|].
  assert (Hbu : bucket_of (uri_hash e) (g_num_buckets g) = bucket_of (index_hash_string u) (g_num_buckets g)).
  { rewrite list.Forall_forall in Hh. destruct (Hh q) as (_ & e' & He' & Hhe); [rewrite Hbl, elem_of_app; right; left|].
    rewrite He in Huq, He'. simplify_eq/=. by rewrite Hhe. }
  destruct (table_rep_unlink (ents w) (g_buckets g) (g_num_buckets g) L q e l1 l2 Hrep He) as (_ & _ & Hq1); [by rewrite Hbu|]. rewrite Hbu in Hq1.
  pose proof (g_link_eq _ (bucket_of (index_hash_string u) (g_num_buckets g)) _ (next e) w g Hg (find_prev_live _ _ _ _ _ Hc)) as Hlink. cbn zeta in Hlink.
  set (w1 := set_ents _ _) in Hlink. assert (He1 : ents w1 !! q = Some e) by done.
  assert (Hg1 : exists g1, gidxs w1 !! idx = Some g1) by (eexists; apply lookup_insert_eq). destruct Hg1 as [g1 Hg1]. clearbody w1.
  run (rd_entry_eq _ _ _ He). run Hlink.
  erewrite solo_S; [|cbn [tstep remove_step]; apply onw_Ret; run (rd_entry_eq _ _ _ He); run (rd_g_eq _ _ _ Hg); by run Hlink].
  pose proof (upd_entry_eq q (set_fd (-1)) e w1 He1) as Hupd. run Hupd. set (w2 := set_ents _ w1) in *.
  destruct (close_open_eq (e_fd e) idx w2 g1 Hg1) as (g2 & Hclose & _). run Hclose. set (w3 := set_kern _ _) in Hclose |- *.
  erewrite solo_S; [|cbn [tstep remove_step]; apply onw_Ret; run (rd_entry_eq _ _ _ He1); run Hupd; by run Hclose].
  assert (He3 : ents w3 !! q = Some (set_fd (-1) e)) by apply lookup_insert_eq.
  assert (Hg3 : gidxs w3 !! idx = Some g2) by apply lookup_insert_eq. clearbody w3.
  pose proof (entry_put_eq q _ w3 Hq0 He3) as Hput. set (w4 := set_kern _ _) in Hput. assert (Hg4 : gidxs w4 !! idx = Some g2) by done. clearbody w4.
  run Hput. erewrite solo_S; [|cbn [tstep remove_step]; apply onw_Ret; by run Hput].
  run (upd_g_eq idx (fun g => set_g_table (g_buckets g) (u64 (g_num_entries g - 1)) g) g2 w4 Hg4).
  erewrite solo_S; [|cbn [tstep remove_step]; apply onw_Ret; unfold add_entries; by run (upd_g_eq idx _ g2 w4 Hg4)]. done.
Qed.

(** ** The shape of the shared memory *)

(** The table holds the entries [L]; the entries [D], which are in the table or have
    been in it, all lead along their links to the end of a chain. *)
Record shape (h : gmap ptr index_entry) (b : gmap Z ptr) (nb : Z) (L : list ptr) (D : gset ptr) : Prop := {
  sh_table : table_rep h b nb L;
  sh_uniq : forall p q, p ∈ L -> q ∈ L -> uri <$> h !! p = uri <$> h !! q -> p = q;
  sh_linked : forall p, p ∈ L -> p ∈ D;
  sh_chains : forall p, p ∈ D -> exists l, chain h p l /\ forall q, q ∈ l -> q ∈ D;
  sh_hashed : forall p, p ∈ D -> hashed h p
}.

(** What a step does to it: nothing that matters to the chains, a link written
    into an entry that is not public, a new head, or an entry taken out. *)
Inductive move (nb : Z) (h : gmap ptr index_entry) (b : gmap Z ptr) (L : list ptr) (D : gset ptr) :
  gmap ptr index_entry -> gmap Z ptr -> list ptr -> gset ptr -> Prop :=
| move_quiet h' : (forall p, tkey <$> h' !! p = tkey <$> h !! p) -> move nb h b L D h' b L D
| move_link p n e : p ∉ D -> h !! p = Some e -> move nb h b L D (<[p:=set_next n e]> h) b L D
| move_publish p e : p ∉ D -> hashed h p -> h !! p = Some e -> find_uri h L (uri e) = None ->
    next e = default NULL (b !! bucket_of (uri_hash e) nb) ->
    move nb h b L D h (<[bucket_of (uri_hash e) nb:=p]> b) (p :: L) ({[p]} ∪ D)
| move_unlink q e l1 l2 r : h !! q = Some e -> bucket_list h nb (bucket_of (uri_hash e) nb) L = l1 ++ q :: l2 ->
    r = unlink_at h b (bucket_of (uri_hash e) nb) (last_or None l1) (next e) ->
    move nb h b L D r.1 r.2 (without q L) D.

Lemma move_ekey nb h b L D h' b' L' D' : move nb h b L D h' b' L' D' -> forall p, ekey <$> h' !! p = ekey <$> h !! p.
Proof.
  destruct 1 as [h' H|p n e Hp He| |q e l1 l2 r Hq Hl ->]; intros x; try done.
  - auto with objm.
  - destruct (decide (x = p)) as [->|]; [by rewrite lookup_insert_eq, He|by rewrite lookup_insert_ne].
  - destruct (last_or None l1) as [a|]; simpl; [|done]. destruct (decide (x = a)) as [->|]; [|by rewrite lookup_alter_ne].
    rewrite lookup_alter_eq. by destruct (h !! a).
Qed.

Lemma move_grows nb h b L D h' b' L' D' : move nb h b L D h' b' L' D' -> D ⊆ D'.
Proof. destruct 1; set_solver. Qed.

Lemma sublist_elem {A} (l l' : list A) x : l' `sublist_of` l -> x ∈ l' -> x ∈ l.
Proof.
  induction 1 as [|y l l' _ IH|y l l' _ IH]; [done| |]; rewrite ?elem_of_cons; [intros [->|Hx]; auto|intros Hx; auto].
Qed.

(** A chain that loses [q] behind [a]. *)
Lemma chain_skip h a q ea eq : h !! a = Some ea -> next ea = q -> h !! q = Some eq -> q <> NULL -> forall l p, chain h p l ->
  exists l', chain (alter (set_next (next eq)) a h) p l' /\ l' `sublist_of` l /\ forall x, x ∈ l -> x <> q -> x ∈ l'.
Proof.
  intros Ha Hn Hq Hq0 l p Hc. destruct (decide (a ∈ l)) as [Hin|Hnin].
  - apply list_elem_of_split in Hin as (l1 & l2 & ->). pose proof (chain_suffix _ _ _ _ _ Hc) as Hs.
    inversion Hs as [|? e' ? _ He' Hc']; subst. replace e' with ea in Hc' by congruence.
    inversion Hc' as [E|? e2 l3 _ He2 Hc2]; subst; [done|].
    exists (l1 ++ a :: l3). assert (Halt : alter (set_next (next eq)) a h = <[a:=set_next (next eq) ea]> h).
    { apply map_eq. intros x. destruct (decide (x = a)) as [->|]; [by rewrite lookup_alter_eq, Ha, lookup_insert_eq|by rewrite lookup_alter_ne, lookup_insert_ne]. }
    split; [rewrite Halt; by apply chain_unlink with (next ea)|]. split; [apply sublist_app; [done|]; by do 2 constructor|].
    intros x. rewrite !elem_of_app, !elem_of_cons. tauto.
  - exists l. split; [|done]. apply chain_frame with h; [done|]. intros x Hx. rewrite lookup_alter_ne; [done|]. by intros <-.
Qed.

(** What a thread that stands at [p] sees: its way to the end of the chain gets no
    longer, and loses only entries that are no longer in the table. *)
Lemma move_view nb h b L D h' b' L' D' : shape h b nb L D -> move nb h b L D h' b' L' D' ->
  forall p l, chain h p l -> (forall q, q ∈ l -> q ∈ D) ->
  exists l', chain h' p l' /\ l' `sublist_of` l /\ forall x, x ∈ l -> x ∈ L' -> x ∈ l'.
Proof.
  intros [T1 T2 T3 T4 T5] Hm p l Hc Hl. destruct Hm as [h' H|p0 n e Hp He|p0 e|q e l1 l2 r Hq Hb ->]; simpl.
  - exists l. split; [|done]. apply chain_frame with h; auto with objm.
  - exists l. split; [|done]. apply chain_frame with h; [done|]. intros x Hx. rewrite lookup_insert_ne; [done|]. intros ->. by apply Hp, Hl.
  - exists l. done.
  - pose proof (tr_chain _ _ _ _ T1 _ (bucket_of_range (uri_hash e) nb (tr_pow2 _ _ _ _ T1))) as Hc0. rewrite Hb in Hc0.
    destruct (last_or None l1) as [a|] eqn:E; simpl.
    + apply last_or_Some in E as [l0 ->]. rewrite <- app_assoc in Hc0. simpl in Hc0.
      pose proof (chain_suffix _ _ _ _ _ Hc0) as Hs. inversion Hs as [|? ea ? _ Ha Hc1]; subst.
      inversion Hc1 as [|? e' ? Hq0 He' _]; subst.
      destruct (chain_skip h a (next ea) ea e Ha eq_refl Hq Hq0 l p Hc) as (l' & H1 & H2 & H3). exists l'. split; [done|]. split; [done|].
      intros x Hx [Hne _]%without_elem. auto.
    + exists l. split; [done|]. split; [done|]. done.
Qed.

Lemma shape_move nb h b L D h' b' L' D' : shape h b nb L D -> move nb h b L D h' b' L' D' -> shape h' b' nb L' D'.
Proof.
  intros Hs Hm. pose proof (move_ekey _ _ _ _ _ _ _ _ _ Hm) as Hk. pose proof (move_grows _ _ _ _ _ _ _ _ _ Hm) as Hg.
  pose proof (move_view _ _ _ _ _ _ _ _ _ Hs Hm) as Hv. pose proof Hs as [T1 T2 T3 T4 T5].
  assert (Hu : forall p, uri <$> h' !! p = uri <$> h !! p) by auto with objm.
  assert (Hchains : forall p, p ∈ D -> exists l, chain h' p l /\ forall q, q ∈ l -> q ∈ D).
  { intros p Hp. destruct (T4 p Hp) as (l & Hc & Hl). destruct (Hv p l Hc Hl) as (l' & H1 & H2 & _). exists l'. split; [done|].
    intros q Hq. apply Hl. by apply (sublist_elem l l'). }
  assert (Hhash : forall p, p ∈ D -> hashed h' p) by (intros p Hp; eapply ekey_hashed; [apply Hk|auto]).
  destruct Hm as [h' H|p n e Hp He|p e Hp Hh He Hf Hn|q e l1 l2 r Hq Hb ->].
  - split; try done; [by apply table_rep_frame with h|]. intros p q Hp Hq. rewrite !Hu. by apply T2.
  - split; try done; [|intros p' q Hp' Hq; rewrite !Hu; by apply T2]. apply table_rep_frame with h; [done|].
    intros x Hx. rewrite lookup_insert_ne; [done|]. intros ->. by apply Hp, T3.
  - destruct Hh as (Hp0 & e' & He' & Hh). replace e' with e in Hh by congruence.
    split.
    + apply table_rep_insert; try done. intros Hx. by apply Hp, T3.
    + apply find_uri_None in Hf. rewrite list.Forall_forall in Hf.
      intros x y Hx Hy Hxy. apply elem_of_cons in Hx as [->|Hx], Hy as [->|Hy]; [done| | |by apply T2].
      * exfalso. apply (Hf y Hy). rewrite <- Hxy, He. done.
      * exfalso. apply (Hf x Hx). rewrite Hxy, He. done.
    + intros x [->|Hx]%elem_of_cons; [set_solver|]. apply T3 in Hx. set_solver.
    + intros x [Hx|Hx]%elem_of_union; [|destruct (T4 x Hx) as (l & H1 & H2); exists l; split; [done|]; set_solver].
      apply elem_of_singleton in Hx as ->.
      pose proof (tr_chain _ _ _ _ T1 _ (bucket_of_range (uri_hash e) nb (tr_pow2 _ _ _ _ T1))) as Hc. rewrite <- Hn in Hc.
      exists (p :: bucket_list h nb (bucket_of (uri_hash e) nb) L). split; [by apply chain_cons with e|].
      intros y [->|Hy]%elem_of_cons; [set_solver|]. apply bucket_list_elem in Hy as [_ Hy%T3]. set_solver.
    + intros x [Hx|Hx]%elem_of_union; [|by apply T5]. apply elem_of_singleton in Hx as ->. split; [done|]. eauto.
  - destruct (table_rep_unlink h b nb L q e l1 l2 T1 Hq Hb) as (H1 & _ & _). split; try done.
    + intros x y [_ Hx]%without_elem [_ Hy]%without_elem. rewrite !Hu. by apply T2.
    + intros x [_ Hx]%without_elem. auto.
Qed.

(** ** What each thread relies on *)

(** The thread holds [write_lock]. *)
Definition crit (t : tpc) : bool :=
  match t with
  | ILocked _ | ILink _ | IPublish _ | ICount | IUnlock _ | RLocked _ | RUnlink _ _ _ | RClose _ | RPut _ | RCount | RUnlock _ => true
  | _ => false
  end.

Definition is_lookup (t : tpc) : bool := match t with LStart _ | LAt _ _ | LNext _ _ | LGet _ | LDone _ => true | _ => false end.

(** The entry a thread is about to insert. *)
Definition pending (t : tpc) : option ptr :=
  match t with IStart p | ILocked p | ILink p | IPublish p => Some p | _ => None end.

Definition tinv (h : gmap ptr index_entry) (b : gmap Z ptr) (nb : Z) (L : list ptr) (D : gset ptr) (t : tpc) : Prop :=
  (forall p, pending t = Some p -> (p ∉ D) /\ hashed h p) /\
  match t with
  | LAt _ p => p = NULL \/ p ∈ D
  | LNext _ p | LGet p | RClose p | RPut p => p ∈ D
  | ILink p => exists e, h !! p = Some e /\ find_uri h L (uri e) = None
  | IPublish p => exists e, h !! p = Some e /\ find_uri h L (uri e) = None /\ next e = default NULL (b !! bucket_of (uri_hash e) nb)
  | RUnlink u prev q => exists e l1 l2, h !! q = Some e /\ uri e = u /\
      bucket_list h nb (bucket_of (index_hash_string u) nb) L = l1 ++ q :: l2 /\ prev = last_or None l1
  | _ => True
  end.

Lemma tkey_heap (h h' : gmap ptr index_entry) p e : tkey <$> h' !! p = tkey <$> h !! p -> h !! p = Some e ->
  exists e', h' !! p = Some e' /\ uri e' = uri e /\ uri_hash e' = uri_hash e /\ next e' = next e.
Proof.
  intros Hk He. rewrite He in Hk. simpl in Hk. apply fmap_Some in Hk as (e' & He' & Hk). unfold tkey in Hk. injection Hk as H1 H2 H3. eauto 10.
Qed.

(** Nobody notices a quiet step. *)
Lemma tinv_quiet h h' b nb L D t : (forall p, tkey <$> h' !! p = tkey <$> h !! p) -> tinv h b nb L D t -> tinv h' b nb L D t.
Proof.
  intros Hk [Hp Ht]. assert (Hf : forall u, find_uri h' L u = find_uri h L u) by (intros u; apply find_uri_ext; auto with objm).
  split.
  { intros p E. destruct (Hp p E) as [H1 H2]. split; [done|]. eapply ekey_hashed; [|exact H2]. auto with objm. }
  destruct t; try done.
  - destruct Ht as (e & He & Hn). destruct (tkey_heap h h' entry e (Hk _) He) as (e' & H1 & H2 & H3 & H4). exists e'. by rewrite Hf, H2.
  - destruct Ht as (e & He & Hn & Hx). destruct (tkey_heap h h' entry e (Hk _) He) as (e' & H1 & H2 & H3 & H4). exists e'. by rewrite Hf, H2, H3, H4.
  - destruct Ht as (e & l1 & l2 & He & Hu & Hb & Hpr). destruct (tkey_heap h h' entry e (Hk _) He) as (e' & H1 & H2 & H3 & H4).
    exists e', l1, l2. split; [done|]. split; [congruence|]. split; [|done]. rewrite <- Hb. apply bucket_list_ext. auto with objm.
Qed.

(** A thread outside the critical section keeps what it relies on when another
    one moves. *)
Lemma tinv_other nb h b L D h' b' L' D' t : move nb h b L D h' b' L' D' -> crit t = false ->
  (forall p, pending t = Some p -> p ∉ D') -> tinv h b nb L D t -> tinv h' b' nb L' D' t.
Proof.
  intros Hm Hc Hp [H1 H2]. pose proof (move_ekey _ _ _ _ _ _ _ _ _ Hm) as Hk. pose proof (move_grows _ _ _ _ _ _ _ _ _ Hm) as Hg. split.
  { intros p E. split; [by apply Hp|]. eapply ekey_hashed; [apply Hk|]. by apply H1. }
  destruct t; try done; set_solver.
Qed.

(** ** One step *)

(** The index [idx] in the shared state. *)
Definition table_of (idx : ptr) (w : world) (h : gmap ptr index_entry) (b : gmap Z ptr) (nb : Z) : Prop :=
  ents w = h /\ exists g, gidxs w !! idx = Some g /\ g_buckets g = b /\ g_num_buckets g = nb.

(** How the lock changes hands in a step from [t] to [t']. *)
Definition lock_step (t t' : tpc) (l l' : bool) : Prop :=
  crit t' = crit t /\ l' = l \/ crit t = false /\ crit t' = true /\ l = false /\ l' = true \/ crit t = true /\ crit t' = false /\ l' = false.

(** What a step of a thread does. *)
Record step_effect (idx : ptr) (nb : Z) h b L D (t t' : tpc) (l : bool) (s' : cstate) h' b' L' D' : Prop := {
  se_table : table_of idx (cw s') h' b' nb;
  se_move : move nb h b L D h' b' L' D';
  se_quiet : crit t = false -> (forall p, tkey <$> h' !! p = tkey <$> h !! p) /\ b' = b /\ L' = L /\ D' = D;
  se_tinv : tinv h' b' nb L' D' t';
  se_lock : lock_step t t' l (locked s');
  se_pending : forall p, pending t' = Some p -> pending t = Some p;
  se_new : forall p, p ∈ D' -> p ∈ D \/ pending t = Some p
}.

Lemma table_of_g idx h b nb g w : ents w = h -> g_buckets g = b -> g_num_buckets g = nb ->
  table_of idx (set_gidxs (<[idx:=g]> (gidxs w)) w) h b nb.
Proof. intros He H1 H2. split; [done|]. exists g. simpl. by rewrite lookup_insert_eq. Qed.

Section Steps.
Context (idx : ptr) (nb : Z) (h : gmap ptr index_entry) (b : gmap Z ptr) (L : list ptr) (D : gset ptr).
Hypothesis Hs : shape h b nb L D.

Lemma quiet_effect t t' l s' h' : table_of idx (cw s') h' b nb -> (forall p, tkey <$> h' !! p = tkey <$> h !! p) ->
  tinv h' b nb L D t' -> lock_step t t' l (locked s') -> (forall p, pending t' = Some p -> pending t = Some p) ->
  step_effect idx nb h b L D t t' l s' h' b L D.
Proof. intros H1 H2 H3 H4 H5. split; try done; [by constructor|auto]. Qed.

Lemma head_ok hash w g : ents w = h -> gidxs w !! idx = Some g -> g_buckets g = b -> g_num_buckets g = nb ->
  load_head idx hash w = Ret (default NULL (b !! bucket_of hash nb)) w.
Proof. intros He Hg <- <-. apply (load_head_eq _ _ g); [done|]. apply bucket_get_ok, (sh_table _ _ _ _ _ Hs). Qed.

Lemma head_in_D hash : default NULL (b !! bucket_of hash nb) = NULL \/ default NULL (b !! bucket_of hash nb) ∈ D.
Proof.
  pose proof (sh_table _ _ _ _ _ Hs) as T1.
  pose proof (tr_chain _ _ _ _ T1 _ (bucket_of_range hash nb (tr_pow2 _ _ _ _ T1))) as Hc.
  inversion Hc as [E|? e l Hp He _ E]; [by left|right]. apply (sh_linked _ _ _ _ _ Hs).
  assert (Hin : default NULL (b !! bucket_of hash nb) ∈ bucket_list h nb (bucket_of hash nb) L) by (rewrite <- H; left).
  by apply bucket_list_elem in Hin as [_ Hin].
Qed.

Lemma next_in_D p e : p ∈ D -> h !! p = Some e -> next e = NULL \/ next e ∈ D.
Proof.
  intros Hp He. destruct (sh_hashed _ _ _ _ _ Hs p Hp) as [Hp0 _]. destruct (sh_chains _ _ _ _ _ Hs p Hp) as (l & Hc & Hin).
  inversion Hc as [E|? e' l' _ He' Hc']; subst; [done|]. replace e' with e in Hc' by congruence.
  inversion Hc' as [E|? e2 l2 _ _ _]; subst; [by left|]. right. apply Hin. right. left.
Qed.

Lemma lookup_ok t t' s s' : table_of idx (cw s) h b nb -> tinv h b nb L D t -> crit t = false -> pending t = None ->
  lookup_step idx t s = Ret t' s' -> exists h', step_effect idx nb h b L D t t' (locked s) s' h' b L D.
Proof.
  intros (He & g & Hg & Hb & Hn) [_ Ht] Hc Hpd H. destruct s as [w l]. cbn [cw locked] in *.
  assert (Hskip : forall t', tinv h b nb L D t' -> crit t' = false -> pending t' = None -> forall w', table_of idx w' h b nb ->
    exists h', step_effect idx nb h b L D t t' l (CState w' l) h' b L D).
  { intros t1 H1 H2 H3 w' Hw'. exists h. apply quiet_effect; try done; [left; by rewrite Hc, H2|]. intros p. by rewrite H3. }
  destruct t; try done; cbn [lookup_step] in H; rewrite ?onw_eq in H.
  - rewrite (bind_Ret _ _ _ _ _ (upd_g_eq idx (fun g => set_g_stats (u64 (g_lookups g + 1)) (g_hits g) (g_misses g) g) g w Hg)) in H.
    set (w1 := set_gidxs _ w) in H. assert (Ht1 : table_of idx w1 h b nb) by (by apply table_of_g).
    destruct Ht1 as (He1 & g1 & Hg1 & Hb1 & Hn1). rewrite (bind_Ret _ _ _ _ _ (head_ok (index_hash_string u) w1 g1 He1 Hg1 Hb1 Hn1)) in H.
    injection H as <- <-. apply Hskip; [split; [done|apply head_in_D]|done|done|]. split; [done|]. eauto.
  - destruct (entry =? NULL) eqn:E.
    + rewrite onw_eq in H. rewrite (bind_Ret _ _ _ _ _ (upd_g_eq idx (fun g => set_g_stats (g_lookups g) (g_hits g) (u64 (g_misses g + 1)) g) g w Hg)) in H.
      injection H as <- <-. apply Hskip; try done. by apply table_of_g.
    + apply Z.eqb_neq in E. destruct Ht as [->|HD]; [done|]. destruct (sh_hashed _ _ _ _ _ Hs entry HD) as (_ & e & Hx & _). rewrite <- He in Hx.
      rewrite onw_eq, (bind_Ret _ _ _ _ _ (rd_entry_eq _ _ _ Hx)) in H. injection H as <- <-. apply Hskip; [|by destruct (_ && _)..|by split; eauto].
      split; [by destruct (_ && _)|]. by destruct (_ && _).
  - destruct (sh_hashed _ _ _ _ _ Hs entry Ht) as (_ & e & Hx & _). rewrite <- He in Hx.
    rewrite (bind_Ret _ _ _ _ _ (rd_entry_eq _ _ _ Hx)) in H. injection H as <- <-. apply Hskip; [|done|done|by split; eauto].
    split; [done|]. apply (next_in_D entry e Ht). by rewrite <- He.
  - destruct (sh_hashed _ _ _ _ _ Hs entry Ht) as (Hp0 & e & Hx & _). rewrite <- He in Hx.
    rewrite (bind_Ret _ _ _ _ _ (entry_get_eq _ _ _ Hp0 Hx)) in H. injection H as <- <-.
    exists (<[entry:=set_refcount (s32 (entry_refcount e + 1)) e]> (ents w)). apply quiet_effect; [split; [done|eauto]| |done|by left|done].
    intros p. destruct (decide (p = entry)) as [->|]; [rewrite lookup_insert_eq, <- He, Hx; done|]. by rewrite lookup_insert_ne, He.
  - injection H as <- <-. apply Hskip; [done..|by split; eauto].
  - injection H as <- <-. apply Hskip; [done..|by split; eauto].
  - injection H as <- <-. apply Hskip; [done..|by split; eauto].
  - injection H as <- <-. apply Hskip; [done..|by split; eauto].
Qed.

Lemma insert_ok t t' s s' : table_of idx (cw s) h b nb -> tinv h b nb L D t -> (crit t = true -> locked s = true) ->
  match t with IStart _ | ILocked _ | ILink _ | IPublish _ | ICount | IUnlock _ | IDone _ => True | _ => False end ->
  insert_step idx t s = Ret t' s' -> exists h' b' L' D', step_effect idx nb h b L D t t' (locked s) s' h' b' L' D'.
Proof.
  intros (He & g & Hg & Hb & Hn) [Hpd Ht] Hlk Hk H. destruct s as [w l]. cbn [cw locked] in *.
  assert (Htab : table_of idx w h b nb) by (split; eauto).
  destruct t; try done; cbn [insert_step] in H; rewrite ?onw_eq in H.
  - (* lock *)
    destruct l; [done|]. injection H as <- <-. exists h, b, L, D. apply quiet_effect; try done. right. left. done.
  - (* look for a duplicate *)
    destruct (Hpd _ eq_refl) as [HpD Hh]. destruct Hh as (Hp0 & e & Hx & Hhash). pose proof Hx as Hx'. rewrite <- He in Hx'.
    rewrite (bind_Ret _ _ _ _ _ (rd_entry_eq _ _ _ Hx')), (bind_Ret _ _ _ _ _ (head_ok _ w g He Hg Hb Hn)), Hhash in H.
    destruct (bucket_chain _ _ _ _ (uri e) (sh_table _ _ _ _ _ Hs)) as (_ & Hc & Hhd & Hfu). rewrite <- He in Hc at 1. rewrite <- He in Hhd at 1.
    rewrite (bind_Ret _ _ _ _ _ (find_in_ok _ _ (uri e) w Hc Hhd)) in H. injection H as <- <-.
    exists h, b, L, D. rewrite He, Hfu. destruct (find_uri h L (uri e)) as [q|] eqn:Ef; simpl default.
    + assert (Hq : (q =? NULL) = false).
      { apply Z.eqb_neq. apply find_uri_live in Ef as [Hq _]. destruct (sh_hashed _ _ _ _ _ Hs q (sh_linked _ _ _ _ _ Hs q Hq)). done. }
      rewrite Hq. apply quiet_effect; [done|done|done|by left|done].
    + apply quiet_effect; [done|done| |by left|done]. split; [|by exists e]. intros p E. injection E as <-. split; [done|]. split; [done|]. eauto.
  - (* link the entry to the old head *)
    destruct (Hpd _ eq_refl) as [HpD Hh]. destruct Ht as (e & Hx & Hfind). pose proof Hx as Hx'. rewrite <- He in Hx'.
    rewrite (bind_Ret _ _ _ _ _ (rd_entry_eq _ _ _ Hx')), (bind_Ret _ _ _ _ _ (head_ok _ w g He Hg Hb Hn)),
      (bind_Ret _ _ _ _ _ (upd_entry_eq _ _ _ _ Hx')) in H. injection H as <- <-.
    set (n := default NULL (b !! bucket_of (uri_hash e) nb)). exists (<[entry:=set_next n e]> h), b, L, D.
    assert (Hm : move nb h b L D (<[entry:=set_next n e]> h) b L D) by (by apply move_link).
    assert (Hek := move_ekey _ _ _ _ _ _ _ _ _ Hm). split; [|done|done| |by left|done|auto].
    + split; [simpl; by rewrite He|]. eauto.
    + split; [intros p E; injection E as <-; split; [done|]; by eapply ekey_hashed; [apply Hek|]|].
      exists (set_next n e). split; [apply lookup_insert_eq|]. split; [|done]. simpl uri. rewrite <- Hfind. apply find_uri_ext. auto with objm.
  - (* publish it *)
    destruct (Hpd _ eq_refl) as [HpD Hh]. destruct Ht as (e & Hx & Hfind & Hnext). pose proof Hx as Hx'. rewrite <- He in Hx'.
    rewrite (bind_Ret _ _ _ _ _ (rd_entry_eq _ _ _ Hx')) in H. unfold store_head in H.
    rewrite (bind_Ret _ _ _ _ _ (upd_g_eq idx _ g w Hg)) in H. injection H as <- <-.
    exists h, (<[bucket_of (uri_hash e) nb:=entry]> b), (entry :: L), ({[entry]} ∪ D). split; [|by apply move_publish|done|done|by left|done|].
    + apply table_of_g; simpl; by subst.
    + intros p. rewrite elem_of_union, elem_of_singleton. intros [->|Hp]; auto.
  - (* count it *)
    unfold add_entries in H. rewrite (bind_Ret _ _ _ _ _ (upd_g_eq idx _ g w Hg)) in H. injection H as <- <-.
    exists h, b, L, D. apply quiet_effect; [|done|done|by left|done]. apply table_of_g; simpl; by subst.
  - (* unlock *)
    injection H as <- <-. exists h, b, L, D. apply quiet_effect; try done. right. right. done.
  - injection H as <- <-. exists h, b, L, D. apply quiet_effect; [done|done|done|by left|done].
Qed.

(** Closing the descriptor and dropping a reference that is not the last one leaves
    the chains alone. *)
Lemma tkey_insert p e e' : h !! p = Some e -> tkey e' = tkey e -> forall q, tkey <$> <[p:=e']> h !! q = tkey <$> h !! q.
Proof. intros He Hk q. destruct (decide (q = p)) as [->|]; [by rewrite lookup_insert_eq, He; simpl; rewrite Hk|by rewrite lookup_insert_ne]. Qed.

Lemma remove_ok t t' s s' : table_of idx (cw s) h b nb -> tinv h b nb L D t -> dom (ents (cw s')) = dom h ->
  match t with RStart _ | RLocked _ | RUnlink _ _ _ | RClose _ | RPut _ | RCount | RUnlock _ | RDone _ => True | _ => False end ->
  remove_step idx t s = Ret t' s' -> exists h' b' L' D', step_effect idx nb h b L D t t' (locked s) s' h' b' L' D'.
Proof.
  intros (He & g & Hg & Hb & Hn) [_ Ht] Hdom Hk H. destruct s as [w l]. cbn [cw locked] in *.
  assert (Htab : table_of idx w h b nb) by (split; eauto).
  destruct t; try done; cbn [remove_step] in H; rewrite ?onw_eq in H.
  - destruct l; [done|]. injection H as <- <-. exists h, b, L, D. apply quiet_effect; try done. right. left. done.
  - (* walk *)
    rewrite (bind_Ret _ _ _ _ _ (head_ok _ w g He Hg Hb Hn)) in H.
    destruct (bucket_chain _ _ _ _ u (sh_table _ _ _ _ _ Hs)) as (_ & Hc & Hhd & Hfu). rewrite <- He in Hc at 1. rewrite <- He in Hhd at 1.
    pose proof (find_prev_in_ok _ _ u w Hc Hhd) as Hfp. rewrite He, Hfu in Hfp. exists h, b, L, D.
    destruct (find_uri h L u) as [q|] eqn:Ef.
    + destruct Hfp as (l1 & l2 & Hl & _ & Huq & Hfp). rewrite (bind_Ret _ _ _ _ _ Hfp) in H. injection H as <- <-.
      apply quiet_effect; [done|done| |by left|done]. split; [done|]. apply find_uri_live in Ef as (_ & e & He1 & He2). exists e, l1, l2. done.
    + rewrite (bind_Ret _ _ _ _ _ Hfp) in H. injection H as <- <-. apply quiet_effect; [done|done|done|by left|done].
  - (* unlink *)
    destruct Ht as (e & l1 & l2 & Hx & Hu & Hl & ->). pose proof Hx as Hx'. rewrite <- He in Hx'.
    rewrite (bind_Ret _ _ _ _ _ (rd_entry_eq _ _ _ Hx')), (bind_Ret _ _ _ _ _ (rd_g_eq _ _ _ Hg)) in H.
    assert (Hin : entry ∈ L). { assert (Hin : entry ∈ bucket_list h nb (bucket_of (index_hash_string u) nb) L) by (rewrite Hl, elem_of_app; right; left).
      by apply bucket_list_elem in Hin as [_ Hin]. }
    assert (Hhash : uri_hash e = index_hash_string u).
    { destruct (sh_hashed _ _ _ _ _ Hs entry (sh_linked _ _ _ _ _ Hs _ Hin)) as (_ & e' & He' & Hh). congruence. }
    destruct (bucket_chain _ _ _ _ u (sh_table _ _ _ _ _ Hs)) as (_ & Hc & _). rewrite Hl, <- He in Hc.
    rewrite (bind_Ret _ _ _ _ _ (g_link_eq _ _ _ (next e) w g Hg (find_prev_live _ _ _ _ _ Hc))) in H. rewrite Hb, Hn, He in H.
    set (r := unlink_at _ _ _ _ _) in H. injection H as <- <-. exists r.1, r.2, (without entry L), D.
    split; [|by apply move_unlink with e l1 l2; rewrite ?Hhash|done| |by left|done|auto].
    + split; [done|]. eexists. split; [apply lookup_insert_eq|]. done.
    + split; [done|]. by apply (sh_linked _ _ _ _ _ Hs).
  - (* close *)
    destruct (sh_hashed _ _ _ _ _ Hs entry Ht) as (Hp0 & e & Hx & _). pose proof Hx as Hx'. rewrite <- He in Hx'.
    rewrite (bind_Ret _ _ _ _ _ (rd_entry_eq _ _ _ Hx')), (bind_Ret _ _ _ _ _ (upd_entry_eq _ _ _ _ Hx')) in H.
    set (w1 := set_ents _ w) in H. assert (Hg1 : gidxs w1 !! idx = Some g) by done.
    destruct (close_open_eq (e_fd e) idx w1 g Hg1) as (g3 & Hclose & Hg3a & Hg3b & _). rewrite (bind_Ret _ _ _ _ _ Hclose) in H.
    injection H as <- <-. exists (<[entry:=set_fd (-1) e]> h), b, L, D. apply quiet_effect; [|by apply tkey_insert with e|done|by left|done].
    split; [simpl; by rewrite He|]. exists g3. split; [apply lookup_insert_eq|]. split; congruence.
  - (* drop the reference of the index *)
    destruct (sh_hashed _ _ _ _ _ Hs entry Ht) as (Hp0 & e & Hx & _). pose proof Hx as Hx'. rewrite <- He in Hx'.
    rewrite (bind_Ret _ _ _ _ _ (entry_put_eq _ _ _ Hp0 Hx')) in H. injection H as <- <-. simpl in Hdom. unfold put_heap, after_put in *.
    destruct (entry_refcount e =? 1).
    { exfalso. assert (Hin : entry ∈ dom h) by (apply elem_of_dom; eauto). rewrite <- Hdom, dom_delete in Hin. set_solver. }
    exists (<[entry:=set_refcount (s32 (entry_refcount e - 1)) e]> h), b, L, D.
    apply quiet_effect; [|by apply tkey_insert with e|done|by left|done]. split; [simpl; by rewrite He|]. eauto.
  - unfold add_entries in H. rewrite (bind_Ret _ _ _ _ _ (upd_g_eq idx _ g w Hg)) in H. injection H as <- <-.
    exists h, b, L, D. apply quiet_effect; [|done|done|by left|done]. apply table_of_g; simpl; by subst.
  - injection H as <- <-. exists h, b, L, D. apply quiet_effect; try done. right. right. done.
  - injection H as <- <-. exists h, b, L, D. apply quiet_effect; [done|done|done|by left|done].
Qed.

Lemma step_ok t t' s s' : table_of idx (cw s) h b nb -> tinv h b nb L D t -> (crit t = true -> locked s = true) ->
  dom (ents (cw s')) = dom h -> tstep idx t s = Ret t' s' ->
  exists h' b' L' D', step_effect idx nb h b L D t t' (locked s) s' h' b' L' D'.
Proof.
  intros H1 H2 H3 H4 H5. destruct t; cbn [tstep] in H5; try (by eapply insert_ok); try (by eapply remove_ok).
  all: destruct (lookup_ok _ _ _ _ H1 H2 eq_refl eq_refl H5) as [h' Hh]; by exists h', b, L, D.
Qed.
End Steps.

(** A step never reads freed memory; only the lock can make a thread wait. *)
Lemma step_safe idx nb h b L D t s : shape h b nb L D -> table_of idx (cw s) h b nb -> tinv h b nb L D t ->
  (exists t' s', tstep idx t s = Ret t' s') \/ tstep idx t s = Blocked /\ locked s = true /\ crit t = false /\ is_lookup t = false.
Proof.
  intros Hs (He & g & Hg & Hb & Hn) [Hpd Ht]. destruct s as [w l]. cbn [cw locked] in *.
  pose proof (fun hash => head_ok idx nb h b L D Hs hash w g He Hg Hb Hn) as Hh.
  assert (Hlive : forall p, p ∈ D -> p <> NULL /\ exists e, ents w !! p = Some e).
  { intros p Hp. destruct (sh_hashed _ _ _ _ _ Hs p Hp) as (Hp0 & e & Hx & _). rewrite He. eauto. }
  assert (Hpen : forall p, pending t = Some p -> exists e, ents w !! p = Some e /\ uri_hash e = index_hash_string (uri e)).
  { intros p Hp. destruct (Hpd p Hp) as [_ (_ & e & Hx & Hh')]. rewrite He. eauto. }
  destruct t; cbn [tstep lookup_step insert_step remove_step pending] in *; rewrite ?onw_eq;
    try (destruct (Hpen _ eq_refl) as (e & Hx & Hhash); try (rewrite (bind_Ret _ _ _ _ _ (rd_entry_eq _ _ _ Hx))));
    try (by left; do 2 eexists).
  - left. rewrite (bind_Ret _ _ _ _ _ (upd_g_eq idx _ g w Hg)). set (w1 := set_gidxs _ w).
    assert (Ht1 : table_of idx w1 h b nb) by (by apply table_of_g). destruct Ht1 as (He1 & g1 & Hg1 & Hb1 & Hn1).
    rewrite (bind_Ret _ _ _ _ _ (head_ok idx nb h b L D Hs (index_hash_string u) w1 g1 He1 Hg1 Hb1 Hn1)). by do 2 eexists.
  - left. destruct (entry =? NULL) eqn:E; rewrite onw_eq; [rewrite (bind_Ret _ _ _ _ _ (upd_g_eq idx _ g w Hg)); by do 2 eexists|].
    apply Z.eqb_neq in E. destruct Ht as [->|HD]; [done|]. destruct (Hlive _ HD) as (_ & e & Hx).
    rewrite (bind_Ret _ _ _ _ _ (rd_entry_eq _ _ _ Hx)). by do 2 eexists.
  - left. destruct (Hlive _ Ht) as (_ & e & Hx). rewrite (bind_Ret _ _ _ _ _ (rd_entry_eq _ _ _ Hx)). by do 2 eexists.
  - left. destruct (Hlive _ Ht) as (Hp0 & e & Hx). rewrite (bind_Ret _ _ _ _ _ (entry_get_eq _ _ _ Hp0 Hx)). by do 2 eexists.
  - unfold mbind, M_bind, lock. simpl. destruct l; [by right|]. left. by do 2 eexists.
  - left. rewrite (bind_Ret _ _ _ _ _ (Hh _)), Hhash.
    destruct (bucket_chain _ _ _ _ (uri e) (sh_table _ _ _ _ _ Hs)) as (_ & Hc & Hhd & _). rewrite <- He in Hc at 1. rewrite <- He in Hhd at 1.
    rewrite (bind_Ret _ _ _ _ _ (find_in_ok _ _ (uri e) w Hc Hhd)). by do 2 eexists.
  - left. rewrite (bind_Ret _ _ _ _ _ (Hh _)), (bind_Ret _ _ _ _ _ (upd_entry_eq _ _ _ _ Hx)). by do 2 eexists.
  - left. unfold store_head. rewrite (bind_Ret _ _ _ _ _ (upd_g_eq idx _ g w Hg)). by do 2 eexists.
  - left. unfold add_entries. rewrite (bind_Ret _ _ _ _ _ (upd_g_eq idx _ g w Hg)). by do 2 eexists.
  - unfold mbind, M_bind, lock. simpl. destruct l; [by right|]. left. by do 2 eexists.
  - left. rewrite (bind_Ret _ _ _ _ _ (Hh _)).
    destruct (bucket_chain _ _ _ _ u (sh_table _ _ _ _ _ Hs)) as (_ & Hc & Hhd & Hfu). rewrite <- He in Hc at 1. rewrite <- He in Hhd at 1.
    pose proof (find_prev_in_ok _ _ u w Hc Hhd) as Hfp. destruct (find_uri (ents w) _ u) as [q|];
      [destruct Hfp as (l1 & l2 & _ & _ & _ & Hfp)|]; rewrite (bind_Ret _ _ _ _ _ Hfp); by do 2 eexists.
  - left. destruct Ht as (e & l1 & l2 & Hx & Hu & Hl & ->). rewrite <- He in Hx.
    rewrite (bind_Ret _ _ _ _ _ (rd_entry_eq _ _ _ Hx)), (bind_Ret _ _ _ _ _ (rd_g_eq _ _ _ Hg)).
    destruct (bucket_chain _ _ _ _ u (sh_table _ _ _ _ _ Hs)) as (_ & Hc & _). rewrite Hl, <- He in Hc.
    rewrite (bind_Ret _ _ _ _ _ (g_link_eq _ _ _ (next e) w g Hg (find_prev_live _ _ _ _ _ Hc))). by do 2 eexists.
  - left. destruct (Hlive _ Ht) as (_ & e & Hx). rewrite (bind_Ret _ _ _ _ _ (rd_entry_eq _ _ _ Hx)), (bind_Ret _ _ _ _ _ (upd_entry_eq _ _ _ _ Hx)).
    set (w1 := set_ents _ w). assert (Hg1 : gidxs w1 !! idx = Some g) by done.
    destruct (close_open_eq (e_fd e) idx w1 g Hg1) as (g3 & Hclose & _). rewrite (bind_Ret _ _ _ _ _ Hclose). by do 2 eexists.
  - left. destruct (Hlive _ Ht) as (Hp0 & e & Hx). rewrite (bind_Ret _ _ _ _ _ (entry_put_eq _ _ _ Hp0 Hx)). by do 2 eexists.
  - left. unfold add_entries. rewrite (bind_Ret _ _ _ _ _ (upd_g_eq idx _ g w Hg)). by do 2 eexists.
Qed.

(** ** Configurations *)

Record inv (idx : ptr) (nb : Z) (c : config) h b L D : Prop := {
  inv_table : table_of idx (cw (cs c)) h b nb;
  inv_shape : shape h b nb L D;
  inv_threads : forall i t, ths c !! i = Some t -> tinv h b nb L D t;
  inv_locked : forall i t, ths c !! i = Some t -> crit t = true -> locked (cs c) = true;
  inv_mutex : forall i j t t', ths c !! i = Some t -> ths c !! j = Some t' -> crit t = true -> crit t' = true -> i = j;
  inv_holder : locked (cs c) = true -> exists i t, ths c !! i = Some t /\ crit t = true;
  inv_pending : forall i j t t' p, ths c !! i = Some t -> ths c !! j = Some t' -> pending t = Some p -> pending t' = Some p -> i = j
}.

Lemma thread_insert {A} (l : list A) i j (t x y : A) : l !! i = Some t -> <[i:=x]> l !! j = Some y -> i = j /\ y = x \/ i <> j /\ l !! j = Some y.
Proof.
  intros Hi Hj. destruct (decide (i = j)) as [->|Hne]; [left|right]; [|by rewrite list_lookup_insert_ne in Hj].
  rewrite list_lookup_insert_eq in Hj by (by eapply lookup_lt_Some). by injection Hj as <-.
Qed.

(** A step of any thread, when it frees nothing. *)
Lemma inv_step idx nb c i c' h b L D : inv idx nb c h b L D -> cstep idx i c c' -> dom (ents (cw (cs c'))) = dom (ents (cw (cs c))) ->
  exists t t' h' b' L' D', ths c !! i = Some t /\ ths c' = <[i:=t']> (ths c) /\ tstep idx t (cs c) = Ret t' (cs c') /\
    step_effect idx nb h b L D t t' (locked (cs c)) (cs c') h' b' L' D' /\ inv idx nb c' h' b' L' D'.
Proof.
  intros Hinv Hst Hdom. destruct Hst as [t t' s' Ht Hs']. cbn [cs ths] in *. destruct Hinv as [I1 I2 I3 I4 I5 I6 I7].
  destruct (step_ok idx nb h b L D I2 t t' (cs c) s' I1 (I3 _ _ Ht) (I4 _ _ Ht)) as (h' & b' & L' & D' & Heff); [by rewrite Hdom; destruct I1 as [-> _]|done|].
  exists t, t', h', b', L', D'. do 4 (split; [done|]). destruct Heff as [E1 E2 E3 E4 E5 E6 E7].
  split; cbn [cs ths]; [done|by eapply shape_move| | | | |].
  - intros j x Hx. destruct (thread_insert _ _ _ _ _ _ Ht Hx) as [[-> ->]|[Hne Hj]]; [done|]. destruct (crit t) eqn:Ec.
    + eapply tinv_other; [done| | |by eapply I3].
      * destruct (crit x) eqn:Ex; [|done]. by destruct Hne; eapply I5.
      * intros p Hp Hin. destruct (E7 p Hin) as [HD|HD]; [by destruct (I3 _ _ Hj) as [H _]; destruct (H p Hp)|]. by destruct Hne; eapply I7.
    + destruct (E3 eq_refl) as (H1 & -> & -> & ->). eapply tinv_quiet; [done|by eapply I3].
  - intros j x Hx Hcx. destruct (thread_insert _ _ _ _ _ _ Ht Hx) as [[-> ->]|[Hne Hj]].
    + destruct E5 as [[H1 H2]|[(_ & _ & _ & H2)|(H1 & H2 & H3)]]; [rewrite H2; eapply I4; [done|congruence]|done|congruence].
    + pose proof (I4 _ _ Hj Hcx) as Hl. destruct E5 as [[H1 H2]|[(_ & _ & H1 & H2)|(H1 & H2 & H3)]]; [congruence..|]. by destruct Hne; eapply I5.
  - intros j k x y Hx Hy Hcx Hcy.
    destruct (thread_insert _ _ _ _ _ _ Ht Hx) as [[-> ->]|[Hne Hj]], (thread_insert _ _ _ _ _ _ Ht Hy) as [[-> ->]|[Hne' Hk]]; [done| | |by eapply I5].
    + pose proof (I4 _ _ Hk Hcy) as Hl. destruct E5 as [[H1 H2]|[(_ & _ & H1 & H2)|(H1 & H2 & H3)]]; [|congruence..]. eapply I5; [done|done|congruence|done].
    + pose proof (I4 _ _ Hj Hcx) as Hl. destruct E5 as [[H1 H2]|[(_ & _ & H1 & H2)|(H1 & H2 & H3)]]; [|congruence..]. eapply I5; [done|done|done|congruence].
  - intros Hl. destruct E5 as [[H1 H2]|[(_ & H1 & _)|(H1 & H2 & H3)]]; [|exists i, t'; split; [apply list_lookup_insert_eq; by eapply lookup_lt_Some|done]|congruence].
    rewrite H2 in Hl. destruct (I6 Hl) as (j & x & Hj & Hcx). destruct (decide (i = j)) as [->|Hne].
    + exists j, t'. split; [apply list_lookup_insert_eq; by eapply lookup_lt_Some|congruence].
    + exists j, x. by rewrite list_lookup_insert_ne.
  - intros j k x y p Hx Hy Hpx Hpy.
    destruct (thread_insert _ _ _ _ _ _ Ht Hx) as [[-> ->]|[Hne Hj]], (thread_insert _ _ _ _ _ _ Ht Hy) as [[-> ->]|[Hne' Hk]]; [done| | |by eapply I7]; eauto.
Qed.

(** A configuration in which operations start: an index without duplicates, the
    lock free, and the entries to insert not yet in it. *)
Record starts (idx : ptr) (c : config) (L : list ptr) : Prop := {
  st_rep : global_rep (cw (cs c)) idx L;
  st_uniq : forall p q, p ∈ L -> q ∈ L -> uri <$> ents (cw (cs c)) !! p = uri <$> ents (cw (cs c)) !! q -> p = q;
  st_free : locked (cs c) = false;
  st_threads : forall i t, ths c !! i = Some t ->
    match t with LStart _ | RStart _ => True | IStart p => (p ∉ L) /\ hashed (ents (cw (cs c))) p | _ => False end;
  st_pending : forall i j p, ths c !! i = Some (IStart p) -> ths c !! j = Some (IStart p) -> i = j
}.

(** Nothing has been freed: the live entries are those of [d]. *)
Definition live_are (d : gset ptr) (c : config) : Prop := dom (ents (cw (cs c))) = d.

(** The entry the table holds for [u]: a walk in this very state. *)
Definition stored (idx : ptr) (u : list byte) (w : world) : option ptr :=
  match (head ← load_head idx (index_hash_string u); find_in head (index_hash_string u) u) w with
  | Ret p _ => if p =? NULL then None else Some p
  | _ => None
  end.

Lemma starts_inv idx c L : starts idx c L -> exists nb h b, inv idx nb c h b L (list_to_set L).
Proof.
  intros [(Hi & g & Hg & Hrep & _) H2 H3 H4 H5]. exists (g_num_buckets g), (ents (cw (cs c))), (g_buckets g). split.
  - split; eauto.
  - split; [done|done|set_solver| |].
    + intros p Hp. apply elem_of_list_to_set in Hp. assert (Hh := tr_hashed _ _ _ _ Hrep). rewrite list.Forall_forall in Hh.
      destruct (Hh p Hp) as (Hp0 & e & He & Hhash).
      pose proof (tr_chain _ _ _ _ Hrep _ (bucket_of_range (uri_hash e) _ (tr_pow2 _ _ _ _ Hrep))) as Hc.
      assert (Hin : p ∈ bucket_list (ents (cw (cs c))) (g_num_buckets g) (bucket_of (uri_hash e) (g_num_buckets g)) L).
      { apply bucket_list_elem. split; [|done]. by apply (in_bucket_iff _ _ _ _ e). }
      pose proof Hin as Hin'. apply list_elem_of_split in Hin as (l1 & l2 & Hl). rewrite Hl in Hc. exists (p :: l2). split; [by eapply chain_suffix|].
      intros q Hq. apply elem_of_list_to_set. assert (Hq' : q ∈ l1 ++ p :: l2) by (apply elem_of_app; by right).
      rewrite <- Hl in Hq'. by apply bucket_list_elem in Hq' as [_ Hq'].
    + intros p Hp. apply elem_of_list_to_set in Hp. assert (Hh := tr_hashed _ _ _ _ Hrep). rewrite list.Forall_forall in Hh. auto.
  - intros i t Ht. specialize (H4 _ _ Ht). destruct t; try done. split; [|done]. intros p E. injection E as <-.
    destruct H4 as [H4 H6]. split; [|done]. by rewrite elem_of_list_to_set.
  - intros i t Ht Hc. specialize (H4 _ _ Ht). by destruct t.
  - intros i j t t' Ht _ Hc. specialize (H4 _ _ Ht). by destruct t.
  - by rewrite H3.
  - intros i j t t' p Ht Ht' Hp Hp'. pose proof (H4 _ _ Ht). pose proof (H4 _ _ Ht'). destruct t; try done. destruct t'; try done.
    injection Hp as ->. injection Hp' as ->. by eapply H5.
Qed.

Lemma crun_head idx P l c c' : crun idx P l c c' -> P c.
Proof. by destruct 1. Qed.
Lemma crun_last idx P l c c' : crun idx P l c c' -> P c'.
Proof. by induction 1. Qed.

Lemma inv_run idx nb d (P : config -> Prop) l c c' : (forall x, P x -> live_are d x) -> crun idx P l c c' ->
  forall h b L D, inv idx nb c h b L D -> exists h' b' L' D', inv idx nb c' h' b' L' D'.
Proof.
  intros HP Hr. induction Hr as [c Hc|i l c c1 c2 Hc Hst Hr IH]; intros h b L D Hi; [eauto|].
  apply crun_head in Hr. apply HP in Hr, Hc. unfold live_are in *.
  destruct (inv_step _ _ _ _ _ _ _ _ _ Hi Hst) as (t & t' & h' & b' & L' & D' & _ & _ & _ & _ & Hi'); [congruence|eauto].
Qed.

(** C3: In every interleaving of lookups, insertions and removals in which no entry is
    freed, the index stays a well-formed hash table in which no two entries
    have the same URI, and at most one thread is between taking and releasing
    [write_lock]. *)
Theorem table_under_concurrency idx c L d l c' :
  starts idx c L -> crun idx (live_are d) l c c' ->
  (exists g L', gidxs (cw (cs c')) !! idx = Some g /\ table_rep (ents (cw (cs c'))) (g_buckets g) (g_num_buckets g) L' /\
    forall p q, p ∈ L' -> q ∈ L' -> uri <$> ents (cw (cs c')) !! p = uri <$> ents (cw (cs c')) !! q -> p = q) /\
  (forall i j t t', ths c' !! i = Some t -> ths c' !! j = Some t' -> crit t = true -> crit t' = true -> i = j).
Proof.
  intros Hst Hr. destruct (starts_inv _ _ _ Hst) as (nb & h & b & Hi).
  destruct (inv_run _ nb d (live_are d) l c c' (fun _ H => H) Hr _ _ _ _ Hi) as (h' & b' & L' & D' & [(I1 & g & Hg & Hb & Hn) I2 _ _ I5 _ _]).
  split; [|done]. exists g, L'. subst. split; [done|]. split; [apply (sh_table _ _ _ _ _ I2)|apply (sh_uniq _ _ _ _ _ I2)].
Qed.

(** C5: No interleaving faults or deadlocks while no entry is freed: every thread can take its next
    step, except one that waits for [write_lock], and then the thread that
    holds the lock can take a step. *)
Theorem no_fault_no_deadlock idx c L d l c' i t :
  starts idx c L -> crun idx (live_are d) l c c' -> ths c' !! i = Some t ->
  (exists c'', cstep idx i c' c'') \/
  tstep idx t (cs c') = Blocked /\ exists j t' c'', ths c' !! j = Some t' /\ crit t' = true /\ cstep idx j c' c''.
Proof.
  intros Hst Hr Ht. destruct (starts_inv _ _ _ Hst) as (nb & h & b & Hi).
  destruct (inv_run _ nb d (live_are d) l c c' (fun _ H => H) Hr _ _ _ _ Hi) as (h' & b' & L' & D' & [I1 I2 I3 I4 _ I6 _]).
  destruct (step_safe idx nb h' b' L' D' t (cs c') I2 I1 (I3 _ _ Ht)) as [(t' & s' & H)|(H & Hl & _)]; [left; eexists; by econstructor|right].
  split; [done|]. destruct (I6 Hl) as (j & t' & Hj & Hc). exists j, t'.
  destruct (step_safe idx nb h' b' L' D' t' (cs c') I2 I1 (I3 _ _ Hj)) as [(t2 & s' & H2)|(_ & _ & Hc' & _)]; [|congruence].
  eexists. split; [done|]. split; [done|]. by econstructor.
Qed.

(** ** Lookups *)

(** The step a lookup takes. *)
Definition lookup_next (h : gmap ptr index_entry) (b : gmap Z ptr) (nb : Z) (t t' : tpc) : Prop :=
  match t with
  | LStart u => t' = LAt u (default NULL (b !! bucket_of (index_hash_string u) nb))
  | LAt u p => p = NULL /\ t' = LDone None \/
      p <> NULL /\ exists e, h !! p = Some e /\ (uri e = u /\ t' = LGet p \/ uri e <> u /\ t' = LNext u p)
  | LNext u p => exists e, h !! p = Some e /\ t' = LAt u (next e)
  | LGet p => t' = LDone (Some p)
  | t => t' = t
  end.

Lemma lookup_next_ok idx nb h b L D t t' s s' : shape h b nb L D -> table_of idx (cw s) h b nb -> tinv h b nb L D t -> is_lookup t = true ->
  tstep idx t s = Ret t' s' -> lookup_next h b nb t t'.
Proof.
  intros Hs (He & g & Hg & Hb & Hn) [_ Ht] Hk H. destruct s as [w l]. cbn [cw] in *.
  destruct t; try done; cbn [tstep lookup_step lookup_next] in *; rewrite ?onw_eq in H.
  - rewrite (bind_Ret _ _ _ _ _ (upd_g_eq idx _ g w Hg)) in H. set (w1 := set_gidxs _ w) in H.
    assert (Ht1 : table_of idx w1 h b nb) by (by apply table_of_g). destruct Ht1 as (He1 & g1 & Hg1 & Hb1 & Hn1).
    rewrite (bind_Ret _ _ _ _ _ (head_ok idx nb h b L D Hs (index_hash_string u) w1 g1 He1 Hg1 Hb1 Hn1)) in H. by injection H as <- _.
  - destruct (entry =? NULL) eqn:E; rewrite onw_eq in H.
    + left. rewrite (bind_Ret _ _ _ _ _ (upd_g_eq idx _ g w Hg)) in H. injection H as <- _. by apply Z.eqb_eq in E.
    + right. apply Z.eqb_neq in E. split; [done|]. destruct Ht as [->|HD]; [done|]. pose proof (sh_hashed _ _ _ _ _ Hs entry HD) as Hh.
      destruct Hh as (_ & e & Hx & Hhash). pose proof Hx as Hx'. rewrite <- He in Hx'. rewrite (bind_Ret _ _ _ _ _ (rd_entry_eq _ _ _ Hx')) in H.
      rewrite (match_test _ _ _ u (sh_hashed _ _ _ _ _ Hs entry HD) Hx) in H. injection H as <- _. exists e. split; [done|].
      rewrite Hx. destruct (decide (uri e = u)) as [Eu|Eu]; [left; by rewrite bool_decide_eq_true_2 by (by rewrite <- Eu)|right].
      rewrite bool_decide_eq_false_2; [done|]. intros [=]. done.
  - destruct (sh_hashed _ _ _ _ _ Hs entry Ht) as (_ & e & Hx & _). pose proof Hx as Hx'. rewrite <- He in Hx'.
    rewrite (bind_Ret _ _ _ _ _ (rd_entry_eq _ _ _ Hx')) in H. injection H as <- _. eauto.
  - destruct (sh_hashed _ _ _ _ _ Hs entry Ht) as (Hp0 & e & Hx & _). rewrite <- He in Hx.
    rewrite (bind_Ret _ _ _ _ _ (entry_get_eq _ _ _ Hp0 Hx)) in H. by injection H as <- _.
  - by injection H as <- _.
Qed.

(** The entries a lookup still has before it. *)
Definition rest (h : gmap ptr index_entry) (t : tpc) (l : list ptr) : Prop :=
  match t with LAt _ p | LNext _ p => chain h p l | _ => l = [] end.

(** How many steps it takes at most, with [sz] live entries. *)
Definition steps_left (sz : nat) (t : tpc) (l : list ptr) : nat :=
  match t with
  | LStart _ => 2 * sz + 2
  | LAt _ _ => 2 * length l + 1
  | LNext _ _ => 2 * length l
  | LGet _ => 1
  | _ => 0
  end%nat.

(** On its way it has not missed the entry [o] of [u], and will take no other. *)
Definition on_course (h : gmap ptr index_entry) (u : list byte) (o : option ptr) (t : tpc) (l : list ptr) : Prop :=
  match t with
  | LStart u' => u' = u
  | LAt u' p => u' = u /\ (forall y, y ∈ l -> uri <$> h !! y = Some u -> o = Some y) /\ (forall x, o = Some x -> x ∈ l)
  | LNext u' p => u' = u /\ uri <$> h !! p <> Some u /\ (forall y, y ∈ l -> uri <$> h !! y = Some u -> o = Some y) /\ (forall x, o = Some x -> x ∈ l /\ uri <$> h !! x = Some u)
  | LGet p => o = Some p
  | LDone r => r = o
  | _ => False
  end.

Lemma rest_in_D nb h b L D t l : shape h b nb L D -> tinv h b nb L D t -> is_lookup t = true -> rest h t l -> forall q, q ∈ l -> q ∈ D.
Proof.
  intros Hs [_ Ht] Hk Hr q Hq. assert (Hc : forall p, p ∈ D -> chain h p l -> q ∈ D).
  { intros p Hp Hc. destruct (sh_chains _ _ _ _ _ Hs p Hp) as (l' & Hc' & Hl'). rewrite (chain_det _ _ _ _ Hc Hc') in Hq. auto. }
  destruct t; try done; simpl in *; subst; try (by apply elem_of_nil in Hq); [|eauto].
  destruct Ht as [->|Ht]; [|eauto]. inversion Hr; subst; [by apply elem_of_nil in Hq|done].
Qed.

(** A move of another thread. *)
Lemma rest_move nb h b L D h' b' L' D' t l u o sz : shape h b nb L D -> move nb h b L D h' b' L' D' -> tinv h b nb L D t -> is_lookup t = true ->
  rest h t l -> exists l', rest h' t l' /\ (steps_left sz t l' <= steps_left sz t l)%nat /\
    (find_uri h' L' u = o -> on_course h u o t l -> on_course h' u o t l').
Proof.
  intros Hs Hm Ht Hk Hr. pose proof (rest_in_D _ _ _ _ _ _ _ Hs Ht Hk Hr) as HD.
  assert (Hu : forall p, uri <$> h' !! p = uri <$> h !! p) by (intros p; apply ekey_uri, (move_ekey _ _ _ _ _ _ _ _ _ Hm)).
  destruct t; try done; cbn [rest steps_left on_course] in *; try (by exists l).
  all: destruct (move_view _ _ _ _ _ _ _ _ _ Hs Hm _ _ Hr HD) as (l' & H1 & H2 & H3); exists l'; split; [done|];
    split; [apply sublist_length in H2; lia|]; intros Hf;
    assert (HL : forall x, o = Some x -> x ∈ L') by (intros x ->; by apply find_uri_live in Hf as [Hf _]).
  - intros (-> & G1 & G2). split; [done|]. split; [intros y Hy; rewrite Hu; apply G1; by apply (sublist_elem l l')|]. auto.
  - intros (-> & G0 & G1 & G2). rewrite Hu. split; [done|]. split; [done|].
    split; [intros y Hy; rewrite Hu; apply G1; by apply (sublist_elem l l')|]. intros x Hx. rewrite Hu. destruct (G2 x Hx). auto.
Qed.

(** Its own step. *)
Lemma rest_own nb h b L D t t' l u o : shape h b nb L D -> tinv h b nb L D t -> is_lookup t = true -> lookup_next h b nb t t' ->
  rest h t l -> exists l', rest h t' l' /\ (steps_left (size h) t' l' <= steps_left (size h) t l - 1)%nat /\
    (find_uri h L u = o -> on_course h u o t l -> on_course h u o t' l').
Proof.
  intros Hs [_ Ht] Hk Hn Hr. destruct t; try done; cbn [lookup_next rest] in *.
  - destruct (bucket_chain _ _ _ _ u0 (sh_table _ _ _ _ _ Hs)) as (_ & Hc & _ & Hfu). subst.
    eexists. split; [exact Hc|]. apply chain_length in Hc. cbn [steps_left on_course]. split; [lia|]. intros <- ->. split; [done|].
    split.
    + intros y [_ Hy]%bucket_list_elem Huy. destruct (find_uri h L u) as [q|] eqn:Ef.
      * f_equal. apply find_uri_live in Ef as (Hq & e & He & Hue). apply (sh_uniq _ _ _ _ _ Hs); [done|done|]. rewrite He, Huy. simpl. by rewrite Hue.
      * apply find_uri_None in Ef. rewrite list.Forall_forall in Ef. by destruct (Ef y Hy).
    + intros x Hx. rewrite <- Hfu in Hx. by apply find_uri_split in Hx as (l1 & l2 & -> & _); apply elem_of_app; right; left.
  - destruct Hn as [[-> ->]|(Hp & e & He & Hn)].
    + inversion Hr as [|? ? ? Hp]; subst; [|done]. exists []. split; [done|]. simpl. split; [lia|]. intros _ (_ & _ & H). destruct o as [x|]; [|done].
      by destruct (proj1 (elem_of_nil x) (H x eq_refl)).
    + inversion Hr as [|? e' l0 _ He' Hc]; subst; [done|]. destruct Hn as [[<- ->]|[Hne ->]].
      * exists []. split; [done|]. simpl. split; [lia|]. intros _ (<- & H & _). apply H; [left|]. by rewrite He.
      * exists (entry :: l0). split; [done|]. simpl. split; [lia|]. intros Hf (-> & H1 & H2). rewrite He. split; [done|].
        split; [simpl; congruence|]. split; [done|]. intros x Hx. split; [by apply H2|]. rewrite Hx in Hf.
        apply find_uri_live in Hf as (_ & ex & Hex & <-). by rewrite Hex.
  - destruct Hn as (e & He & ->). inversion Hr as [|? e' l0 Hp0 He' Hc]; subst.
    { by destruct (sh_hashed _ _ _ _ _ Hs NULL Ht). }
    replace e' with e in Hc by congruence. exists l0. split; [done|]. simpl. split; [lia|]. intros _ (-> & H0 & H1 & H2). split; [done|].
    split; [intros y Hy; apply H1; by right|]. intros x Hx. destruct (H2 x Hx) as [Hin Hux]. apply elem_of_cons in Hin as [->|Hin]; done.
  - subst. exists []. split; [done|]. simpl. split; [lia|]. intros _ ->. done.
  - subst. exists []. split; [done|]. split; [simpl; lia|done].
Qed.

Lemma stored_eq idx nb h b L D w u : shape h b nb L D -> table_of idx w h b nb -> stored idx u w = find_uri h L u.
Proof.
  intros Hs (He & g & Hg & Hb & Hn). unfold stored.
  destruct (bucket_chain _ _ _ _ u (sh_table _ _ _ _ _ Hs)) as (_ & Hc & Hhd & Hfu). rewrite <- He in Hc at 1. rewrite <- He in Hhd at 1.
  rewrite (bind_Ret _ _ _ _ _ (head_ok idx nb h b L D Hs (index_hash_string u) w g He Hg Hb Hn)), (find_in_ok _ _ u w Hc Hhd), He, Hfu.
  destruct (find_uri h L u) as [q|] eqn:Ef; simpl; [|done]. apply find_uri_live in Ef as [Hq _].
  destruct (sh_hashed _ _ _ _ _ Hs q (sh_linked _ _ _ _ _ Hs q Hq)) as [Hq0 _]. by rewrite NULL_eqb.
Qed.

(** How often thread [j] has its turn. *)
Definition turns (j : nat) (l : list nat) : nat := length (filter (fun i => i = j) l).

(** A lookup [j] along a run. *)
Lemma lookup_run idx nb d u o (P : config -> Prop) j l c c' :
  (forall x, P x -> live_are d x) -> crun idx P l c c' -> forall h b L D t r, inv idx nb c h b L D -> ths c !! j = Some t -> is_lookup t = true -> rest h t r ->
  exists h' b' L' D' t' r', inv idx nb c' h' b' L' D' /\ ths c' !! j = Some t' /\ is_lookup t' = true /\ rest h' t' r' /\
    (steps_left (size d) t' r' <= steps_left (size d) t r - turns j l)%nat /\
    ((forall x, P x -> stored idx u (cw (cs x)) = o) -> on_course h u o t r -> on_course h' u o t' r').
Proof.
  intros HP Hr. induction Hr as [c Hc|i l c c1 c2 Hc Hst Hr IH]; intros h b L D t r Hi Ht Hk Hre.
  { exists h, b, L, D, t, r. do 4 (split; [done|]). split; [unfold turns; simpl; lia|done]. }
  pose proof (crun_head _ _ _ _ _ Hr) as HP1. pose proof (HP _ Hc) as Hd. pose proof (HP _ HP1) as Hd1. unfold live_are in Hd, Hd1.
  destruct (inv_step _ _ _ _ _ _ _ _ _ Hi Hst) as (ti & ti' & h1 & b1 & L1 & D1 & Hti & Hths & Hstep & Heff & Hi1); [congruence|].
  assert (Hsz : size d = size h). { destruct (inv_table _ _ _ _ _ _ _ Hi) as [<- _]. by rewrite <- Hd, size_dom. }
  assert (Hone : exists t1 r1, ths c1 !! j = Some t1 /\ is_lookup t1 = true /\ rest h1 t1 r1 /\
    (steps_left (size d) t1 r1 <= steps_left (size d) t r - turns j [i])%nat /\
    ((forall x, P x -> stored idx u (cw (cs x)) = o) -> on_course h u o t r -> on_course h1 u o t1 r1)).
  { destruct (decide (i = j)) as [->|Hne].
    - replace ti with t in * by congruence. clear Hti.
      pose proof (lookup_next_ok _ _ _ _ _ _ _ _ _ _ (inv_shape _ _ _ _ _ _ _ Hi) (inv_table _ _ _ _ _ _ _ Hi) (inv_threads _ _ _ _ _ _ _ Hi _ _ Ht) Hk Hstep) as Hn.
      destruct (rest_own _ _ _ _ _ _ _ r u o (inv_shape _ _ _ _ _ _ _ Hi) (inv_threads _ _ _ _ _ _ _ Hi _ _ Ht) Hk Hn Hre) as (r0 & H1 & H2 & H3).
      assert (Hk1 : is_lookup ti' = true) by (destruct t; try done; simpl in Hn; naive_solver).
      assert (Hc0 : crit t = false) by (by destruct t). destruct (se_quiet _ _ _ _ _ _ _ _ _ _ _ _ _ _ Heff Hc0) as (Hq & -> & -> & ->).
      exists ti', r0. split; [rewrite Hths; apply list_lookup_insert_eq; by apply (lookup_lt_Some _ _ _ Ht)|]. split; [done|].
      split; [destruct ti'; try done; cbn [rest] in *; by apply chain_frame with h; auto with objm|].
      split; [unfold turns; cbn; rewrite decide_True by done; rewrite Hsz; simpl; lia|].
      intros Hst' Hon. assert (Hf : find_uri h L u = o) by (rewrite <- (stored_eq _ _ _ _ _ _ _ u (inv_shape _ _ _ _ _ _ _ Hi) (inv_table _ _ _ _ _ _ _ Hi)); auto).
      specialize (H3 Hf Hon). assert (Hu : forall p, uri <$> h1 !! p = uri <$> h !! p) by auto with objm.
      destruct ti'; cbn [on_course] in *; try (setoid_rewrite Hu); done.
    - destruct (rest_move nb h b L D h1 b1 L1 D1 t r u o (size d) (inv_shape _ _ _ _ _ _ _ Hi) (se_move _ _ _ _ _ _ _ _ _ _ _ _ _ _ Heff)
        (inv_threads _ _ _ _ _ _ _ Hi _ _ Ht) Hk Hre) as (r1 & H1 & H2 & H3).
      exists t, r1. split; [by rewrite Hths, list_lookup_insert_ne|]. do 2 (split; [done|]).
      split; [unfold turns; cbn; rewrite decide_False by done; simpl; lia|].
      intros Hst' Hon. apply H3; [|done]. rewrite <- (stored_eq _ _ _ _ _ _ _ u (inv_shape _ _ _ _ _ _ _ Hi1) (inv_table _ _ _ _ _ _ _ Hi1)). auto. }
  destruct Hone as (t1 & r1 & Ht1 & Hk1 & Hre1 & Hm1 & Ho1).
  destruct (IH _ _ _ _ _ _ Hi1 Ht1 Hk1 Hre1) as (h' & b' & L' & D' & t' & r' & G1 & G2 & G3 & G4 & G5 & G6).
  exists h', b', L', D', t', r'. do 4 (split; [done|]). split; [|auto].
  unfold turns in *. change (i :: l) with ([i] ++ l). rewrite list.filter_app, length_app. lia.
Qed.

(** C2: A lookup without a lock finds what is there.  While no entry is freed and the table
    keeps the same answer [o] for the URI, whatever else other threads insert
    and remove in between, the lookup ends with [o]. *)
Theorem lookup_finds_stored idx c L d u o l c' j r :
  starts idx c L -> ths c !! j = Some (LStart u) ->
  crun idx (fun x => live_are d x /\ stored idx u (cw (cs x)) = o) l c c' ->
  ths c' !! j = Some (LDone r) -> r = o.
Proof.
  intros Hst Hj Hr Hd. destruct (starts_inv _ _ _ Hst) as (nb & h & b & Hi).
  destruct (lookup_run idx nb d u o _ j l c c' (fun _ H => proj1 H) Hr _ _ _ _ _ [] Hi Hj eq_refl eq_refl) as (h' & b' & L' & D' & t' & r' & _ & G2 & _ & _ & _ & G6).
  replace t' with (LDone r) in G6 by congruence. apply G6; [by intros x [_ Hx]|done].
Qed.

(** C4: A lookup is wait-free.  As long as no entry is freed, after [2 * n + 2] turns of its own, where [n] is
    the number of live entries, it is done, whatever the other threads do and
    whoever holds the lock, and each of these turns was a step. *)
Theorem lookup_wait_free idx c L d u l c' j :
  starts idx c L -> ths c !! j = Some (LStart u) -> crun idx (live_are d) l c c' ->
  (exists c'', cstep idx j c' c'') /\
  ((2 * size d + 2 <= turns j l)%nat -> exists r, ths c' !! j = Some (LDone r)).
Proof.
  intros Hst Hj Hr. destruct (starts_inv _ _ _ Hst) as (nb & h & b & Hi).
  destruct (lookup_run idx nb d u None _ j l c c' (fun _ H => H) Hr _ _ _ _ _ [] Hi Hj eq_refl eq_refl) as (h' & b' & L' & D' & t' & r' & G1 & G2 & G3 & G4 & G5 & _).
  pose proof G1 as [I1 I2 I3 _ _ _ _]. split.
  - destruct (step_safe _ _ _ _ _ _ t' (cs c') I2 I1 (I3 _ _ G2)) as [(t2 & s2 & H)|(_ & _ & _ & H)]; [eexists; by econstructor|congruence].
  - intros Hn. cbn [steps_left] in G5. assert (Hz : steps_left (size d) t' r' = 0%nat) by lia. destruct t'; try done; cbn [steps_left] in Hz; try lia; [|eauto].
    cbn [rest] in G4. destruct r'; [|simpl in Hz; lia]. inversion G4; subst. destruct (I3 _ _ G2) as [_ Ht]. by destruct (sh_hashed _ _ _ _ _ I2 NULL Ht).
Qed.

(** Without interference the steps are the sequential functions: an insertion or
    removal that runs alone, from taking the lock to releasing it, returns
    what [global_index_insert] and [global_index_remove] return and leaves the same
    process. *)
Theorem solo_is_sequential idx p u L w :
  global_rep w idx L -> p <> NULL -> is_Some (ents w !! p) ->
  solo 6 idx (IStart p) (CState w false) = solo_result IDone (global_index_insert idx p w) /\
  solo 7 idx (RStart u) (CState w false) = solo_result RDone (global_index_remove idx (Some u) w).
Proof.
  intros (Hi & g & Hg & Hrep & _) Hp [e He]. split; [by eapply solo_insert|by eapply solo_remove].
Qed.

(** ** Executions *)

Lemma replay_crun idx (ok : config -> bool) (P : config -> Prop) : (forall x, ok x = true -> P x) -> forall l c c',
  replay idx ok l c = Some c' -> crun idx P l c c'.
Proof.
  intros HP l. induction l as [|i l IH]; intros c c' H; cbn [replay] in H; destruct (ok c) eqn:E; cbn [negb] in H; try done.
  { injection H as <-. constructor. auto. }
  destruct (ths c !! i) as [t|] eqn:Et; [|done]. destruct (tstep idx t (cs c)) as [t' s'| |] eqn:Es; try done.
  eapply crun_cons; [auto|by econstructor|auto].
Qed.

Definition entry_at (u : list byte) (rc : Z) (n : ptr) : index_entry :=
  Entry u (index_hash_string u) 0 None (-1) 0 0 0 0 0 0 0 (S754_zero false) rc n.

(** One bucket with "/b" before "/a"; "/c" is about to be inserted. *)
Definition demo_world (rc : Z) : world :=
  World bare_kernel (list_to_map [(2, entry_at (bs "/a") rc NULL); (3, entry_at (bs "/b") rc 2); (4, entry_at (bs "/c") rc NULL)])
    {[1 := GlobalIndex {[0 := 3]} 1 2 10 0 0 0 0 0 0 0 0]} ∅ 5 x00.

(** A lookup of "/a", an insertion of "/c" and a removal of "/b". *)
Definition demo (rc : Z) : config := Config (CState (demo_world rc) false) [LStart (bs "/a"); IStart 4; RStart (bs "/b")].

Lemma demo_starts rc : starts 1 (demo rc) [3; 2].
Proof.
  split; cbn [cs ths cw demo].
  - split; [done|]. eexists. split; [reflexivity|]. cbn [g_buckets g_num_buckets g_num_entries]. split; [|done]. split.
    + exists 0. split; [lia|done].
    + apply list.NoDup_cons. split; [|apply list.NoDup_singleton]. intros H%list_elem_of_singleton. done.
    + constructor; [split; [done|]; eexists; by split|]. constructor; [split; [done|]; eexists; by split|constructor].
    + intros i Hi. assert (i = 0) as -> by lia. apply chain_cons with (entry_at (bs "/b") rc 2); [done|reflexivity|].
      apply chain_cons with (entry_at (bs "/a") rc NULL); [done|reflexivity|]. apply chain_nil.
  - intros p q Hp Hq. apply elem_of_cons in Hp as [->|Hp%list_elem_of_singleton], Hq as [->|Hq%list_elem_of_singleton]; subst; done.
  - done.
  - intros i t H. destruct i as [|[|[|i]]]; simplify_eq/=; [done| |done]. split; [set_solver|]. split; [done|]. eexists. by split.
  - intros i j p Hi Hj. destruct i as [|[|[|i]]], j as [|[|[|j]]]; simplify_eq/=; done.
Qed.

(** The lookup stands at "/b" while "/c" comes in before it and "/b" goes. *)
Definition demo_schedule : list nat := [0; 1; 1; 1; 0; 1; 1; 1; 2; 2; 2; 2; 2; 2; 2; 0; 0; 0; 0; 0; 0]%nat.

Definition demo_live : gset ptr := {[2; 3; 4]}.
Definition demo_ok (c : config) : bool :=
  bool_decide (dom (ents (cw (cs c))) = demo_live) && bool_decide (stored 1 (bs "/a") (cw (cs c)) = Some 2).

Definition demo_end : config := match replay 1 demo_ok demo_schedule (demo 2) with Some c => c | None => demo 2 end.

Lemma demo_run : crun 1 (fun x => live_are demo_live x /\ stored 1 (bs "/a") (cw (cs x)) = Some 2) demo_schedule (demo 2) demo_end.
Proof.
  apply (replay_crun 1 demo_ok).
  - intros x Hx. unfold demo_ok in Hx. apply andb_true_iff in Hx as [H1 H2]. by rewrite bool_decide_eq_true in H1, H2.
  - vm_compute. reflexivity.
Qed.

Lemma crun_weaken idx (P Q : config -> Prop) l c c' : (forall x, P x -> Q x) -> crun idx P l c c' -> crun idx Q l c c'.
Proof. intros H. induction 1; [constructor; auto|econstructor; eauto]. Qed.

Lemma demo_run_live : crun 1 (live_are demo_live) demo_schedule (demo 2) demo_end.
Proof. eapply crun_weaken; [|exact demo_run]. by intros x [Hx _]. Qed.

Lemma table_under_concurrency_witness : exists g L', gidxs (cw (cs demo_end)) !! (1 : ptr) = Some g /\
  table_rep (ents (cw (cs demo_end))) (g_buckets g) (g_num_buckets g) L'.
Proof.
  destruct (table_under_concurrency 1 (demo 2) [3; 2] demo_live demo_schedule demo_end (demo_starts 2) demo_run_live) as [(g & L' & H1 & H2 & _) _]. exists g, L'. exact (conj H1 H2).
Defined.

Lemma no_fault_no_deadlock_witness :
  (exists c'', cstep 1 0 demo_end c'') \/
  tstep 1 (LDone (Some 2)) (cs demo_end) = Blocked /\ exists j t' c'', ths demo_end !! j = Some t' /\ crit t' = true /\ cstep 1 j demo_end c''.
Proof.
  apply (no_fault_no_deadlock 1 (demo 2) [3; 2] demo_live demo_schedule demo_end 0 (LDone (Some 2)) (demo_starts 2) demo_run_live).
  vm_compute. reflexivity.
Defined.

Lemma lookup_finds_stored_witness : ths demo_end !! 0%nat = Some (LDone (Some 2)) /\ (Some 2 : option ptr) = Some 2.
Proof.
  split; [vm_compute; reflexivity|].
  apply (lookup_finds_stored 1 (demo 2) [3; 2] demo_live (bs "/a") (Some 2) demo_schedule demo_end 0 (Some 2) (demo_starts 2) eq_refl demo_run).
  vm_compute. reflexivity.
Defined.

Lemma lookup_wait_free_witness : (exists c'', cstep 1 0 demo_end c'') /\ exists r, ths demo_end !! 0%nat = Some (LDone r).
Proof.
  destruct (lookup_wait_free 1 (demo 2) [3; 2] demo_live (bs "/a") demo_schedule demo_end 0 (demo_starts 2) eq_refl demo_run_live) as [H1 H2].
  split; [exact H1|]. apply H2. apply Nat.leb_le. vm_compute. reflexivity.
Defined.

Lemma solo_is_sequential_witness :
  solo 6 1 (IStart 4) (CState (demo_world 1) false) = solo_result IDone (global_index_insert 1 4 (demo_world 1)).
Proof.
  apply (solo_is_sequential 1 4 (bs "/b") [3; 2] (demo_world 1)); [apply (st_rep _ _ _ (demo_starts 1))|done|vm_compute; eauto].
Defined.

(** A reader has no reference to the entry it stands on.  A removal can drop the last reference and free the entry between the
    lookup's load of the pointer and [index_entry_get]; the lookup's next step
    then accesses freed memory. *)
Theorem lookup_races_with_remove :
  exists l c', crun 1 (fun _ => True) l (demo 1) c' /\ starts 1 (demo 1) [3; 2] /\
    ths c' !! 0%nat = Some (LAt (bs "/a") 3) /\ tstep 1 (LAt (bs "/a") 3) (cs c') = Fault.
Proof.
  exists [0; 2; 2; 2; 2; 2]%nat. destruct (replay 1 (fun _ => true) [0; 2; 2; 2; 2; 2]%nat (demo 1)) as [c'|] eqn:E; [|vm_compute in E; done].
  exists c'. split; [by apply (replay_crun 1 (fun _ => true))|]. split; [apply demo_starts|]. vm_compute in E. injection E as <-. done.
Qed.
