(* ===== verification/IndexFile.v ===== *)
(** * IndexFile: the index file

    [backend_index_save] writes the entries of a backend index to a file and
    [backend_index_load] reads them back: loading returns on every file and leaves
    a well-formed table, and what was saved is what is found after loading. *)

From S2P Require Import Prelude Socket Kernel KernelProofs Index IndexProofs IndexRefine.

(** ** Records *)

(** What the file keeps of an entry. *)
Record record := Rec { rc_uri : list byte; rc_path : list byte; rc_size : Z; rc_mtime : Z; rc_flags : Z }.

Definition record_of (e : index_entry) : option record :=
  (fun p => Rec (uri e) p (size_bytes e) (mtime e) (flags e)) <$> backend_path e.

(** The record of the entry at [p]. *)
Definition record_at (h : gmap ptr index_entry) (p : ptr) : option record := h !! p ≫= record_of.

(** The bytes of a record in the file. *)
Definition rec_bytes (r : record) : list byte :=
  le_bytes 2 (Z.of_nat (length (rc_uri r))) ++ rc_uri r ++
  le_bytes 2 (Z.of_nat (length (rc_path r))) ++ rc_path r ++
  le_bytes 8 (rc_size r) ++ le_bytes 8 (rc_mtime r) ++ le_bytes 4 (rc_flags r).

(** A record that fits the format. *)
Definition storable (r : record) : Prop :=
  no_nul (rc_uri r) /\ Z.of_nat (length (rc_uri r)) < 2 ^ 16 /\
  no_nul (rc_path r) /\ Z.of_nat (length (rc_path r)) < 2 ^ 16 /\
  0 <= rc_size r < 2 ^ 64 /\ 0 <= rc_mtime r < 2 ^ 64 /\ 0 <= rc_flags r < 2 ^ 32.

#[global] Instance storable_dec r : Decision (storable r).
Proof. unfold storable. apply _. Defined.

Lemma entry_fields_bytes e r : record_of e = Some r -> storable r ->
  forall path, backend_path e = Some path -> concat (entry_fields e path) = rec_bytes r.
Proof.
  unfold record_of. intros Hr (_ & H1 & _ & H2 & _) path Hp. rewrite Hp in Hr. injection Hr as <-. simpl in *.
  unfold entry_fields, rec_bytes. rewrite !u16_small by lia. rewrite !Nat2Z.id, !firstn_all. cbn -[le_bytes app Z.of_nat length]. by rewrite ?app_nil_r.
Qed.

(** ** Writing *)

(** The kernel while [data] is in the new file [i], written through [o]. *)
Definition wr (o i : Z) (data : list byte) (k : kernel) : kernel :=
  set_ofds (<[o:=Ofd (Some i) (length data) false true]> (ofds k)) (set_inodes (<[i:=data]> (inodes k)) k).

Lemma write_all_ok fd o i old d k :
  sched k = [] -> fdtab k !! fd = Some o -> Z.of_nat (length d) <= MAX_RW_COUNT ->
  write_all fd d (wr o i old k) = Ret (Z.of_nat (length d)) (wr o i (old ++ d) k).
Proof.
  intros Hs Hf Hl. unfold write_all. change (sched (wr o i old k)) with (sched k). rewrite Hs. destruct d as [|b d].
  { simpl. by rewrite app_nil_r. }
  set (x := b :: d) in *.
  assert (Hw : sys_fwrite fd x (wr o i old k) = Ret (inl (length x)) (wr o i (old ++ x) k)).
  { rewrite (fwrite_append fd o i false old x).
    - unfold wr. destruct k. simpl. by rewrite !insert_insert_eq.
    - done.
    - apply ofd_of_Some. simpl. split; [done|apply lookup_insert_eq].
    - simpl. apply lookup_insert_eq.
    - done. }
  assert (Hx : write_all_loop 1 fd x 0 (wr o i old k) = write_all_loop 0 fd (drop (length x) x) (Z.of_nat (length x)) (wr o i (old ++ x) k)).
  { unfold x at 1. cbn [write_all_loop]. fold x. by run Hw. }
  simpl length. rewrite Hx. by rewrite drop_all.
Qed.

Lemma write_fields_ok fd o i l k : sched k = [] -> fdtab k !! fd = Some o ->
  forall old, Forall (fun d => Z.of_nat (length d) <= MAX_RW_COUNT) l ->
  write_fields fd l (wr o i old k) = Ret () (wr o i (old ++ concat l) k).
Proof.
  intros Hs Hf. induction l as [|d l IH]; intros old Hl; simpl; [by rewrite app_nil_r|].
  apply list.Forall_cons in Hl as [Hd Hl]. run (write_all_ok fd o i old d k Hs Hf Hd). rewrite IH by done. by rewrite app_assoc.
Qed.

Lemma entry_fields_short e path : Forall (fun d => Z.of_nat (length d) <= MAX_RW_COUNT) (entry_fields e path).
Proof.
  unfold entry_fields, MAX_RW_COUNT. pose proof (u16_range (Z.of_nat (length (uri e)))). pose proof (u16_range (Z.of_nat (length path))).
  repeat constructor; rewrite ?length_le_bytes, ?length_take; lia.
Qed.

(** The entries of [l] can be stored: [rs] are their records. *)
Definition records (h : gmap ptr index_entry) (l : list ptr) (rs : list record) : Prop :=
  Forall2 (fun p r => record_at h p = Some r /\ storable r) l rs.

Lemma save_chain_ok fd o i k l : sched k = [] -> fdtab k !! fd = Some o ->
  forall fuel p rs old w, chain (ents w) p l -> records (ents w) l rs -> (length l <= fuel)%nat -> kern w = wr o i old k ->
  save_chain fuel fd p w = Ret () (set_kern (wr o i (old ++ concat (rec_bytes <$> rs)) k) w).
Proof.
  intros Hs Hf. induction l as [|q l IH]; intros fuel p rs old w Hc Hr Hl Hk; inversion Hc as [|? e ? Hp He Hc' E]; subst.
  - inversion Hr; subst. simpl. rewrite app_nil_r, <- Hk, set_kern_id. by destruct fuel.
  - inversion Hr as [|? r ? rs' [Hr1 Hr2] Hrs]; subst. destruct fuel as [|fuel]; [simpl in Hl; lia|]. cbn [save_chain].
    rewrite NULL_eqb by done. run (rd_entry_eq _ _ _ He). unfold record_at in Hr1. rewrite He in Hr1. simpl in Hr1.
    destruct (backend_path e) as [path|] eqn:Ep; [|unfold record_of in Hr1; by rewrite Ep in Hr1]. rewrite deref_bind.
    assert (Hw : write_fields fd (entry_fields e path) (kern w) = Ret () (wr o i (old ++ rec_bytes r) k)).
    { rewrite Hk, write_fields_ok by (done || apply entry_fields_short). by rewrite (entry_fields_bytes e r). }
    run (onk_Ret _ _ _ _ Hw). rewrite (IH fuel (next e) rs' (old ++ rec_bytes r)); try done; [|simpl in Hl; lia].
    rewrite set_kern_kern, <- app_assoc. done.
Qed.

Lemma save_chains_ok fd o i k : sched k = [] -> fdtab k !! fd = Some o ->
  forall heads ls rs old w, Forall2 (chain (ents w)) heads ls -> records (ents w) (concat ls) rs -> kern w = wr o i old k ->
  save_chains fd heads w = Ret () (set_kern (wr o i (old ++ concat (rec_bytes <$> rs)) k) w).
Proof.
  intros Hs Hf heads. induction heads as [|p heads IH]; intros ls rs old w Hc Hr Hk; inversion Hc as [|? l ? ls' Hc1 Hc2]; subst.
  - inversion Hr; subst. simpl. by rewrite app_nil_r, <- Hk, set_kern_id.
  - apply Forall2_app_inv_l in Hr as (r1 & r2 & H1 & H2 & ->). cbn [save_chains].
    assert (Hl : (length l <= chain_fuel w)%nat) by (pose proof (chain_length _ _ _ Hc1); unfold chain_fuel; lia).
    pose proof (save_chain_ok fd o i k l Hs Hf (chain_fuel w) p r1 old w Hc1 H1 Hl Hk) as Hw.
    rewrite (bind_Ret (fun w => save_chain (chain_fuel w) fd p w) _ w _ _ Hw). rewrite (IH ls' r2 (old ++ concat (rec_bytes <$> r1))) by done.
    by rewrite set_kern_kern, fmap_app, concat_app, app_assoc.
Qed.

(** ** The order of the file *)

(** The numbers of the buckets that are visited. *)
Definition bucket_ids (b : gmap Z ptr) (nb : Z) : list Z :=
  filter (fun i => 0 <= i < nb) (sorting.merge_sort Z.le (map_to_list b).*1).

(** The entries in the order in which they are written. *)
Definition file_order (h : gmap ptr index_entry) (b : gmap Z ptr) (nb : Z) (L : list ptr) : list ptr :=
  concat ((fun i => bucket_list h nb i L) <$> bucket_ids b nb).

Lemma bucket_ids_elem b nb i : i ∈ bucket_ids b nb <-> 0 <= i < nb /\ is_Some (b !! i).
Proof.
  unfold bucket_ids. rewrite list_elem_of_filter. rewrite (sorting.merge_sort_Permutation Z.le). 
  rewrite list_elem_of_fmap. split.
  - intros [H ([j p] & -> & Hx)]. split; [done|]. apply elem_of_map_to_list in Hx. simpl. eauto.
  - intros [H [p Hp]]. split; [done|]. exists (i, p). split; [done|]. by apply elem_of_map_to_list.
Qed.

Lemma bucket_ids_nodup b nb : NoDup (bucket_ids b nb).
Proof. unfold bucket_ids. apply list.NoDup_filter. rewrite (sorting.merge_sort_Permutation Z.le). apply NoDup_fst_map_to_list. Qed.

Lemma heads_chains h b nb L : table_rep h b nb L ->
  Forall2 (chain h) (bucket_heads b nb) ((fun i => bucket_list h nb i L) <$> bucket_ids b nb).
Proof.
  intros Hrep. unfold bucket_heads. fold (bucket_ids b nb).
  assert (Hin : Forall (fun i => 0 <= i < nb /\ is_Some (b !! i)) (bucket_ids b nb)) by (apply list.Forall_forall; intros i; apply bucket_ids_elem).
  induction Hin as [|i ks [Hi [p Hp]] _ IH]; simpl; [constructor|]. rewrite Hp. constructor; [|done].
  pose proof (tr_chain _ _ _ _ Hrep i Hi) as Hc. by rewrite Hp in Hc.
Qed.

Lemma concat_buckets_nodup h nb L ks : NoDup L -> NoDup ks -> NoDup (concat ((fun i => bucket_list h nb i L) <$> ks)).
Proof.
  intros HL. induction 1 as [|i ks Hi _ IH]; simpl; [constructor|]. apply list.NoDup_app. split; [by apply list.NoDup_filter|]. split; [|done].
  intros p [Hp _]%bucket_list_elem Hin. apply list_elem_of_In, in_concat in Hin as (l & Hl & Hin).
  apply list_elem_of_In, list_elem_of_fmap in Hl as (j & -> & Hj). apply list_elem_of_In, bucket_list_elem in Hin as [Hp' _].
  apply Hi. unfold in_bucket in *. congruence.
Qed.

(** Every entry is written once. *)
Lemma file_order_perm h b nb L : table_rep h b nb L -> file_order h b nb L ≡ₚ L.
Proof.
  intros Hrep. apply NoDup_Permutation; [|apply Hrep|].
  { apply concat_buckets_nodup; [apply Hrep|apply bucket_ids_nodup]. }
  intros p. unfold file_order. rewrite list_elem_of_In, in_concat. split.
  - intros (l & Hl & Hp). apply list_elem_of_In, list_elem_of_fmap in Hl as (j & -> & _). by apply list_elem_of_In, bucket_list_elem in Hp as [_ Hp].
  - intros Hp. destruct (proj1 (list.Forall_forall _ _) (tr_hashed _ _ _ _ Hrep) p Hp) as (Hn & e & He & _).
    set (i := bucket_of (uri_hash e) nb). assert (Hi : 0 <= i < nb) by (apply bucket_of_range, Hrep).
    assert (Hpi : p ∈ bucket_list h nb i L) by (apply bucket_list_elem; split; [by apply (in_bucket_iff _ _ _ _ _ He)|done]).
    exists (bucket_list h nb i L). split; [|by apply list_elem_of_In]. apply list_elem_of_In, list_elem_of_fmap. exists i. split; [done|].
    apply bucket_ids_elem. split; [done|]. pose proof (tr_chain _ _ _ _ Hrep i Hi) as Hc. destruct (b !! i) as [q|]; [by eexists|].
    exfalso. simpl in Hc. assert (Hnil : bucket_list h nb i L = []) by (by inversion Hc). rewrite Hnil in Hpi. by apply elem_of_nil in Hpi.
Qed.

(** ** Saving *)

(** The file [file] and its temporary neighbour are at [d] and [t]. *)
Record index_place (k : kernel) (file : list byte) (d t : key) : Prop := {
  ip_file : resolve k file = Some d /\ d <> [] /\ names k !! d <> Some Dir;
  ip_tmp : resolve k (file ++ bs ".tmp") = Some t /\ t <> [] /\ names k !! t <> Some Dir;
  ip_ne : d <> t
}.

(** The contents of the index file. *)
Definition index_bytes (junk : byte) (bid nb : Z) (rs : list record) : list byte :=
  index_header junk bid (Z.of_nat (length rs)) nb ++ concat (rec_bytes <$> rs).

Lemma resolve_short k p d : resolve k p = Some d -> snprintf_text PATH_MAX p = p.
Proof.
  unfold resolve, snprintf_text. case_decide; [done|]. destruct (PATH_MAX <=? Z.of_nat (length p)) eqn:E; [done|].
  intros _. apply Z.leb_gt in E. by rewrite Z.min_r, Nat2Z.id, firstn_all by lia.
Qed.

Lemma length_index_header junk bid n nb : length (index_header junk bid n nb) = 32%nat.
Proof. unfold index_header. rewrite !length_app, !length_le_bytes, length_replicate. done. Qed.

Lemma rename_ok p q (d d' : key) i k :
  sched k = [] -> resolve k p = Some d -> resolve k q = Some d' -> d <> [] -> d' <> [] -> names k !! d = Some (File i) -> names k !! d' <> Some Dir ->
  sys_rename p q k = Ret 0 (set_names (<[d':=File i]> (delete d (names k))) k).
Proof.
  intros Hs H1 H2 N1 N2 Hd Hd'. unfold sys_rename, mbind, M_bind, refused, get. rewrite Hs, H1, H2, !node_at_ne, Hd by done.
  by destruct (names k !! d') as [[|j]|].
Qed.

Lemma wr_id o i data k : ofds k !! o = Some (Ofd (Some i) (length data) false true) -> inodes k !! i = Some data -> wr o i data k = k.
Proof. intros H1 H2. unfold wr. rewrite !insert_id by done. by destruct k. Qed.

(** The file takes its place. *)
Definition replaced (d t : key) (i : Z) (k : kernel) : kernel := set_names (<[d:=File i]> (delete t (names k))) k.

Lemma replaced_dirs d t i j k : names k !! t = Some (File j) -> names k !! d <> Some Dir -> forall x, is_dir (replaced d t i k) x = is_dir k x.
Proof.
  intros Ht Hd x. rewrite <- (is_dir_del_file k t j Ht x).
  assert (Hn : names (set_names (delete t (names k)) k) !! d <> Some Dir) by (simpl; by intros [_ H]%lookup_delete_Some).
  exact (is_dir_add_file _ d i Hn x).
Qed.

(** [w'] is [w] after the file at [d] has become [data] and the index [b]. *)
Record file_saved (w w' : world) (idx : ptr) (b : backend_index) (file : list byte) (d : key) (data : list byte) : Prop := {
  fs_ents : ents w' = ents w /\ brk w' = brk w;
  fs_index : bidxs w' = <[idx:=b]> (bidxs w);
  fs_fds : fdtab (kern w') = fdtab (kern w);
  fs_path : resolve (kern w') file = Some d /\ d <> [];
  fs_file : exists i, names (kern w') !! d = Some (File i) /\ inodes (kern w') !! i = Some data
}.

Lemma save_ok idx w b file d t L rs :
  willing (kern w) -> fs_ok (kern w) -> idx <> NULL -> bidxs w !! idx = Some b -> persist_enabled b = true -> index_file_path b = Some file ->
  index_place (kern w) file d t -> table_rep (ents w) (b_buckets b) (b_num_buckets b) L -> b_num_entries b = Z.of_nat (length L) ->
  records (ents w) (file_order (ents w) (b_buckets b) (b_num_buckets b) L) rs ->
  exists w', backend_index_save idx w = Ret 0 w' /\
    file_saved w w' idx (set_dirty false b) file d (index_bytes (w_junk w) (b_backend_id b) (b_num_buckets b) rs).
Proof.
  intros Hw Hk Hidx Hb Hp Hfile [(F1 & F2 & F3) (T1 & T2 & T3) Hne] Hrep Hn Hr.
  pose proof (open_touch _ O_WRONLY t (kern w) Hw T1 T2 T3) as Hopen. pose proof (touch_spec t (kern w) Hk T3) as Ht.
  destruct (touch t (kern w)) as [i k1]. destruct Ht as (_ & N1 & N2 & I1 & _ & _ & D1 & O1 & B1 & S1 & _ & C1). cbn [fst snd O_WRONLY] in Hopen.
  set (fd := lowest_free (fdtab (kern w))) in *. set (o := fresh_id (ofds k1)). set (k0 := with_ofd (Ofd (Some i) 0 false true) k1) in *.
  assert (Hf0 : fdtab k0 = <[fd:=o]> (fdtab (kern w))) by (unfold k0, with_ofd; simpl; by rewrite B1).
  assert (Hf : fdtab k0 !! fd = Some o) by (rewrite Hf0; apply lookup_insert_eq).
  assert (Hs0 : sched k0 = []) by (unfold k0; simpl; rewrite S1; apply Hw).
  assert (Hk0 : wr o i [] k0 = k0) by (apply wr_id; [apply lookup_insert_eq|exact I1]).
  assert (Hlen : Z.of_nat (length L) = Z.of_nat (length rs)).
  { rewrite <- (list.Forall2_length _ _ _ Hr). by rewrite (file_order_perm _ _ _ _ Hrep). }
  unfold backend_index_save. rewrite NULL_eqb by done. run (rd_b_eq _ _ _ Hb). rewrite Hp, Hfile. cbn [negb]. rewrite deref_bind.
  rewrite (resolve_short _ _ _ T1). run (onk_Ret _ _ _ _ Hopen). rewrite (proj2 (Z.ltb_ge fd 0) (lowest_free_nonneg _)).
  set (w1 := set_kern k0 w). rewrite (bind_Ret get _ _ w1 w1 eq_refl).
  set (hd := index_header _ _ _ _). assert (Hhl : length hd = 32%nat) by apply length_index_header.
  assert (Hh : write_all fd hd (kern w1) = Ret 32 (wr o i hd k0)).
  { unfold w1. simpl. rewrite <- Hk0 at 1. rewrite write_all_ok by (done || (rewrite Hhl; unfold MAX_RW_COUNT; lia)). by rewrite Hhl. }
  run (onk_Ret _ _ _ _ Hh). rewrite (proj2 (Z.ltb_ge 32 0)) by lia.
  pose proof (save_chains_ok fd o i k0 Hs0 Hf _ _ rs hd (set_kern (wr o i hd k0) w1) (heads_chains _ _ _ _ Hrep) Hr eq_refl) as Hsave.
  run Hsave. rewrite !set_kern_kern. set (data := hd ++ concat (rec_bytes <$> rs)).
  set (k2 := set_fdtab (delete fd (fdtab k0)) (wr o i data k0)).
  assert (Hcl : onk (sys_close_fd fd) (set_kern (wr o i data k0) w) = Ret () (set_kern k2 w)) by done.
  assert (Hd2 : forall x, is_dir k2 x = is_dir (kern w) x) by exact D1.
  assert (Hren : sys_rename (file ++ bs ".tmp") file k2 = Ret 0 (replaced d t i k2)).
  { apply rename_ok; try done; [by rewrite (resolve_names (kern w))|by rewrite (resolve_names (kern w))|].
    change (names k2) with (names k1). by rewrite N2. }
  unfold w1. rewrite set_kern_kern. run Hcl. run (onk_Ret _ _ _ (set_kern k2 w) Hren). cbn [Z.ltb]. rewrite (proj2 (Z.ltb_ge 0 0)) by lia.
  set (w3 := set_kern (replaced d t i k2) (set_kern k2 w)). assert (Hb3 : bidxs w3 !! idx = Some b) by done.
  run (upd_b_eq idx (set_dirty false) b w3 Hb3). eexists. split; [reflexivity|]. unfold w3. split; simpl; try done.
  - change (delete fd (fdtab k0) = fdtab (kern w)). rewrite Hf0. apply delete_lowest_free.
  - split; [|done]. rewrite <- F1. apply resolve_names; [|exact C1]. intros x. rewrite (replaced_dirs d t i i k2); [apply Hd2|exact N1|].
    change (names k2) with (names k1). by rewrite N2.
  - exists i. split; [apply lookup_insert_eq|]. rewrite lookup_insert_eq. f_equal. unfold index_bytes, data, hd. by rewrite Hn, Hlen.
Qed.

(** ** Reading *)

(** What is left to read behind a descriptor. *)
Definition unread (k : kernel) (fd : Z) : nat :=
  match ofd_of k fd with
  | Some (_, Ofd (Some i) pos _ _) => length (default [] (inodes k !! i)) - pos
  | _ => 0
  end.

(** [n] bytes have been read through [fd]. *)
Record has_read (fd : Z) (n : nat) (k k' : kernel) : Prop := {
  hr_names : names k' = names k;
  hr_inodes : inodes k' = inodes k;
  hr_fds : fdtab k' = fdtab k;
  hr_unread : (unread k' fd + n <= unread k fd)%nat
}.

Lemma has_read_refl fd k : has_read fd 0 k k.
Proof. split; try done. lia. Qed.

Lemma has_read_sched fd k w : has_read fd 0 k (set_sched w k).
Proof. split; try done. change (unread (set_sched w k) fd) with (unread k fd). lia. Qed.

Lemma has_read_trans fd n m k k' k'' : has_read fd n k k' -> has_read fd m k' k'' -> has_read fd (n + m) k k''.
Proof. intros [A1 A2 A3 A4] [B1 B2 B3 B4]. split; try congruence. lia. Qed.

Lemma fread_spec fd len k :
  exists r k', sys_fread fd len k = Ret r k' /\ has_read fd (match r with inl d => length d | inr _ => 0 end) k k' /\
    length (sched k') = (length (sched k) - 1)%nat /\
    (sched k = [] -> match r with inl d => length d = Nat.min len (unread k fd) | inr e => e = EIO end).
Proof.
  assert (Hgo : forall n w, exists r k', (match ofd_of k fd with
      | Some (o, Ofd (Some i) pos true wr as e) =>
          let d := take n (drop pos (default [] (inodes k !! i))) in
          Ret (inl d) (set_sched w (set_ofds (<[o:=set_pos (pos + length d) e]> (ofds k)) k))
      | _ => Ret (inr EIO) (set_sched w k)
      end) = Ret r k' /\ has_read fd (match r with inl d => length d | inr _ => 0 end) k k' /\ sched k' = w /\
      match r with inl d => length d = Nat.min n (unread k fd) | inr e => e = EIO end).
  { intros n w. destruct (ofd_of k fd) as [[o [[i|] pos [] wr]]|] eqn:E;
      try (eexists _, _; split; [reflexivity|]; split; [apply has_read_sched|done]).
    eexists _, _. split; [reflexivity|]. set (d := take n _). set (k' := set_sched w _).
    assert (Ho : ofd_of k' fd = Some (o, Ofd (Some i) (pos + length d) true wr)).
    { rewrite (ofd_of_move k k' o (Ofd (Some i) (pos + length d) true wr) fd _ _ eq_refl eq_refl E). by rewrite decide_True. }
    assert (Hl : length d = Nat.min n (unread k fd)) by (unfold d, unread; rewrite E, length_take, length_drop; done).
    split; [|done]. split; try done. unfold unread in *. rewrite Ho. rewrite E in *. change (inodes k') with (inodes k). lia. }
  unfold sys_fread. destruct (sched k) as [|[n| |] w] eqn:Es.
  - destruct (Hgo len []) as (r & k' & H1 & H2 & H3 & H4). exists r, k'. split; [exact H1|]. split; [done|]. rewrite H3. by split.
  - destruct (Hgo (Nat.min (S n) len) w) as (r & k' & H1 & H2 & H3 & H4). exists r, k'. split; [exact H1|]. split; [done|].
    rewrite H3. split; [simpl; lia|done].
  - eexists _, _. split; [reflexivity|]. split; [apply has_read_sched|]. split; [simpl; lia|done].
  - eexists _, _. split; [reflexivity|]. split; [apply has_read_sched|]. split; [simpl; lia|done].
Qed.

Lemma read_all_loop_total fd : forall fuel acc rem k, (length (sched k) + (if decide (unread k fd = 0) then 1 else 2) <= fuel)%nat ->
  exists r d k', read_all_loop fuel fd acc rem k = Ret (r, acc ++ d) k' /\ (r = -1 \/ r = Z.of_nat (length (acc ++ d))) /\
    has_read fd (length d) k k'.
Proof.
  induction fuel as [|fuel IH]; intros acc rem k Hf; [case_decide; lia|].
  assert (Hstop : forall r, r = -1 \/ r = Z.of_nat (length acc) -> forall k', has_read fd 0 k k' -> exists r' d k'', Ret (r, acc) k' = Ret (r', acc ++ d) k'' /\
    (r' = -1 \/ r' = Z.of_nat (length (acc ++ d))) /\ has_read fd (length d) k k'').
  { intros r Hr k' Hk. exists r, [], k'. by rewrite app_nil_r. }
  destruct rem as [|rem]; cbn [read_all_loop]; [apply Hstop; [by right|apply has_read_refl]|].
  destruct (fread_spec fd (S rem) k) as (r & k1 & Hr & Hk1 & Hs1 & Hempty). run Hr. destruct r as [d|[]].
  - destruct (decide (d = [])) as [->|Hd]; [by apply Hstop; [right|]|].
    assert (Hpos : (0 < length d)%nat) by (destruct d; [done|simpl; lia]).
    assert (Hnext : exists r d' k', read_all_loop fuel fd (acc ++ d) (S rem - length d) k1 = Ret (r, (acc ++ d) ++ d') k' /\
      (r = -1 \/ r = Z.of_nat (length ((acc ++ d) ++ d'))) /\ has_read fd (length d') k1 k').
    { destruct (decide (S rem - length d = 0)%nat) as [E|E].
      - rewrite E. exists (Z.of_nat (length (acc ++ d))), [], k1. rewrite app_nil_r. split; [by destruct fuel|]. split; [by right|apply has_read_refl].
      - apply IH. pose proof (hr_unread _ _ _ _ Hk1) as Hu. destruct (sched k) as [|ev l] eqn:Es.
        + specialize (Hempty eq_refl). rewrite decide_True by lia. rewrite decide_False in Hf by lia. simpl in *. lia.
        + simpl in *. repeat case_decide; lia. }
    destruct Hnext as (r & d' & k2 & H1 & H2 & H3). exists r, (d ++ d'), k2. rewrite app_assoc. split; [by destruct d|]. split; [done|].
    rewrite length_app. by eapply has_read_trans.
  - destruct (sched k) as [|ev l] eqn:Es; [by specialize (Hempty eq_refl)|]. pose proof (hr_unread _ _ _ _ Hk1) as Hu.
    destruct (IH acc (S rem) k1) as (r & d & k2 & H1 & H2 & H3); [simpl in *; repeat case_decide; lia|].
    exists r, d, k2. split; [done|]. split; [done|]. by apply (has_read_trans fd 0 (length d) k k1 k2).
  - by apply Hstop; [left|].
Qed.

(** [read_all] returns whatever the kernel does. *)
Lemma read_all_total fd n k :
  exists r d k', read_all fd n k = Ret (r, d) k' /\ (r = -1 \/ r = Z.of_nat (length d)) /\ has_read fd (length d) k k'.
Proof.
  destruct (read_all_loop_total fd (S (S (length (sched k)))) [] (Z.to_nat n) k) as (r & d & k' & H); [case_decide; lia|]. by exists r, d, k'.
Qed.

Lemma onk_read fd n w :
  exists r d k', onk (read_all fd n) w = Ret (r, d) (set_kern k' w) /\ (r = -1 \/ r = Z.of_nat (length d)) /\ has_read fd (length d) (kern w) k'.
Proof. destruct (read_all_total fd n (kern w)) as (r & d & k' & H1 & H2). exists r, d, k'. by rewrite (onk_Ret _ _ _ _ H1). Qed.

(** ** Loading *)

(** Index [idx] of [w] is a table of [nb] buckets with the entries [L]; [c] entries
    have been counted. *)
Definition idx_ok (w : world) (idx : ptr) (nb c : Z) (L : list ptr) : Prop :=
  idx <> NULL /\ 0 < brk w /\ map_Forall (fun p _ => p < brk w) (ents w) /\
  exists b, bidxs w !! idx = Some b /\ b_num_buckets b = nb /\ b_num_entries b = u64 c /\ table_rep (ents w) (b_buckets b) nb L.

Lemma u64_succ c : u64 (u64 c + 1) = u64 (c + 1).
Proof. unfold u64. by rewrite Zplus_mod_idemp_l. Qed.

(** *** Insertion into a backend index *)

Lemma backend_insert_ok idx p e w b L :
  idx <> NULL -> bidxs w !! idx = Some b -> table_rep (ents w) (b_buckets b) (b_num_buckets b) L ->
  p <> NULL -> p ∉ L -> ents w !! p = Some e -> uri_hash e = index_hash_string (uri e) ->
  exists n t, let e' := set_next n (set_refcount (s32 (entry_refcount e + 1)) e) in
    backend_index_insert idx p w =
      Ret 0 (set_bidxs (<[idx:=set_b_table t (u64 (b_num_entries b + 1)) true b]> (bidxs w)) (set_ents (<[p:=e']> (ents w)) w)) /\
    table_rep (<[p:=e']> (ents w)) t (b_num_buckets b) (p :: L).
Proof.
  intros Hi Hb Hrep Hp Hnin He Hh. unfold backend_index_insert. rewrite !NULL_eqb by done. cbn [orb].
  run (rd_b_eq _ _ _ Hb). run (rd_entry_eq _ _ _ He). run (entry_get_eq _ _ _ Hp He).
  rewrite Hh. rewrite (bucket_get_ok (b_buckets b)) by apply Hrep. rewrite deref_bind. set (i := bucket_of _ _).
  set (e1 := set_refcount _ e). set (w1 := set_ents _ w). assert (He1 : ents w1 !! p = Some e1) by apply lookup_insert_eq.
  run (upd_entry_eq p (set_next (default NULL (b_buckets b !! i))) e1 w1 He1). set (w2 := set_ents _ w1).
  assert (Hb2 : bidxs w2 !! idx = Some b) by done. run (upd_b_eq idx (fun b => set_b_table (<[i:=p]> (b_buckets b)) (u64 (b_num_entries b + 1)) true b) b w2 Hb2).
  exists (default NULL (b_buckets b !! i)), (<[i:=p]> (b_buckets b)). split.
  { unfold mret, M_ret, w2, w1. f_equal. rewrite set_ents_ents. simpl. by rewrite insert_insert_eq. }
  set (e' := set_next _ e1). unfold i. rewrite <- Hh. change (uri_hash e) with (uri_hash e').
  apply table_rep_insert with (e := e'); [|done|done|by rewrite lookup_insert_eq|done|simpl; unfold i; by rewrite Hh].
  apply table_rep_frame with (ents w); [done|]. intros x Hx. rewrite lookup_insert_ne; [done|]. by intros ->.
Qed.

(** A new entry goes in front. *)
Lemma insert_new_ok idx nb c L w e :
  idx_ok w idx nb c L -> uri_hash e = index_hash_string (uri e) ->
  exists w' e', backend_index_insert idx (brk w) (set_brk (brk w + 1) (set_ents (<[brk w:=e]> (ents w)) w)) = Ret 0 w' /\
    ents w' = <[brk w:=e']> (ents w) /\ record_of e' = record_of e /\ kern w' = kern w /\
    idx_ok w' idx nb (c + 1) (brk w :: L).
Proof.
  intros (H1 & H2 & H3 & b & H4 & H5 & H6 & H7) Hh. set (p := brk w). set (w1 := set_brk _ _).
  assert (Hfresh : ents w !! p = None).
  { destruct (ents w !! p) as [x|] eqn:E; [|done]. apply H3 in E. simpl in E. unfold p in E. lia. }
  assert (Hnin : p ∉ L).
  { intros Hp. destruct (proj1 (list.Forall_forall _ _) (tr_hashed _ _ _ _ H7) p Hp) as (_ & x & Hx & _). congruence. }
  assert (Hrep1 : table_rep (ents w1) (b_buckets b) (b_num_buckets b) L).
  { rewrite H5. apply table_rep_frame with (ents w); [done|]. intros q Hq. simpl. rewrite lookup_insert_ne; [done|]. by intros ->. }
  destruct (backend_insert_ok idx p e w1 b L) as (n & t & Hins & Hrep); try done; [unfold p, NULL; lia|apply lookup_insert_eq|].
  eexists _, _. split; [exact Hins|]. simpl in *. rewrite insert_insert_eq in *. split; [reflexivity|]. split; [done|]. split; [done|].
  split; [done|]. split; [simpl; lia|]. simpl. split.
  { apply map_Forall_insert_2; [unfold p; lia|]. eapply map_Forall_impl; [exact H3|]. simpl. unfold p. lia. }
  eexists. split; [apply lookup_insert_eq|]. simpl. rewrite H6, u64_succ. split; [done|]. split; [done|]. by rewrite <- H5.
Qed.

(** *** One entry *)

Lemma onk_malloc fd w : exists b k', onk sys_malloc w = Ret b (set_kern k' w) /\ has_read fd 0 (kern w) k'.
Proof.
  unfold onk, sys_malloc. destruct (k_oom (kern w)) as [|b l]; eexists _, _; (split; [reflexivity|]); [apply has_read_refl|].
  split; try done. change (unread (set_k_oom l (kern w)) fd) with (unread (kern w) fd). lia.
Qed.

Lemma entry_create_total fd u bid path w :
  exists p k', has_read fd 0 (kern w) k' /\
    (index_entry_create u bid path w = Ret NULL (set_kern k' w) \/
     index_entry_create u bid path w = Ret p (set_brk (brk w + 1) (set_ents (<[brk w:=new_entry u bid path]> (ents w)) (set_kern k' w))) /\ p = brk w).
Proof.
  unfold index_entry_create. destruct (onk_malloc fd w) as (b0 & k0 & H0 & K0). run H0. exists (brk w).
  destruct b0; cbn [negb]; [|exists k0; split; [done|by left]].
  destruct (onk_malloc fd (set_kern k0 w)) as (b1 & k1 & H1 & K1). run H1. rewrite set_kern_kern.
  destruct (onk_malloc fd (set_kern k1 w)) as (b2 & k2 & H2 & K2). run H2. rewrite set_kern_kern. exists k2.
  split; [exact (has_read_trans fd 0 0 _ _ _ K0 (has_read_trans fd 0 0 _ _ _ K1 K2))|].
  destruct (negb b1 || negb b2); [by left|]. right. split; [|done]. by destruct w.
Qed.

(** What an iteration of the load loop does, on every input. *)
Definition entry_done (idx : ptr) (fd nb c : Z) (L : list ptr) (w : world) (go : bool) (w' : world) : Prop :=
  ents w ⊆ ents w' /\ (exists n, has_read fd n (kern w) (kern w') /\ (go = true -> (2 <= n)%nat)) /\
  idx_ok w' idx nb (if go then c + 1 else c) ((if go then [brk w] else []) ++ L).

Lemma entry_stop idx fd nb c L w n k' : idx_ok w idx nb c L -> has_read fd n (kern w) k' ->
  exists go w', (mret false : M world bool) (set_kern k' w) = Ret go w' /\ entry_done idx fd nb c L w go w'.
Proof. intros Hi Hk. exists false, (set_kern k' w). split; [done|]. split; [done|]. split; [by exists n|]. done. Qed.

(** Setting the metadata and inserting. *)
Lemma load_insert idx nb c L w0 k e sz mt fl : idx_ok w0 idx nb c L -> uri_hash e = index_hash_string (uri e) ->
  exists w' e', (_ ← upd_entry (brk w0) (set_meta sz mt fl); _ ← backend_index_insert idx (brk w0); mret true : M world bool)
      (set_kern k (set_brk (brk w0 + 1) (set_ents (<[brk w0:=e]> (ents w0)) w0))) = Ret true w' /\
    ents w' = <[brk w0:=e']> (ents w0) /\ record_of e' = record_of (set_meta sz mt fl e) /\ kern w' = k /\ idx_ok w' idx nb (c + 1) (brk w0 :: L).
Proof.
  intros Hi Hh. set (w1 := set_kern k _). assert (He : ents w1 !! brk w0 = Some e) by apply lookup_insert_eq.
  run (upd_entry_eq (brk w0) (set_meta sz mt fl) e w1 He).
  destruct (insert_new_ok idx nb c L (set_kern k w0) (set_meta sz mt fl e)) as (w' & e' & H1 & H2 & H3 & H4 & H5); [exact Hi|exact Hh|].
  exists w', e'. split; [|done]. replace (set_ents _ w1) with
    (set_brk (brk (set_kern k w0) + 1) (set_ents (<[brk (set_kern k w0):=set_meta sz mt fl e]> (ents (set_kern k w0))) (set_kern k w0))).
  - by run H1.
  - unfold w1, set_ents, set_brk, set_kern. simpl. by rewrite insert_insert_eq.
Qed.

Ltac read_step w n d k H Hn Hk :=
  match goal with |- context [onk (read_all ?fd ?m) ≫= _] =>
    destruct (onk_read fd m w) as (n & d & k & H & Hn & Hk); run H; cbn [fst snd]; rewrite ?set_kern_kern in * end.

Lemma load_entry_total idx fd nb c L w : idx_ok w idx nb c L ->
  exists go w', load_entry idx fd w = Ret go w' /\ entry_done idx fd nb c L w go w'.
Proof.
  intros Hi. unfold load_entry. read_step w r1 d1 k1 H1 R1 K1.
  destruct (r1 =? 2) eqn:E1; cbn [negb]; [|by apply (entry_stop _ _ _ _ _ _ (length d1))].
  assert (Hl1 : length d1 = 2%nat) by (apply Z.eqb_eq in E1; destruct R1; lia). rewrite Hl1 in K1.
  destruct (onk_malloc fd (set_kern k1 w)) as (m0 & k2 & H2 & K2). run H2. rewrite set_kern_kern.
  pose proof (has_read_trans _ _ _ _ _ _ K1 K2) as A2. destruct m0; cbn [negb]; [|by eapply entry_stop].
  read_step (set_kern k2 w) r3 d3 k3 H3 R3 K3. pose proof (has_read_trans _ _ _ _ _ _ A2 K3) as A3.
  destruct (r3 =? _); cbn [negb]; [|by eapply entry_stop].
  read_step (set_kern k3 w) r4 d4 k4 H4 R4 K4. pose proof (has_read_trans _ _ _ _ _ _ A3 K4) as A4.
  destruct (r4 =? 2); cbn [negb]; [|by eapply entry_stop].
  destruct (onk_malloc fd (set_kern k4 w)) as (m5 & k5 & H5 & K5). run H5. rewrite set_kern_kern.
  pose proof (has_read_trans _ _ _ _ _ _ A4 K5) as A5. destruct m5; cbn [negb]; [|by eapply entry_stop].
  read_step (set_kern k5 w) r6 d6 k6 H6 R6 K6. pose proof (has_read_trans _ _ _ _ _ _ A5 K6) as A6.
  destruct (r6 =? _); cbn [negb]; [|by eapply entry_stop].
  destruct Hi as (I1 & I2 & I3 & b & I4 & I5 & I6 & I7). assert (Hi : idx_ok w idx nb c L) by (split; [done|]; eauto 10).
  assert (Hb6 : bidxs (set_kern k6 w) !! idx = Some b) by done. run (rd_b_eq _ _ _ Hb6).
  destruct (entry_create_total fd (c_str d3) (b_backend_id b) (c_str d6) (set_kern k6 w)) as (p & k7 & K7 & [Hc|[Hc ->]]);
    run Hc; rewrite ?set_kern_kern; pose proof (has_read_trans _ _ _ _ _ _ A6 K7) as A7.
  { by eapply entry_stop. }
  rewrite NULL_eqb by (simpl; unfold NULL; lia). match goal with |- context [(get ≫= _) ?x] => rewrite (bind_Ret get _ _ x x eq_refl) end.
  cbn [brk set_kern ents]. set (e := new_entry _ _ _). set (w7 := set_brk _ _). 
  read_step w7 r8 d8 k8 H8 R8 K8. pose proof (has_read_trans _ _ _ _ _ _ A7 K8) as A8.
  read_step (set_kern k8 w7) r9 d9 k9 H9 R9 K9. pose proof (has_read_trans _ _ _ _ _ _ A8 K9) as A9.
  read_step (set_kern k9 w7) r10 d10 k10 H10 R10 K10. pose proof (has_read_trans _ _ _ _ _ _ A9 K10) as A10.
  destruct (load_insert idx nb c L (set_kern k7 w) k10 e (le_val (local (w_junk w7) 8 d8)) (le_val (local (w_junk w7) 8 d9)) (le_val (local (w_junk w7) 4 d10)))
    as (w' & e' & Hins & He' & _ & Hk' & Hok); [exact Hi|done|].
  exists true, w'. split; [exact Hins|]. split; [|split; [|exact Hok]].
  - rewrite He'. apply insert_subseteq. simpl. destruct (ents w !! brk w) as [x|] eqn:E; [|done]. apply I3 in E. simpl in E. lia.
  - rewrite Hk'. eexists. split; [exact A10|]. lia.
Qed.

Lemma load_loop_total idx fd nb : forall fuel n i loaded c L w,
  idx_ok w idx nb c L -> (unread (kern w) fd < fuel)%nat -> 0 <= loaded -> 2 * loaded + Z.of_nat (unread (kern w) fd) < 2 ^ 32 ->
  exists w' L1, load_loop fuel idx fd n i loaded w = Ret (loaded + Z.of_nat (length L1)) w' /\
    ents w ⊆ ents w' /\ (exists m, has_read fd m (kern w) (kern w')) /\ idx_ok w' idx nb (c + Z.of_nat (length L1)) (L1 ++ L).
Proof.
  induction fuel as [|fuel IH]; intros n i loaded c L w Hi Hf Hl Hb; [lia|]. cbn [load_loop].
  assert (Hdone : exists w' L1, Ret loaded w = Ret (loaded + Z.of_nat (length L1)) w' /\ ents w ⊆ ents w' /\
    (exists m, has_read fd m (kern w) (kern w')) /\ idx_ok w' idx nb (c + Z.of_nat (length L1)) (L1 ++ L)).
  { exists w, []. simpl. rewrite !Z.add_0_r. split; [done|]. split; [done|]. split; [exists 0%nat; apply has_read_refl|done]. }
  destruct (n <=? i); [exact Hdone|]. clear Hdone.
  destruct (load_entry_total idx fd nb c L w Hi) as (go & w1 & H1 & Hs1 & (m & Hm & Hgo) & Hi1). run H1.
  destruct go.
  - specialize (Hgo eq_refl). pose proof (hr_unread _ _ _ _ Hm) as Hu. rewrite s32_small by lia.
    destruct (IH n (i + 1) (loaded + 1) (c + 1) (brk w :: L) w1) as (w2 & L1 & H2 & Hs2 & (m2 & Hm2) & Hi2); [done|lia|lia|lia|].
    exists w2, (L1 ++ [brk w]). rewrite length_app. simpl length. rewrite Nat2Z.inj_add, <- app_assoc.
    split; [rewrite H2; f_equal; lia|]. split; [by etrans|]. split; [eexists; by eapply has_read_trans|].
    by replace (c + (Z.of_nat (length L1) + Z.of_nat 1)) with (c + 1 + Z.of_nat (length L1)) by lia.
  - exists w1, []. simpl in *. rewrite !Z.add_0_r. split; [done|]. split; [done|]. split; [by exists m|done].
Qed.

Lemma unread_file_len k fd : (unread k fd <= file_len k fd)%nat.
Proof. unfold unread, file_len. destruct (ofd_of k fd) as [[o [[i|] pos rd wr]]|]; lia. Qed.

Lemma file_len_bound k fd n : map_Forall (fun _ d => Z.of_nat (length d) < n) (inodes k) -> 0 < n -> Z.of_nat (file_len k fd) < n.
Proof.
  intros H Hn. unfold file_len. destruct (ofd_of k fd) as [[o [[i|] pos rd wr]]|]; [|done..].
  destruct (inodes k !! i) as [d|] eqn:E; [|done]. by apply H in E.
Qed.

(** Closing the descriptor and marking the index as clean. *)
Lemma load_close idx fd nb c L w r : idx_ok w idx nb c L ->
  exists w', (_ ← onk (sys_close_fd fd); _ ← upd_b idx (set_dirty false); mret r : M world Z) w = Ret r w' /\ ents w' = ents w /\
    kern w' = set_fdtab (delete fd (fdtab (kern w))) (kern w) /\ idx_ok w' idx nb c L.
Proof.
  intros (I1 & I2 & I3 & b & I4 & I5 & I6 & I7). set (w1 := set_kern (set_fdtab (delete fd (fdtab (kern w))) (kern w)) w).
  assert (Hc : onk (sys_close_fd fd) w = Ret () w1) by done. run Hc. assert (Hb : bidxs w1 !! idx = Some b) by done.
  run (upd_b_eq idx (set_dirty false) b w1 Hb). eexists. split; [reflexivity|]. simpl. split; [done|]. split; [done|].
  split; [done|]. split; [done|]. split; [done|]. exists (set_dirty false b). simpl. by rewrite lookup_insert_eq.
Qed.

(** A load of the table [L] of [w] that has returned: the reported number of
    new entries is in front, nothing else has changed. *)
Definition loaded_onto (idx : ptr) (nb c : Z) (L : list ptr) (w : world) (x : outcome world Z) : Prop :=
  exists r w' L1, x = Ret r w' /\ (r = Z.of_nat (length L1) \/ r = -1 /\ L1 = []) /\
    idx_ok w' idx nb (c + Z.of_nat (length L1)) (L1 ++ L) /\ ents w ⊆ ents w' /\
    names (kern w') = names (kern w) /\ inodes (kern w') = inodes (kern w) /\ fdtab (kern w') = fdtab (kern w).

Lemma load_failed idx nb c L w k' : idx_ok w idx nb c L ->
  names k' = names (kern w) -> inodes k' = inodes (kern w) -> fdtab k' = fdtab (kern w) -> loaded_onto idx nb c L w (Ret (-1) (set_kern k' w)).
Proof. intros Hi E1 E2 E3. exists (-1), (set_kern k' w), []. split; [done|]. split; [by right|]. simpl. by rewrite Z.add_0_r. Qed.

(** C18: loading is total.  Whatever the index file holds (any bytes, a wrong
    header, a truncated or hostile entry count, no file or a directory) and however the
    kernel cuts, interrupts or fails the reads and the allocator refuses, [backend_index_load]
    returns: it never faults or runs forever, closes its descriptor, leaves
    every file and every other entry alone, and the index is a well-formed table
    with exactly the reported number of new entries in front of the old ones. *)
Theorem index_load_total idx w nb c L :
  idx_ok w idx nb c L -> map_Forall (fun _ d => Z.of_nat (length d) < 2 ^ 32) (inodes (kern w)) ->
  loaded_onto idx nb c L w (backend_index_load idx w).
Proof.
  intros Hi Hlen. unfold backend_index_load. destruct Hi as (I1 & I2 & I3 & b & I4 & I5 & I6 & I7).
  assert (Hi : idx_ok w idx nb c L) by (split; [done|]; eauto 10). rewrite NULL_eqb by done. run (rd_b_eq _ _ _ I4).
  pose proof (load_failed idx nb c L w (kern w) Hi eq_refl eq_refl eq_refl) as Hno. rewrite set_kern_id in Hno.
  destruct (persist_enabled b); cbn [negb]; [|exact Hno]. unfold open_path. destruct (index_file_path b) as [file|]; [|exact Hno].
  destruct (open_spec file O_RDONLY (kern w)) as (fd & k1 & H1 & (A1 & A2 & A3 & A4) & Hfd). run (onk_Ret _ _ _ _ H1).
  destruct Hfd as [[-> Hf]|(o & -> & Hf)]; [rewrite (proj2 (Z.ltb_lt (-1) 0)) by lia; by apply load_failed|].
  set (fd := lowest_free (fdtab (kern w))) in *. rewrite (proj2 (Z.ltb_ge fd 0)) by apply lowest_free_nonneg.
  read_step (set_kern k1 w) r2 h2 k2 H2 R2 K2. destruct K2 as [B1 B2 B3 B4]. simpl in B1, B2, B3, B4.
  assert (Hdel : forall k, fdtab k = fdtab k1 -> delete fd (fdtab k) = fdtab (kern w)) by (intros k ->; rewrite Hf; apply delete_lowest_free).
  assert (Hbad : loaded_onto idx nb c L w ((_ ← onk (sys_close_fd fd); mret (-1) : M world Z) (set_kern k2 w))).
  { apply (load_failed idx nb c L w (set_fdtab (delete fd (fdtab k2)) k2)); simpl; [done|congruence|congruence|by apply Hdel]. }
  destruct (r2 =? 32); cbn [negb]; [|exact Hbad]. destruct (bool_decide _); cbn [negb]; [|exact Hbad].
  destruct (le_val (take 2 _) =? _); cbn [negb]; [|exact Hbad]. clear Hbad Hno.
  rewrite (bind_Ret get _ _ (set_kern k2 w) _ eq_refl). cbn [kern set_kern].
  pose proof (unread_file_len k2 fd) as Hu.
  assert (Hb2 : Z.of_nat (file_len k2 fd) < 2 ^ 32) by (apply file_len_bound; [by rewrite B2, A2|lia]).
  destruct (load_loop_total idx fd nb (S (file_len k2 fd)) (le_val (take 8 (drop 16 h2))) 0 0 c L (set_kern k2 w))
    as (w3 & L1 & H3 & Hs3 & (m & [C1 C2 C3 C4]) & Hi3); [exact Hi|simpl; lia|lia|simpl; lia|].
  run H3. simpl in C1, C2, C3. destruct (load_close idx fd nb _ _ w3 (0 + Z.of_nat (length L1)) Hi3) as (w4 & H4 & E4 & K4 & Hi4).
  exists (0 + Z.of_nat (length L1)), w4, L1. split; [exact H4|]. split; [by left|]. split; [done|]. rewrite E4. split; [exact Hs3|].
  rewrite K4. simpl. split; [congruence|]. split; [congruence|]. apply Hdel. congruence.
Qed.

(** ** Loading what was saved *)

(** The kernel while the file [i] is read through [o]. *)
Definition rdk (o i : Z) (pos : nat) (k : kernel) : kernel := set_ofds (<[o:=Ofd (Some i) pos true false]> (ofds k)) k.

Section Reading.
Context (fd o i : Z) (data : list byte) (k : kernel).
Hypothesis Hk : willing k.
Hypothesis Hfd : fdtab k !! fd = Some o.
Hypothesis Hino : inodes k !! i = Some data.

Lemma read_all_ok pos n d rest : drop pos data = d ++ rest -> n = Z.of_nat (length d) ->
  read_all fd n (rdk o i pos k) = Ret (n, d) (rdk o i (pos + length d) k).
Proof.
  intros Hd ->. unfold read_all. change (sched (rdk o i pos k)) with (sched k). rewrite (proj1 Hk), Nat2Z.id. simpl length.
  destruct d as [|b d].
  { simpl. by rewrite Nat.add_0_r. }
  set (x := b :: d) in *.
  assert (Hr : sys_fread fd (length x) (rdk o i pos k) = Ret (inl x) (rdk o i (pos + length x) k)).
  { rewrite (fread_chunk fd o i pos false data); [|apply Hk|apply ofd_of_Some; split; [done|apply lookup_insert_eq]|done].
    rewrite Hd, take_app_length. unfold rdk. destruct k. simpl. by rewrite insert_insert_eq. }
  assert (Hx : read_all_loop 2 fd [] (length x) (rdk o i pos k) = read_all_loop 1 fd x (length x - length x) (rdk o i (pos + length x) k)).
  { unfold x at 1. cbn [read_all_loop length]. change (S (length d)) with (length x). by run Hr. }
  rewrite Hx, Nat.sub_diag. done.
Qed.

(** The process with the file at position [pos]. *)
Local Notation "'at_pos' pos w" := (set_kern (rdk o i pos k) w) (at level 10, pos at level 9, w at level 9).

Lemma onk_read_ok pos n d rest w : drop pos data = d ++ rest -> n = Z.of_nat (length d) ->
  exists pos', onk (read_all fd n) (at_pos pos w) = Ret (n, d) (at_pos pos' w) /\ drop pos' data = rest.
Proof.
  intros Hd Hn. exists (pos + length d)%nat. split.
  - rewrite (onk_Ret _ _ _ (at_pos pos w) (read_all_ok pos n d rest Hd Hn)). by rewrite set_kern_kern.
  - by rewrite <- drop_drop, Hd, drop_app_length.
Qed.

Lemma onk_malloc_ok pos w : onk sys_malloc (at_pos pos w) = Ret true (at_pos pos w).
Proof. apply malloc_ok. apply Hk. Qed.

Ltac read_next R :=
  match goal with |- context [(onk (read_all fd ?n) ≫= _) (set_kern (rdk o i ?p k) ?w)] =>
    let p' := fresh "p" in let H := fresh in let R' := fresh in
    destruct (onk_read_ok p n _ _ w R ltac:(by rewrite ?length_le_bytes)) as (p' & H & R');
    run H; clear H R; rename R' into R; cbn [fst snd]; rewrite ?Z.eqb_refl; cbn [negb] end.

Lemma load_entry_ok idx nb c L pos r rest w :
  idx_ok w idx nb c L -> drop pos data = rec_bytes r ++ rest -> storable r ->
  exists w' pos' e', load_entry idx fd (at_pos pos w) = Ret true (at_pos pos' w') /\ drop pos' data = rest /\
    ents w' = <[brk w:=e']> (ents w) /\ record_of e' = Some r /\ idx_ok w' idx nb (c + 1) (brk w :: L).
Proof.
  intros Hi Hd (S1 & S2 & S3 & S4 & S5 & S6 & S7). unfold rec_bytes in Hd. rewrite <- !app_assoc in Hd.
  assert (V : forall n z, 0 <= z < 256 ^ Z.of_nat n -> le_val (le_bytes n z) = z) by (intros n z Hz; rewrite le_val_bytes; by apply Z.mod_small).
  assert (Hloc : forall j n z, local j n (le_bytes n z) = le_bytes n z) by (intros j n z; unfold local; rewrite length_le_bytes, Nat.sub_diag; apply app_nil_r).
  destruct Hi as (I1 & I2 & I3 & b & I4 & I5 & I6 & I7). assert (Hi : idx_ok w idx nb c L) by (split; [done|]; eauto 10).
  unfold load_entry. read_next Hd. rewrite V by lia. rewrite (bind_Ret _ _ _ _ _ (onk_malloc_ok p w)). cbn [negb].
  read_next Hd. read_next Hd. rewrite V by lia. rewrite (bind_Ret _ _ _ _ _ (onk_malloc_ok p1 w)). cbn [negb]. read_next Hd.
  assert (Hb2 : bidxs (at_pos p2 w) !! idx = Some b) by done. run (rd_b_eq _ _ _ Hb2). rewrite !c_str_id by done.
  run (entry_create_ok (rc_uri r) (b_backend_id b) (rc_path r) (at_pos p2 w) (proj2 Hk)). simpl (brk (at_pos p2 w)).
  rewrite NULL_eqb by (unfold NULL; lia). match goal with |- context [(get ≫= _) ?x] => rewrite (bind_Ret get _ _ x x eq_refl) end.
  set (e := new_entry _ _ _). set (w3 := set_brk _ _). change w3 with (at_pos p2 w3). read_next Hd. read_next Hd. read_next Hd.
  rewrite !Hloc, !V by lia.
  destruct (load_insert idx nb c L w (rdk o i p5 k) e (rc_size r) (rc_mtime r) (rc_flags r) Hi eq_refl) as (w' & e' & Hins & He & Hr & Hkw & Hok).
  assert (Hw' : at_pos p5 w' = w') by (by rewrite <- Hkw, set_kern_id).
  exists w', p5, e'. rewrite Hw'. split; [exact Hins|]. split; [done|]. split; [exact He|]. split; [|done].
  rewrite Hr. by destruct r.
Qed.

Lemma load_loop_ok idx nb rs : forall fuel j loaded c L pos rest w,
  idx_ok w idx nb c L -> drop pos data = concat (rec_bytes <$> rs) ++ rest -> Forall storable rs -> (length rs < fuel)%nat ->
  0 <= loaded -> loaded + Z.of_nat (length rs) < 2 ^ 31 ->
  exists w' pos' L1, load_loop fuel idx fd (j + Z.of_nat (length rs)) j loaded (at_pos pos w) = Ret (loaded + Z.of_nat (length rs)) (at_pos pos' w') /\
    ents w ⊆ ents w' /\ Forall2 (fun p r => record_at (ents w') p = Some r) L1 (reverse rs) /\
    idx_ok w' idx nb (c + Z.of_nat (length rs)) (L1 ++ L).
Proof.
  induction rs as [|r rs IH]; intros fuel j loaded c L pos rest w Hi Hd Hst Hf Hl0 Hl; (destruct fuel as [|fuel]; [lia|]); cbn [load_loop].
  - simpl length. rewrite !Z.add_0_r, Z.leb_refl. exists w, pos, []. split; [done|]. split; [done|]. split; [constructor|done].
  - apply list.Forall_cons in Hst as [Hr Hst]. change (length (r :: rs)) with (S (length rs)) in *. rewrite (proj2 (Z.leb_gt (j + Z.of_nat (S (length rs))) j)) by lia.
    rewrite fmap_cons in Hd. cbn [concat] in Hd. rewrite <- app_assoc in Hd.
    destruct (load_entry_ok idx nb c L pos r _ w Hi Hd Hr) as (w1 & p1 & e1 & H1 & Hd1 & E1 & R1 & Hi1). run H1. rewrite s32_small by lia.
    destruct (IH fuel (j + 1) (loaded + 1) (c + 1) (brk w :: L) p1 rest w1 Hi1 Hd1 Hst) as (w2 & p2 & L1 & H2 & S2 & R2 & Hi2); [lia|lia|lia|].
    assert (Hfresh : ents w !! brk w = None).
    { destruct Hi as (_ & _ & I3 & _). destruct (ents w !! brk w) as [x|] eqn:E; [|done]. apply I3 in E. simpl in E. lia. }
    exists w2, p2, (L1 ++ [brk w]). rewrite Nat2Z.inj_succ.
    replace (j + Z.succ (Z.of_nat (length rs))) with (j + 1 + Z.of_nat (length rs)) by lia. split; [rewrite H2; f_equal; lia|].
    split; [transitivity (ents w1); [rewrite E1; by apply insert_subseteq|exact S2]|]. split.
    + rewrite reverse_cons. apply Forall2_app; [done|]. constructor; [|constructor]. unfold record_at.
      rewrite (lookup_weaken (ents w1) (ents w2) (brk w) e1); [exact R1|rewrite E1; apply lookup_insert_eq|done].
    + rewrite <- app_assoc. simpl. by replace (c + Z.succ (Z.of_nat (length rs))) with (c + 1 + Z.of_nat (length rs)) by lia.
Qed.
End Reading.

Lemma rec_bytes_pos r : (0 < length (rec_bytes r))%nat.
Proof. unfold rec_bytes. rewrite length_app, length_le_bytes. lia. Qed.

Lemma records_length rs : (length rs <= length (concat (rec_bytes <$> rs)))%nat.
Proof.
  induction rs as [|r rs IH]; simpl; [lia|]. rewrite length_app. pose proof (rec_bytes_pos r). unfold fmap in *. lia.
Qed.

Lemma index_load_ok idx w b nb c L file d i junk bid nb0 rs :
  idx_ok w idx nb c L -> bidxs w !! idx = Some b -> persist_enabled b = true -> index_file_path b = Some file ->
  willing (kern w) -> resolve (kern w) file = Some d -> d <> [] -> names (kern w) !! d = Some (File i) ->
  inodes (kern w) !! i = Some (index_bytes junk bid nb0 rs) -> Forall storable rs -> Z.of_nat (length rs) < 2 ^ 31 ->
  exists w' L1, backend_index_load idx w = Ret (Z.of_nat (length rs)) w' /\
    Forall2 (fun p r => record_at (ents w') p = Some r) L1 (reverse rs) /\ idx_ok w' idx nb (c + Z.of_nat (length rs)) (L1 ++ L) /\
    ents w ⊆ ents w'.
Proof.
  intros Hi Hb Hp Hfile Hw Hres Hne Hnm Hino Hst Hlen. set (data := index_bytes junk bid nb0 rs) in *.
  pose proof (open_existing file O_RDONLY d i (kern w) Hw Hres Hne Hnm) as Hopen. cbn [fst snd O_RDONLY] in Hopen.
  set (fd := lowest_free (fdtab (kern w))) in *. set (o := fresh_id (ofds (kern w))). set (k0 := with_ofd _ _) in Hopen.
  assert (Hf : fdtab k0 !! fd = Some o) by apply lookup_insert_eq.
  assert (Hk0 : k0 = rdk o i 0 k0) by (unfold rdk; rewrite insert_id by apply lookup_insert_eq; by destruct k0).
  assert (Hw0 : willing k0) by exact Hw. assert (Hi0 : inodes k0 !! i = Some data) by exact Hino. clearbody k0.
  unfold backend_index_load. rewrite NULL_eqb by apply Hi. run (rd_b_eq _ _ _ Hb). rewrite Hp, Hfile. cbn [negb open_path].
  run (onk_Ret _ _ _ _ Hopen). rewrite (proj2 (Z.ltb_ge fd 0) (lowest_free_nonneg _)). rewrite Hk0.
  set (hd := index_header junk bid (Z.of_nat (length rs)) nb0).
  destruct (onk_read_ok fd o i data k0 Hw0 Hf Hi0 0 32 hd (concat (rec_bytes <$> rs)) w) as (p1 & H1 & Hd1); [done|unfold hd; by rewrite length_index_header|].
  run H1. cbn [fst snd]. rewrite Z.eqb_refl. cbn [negb]. rewrite bool_decide_eq_true_2 by reflexivity. cbn [negb].
  change (take 2 (drop 6 hd)) with (le_bytes 2 INDEX_VERSION). change (take 8 (drop 16 hd)) with (le_bytes 8 (Z.of_nat (length rs))).
  rewrite !le_val_bytes. rewrite (Z.mod_small INDEX_VERSION) by (unfold INDEX_VERSION; lia). rewrite Z.eqb_refl. cbn [negb].
  rewrite Z.mod_small by lia. match goal with |- context [(get ≫= _) ?x] => rewrite (bind_Ret get _ _ x x eq_refl) end.
  assert (Hfl : file_len (kern (set_kern (rdk o i p1 k0) w)) fd = length data).
  { unfold file_len. simpl kern. replace (ofd_of (rdk o i p1 k0) fd) with (Some (o, Ofd (Some i) p1 true false)).
    - simpl. by rewrite Hi0.
    - symmetry. apply ofd_of_Some. split; [done|apply lookup_insert_eq]. }
  rewrite Hfl. assert (Hd1' : drop p1 data = concat (rec_bytes <$> rs) ++ []) by (by rewrite app_nil_r).
  assert (Hfuel : (length rs < S (length data))%nat) by (unfold data, index_bytes; rewrite length_app; pose proof (records_length rs); lia).
  destruct (load_loop_ok fd o i data k0 Hw0 Hf Hi0 idx nb rs (S (length data)) 0 0 c L p1 [] w Hi Hd1' Hst Hfuel ltac:(lia) Hlen)
    as (w2 & p2 & L1 & H2 & S2 & R2 & Hi2). rewrite Z.add_0_l in H2. run H2.
  destruct (load_close idx fd nb _ _ (set_kern (rdk o i p2 k0) w2) (0 + Z.of_nat (length rs)) Hi2) as (w3 & H3 & E3 & _ & Hi3).
  exists w3, L1. split; [exact H3|]. rewrite E3. done.
Qed.

(** ** Looking up *)

(** The record that [backend_index_lookup] finds. *)
Definition found (idx : ptr) (u : list byte) (w : world) : option record :=
  match backend_index_lookup idx (Some u) w with
  | Ret p w' => if p =? NULL then None else record_at (ents w') p
  | _ => None
  end.

(** The first record for [u]. *)
Fixpoint rec_find (u : list byte) (rs : list record) : option record :=
  match rs with
  | [] => None
  | r :: rs => if decide (rc_uri r = u) then Some r else rec_find u rs
  end.

Lemma record_uri h p r : record_at h p = Some r -> uri <$> h !! p = Some (rc_uri r).
Proof.
  unfold record_at, record_of. destruct (h !! p) as [e|]; simpl; [|done]. destruct (backend_path e); simpl; [|done]. by intros [= <-].
Qed.

Lemma find_records h L rs u : Forall2 (fun p r => record_at h p = Some r) L rs -> find_uri h L u ≫= record_at h = rec_find u rs.
Proof.
  induction 1 as [|p r L rs Hr _ IH]; simpl; [done|]. rewrite (record_uri _ _ _ Hr). repeat case_decide; simplify_eq; try done.
Qed.

Lemma found_ok idx nb c L rs u w : idx_ok w idx nb c L -> Forall2 (fun p r => record_at (ents w) p = Some r) L rs ->
  found idx u w = rec_find u rs.
Proof.
  intros (I1 & _ & _ & b & I4 & I5 & _ & I7) Hrs. unfold found, backend_index_lookup. rewrite NULL_eqb by done.
  run (upd_b_eq idx (fun b => set_b_stats (u64 (b_lookups b + 1)) (b_hits b) b) b w I4). set (b1 := set_b_stats _ _ b). set (w1 := set_bidxs _ w).
  assert (Hb1 : bidxs w1 !! idx = Some b1) by apply lookup_insert_eq. run (rd_b_eq _ _ _ Hb1). subst nb.
  destruct (bucket_chain _ _ _ _ u I7) as (Hbk & Hc & Hh & Hfu). simpl (b_buckets b1). simpl (b_num_buckets b1). rewrite Hbk, deref_bind.
  run (find_in_ok _ _ u w1 Hc Hh). simpl (ents w1). rewrite Hfu, <- (find_records _ _ _ u Hrs).
  destruct (find_uri (ents w) L u) as [p|] eqn:E; simpl default; [|done]. apply find_uri_split in E as (l1 & l2 & -> & _).
  assert (Hp : p <> NULL) by (apply (proj1 (list.Forall_forall _ _) (tr_hashed _ _ _ _ I7) p); apply elem_of_app; right; left).
  change (default NULL (Some p)) with p. rewrite (NULL_eqb p Hp). run (upd_b_eq idx (fun b => set_b_stats (b_lookups b) (u64 (b_hits b + 1)) b) b1 w1 Hb1).
  unfold mret, M_ret. by rewrite (NULL_eqb p Hp).
Qed.

Lemma rec_find_perm u rs rs' : rs ≡ₚ rs' -> NoDup (rc_uri <$> rs) -> rec_find u rs = rec_find u rs'.
Proof.
  induction 1 as [|r l l' Hp IH|r1 r2 l|l1 l2 l3 H1 IH1 H2 IH2]; intros Hnd; simpl; [done| | |].
  - apply list.NoDup_cons in Hnd as [_ Hnd]. case_decide; [done|]. by apply IH.
  - apply list.NoDup_cons in Hnd as [Hn _]. repeat case_decide; try done. exfalso. apply Hn. apply elem_of_cons. left. congruence.
  - rewrite IH1 by done. apply IH2. by rewrite <- H1.
Qed.

(** ** Saving and loading *)

(** The index [idx] is to be saved in [file], in a directory that exists: its
    entries fit the format and no two have the same URI. *)
Definition saveable (w : world) (idx : ptr) (file : list byte) (n : nat) : Prop :=
  willing (kern w) /\ fs_ok (kern w) /\ idx <> NULL /\ 0 < brk w /\ map_Forall (fun p _ => p < brk w) (ents w) /\ Z.of_nat n < 2 ^ 31 /\
  exists b L d t rs, bidxs w !! idx = Some b /\ persist_enabled b = true /\ index_file_path b = Some file /\ index_place (kern w) file d t /\
    table_rep (ents w) (b_buckets b) (b_num_buckets b) L /\ b_num_entries b = Z.of_nat n /\ length L = n /\
    records (ents w) L rs /\ NoDup (rc_uri <$> rs).

(** A process that finds the files of [w]. *)
Definition restarted (w w2 : world) : Prop :=
  names (kern w2) = names (kern w) /\ inodes (kern w2) = inodes (kern w) /\ cwd (kern w2) = cwd (kern w) /\ willing (kern w2) /\
  0 < brk w2 /\ map_Forall (fun p _ => p < brk w2) (ents w2).

Definition reopen (bid : Z) (file : list byte) (nb : Z) : M world (ptr * Z) :=
  idx ← backend_index_create bid (Some file) nb;
  n ← backend_index_load idx;
  mret (idx, n).

Lemma backend_create_ok bid file nb w : k_oom (kern w) = [] -> 0 < brk w -> map_Forall (fun p _ => p < brk w) (ents w) -> 1 <= nb <= 2 ^ 63 ->
  exists w' b, backend_index_create bid (Some file) nb w = Ret (brk w) w' /\ kern w' = kern w /\ bidxs w' !! brk w = Some b /\
    persist_enabled b = true /\ index_file_path b = Some file /\ idx_ok w' (brk w) (index_next_power_of_2 nb) 0 [].
Proof.
  intros Hm Hb Hbrk Hnb. destruct (next_pow2_spec nb Hnb) as (j & Hj & Heq & _). unfold backend_index_create.
  run (malloc_ok w Hm). cbn [negb]. rewrite bind_assoc. run (malloc_ok w Hm). rewrite bind_ret_l. run (malloc_ok w Hm). cbn [negb].
  eexists _, _. split; [reflexivity|]. split; [done|]. split; [apply lookup_insert_eq|]. split; [done|]. split; [done|].
  split; [unfold NULL; lia|]. split; [simpl; lia|]. split; [eapply map_Forall_impl; [exact Hbrk|]; simpl; lia|].
  eexists. split; [apply lookup_insert_eq|]. split; [done|]. split; [done|]. apply table_rep_empty. by exists j.
Qed.

Lemma records_perm h L L' rs : records h L rs -> L' ≡ₚ L -> exists rs', records h L' rs' /\ rs' ≡ₚ rs.
Proof.
  intros Hr Hp. revert rs Hr. induction Hp as [|p l l' _ IH|p q l|l1 l2 l3 _ IH1 _ IH2]; intros rs Hr.
  - exists rs. done.
  - apply Forall2_cons_inv_l in Hr as (r & rs' & H1 & H2 & ->). destruct (IH rs' H2) as (x & X1 & X2). exists (r :: x). split; [by constructor|by f_equiv].
  - apply Forall2_cons_inv_l in Hr as (r & rs' & H1 & H2 & ->). apply Forall2_cons_inv_l in H2 as (r' & rs'' & H2 & H3 & ->).
    exists (r' :: r :: rs''). split; [by constructor; [|constructor]|]. apply Permutation_swap.
  - destruct (IH2 rs Hr) as (x & X1 & X2). destruct (IH1 x X1) as (y & Y1 & Y2). exists y. split; [done|]. by etrans.
Qed.

Lemma records_at h L rs : records h L rs -> Forall2 (fun p r => record_at h p = Some r) L rs.
Proof. apply Forall2_impl. by intros p r [H _]. Qed.

Lemma records_storable h L rs : records h L rs -> Forall storable rs.
Proof. induction 1 as [|p r L rs [_ H] _ IH]; by constructor. Qed.

(** C17: saving and loading round-trips.  For a well-formed index with fewer than 2^31 entries, no
    two of them for the same URI, whose URIs and paths are shorter than 65536 bytes
    and whose directory exists, on a kernel that refuses no call and writes
    completely: saving succeeds, keeps the
    entries and the descriptors and marks the index as clean; and when a process starts again on the same files, creates an index
    with any number of buckets for that file and loads it, it gets the same number
    of entries, and every lookup finds what a lookup before saving found: the same
    path, size, modification time and flags, or nothing.  With duplicates or failing writes it
    does not ([reload_revives_old_entry], [failed_writes_replace_index]). *)
Theorem index_save_load_roundtrip w idx file n :
  saveable w idx file n ->
  exists w', backend_index_save idx w = Ret 0 w' /\ ents w' = ents w /\ fdtab (kern w') = fdtab (kern w) /\
    (dirty <$> bidxs w' !! idx) = Some false /\
    forall w2 bid nb, restarted w' w2 -> 1 <= nb <= 2 ^ 63 ->
      exists idx2 w3, reopen bid file nb w2 = Ret (idx2, Z.of_nat n) w3 /\ forall u, found idx2 u w3 = found idx u w.
Proof.
  intros (W1 & W2 & W3 & W4 & W5 & W6 & b & L & d & t & rs & B1 & B2 & B3 & B4 & B5 & B6 & B7 & B8 & B9).
  destruct (records_perm _ _ (file_order (ents w) (b_buckets b) (b_num_buckets b) L) _ B8 (file_order_perm _ _ _ _ B5)) as (fs & F1 & F2).
  assert (Hn : length fs = n) by (rewrite F2, <- B7; symmetry; eapply list.Forall2_length; exact B8).
  destruct (save_ok idx w b file d t L fs W1 W2 W3 B1 B2 B3 B4 B5) as (w' & Hsave & [[S1 _] S2 S3 [S4 S5] (i & S6 & S7)]); [by rewrite B6, B7|done|].
  exists w'. split; [done|]. split; [done|]. split; [done|]. split; [by rewrite S2, lookup_insert_eq|].
  intros w2 bid nb (R1 & R2 & R3 & R4 & R5 & R6) Hnb.
  destruct (backend_create_ok bid file nb w2 (proj2 R4) R5 R6 Hnb) as (w3 & b3 & Hc & K3 & C1 & C2 & C3 & Hok).
  assert (Hres : resolve (kern w3) file = Some d).
  { rewrite K3, <- S4. apply resolve_names; [|done]. intros x. unfold is_dir. by rewrite R1. }
  destruct (index_load_ok (brk w2) w3 b3 _ 0 [] file d i (w_junk w) (b_backend_id b) (b_num_buckets b) fs Hok C1 C2 C3) as (w4 & L1 & Hl & R & Hok4 & _);
    [by rewrite K3|done|done|by rewrite K3, R1|by rewrite K3, R2|by eapply records_storable|by rewrite Hn|].
  exists (brk w2), w4. unfold reopen. run Hc. run Hl. split; [by rewrite Hn|]. intros u.
  assert (Hok0 : idx_ok w idx (b_num_buckets b) (Z.of_nat n) L).
  { split; [done|]. split; [done|]. split; [done|]. exists b. rewrite u64_small by lia. done. }
  rewrite (found_ok idx _ _ L rs u w Hok0 (records_at _ _ _ B8)). rewrite app_nil_r in Hok4. rewrite (found_ok _ _ _ L1 (reverse fs) u w4 Hok4 R).
  symmetry. apply rec_find_perm; [|done]. by rewrite reverse_Permutation.
Qed.

(** ** Concrete indexes *)

Module IndexFileWitness.

Definition disk : kernel := Kernel {[ [bs "d"] := Dir ]} ∅ ∅ ∅ [] [] 0 [] [].
Definition process (k : kernel) : world := World k ∅ ∅ ∅ 1 x2a.

(** A process that is started again on the files of [w]. *)
Definition restart (w : world) : world :=
  process (Kernel (names (kern w)) (inodes (kern w)) ∅ ∅ [] [] 0 [] (cwd (kern w))).

Definition add (idx : ptr) (u path : list byte) (sz mt fl : Z) : M world () :=
  p ← index_entry_create u 1 path;
  _ ← upd_entry p (set_meta sz mt fl);
  _ ← backend_index_insert idx p;
  index_entry_put p.

Definition file : list byte := bs "/d/index".
Definition world_of {A} (x : outcome world A) : world := match x with Ret _ w => w | _ => process disk end.

(** Two entries in one bucket. *)
Definition built : world :=
  world_of ((idx ← backend_index_create 1 (Some file) 1; _ ← add idx (bs "/a") (bs "/m/a") 5 7 2; add idx (bs "/b") (bs "/m/b") 0 9 3) (process disk)).

Definition built_records : list record := [Rec (bs "/b") (bs "/m/b") 0 9 3; Rec (bs "/a") (bs "/m/a") 5 7 2].

Lemma built_saveable : saveable built 1 file 2.
Proof.
  assert (Hb : exists b, bidxs built !! 1 = Some b /\ persist_enabled b = true /\ index_file_path b = Some file /\
    b_num_buckets b = 1 /\ b_num_entries b = 2 /\ b_buckets b = {[0 := 3]}) by (vm_compute; eexists; repeat split).
  assert (He : ents built = {[ 2 := Entry (bs "/a") (index_hash_string (bs "/a")) 1 (Some (bs "/m/a")) (-1) 0 0 5 7 2 0 0 (S754_zero false) 1 NULL;
    3 := Entry (bs "/b") (index_hash_string (bs "/b")) 1 (Some (bs "/m/b")) (-1) 0 0 0 9 3 0 0 (S754_zero false) 1 2 ]}) by (vm_compute; reflexivity).
  assert (Hk : kern built = disk) by (vm_compute; reflexivity). assert (Hbrk : brk built = 4) by (vm_compute; reflexivity).
  revert Hb He Hk Hbrk. generalize built. intros w (b & B1 & B2 & B3 & B4 & B5 & B6) He Hk Hbrk. unfold saveable. rewrite Hk, He, Hbrk.
  split; [done|]. split.
  { split; unfold disk; simpl; try (intros *; by rewrite lookup_empty). 
    - intros d1 d2 i [_ H]%lookup_singleton_Some. done.
    - intros d i [_ H]%lookup_singleton_Some. done. }
  split; [done|]. split; [lia|]. split; [apply (bool_decide_unpack _); vm_compute; exact I|]. split; [lia|].
  exists b, [3; 2], [bs "index"; bs "d"], [bs "index.tmp"; bs "d"], built_records. rewrite B4, B5, B6. do 3 (split; [done|]). split.
  { split; [split; [vm_compute; reflexivity|]; split; [done|]; vm_compute; discriminate|split; [vm_compute; reflexivity|]; split; [done|]; vm_compute; discriminate|done]. }
  split.
  { split; [exists 0; lia|apply (bool_decide_unpack _); vm_compute; exact I| |].
    - repeat constructor; try done; eexists; (split; [vm_compute; reflexivity|reflexivity]).
    - intros i Hi. replace i with 0 by lia. apply (chain_cons _ 3 (Entry (bs "/b") (index_hash_string (bs "/b")) 1 (Some (bs "/m/b")) (-1) 0 0 0 9 3 0 0 (S754_zero false) 1 2));
        [done|reflexivity|]. apply (chain_cons _ 2 (Entry (bs "/a") (index_hash_string (bs "/a")) 1 (Some (bs "/m/a")) (-1) 0 0 5 7 2 0 0 (S754_zero false) 1 NULL));
        [done|reflexivity|]. constructor. }
  split; [done|]. split; [done|]. split.
  - repeat constructor; try (vm_compute; reflexivity); apply (bool_decide_unpack _); vm_compute; exact I.
  - apply (bool_decide_unpack _). vm_compute. exact I.
Qed.

Lemma index_save_load_roundtrip_witness :
  exists w' idx2 w3, backend_index_save 1 built = Ret 0 w' /\ reopen 1 file 8 (restart w') = Ret (idx2, 2) w3 /\
    found idx2 (bs "/a") w3 = Some (Rec (bs "/a") (bs "/m/a") 5 7 2) /\ found idx2 (bs "/c") w3 = None.
Proof.
  destruct (index_save_load_roundtrip built 1 file 2 built_saveable) as (w' & Hs & _ & _ & _ & Hl).
  destruct (Hl (restart w') 1 8) as (idx2 & w3 & Hr & Hf); [repeat split; apply map_Forall_empty|lia|].
  exists w', idx2, w3. split; [exact Hs|]. split; [exact Hr|]. rewrite !Hf. split; vm_compute; reflexivity.
Defined.

(** A file with a valid header that promises 2^64 - 1 entries and ends in the middle
    of the first. *)
Definition hostile : world :=
  let k := Kernel {[ [bs "d"] := Dir; [bs "index"; bs "d"] := File 7 ]}
    {[ 7 := index_header x00 1 (2 ^ 64 - 1) 1 ++ le_bytes 2 400 ++ bs "/a" ]} ∅ ∅ [IoPartial 0; IoPartial 3; IoEintr; IoPartial 40] [] 0 [] [] in
  world_of (backend_index_create 1 (Some file) 1 (process k)).

Lemma index_load_total_witness : loaded_onto 1 1 0 [] hostile (backend_index_load 1 hostile).
Proof.
  apply (index_load_total 1 hostile 1 0 []).
  - split; [done|]. split; [vm_compute; reflexivity|]. split; [vm_compute; done|]. eexists. split; [vm_compute; reflexivity|].
    split; [reflexivity|]. split; [reflexivity|]. apply table_rep_empty. exists 0. lia.
  - apply map_Forall_singleton. vm_compute. reflexivity.
Defined.

(** ** Where the file loses data *)

Definition outcomes {A} (x : outcome world A) : option A := match x with Ret a _ => Some a | _ => None end.

(** Save, start again and load. *)
Definition save_and_reload (sch : list io_event) (w : world) : option (Z * (ptr * Z)) :=
  match backend_index_save 1 (set_kern (set_sched sch (kern w)) w) with
  | Ret rc w' => (fun r => (rc, r)) <$> outcomes (reopen 1 file 8 (restart w'))
  | _ => None
  end.

(** The writes of the entries are not checked: when they fail (a full disk, say)
    [backend_index_save] returns success and replaces the previous index by a file
    without them, and the next load finds nothing. *)
Theorem failed_writes_replace_index :
  save_and_reload (IoPartial 0 :: IoPartial 32 :: repeat IoFail 14) built = Some (0, (1, 0)).
Proof. vm_compute. reflexivity. Qed.

(** [backend_index_insert] accepts a URI that is already there, and a lookup finds
    the newer entry; loading inserts in the order of the file, which is newest first, so
    after a restart the older entry is found. *)
Definition with_duplicate : world :=
  world_of ((idx ← backend_index_create 1 (Some file) 1; _ ← add idx (bs "/a") (bs "/m/old") 1 1 2; add idx (bs "/a") (bs "/m/new") 2 2 2) (process disk)).

Theorem reload_revives_old_entry :
  rc_path <$> found 1 (bs "/a") with_duplicate = Some (bs "/m/new") /\
  match backend_index_save 1 with_duplicate with
  | Ret _ w' => match reopen 1 file 1 (restart w') with Ret (idx2, _) w3 => rc_path <$> found idx2 (bs "/a") w3 | _ => None end
  | _ => None
  end = Some (bs "/m/old").
Proof. split; vm_compute; reflexivity. Qed.

(** A loaded entry keeps the reference of its creator besides that of the index:
    destroying the index frees none of them. *)
Theorem loaded_entries_leak :
  match backend_index_save 1 built with
  | Ret _ w' => match (r ← reopen 1 file 1; backend_index_destroy r.1) (restart w') with Ret _ w3 => Some (size (ents w3)) | _ => None end
  | _ => None
  end = Some 2%nat /\
  match backend_index_destroy 1 built with Ret _ w3 => Some (size (ents w3)) | _ => None end = Some 0%nat.
Proof. split; vm_compute; reflexivity. Qed.

End IndexFileWitness.
