(* ===== verification/Backend.v ===== *)
(** * Backend: the backend manager of lib/backend

    [backend.c] and the types of [backend.h]: registration of the storage
    backends and their roles, object creation, lookup, deletion and migration
    between backends, directory scans and the statistics.  A [backend_info_t *]
    is the backend's number in the manager's array; the manager is the optional
    [bm] of the state ([None]: a NULL manager).  Locks are not represented: the
    functions run one at a time. *)

From S2P Require Import Prelude Socket Kernel Index.

(** ** Types and constants (backend.h) *)

Inductive backend_type_t :=
| BACKEND_TYPE_MEMORY | BACKEND_TYPE_NVME | BACKEND_TYPE_SSD | BACKEND_TYPE_HDD | BACKEND_TYPE_NETWORK.

#[global] Instance backend_type_eq_dec : EqDecision backend_type_t.
Proof. solve_decision. Defined.

Definition BACKEND_FLAG_EPHEMERAL_ONLY : Z := 1.
Definition BACKEND_FLAG_PERSISTENT : Z := 2.
Definition BACKEND_FLAG_ENABLED : Z := 4.
Definition BACKEND_FLAG_READONLY : Z := 8.
Definition BACKEND_FLAG_MIGRATION_SRC : Z := 16.
Definition BACKEND_FLAG_MIGRATION_DST : Z := 32.

Inductive migration_policy_t :=
| MIGRATION_POLICY_NONE | MIGRATION_POLICY_HOTNESS | MIGRATION_POLICY_CAPACITY | MIGRATION_POLICY_HYBRID.

Record backend_info := BackendInfo {
  bk_id : Z;
  bk_type : backend_type_t;
  mount_path : option (list byte);      (* [None] when [strdup] failed *)
  bk_name : option (list byte);
  bk_flags : Z;
  perf_factor : spec_float;
  expected_latency_us : Z;
  capacity_bytes : Z;
  used_bytes : Z;
  object_count : Z;
  high_watermark : spec_float;
  low_watermark : spec_float;
  migration_policy : migration_policy_t;
  hotness_threshold : spec_float;
  hotness_halflife_us : Z;
  bk_index : ptr;
  reads : Z;
  writes : Z;
  migrations_in : Z;
  migrations_out : Z
}.

Record backend_manager := Manager {
  bm_global_index : ptr;
  backends : list backend_info;          (* [num_backends] is its length *)
  max_backends : Z;
  default_backend_id : Z;
  ephemeral_backend_id : Z;
  cache_backend_id : Z;
  cache_running : bool;
  cache_check_interval_us : Z;
  cache_threshold : spec_float;
  total_objects : Z;
  total_bytes : Z
}.

Record object_create_req_t := CreateReq {
  cr_uri : option (list byte);
  cr_backend_id : Z;
  cr_ephemeral : bool;
  cr_size_hint : Z;
  cr_flags : Z
}.

Record object_metadata_t := ObjectMetadata {
  om_uri : option (list byte);
  om_backend_id : Z;
  om_fs_path : option (list byte);
  om_size_bytes : Z;
  om_mtime : Z;
  om_flags : Z;
  om_hotness : spec_float;
  om_access_count : Z
}.

(** The process with its manager. *)
Record bstate := BState { wd : world; bm : option backend_manager }.

Definition onw {A} (m : M world A) : M bstate A := fun s =>
  match m (wd s) with
  | Ret a w => Ret a (BState w (bm s))
  | Blocked => Blocked
  | Fault => Fault
  end.

Definition get_bm : M bstate (option backend_manager) := fun s => Ret (bm s) s.
Definition upd_bm (f : backend_manager -> backend_manager) : M bstate () := fun s =>
  match bm s with
  | Some m => Ret () (BState (wd s) (Some (f m)))
  | None => Fault
  end.

(** Field updates. *)
Definition set_backends (l : list backend_info) (m : backend_manager) : backend_manager :=
  Manager (bm_global_index m) l (max_backends m) (default_backend_id m) (ephemeral_backend_id m) (cache_backend_id m)
    (cache_running m) (cache_check_interval_us m) (cache_threshold m) (total_objects m) (total_bytes m).
Definition set_roles (d e c : Z) (m : backend_manager) : backend_manager :=
  Manager (bm_global_index m) (backends m) (max_backends m) d e c
    (cache_running m) (cache_check_interval_us m) (cache_threshold m) (total_objects m) (total_bytes m).
Definition set_caching (r : bool) (i : Z) (t : spec_float) (m : backend_manager) : backend_manager :=
  Manager (bm_global_index m) (backends m) (max_backends m) (default_backend_id m) (ephemeral_backend_id m)
    (cache_backend_id m) r i t (total_objects m) (total_bytes m).
Definition set_totals (o b : Z) (m : backend_manager) : backend_manager :=
  Manager (bm_global_index m) (backends m) (max_backends m) (default_backend_id m) (ephemeral_backend_id m)
    (cache_backend_id m) (cache_running m) (cache_check_interval_us m) (cache_threshold m) o b.

Definition set_bk_flags (f : Z) (b : backend_info) : backend_info :=
  BackendInfo (bk_id b) (bk_type b) (mount_path b) (bk_name b) f (perf_factor b) (expected_latency_us b)
    (capacity_bytes b) (used_bytes b) (object_count b) (high_watermark b) (low_watermark b) (migration_policy b)
    (hotness_threshold b) (hotness_halflife_us b) (bk_index b) (reads b) (writes b) (migrations_in b) (migrations_out b).
Definition set_usage (used count : Z) (b : backend_info) : backend_info :=
  BackendInfo (bk_id b) (bk_type b) (mount_path b) (bk_name b) (bk_flags b) (perf_factor b) (expected_latency_us b)
    (capacity_bytes b) used count (high_watermark b) (low_watermark b) (migration_policy b)
    (hotness_threshold b) (hotness_halflife_us b) (bk_index b) (reads b) (writes b) (migrations_in b) (migrations_out b).
Definition set_marks (h l : spec_float) (b : backend_info) : backend_info :=
  BackendInfo (bk_id b) (bk_type b) (mount_path b) (bk_name b) (bk_flags b) (perf_factor b) (expected_latency_us b)
    (capacity_bytes b) (used_bytes b) (object_count b) h l (migration_policy b)
    (hotness_threshold b) (hotness_halflife_us b) (bk_index b) (reads b) (writes b) (migrations_in b) (migrations_out b).
Definition set_policy (p : migration_policy_t) (t : spec_float) (b : backend_info) : backend_info :=
  BackendInfo (bk_id b) (bk_type b) (mount_path b) (bk_name b) (bk_flags b) (perf_factor b) (expected_latency_us b)
    (capacity_bytes b) (used_bytes b) (object_count b) (high_watermark b) (low_watermark b) p
    t (hotness_halflife_us b) (bk_index b) (reads b) (writes b) (migrations_in b) (migrations_out b).
Definition set_ops (r w i o : Z) (b : backend_info) : backend_info :=
  BackendInfo (bk_id b) (bk_type b) (mount_path b) (bk_name b) (bk_flags b) (perf_factor b) (expected_latency_us b)
    (capacity_bytes b) (used_bytes b) (object_count b) (high_watermark b) (low_watermark b) (migration_policy b)
    (hotness_threshold b) (hotness_halflife_us b) (bk_index b) r w i o.

(** Update of the backend a [backend_info_t *] points to. *)
Definition upd_backend (i : nat) (f : backend_info -> backend_info) : M bstate () :=
  upd_bm (fun m => set_backends (alter f i (backends m)) m).

Definition has_flag (flags bit : Z) : bool := negb (Z.land flags bit =? 0).

(** ** Helpers *)

(** [mkdir] of every prefix that ends before a slash; [done] is the part of
    [tmp] before the cursor. *)
Fixpoint mkdir_prefixes (done rest : list byte) : M kernel bool :=
  match rest with
  | [] => mret true
  | b :: rest =>
      if decide (b = "/"%byte) then
        r ← sys_mkdir done;
        match r with
        | MkError => mret false
        | _ => mkdir_prefixes (done ++ [b]) rest
        end
      else mkdir_prefixes (done ++ [b]) rest
  end.

Definition mkdir_p (path : list byte) : M kernel Z :=
  let tmp := snprintf_text 1024 path in
  match list.last tmp with
  | None => fault          (* [tmp[len - 1]] with [len = 0] *)
  | Some c =>
      let tmp := if decide (c = "/"%byte) then take (length tmp - 1) tmp else tmp in
      ok ← mkdir_prefixes (take 1 tmp) (drop 1 tmp);
      if negb ok then mret (-1)
      else
        r ← sys_mkdir tmp;
        match r with MkError => mret (-1) | _ => mret 0 end
  end.

(** The part before the last slash ([strrchr]), if there is one. *)
Fixpoint before_last_slash (p : list byte) : option (list byte) :=
  match p with
  | [] => None
  | b :: p =>
      match before_last_slash p with
      | Some q => Some (b :: q)
      | None => if decide (b = "/"%byte) then Some [] else None
      end
  end.

(** ** Backend types *)

Definition backend_type_name (type : backend_type_t) : string :=
  match type with
  | BACKEND_TYPE_MEMORY => "memory"
  | BACKEND_TYPE_NVME => "nvme"
  | BACKEND_TYPE_SSD => "ssd"
  | BACKEND_TYPE_HDD => "hdd"
  | BACKEND_TYPE_NETWORK => "network"
  end.

Definition backend_default_perf_factor (type : backend_type_t) : spec_float :=
  match type with
  | BACKEND_TYPE_MEMORY => dbl 1
  | BACKEND_TYPE_NVME => dbl 3
  | BACKEND_TYPE_SSD => dlit 75 10
  | BACKEND_TYPE_HDD => dbl 80
  | BACKEND_TYPE_NETWORK => dbl 500
  end.

(** [(uint64_t)x] of a non-negative [double]. *)
Definition dtrunc (x : spec_float) : Z :=
  match x with
  | S754_finite false m e => if 0 <=? e then Z.pos m * 2 ^ e else Z.pos m / 2 ^ (- e)
  | _ => 0
  end.

Definition backend_expected_latency (type : backend_type_t) : Z :=
  dtrunc (dmul (dbl 8) (backend_default_perf_factor type)).

(** ** Manager *)

Definition new_manager (g : ptr) : backend_manager :=
  Manager g [] 16 (-1) (-1) (-1) false (5 * 1000000) (dlit 7 10) 0 0.

Definition backend_manager_create (index_buckets max_open_fds : Z) : M bstate bool :=
  m0 ← onw (onk sys_malloc);
  if negb m0 then mret false
  else
    g ← onw (global_index_create index_buckets max_open_fds);
    if g =? NULL then mret false
    else
      m1 ← onw (onk sys_malloc);
      if negb m1 then _ ← onw (global_index_destroy g); mret false
      else _ ← modify (fun s => BState (wd s) (Some (new_manager g))); mret true.

Definition backend_stop_caching : M bstate () :=
  m ← get_bm;
  match m with
  | None => mret ()
  | Some m => if cache_running m then upd_bm (fun m => set_caching false (cache_check_interval_us m) (cache_threshold m) m)
              else mret ()
  end.

Fixpoint destroy_backends (l : list backend_info) : M world () :=
  match l with
  | [] => mret ()
  | b :: l => _ ← (if bk_index b =? NULL then mret () else backend_index_destroy (bk_index b)); destroy_backends l
  end.

Definition backend_manager_destroy : M bstate () :=
  m ← get_bm;
  match m with
  | None => mret ()
  | Some m =>
      _ ← backend_stop_caching;
      _ ← onw (destroy_backends (backends m));
      _ ← onw (global_index_destroy (bm_global_index m));
      modify (fun s => BState (wd s) None)
  end.

Definition new_backend (id : Z) (type : backend_type_t) (mp nm : option (list byte)) (capacity flags : Z) (idx : ptr)
  : backend_info :=
  BackendInfo id type mp nm (Z.lor flags BACKEND_FLAG_ENABLED) (backend_default_perf_factor type)
    (backend_expected_latency type) capacity 0 0 (dlit 85 100) (dlit 70 100) MIGRATION_POLICY_HYBRID (dlit 5 10)
    (3600 * 1000000) idx 0 0 0 0.

Definition backend_manager_register (type : backend_type_t) (mp name : option (list byte)) (capacity flags : Z)
  : M bstate Z :=
  m ← get_bm;
  match m, mp, name with
  | Some m, Some mp, Some name =>
      let id := Z.of_nat (length (backends m)) in
      if max_backends m <=? id then mret (-1)
      else
        m0 ← onw (onk sys_malloc);
        if negb m0 then mret (-1)
        else
          d1 ← onw (onk sys_malloc);
          d2 ← onw (onk sys_malloc);
          let index_path := snprintf_text 512 (mp ++ bs "/.objmapper.idx") in
          idx ← onw (backend_index_create id (Some index_path) (256 * 1024));
          if idx =? NULL then mret (-1)
          else
            _ ← onw (backend_index_load idx);
            let b := new_backend id type (if d1 : bool then Some mp else None) (if d2 : bool then Some name else None)
                       capacity flags idx in
            _ ← upd_bm (fun m => set_backends (backends m ++ [b]) m);
            mret id
  | _, _, _ => mret (-1)
  end.

(** The backend's array position and contents; [None] is NULL. *)
Definition backend_manager_get_backend (id : Z) : M bstate (option (nat * backend_info)) :=
  m ← get_bm;
  match m with
  | None => mret None
  | Some m =>
      if id <? 0 then mret None
      else mret ((fun b => (Z.to_nat id, b)) <$> backends m !! Z.to_nat id)
  end.

Definition backend_manager_set_default (id : Z) : M bstate Z :=
  m ← get_bm;
  if bool_decide (m = None) then mret (-1)
  else
    b ← backend_manager_get_backend id;
    match b with
    | None => mret (-1)
    | Some (_, b) =>
        if has_flag (bk_flags b) BACKEND_FLAG_EPHEMERAL_ONLY then mret (-1)
        else _ ← upd_bm (fun m => set_roles id (ephemeral_backend_id m) (cache_backend_id m) m); mret 0
    end.

Definition backend_manager_set_ephemeral (id : Z) : M bstate Z :=
  m ← get_bm;
  if bool_decide (m = None) then mret (-1)
  else
    b ← backend_manager_get_backend id;
    match b with
    | None => mret (-1)
    | Some (_, b) =>
        if negb (has_flag (bk_flags b) BACKEND_FLAG_EPHEMERAL_ONLY) then mret (-1)
        else _ ← upd_bm (fun m => set_roles (default_backend_id m) id (cache_backend_id m) m); mret 0
    end.

Definition backend_manager_set_cache (id : Z) : M bstate Z :=
  m ← get_bm;
  if bool_decide (m = None) then mret (-1)
  else
    b ← backend_manager_get_backend id;
    match b with
    | None => mret (-1)
    | Some (_, b) =>
        if negb (bool_decide (bk_type b = BACKEND_TYPE_MEMORY)) then mret (-1)
        else _ ← upd_bm (fun m => set_roles (default_backend_id m) (ephemeral_backend_id m) id m); mret 0
    end.

(** ** Objects *)

(** The file of a new object: its parent directories are made first. *)
Definition create_file (fs_path : list byte) : M world Z :=
  let dir_path := take 1023 fs_path in
  rc ← match before_last_slash dir_path with
       | Some d => onk (mkdir_p d)
       | None => mret 0
       end;
  if rc <? 0 then mret (-1) else onk (sys_open fs_path O_RDWR true true).

Definition object_flags (req : object_create_req_t) : Z :=
  Z.lor (u32 (cr_flags req)) (if cr_ephemeral req then INDEX_FLAG_EPHEMERAL else INDEX_FLAG_PERSISTENT).

(** The backend the request goes to; [None] when no role is set. *)
Definition target_backend (m : backend_manager) (req : object_create_req_t) : option Z :=
  if cr_backend_id req <? 0 then
    let id := if cr_ephemeral req then ephemeral_backend_id m else default_backend_id m in
    if id <? 0 then None else Some id
  else Some (cr_backend_id req).

Definition backend_create_object (req : option object_create_req_t) (ref_out : bool) : M bstate (Z * option fd_ref_t) :=
  m ← get_bm;
  match m, req with
  | Some m, Some req =>
      match cr_uri req with
      | None => mret (-1, None)
      | Some u =>
          if negb ref_out then mret (-1, None)
          else match target_backend m req with
          | None => mret (-1, None)
          | Some id =>
              b ← backend_manager_get_backend id;
              match b with
              | None => mret (-1, None)
              | Some (i, b) =>
                  if negb (has_flag (bk_flags b) BACKEND_FLAG_ENABLED) then mret (-1, None)
                  else if cr_ephemeral req && negb (has_flag (bk_flags b) BACKEND_FLAG_EPHEMERAL_ONLY) then mret (-1, None)
                  else
                    mp ← deref (mount_path b);
                    let fs_path := snprintf_text 1024 (mp ++ u) in
                    fd ← onw (create_file fs_path);
                    if fd <? 0 then mret (-1, None)
                    else
                      entry ← onw (index_entry_create u id fs_path);
                      if entry =? NULL then
                        _ ← onw (onk (sys_close_fd fd));
                        _ ← onw (onk (sys_unlink fs_path));
                        mret (-1, None)
                      else
                        _ ← onw (upd_entry entry (fun e => set_meta 0 (mtime e) (object_flags req) e));
                        rc ← onw (global_index_insert (bm_global_index m) entry);
                        if rc <? 0 then
                          _ ← onw (index_entry_put entry);
                          _ ← onw (onk (sys_close_fd fd));
                          _ ← onw (onk (sys_unlink fs_path));
                          mret (-1, None)
                        else
                          _ ← onw (backend_index_insert (bk_index b) entry);
                          _ ← upd_backend i (fun b => set_ops (reads b) (u64 (writes b + 1)) (migrations_in b) (migrations_out b)
                                                        (set_usage (used_bytes b) (u64 (object_count b + 1)) b));
                          _ ← upd_bm (fun m => set_totals (u64 (total_objects m + 1)) (total_bytes m) m);
                          _ ← onw (upd_entry entry (fun e => set_fd_refcount 1 (set_fd fd e)));
                          _ ← onw (index_entry_get entry);
                          mret (0, Some (FdRef entry fd 0))
              end
          end
      end
  | _, _ => mret (-1, None)
  end.

Definition backend_get_object (u : option (list byte)) (ref_out : bool) : M bstate (Z * option fd_ref_t) :=
  m ← get_bm;
  match m with
  | None => mret (-1, None)
  | Some m =>
      r ← onw (global_index_lookup (bm_global_index m) u ref_out);
      match r with
      | (0, Some ref) =>
          _ ← onw (index_entry_record_access (fr_entry ref));
          e ← onw (rd_entry (fr_entry ref));
          b ← backend_manager_get_backend (s32 (backend_id e));
          _ ← match b with
              | Some (i, _) => upd_backend i (fun b => set_ops (u64 (reads b + 1)) (writes b) (migrations_in b) (migrations_out b) b)
              | None => mret ()
              end;
          mret (0, Some ref)
      | _ => mret (-1, None)
      end
  end.

(** [open]/[unlink] on a NULL path fail with EFAULT. *)
Definition unlink_path (p : option (list byte)) : M world () :=
  match p with Some p => _ ← onk (sys_unlink p); mret () | None => mret () end.

Definition backend_delete_object (u : option (list byte)) : M bstate Z :=
  m ← get_bm;
  match m with
  | None => mret (-1)
  | Some m =>
      r ← onw (global_index_lookup (bm_global_index m) u true);
      match r with
      | (0, Some ref) =>
          e ← onw (rd_entry (fr_entry ref));
          b ← backend_manager_get_backend (s32 (backend_id e));
          match b with
          | None => _ ← onw (fd_ref_release (Some ref)); mret (-1)
          | Some (i, b) =>
              _ ← onw (unlink_path (backend_path e));
              _ ← upd_backend i (fun b => set_usage (u64 (used_bytes b - size_bytes e)) (u64 (object_count b - 1)) b);
              _ ← upd_bm (fun m => set_totals (u64 (total_objects m - 1)) (u64 (total_bytes m - size_bytes e)) m);
              _ ← onw (backend_index_remove (bk_index b) u);
              _ ← onw (global_index_remove (bm_global_index m) u);
              _ ← onw (fd_ref_release (Some ref));
              mret 0
          end
      | _ => mret (-1)
      end
  end.

(** ** Scan *)

(** A regular file found under the mount point; [count] is the result so far. *)
Definition scan_object (m : backend_manager) (id : Z) (b : backend_info) (i : nat) (mount_path_len : nat)
  (full_path : list byte) (size : Z) (count : Z) : M bstate Z :=
  entry ← onw (index_entry_create (drop mount_path_len full_path) id full_path);
  if entry =? NULL then mret count
  else
    _ ← onw (upd_entry entry (fun e => set_meta (u64 size) (mtime e)
               (if has_flag (bk_flags b) BACKEND_FLAG_EPHEMERAL_ONLY then INDEX_FLAG_EPHEMERAL else INDEX_FLAG_PERSISTENT) e));
    rc ← onw (global_index_insert (bm_global_index m) entry);
    count ← (if 0 <=? rc then
               _ ← onw (backend_index_insert (bk_index b) entry);
               _ ← upd_backend i (fun b => set_usage (u64 (used_bytes b + size)) (u64 (object_count b + 1)) b);
               _ ← upd_bm (fun m => set_totals (u64 (total_objects m + 1)) (u64 (total_bytes m + size)) m);
               mret (s32 (count + 1))
             else mret count);
    _ ← onw (index_entry_put entry);
    mret count.

Section ManagerScan.
Variable readdir_order : list (list byte) -> list (list byte).

(** [scan_dir_recursive] of [backend_manager_scan]. *)
Fixpoint scan_backend_dir (m : backend_manager) (id : Z) (b : backend_info) (i : nat) (mount_path_len : nat)
  (fuel : nat) (dir_path : list byte) (count : Z) : M bstate Z :=
  match fuel with
  | O => block
  | S fuel =>
      d ← onw (onk (sys_opendir dir_path));
      match d with
      | None => mret count
      | Some l =>
          (fix each (l : list (list byte)) (count : Z) : M bstate Z :=
             match l with
             | [] => mret count
             | n :: l =>
                 let full_path := snprintf_text 2048 (dir_path ++ bs "/" ++ n) in
                 s ← onw (onk (sys_stat full_path));
                 match s with
                 | None => each l count
                 | Some StDir => c ← scan_backend_dir m id b i mount_path_len fuel full_path count; each l c
                 | Some (StReg size) => c ← scan_object m id b i mount_path_len full_path size count; each l c
                 end
             end) (readdir_order l) count
      end
  end.

Definition backend_manager_scan (id : Z) : M bstate Z :=
  m ← get_bm;
  match m with
  | None => mret (-1)
  | Some m =>
      b ← backend_manager_get_backend id;
      match b with
      | None => mret (-1)
      | Some (i, b) =>
          if negb (has_flag (bk_flags b) BACKEND_FLAG_ENABLED) then mret (-1)
          else
            mp ← deref (mount_path b);
            s ← get;
            scan_backend_dir m id b i (length mp) (scan_fuel (wd s)) mp 0
      end
  end.
End ManagerScan.

(** ** Metadata *)

Definition backend_get_metadata (u : option (list byte)) : M bstate (Z * option object_metadata_t) :=
  m ← get_bm;
  match m with
  | None => mret (-1, None)
  | Some m =>
      r ← onw (global_index_lookup (bm_global_index m) u true);
      match r with
      | (0, Some ref) =>
          e ← onw (rd_entry (fr_entry ref));
          m1 ← onw (onk sys_malloc);
          path ← deref (backend_path e);
          m2 ← onw (onk sys_malloc);
          _ ← onw (fd_ref_release (Some ref));
          mret (0, Some (ObjectMetadata (if m1 : bool then Some (uri e) else None) (s32 (backend_id e))
                           (if m2 : bool then Some path else None) (size_bytes e) (mtime e) (flags e)
                           (hotness_score e) (access_count e)))
      | _ => mret (-1, None)
      end
  end.

Definition set_size (n : Z) (e : index_entry) : index_entry := set_meta n (mtime e) (flags e) e.

Definition backend_update_size (u : option (list byte)) (new_size : Z) : M bstate Z :=
  m ← get_bm;
  match m with
  | None => mret (-1)
  | Some m =>
      r ← onw (global_index_lookup (bm_global_index m) u true);
      match r with
      | (0, Some ref) =>
          e ← onw (rd_entry (fr_entry ref));
          b ← backend_manager_get_backend (s32 (backend_id e));
          match b with
          | None => _ ← onw (fd_ref_release (Some ref)); mret (-1)
          | Some (i, _) =>
              let old_size := size_bytes e in
              _ ← onw (upd_entry (fr_entry ref) (set_size new_size));
              _ ← (if old_size <? new_size then
                     let delta := new_size - old_size in
                     _ ← upd_backend i (fun b => set_usage (u64 (used_bytes b + delta)) (object_count b) b);
                     upd_bm (fun m => set_totals (total_objects m) (u64 (total_bytes m + delta)) m)
                   else if new_size <? old_size then
                     let delta := old_size - new_size in
                     _ ← upd_backend i (fun b => set_usage (u64 (used_bytes b - delta)) (object_count b) b);
                     upd_bm (fun m => set_totals (total_objects m) (u64 (total_bytes m - delta)) m)
                   else mret ());
              _ ← onw (fd_ref_release (Some ref));
              mret 0
          end
      | _ => mret (-1)
      end
  end.

Definition object_metadata_free (md : option object_metadata_t) : option object_metadata_t :=
  match md with
  | None => None
  | Some _ => Some (ObjectMetadata None 0 None 0 0 0 (S754_zero false) 0)
  end.

(** ** Migration *)

(** After the copy: indexes, accounting and the source file. *)
Definition migrate_commit (m : backend_manager) (u : list byte) (entry : ptr) (target : Z) (si di : nat)
  (src dst : backend_info) (dst_path : list byte) : M bstate Z :=
  _ ← onw (backend_index_remove (bk_index src) (Some u));
  e ← onw (rd_entry entry);
  _ ← upd_backend si (fun b => set_ops (reads b) (writes b) (migrations_in b) (u64 (migrations_out b + 1))
                                 (set_usage (u64 (used_bytes b - size_bytes e)) (u64 (object_count b - 1)) b));
  m1 ← onw (onk sys_malloc);
  _ ← onw (upd_entry entry (set_backend (u32 target) (if m1 : bool then Some dst_path else None)));
  _ ← onw (global_index_update_backend (bm_global_index m) (Some u) target (Some dst_path));
  _ ← onw (backend_index_insert (bk_index dst) entry);
  e ← onw (rd_entry entry);
  _ ← upd_backend di (fun b => set_ops (reads b) (writes b) (u64 (migrations_in b + 1)) (migrations_out b)
                                 (set_usage (u64 (used_bytes b + size_bytes e)) (u64 (object_count b + 1)) b));
  e ← onw (rd_entry entry);
  _ ← onw (unlink_path (backend_path e));
  mret 0.

Definition backend_migrate_object (uri0 : option (list byte)) (target : Z) : M bstate Z :=
  m ← get_bm;
  match m, uri0 with
  | Some m, Some u =>
      r ← onw (global_index_lookup (bm_global_index m) (Some u) true);
      match r with
      | (0, Some ref) =>
          let entry := fr_entry ref in
          e ← onw (rd_entry entry);
          let src_id := s32 (backend_id e) in
          let drop_ref := (_ ← onw (fd_ref_release (Some ref)); mret (-1)) : M bstate Z in
          if src_id =? target then drop_ref
          else
            t ← backend_manager_get_backend target;
            if has_flag (flags e) INDEX_FLAG_EPHEMERAL &&
               negb (match t with Some (_, b) => has_flag (bk_flags b) BACKEND_FLAG_EPHEMERAL_ONLY | None => false end)
            then drop_ref
            else
              s ← backend_manager_get_backend src_id;
              match s, t with
              | Some (si, src), Some (di, dst) =>
                  if negb (has_flag (bk_flags src) BACKEND_FLAG_MIGRATION_SRC) ||
                     negb (has_flag (bk_flags dst) BACKEND_FLAG_MIGRATION_DST) then drop_ref
                  else
                    mp ← deref (mount_path dst);
                    let dst_path := snprintf_text 1024 (mp ++ u) in
                    dst_fd ← onw (onk (sys_open dst_path O_WRONLY true true));
                    if dst_fd <? 0 then drop_ref
                    else
                      a ← onw (fd_ref_acquire (Some ref));
                      if a.1 <? 0 then
                        _ ← onw (onk (sys_close_fd dst_fd));
                        _ ← onw (onk (sys_unlink dst_path));
                        _ ← onw (fd_ref_release a.2);
                        mret (-1)
                      else
                        e1 ← onw (rd_entry entry);
                        copied ← onw (onk (sys_sendfile dst_fd a.1 (size_bytes e1)));
                        _ ← onw (fd_ref_release a.2);
                        _ ← onw (onk (sys_close_fd dst_fd));
                        e2 ← onw (rd_entry entry);
                        if negb (copied =? s64 (size_bytes e2)) then
                          _ ← onw (onk (sys_unlink dst_path));
                          mret (-1)
                        else migrate_commit m u entry target si di src dst dst_path
              | _, _ => drop_ref
              end
      | _ => mret (-1)
      end
  | _, _ => mret (-1)
  end.

(** ** Caching *)

(** What one round of the caching thread looks at: nothing without a cache
    backend; otherwise whether the cache is over its high watermark, and, below the
    low one, the backends it scans.  It changes no state. *)
Definition cache_round (m : backend_manager) : option (bool * list Z) :=
  if cache_backend_id m <? 0 then None
  else match backends m !! Z.to_nat (cache_backend_id m) with
       | None => None
       | Some c =>
           let utilization := ddiv (dbl (used_bytes c)) (dbl (capacity_bytes c)) in
           Some (dgt utilization (high_watermark c),
                 if SFltb utilization (low_watermark c) then
                   bk_id <$> filter (fun b => bk_id b <> cache_backend_id m /\
                                              has_flag (bk_flags b) BACKEND_FLAG_EPHEMERAL_ONLY = false) (backends m)
                 else [])
       end.

Definition backend_start_caching (check_interval_us : Z) (threshold : spec_float) : M bstate Z :=
  m ← get_bm;
  match m with
  | None => mret (-1)
  | Some m =>
      if cache_running m then mret 0
      else
        _ ← upd_bm (set_caching true check_interval_us threshold);
        failed ← onw (onk refused);     (* [pthread_create] *)
        if failed : bool then
          _ ← upd_bm (fun m => set_caching false (cache_check_interval_us m) (cache_threshold m) m); mret (-1)
        else mret 0
  end.

(** The backend an object is in, looking it up. *)
Definition current_backend (m : backend_manager) (u : list byte) : M bstate (option Z) :=
  r ← onw (global_index_lookup (bm_global_index m) (Some u) true);
  match r with
  | (0, Some ref) =>
      e ← onw (rd_entry (fr_entry ref));
      _ ← onw (fd_ref_release (Some ref));
      mret (Some (s32 (backend_id e)))
  | _ => mret None
  end.

Definition backend_cache_object (uri0 : option (list byte)) : M bstate Z :=
  m ← get_bm;
  match m, uri0 with
  | Some m, Some u =>
      if cache_backend_id m <? 0 then mret (-1)
      else
        c ← current_backend m u;
        match c with
        | None => mret (-1)
        | Some c => if c =? cache_backend_id m then mret 0 else backend_migrate_object (Some u) (cache_backend_id m)
        end
  | _, _ => mret (-1)
  end.

Definition backend_evict_object (uri0 : option (list byte)) : M bstate Z :=
  m ← get_bm;
  match m, uri0 with
  | Some m, Some u =>
      if default_backend_id m <? 0 then mret (-1)
      else
        c ← current_backend m u;
        match c with
        | None => mret (-1)
        | Some c => if negb (c =? cache_backend_id m) then mret 0 else backend_migrate_object (Some u) (default_backend_id m)
        end
  | _, _ => mret (-1)
  end.

(** ** Queries *)

(** The backend a query is about; every query returns -1 when there is none. *)
Definition query {A} (id : Z) (f : backend_info -> A) : M bstate (Z * option A) :=
  b ← backend_manager_get_backend id;
  match b with None => mret (-1, None) | Some (_, b) => mret (0, Some (f b)) end.

Definition backend_get_status (id : Z) : M bstate (Z * option (Z * Z * Z * spec_float)) :=
  query id (fun b => (capacity_bytes b, used_bytes b, object_count b, ddiv (dbl (used_bytes b)) (dbl (capacity_bytes b)))).

Definition backend_list_objects (id : Z) : M bstate (Z * list (list byte)) :=
  b ← backend_manager_get_backend id;
  match b with
  | None => mret (-1, [])
  | Some (_, b) => if bk_index b =? NULL then mret (-1, []) else mret (0, [])
  end.

Definition backend_get_hotness_map (id : Z) : M bstate (Z * list (list byte * spec_float)) :=
  b ← backend_manager_get_backend id;
  match b with
  | None => mret (-1, [])
  | Some (_, b) => if bk_index b =? NULL then mret (-1, []) else mret (0, [])
  end.

Definition backend_get_index_stats : M bstate (Z * option index_stats_t) :=
  m ← get_bm;
  match m with
  | None => mret (-1, None)
  | Some m => st ← onw (global_index_get_stats (bm_global_index m)); mret (0, st)
  end.

Definition backend_get_stats (id : Z) : M bstate (Z * option (Z * Z * Z * Z)) :=
  query id (fun b => (reads b, writes b, migrations_in b, migrations_out b)).

(** ** Management *)

Definition backend_set_enabled (id : Z) (enabled : bool) : M bstate Z :=
  b ← backend_manager_get_backend id;
  match b with
  | None => mret (-1)
  | Some (i, _) =>
      _ ← upd_backend i (fun b => set_bk_flags (if enabled then Z.lor (bk_flags b) BACKEND_FLAG_ENABLED
                                                else Z.land (bk_flags b) (u32 (Z.lnot BACKEND_FLAG_ENABLED))) b);
      mret 0
  end.

(** [a >= b] on doubles: false when one of them is not a number. *)
Definition dge (a b : spec_float) : bool := SFleb b a.

Definition backend_set_watermarks (id : Z) (high low : spec_float) : M bstate Z :=
  if SFltb high (dbl 0) || dgt high (dbl 1) || SFltb low (dbl 0) || dgt low (dbl 1) || dge low high then mret (-1)
  else
    b ← backend_manager_get_backend id;
    match b with
    | None => mret (-1)
    | Some (i, _) => _ ← upd_backend i (set_marks high low); mret 0
    end.

Definition backend_set_migration_policy (id : Z) (p : migration_policy_t) (threshold : spec_float) : M bstate Z :=
  b ← backend_manager_get_backend id;
  match b with
  | None => mret (-1)
  | Some (i, _) => _ ← upd_backend i (set_policy p threshold); mret 0
  end.

#[global] Arguments backend_create_object : simpl never.
#[global] Arguments backend_get_object : simpl never.
#[global] Arguments backend_delete_object : simpl never.
#[global] Arguments backend_migrate_object : simpl never.
#[global] Arguments backend_manager_register : simpl never.
