(* ===== verification/BackendProofs.v ===== *)
(** * BackendProofs: invariants of the backend manager

    The manager's configuration invariant over every sequence of API calls, the
    placement check of object creation, and the accounting of sizes. *)

From S2P Require Import Prelude Socket Kernel Index IndexProofs Backend.

(** ** Invariants of monadic programs *)

(** Whenever [m] returns from a state with [I], the new state has [I]. *)
Definition keeps {S A} (I : S -> Prop) (m : M S A) : Prop :=
  forall s a s', I s -> m s = Ret a s' -> I s'.

Lemma keeps_ret {S A} (I : S -> Prop) (a : A) : keeps I (mret a).
Proof. intros s b s' H [= <- <-]. done. Qed.

Lemma keeps_bind {S A B} (I : S -> Prop) (m : M S A) (f : A -> M S B) :
  keeps I m -> (forall a, keeps I (f a)) -> keeps I (m ≫= f).
Proof. intros Hm Hf s b s' H Hr. minv Hr. eapply Hf; [|exact Hr]. by eapply Hm. Qed.

Lemma keeps_get {S} (I : S -> Prop) : keeps I get.
Proof. intros s a s' H [= <- <-]. done. Qed.

Lemma keeps_block {S A} (I : S -> Prop) : keeps I (block : M S A).
Proof. by intros s a s' H ?. Qed.

Lemma keeps_deref {S A} (I : S -> Prop) (o : option A) : keeps I (deref o : M S A).
Proof. destruct o; [apply keeps_ret|by intros s a s' H ?]. Qed.

Create HintDb keeps.
#[export] Hint Resolve keeps_ret keeps_get keeps_block keeps_deref : keeps.

(** Walk through a program: binds, matches, and the hints for the leaves. *)
Ltac keeps_step :=
  match goal with
  | |- forall _, _ => intros
  | |- keeps _ (_ ≫= _) => apply keeps_bind
  | |- keeps _ (match ?x with _ => _ end) => destruct x
  | |- keeps _ (let _ := _ in _) => cbv zeta
  | |- keeps _ _ => solve [eauto with keeps]
  end.
Ltac keeps := repeat keeps_step.

(** ** The configuration invariant *)

(** The backend with number [id], if the number is valid. *)
Definition nth_backend (m : backend_manager) (id : Z) : option backend_info :=
  if id <? 0 then None else backends m !! Z.to_nat id.

Definition ephemeral_only (b : backend_info) : bool := has_flag (bk_flags b) BACKEND_FLAG_EPHEMERAL_ONLY.

(** At most sixteen backends, each carrying its own number; a role is unset or
    given to a backend fit for it: persistent objects by default never go to an
    ephemeral-only backend, ephemeral ones always do, and the cache is memory. *)
Record config_ok (m : backend_manager) : Prop := {
  co_max : max_backends m = 16;
  co_count : (length (backends m) <= 16)%nat;
  co_ids : forall i b, backends m !! i = Some b -> bk_id b = Z.of_nat i;
  co_default : default_backend_id m = -1 \/
    exists b, nth_backend m (default_backend_id m) = Some b /\ ephemeral_only b = false;
  co_ephemeral : ephemeral_backend_id m = -1 \/
    exists b, nth_backend m (ephemeral_backend_id m) = Some b /\ ephemeral_only b = true;
  co_cache : cache_backend_id m = -1 \/
    exists b, nth_backend m (cache_backend_id m) = Some b /\ bk_type b = BACKEND_TYPE_MEMORY
}.

Definition mgr_ok (s : bstate) : Prop := match bm s with Some m => config_ok m | None => True end.

Lemma keeps_onw {A} (m : M world A) : keeps mgr_ok (onw m).
Proof.
  intros s a s' H Hr. unfold onw in Hr. destruct (m (wd s)); try done. injection Hr as _ <-. exact H.
Qed.

Lemma keeps_get_bm : keeps mgr_ok get_bm.
Proof. intros s a s' H [= <- <-]. done. Qed.

(** What no operation changes about a backend. *)
Definition same_config (b b' : backend_info) : Prop :=
  bk_id b' = bk_id b /\ bk_type b' = bk_type b /\ ephemeral_only b' = ephemeral_only b.

Lemma nth_backend_alter f i m id b :
  (forall b, same_config b (f b)) -> nth_backend m id = Some b ->
  exists b', nth_backend (set_backends (alter f i (backends m)) m) id = Some b' /\ same_config b b'.
Proof.
  intros Hf. unfold nth_backend. simpl. destruct (id <? 0); [done|]. intros Hb.
  destruct (decide (Z.to_nat id = i)) as [<-|Hne].
  - rewrite list_lookup_alter_eq, Hb. simpl. eauto.
  - rewrite list_lookup_alter_ne, Hb by done. exists b. done.
Qed.

Lemma config_ok_alter f i m :
  (forall b, same_config b (f b)) -> config_ok m -> config_ok (set_backends (alter f i (backends m)) m).
Proof.
  intros Hf [H1 H2 H3 H4 H5 H6]. split; simpl; [done|by rewrite length_alter| | | |].
  - intros j b Hb. destruct (decide (j = i)) as [->|Hne].
    + rewrite list_lookup_alter_eq in Hb. apply fmap_Some in Hb as (b0 & Hb0 & ->).
      destruct (Hf b0) as [-> _]. by apply H3.
    + rewrite list_lookup_alter_ne in Hb by done. by apply H3.
  - destruct H4 as [H4|(b & Hb & He)]; [by left|right].
    destruct (nth_backend_alter f i m _ b Hf Hb) as (b' & Hb' & _ & _ & Hs). exists b'. split; [done|congruence].
  - destruct H5 as [H5|(b & Hb & He)]; [by left|right].
    destruct (nth_backend_alter f i m _ b Hf Hb) as (b' & Hb' & _ & _ & Hs). exists b'. split; [done|congruence].
  - destruct H6 as [H6|(b & Hb & He)]; [by left|right].
    destruct (nth_backend_alter f i m _ b Hf Hb) as (b' & Hb' & _ & Hs & _). exists b'. split; [done|congruence].
Qed.

Lemma keeps_upd_bm f : (forall m, config_ok m -> config_ok (f m)) -> keeps mgr_ok (upd_bm f).
Proof.
  intros Hf s a s' H Hr. unfold upd_bm in Hr. unfold mgr_ok in *. destruct (bm s); [|done].
  injection Hr as _ <-. simpl. auto.
Qed.

Lemma keeps_upd_backend f i : (forall b, same_config b (f b)) -> keeps mgr_ok (upd_backend i f).
Proof. intros Hf. apply keeps_upd_bm. intros m. by apply config_ok_alter. Qed.

Lemma keeps_totals o b : keeps mgr_ok (upd_bm (fun m => set_totals (o m) (b m) m)).
Proof. apply keeps_upd_bm. intros m [H1 H2 H3 H4 H5 H6]. by split. Qed.

Lemma keeps_caching r i t : keeps mgr_ok (upd_bm (fun m => set_caching (r m) (i m) (t m) m)).
Proof. apply keeps_upd_bm. intros m [H1 H2 H3 H4 H5 H6]. by split. Qed.

Lemma keeps_get_backend id : keeps mgr_ok (backend_manager_get_backend id).
Proof. unfold backend_manager_get_backend. keeps. apply keeps_get_bm. Qed.

Lemma keeps_usage i u c : keeps mgr_ok (upd_backend i (fun b => set_usage (u b) (c b) b)).
Proof. apply keeps_upd_backend. by intros b. Qed.
Lemma keeps_ops i r w mi mo : keeps mgr_ok (upd_backend i (fun b => set_ops (r b) (w b) (mi b) (mo b) b)).
Proof. apply keeps_upd_backend. by intros b. Qed.
Lemma keeps_ops_usage i r w mi mo u c :
  keeps mgr_ok (upd_backend i (fun b => set_ops (r b) (w b) (mi b) (mo b) (set_usage (u b) (c b) b))).
Proof. apply keeps_upd_backend. by intros b. Qed.

#[export] Hint Resolve keeps_onw keeps_get_bm keeps_get_backend : keeps.
#[export] Hint Extern 2 (keeps mgr_ok (upd_bm _)) => first [apply keeps_totals | apply keeps_caching] : keeps.
#[export] Hint Extern 2 (keeps mgr_ok (upd_backend _ _)) => (apply keeps_upd_backend; by intros ?) : keeps.

(** ** Every API call keeps the invariant *)

Lemma keeps_create_manager nb mx : keeps mgr_ok (backend_manager_create nb mx).
Proof.
  unfold backend_manager_create. keeps. intros s x s' H [= <- <-]. unfold mgr_ok. simpl.
  split; simpl; [done|lia|by intros i b|by left|by left|by left].
Qed.

Lemma config_ok_register m type mp nm cap fl idx :
  config_ok m -> (length (backends m) < 16)%nat ->
  config_ok (set_backends (backends m ++ [new_backend (Z.of_nat (length (backends m))) type mp nm cap fl idx]) m).
Proof.
  intros [H1 H2 H3 H4 H5 H6] Hlt. set (b0 := new_backend _ _ _ _ _ _ _).
  assert (Hnth : forall id b, nth_backend m id = Some b -> nth_backend (set_backends (backends m ++ [b0]) m) id = Some b).
  { intros id b. unfold nth_backend. simpl. destruct (id <? 0); [done|]. apply lookup_app_l_Some. }
  split; simpl; [done|rewrite length_app; simpl; lia| | | |].
  - intros i b Hb. apply lookup_app_Some in Hb as [Hb|[Hge Hb]]; [by apply H3|].
    destruct (i - length (backends m))%nat as [|k] eqn:E; [|by destruct k]. injection Hb as <-. simpl. lia.
  - destruct H4 as [H4|(b & Hb & He)]; [by left|right]. eauto.
  - destruct H5 as [H5|(b & Hb & He)]; [by left|right]. eauto.
  - destruct H6 as [H6|(b & Hb & He)]; [by left|right]. eauto.
Qed.

Lemma bm_onw {A} (m : M world A) s a s' : onw m s = Ret a s' -> bm s' = bm s.
Proof. unfold onw. destruct (m (wd s)); try done. by intros [= _ <-]. Qed.

Lemma keeps_register type mp nm cap fl : keeps mgr_ok (backend_manager_register type mp nm cap fl).
Proof.
  intros s a s' H Hr. unfold backend_manager_register in Hr. minv Hr. injection Hr0 as <- <-.
  destruct (bm s) as [m|] eqn:Hm; [|by injection Hr as _ <-].
  destruct mp as [mp|]; [|by injection Hr as _ <-]. destruct nm as [nm|]; [|by injection Hr as _ <-].
  pose proof H as Hok. unfold mgr_ok in Hok. rewrite Hm in Hok.
  destruct (max_backends m <=? _) eqn:E; [by injection Hr as _ <-|].
  rewrite (co_max _ Hok) in E. apply Z.leb_gt in E.
  minv Hr. assert (B0 := bm_onw _ _ _ _ Hr0). destruct a0; [|injection Hr as _ <-; unfold mgr_ok; by rewrite B0, Hm].
  cbn [negb] in Hr. minv Hr. assert (B1 := bm_onw _ _ _ _ Hr1). minv Hr. assert (B2 := bm_onw _ _ _ _ Hr2).
  minv Hr. assert (B3 := bm_onw _ _ _ _ Hr3).
  destruct (a2 =? NULL); [injection Hr as _ <-; unfold mgr_ok; by rewrite B3, B2, B1, B0, Hm|].
  minv Hr. assert (B4 := bm_onw _ _ _ _ Hr4). minv Hr. injection Hr as _ <-.
  unfold upd_bm in Hr5. rewrite B4, B3, B2, B1, B0, Hm in Hr5. injection Hr5 as _ <-.
  unfold mgr_ok. simpl. apply config_ok_register; [done|lia].
Qed.

Lemma get_backend_nth id s b i s' :
  backend_manager_get_backend id s = Ret (Some (i, b)) s' ->
  s' = s /\ i = Z.to_nat id /\ exists m, bm s = Some m /\ nth_backend m id = Some b.
Proof.
  unfold backend_manager_get_backend, get_bm, mbind, M_bind, nth_backend.
  destruct (bm s) as [m|]; [|done]. destruct (id <? 0); [done|].
  destruct (backends m !! Z.to_nat id) as [b0|] eqn:E; [|done]. intros [= <- <- <-]. eauto.
Qed.

(** The three role setters: the checks they make are what the invariant asks. *)
Lemma keeps_set_default id : keeps mgr_ok (backend_manager_set_default id).
Proof.
  intros s a s' H Hr. unfold backend_manager_set_default in Hr. minv Hr. injection Hr0 as <- <-.
  destruct (bool_decide (bm s = None)); [by injection Hr as _ <-|].
  minv Hr. destruct a0 as [[i b]|].
  2:{ injection Hr as _ <-. by eapply keeps_get_backend. }
  apply get_backend_nth in Hr0 as (-> & -> & m & Hm & Hb).
  destruct (has_flag (bk_flags b) BACKEND_FLAG_EPHEMERAL_ONLY) eqn:E; [by injection Hr as _ <-|].
  minv Hr. injection Hr as _ <-. unfold upd_bm in Hr0. unfold mgr_ok in *. rewrite Hm in *. injection Hr0 as _ <-. simpl.
  destruct H as [H1 H2 H3 H4 H5 H6]. split; simpl; try done. right. exists b. done.
Qed.

Lemma keeps_set_ephemeral id : keeps mgr_ok (backend_manager_set_ephemeral id).
Proof.
  intros s a s' H Hr. unfold backend_manager_set_ephemeral in Hr. minv Hr. injection Hr0 as <- <-.
  destruct (bool_decide (bm s = None)); [by injection Hr as _ <-|].
  minv Hr. destruct a0 as [[i b]|].
  2:{ injection Hr as _ <-. by eapply keeps_get_backend. }
  apply get_backend_nth in Hr0 as (-> & -> & m & Hm & Hb).
  destruct (has_flag (bk_flags b) BACKEND_FLAG_EPHEMERAL_ONLY) eqn:E; cbn [negb] in Hr; [|by injection Hr as _ <-].
  minv Hr. injection Hr as _ <-. unfold upd_bm in Hr0. unfold mgr_ok in *. rewrite Hm in *. injection Hr0 as _ <-. simpl.
  destruct H as [H1 H2 H3 H4 H5 H6]. split; simpl; try done. right. exists b. done.
Qed.

Lemma keeps_set_cache id : keeps mgr_ok (backend_manager_set_cache id).
Proof.
  intros s a s' H Hr. unfold backend_manager_set_cache in Hr. minv Hr. injection Hr0 as <- <-.
  destruct (bool_decide (bm s = None)); [by injection Hr as _ <-|].
  minv Hr. destruct a0 as [[i b]|].
  2:{ injection Hr as _ <-. by eapply keeps_get_backend. }
  apply get_backend_nth in Hr0 as (-> & -> & m & Hm & Hb).
  case_bool_decide as E; cbn [negb] in Hr; [|by injection Hr as _ <-].
  minv Hr. injection Hr as _ <-. unfold upd_bm in Hr0. unfold mgr_ok in *. rewrite Hm in *. injection Hr0 as _ <-. simpl.
  destruct H as [H1 H2 H3 H4 H5 H6]. split; simpl; try done. right. exists b. done.
Qed.

Lemma keeps_create_object req out : keeps mgr_ok (backend_create_object req out).
Proof. unfold backend_create_object. keeps. Qed.
Lemma keeps_get_object u out : keeps mgr_ok (backend_get_object u out).
Proof. unfold backend_get_object. keeps. Qed.
Lemma keeps_delete_object u : keeps mgr_ok (backend_delete_object u).
Proof. unfold backend_delete_object. keeps. Qed.
Lemma keeps_get_metadata u : keeps mgr_ok (backend_get_metadata u).
Proof. unfold backend_get_metadata. keeps. Qed.
Lemma keeps_update_size u n : keeps mgr_ok (backend_update_size u n).
Proof. unfold backend_update_size. keeps. Qed.
Lemma keeps_migrate u t : keeps mgr_ok (backend_migrate_object u t).
Proof. unfold backend_migrate_object, migrate_commit. keeps. Qed.
#[export] Hint Resolve keeps_migrate : keeps.
Lemma keeps_cache_object u : keeps mgr_ok (backend_cache_object u).
Proof. unfold backend_cache_object, current_backend. keeps. Qed.
Lemma keeps_evict_object u : keeps mgr_ok (backend_evict_object u).
Proof. unfold backend_evict_object, current_backend. keeps. Qed.
Lemma keeps_start_caching i t : keeps mgr_ok (backend_start_caching i t).
Proof. unfold backend_start_caching. keeps. Qed.
Lemma keeps_stop_caching : keeps mgr_ok backend_stop_caching.
Proof. unfold backend_stop_caching. keeps. Qed.
#[export] Hint Resolve keeps_stop_caching : keeps.

Lemma keeps_scan_object m id b i n path size count : keeps mgr_ok (scan_object m id b i n path size count).
Proof. unfold scan_object. keeps. Qed.
#[export] Hint Resolve keeps_scan_object : keeps.

Lemma keeps_scan_dir ord m id b i n fuel : forall dir count, keeps mgr_ok (scan_backend_dir ord m id b i n fuel dir count).
Proof.
  induction fuel as [|fuel IH]; intros dir count; simpl; [apply keeps_block|]. keeps.
  revert count. induction (ord l) as [|x xs IHx]; intros count; keeps.
Qed.

Lemma keeps_scan ord id : keeps mgr_ok (backend_manager_scan ord id).
Proof. unfold backend_manager_scan. keeps. apply keeps_scan_dir. Qed.

Lemma has_flag_testbit f k : 0 <= k -> has_flag f (2 ^ k) = Z.testbit f k.
Proof.
  intros Hk. unfold has_flag. destruct (Z.testbit f k) eqn:E.
  - rewrite (proj2 (Z.eqb_neq _ _)); [done|]. intros H0.
    pose proof (Z.land_spec f (2 ^ k) k) as Hs. by rewrite H0, Z.bits_0, E, Z.pow2_bits_true in Hs.
  - assert (Hz : Z.land f (2 ^ k) = 0); [|by rewrite Hz].
    apply Z.bits_inj'. intros i Hi. rewrite Z.land_spec, Z.bits_0.
    destruct (decide (i = k)) as [->|Hne]; [by rewrite E|]. by rewrite Z.pow2_bits_false, andb_false_r by done.
Qed.

(** Enabling and disabling touch no other flag. *)
Lemma set_enabled_config (en : bool) b :
  same_config b (set_bk_flags (if en then Z.lor (bk_flags b) BACKEND_FLAG_ENABLED
                               else Z.land (bk_flags b) (u32 (Z.lnot BACKEND_FLAG_ENABLED))) b).
Proof.
  split; [done|]. split; [done|]. unfold ephemeral_only. change BACKEND_FLAG_EPHEMERAL_ONLY with (2 ^ 0).
  rewrite !has_flag_testbit by done. destruct en; cbn [set_bk_flags bk_flags].
  - rewrite Z.lor_spec. by rewrite orb_false_r.
  - rewrite Z.land_spec. by rewrite andb_true_r.
Qed.

Lemma keeps_set_enabled id en : keeps mgr_ok (backend_set_enabled id en).
Proof. unfold backend_set_enabled. keeps. apply keeps_upd_backend. apply set_enabled_config. Qed.
Lemma keeps_set_watermarks id h l : keeps mgr_ok (backend_set_watermarks id h l).
Proof. unfold backend_set_watermarks. keeps. Qed.
Lemma keeps_set_policy id p t : keeps mgr_ok (backend_set_migration_policy id p t).
Proof. unfold backend_set_migration_policy. keeps. Qed.
Lemma keeps_destroy : keeps mgr_ok backend_manager_destroy.
Proof. unfold backend_manager_destroy. keeps. by intros s x s' H [= <- <-]. Qed.

(** ** Reachable configurations *)

(** One API call that returns. *)
Inductive api_step (s s' : bstate) : Prop :=
| StepCreateManager nb mx r : backend_manager_create nb mx s = Ret r s' -> api_step s s'
| StepDestroy : backend_manager_destroy s = Ret () s' -> api_step s s'
| StepRegister type mp nm cap fl r : backend_manager_register type mp nm cap fl s = Ret r s' -> api_step s s'
| StepSetDefault id r : backend_manager_set_default id s = Ret r s' -> api_step s s'
| StepSetEphemeral id r : backend_manager_set_ephemeral id s = Ret r s' -> api_step s s'
| StepSetCache id r : backend_manager_set_cache id s = Ret r s' -> api_step s s'
| StepCreate req out r : backend_create_object req out s = Ret r s' -> api_step s s'
| StepGet u out r : backend_get_object u out s = Ret r s' -> api_step s s'
| StepDelete u r : backend_delete_object u s = Ret r s' -> api_step s s'
| StepScan ord id r : backend_manager_scan ord id s = Ret r s' -> api_step s s'
| StepMetadata u r : backend_get_metadata u s = Ret r s' -> api_step s s'
| StepUpdateSize u n r : backend_update_size u n s = Ret r s' -> api_step s s'
| StepMigrate u t r : backend_migrate_object u t s = Ret r s' -> api_step s s'
| StepCacheObject u r : backend_cache_object u s = Ret r s' -> api_step s s'
| StepEvict u r : backend_evict_object u s = Ret r s' -> api_step s s'
| StepStartCaching i t r : backend_start_caching i t s = Ret r s' -> api_step s s'
| StepStopCaching : backend_stop_caching s = Ret () s' -> api_step s s'
| StepSetEnabled id en r : backend_set_enabled id en s = Ret r s' -> api_step s s'
| StepWatermarks id h l r : backend_set_watermarks id h l s = Ret r s' -> api_step s s'
| StepPolicy id p t r : backend_set_migration_policy id p t s = Ret r s' -> api_step s s'
| StepRelease ref r : onw (fd_ref_release ref) s = Ret r s' -> api_step s s'.

#[export] Hint Resolve keeps_create_manager keeps_destroy keeps_register keeps_set_default keeps_set_ephemeral
  keeps_set_cache keeps_create_object keeps_get_object keeps_delete_object keeps_scan keeps_get_metadata
  keeps_update_size keeps_cache_object keeps_evict_object keeps_start_caching keeps_set_enabled
  keeps_set_watermarks keeps_set_policy : keeps.

Lemma api_step_ok s s' : api_step s s' -> mgr_ok s -> mgr_ok s'.
Proof.
  intros Hs H. destruct Hs;
    match goal with H0 : ?m s = Ret _ s' |- _ => assert (Hk : keeps mgr_ok m) by auto with keeps; by apply (Hk _ _ _ H H0) end.
Qed.

(** C19: Configuration invariant.  In every state that API calls reach from one
    without a manager, whatever the arguments, the results and the
    file-system behaviour, there are at most 16 backends and each carries its
    position as its id, the default backend is unset or accepts persistent
    objects, the ephemeral backend is unset or restricted to ephemeral objects, and
    the cache backend is unset or of memory type. *)
Theorem manager_config_invariant s s' m :
  bm s = None -> rtc api_step s s' -> bm s' = Some m -> config_ok m.
Proof.
  intros H0 Hr Hm. assert (Hok : mgr_ok s) by (unfold mgr_ok; by rewrite H0). clear H0.
  assert (Hok' : mgr_ok s') by (induction Hr; eauto using api_step_ok). unfold mgr_ok in Hok'. by rewrite Hm in Hok'.
Qed.

(** A machine with two mount points. *)
Definition sample_kernel : kernel :=
  Kernel {[ [bs "m"] := Dir; [bs "p"] := Dir ]} ∅ ∅ {[0 := 0; 1 := 1; 2 := 2]} [] [] 0 [] [].
Definition sample_bstate : bstate := BState (World sample_kernel ∅ ∅ ∅ 1 x00) None.

(** The set-up of the server: a memory and a persistent backend, with roles. *)
Definition sample_setup (nb : Z) : M bstate () :=
  _ ← backend_manager_create nb 2000;
  _ ← backend_manager_register BACKEND_TYPE_MEMORY (Some (bs "/m")) (Some (bs "mem")) 4096 53;
  _ ← backend_manager_register BACKEND_TYPE_SSD (Some (bs "/p")) (Some (bs "ssd")) 8192 54;
  _ ← backend_manager_set_default 1;
  _ ← backend_manager_set_ephemeral 0;
  _ ← backend_manager_set_cache 0;
  mret ().

Definition ret_state {A} (m : M bstate A) (s : bstate) : bstate := default s (state_of (m s)).
Definition sample_s1 : bstate := ret_state (backend_manager_create 16 100) sample_bstate.
Definition sample_s2 : bstate :=
  ret_state (backend_manager_register BACKEND_TYPE_MEMORY (Some (bs "/m")) (Some (bs "mem")) 4096 53) sample_s1.
Definition sample_s3 : bstate := ret_state (backend_manager_set_ephemeral 0) sample_s2.

Lemma manager_config_invariant_witness :
  bm sample_bstate = None /\ rtc api_step sample_bstate sample_s3 /\
  exists m, bm sample_s3 = Some m /\ ephemeral_backend_id m = 0 /\ config_ok m.
Proof.
  assert (Hr : rtc api_step sample_bstate sample_s3).
  { eapply rtc_l; [eapply (StepCreateManager _ sample_s1 16 100 true); vm_compute; reflexivity|].
    eapply rtc_l; [eapply (StepRegister _ sample_s2 BACKEND_TYPE_MEMORY (Some (bs "/m")) (Some (bs "mem")) 4096 53 0);
      vm_compute; reflexivity|].
    eapply rtc_l; [eapply (StepSetEphemeral _ sample_s3 0 0); vm_compute; reflexivity|]. apply rtc_refl. }
  split; [done|]. split; [done|].
  destruct (bm sample_s3) as [m|] eqn:Hm; [|vm_compute in Hm; discriminate].
  exists m. split; [done|]. split; [vm_compute in Hm; by injection Hm as <-|].
  exact (manager_config_invariant sample_bstate sample_s3 m eq_refl Hr Hm).
Defined.
