(* ===== verification/ObjectProofs.v ===== *)
(** * ObjectProofs: objects of the backend manager

    Where a created object goes, that it is found again, that refused requests
    change nothing, and how sizes are accounted for. *)

From S2P Require Import Prelude Socket Kernel KernelProofs Index IndexProofs IndexRefine Backend BackendProofs.

(** ** Facts about one entry that later calls keep *)

(** What identifies the object of an entry: everything but counts, times,
    descriptors and links. *)
Definition core (e : index_entry) : list byte * Z * Z * option (list byte) * Z * Z :=
  (uri e, uri_hash e, backend_id e, backend_path e, size_bytes e, flags e).

Definition entry_is (p : ptr) (c : list byte * Z * Z * option (list byte) * Z * Z) (w : world) : Prop :=
  core <$> ents w !! p = Some c.

(** [p] is the first entry of the bucket of [h] in the global index [idx]. *)
Definition heads_bucket (idx : ptr) (h : Z) (p : ptr) (w : world) : Prop :=
  exists g, gidxs w !! idx = Some g /\
    bucket_get (g_buckets g) (g_num_buckets g) (bucket_of h (g_num_buckets g)) = Some p.

Definition found_first (idx p : ptr) (h : Z) (c : list byte * Z * Z * option (list byte) * Z * Z) (w : world) : Prop :=
  entry_is p c w /\ heads_bucket idx h p w.

Lemma keeps_upd_entry idx p h c q f : (forall e, core (f e) = core e) -> keeps (found_first idx p h c) (upd_entry q f).
Proof.
  intros Hf w a w' [H1 H2] Hr. unfold upd_entry in Hr. destruct (ents w !! q) as [x|] eqn:E; [|done].
  injection Hr as _ <-. split; [|done]. unfold entry_is in *. simpl.
  destruct (decide (p = q)) as [->|]; [|by rewrite lookup_insert_ne].
  rewrite lookup_insert_eq. rewrite E in H1. simpl in *. by rewrite Hf.
Qed.

Lemma keeps_onk {A} idx p h c (m : M kernel A) : keeps (found_first idx p h c) (onk m).
Proof. intros w a w' H Hr. unfold onk in Hr. destruct (m (kern w)); try done. injection Hr as _ <-. exact H. Qed.

Lemma keeps_rd_entry I q : keeps I (rd_entry q).
Proof. intros w a w' H Hr. unfold rd_entry, deref in Hr. destruct (ents w !! q); [|done]. by injection Hr as _ <-. Qed.
Lemma keeps_rd_b I i : keeps I (rd_b i).
Proof. intros w a w' H Hr. unfold rd_b, deref in Hr. destruct (bidxs w !! i); [|done]. by injection Hr as _ <-. Qed.
Lemma keeps_upd_b idx p h c i f : keeps (found_first idx p h c) (upd_b i f).
Proof. intros w a w' H Hr. unfold upd_b in Hr. destruct (bidxs w !! i); [|done]. by injection Hr as _ <-. Qed.

#[export] Hint Resolve keeps_onk keeps_rd_entry keeps_rd_b keeps_upd_b : keeps.
#[export] Hint Extern 2 (keeps (found_first _ _ _ _) (upd_entry _ _)) => (apply keeps_upd_entry; by intros ?) : keeps.

Lemma keeps_entry_get idx p h c q : keeps (found_first idx p h c) (index_entry_get q).
Proof. unfold index_entry_get. keeps. Qed.
#[export] Hint Resolve keeps_entry_get : keeps.

Lemma keeps_backend_insert idx p h c i q : keeps (found_first idx p h c) (backend_index_insert i q).
Proof. unfold backend_index_insert. keeps. Qed.

(** ** Insertion, whatever the chains look like *)

Lemma find_in_state head h u w r w' : find_in head h u w = Ret r w' -> w' = w.
Proof.
  unfold find_in. generalize (chain_fuel w). intros fuel. revert head. induction fuel as [|fuel IH]; intros head Hr; simpl in Hr.
  { destruct (head =? NULL); [by injection Hr as _ <-|done]. }
  destruct (head =? NULL); [by injection Hr as _ <-|]. minv Hr.
  assert (s = w) as -> by (unfold rd_entry, deref in Hr0; destruct (ents w !! head); [by injection Hr0 as _ <-|done]).
  destruct (_ && _); [by injection Hr as _ <-|]. by apply IH in Hr.
Qed.

Lemma rd_entry_inv p e w w' : rd_entry p w = Ret e w' -> w' = w /\ ents w !! p = Some e.
Proof. unfold rd_entry, deref. destruct (ents w !! p) eqn:E; [|done]. by intros [= -> ->]. Qed.
Lemma rd_g_inv p e w w' : rd_g p w = Ret e w' -> w' = w /\ gidxs w !! p = Some e.
Proof. unfold rd_g, deref. destruct (gidxs w !! p) eqn:E; [|done]. by intros [= -> ->]. Qed.
Lemma deref_inv {S A} (o : option A) (s s' : S) a : deref o s = Ret a s' -> s' = s /\ o = Some a.
Proof. destruct o; [|done]. by intros [= -> ->]. Qed.

(** Between [lo] and [hi] references to [p]. *)
Definition counted (p : ptr) (lo hi : Z) (w : world) : Prop :=
  exists e, ents w !! p = Some e /\ lo <= entry_refcount e <= hi.

Lemma counted_upd p lo hi d f w w' :
  (forall e, entry_refcount (f e) = s32 (entry_refcount e + d)) -> - 2 ^ 31 <= lo + d -> hi + d < 2 ^ 31 ->
  counted p lo hi w -> upd_entry p f w = Ret () w' -> counted p (lo + d) (hi + d) w'.
Proof.
  intros Hf Hlo Hhi (e & He & Hr) Hu. rewrite (upd_entry_eq _ _ _ _ He) in Hu. injection Hu as <-.
  eexists. split; [apply lookup_insert_eq|]. rewrite Hf, s32_small; lia.
Qed.

Lemma counted_same p lo hi f w w' :
  (forall e, entry_refcount (f e) = entry_refcount e) ->
  counted p lo hi w -> upd_entry p f w = Ret () w' -> counted p lo hi w'.
Proof.
  intros Hf (e & He & Hr) Hu. rewrite (upd_entry_eq _ _ _ _ He) in Hu. injection Hu as <-.
  eexists. split; [apply lookup_insert_eq|]. by rewrite Hf.
Qed.

Lemma entry_get_counted p lo hi w w' : - 2 ^ 31 <= lo + 1 -> hi + 1 < 2 ^ 31 -> p <> NULL ->
  counted p lo hi w -> index_entry_get p w = Ret () w' -> counted p (lo + 1) (hi + 1) w'.
Proof.
  intros Hlo Hhi Hp Hc Hr. unfold index_entry_get in Hr. rewrite NULL_eqb in Hr by done.
  refine (counted_upd p lo hi 1 _ w w' _ Hlo Hhi Hc Hr). by intros e.
Qed.

(** The backend index takes a reference of its own, if there is one. *)
Lemma backend_insert_counted i p w rc w' :
  p <> NULL -> counted p 1 1 w -> backend_index_insert i p w = Ret rc w' -> counted p 1 2 w'.
Proof.
  intros Hp Hc Hr. unfold backend_index_insert in Hr. rewrite (NULL_eqb p Hp) in Hr.
  destruct ((i =? NULL) || false).
  { injection Hr as _ <-. destruct Hc as (e & He & Hx). exists e. split; [done|lia]. }
  minv Hr. unfold rd_b in Hr0. apply deref_inv in Hr0 as [-> _]. minv Hr. apply rd_entry_inv in Hr0 as [-> _].
  minv Hr. destruct a1. apply (entry_get_counted p 1 1) in Hr0; [|lia..|done|done].
  minv Hr. apply deref_inv in Hr1 as [-> _]. minv Hr. destruct a2.
  apply (counted_same p (1 + 1) (1 + 1)) in Hr1; [|done|done].
  minv Hr. injection Hr as _ <-. unfold upd_b in Hr2. destruct (_ !! i); [|done]. injection Hr2 as _ <-.
  destruct Hr1 as (e' & He' & Hx). exists e'. split; [done|lia].
Qed.

Lemma global_insert_inv idx p w rc w' e :
  global_index_insert idx p w = Ret rc w' -> 0 <= rc -> ents w !! p = Some e ->
  rc = 0 /\ found_first idx p (uri_hash e) (core e) w' /\ counted p (entry_refcount e) (entry_refcount e) w'.
Proof.
  intros Hr Hrc He. unfold global_index_insert in Hr.
  destruct ((idx =? NULL) || (p =? NULL)); [injection Hr; lia|].
  minv Hr. apply rd_g_inv in Hr0 as [-> Hg]. minv Hr. apply rd_entry_inv in Hr0 as [-> He'].
  rewrite He in He'. injection He' as <-. minv Hr. apply deref_inv in Hr0 as [-> Hb].
  minv Hr. apply find_in_state in Hr0 as ->. destruct (negb _); [injection Hr; lia|].
  minv Hr. unfold upd_entry in Hr0. rewrite He in Hr0. injection Hr0 as _ <-.
  minv Hr. unfold upd_g in Hr0. simpl in Hr0. rewrite Hg in Hr0. injection Hr0 as _ <-. injection Hr as <- <-.
  split; [done|]. split; [split|].
  - unfold entry_is. simpl. by rewrite lookup_insert_eq.
  - eexists. split; [apply lookup_insert_eq|]. simpl. unfold bucket_get in *. destruct (_ && _); [|done].
    by rewrite lookup_insert_eq.
  - eexists. split; [apply lookup_insert_eq|]. simpl. lia.
Qed.

Lemma entry_create_inv u bid path w p w' :
  index_entry_create u bid path w = Ret p w' -> p <> NULL ->
  ents w' !! p = Some (new_entry u bid path).
Proof.
  intros Hr Hp. unfold index_entry_create in Hr. minv Hr. destruct a; [|by injection Hr as <- _].
  cbn [negb] in Hr. minv Hr. minv Hr. destruct (negb _ || negb _); [by injection Hr as <- _|].
  minv Hr. minv Hr. injection Hr as <- <-. injection Hr4 as _ <-. simpl. apply lookup_insert_eq.
Qed.

(** ** The file of a new object *)

(** Descriptor [fd] is open at the start of the empty regular file at [path],
    for reading and writing. *)
Definition new_file (path : list byte) (fd : Z) (k : kernel) : Prop :=
  exists d i o, resolve k path = Some d /\ node_at k d = Some (File i) /\ inodes k !! i = Some [] /\
    fdtab k !! fd = Some o /\ ofds k !! o = Some (Ofd (Some i) 0 true true).

Lemma open_create_inv p k fd k' :
  sys_open p O_RDWR true true k = Ret fd k' -> 0 <= fd -> new_file p fd k'.
Proof.
  intros Hr Hfd. unfold sys_open in Hr. minv Hr. destruct (refused_spec k) as (b & l & Hrf). rewrite Hrf in Hr0.
  injection Hr0 as <- <-. minv Hr. injection Hr0 as <- <-. set (k1 := set_sched l k) in *.
  destruct b; [injection Hr; lia|].
  destruct (resolve k1 p) as [d|] eqn:Hres; [|injection Hr; lia].
  destruct (node_at k1 d) as [[|i]|] eqn:Hn; [injection Hr; lia| |].
  - minv Hr. injection Hr0 as _ <-. injection Hr as <- <-. exists d, i, (fresh_id (ofds k1)).
    split; [rewrite <- Hres; by apply resolve_names|]. split; [exact Hn|]. repeat split; simpl; apply lookup_insert_eq.
  - minv Hr. injection Hr0 as _ <-. injection Hr as <- <-.
    assert (Hd : d <> []) by (intros ->; done).
    exists d, (fresh_id (inodes k1)), (fresh_id (ofds k1)). split; [|split; [|split; [|split]]]; simpl; try apply lookup_insert_eq.
    + rewrite <- Hres. apply resolve_names; [|done]. intros [|c d0]; [done|]. unfold is_dir. simpl.
      destruct (decide (c :: d0 = d)) as [<-|Hne]; [|by rewrite lookup_insert_ne].
      rewrite lookup_insert_eq. simpl in Hn. unfold k1 in Hn. simpl in Hn. by rewrite Hn.
    + unfold node_at. destruct d; [done|]. simpl. apply lookup_insert_eq.
Qed.

Lemma create_file_inv path w fd w' : create_file path w = Ret fd w' -> 0 <= fd -> new_file path fd (kern w').
Proof.
  intros Hr Hfd. unfold create_file in Hr. minv Hr. destruct (a <? 0); [injection Hr; lia|].
  unfold onk in Hr. destruct (sys_open path O_RDWR true true (kern s)) as [x k| |] eqn:Ho; try done.
  injection Hr as -> <-. by apply open_create_inv in Ho.
Qed.

(** A property of the kernel that does not depend on the allocator survives
    everything that creation does after opening the file. *)
Definition on_kern (P : kernel -> Prop) (w : world) : Prop := P (kern w).

Section OnKern.
Context (P : kernel -> Prop) (HP : forall k l, P k -> P (set_k_oom l k)).

Lemma keeps_k_upd_entry q f : keeps (on_kern P) (upd_entry q f).
Proof. intros w a w' H Hr. unfold upd_entry in Hr. destruct (ents w !! q); [|done]. by injection Hr as _ <-. Qed.
Lemma keeps_k_upd_g q f : keeps (on_kern P) (upd_g q f).
Proof. intros w a w' H Hr. unfold upd_g in Hr. destruct (gidxs w !! q); [|done]. by injection Hr as _ <-. Qed.
Lemma keeps_k_upd_b q f : keeps (on_kern P) (upd_b q f).
Proof. intros w a w' H Hr. unfold upd_b in Hr. destruct (bidxs w !! q); [|done]. by injection Hr as _ <-. Qed.
Lemma keeps_k_rd_g q : keeps (on_kern P) (rd_g q).
Proof. intros w a w' H Hr. by apply rd_g_inv in Hr as [-> _]. Qed.
Lemma keeps_k_find head h u : keeps (on_kern P) (find_in head h u).
Proof. intros w a w' H Hr. by apply find_in_state in Hr as ->. Qed.
Lemma keeps_k_malloc : keeps (on_kern P) (onk sys_malloc).
Proof.
  intros w a w' H Hr. unfold onk, sys_malloc in Hr.
  destruct (k_oom (kern w)) as [|b o]; injection Hr as _ <-; [exact H|]. by apply HP.
Qed.
Lemma keeps_k_alloc : keeps (on_kern P) alloc_ptr.
Proof. intros w a w' H [= _ <-]. exact H. Qed.
Lemma keeps_k_ents f : keeps (on_kern P) (modify (fun w => set_ents (f w) w)).
Proof. intros w a w' H [= _ <-]. exact H. Qed.

#[local] Hint Resolve keeps_k_upd_entry keeps_k_upd_g keeps_k_upd_b keeps_k_rd_g keeps_k_find keeps_k_malloc
  keeps_k_alloc keeps_k_ents : keeps.

Lemma keeps_k_entry_create u id p : keeps (on_kern P) (index_entry_create u id p).
Proof. unfold index_entry_create. keeps. Qed.
Lemma keeps_k_entry_get q : keeps (on_kern P) (index_entry_get q).
Proof. unfold index_entry_get. keeps. Qed.
#[local] Hint Resolve keeps_k_entry_get : keeps.
Lemma keeps_k_global_insert i q : keeps (on_kern P) (global_index_insert i q).
Proof. unfold global_index_insert. keeps. Qed.
Lemma keeps_k_backend_insert i q : keeps (on_kern P) (backend_index_insert i q).
Proof. unfold backend_index_insert. keeps. Qed.
End OnKern.

Lemma new_file_oom p fd k l : new_file p fd k -> new_file p fd (set_k_oom l k).
Proof.
  intros (d & i & o & H1 & H2 & H3 & H4 & H5). exists d, i, o. split; [|done].
  rewrite <- H1. by apply resolve_names.
Qed.

(** ** Creation *)

Lemma onw_inv {A} (m : M world A) s a s' : onw m s = Ret a s' -> m (wd s) = Ret a (wd s') /\ bm s' = bm s.
Proof. unfold onw. destruct (m (wd s)); try done. by intros [= <- <-]. Qed.

Lemma upd_bm_inv f s s' : upd_bm f s = Ret () s' -> wd s' = wd s /\ exists m, bm s = Some m /\ bm s' = Some (f m).
Proof. unfold upd_bm. destruct (bm s) as [m|]; [|done]. intros [= <-]. eauto. Qed.

(** Everything a successful creation has established. *)
Record created (m : backend_manager) (req : object_create_req_t) (u : list byte) (ref : fd_ref_t) (s' : bstate)
  (id : Z) (b : backend_info) (mp : list byte) : Prop := {
  cd_target : target_backend m req = Some id;
  cd_backend : nth_backend m id = Some b;
  cd_enabled : has_flag (bk_flags b) BACKEND_FLAG_ENABLED = true;
  cd_placed : cr_ephemeral req = true -> ephemeral_only b = true;
  cd_mount : mount_path b = Some mp;
  cd_entry : found_first (bm_global_index m) (fr_entry ref) (index_hash_string u)
    (u, index_hash_string u, u32 id, Some (snprintf_text 1024 (mp ++ u)), 0, object_flags req) (wd s');
  cd_live : fr_entry ref <> NULL /\ 0 <= fr_fd ref;
  cd_count : counted (fr_entry ref) 2 3 (wd s');
  cd_fds : exists e, ents (wd s') !! fr_entry ref = Some e /\ fd_refcount e = 1;
  cd_file : new_file (snprintf_text 1024 (mp ++ u)) (fr_fd ref) (kern (wd s'))
}.

Lemma create_inv m req u s ref s' :
  bm s = Some m -> cr_uri req = Some u ->
  backend_create_object (Some req) true s = Ret (0, Some ref) s' ->
  exists id b mp, created m req u ref s' id b mp /\
    exists m', bm s' = Some m' /\ total_objects m' = u64 (total_objects m + 1) /\ total_bytes m' = total_bytes m /\
      bm_global_index m' = bm_global_index m.
Proof.
  intros Hm Hu Hr. unfold backend_create_object in Hr. minv Hr. injection Hr0 as <- <-. rewrite Hm, Hu in Hr.
  cbn [negb] in Hr. destruct (target_backend m req) as [id|] eqn:Ht; [|done].
  minv Hr. destruct a as [[i b]|]; [|done]. apply get_backend_nth in Hr0 as (-> & -> & m0 & Hm0 & Hb).
  rewrite Hm in Hm0. injection Hm0 as <-.
  destruct (has_flag (bk_flags b) BACKEND_FLAG_ENABLED) eqn:Hen; cbn [negb] in Hr; [|done].
  destruct (cr_ephemeral req && negb (has_flag (bk_flags b) BACKEND_FLAG_EPHEMERAL_ONLY)) eqn:Hpl; [done|].
  minv Hr. apply deref_inv in Hr0 as [-> Hmp]. cbv zeta in Hr. rename a into mp.
  minv Hr. apply onw_inv in Hr0 as [Hopen B1]. rename a into fd. destruct (fd <? 0) eqn:Hfd; [done|].
  apply create_file_inv in Hopen; [|by apply Z.ltb_ge].
  minv Hr. apply onw_inv in Hr0 as [Hc B2]. rename a into p.
  destruct (p =? NULL) eqn:Hp; [by repeat (minv Hr)|]. apply Z.eqb_neq in Hp.
  pose proof (keeps_k_entry_create _ (new_file_oom _ _) _ _ _ _ _ _ Hopen Hc) as K1. apply entry_create_inv in Hc; [|done].
  minv Hr. apply onw_inv in Hr0 as [Hset B3]. pose proof (keeps_k_upd_entry _ _ _ _ _ _ K1 Hset) as K2. unfold upd_entry in Hset. rewrite Hc in Hset. injection Hset as _ Hset.
  minv Hr. apply onw_inv in Hr0 as [Hins B4]. pose proof (keeps_k_global_insert _ _ _ _ _ _ K2 Hins) as K3. rename a0 into rc. destruct (rc <? 0) eqn:Hrc; [by repeat (minv Hr)|].
  apply Z.ltb_ge in Hrc, Hfd.
  set (e := set_meta 0 0 (object_flags req) (new_entry u id (snprintf_text 1024 (mp ++ u)))).
  assert (He : ents (wd s2) !! p = Some e) by (rewrite <- Hset; apply lookup_insert_eq).
  destruct (global_insert_inv _ _ _ _ _ _ Hins Hrc He) as (_ & Hff & N1). change (entry_refcount e) with 1 in N1.
  minv Hr. apply onw_inv in Hr0 as [Hbi B5]. pose proof (keeps_k_backend_insert _ _ _ _ _ _ K3 Hbi) as K4.
  apply (backend_insert_counted _ _ _ _ _ Hp N1) in Hbi as N2. apply (keeps_backend_insert _ _ _ _ _ _ _ _ _ Hff) in Hbi.
  minv Hr. destruct a1. apply upd_bm_inv in Hr0 as [W6 (m6 & B6 & B6')].
  minv Hr. destruct a1. apply upd_bm_inv in Hr0 as [W7 (m7 & B7 & B7')].
  minv Hr. apply onw_inv in Hr0 as [Hue B8]. rewrite W7, W6 in Hue. pose proof (keeps_k_upd_entry _ _ _ _ _ _ K4 Hue) as K5.
  destruct a1. apply (counted_same p 1 2) in Hue as N3; [|done|done].
  assert (Hff8 : found_first (bm_global_index m) p (uri_hash e) (core e) (wd s7)).
  { refine (keeps_upd_entry _ _ _ _ _ _ _ _ _ _ Hbi Hue). by intros. }
  assert (Hfc : exists e, ents (wd s7) !! p = Some e /\ fd_refcount e = 1).
  { destruct N2 as (e2 & He2 & _). rewrite (upd_entry_eq _ _ _ _ He2) in Hue. injection Hue as <-. eexists. split; [apply lookup_insert_eq|done]. }
  minv Hr. apply onw_inv in Hr0 as [Heg B9]. pose proof (keeps_k_entry_get _ _ _ _ _ K5 Heg) as K6.
  assert (Hfc' : exists e, ents (wd s8) !! p = Some e /\ fd_refcount e = 1).
  { destruct Hfc as (e7 & He7 & Hf7). unfold index_entry_get in Heg. rewrite NULL_eqb in Heg by done.
    rewrite (upd_entry_eq _ _ _ _ He7) in Heg. injection Heg as _ <-. eexists. split; [apply lookup_insert_eq|done]. }
  destruct a1. apply (entry_get_counted p 1 2) in Heg as N4; [|lia..|done|done]. apply (keeps_entry_get _ _ _ _ _ _ _ _ Hff8) in Heg.
  injection Hr as <- <-. exists id, b, mp. split.
  - split; simpl; try done. intros He'. unfold ephemeral_only. rewrite He' in Hpl. by destruct (has_flag (bk_flags b) BACKEND_FLAG_EPHEMERAL_ONLY).
  - assert (Hm6 : m6 = m) by congruence. subst m6. rewrite B6' in B7. injection B7 as <-.
    rewrite B9, B8, B7'. eexists. split; [reflexivity|]. done.
Qed.

(** C21: Placement.  A successful creation puts the object on the backend the
    request names or, without one, on the backend of its role, and that backend is
    enabled.  When the member [ephemeral] of the request is set, the backend is an
    ephemeral-only one; when it is not set and the request names no backend, it is, in every
    reachable configuration, not an ephemeral-only one.  A backend that a
    persistent request names is not checked, nor are the bits of [flags]
    ([Findings]).  The new entry records the URI, that backend, the path
    below the backend's mount point (cut at 1023 characters), size 0 and the
    request's flags with the ephemeral or persistent one; an empty file is at that path and the handle's
    descriptor is open on it; the manager counts one more object. *)
Theorem create_object_placement m req u s ref s' :
  bm s = Some m -> config_ok m -> cr_uri req = Some u ->
  backend_create_object (Some req) true s = Ret (0, Some ref) s' ->
  exists id b mp e m',
    target_backend m req = Some id /\ nth_backend m id = Some b /\
    has_flag (bk_flags b) BACKEND_FLAG_ENABLED = true /\
    (cr_ephemeral req = true -> ephemeral_only b = true) /\
    (cr_ephemeral req = false -> cr_backend_id req < 0 -> ephemeral_only b = false) /\
    mount_path b = Some mp /\ ents (wd s') !! fr_entry ref = Some e /\
    core e = (u, index_hash_string u, u32 id, Some (snprintf_text 1024 (mp ++ u)), 0, object_flags req) /\
    new_file (snprintf_text 1024 (mp ++ u)) (fr_fd ref) (kern (wd s')) /\
    bm s' = Some m' /\ total_objects m' = u64 (total_objects m + 1).
Proof.
  intros Hm Hok Hu Hr. destruct (create_inv m req u s ref s' Hm Hu Hr) as (id & b & mp & Hc & m' & Hm' & Ht & _).
  destruct Hc as [C1 C2 C3 C4 C5 [C6 _] _ _ C8]. apply fmap_Some in C6 as (e & He & Hcore).
  exists id, b, mp, e, m'. repeat (split; [done|]). split; [|done].
  intros Hper Hneg. unfold target_backend in C1. rewrite Hper, (proj2 (Z.ltb_lt _ _) Hneg) in C1.
  destruct (default_backend_id m <? 0) eqn:Hd; [done|]. injection C1 as <-.
  destruct (co_default _ Hok) as [Hx|(b' & Hb' & Heph)]; [apply Z.ltb_ge in Hd; lia|].
  rewrite C2 in Hb'. by injection Hb' as <-.
Qed.

Lemma create_then_get_walk p u e w fuel :
  ents w !! p = Some e -> uri e = u -> uri_hash e = index_hash_string u -> p <> NULL ->
  chain_find (S fuel) p (index_hash_string u) u w = Ret p w.
Proof.
  intros He Hu Hh Hp. cbn [chain_find]. rewrite NULL_eqb by done. run (rd_entry_eq _ _ _ He).
  by rewrite Hh, Hu, Z.eqb_refl, bool_decide_eq_true_2.
Qed.

(** A manager but for the number of reads of its backends. *)
Definition unread (m : backend_manager) : backend_manager :=
  set_backends ((fun b => set_ops 0 (writes b) (migrations_in b) (migrations_out b) b) <$> backends m) m.

Lemma unread_count m i : unread (set_backends (alter (fun b => set_ops (u64 (reads b + 1)) (writes b)
  (migrations_in b) (migrations_out b) b) i (backends m)) m) = unread m.
Proof.
  unfold unread, set_backends. simpl. f_equal. rewrite (list_fmap_alter _ _ id); [by apply list_alter_id|].
  apply list.Forall_forall. done.
Qed.

(** The rest of [backend_get_object] after a lookup that found entry [q]. *)
Lemma get_object_found s m u q fd w1 e1 :
  bm s = Some m -> global_index_lookup (bm_global_index m) (Some u) true (wd s) = Ret (0, Some (FdRef q fd 0)) w1 ->
  q <> NULL -> ents w1 !! q = Some e1 ->
  exists t k2 m', backend_get_object (Some u) true s = Ret (0, Some (FdRef q fd 0))
      (BState (set_kern k2 (set_ents (<[q:=set_access (u64 (access_count e1 + 1)) t e1]> (ents w1)) w1)) (Some m')) /\
    unread m' = unread m /\ same_fs (kern w1) k2 /\ fdtab k2 = fdtab (kern w1) /\ ofds k2 = ofds (kern w1) /\
    sched k2 = sched (kern w1).
Proof.
  intros Hm Hl Hq He1. unfold backend_get_object.
  assert (Hgb : get_bm s = Ret (Some m) s) by (unfold get_bm; by rewrite Hm). run Hgb.
  assert (Hl' : onw (global_index_lookup (bm_global_index m) (Some u) true) s = Ret (0, Some (FdRef q fd 0)) (BState w1 (bm s)))
    by (unfold onw; by rewrite Hl).
  run Hl'. destruct (record_access_ok q e1 w1 Hq He1) as (t & k2 & Hra & Hk).
  set (e2 := set_access _ t e1) in *. set (w2 := set_kern k2 _) in *. exists t, k2.
  assert (Hra' : onw (index_entry_record_access q) (BState w1 (bm s)) = Ret () (BState w2 (bm s)))
    by (unfold onw; simpl; by rewrite Hra).
  run Hra'. assert (He2 : ents w2 !! q = Some e2) by apply lookup_insert_eq.
  assert (Hrd : onw (rd_entry q) (BState w2 (bm s)) = Ret e2 (BState w2 (bm s)))
    by (unfold onw; simpl; by rewrite (rd_entry_eq _ _ _ He2)).
  run Hrd. unfold backend_manager_get_backend. rewrite bind_assoc.
  assert (Hgb2 : get_bm (BState w2 (bm s)) = Ret (Some m) (BState w2 (bm s))) by (unfold get_bm; simpl; by rewrite Hm).
  run Hgb2. rewrite Hm.
  destruct (s32 (backend_id e2) <? 0); [by exists m|].
  rewrite bind_ret_l. destruct (backends m !! Z.to_nat (s32 (backend_id e2))) as [b2|]; [|by exists m].
  cbn [fmap option_fmap option_map]. eexists. split; [reflexivity|]. split; [|exact Hk]. apply unread_count.
Qed.

(** C23: Read your writes.  Right after a successful creation, a lookup of the
    same URI succeeds and returns the entry just created, whatever other
    objects collide with it and whether or not its file can be opened again. *)
Theorem create_then_get m req u s ref s' :
  bm s = Some m -> bm_global_index m <> NULL -> cr_uri req = Some u ->
  backend_create_object (Some req) true s = Ret (0, Some ref) s' ->
  exists ref' s'', backend_get_object (Some u) true s' = Ret (0, Some ref') s'' /\ fr_entry ref' = fr_entry ref /\
    exists e, ents (wd s'') !! fr_entry ref = Some e /\ uri e = u /\ flags e = object_flags req.
Proof.
  intros Hm Hg Hu Hr. destruct (create_inv m req u s ref s' Hm Hu Hr) as (id & b & mp & Hc & m' & Hm' & _ & _ & Hgi).
  destruct Hc as [_ _ _ _ _ [Hent (g & Hgx & Hb)] [Hp _] _ _].
  apply fmap_Some in Hent as (e & He & [= E1 E2 E3 E4 E5 E6]).
  destruct (global_lookup_found (bm_global_index m) u (wd s') g (fr_entry ref) (fr_entry ref) e) as (fd & t & k' & Hl & _); try done.
  { intros w1 Hw1. apply create_then_get_walk with e; congruence. }
  rewrite <- Hgi in Hl.
  destruct (get_object_found s' m' u (fr_entry ref) fd _ (looked_up fd t e) Hm' Hl Hp) as (t2 & k2 & m2 & Hget & _).
  { simpl. apply lookup_insert_eq. }
  eexists _, _. split; [exact Hget|]. split; [done|]. eexists. split; [simpl; apply lookup_insert_eq|].
  unfold looked_up. destruct (0 <=? fd); simpl; split; congruence.
Qed.

(** ** Witnesses on a concrete server *)

Definition sample_req (u : string) (eph : bool) : object_create_req_t := CreateReq (Some (bs u)) (-1) eph 0 0.
Definition sample_ready : bstate := ret_state (sample_setup 8192) sample_bstate.
Definition sample_mgr : backend_manager := default (new_manager NULL) (bm sample_ready).
Lemma sample_mgr_ok : config_ok sample_mgr.
Proof.
  assert (H : mgr_ok sample_ready).
  { assert (Hk : keeps mgr_ok (sample_setup 8192)) by (unfold sample_setup; keeps).
    apply (Hk sample_bstate () sample_ready); [exact I|]. vm_compute. reflexivity. }
  exact H.
Qed.

Definition sample_ref : fd_ref_t := FdRef 4 3 0.

Lemma create_object_placement_witness :
  exists s', backend_create_object (Some (sample_req "/t/x" true)) true sample_ready = Ret (0, Some sample_ref) s' /\
  exists b, nth_backend sample_mgr 0 = Some b /\ ephemeral_only b = true.
Proof.
  assert (Hres : result_of (backend_create_object (Some (sample_req "/t/x" true)) true sample_ready) = Some (0, Some sample_ref)) by (vm_compute; reflexivity).
  destruct (backend_create_object (Some (sample_req "/t/x" true)) true sample_ready) as [a s'| |] eqn:Hr; [|discriminate..]. injection Hres as ->.
  exists s'. split; [done|].
  destruct (create_object_placement sample_mgr (sample_req "/t/x" true) (bs "/t/x") sample_ready sample_ref s')
    as (id & b & mp & e & m' & Ht & Hb & _ & Heph & _).
  - vm_compute. reflexivity.
  - apply sample_mgr_ok.
  - reflexivity.
  - exact Hr.
  - assert (id = 0) as -> by (vm_compute in Ht; congruence). exists b. split; [exact Hb|]. by apply Heph.
Defined.

Lemma create_then_get_witness :
  exists s' ref' s'', backend_create_object (Some (sample_req "/t/x" false)) true sample_ready = Ret (0, Some sample_ref) s' /\
    backend_get_object (Some (bs "/t/x")) true s' = Ret (0, Some ref') s'' /\ fr_entry ref' = 4.
Proof.
  assert (Hres : result_of (backend_create_object (Some (sample_req "/t/x" false)) true sample_ready) = Some (0, Some sample_ref)) by (vm_compute; reflexivity).
  destruct (backend_create_object (Some (sample_req "/t/x" false)) true sample_ready) as [a s'| |] eqn:Hr; [|discriminate..]. injection Hres as ->.
  destruct (create_then_get sample_mgr (sample_req "/t/x" false) (bs "/t/x") sample_ready sample_ref s')
    as (ref' & s'' & Hg & Hf & _).
  - vm_compute. reflexivity.
  - vm_compute. discriminate.
  - reflexivity.
  - exact Hr.
  - exists s', ref', s''. split; [done|]. split; [exact Hg|exact Hf].
Defined.

(** ** Refusals *)

(** The request cannot be served: no role is set for it, the backend does not
    exist or is disabled, or an ephemeral object would leave volatile storage. *)
Definition refusable (m : backend_manager) (req : object_create_req_t) : Prop :=
  match target_backend m req with
  | None => True
  | Some id =>
      match nth_backend m id with
      | None => True
      | Some b => has_flag (bk_flags b) BACKEND_FLAG_ENABLED = false \/
                  (cr_ephemeral req = true /\ ephemeral_only b = false)
      end
  end.

Lemma get_backend_eq s m id : bm s = Some m ->
  backend_manager_get_backend id s = Ret ((fun b => (Z.to_nat id, b)) <$> nth_backend m id) s.
Proof.
  intros Hm. unfold backend_manager_get_backend, get_bm, nth_backend, mbind, M_bind. rewrite Hm. by destruct (id <? 0).
Qed.

Lemma create_refused_eq m req u s :
  bm s = Some m -> cr_uri req = Some u -> refusable m req ->
  backend_create_object (Some req) true s = Ret (-1, None) s.
Proof.
  intros Hm Hu Href. unfold backend_create_object, refusable in *.
  assert (Hgb : get_bm s = Ret (Some m) s) by (unfold get_bm; by rewrite Hm). run Hgb. rewrite Hu. cbn [negb].
  destruct (target_backend m req) as [id|]; [|done]. run (get_backend_eq s m id Hm).
  destruct (nth_backend m id) as [b|]; [|done]. cbn [fmap option_fmap option_map].
  destruct Href as [->|[-> Heph]]; [done|]. unfold ephemeral_only in Heph. rewrite Heph.
  by destruct (negb (has_flag (bk_flags b) BACKEND_FLAG_ENABLED)).
Qed.

(** Refused creations.  When no role is set for the request, the chosen
    backend does not exist or is disabled, or an ephemeral object is aimed at a
    backend that is not ephemeral-only, [backend_create_object] returns -1 and
    has no effect at all: no file, directory, entry, descriptor or counter
    changes. *)
Theorem create_object_refused m req u s :
  bm s = Some m -> cr_uri req = Some u -> refusable m req ->
  backend_create_object (Some req) true s = Ret (-1, None) s.
Proof. apply create_refused_eq. Qed.

Lemma create_object_refused_witness :
  backend_create_object (Some (CreateReq (Some (bs "/secret")) 1 true 0 0)) true sample_ready = Ret (-1, None) sample_ready.
Proof.
  apply (create_object_refused sample_mgr (CreateReq (Some (bs "/secret")) 1 true 0 0) (bs "/secret")).
  - vm_compute. reflexivity.
  - reflexivity.
  - vm_compute. right. split; reflexivity.
Defined.

(** ** Watermarks *)

(** A [double] that is a number. *)
Definition is_number (x : spec_float) : Prop := x <> S754_nan.

Lemma SFltb_negb x y : is_number x -> is_number y -> SFltb x y = negb (SFleb y x).
Proof.
  intros Hx Hy. unfold is_number, SFltb, SFleb in *.
  destruct x as [s1|s1| |s1 m1 e1], y as [s2|s2| |s2 m2 e2]; try done; simpl; try (by destruct s1, s2); try (by destruct s1); try (by destruct s2).
  change (Pos.compare_cont Eq) with Pos.compare. rewrite (Z.compare_antisym e1 e2), (Pos.compare_antisym m1 m2).
  destruct s1, s2, (Z.compare e1 e2); simpl; try done; by destruct (Pos.compare m1 m2).
Qed.

(** Watermarks.  For an existing backend and arguments that are numbers,
    [backend_set_watermarks] accepts exactly pairs with both marks in [0, 1] and
    [low < high] (as doubles), stores them and changes nothing else; otherwise
    it returns -1 and the state is as before. *)
Theorem set_watermarks_spec m id b high low s :
  bm s = Some m -> nth_backend m id = Some b -> is_number high -> is_number low ->
  let in_range x := SFleb (dbl 0) x && SFleb x (dbl 1) in
  backend_set_watermarks id high low s =
    if in_range high && in_range low && SFltb low high
    then Ret 0 (BState (wd s) (Some (set_backends (alter (set_marks high low) (Z.to_nat id) (backends m)) m)))
    else Ret (-1) s.
Proof.
  intros Hm Hb Hh Hl in_range.
  assert (H0 : is_number (dbl 0)) by (vm_compute; discriminate). assert (H1 : is_number (dbl 1)) by (vm_compute; discriminate).
  unfold backend_set_watermarks, dgt, dge, in_range. rewrite !SFltb_negb by done.
  destruct (SFleb (dbl 0) high), (SFleb high (dbl 1)), (SFleb (dbl 0) low), (SFleb low (dbl 1)), (SFleb high low);
    cbn [negb orb andb]; try reflexivity.
  run (get_backend_eq s m id Hm). rewrite Hb. cbn [fmap option_fmap option_map].
  unfold upd_backend, upd_bm, mbind, M_bind. by rewrite Hm.
Qed.

Lemma set_watermarks_spec_witness :
  exists s', backend_set_watermarks 1 (dlit 9 10) (dlit 5 10) sample_ready = Ret 0 s'.
Proof.
  destruct (nth_backend sample_mgr 1) as [b|] eqn:Hb; [|vm_compute in Hb; discriminate].
  eexists. rewrite (set_watermarks_spec sample_mgr 1 b (dlit 9 10) (dlit 5 10) sample_ready).
  - reflexivity.
  - vm_compute. reflexivity.
  - exact Hb.
  - vm_compute. discriminate.
  - vm_compute. discriminate.
Defined.

(** Not-a-number watermarks pass the range check: every comparison of the
    guard is false for them, so the call succeeds and stores them. *)
Theorem set_watermarks_accepts_nan m id b s :
  bm s = Some m -> nth_backend m id = Some b ->
  backend_set_watermarks id S754_nan S754_nan s =
    Ret 0 (BState (wd s) (Some (set_backends (alter (set_marks S754_nan S754_nan) (Z.to_nat id) (backends m)) m))).
Proof.
  intros Hm Hb. unfold backend_set_watermarks.
  match goal with |- context [if ?c then mret (-1) else _] => replace c with false by (vm_compute; reflexivity) end.
  run (get_backend_eq s m id Hm). rewrite Hb. cbn [fmap option_fmap option_map].
  unfold upd_backend, upd_bm, mbind, M_bind. by rewrite Hm.
Qed.

Lemma set_watermarks_accepts_nan_witness :
  exists s', backend_set_watermarks 1 S754_nan S754_nan sample_ready = Ret 0 s'.
Proof.
  destruct (nth_backend sample_mgr 1) as [b|] eqn:Hb; [|vm_compute in Hb; discriminate].
  eexists. apply (set_watermarks_accepts_nan sample_mgr 1 b sample_ready).
  - vm_compute. reflexivity.
  - exact Hb.
Defined.
