(* ===== verification/Accounting.v ===== *)
(** * Accounting: object counts and sizes of the backend manager

    The manager counts objects and bytes twice: per backend and in total.  Over
    every sequence of API calls, whatever the arguments, the kernel and the allocator
    do, the totals are the sums over the backends, modulo the width of the
    counters: creation, deletion, scans, size updates and migrations move both
    sides alike.  A migration subtracts and adds the size it reads from the entry
    at two moments; the steps between them keep it. *)

From S2P Require Import Prelude Socket Kernel Index IndexProofs Backend BackendProofs.

(** ** Sums modulo 2^64 *)

Definition sum (l : list Z) : Z := foldr Z.add 0 l.

(** Changing one element changes the sum by the difference. *)
Lemma sum_alter (g : backend_info -> Z) f i (l : list backend_info) d :
  (i < length l)%nat -> (forall b, eq64 (g (f b)) (g b + d)) -> eq64 (sum (g <$> alter f i l)) (sum (g <$> l) + d).
Proof.
  revert i. induction l as [|x l IH]; intros i Hi Hf; [simpl in Hi; lia|]. destruct i as [|i]; cbn.
  - rewrite (Hf x). change (foldr Z.add 0 (g <$> l)) with (sum (g <$> l)). apply eq_subrelation; [apply _|lia].
  - change (foldr Z.add 0 (g <$> ?l)) with (sum (g <$> l)). rewrite (IH i) by (simpl in Hi; lia || done).
    change (foldr Z.add 0 (g <$> l)) with (sum (g <$> l)). apply eq_subrelation; [apply _|lia].
Qed.

(** ** The invariant *)

(** [n] backends; the totals are ahead of the sums by [o] objects and [b] bytes. *)
Record ahead (n : nat) (o b : Z) (m : backend_manager) : Prop := {
  ah_len : length (backends m) = n;
  ah_objects : eq64 (total_objects m) (sum (object_count <$> backends m) + o);
  ah_bytes : eq64 (total_bytes m) (sum (used_bytes <$> backends m) + b);
  ah_range : 0 <= total_objects m < 2 ^ 64 /\ 0 <= total_bytes m < 2 ^ 64
}.

Definition bal (n : nat) (o b : Z) (s : bstate) : Prop := match bm s with Some m => ahead n o b m | None => True end.

(** ** Triples *)

Definition triple {S A} (P : S -> Prop) (m : M S A) (Q : A -> S -> Prop) : Prop :=
  forall s a s', P s -> m s = Ret a s' -> Q a s'.

Lemma triple_bind {S A B} (P : S -> Prop) Q (R : B -> S -> Prop) (m : M S A) (f : A -> M S B) :
  triple P m Q -> (forall a, triple (Q a) (f a) R) -> triple P (m ≫= f) R.
Proof. intros Hm Hf s b s' H Hr. minv Hr. eapply Hf; [|exact Hr]. by eapply Hm. Qed.

(** A program may start with one that keeps the invariant. *)
Lemma triple_keeps {S A B} (P : S -> Prop) (R : B -> S -> Prop) (m : M S A) (f : A -> M S B) :
  keeps P m -> (forall a, triple P (f a) R) -> triple P (m ≫= f) R.
Proof. intros Hm. by apply (triple_bind P (fun _ => P)). Qed.

Section Balance.
Context (n : nat) (o b : Z).

Lemma bal_onw {A} (m : M world A) : keeps (bal n o b) (onw m).
Proof. intros s a s' H Hr. unfold bal. rewrite (bm_onw _ _ _ _ Hr). exact H. Qed.
Lemma bal_get_bm : keeps (bal n o b) get_bm.
Proof. intros s a s' H [= <- <-]. done. Qed.
Lemma bal_get_backend id : keeps (bal n o b) (backend_manager_get_backend id).
Proof. unfold backend_manager_get_backend. keeps. apply bal_get_bm. Qed.

(** Updates that leave the counts alone. *)
Lemma bal_upd_bm f : (forall m, backends (f m) = backends m /\ total_objects (f m) = total_objects m /\ total_bytes (f m) = total_bytes m) ->
  keeps (bal n o b) (upd_bm f).
Proof.
  intros Hf s a s' H Hr. unfold upd_bm in Hr. unfold bal in *. destruct (bm s) as [m|]; [|done]. injection Hr as _ <-. simpl.
  destruct (Hf m) as (E1 & E2 & E3). destruct H as [H1 H2 H3 H4]. split; rewrite ?E1, ?E2, ?E3; done.
Qed.
Lemma bal_upd_backend i f : (forall x, object_count (f x) = object_count x /\ used_bytes (f x) = used_bytes x) -> keeps (bal n o b) (upd_backend i f).
Proof.
  intros Hf s a s' H Hr. unfold upd_backend, upd_bm in Hr. unfold bal in *. destruct (bm s) as [m|]; [|done]. injection Hr as _ <-. simpl.
  assert (E : forall (g : backend_info -> Z), (forall x, g (f x) = g x) -> g <$> alter f i (backends m) = g <$> backends m).
  { intros g Hg. generalize (backends m) i. intros l. induction l as [|x l IH]; intros [|j]; cbn; [done..|by rewrite Hg|by rewrite <- (IH j)]. }
  destruct H as [H1 H2 H3 H4]. split; cbn [set_backends backends total_objects total_bytes]; [by rewrite length_alter| | |done];
    rewrite E; [done|apply Hf|done|apply Hf].
Qed.

(** Counts of one backend, and totals. *)
Lemma bal_count i f dn db :
  (i < n)%nat -> (forall x, eq64 (object_count (f x)) (object_count x + dn) /\ eq64 (used_bytes (f x)) (used_bytes x + db)) ->
  triple (bal n o b) (upd_backend i f) (fun _ => bal n (o - dn) (b - db)).
Proof.
  intros Hi Hf s a s' H Hr. unfold upd_backend, upd_bm in Hr. unfold bal in *. destruct (bm s) as [m|]; [|done]. injection Hr as _ <-. simpl.
  destruct H as [H1 H2 H3 H4]. split; cbn [set_backends backends total_objects total_bytes]; [by rewrite length_alter| | |done].
  - rewrite (sum_alter object_count f i _ dn) by (lia || apply Hf). rewrite H2. apply eq_subrelation; [apply _|lia].
  - rewrite (sum_alter used_bytes f i _ db) by (lia || apply Hf). rewrite H3. apply eq_subrelation; [apply _|lia].
Qed.
Lemma bal_totals tn tb dn db :
  (forall m, eq64 (tn m) (total_objects m + dn) /\ eq64 (tb m) (total_bytes m + db)) ->
  (forall m, 0 <= total_objects m < 2 ^ 64 -> 0 <= total_bytes m < 2 ^ 64 -> 0 <= tn m < 2 ^ 64 /\ 0 <= tb m < 2 ^ 64) ->
  triple (bal n o b) (upd_bm (fun m => set_totals (tn m) (tb m) m)) (fun _ => bal n (o + dn) (b + db)).
Proof.
  intros Ht Hr0 s a s' H Hr. unfold upd_bm in Hr. unfold bal in *. destruct (bm s) as [m|]; [|done]. injection Hr as _ <-. simpl.
  destruct (Ht m) as [E1 E2]. destruct H as [H1 H2 H3 [H4 H5]]. split; cbn [set_totals backends total_objects total_bytes]; [done| | |by apply Hr0].
  - rewrite E1, H2. apply eq_subrelation; [apply _|lia].
  - rewrite E2, H3. apply eq_subrelation; [apply _|lia].
Qed.

(** A backend that was found is one of the [n]. *)
Lemma bal_found {A} id (f : option (nat * backend_info) -> M bstate A) :
  keeps (bal n o b) (f None) -> (forall i x, (i < n)%nat -> keeps (bal n o b) (f (Some (i, x)))) ->
  keeps (bal n o b) (backend_manager_get_backend id ≫= f).
Proof.
  intros H0 H1 s a s' H Hr. minv Hr. pose proof (bal_get_backend id _ _ _ H Hr0) as Hb. destruct a0 as [[i x]|]; [|by eapply H0].
  apply get_backend_nth in Hr0 as (-> & -> & m & Hm & Hx). eapply H1; [|exact H|exact Hr].
  unfold nth_backend in Hx. destruct (id <? 0); [done|]. apply lookup_lt_Some in Hx. unfold bal in H. rewrite Hm in H. by rewrite (ah_len _ _ _ _ H) in Hx.
Qed.
End Balance.

#[export] Hint Resolve bal_onw bal_get_bm bal_get_backend : keeps.
#[export] Hint Extern 2 (keeps (bal _ _ _) (upd_bm _)) => apply bal_upd_bm; by intros ? : keeps.
#[export] Hint Extern 2 (keeps (bal _ _ _) (upd_backend _ _)) => apply bal_upd_backend; by intros ? : keeps.

Ltac counts := intros; cbn [set_usage set_ops object_count used_bytes]; split; rewrite ?u64_eq64; apply eq_subrelation; (apply _ || lia).
Ltac ranges := intros; split; try apply u64_range; assumption.

(** A backend and the totals, one after the other. *)
Lemma bal_pair n i f tn tb dn db :
  (i < n)%nat -> (forall x, eq64 (object_count (f x)) (object_count x + dn) /\ eq64 (used_bytes (f x)) (used_bytes x + db)) ->
  (forall m, eq64 (tn m) (total_objects m + dn) /\ eq64 (tb m) (total_bytes m + db)) ->
  (forall m, 0 <= total_objects m < 2 ^ 64 -> 0 <= total_bytes m < 2 ^ 64 -> 0 <= tn m < 2 ^ 64 /\ 0 <= tb m < 2 ^ 64) ->
  keeps (bal n 0 0) (_ ← upd_backend i f; upd_bm (fun m => set_totals (tn m) (tb m) m)).
Proof.
  intros Hi Hf Ht Hr. apply (triple_bind _ _ _ _ _ (bal_count n 0 0 i f dn db Hi Hf)). intros _.
  pose proof (bal_totals n (0 - dn) (0 - db) tn tb dn db Ht Hr) as H. by rewrite !Z.sub_add in H.
Qed.

Lemma bal_pair_then {A} n i f tn tb dn db (k : M bstate A) :
  (i < n)%nat -> (forall x, eq64 (object_count (f x)) (object_count x + dn) /\ eq64 (used_bytes (f x)) (used_bytes x + db)) ->
  (forall m, eq64 (tn m) (total_objects m + dn) /\ eq64 (tb m) (total_bytes m + db)) ->
  (forall m, 0 <= total_objects m < 2 ^ 64 -> 0 <= total_bytes m < 2 ^ 64 -> 0 <= tn m < 2 ^ 64 /\ 0 <= tb m < 2 ^ 64) ->
  keeps (bal n 0 0) k -> keeps (bal n 0 0) (_ ← upd_backend i f; _ ← upd_bm (fun m => set_totals (tn m) (tb m) m); k).
Proof.
  intros Hi Hf Ht Hr Hk s a s' H H1. rewrite <- bind_assoc in H1. apply bind_inv in H1 as ([] & s1 & E1 & E2).
  apply (Hk _ _ _ (bal_pair n i f tn tb dn db Hi Hf Ht Hr _ _ _ H E1) E2).
Qed.

(** Walk to the next lookup of a backend or the next update of counts. *)
Ltac keeps_bal := repeat lazymatch goal with
  | |- keeps (bal _ _ _) (backend_manager_get_backend _ ≫= _) => apply bal_found; [|intros ? ? ?]; cbv beta iota
  | |- keeps _ (upd_backend _ _ ≫= _) => apply keeps_bind; [solve [eauto with keeps]|intros]
  | _ => keeps_step
  end.

Lemma bal_create_object n req out : keeps (bal n 0 0) (backend_create_object req out).
Proof. unfold backend_create_object. keeps_bal. apply (bal_pair_then n _ _ _ _ 1 0); [assumption|counts|counts|ranges|]. keeps_bal. Qed.
Lemma bal_get_object n u out : keeps (bal n 0 0) (backend_get_object u out).
Proof. unfold backend_get_object. keeps_bal. Qed.
Lemma bal_delete_object n u : keeps (bal n 0 0) (backend_delete_object u).
Proof.
  unfold backend_delete_object. keeps_bal.
  match goal with e : index_entry |- _ => apply (bal_pair_then n _ _ _ _ (-1) (- size_bytes e)) end; [assumption|counts|counts|ranges|]. keeps_bal.
Qed.
Lemma bal_get_metadata n u : keeps (bal n 0 0) (backend_get_metadata u).
Proof. unfold backend_get_metadata. keeps_bal. Qed.
Lemma bal_update_size n u z : keeps (bal n 0 0) (backend_update_size u z).
Proof.
  unfold backend_update_size. keeps_bal; match goal with e : index_entry |- _ => set (d := z - size_bytes e) end.
  - apply (bal_pair n _ _ _ _ 0 d); [assumption|counts|counts|ranges].
  - apply (bal_pair n _ _ _ _ 0 d); [assumption|counts|counts|ranges].
Qed.
Lemma bal_scan_object n m id b i k path size count : (i < n)%nat -> keeps (bal n 0 0) (scan_object m id b i k path size count).
Proof.
  intros Hi. unfold scan_object. keeps_bal. apply (bal_pair_then n _ _ _ _ 1 size); [assumption|counts|counts|ranges|]. keeps_bal.
Qed.
#[export] Hint Resolve bal_scan_object : keeps.
Lemma bal_scan_dir n ord m id b i k fuel : (i < n)%nat -> forall dir count, keeps (bal n 0 0) (scan_backend_dir ord m id b i k fuel dir count).
Proof.
  intros Hi. induction fuel as [|fuel IH]; intros dir count; simpl; [apply keeps_block|]. keeps.
  revert count. induction (ord l) as [|x xs IHx]; intros count; keeps.
Qed.
Lemma bal_scan n ord id : keeps (bal n 0 0) (backend_manager_scan ord id).
Proof. unfold backend_manager_scan. keeps_bal. by apply bal_scan_dir. Qed.

(** ** Sizes of entries *)

(** Entries that are still there have the size they had. *)
Definition same_sizes (w w' : world) : Prop := forall p e', ents w' !! p = Some e' -> exists e, ents w !! p = Some e /\ size_bytes e' = size_bytes e.

#[global] Instance same_sizes_preorder : PreOrder same_sizes.
Proof.
  split; [intros w p e He; eauto|]. intros a b c H1 H2 p e He. destruct (H2 p e He) as (e1 & He1 & E1). destruct (H1 p e1 He1) as (e2 & He2 & E2).
  exists e2. split; [done|congruence].
Qed.

Lemma same_sizes_ents w w' : ents w' = ents w -> same_sizes w w'.
Proof. intros E p e He. rewrite E in He. eauto. Qed.

Lemma onk_sizes {A} (m : M kernel A) : moves same_sizes (onk m).
Proof. intros w a w' H. unfold onk in H. destruct (m (kern w)); [|done..]. injection H as _ <-. by apply same_sizes_ents. Qed.
Lemma modify_sizes f : (forall w, ents (f w) = ents w) -> moves same_sizes (modify f).
Proof. intros Hf w a w' H. injection H as _ <-. by apply same_sizes_ents. Qed.
Lemma free_sizes p : moves same_sizes (modify (fun w => set_ents (delete p (ents w)) w)).
Proof. intros w a w' H. injection H as _ <-. intros q e He. simpl in He. apply lookup_delete_Some in He as [_ He]. eauto. Qed.
Lemma rd_entry_sizes p : moves same_sizes (rd_entry p).
Proof. intros w a w' H. unfold rd_entry in H. destruct (ents w !! p); [|done]. injection H as _ <-. reflexivity. Qed.
Lemma rd_g_sizes i : moves same_sizes (rd_g i).
Proof. intros w a w' H. unfold rd_g in H. destruct (gidxs w !! i); [|done]. injection H as _ <-. reflexivity. Qed.
Lemma rd_b_sizes i : moves same_sizes (rd_b i).
Proof. intros w a w' H. unfold rd_b in H. destruct (bidxs w !! i); [|done]. injection H as _ <-. reflexivity. Qed.
Lemma upd_g_sizes i f : moves same_sizes (upd_g i f).
Proof. intros w a w' H. unfold upd_g in H. destruct (gidxs w !! i); [|done]. injection H as _ <-. by apply same_sizes_ents. Qed.
Lemma upd_b_sizes i f : moves same_sizes (upd_b i f).
Proof. intros w a w' H. unfold upd_b in H. destruct (bidxs w !! i); [|done]. injection H as _ <-. by apply same_sizes_ents. Qed.
Lemma upd_entry_sizes p f : (forall e, size_bytes (f e) = size_bytes e) -> moves same_sizes (upd_entry p f).
Proof.
  intros Hf w a w' H. unfold upd_entry in H. destruct (ents w !! p) as [x|] eqn:E; [|done]. injection H as _ <-. intros q e He. simpl in He.
  apply lookup_insert_Some in He as [[<- <-]|[_ He]]; eauto.
Qed.
#[export] Hint Resolve onk_sizes free_sizes rd_entry_sizes rd_g_sizes rd_b_sizes upd_g_sizes upd_b_sizes : moves.
#[export] Hint Extern 1 (moves same_sizes (upd_entry _ _)) => by apply upd_entry_sizes : moves.

Lemma entry_put_sizes p : moves same_sizes (index_entry_put p).
Proof. unfold index_entry_put. moves_tac. Qed.
Lemma entry_get_sizes p : moves same_sizes (index_entry_get p).
Proof. unfold index_entry_get. moves_tac. Qed.
Lemma record_access_sizes p : moves same_sizes (index_entry_record_access p).
Proof. unfold index_entry_record_access, get_monotonic_us. moves_tac. Qed.
Lemma chain_find_sizes fuel : forall p h u, moves same_sizes (chain_find fuel p h u).
Proof. induction fuel as [|fuel IH]; intros; cbn [chain_find]; moves_tac. Qed.
Lemma find_in_sizes p h u : moves same_sizes (find_in p h u).
Proof. intros w a w' H. exact (chain_find_sizes _ _ _ _ _ _ _ H). Qed.
#[export] Hint Resolve entry_put_sizes entry_get_sizes record_access_sizes find_in_sizes : moves.
Lemma release_sizes r : moves same_sizes (fd_ref_release r).
Proof. unfold fd_ref_release. moves_tac. Qed.
Lemma lookup_sizes i u r : moves same_sizes (global_index_lookup i u r).
Proof. unfold global_index_lookup. moves_tac. Qed.
#[export] Hint Resolve release_sizes lookup_sizes : moves.
Lemma update_backend_sizes i u b p : moves same_sizes (global_index_update_backend i u b p).
Proof. unfold global_index_update_backend. moves_tac. Qed.
Lemma backend_insert_sizes i p : moves same_sizes (backend_index_insert i p).
Proof. unfold backend_index_insert. moves_tac. Qed.
#[export] Hint Resolve update_backend_sizes backend_insert_sizes : moves.

(** ** Migration *)

(** The entry at [p], if it is still there, has size [z]. *)
Definition sized (p : ptr) (z : Z) (s : bstate) : Prop := forall e, ents (wd s) !! p = Some e -> size_bytes e = z.

(** The books and the size together. *)
Definition owing (n : nat) (o b : Z) (p : ptr) (z : Z) (s : bstate) : Prop := bal n o b s /\ sized p z s.

Lemma owing_onw {A} n o b p z (m : M world A) : moves same_sizes m -> keeps (owing n o b p z) (onw m).
Proof.
  intros Hm s a s' [Hb Hz] Hr. split; [by eapply bal_onw|]. unfold onw in Hr. destruct (m (wd s)) eqn:E; [|done..]. injection Hr as _ <-.
  intros e He. destruct (Hm _ _ _ E p e He) as (e0 & He0 & ->). by apply Hz.
Qed.

(** Counting leaves the entries alone. *)
Lemma upd_backend_wd i f s a s' : upd_backend i f s = Ret a s' -> wd s' = wd s.
Proof. unfold upd_backend, upd_bm. destruct (bm s); [|done]. intros H. injection H as _ <-. done. Qed.

Lemma read_size n o b p z :
  triple (owing n o b p z) (onw (rd_entry p)) (fun e s => size_bytes e = z /\ owing n o b p z s).
Proof.
  intros s e s' H Hr. split; [|by apply (owing_onw _ _ _ _ _ _ (rd_entry_sizes p) _ _ _ H Hr)].
  unfold onw, rd_entry in Hr. destruct (ents (wd s) !! p) as [x|] eqn:E; [|done]. injection Hr as <- _. destruct H as [_ Hz]. by apply Hz.
Qed.

(** From the second of the two counts on, and from the first. *)
Lemma bal_enter n z di entry f :
  (di < n)%nat ->
  (forall e x, eq64 (object_count (f e x)) (object_count x + 1) /\ eq64 (used_bytes (f e x)) (used_bytes x + size_bytes e)) ->
  triple (owing n 1 z entry z)
    (e ← onw (rd_entry entry); _ ← upd_backend di (f e); e' ← onw (rd_entry entry); _ ← onw (unlink_path (backend_path e')); mret 0)
    (fun _ => bal n 0 0).
Proof.
  intros Hi Hf. eapply triple_bind; [apply read_size|]. intros e s r s' [Hz [Hb _]] Hr. revert s r s' Hb Hr.
  change (triple (bal n 1 z) (_ ← upd_backend di (f e); e' ← onw (rd_entry entry); _ ← onw (unlink_path (backend_path e')); mret 0) (fun _ => bal n 0 0)).
  eapply triple_bind; [apply (bal_count n 1 z di (f e) 1 (size_bytes e) Hi (Hf e))|]. intros ?. cbv beta. rewrite Hz, !Z.sub_diag.
  change (keeps (bal n 0 0) (e' ← onw (rd_entry entry); _ ← onw (unlink_path (backend_path e')); mret 0)). keeps.
Qed.

Lemma bal_migrate_commit n m u entry target si di src dst dst_path :
  (si < n)%nat -> (di < n)%nat -> keeps (bal n 0 0) (migrate_commit m u entry target si di src dst dst_path).
Proof.
  intros Hs Hd. unfold migrate_commit. apply keeps_bind; [auto with keeps|]. intros _ s r s' H Hr. minv Hr.
  assert (Hz : owing n 0 0 entry (size_bytes a) s0).
  { split; [by eapply bal_onw|]. unfold onw, rd_entry in Hr0. destruct (ents (wd s) !! entry) as [x|] eqn:E; [|done].
    injection Hr0 as -> <-. intros e He. simpl in He. congruence. }
  minv Hr. assert (Hz1 : owing n 1 (size_bytes a) entry (size_bytes a) s1).
  { destruct Hz as [Hb Hz]. split; [|intros e; rewrite (upd_backend_wd _ _ _ _ _ Hr1); apply Hz].
    eapply (bal_count n 0 0 si _ (-1) (- size_bytes a)) in Hr1; [|exact Hs|counts|exact Hb].
    replace (0 - -1) with 1 in Hr1 by lia. by replace (0 - - size_bytes a) with (size_bytes a) in Hr1 by lia. }
  refine ((_ : triple (owing n 1 (size_bytes a) entry (size_bytes a)) _ (fun _ => bal n 0 0)) _ _ _ Hz1 Hr). clear -Hd.
  do 4 (apply triple_keeps; [apply owing_onw; solve [auto with moves]|intros]). apply bal_enter; [exact Hd|counts].
Qed.

Lemma bal_migrate n u t : keeps (bal n 0 0) (backend_migrate_object u t).
Proof. unfold backend_migrate_object. keeps_bal. by apply bal_migrate_commit. Qed.
#[export] Hint Resolve bal_migrate : keeps.
Lemma bal_cache_object n u : keeps (bal n 0 0) (backend_cache_object u).
Proof. unfold backend_cache_object, current_backend. keeps. Qed.
Lemma bal_evict_object n u : keeps (bal n 0 0) (backend_evict_object u).
Proof. unfold backend_evict_object, current_backend. keeps. Qed.

(** ** Configuration *)

Definition booked (s : bstate) : Prop := exists n, bal n 0 0 s.

Lemma booked_all {A} (m : M bstate A) : (forall n, keeps (bal n 0 0) m) -> keeps booked m.
Proof. intros Hm s a s' [n H] Hr. exists n. by eapply Hm. Qed.

Lemma bal_set_default n id : keeps (bal n 0 0) (backend_manager_set_default id).
Proof. unfold backend_manager_set_default. keeps. Qed.
Lemma bal_set_ephemeral n id : keeps (bal n 0 0) (backend_manager_set_ephemeral id).
Proof. unfold backend_manager_set_ephemeral. keeps. Qed.
Lemma bal_set_cache n id : keeps (bal n 0 0) (backend_manager_set_cache id).
Proof. unfold backend_manager_set_cache. keeps. Qed.
Lemma bal_start_caching n i t : keeps (bal n 0 0) (backend_start_caching i t).
Proof. unfold backend_start_caching. keeps. Qed.
Lemma bal_stop_caching n : keeps (bal n 0 0) backend_stop_caching.
Proof. unfold backend_stop_caching. keeps. Qed.
Lemma bal_set_enabled n id en : keeps (bal n 0 0) (backend_set_enabled id en).
Proof. unfold backend_set_enabled. keeps. Qed.
Lemma bal_set_watermarks n id h l : keeps (bal n 0 0) (backend_set_watermarks id h l).
Proof. unfold backend_set_watermarks. keeps. Qed.
Lemma bal_set_policy n id p t : keeps (bal n 0 0) (backend_set_migration_policy id p t).
Proof. unfold backend_set_migration_policy. keeps. Qed.

Lemma booked_onw {A} (m : M world A) : keeps booked (onw m).
Proof. apply booked_all. intros n. apply bal_onw. Qed.
Lemma booked_get_bm : keeps booked get_bm.
Proof. apply booked_all. intros n. apply bal_get_bm. Qed.
Lemma booked_stop_caching : keeps booked backend_stop_caching.
Proof. apply booked_all, bal_stop_caching. Qed.
#[export] Hint Resolve booked_onw booked_get_bm booked_stop_caching : keeps.

(** A new manager has nothing, and a new backend holds nothing. *)
Lemma booked_create_manager nb mx : keeps booked (backend_manager_create nb mx).
Proof. unfold backend_manager_create. keeps. intros s x s' _ H. injection H as _ <-. exists 0%nat. split; done. Qed.
Lemma booked_register_one m b : ahead (length (backends m)) 0 0 m -> object_count b = 0 -> used_bytes b = 0 ->
  ahead (S (length (backends m))) 0 0 (set_backends (backends m ++ [b]) m).
Proof.
  intros [_ H2 H3 H4] E1 E2. assert (Hs : forall (g : backend_info -> Z) l, g b = 0 -> sum (g <$> (l ++ [b])) = sum (g <$> l)).
  { intros g l Hg. induction l as [|x l IH]; cbn in *; [|f_equal]; lia || done. }
  split; cbn [set_backends backends total_objects total_bytes]; [rewrite length_app; simpl; lia| | |done]; rewrite Hs; done.
Qed.
Lemma booked_register type mp nm cap fl : keeps booked (backend_manager_register type mp nm cap fl).
Proof.
  unfold backend_manager_register. keeps. intros s x s' [n H] Hr. unfold upd_bm in Hr. unfold bal in H.
  destruct (bm s) as [m'|]; [|done]. injection Hr as _ <-. exists (S (length (backends m'))). apply booked_register_one; [|done..].
  destruct H as [<- H2 H3 H4]. by split.
Qed.
Lemma booked_destroy : keeps booked backend_manager_destroy.
Proof. unfold backend_manager_destroy. keeps. intros s x s' _ H. injection H as _ <-. exists 0%nat. done. Qed.

#[export] Hint Resolve booked_create_manager booked_register booked_destroy : keeps.
#[export] Hint Resolve bal_create_object bal_get_object bal_delete_object bal_get_metadata bal_update_size bal_scan bal_migrate
  bal_cache_object bal_evict_object bal_set_default bal_set_ephemeral bal_set_cache bal_start_caching bal_set_enabled
  bal_set_watermarks bal_set_policy : keeps.

Lemma booked_start s : bm s = None -> booked s.
Proof. intros H. exists 0%nat. unfold bal. by rewrite H. Qed.
Lemma booked_balance s m : booked s -> bm s = Some m ->
  total_objects m = u64 (sum (object_count <$> backends m)) /\ total_bytes m = u64 (sum (used_bytes <$> backends m)).
Proof.
  intros [n Hb] Hm. unfold bal in Hb. rewrite Hm in Hb.
  destruct Hb as [_ H1 H2 [H3 H4]]. rewrite Z.add_0_r in H1, H2. apply eq64_u64 in H1, H2. by rewrite <- H1, <- H2, !u64_small by lia.
Qed.

Lemma api_step_booked s s' : api_step s s' -> booked s -> booked s'.
Proof.
  intros Hs H. destruct Hs; match goal with H0 : ?m s = Ret _ s' |- _ =>
    assert (Hk : keeps booked m) by (auto with keeps || (apply booked_all; auto with keeps)); by apply (Hk _ _ _ H H0) end.
Qed.

(** C20: The manager's books balance.  In every state that API calls reach from one
    without a manager, whatever the arguments, the allocator and the file
    system do, the total of objects is the sum of the backends' object counts and the
    total of bytes the sum of their used bytes, in the 64-bit counters: creating,
    deleting, scanning, resizing, caching, evicting and migrating keep both sides in
    step, error paths included. *)
Theorem accounting_invariant s s' m :
  bm s = None -> rtc api_step s s' -> bm s' = Some m ->
  total_objects m = u64 (sum (object_count <$> backends m)) /\ total_bytes m = u64 (sum (used_bytes <$> backends m)).
Proof.
  intros H0 Hr. apply booked_balance. assert (Hb : booked s) by (by apply booked_start). clear H0. induction Hr; eauto using api_step_booked.
Qed.

(** A set-up server creates an object, moves it to the memory backend and resizes it there. *)
Definition booked_a1 : bstate := ret_state (backend_manager_create 16 100) sample_bstate.
Definition booked_a2 : bstate := ret_state (backend_manager_register BACKEND_TYPE_MEMORY (Some (bs "/m")) (Some (bs "mem")) 4096 53) booked_a1.
Definition booked_a3 : bstate := ret_state (backend_manager_register BACKEND_TYPE_SSD (Some (bs "/p")) (Some (bs "ssd")) 8192 54) booked_a2.
Definition booked_a4 : bstate := ret_state (backend_manager_set_default 1) booked_a3.
Definition booked_req : option object_create_req_t := Some (CreateReq (Some (bs "/x")) (-1) false 0 0).
Definition booked_a5 : bstate := ret_state (backend_create_object booked_req true) booked_a4.
Definition booked_a6 : bstate := ret_state (backend_migrate_object (Some (bs "/x")) 0) booked_a5.
Definition booked_a7 : bstate := ret_state (backend_update_size (Some (bs "/x")) 5) booked_a6.

Lemma accounting_invariant_witness :
  bm sample_bstate = None /\ rtc api_step sample_bstate booked_a7 /\
  exists m, bm booked_a7 = Some m /\ (fun b => (object_count b, used_bytes b)) <$> backends m = [(1, 5); (0, 0)] /\
    total_objects m = u64 (sum (object_count <$> backends m)) /\ total_bytes m = u64 (sum (used_bytes <$> backends m)).
Proof.
  assert (Hr : rtc api_step sample_bstate booked_a7).
  { eapply rtc_l; [eapply (StepCreateManager _ booked_a1 16 100 true); vm_compute; reflexivity|].
    eapply rtc_l; [eapply (StepRegister _ booked_a2 BACKEND_TYPE_MEMORY (Some (bs "/m")) (Some (bs "mem")) 4096 53 0); vm_compute; reflexivity|].
    eapply rtc_l; [eapply (StepRegister _ booked_a3 BACKEND_TYPE_SSD (Some (bs "/p")) (Some (bs "ssd")) 8192 54 1); vm_compute; reflexivity|].
    eapply rtc_l; [eapply (StepSetDefault _ booked_a4 1 0); vm_compute; reflexivity|].
    eapply rtc_l; [eapply (StepCreate _ booked_a5 booked_req true); vm_compute; reflexivity|].
    eapply rtc_l; [eapply (StepMigrate _ booked_a6 (Some (bs "/x")) 0 0); vm_compute; reflexivity|].
    eapply rtc_l; [eapply (StepUpdateSize _ booked_a7 (Some (bs "/x")) 5 0); vm_compute; reflexivity|]. apply rtc_refl. }
  split; [reflexivity|]. split; [exact Hr|].
  destruct (bm booked_a7) as [m|] eqn:Hm; [|vm_compute in Hm; discriminate].
  exists m. split; [reflexivity|]. split; [vm_compute in Hm; by injection Hm as <-|].
  exact (accounting_invariant sample_bstate booked_a7 m eq_refl Hr Hm).
Defined.
