(* ===== verification/Findings.v ===== *)
(** * Findings: executions in which the code does not do what it means to

    Each theorem runs the model of the C functions on a concrete machine and
    states what comes out. *)

From S2P Require Import Prelude Socket Kernel Index Backend BackendProofs ObjectProofs.

(** ** The shared collision link *)

(** Creates the two objects and asks for the first one. *)
Definition run_collision (u1 u2 : string) : M bstate (Z * Z * Z) :=
  _ ← sample_setup 8192;
  a ← backend_create_object (Some (sample_req u1 false)) true;
  b ← backend_create_object (Some (sample_req u2 false)) true;
  c ← backend_get_object (Some (bs u1)) true;
  mret (a.1, b.1, c.1).

(** An entry has one [next] link for both tables it is in.  With the 8192
    global buckets of the server, creating "/o588" and then "/o694" (same global
    bucket, different buckets of the backend's index) succeeds twice, and the first
    object can no longer be found: inserting the second one into the backend index
    overwrote the link that led to it. *)
Theorem shared_next_loses_object :
  result_of (run_collision "/o588" "/o694" sample_bstate) = Some (0, 0, -1).
Proof. vm_compute. reflexivity. Qed.

(** ** Reference counts after a scan *)

Definition scanned_kernel : kernel :=
  Kernel {[ [bs "m"] := Dir; [bs "p"] := Dir; [bs "a"; bs "p"] := File 7 ]} {[7 := bs "hello"]} ∅
    {[0 := 0; 1 := 1; 2 := 2]} [] [] 0 [] [].

Definition run_scan : M bstate Z := _ ← sample_setup 8192; backend_manager_scan id 1.

(** [backend_manager_scan] drops the reference of the global index: after
    indexing the one file of the backend, deleting that object releases its
    entry once too often, and [backend_delete_object] writes to freed memory. *)
Theorem scan_then_delete_faults :
  let s := BState (World scanned_kernel ∅ ∅ ∅ 1 x00) None in
  result_of (run_scan s) = Some 1 /\
  (_ ← run_scan; backend_delete_object (Some (bs "/a"))) s = Fault.
Proof. split; vm_compute; reflexivity. Qed.

(** ** Migration *)

(** Creates an object of five bytes on the persistent backend, migrates it to the
    memory backend and looks it up; also the two files. *)
Definition run_migration : M bstate (Z * Z * Z * option Z * bool * bool) :=
  _ ← sample_setup 8192;
  a ← backend_create_object (Some (sample_req "/x" false)) true;
  _ ← onw (onk (sys_fwrite (from_option fr_fd (-1) a.2) (bs "hello")));
  _ ← onw (fd_ref_release a.2);
  u ← backend_update_size (Some (bs "/x")) 5;
  r ← backend_migrate_object (Some (bs "/x")) 0;
  g ← backend_get_object (Some (bs "/x")) true;
  s ← get;
  let n := names (kern (wd s)) in
  mret (u, r, g.1, fr_fd <$> g.2, bool_decide (is_Some (n !! [bs "x"; bs "m"])), bool_decide (is_Some (n !! [bs "x"; bs "p"]))).

(** A migration reports success and destroys the migrated copy: it unlinks
    the entry's path after that path has been set to the destination.  The file
    on the target backend is gone, the one on the source backend is left behind,
    and the next lookup finds the object without a descriptor. *)
Theorem migrate_deletes_destination :
  result_of (run_migration sample_bstate) = Some (0, 0, 0, Some (-1), false, true).
Proof. vm_compute. reflexivity. Qed.

(** ** Descriptors *)

(** Creates an object and releases the handle; then another part of the process
    opens a descriptor; then the object is deleted. *)
Definition run_stale_close : M bstate (option Z * Z * Z * option Z) :=
  _ ← sample_setup 8192;
  a ← backend_create_object (Some (sample_req "/x" false)) true;
  _ ← onw (fd_ref_release a.2);
  fd ← onw (onk (sys_open (bs "/p/log") O_RDWR true false));
  d ← backend_delete_object (Some (bs "/x"));
  s ← get;
  mret (fr_fd <$> a.2, fd, d, fdtab (kern (wd s)) !! fd).

(** The handle returned by [backend_create_object] and the entry share one
    descriptor: releasing the handle closes it and leaves its number in the
    entry, so a later deletion of the object closes whatever descriptor has got
    that number in between.  Here descriptor 3, meanwhile another open file, is
    closed behind its owner's back. *)
Theorem delete_closes_foreign_descriptor :
  result_of (run_stale_close sample_bstate) = Some (Some 3, 3, 0, None).
Proof. vm_compute. reflexivity. Qed.

(** ** Placement *)

(** A persistent object goes to an ephemeral-only backend when the request names it:
    the check covers ephemeral requests only. *)
Theorem persistent_on_ephemeral_only :
  result_of (backend_create_object (Some (CreateReq (Some (bs "/t/x")) 0 false 0 0)) true sample_ready) = Some (0, Some sample_ref) /\
  ephemeral_only <$> nth_backend sample_mgr 0 = Some true.
Proof. split; vm_compute; reflexivity. Qed.

(** The placement check looks at the request's [ephemeral] member only: a
    request with [ephemeral = false] and the ephemeral bit in [flags] is placed on
    the persistent backend, and its entry carries the ephemeral flag. *)
Theorem ephemeral_flag_bypasses_check :
  exists s' e, backend_create_object (Some (CreateReq (Some (bs "/s")) 1 false 0 INDEX_FLAG_EPHEMERAL)) true sample_ready =
      Ret (0, Some sample_ref) s' /\
    ents (wd s') !! fr_entry sample_ref = Some e /\ backend_id e = 1 /\ has_flag (flags e) INDEX_FLAG_EPHEMERAL = true /\
    ephemeral_only <$> nth_backend sample_mgr 1 = Some false.
Proof.
  set (req := CreateReq (Some (bs "/s")) 1 false 0 INDEX_FLAG_EPHEMERAL).
  assert (Hres : result_of (backend_create_object (Some req) true sample_ready) = Some (0, Some sample_ref)) by (vm_compute; reflexivity).
  destruct (backend_create_object (Some req) true sample_ready) as [a s'| |] eqn:Hr; [|discriminate..].
  injection Hres as ->. assert (Hm : bm sample_ready = Some sample_mgr) by (vm_compute; reflexivity).
  destruct (create_inv sample_mgr req (bs "/s") sample_ready sample_ref s' Hm eq_refl Hr) as (id & b & mp & Hc & _).
  destruct Hc as [C1 C2 _ _ _ [C6 _] _]. apply fmap_Some in C6 as (e & He & [= E1 E2 E3 E4 E5 E6]).
  assert (id = 1) as -> by (vm_compute in C1; congruence).
  exists s', e. split; [done|]. split; [done|]. rewrite <- E3, <- E6. split; [reflexivity|]. split; [reflexivity|]. vm_compute. reflexivity.
Qed.
