(* ===== verification/Server.v ===== *)
(** * Server: the object server of server.c

    The request handlers, the dispatch loop of a client connection and the
    start-up and shutdown of the backends, on top of the protocol library, the
    backend manager and the indexes.  One connection is served at a time: its
    socket is the [link] of the state, and the descriptor table and the allocator
    are those of the process ([onl]).  Messages printed on the console are not
    represented. *)

From S2P Require Import Prelude Socket Kernel Index Backend Protocol.

(** ** State *)

Record g_stats_t := GStats {
  requests_total : Z; gets : Z; puts : Z; deletes : Z; errors : Z; active_connections : Z
}.

Record server := Server {
  sv_b : bstate;                      (* the process and [g_backend_mgr] *)
  sv_l : link;                        (* the client's connection *)
  g_stats : g_stats_t;
  g_running : list bool;              (* what the next tests of [g_running] see; then: 1 *)
  g_memory_backend_id : Z;
  g_persistent_backend_id : Z
}.

Definition set_sv_b (b : bstate) (s : server) : server :=
  Server b (sv_l s) (g_stats s) (g_running s) (g_memory_backend_id s) (g_persistent_backend_id s).
Definition set_stats (g : g_stats_t) (s : server) : server :=
  Server (sv_b s) (sv_l s) g (g_running s) (g_memory_backend_id s) (g_persistent_backend_id s).
Definition set_running (l : list bool) (s : server) : server :=
  Server (sv_b s) (sv_l s) (g_stats s) l (g_memory_backend_id s) (g_persistent_backend_id s).
Definition set_ids (m p : Z) (s : server) : server :=
  Server (sv_b s) (sv_l s) (g_stats s) (g_running s) m p.

Definition onb {A} (m : M bstate A) : M server A := fun s =>
  match m (sv_b s) with
  | Ret a b => Ret a (set_sv_b b s)
  | Blocked => Blocked
  | Fault => Fault
  end.

Definition sv_kern (s : server) : kernel := kern (wd (sv_b s)).
Definition set_sv_kern (k : kernel) (s : server) : server :=
  set_sv_b (BState (set_kern k (wd (sv_b s))) (bm (sv_b s))) s.

(** The socket as the process sees it: the process's descriptors and allocator. *)
Definition link_in (s : server) : link :=
  Link (set_oom (k_oom (sv_kern s)) (set_fdt (fdtab (sv_kern s)) (ep (sv_l s)))) (cn (sv_l s)).
Definition link_out (l : link) (s : server) : server :=
  set_sv_kern (set_k_oom (oom (ep l)) (set_fdtab (fdt (ep l)) (sv_kern s)))
    (Server (sv_b s) l (g_stats s) (g_running s) (g_memory_backend_id s) (g_persistent_backend_id s)).

(** A call of the protocol library. *)
Definition onl {A} (m : M link A) : M server A := fun s =>
  match m (link_in s) with
  | Ret a l => Ret a (link_out l s)
  | Blocked => Blocked
  | Fault => Fault
  end.

Definition upd_stats (f : g_stats_t -> g_stats_t) : M server () := modify (fun s => set_stats (f (g_stats s)) s).

Definition inc_requests (g : g_stats_t) : g_stats_t :=
  GStats (u64 (requests_total g + 1)) (gets g) (puts g) (deletes g) (errors g) (active_connections g).
Definition inc_gets (g : g_stats_t) : g_stats_t :=
  GStats (requests_total g) (u64 (gets g + 1)) (puts g) (deletes g) (errors g) (active_connections g).
Definition inc_puts (g : g_stats_t) : g_stats_t :=
  GStats (requests_total g) (gets g) (u64 (puts g + 1)) (deletes g) (errors g) (active_connections g).
Definition inc_deletes (g : g_stats_t) : g_stats_t :=
  GStats (requests_total g) (gets g) (puts g) (u64 (deletes g + 1)) (errors g) (active_connections g).
Definition inc_errors (g : g_stats_t) : g_stats_t :=
  GStats (requests_total g) (gets g) (puts g) (deletes g) (u64 (errors g + 1)) (active_connections g).
Definition add_conn (n : Z) (g : g_stats_t) : g_stats_t :=
  GStats (requests_total g) (gets g) (puts g) (deletes g) (errors g) (u64 (active_connections g + n)).

(** ** Request handlers *)

(** The URI of a request as a C string. *)
Definition req_uri (req : objm_request_t) : list byte := c_str (rq_uri req).

Definition handle_get (req : objm_request_t) : M server Z :=
  r ← onb (backend_get_object (Some (req_uri req)) true);
  match r with
  | (0, Some ref) =>
      if bool_decide (rq_mode req = OBJM_MODE_FDPASS) then
        let resp := Response (rq_id req) OBJM_STATUS_OK (fr_fd ref) 0 None 0 None in
        ret ← onl (objm_server_send_response (Some resp));
        _ ← onb (onw (fd_ref_release (Some ref)));
        if ret <? 0 then mret (-1) else _ ← upd_stats inc_gets; mret 0
      else
        _ ← onb (onw (fd_ref_release (Some ref)));
        _ ← onl (objm_server_send_error (rq_id req) OBJM_STATUS_UNSUPPORTED_OP
                   (Some (bs "Only FD pass mode supported for GET")));
        mret (-1)
  | _ =>
      _ ← onl (objm_server_send_error (rq_id req) OBJM_STATUS_NOT_FOUND (Some (bs "Object not found")));
      mret (-1)
  end.

Definition put_request (req : objm_request_t) : object_create_req_t :=
  CreateReq (Some (req_uri req)) (-1) (has_flag (rq_flags req) OBJM_REQ_PRIORITY) 0 0.

Definition handle_put (req : objm_request_t) : M server Z :=
  r ← onb (backend_get_object (Some (req_uri req)) true);
  _ ← match r with
      | (0, Some ref) =>
          _ ← onb (onw (fd_ref_release (Some ref)));
          _ ← onb (backend_delete_object (Some (req_uri req)));
          mret ()
      | _ => mret ()
      end;
  c ← onb (backend_create_object (Some (put_request req)) true);
  match c with
  | (0, Some ref) =>
      if bool_decide (rq_mode req = OBJM_MODE_FDPASS) then
        let resp := Response (rq_id req) OBJM_STATUS_OK (fr_fd ref) 0 None 0 None in
        ret ← onl (objm_server_send_response (Some resp));
        _ ← onb (onw (fd_ref_release (Some ref)));
        if ret <? 0 then mret (-1) else _ ← upd_stats inc_puts; mret 0
      else
        _ ← onb (onw (fd_ref_release (Some ref)));
        _ ← onl (objm_server_send_error (rq_id req) OBJM_STATUS_UNSUPPORTED_OP
                   (Some (bs "Only FD pass mode supported for PUT")));
        mret (-1)
  | _ =>
      _ ← onl (objm_server_send_error (rq_id req) OBJM_STATUS_STORAGE_ERROR (Some (bs "Failed to create object")));
      mret (-1)
  end.

(** [u] is [req->uri], which the caller has replaced ([None]: [strdup] failed). *)
Definition handle_delete (req : objm_request_t) (u : option (list byte)) : M server Z :=
  ret ← onb (backend_delete_object u);
  if ret =? 0 then
    let resp := Response (rq_id req) OBJM_STATUS_OK (-1) 1 None 0 None in
    r ← onl (objm_server_send_response (Some resp));
    if r <? 0 then mret (-1) else _ ← upd_stats inc_deletes; mret 0
  else
    _ ← onl (objm_server_send_error (rq_id req) OBJM_STATUS_NOT_FOUND (Some (bs "Object not found")));
    mret (-1).

Definition handle_list (req : objm_request_t) : M server Z :=
  _ ← onl (objm_server_send_error (rq_id req) OBJM_STATUS_UNSUPPORTED_OP
             (Some (bs "LIST is disabled - use management API")));
  mret (-1).

(** ** Dispatch *)

Definition count_error (ret : Z) : M server () := if ret <? 0 then upd_stats inc_errors else mret ().

(** The body of the request loop after a request has arrived. *)
Definition dispatch (req : objm_request_t) : M server () :=
  let u := req_uri req in
  if has_prefix (bs "/delete/") u then
    m ← onb (onw (onk sys_malloc));
    let uri_copy := take (Z.to_nat (OBJM_MAX_URI_LEN - 1)) (drop 7 u) in
    r ← handle_delete req (if m : bool then Some uri_copy else None);
    count_error r
  else if bool_decide (u = bs "/list") || has_prefix (bs "/backend/") u then
    r ← handle_list req;
    count_error r
  else
    x ← onb (backend_get_object (Some u) true);
    match x with
    | (0, Some ref) =>
        _ ← onb (onw (fd_ref_release (Some ref)));
        r ← handle_get req;
        count_error r
    | _ =>
        r ← handle_put req;
        count_error r
    end.

Definition test_running : M server bool := fun s =>
  match g_running s with
  | [] => Ret true s
  | b :: l => Ret b (set_running l s)
  end.

(** The body of the loop behind the test of [g_running]: does the loop go on? *)
Definition request_round (version : Z) : M server bool :=
  r ← onl (objm_server_recv_request true);
  match r with
  | (0, Some req) => _ ← upd_stats inc_requests; _ ← dispatch req; mret true
  | (ret, _) =>
      if ret =? 1 then mret false
      else if version =? OBJM_PROTO_V1 then mret false
      else _ ← upd_stats inc_errors; mret false
  end.

(** [while (g_running)].  Every request read takes at least one byte from the
    socket, so the loop makes at most one more round than there are bytes. *)
Fixpoint request_loop (fuel : nat) (version : Z) : M server () :=
  run ← test_running;
  if negb run then mret ()
  else match fuel with
       | O => block
       | S fuel => more ← request_round version; if more : bool then request_loop fuel version else mret ()
       end.

(** ** Client threads *)

(** Connection and handshake: is there a connection, and its version when the
    handshake succeeded. *)
Definition session_setup (client_fd : Z) : M server (bool * option Z) :=
  c ← onl (onep (objm_server_create client_fd));
  match c with
  | None => mret (false, None)
  | Some c =>
      _ ← onl (modify (fun l => Link (ep l) (Some c)));
      h ← onl (objm_server_handshake (Hello 0 1 2) true);
      match h with
      | (0, Some params) => mret (true, Some (pa_version params))
      | _ => mret (true, None)
      end
  end.

Definition close_session (client_fd : Z) (conn : bool) : M server () :=
  _ ← (if conn then onl objm_server_destroy else mret ());
  onb (onw (onk (sys_close_fd client_fd))).

Definition client_thread (client_fd : Z) : M server () :=
  _ ← upd_stats (add_conn 1);
  r ← session_setup client_fd;
  _ ← match r.2 with
      | Some version => fun s => request_loop (S (length (rx (ep (sv_l s))))) version s
      | None => mret ()
      end;
  _ ← close_session client_fd r.1;
  upd_stats (add_conn (-1)).

(** ** Backends *)

Definition MEMORY_CACHE_SIZE : Z := 4 * 1024 * 1024 * 1024.
Definition PERSISTENT_SIZE : Z := 100 * 1024 * 1024 * 1024.
Definition CACHE_CHECK_INTERVAL_US : Z := 1000000.
Definition CACHE_HOTNESS_THRESHOLD : spec_float := dlit 7 10.

Definition MEMORY_FLAGS : Z :=
  Z.lor (Z.lor BACKEND_FLAG_EPHEMERAL_ONLY BACKEND_FLAG_ENABLED)
        (Z.lor BACKEND_FLAG_MIGRATION_SRC BACKEND_FLAG_MIGRATION_DST).
Definition PERSISTENT_FLAGS : Z :=
  Z.lor (Z.lor BACKEND_FLAG_PERSISTENT BACKEND_FLAG_ENABLED)
        (Z.lor BACKEND_FLAG_MIGRATION_SRC BACKEND_FLAG_MIGRATION_DST).

Section Init.
Variable readdir_order : list (list byte) -> list (list byte).

Definition init_backends (memory_path persistent_path : list byte) : M server Z :=
  ok ← onb (backend_manager_create 8192 2000);
  if negb ok then mret (-1)
  else
    _ ← onb (onw (onk (sys_mkdir memory_path)));
    mid ← onb (backend_manager_register BACKEND_TYPE_MEMORY (Some memory_path) (Some (bs "Memory Cache"))
                 MEMORY_CACHE_SIZE MEMORY_FLAGS);
    _ ← modify (fun s => set_ids mid (g_persistent_backend_id s) s);
    if mid <? 0 then mret (-1)
    else
      _ ← onb (onw (onk (sys_mkdir persistent_path)));
      pid ← onb (backend_manager_register BACKEND_TYPE_SSD (Some persistent_path) (Some (bs "Persistent SSD"))
                   PERSISTENT_SIZE PERSISTENT_FLAGS);
      _ ← modify (fun s => set_ids (g_memory_backend_id s) pid s);
      if pid <? 0 then mret (-1)
      else
        _ ← onb (backend_manager_set_default pid);
        _ ← onb (backend_manager_set_ephemeral mid);
        _ ← onb (backend_manager_set_cache mid);
        _ ← onb (backend_manager_scan readdir_order mid);
        _ ← onb (backend_manager_scan readdir_order pid);
        _ ← onb (backend_start_caching CACHE_CHECK_INTERVAL_US CACHE_HOTNESS_THRESHOLD);
        mret 0.
End Init.

Definition cleanup_backends : M server () :=
  s ← get;
  match bm (sv_b s) with
  | None => mret ()
  | Some _ => _ ← onb backend_stop_caching; onb backend_manager_destroy
  end.
