(* ===== verification/ServerProofs.v ===== *)
(** * ServerProofs: what a request does

    The branches of the dispatch loop of [server.c], end to end: the answer on
    the wire, what the client makes of it, and what the request leaves behind
    in the process. *)

From S2P Require Import Prelude Socket Protocol ProtocolProofs Metadata Kernel KernelProofs Index IndexProofs Backend BackendProofs ObjectProofs Server.

(** ** The objects of a process, up to access statistics *)

(** The part of an entry a read must not change. *)
Definition still (e : index_entry) := (core e, entry_refcount e, fd_refcount e, e_fd e, next e).

(** The part of the global index a read must not change. *)
Definition tables (g : global_index) := (g_buckets g, g_num_buckets g, g_num_entries g).

(** Two states with the same files, descriptors, entries, indexes and manager,
    but for access counts and times and the number of reads and lookups. *)
Record same_objects (s s' : bstate) : Prop := {
  so_fs : same_fs (kern (wd s)) (kern (wd s'));
  so_fdtab : fdtab (kern (wd s')) = fdtab (kern (wd s));
  so_sched : sched (kern (wd s)) = [] -> sched (kern (wd s')) = [];
  so_ents : still <$> ents (wd s') = still <$> ents (wd s);
  so_gidxs : tables <$> gidxs (wd s') = tables <$> gidxs (wd s);
  so_bidxs : bidxs (wd s') = bidxs (wd s);
  so_bm : unread <$> bm s' = unread <$> bm s
}.

#[global] Instance same_objects_preorder : PreOrder same_objects.
Proof.
  split.
  - intros s. by split.
  - intros a b c [A1 A2 A3 A4 A5 A6 A7] [B1 B2 B3 B4 B5 B6 B7].
    destruct A1 as (?&?&?&?), B1 as (?&?&?&?). split; try congruence; [repeat split; congruence|auto].
Qed.

(** ** Lookups *)

(** A lookup of [u] in the index [idx] ends at entry [q] ([NULL]: no entry). *)
Definition walks_to (w : world) (idx : ptr) (u : list byte) (q : ptr) : Prop :=
  exists g head, gidxs w !! idx = Some g /\
    bucket_get (g_buckets g) (g_num_buckets g) (bucket_of (index_hash_string u) (g_num_buckets g)) = Some head /\
    find_in head (index_hash_string u) u w = Ret q w.

Lemma chain_find_ext fuel head h u w w' q :
  tkey <$> ents w' = tkey <$> ents w ->
  chain_find fuel head h u w = Ret q w -> chain_find fuel head h u w' = Ret q w'.
Proof.
  intros Hk. revert head. induction fuel as [|fuel IH]; intros head Hr; simpl in *.
  { destruct (head =? NULL); [|done]. by injection Hr as ->. }
  destruct (head =? NULL); [by injection Hr as ->|]. minv Hr. apply rd_entry_inv in Hr0 as [-> He].
  assert (Hh : tkey <$> ents w' !! head = tkey <$> ents w !! head) by (by rewrite <- !lookup_fmap, Hk).
  rewrite He in Hh. apply fmap_Some in Hh as (e' & He' & [= E1 E2 E3]). run (rd_entry_eq _ _ _ He').
  rewrite <- E1, <- E2, <- E3. destruct (_ && _); [by injection Hr as ->|]. by apply IH.
Qed.

Lemma still_tkey h h' : still <$> h' = still <$> h -> tkey <$> (h' : gmap ptr index_entry) = tkey <$> h.
Proof.
  intros H. apply map_eq. intros p. rewrite !lookup_fmap. assert (Hp : still <$> h' !! p = still <$> h !! p) by (by rewrite <- !lookup_fmap, H).
  destruct (h' !! p), (h !! p); simpl in *; try done. unfold still, core in Hp. simplify_eq. unfold tkey. congruence.
Qed.

Lemma walks_to_same s s' idx u q : same_objects s s' -> walks_to (wd s) idx u q -> walks_to (wd s') idx u q.
Proof.
  intros Hso (g & head & Hg & Hb & Hf).
  assert (Ht : tables <$> gidxs (wd s') !! idx = Some (tables g)) by (by rewrite <- lookup_fmap, (so_gidxs _ _ Hso), lookup_fmap, Hg).
  apply fmap_Some in Ht as (g' & Hg' & [= E1 E2 E3]). exists g', head. rewrite <- E1, <- E2. split; [done|]. split; [done|].
  pose proof (still_tkey _ _ (so_ents _ _ Hso)) as Hk. unfold find_in in *.
  replace (chain_fuel (wd s')) with (chain_fuel (wd s)).
  { by eapply chain_find_ext. }
  unfold chain_fuel. by rewrite <- (map_size_fmap tkey (ents (wd s'))), Hk, map_size_fmap.
Qed.

(** The object of a URI: found by a lookup, counted within the bounds of the
    counters, its file at [path]. *)
Definition object_at (s : bstate) (u : list byte) (q : ptr) (path : option (list byte)) : Prop :=
  exists m e, bm s = Some m /\ bm_global_index m <> NULL /\ walks_to (wd s) (bm_global_index m) u q /\ q <> NULL /\
    ents (wd s) !! q = Some e /\ backend_path e = path /\
    1 <= entry_refcount e < 2 ^ 31 - 1 /\ 0 <= fd_refcount e < 2 ^ 31.

(** No object of this URI. *)
Definition no_object (s : bstate) (u : list byte) : Prop :=
  exists m, bm s = Some m /\ bm_global_index m <> NULL /\ walks_to (wd s) (bm_global_index m) u NULL.

Lemma same_bm s s' m : same_objects s s' -> bm s = Some m ->
  exists m', bm s' = Some m' /\ unread m' = unread m /\ bm_global_index m' = bm_global_index m.
Proof.
  intros Hso Hm. pose proof (so_bm _ _ Hso) as H. rewrite Hm in H. apply fmap_Some in H as (m' & Hm' & Hu).
  exists m'. split; [done|]. split; [done|]. by apply (f_equal bm_global_index) in Hu.
Qed.

Lemma object_at_same s s' u q path : same_objects s s' -> object_at s u q path -> object_at s' u q path.
Proof.
  intros Hso (m & e & Hm & Hi & Hw & Hq & He & Hp & Hr & Hf).
  destruct (same_bm _ _ _ Hso Hm) as (m' & Hm' & _ & Hgi).
  assert (Hs : still <$> ents (wd s') !! q = Some (still e)) by (by rewrite <- lookup_fmap, (so_ents _ _ Hso), lookup_fmap, He).
  apply fmap_Some in Hs as (e' & He' & Hst). unfold still, core in Hst. simplify_eq.
  exists m', e'. rewrite Hgi. repeat (split; [first [done | congruence | by apply (walks_to_same s)]|]). split; lia.
Qed.

Lemma no_object_same s s' u : same_objects s s' -> no_object s u -> no_object s' u.
Proof.
  intros Hso (m & Hm & Hi & Hw). destruct (same_bm _ _ _ Hso Hm) as (m' & Hm' & _ & Hgi).
  exists m'. rewrite Hgi. repeat (split; [done|]). by apply (walks_to_same s).
Qed.

Lemma still_insert (h : gmap ptr index_entry) q e e' :
  h !! q = Some e -> still e' = still e -> still <$> <[q:=e']> h = still <$> h.
Proof. intros He Hs. rewrite fmap_insert, Hs. apply insert_id. by rewrite lookup_fmap, He. Qed.

Lemma still_cycle fd t t2 a e :
  1 <= entry_refcount e < 2 ^ 31 - 1 -> 0 <= fd_refcount e < 2 ^ 31 ->
  still (released fd (set_access a t2 (looked_up fd t e))) = still e.
Proof.
  intros Hr Hf.
  assert (H1 : s32 (s32 (entry_refcount e + 1) - 1) = entry_refcount e) by (apply s32_inc_dec; lia).
  assert (H2 : s32 (s32 (fd_refcount e + 1) - 1) = fd_refcount e) by (apply s32_inc_dec; lia).
  unfold still, core, released, looked_up. destruct (0 <=? fd); simpl; by rewrite ?H1, ?H2.
Qed.

Lemma tables_insert (gs : gmap ptr global_index) idx g g' :
  gs !! idx = Some g -> tables g' = tables g -> tables <$> <[idx:=g']> gs = tables <$> gs.
Proof. intros Hg Ht. rewrite fmap_insert, Ht. apply insert_id. by rewrite lookup_fmap, Hg. Qed.

(** A successful lookup and the release of its handle: the handle's descriptor
    is a new one on the object's file, and afterwards nothing has changed. *)
Lemma get_object_hit s u q path :
  object_at s u q path ->
  exists fd s1 s2, backend_get_object (Some u) true s = Ret (0, Some (FdRef q fd 0)) s1 /\
    opens (kern (wd s)) path fd (kern (wd s1)) /\ k_oom (kern (wd s1)) = k_oom (kern (wd s)) /\
    onw (fd_ref_release (Some (FdRef q fd 0))) s1 = Ret (Some (FdRef NULL (-1) 0)) s2 /\
    same_objects s s2 /\ ofds (kern (wd s2)) = ofds (kern (wd s1)).
Proof.
  intros (m & e & Hm & Hi & (g & head & Hg & Hb & Hw) & Hq & He & <- & Hr & Hf).
  destruct (global_lookup_found (bm_global_index m) u (wd s) g head q e) as (fd & t & k' & Hl & Hop & Hfile); try done.
  { intros w1 Hw1. unfold find_in, chain_fuel in *. rewrite Hw1. eapply chain_find_ext; [|exact Hw]. by rewrite Hw1. }
  destruct (get_object_found s m u q fd _ (looked_up fd t e) Hm Hl Hq) as (t2 & k2 & m' & Hget & Hun & Hfs & Hfd & Hofd & Hsch).
  { simpl. apply lookup_insert_eq. }
  simpl in Hfs, Hfd, Hofd, Hsch.
  set (w1 := set_kern k2 _) in Hget.
  assert (He1 : ents w1 !! q = Some (set_access (u64 (access_count (looked_up fd t e) + 1)) t2 (looked_up fd t e)))
    by apply lookup_insert_eq.
  assert (Hrc : entry_refcount (set_access (u64 (access_count (looked_up fd t e) + 1)) t2 (looked_up fd t e)) <> 1).
  { unfold looked_up. destruct (0 <=? fd); simpl; rewrite s32_small; lia. }
  pose proof (release_shared q fd 0 _ w1 Hq He1 Hrc) as Hrel.
  eexists fd, _, _. split; [exact Hget|]. simpl wd. simpl kern. split; [|split; [|split; [|split]]].
  - intros Hs. destruct (Hfile Hs) as [Hs' Hx]. rewrite Hfd, Hofd, Hsch. done.
  - destruct Hfs as (_ & _ & -> & _). by destruct Hop as [(_ & _ & -> & _) _].
  - unfold onw. simpl wd. by rewrite Hrel.
  - destruct (opened_closed _ _ _ Hop) as [Hc1 (B1 & B2 & B3 & B4)]. destruct Hfs as (A1 & A2 & A3 & A4).
    assert (Hclose : forall k, fdtab (close_if fd k) = if 0 <=? fd then delete fd (fdtab k) else fdtab k)
      by (intros k; unfold close_if; by destruct (0 <=? fd)).
    assert (Hsame : forall k, same_fs k (close_if fd k) /\ sched (close_if fd k) = sched k)
      by (intros k; unfold close_if; by destruct (0 <=? fd)).
    split; simpl.
    + destruct (Hsame k2) as [(C1 & C2 & C3 & C4) _], (Hsame k') as [(D1 & D2 & D3 & D4) _]. repeat split; congruence.
    + by rewrite Hclose, Hfd, <- Hclose.
    + intros Hs. destruct (Hfile Hs) as [Hs' _]. rewrite (proj2 (Hsame _)). congruence.
    + rewrite !insert_insert_eq. apply still_insert with e; [done|]. by apply still_cycle.
    + by apply tables_insert with g.
    + done.
    + by rewrite Hm, Hun.
  - unfold close_if. simpl. by destruct (0 <=? fd).
Qed.

Lemma lookup_miss s m u :
  bm s = Some m -> bm_global_index m <> NULL -> walks_to (wd s) (bm_global_index m) u NULL ->
  exists s1, onw (global_index_lookup (bm_global_index m) (Some u) true) s = Ret (-1, None) s1 /\
    same_objects s s1 /\ bm s1 = bm s.
Proof.
  intros Hm Hi (g & head & Hg & Hb & Hw). unfold global_index_lookup. rewrite NULL_eqb by done. cbn [orb negb].
  set (g1 := set_g_stats (u64 (g_lookups g + 1)) (g_hits g) (g_misses g) g).
  set (w1 := set_gidxs (<[bm_global_index m:=g1]> (gidxs (wd s))) (wd s)).
  set (g2 := set_g_stats (g_lookups g1) (g_hits g1) (u64 (g_misses g1 + 1)) g1).
  assert (Hg1 : gidxs w1 !! bm_global_index m = Some g1) by apply lookup_insert_eq.
  exists (BState (set_gidxs (<[bm_global_index m:=g2]> (gidxs w1)) w1) (bm s)). split; [|split; [|done]].
  - unfold onw, mbind, M_bind. rewrite (upd_g_eq _ _ _ _ Hg). fold g1 w1. rewrite (rd_g_eq _ _ _ Hg1).
    change (g_buckets g1) with (g_buckets g). change (g_num_buckets g1) with (g_num_buckets g). rewrite Hb. simpl deref.
    assert (Hw1 : find_in head (index_hash_string u) u w1 = Ret NULL w1)
      by (unfold find_in, chain_fuel in *; by eapply chain_find_ext; [|exact Hw]).
    unfold mret, M_ret. rewrite Hw1. rewrite Z.eqb_refl. by rewrite (upd_g_eq _ _ _ _ Hg1).
  - split; try done. simpl. rewrite insert_insert_eq. by apply tables_insert with g.
Qed.

Lemma get_bm_eq s m : bm s = Some m -> get_bm s = Ret (Some m) s.
Proof. intros H. unfold get_bm. by rewrite H. Qed.

Lemma get_object_miss s u :
  no_object s u -> exists s1, backend_get_object (Some u) true s = Ret (-1, None) s1 /\ same_objects s s1 /\ bm s1 = bm s.
Proof.
  intros (m & Hm & Hi & Hw). destruct (lookup_miss s m u Hm Hi Hw) as (s1 & Hl & Hso & Hb).
  exists s1. split; [|done]. unfold backend_get_object. run (get_bm_eq _ _ Hm). run Hl. done.
Qed.

Lemma delete_object_miss s u :
  no_object s u -> exists s1, backend_delete_object (Some u) s = Ret (-1) s1 /\ same_objects s s1 /\ bm s1 = bm s.
Proof.
  intros (m & Hm & Hi & Hw). destruct (lookup_miss s m u Hm Hi Hw) as (s1 & Hl & Hso & Hb).
  exists s1. split; [|done]. unfold backend_delete_object. run (get_bm_eq _ _ Hm). run Hl. done.
Qed.

(** ** Answers *)

(** The connection is up: it speaks version [v], writes are not interrupted and
    allocations succeed. *)
Definition connected (v : Z) (s : server) : Prop :=
  speaks v (sv_l s) /\ quiet (wr_sched (ep (sv_l s))) /\ k_oom (sv_kern s) = [].

(** [s'] is [s] after [cells] went out on the connection. *)
Record answered (cells : list cell) (s s' : server) : Prop := {
  an_objects : same_objects (sv_b s) (sv_b s');
  an_tx : tx (ep (sv_l s')) = tx (ep (sv_l s)) ++ cells;
  an_rx : rx (ep (sv_l s')) = rx (ep (sv_l s)) /\ rd_sched (ep (sv_l s')) = rd_sched (ep (sv_l s));
  an_wr : wr_sched (ep (sv_l s')) `suffix_of` wr_sched (ep (sv_l s));
  an_cn : cn (sv_l s') = cn (sv_l s)
}.

Lemma answered_nil b s : same_objects (sv_b s) b -> answered [] s (set_sv_b b s).
Proof. intros H. split; try done. simpl. by rewrite app_nil_r. Qed.

Lemma answered_trans c1 c2 s1 s2 s3 : answered c1 s1 s2 -> answered c2 s2 s3 -> answered (c1 ++ c2) s1 s3.
Proof.
  intros [A1 A2 [A3 A3'] A4 A5] [B1 B2 [B3 B3'] B4 B5]. split; try congruence.
  - by etrans.
  - by rewrite B2, A2, app_assoc.
  - split; congruence.
  - by etrans.
Qed.

Lemma answered_stats f c s s' : answered c s s' -> answered c s (set_stats f s').
Proof. by intros [A1 A2 A3 A4 A5]. Qed.

Lemma answered_connected v c s s' : answered c s s' -> connected v s -> connected v s'.
Proof.
  intros [A1 A2 A3 A4 A5] (H1 & H2 & H3). split; [|split].
  - unfold speaks in *. by rewrite A5.
  - by eapply quiet_suffix.
  - destruct (so_fs _ _ A1) as (_ & _ & Ho & _). unfold sv_kern in *. congruence.
Qed.

Lemma link_in_connected v s : connected v s ->
  speaks v (link_in s) /\ quiet (wr_sched (ep (link_in s))) /\ oom (ep (link_in s)) = [].
Proof. intros (H1 & H2 & H3). done. Qed.

(** A call of the protocol library that only writes. *)
Lemma onl_sent {A} (m : M link A) a cells w s :
  m (link_in s) = Ret a (Link (set_tx (tx (ep (link_in s)) ++ cells) w (ep (link_in s))) (cn (link_in s))) ->
  w `suffix_of` wr_sched (ep (link_in s)) ->
  exists s', onl m s = Ret a s' /\ answered cells s s' /\ sv_b s' = sv_b s /\ g_stats s' = g_stats s.
Proof.
  intros Hm Hw. unfold onl. rewrite Hm. eexists. split; [reflexivity|].
  assert (Hb : sv_b (link_out (Link (set_tx (tx (ep (link_in s)) ++ cells) w (ep (link_in s))) (cn (link_in s))) s) = sv_b s).
  { unfold link_out, link_in, set_sv_kern, set_sv_b, sv_kern. simpl. by destruct (sv_b s) as [[[]] ?]. }
  split; [|done]. split; [by rewrite Hb|done..].
Qed.

Lemma onl_error v id status m t s :
  connected v s -> 0 <= id < 2 ^ 32 -> 0 < status < 2 ^ 8 -> c_string m t ->
  exists s', onl (objm_server_send_error id status (Some (m ++ t))) s = Ret 0 s' /\
    answered (error_wire v id status m) s s' /\ sv_b s' = sv_b s /\ g_stats s' = g_stats s.
Proof.
  intros (Hs & Hq & Ho)%link_in_connected Hid Hst Hm.
  destruct (send_error_ok v id status m t (link_in s) Hs Hq Ho Hid Hst Hm) as (w & H & Hw). by eapply onl_sent.
Qed.

Lemma onb_Ret {A} (m : M bstate A) a b s : m (sv_b s) = Ret a b -> onb m s = Ret a (set_sv_b b s).
Proof. unfold onb. by intros ->. Qed.

(** A message of the source without its terminating NUL. *)
Lemma literal_ok (m : list byte) : no_nul m -> 3 + Z.of_nat (length m) < 2 ^ 16 -> c_string m [].
Proof. intros H Hl. split; [|done]. rewrite app_nil_r. by apply c_str_id. Qed.

Ltac literal := apply literal_ok; [apply (bool_decide_unpack _); vm_compute; exact I|vm_compute; reflexivity].

(** ** Requests outside the object namespace *)

(** The management paths.  A request for [/list] or below [/backend/] is
    answered with UNSUPPORTED_OP and the pointer to the management API, on every
    connected client; nothing else of the process changes but the error count. *)
Theorem management_uris_refused v req s :
  connected v s -> 0 <= rq_id req < 2 ^ 32 ->
  req_uri req = bs "/list" \/ has_prefix (bs "/backend/") (req_uri req) = true ->
  exists s', dispatch req s = Ret () s' /\
    answered (error_wire v (rq_id req) OBJM_STATUS_UNSUPPORTED_OP (bs "LIST is disabled - use management API")) s s' /\
    sv_b s' = sv_b s /\ g_stats s' = inc_errors (g_stats s).
Proof.
  intros Hc Hid Hu.
  assert (Hdis : dispatch req = (r ← handle_list req; count_error r)).
  { unfold dispatch. destruct Hu as [->|Hu]; [done|].
    assert (Hnd : has_prefix (bs "/delete/") (req_uri req) = false).
    { apply has_prefix_spec in Hu as [t ->]. reflexivity. }
    rewrite Hnd, Hu, orb_true_r. done. }
  rewrite Hdis. unfold handle_list.
  destruct (onl_error v (rq_id req) OBJM_STATUS_UNSUPPORTED_OP (bs "LIST is disabled - use management API") [] s)
    as (s' & Hs' & Ha & Hb & Hg); [done|done|done|literal|].
  rewrite app_nil_r in Hs'. rewrite bind_assoc. run Hs'. rewrite bind_ret_l. simpl count_error.
  eexists. split; [reflexivity|]. split; [by apply answered_stats|]. split; [done|]. by rewrite <- Hg.
Qed.

(** ** Objects *)

Lemma resolve_same k k' p d n :
  same_fs k k' -> resolve k p = Some d -> node_at k d = Some n -> resolve k' p = Some d /\ node_at k' d = Some n.
Proof.
  intros (Hn & _ & _ & Hc) Hr Hd. unfold node_at in *. rewrite Hn. split; [|done].
  rewrite <- Hr. apply resolve_names; [|done]. intros x. unfold is_dir. by rewrite Hn.
Qed.

(** The URI names an object, not an operation of the server. *)
Definition object_uri (u : list byte) : bool :=
  negb (has_prefix (bs "/delete/") u) && negb (bool_decide (u = bs "/list") || has_prefix (bs "/backend/") u).

Lemma answered_rebase cells s x s' b :
  answered cells x s' -> sv_l x = sv_l s -> same_objects (sv_b s) b -> answered cells s (set_sv_b b s').
Proof. intros [A1 A2 A3 A4 A5] Hl Hso. rewrite Hl in *. by split. Qed.

(** The response that passes the descriptor [fd]. *)
Definition fd_response (req : objm_request_t) (fd : Z) : objm_response_t :=
  Response (rq_id req) OBJM_STATUS_OK fd 0 None 0 None.

Lemma fd_response_wf req fd f o :
  0 <= rq_id req < 2 ^ 32 -> f !! fd = Some o -> 0 <= fd ->
  wf_response f (fd_response req fd) /\ fd_discipline (fd_response req fd) /\
  fd_cells f (fd_response req fd) = [Cell "X"%byte (Some o)].
Proof.
  intros Hid Ho Hfd. split; [|split].
  - unfold wf_response, fd_response, OBJM_STATUS_OK. cbn [fd_response rs_request_id rs_status rs_metadata_len rs_content_len rs_metadata rs_fd]. split; [done|]. do 3 (split; [lia|]). split; [intros; lia|]. intros _ _. by eexists.
  - unfold fd_discipline. simpl. intros _. split; [lia|done].
  - unfold fd_cells. simpl. by rewrite (proj2 (Z.leb_le _ _) Hfd), Ho.
Qed.

(** What the client makes of [cells]: an OK response with a new descriptor on
    the description [o]; its other descriptors and the rest of its input stay. *)
Definition delivers_ok (v : Z) (id o : Z) (cells : list cell) : Prop :=
  forall lc rest, speaks v lc -> calm lc -> rx (ep lc) = cells ++ rest ->
    exists x w, objm_client_recv_response true lc =
        Ret (0, Some x) (Link (set_fdt (<[lowest_free (fdt (ep lc)):=o]> (fdt (ep lc))) (set_rx rest w (ep lc))) (cn lc)) /\
      w `suffix_of` rd_sched (ep lc) /\
      rs_status x = OBJM_STATUS_OK /\ rs_request_id x = (if v =? OBJM_PROTO_V1 then 0 else id) /\
      rs_fd x = lowest_free (fdt (ep lc)).

Lemma fd_response_sent v req fd o s :
  connected v s -> 0 <= rq_id req < 2 ^ 32 -> fdtab (sv_kern s) !! fd = Some o -> 0 <= fd ->
  exists s' cells, onl (objm_server_send_response (Some (fd_response req fd))) s = Ret 0 s' /\
    answered cells s s' /\ sv_b s' = sv_b s /\ g_stats s' = g_stats s /\ delivers_ok v (rq_id req) o cells.
Proof.
  intros (Hs & Hq & Ho)%link_in_connected Hid Hf Hfd.
  destruct (fd_response_wf req fd (fdt (ep (link_in s))) o Hid Hf Hfd) as (Hwf & Hd & Hcells).
  destruct (send_response_ok v _ (link_in s) Hs Hwf Hq) as (w & Hsend & Hw).
  destruct (onl_sent _ _ _ _ _ Hsend Hw) as (s' & H1 & H2 & H3 & H4).
  exists s', (response_wire v (fdt (ep (link_in s))) (fd_response req fd)). repeat (split; [done|]).
  intros lc rest Hlc Hcalm Hrx.
  destruct (recv_response_ok v _ _ rest lc Hlc Hcalm Hwf Hd Hrx) as (w2 & Hrecv & Hw2). rewrite Hcells in Hrecv.
  eexists _, w2. split; [exact Hrecv|]. done.
Qed.

Lemma get_hit_served v req q path d i s :
  connected v s -> 0 <= rq_id req < 2 ^ 32 -> rq_mode req = OBJM_MODE_FDPASS ->
  object_at (sv_b s) (req_uri req) q (Some path) ->
  sched (sv_kern s) = [] -> resolve (sv_kern s) path = Some d -> node_at (sv_kern s) d = Some (File i) ->
  exists s' o cells, handle_get req s = Ret 0 s' /\ answered cells s s' /\ g_stats s' = inc_gets (g_stats s) /\
    ofds (sv_kern s') !! o = Some (Ofd (Some i) 0 true true) /\ delivers_ok v (rq_id req) o cells.
Proof.
  intros Hc Hid Hmode Hobj Hsch Hres Hnode. unfold handle_get.
  destruct (get_object_hit _ _ _ _ Hobj) as (fd & s1 & s2 & Hget & Hop & Hoom & Hrel & Hso & Hofd).
  run (onb_Ret _ _ _ _ Hget). rewrite bool_decide_eq_true_2 by done. simpl fr_fd.
  destruct (Hop Hsch) as [_ Hfile]. destruct (Hfile path d i eq_refl Hres Hnode) as (Hfd & o & Hf & Ho).
  assert (Hc1 : connected v (set_sv_b s1 s)).
  { destruct Hc as (C1 & C2 & C3). split; [done|]. split; [done|]. unfold sv_kern in *. simpl. congruence. }
  destruct (fd_response_sent v req fd o (set_sv_b s1 s) Hc1 Hid Hf Hfd) as (s' & cells & Hsend & Ha & Hb & Hg & Hdel).
  unfold fd_response in Hsend. run Hsend. assert (Hrel' : onw (fd_ref_release (Some (FdRef q fd 0))) (sv_b s') = Ret (Some (FdRef NULL (-1) 0)) s2)
    by (by rewrite Hb).
  run (onb_Ret _ _ _ _ Hrel'). eexists _, o, cells. split; [reflexivity|]. split; [|split; [|split; [|done]]].
  - apply answered_stats. by apply (answered_rebase _ _ (set_sv_b s1 s)).
  - simpl. by rewrite Hg.
  - unfold sv_kern. simpl. by rewrite Hofd.
Qed.

Lemma dispatch_get v req q path d i s :
  connected v s -> 0 <= rq_id req < 2 ^ 32 -> rq_mode req = OBJM_MODE_FDPASS ->
  object_uri (req_uri req) = true -> object_at (sv_b s) (req_uri req) q (Some path) ->
  sched (sv_kern s) = [] -> resolve (sv_kern s) path = Some d -> node_at (sv_kern s) d = Some (File i) ->
  exists s' o cells, dispatch req s = Ret () s' /\ answered cells s s' /\ g_stats s' = inc_gets (g_stats s) /\
    ofds (sv_kern s') !! o = Some (Ofd (Some i) 0 true true) /\ delivers_ok v (rq_id req) o cells.
Proof.
  intros Hc Hid Hmode Huri Hobj Hsch Hres Hnode. unfold dispatch.
  apply andb_true_iff in Huri as [->%negb_true_iff ->%negb_true_iff].
  destruct (get_object_hit _ _ _ _ Hobj) as (fd & s1 & s2 & Hget & _ & _ & Hrel & Hso & _).
  run (onb_Ret _ _ _ _ Hget). run (onb_Ret _ _ _ (set_sv_b s1 s) Hrel).
  pose proof (answered_nil s2 s Hso) as Hnil. set (x := set_sv_b s2 _). change x with (set_sv_b s2 s).
  destruct (resolve_same _ _ path d _ (so_fs _ _ Hso) Hres Hnode) as [Hres' Hnode'].
  destruct (get_hit_served v req q path d i (set_sv_b s2 s)) as (s' & o & cells & Hr & Ha & Hg & Ho & Hdel); try done.
  - by apply (answered_connected v [] s).
  - by apply (object_at_same (sv_b s)).
  - apply (so_sched _ _ Hso Hsch).
  - run Hr. exists s', o, cells. split; [done|]. split; [by apply (answered_trans [] cells _ _ _ Hnil)|]. done.
Qed.

(** C8: GET, end to end.  A request for an indexed object whose file is in place
    is answered with OK and a descriptor: the client's receive returns the
    response to its own request with a descriptor on a fresh description of
    that file, at offset 0, readable and writable.  Afterwards the process has
    the descriptors, reference counts, entries, indexes and files it had
    before: no handle or descriptor leaks on the way. *)
Theorem get_request_served v req q path d i s :
  connected v s -> 0 <= rq_id req < 2 ^ 32 -> rq_mode req = OBJM_MODE_FDPASS ->
  object_uri (req_uri req) = true -> object_at (sv_b s) (req_uri req) q (Some path) ->
  sched (sv_kern s) = [] -> resolve (sv_kern s) path = Some d -> node_at (sv_kern s) d = Some (File i) ->
  exists s' o cells, dispatch req s = Ret () s' /\ answered cells s s' /\ g_stats s' = inc_gets (g_stats s) /\
    ofds (sv_kern s') !! o = Some (Ofd (Some i) 0 true true) /\ delivers_ok v (rq_id req) o cells.
Proof. apply dispatch_get. Qed.

(** ** Objects that do not exist *)

(** An error answer to [req] in state [x], which holds the objects of [s]. *)
Lemma error_answer v req status m s b :
  connected v s -> 0 <= rq_id req < 2 ^ 32 -> 0 < status < 2 ^ 8 -> c_string m [] -> same_objects (sv_b s) b ->
  exists s', onl (objm_server_send_error (rq_id req) status (Some m)) (set_sv_b b s) = Ret 0 s' /\
    answered (error_wire v (rq_id req) status m) s s' /\ g_stats s' = g_stats s.
Proof.
  intros Hc Hid Hst Hm Hso. pose proof (answered_nil b s Hso) as Hnil.
  destruct (onl_error v (rq_id req) status m [] (set_sv_b b s)) as (s' & Hr & Ha & Hb & Hg); try done.
  { by apply (answered_connected v [] s). }
  rewrite app_nil_r in Hr. exists s'. split; [done|]. split; [|done]. by apply (answered_trans [] _ _ _ _ Hnil).
Qed.

(** DELETE of an unknown object.  A request below [/delete/] whose rest (after
    the prefix, cut at the longest URI) names no object is answered with
    NOT_FOUND; objects, files and descriptors stay as they are. *)
Theorem delete_request_missing v req s :
  connected v s -> 0 <= rq_id req < 2 ^ 32 ->
  has_prefix (bs "/delete/") (req_uri req) = true ->
  no_object (sv_b s) (take (Z.to_nat (OBJM_MAX_URI_LEN - 1)) (drop 7 (req_uri req))) ->
  exists s', dispatch req s = Ret () s' /\
    answered (error_wire v (rq_id req) OBJM_STATUS_NOT_FOUND (bs "Object not found")) s s' /\
    g_stats s' = inc_errors (g_stats s).
Proof.
  intros Hc Hid Hu Hno. unfold dispatch. rewrite Hu.
  assert (Hm : onb (onw (onk sys_malloc)) s = Ret true s).
  { destruct Hc as (_ & _ & Ho). unfold onb, onw, onk, sys_malloc, sv_kern in *. rewrite Ho. by destruct s as [[[] ?]]. }
  run Hm. destruct (delete_object_miss _ _ Hno) as (s1 & Hdel & Hso & _).
  unfold handle_delete. rewrite bind_assoc. run (onb_Ret _ _ _ _ Hdel). simpl (-1 =? 0). cbv iota.
  destruct (error_answer v req OBJM_STATUS_NOT_FOUND (bs "Object not found") s s1) as (s' & Hs & Ha & Hg); [done..|literal|done|].
  rewrite bind_assoc. run Hs. rewrite bind_ret_l. simpl count_error.
  eexists. split; [reflexivity|]. split; [by apply answered_stats|]. by rewrite <- Hg.
Qed.

Lemma dispatch_unknown req s :
  object_uri (req_uri req) = true -> no_object (sv_b s) (req_uri req) ->
  exists b, same_objects (sv_b s) b /\ bm b = bm (sv_b s) /\
    (_ ← backend_get_object (Some (req_uri req)) true; backend_get_object (Some (req_uri req)) true) (sv_b s) = Ret (-1, None) b /\
    dispatch req s =
      (r ← (c ← onb (backend_create_object (Some (put_request req)) true);
            match c with
            | (0, Some ref) =>
                if bool_decide (rq_mode req = OBJM_MODE_FDPASS) then
                  ret ← onl (objm_server_send_response (Some (fd_response req (fr_fd ref))));
                  _ ← onb (onw (fd_ref_release (Some ref)));
                  if ret <? 0 then mret (-1) else _ ← upd_stats inc_puts; mret 0
                else
                  _ ← onb (onw (fd_ref_release (Some ref)));
                  _ ← onl (objm_server_send_error (rq_id req) OBJM_STATUS_UNSUPPORTED_OP
                             (Some (bs "Only FD pass mode supported for PUT")));
                  mret (-1)
            | _ =>
                _ ← onl (objm_server_send_error (rq_id req) OBJM_STATUS_STORAGE_ERROR (Some (bs "Failed to create object")));
                mret (-1)
            end); count_error r) (set_sv_b b s).
Proof.
  intros Hu Hno. apply andb_true_iff in Hu as [Hu1%negb_true_iff Hu2%negb_true_iff].
  destruct (get_object_miss _ _ Hno) as (s1 & H1 & Hso1 & B1).
  destruct (get_object_miss s1 (req_uri req)) as (s2 & H2 & Hso2 & B2); [by apply (no_object_same (sv_b s))|].
  exists s2. split; [by etrans|]. split; [congruence|]. split; [run H1; exact H2|].
  unfold dispatch. rewrite Hu1, Hu2. run (onb_Ret _ _ _ _ H1). unfold handle_put.
  rewrite bind_assoc. run (onb_Ret _ _ _ (set_sv_b s1 s) H2). reflexivity.
Qed.

(** PUT that cannot be served.  A request for an unknown object that the
    manager refuses (no backend for it, or a disabled or unfit one) is answered
    with STORAGE_ERROR; objects, files and descriptors stay as they are. *)
Theorem put_request_refused v req m s :
  connected v s -> 0 <= rq_id req < 2 ^ 32 ->
  object_uri (req_uri req) = true -> no_object (sv_b s) (req_uri req) ->
  bm (sv_b s) = Some m -> refusable m (put_request req) ->
  exists s', dispatch req s = Ret () s' /\
    answered (error_wire v (rq_id req) OBJM_STATUS_STORAGE_ERROR (bs "Failed to create object")) s s' /\
    g_stats s' = inc_errors (g_stats s).
Proof.
  intros Hc Hid Hu Hno Hm Href. destruct (dispatch_unknown req s Hu Hno) as (b & Hso & Hb & _ & ->).
  rewrite Hm in Hb. pose proof (create_refused_eq m (put_request req) (req_uri req) b Hb eq_refl Href) as Hcr.
  rewrite bind_assoc. run (onb_Ret _ _ _ (set_sv_b b s) Hcr).
  destruct (error_answer v req OBJM_STATUS_STORAGE_ERROR (bs "Failed to create object") s b) as (s' & Hs & Ha & Hg); [done..|literal|done|].
  rewrite bind_assoc. change (set_sv_b b (set_sv_b b s)) with (set_sv_b b s). run Hs. rewrite bind_ret_l. simpl count_error.
  eexists. split; [reflexivity|]. split; [by apply answered_stats|]. by rewrite <- Hg.
Qed.

(** Releasing the handle of a new object keeps the object. *)
Lemma release_created ref idx h c path w :
  fr_entry ref <> NULL -> counted (fr_entry ref) 2 3 w -> found_first idx (fr_entry ref) h c w ->
  new_file path (fr_fd ref) (kern w) -> (exists e, ents w !! fr_entry ref = Some e /\ fd_refcount e = 1) ->
  exists w' d i o, fd_ref_release (Some ref) w = Ret (Some (FdRef NULL (-1) (fr_generation ref))) w' /\
    kern w' = close_if (fr_fd ref) (kern w) /\
    (exists e, ents w' !! fr_entry ref = Some e /\ 1 <= entry_refcount e < 2 ^ 31 - 1 /\ 0 <= fd_refcount e < 2 ^ 31) /\
    found_first idx (fr_entry ref) h c w' /\ fdtab (kern w') = fdtab (close_if (fr_fd ref) (kern w)) /\
    fdtab (kern w) !! fr_fd ref = Some o /\ ofds (kern w') !! o = Some (Ofd (Some i) 0 true true) /\
    resolve (kern w') path = Some d /\ node_at (kern w') d = Some (File i) /\ inodes (kern w') !! i = Some [].
Proof.
  intros Hp (e & He & Hrc) [Hent Hhead] (d & i & o & N1 & N2 & N3 & N4 & N5) (e0 & He0 & Hfc). destruct ref as [p fd gen]. simpl in *.
  rewrite He in He0. injection He0 as <-.
  rewrite (release_shared p fd gen e w Hp He) by lia. eexists _, d, i, o. split; [reflexivity|]. split; [done|]. split.
  { eexists. split; [apply lookup_insert_eq|]. unfold released. destruct (0 <=? fd); simpl; rewrite !s32_small; lia. }
  assert (Hk : resolve (close_if fd (kern w)) path = Some d /\ node_at (close_if fd (kern w)) d = Some (File i)).
  { apply (resolve_same (kern w)); [|done|done]. unfold close_if. by destruct (0 <=? fd). }
  split; [split; [|exact Hhead]|]; simpl.
  - unfold entry_is in *. simpl. rewrite lookup_insert_eq. rewrite He in Hent. simpl in *. rewrite <- Hent.
    unfold released. by destruct (0 <=? fd).
  - split; [done|]. split; [done|]. split; [|split; [apply Hk|split; [apply Hk|]]];
      unfold close_if; by destruct (0 <=? fd).
Qed.

(** The object of an entry that heads its bucket. *)
Lemma found_first_object s m u q x path :
  bm s = Some m -> bm_global_index m <> NULL -> q <> NULL ->
  found_first (bm_global_index m) q (index_hash_string u) (u, index_hash_string u, x.1, Some path, x.2.1, x.2.2) (wd s) ->
  (exists e, ents (wd s) !! q = Some e /\ 1 <= entry_refcount e < 2 ^ 31 - 1 /\ 0 <= fd_refcount e < 2 ^ 31) ->
  object_at s u q (Some path).
Proof.
  intros Hm Hi Hq [Hent (g & Hg & Hb)] (e & He & Hr & Hf). unfold entry_is in Hent. rewrite He in Hent. injection Hent as E1 E2 E3 E4 E5 E6.
  exists m, e. split; [done|]. split; [done|]. split; [|done]. exists g, q. split; [done|]. split; [done|].
  unfold find_in. by apply (create_then_get_walk q u e).
Qed.

(** What a PUT does to the server's state; [b] is the state after the creation. *)
Record put_done (req : objm_request_t) (m : backend_manager) (ref : fd_ref_t) (b : bstate) (cells : list cell) (s s' : server)
  (o id : Z) (mp : list byte) (d : key) (i : Z) : Prop := {
  pd_tx : tx (ep (sv_l s')) = tx (ep (sv_l s)) ++ cells;
  pd_stats : g_stats s' = inc_puts (g_stats s);
  pd_target : target_backend m (put_request req) = Some id;
  pd_entry : found_first (bm_global_index m) (fr_entry ref) (index_hash_string (req_uri req))
      (req_uri req, index_hash_string (req_uri req), u32 id, Some (snprintf_text 1024 (mp ++ req_uri req)), 0,
       object_flags (put_request req)) (wd (sv_b s'));
  pd_path : resolve (sv_kern s') (snprintf_text 1024 (mp ++ req_uri req)) = Some d;
  pd_node : node_at (sv_kern s') d = Some (File i);
  pd_empty : inodes (sv_kern s') !! i = Some [];
  pd_ofd : ofds (sv_kern s') !! o = Some (Ofd (Some i) 0 true true);
  pd_fd : fdtab (sv_kern s') !! fr_fd ref = None;
  pd_object : object_at (sv_b s') (req_uri req) (fr_entry ref) (Some (snprintf_text 1024 (mp ++ req_uri req)));
  pd_kern : sv_kern s' = close_if (fr_fd ref) (kern (wd b));
  pd_handle : fdtab (kern (wd b)) !! fr_fd ref = Some o;
  pd_rx : rx (ep (sv_l s')) = rx (ep (sv_l s)) /\ rd_sched (ep (sv_l s')) = rd_sched (ep (sv_l s));
  pd_wr : wr_sched (ep (sv_l s')) `suffix_of` wr_sched (ep (sv_l s));
  pd_cn : cn (sv_l s') = cn (sv_l s)
}.

Lemma dispatch_put v req m ref b s :
  connected v s -> 0 <= rq_id req < 2 ^ 32 -> rq_mode req = OBJM_MODE_FDPASS ->
  object_uri (req_uri req) = true -> no_object (sv_b s) (req_uri req) -> bm (sv_b s) = Some m ->
  (_ ← backend_get_object (Some (req_uri req)) true; _ ← backend_get_object (Some (req_uri req)) true;
   backend_create_object (Some (put_request req)) true) (sv_b s) = Ret (0, Some ref) b ->
  k_oom (kern (wd b)) = [] ->
  exists s' o cells id mp d i, dispatch req s = Ret () s' /\ delivers_ok v (rq_id req) o cells /\
    put_done req m ref b cells s s' o id mp d i.
Proof.
  intros Hc Hid Hmode Hu Hno Hm Hcreate Hoom.
  destruct (dispatch_unknown req s Hu Hno) as (b0 & Hso & Hb0 & Hmiss & ->).
  rewrite <- bind_assoc in Hcreate. rewrite (bind_Ret _ _ _ _ _ Hmiss) in Hcreate. rewrite Hm in Hb0.
  destruct (create_inv m (put_request req) (req_uri req) b0 ref b Hb0 eq_refl Hcreate) as (id & bk & mp & Hcd & m' & Hm' & _ & _ & Hgi).
  destruct Hcd as [C1 _ _ _ _ C6 [C7 C7'] C8 C9 C10].
  destruct (release_created _ _ _ _ _ _ C7 C8 C6 C10 C9) as (w' & d & i & o & Hrel & Rk & Re & R1 & R2 & R3 & R4 & R5 & R6 & R7).
  rewrite bind_assoc. run (onb_Ret _ _ _ (set_sv_b b0 s) Hcreate). rewrite bool_decide_eq_true_2 by done.
  change (set_sv_b b (set_sv_b b0 s)) with (set_sv_b b s).
  destruct (fd_response_sent v req (fr_fd ref) o (set_sv_b b s)) as (s' & cells & Hsend & Ha & Hb & Hg & Hdel); try done.
  { destruct Hc as (H1 & H2 & _). done. }
  rewrite bind_assoc. run Hsend.
  assert (Hrel' : onw (fd_ref_release (Some ref)) (sv_b s') = Ret (Some (FdRef NULL (-1) (fr_generation ref))) (BState w' (bm b)))
    by (rewrite Hb; unfold onw; simpl; by rewrite Hrel).
  rewrite bind_assoc. run (onb_Ret _ _ _ _ Hrel'). eexists _, o, cells, id, mp, d, i.
  split; [reflexivity|]. split; [done|].
  split; try done; [exact (an_tx _ _ _ Ha)|simpl; by rewrite Hg| | |exact (an_rx _ _ _ Ha)|exact (an_wr _ _ _ Ha)|exact (an_cn _ _ _ Ha)].
  - unfold sv_kern. simpl. rewrite R2. unfold close_if. rewrite (proj2 (Z.leb_le _ _) C7'). apply lookup_delete_eq.
  - destruct Hno as (m0 & Hm0 & Hi & _). rewrite Hm in Hm0. injection Hm0 as <-. rewrite <- Hgi in Hi, R1.
    apply (found_first_object _ m' _ _ (u32 id, (0, object_flags (put_request req)))); try done.
Qed.

(** C9: PUT, end to end.  When the URI is unknown and the manager creates the
    object, the client's receive returns an OK response with a descriptor open
    at the start of the new, empty file, and the object stays in the index
    after the server has let go of its handle: found first in its bucket, with
    its URI, backend and path.  The descriptor the client got is not kept open
    by the server. *)
Theorem put_request_served v req m ref b s :
  connected v s -> 0 <= rq_id req < 2 ^ 32 -> rq_mode req = OBJM_MODE_FDPASS ->
  object_uri (req_uri req) = true -> no_object (sv_b s) (req_uri req) -> bm (sv_b s) = Some m ->
  (_ ← backend_get_object (Some (req_uri req)) true; _ ← backend_get_object (Some (req_uri req)) true;
   backend_create_object (Some (put_request req)) true) (sv_b s) = Ret (0, Some ref) b ->
  k_oom (kern (wd b)) = [] ->
  exists s' o cells id mp d i,
    dispatch req s = Ret () s' /\ tx (ep (sv_l s')) = tx (ep (sv_l s)) ++ cells /\
    delivers_ok v (rq_id req) o cells /\ g_stats s' = inc_puts (g_stats s) /\
    target_backend m (put_request req) = Some id /\
    found_first (bm_global_index m) (fr_entry ref) (index_hash_string (req_uri req))
      (req_uri req, index_hash_string (req_uri req), u32 id, Some (snprintf_text 1024 (mp ++ req_uri req)), 0,
       object_flags (put_request req)) (wd (sv_b s')) /\
    resolve (sv_kern s') (snprintf_text 1024 (mp ++ req_uri req)) = Some d /\
    node_at (sv_kern s') d = Some (File i) /\ inodes (sv_kern s') !! i = Some [] /\
    ofds (sv_kern s') !! o = Some (Ofd (Some i) 0 true true) /\ fdtab (sv_kern s') !! fr_fd ref = None.
Proof.
  intros Hc Hid Hmode Hu Hno Hm Hcreate Hoom.
  destruct (dispatch_put v req m ref b s Hc Hid Hmode Hu Hno Hm Hcreate Hoom) as (s' & o & cells & id & mp & d & i & H1 & H2 & []).
  exists s', o, cells, id, mp, d, i. done.
Qed.

(** ** Witnesses on a concrete server *)

(** The sample backends behind a V2 connection. *)
Definition sample_server (b : bstate) : server :=
  Server b (sample_link true OBJM_PROTO_V2 []) (GStats 0 0 0 0 0 1) [] 0 1.

Lemma sample_connected b : k_oom (kern (wd b)) = [] -> connected OBJM_PROTO_V2 (sample_server b).
Proof. intros Ho. split; [apply sample_speaks; by right|]. split; [apply (sample_calm true OBJM_PROTO_V2 [])|exact Ho]. Qed.

Definition fd_request (u : string) : objm_request_t :=
  Request 7 0 OBJM_MODE_FDPASS (bs u ++ [x00]) (Z.of_nat (length (bs u))).

(** The sample backends with one object. *)
Definition sample_stored : bstate :=
  ret_state (backend_create_object (Some (sample_req "/t/x" false)) true) sample_ready.

Lemma sample_object : object_at sample_stored (bs "/t/x") 4 (Some (bs "/p/t/x")).
Proof.
  eexists _, _. split; [vm_compute; reflexivity|]. split; [vm_compute; discriminate|]. split.
  { eexists _, _. split; [vm_compute; reflexivity|]. split; [vm_compute; reflexivity|]. vm_compute. reflexivity. }
  split; [discriminate|]. split; [vm_compute; reflexivity|]. split; [reflexivity|]. split; vm_compute; split; first [discriminate|reflexivity].
Qed.

Lemma sample_no_object u : u = bs "/q" \/ u = bs "/q/r" -> no_object sample_ready u.
Proof.
  intros H. eexists. split; [vm_compute; reflexivity|]. split; [vm_compute; discriminate|].
  eexists _, _. split; [vm_compute; reflexivity|]. destruct H as [-> | ->]; (split; [vm_compute; reflexivity|]); vm_compute; reflexivity.
Qed.

Lemma management_uris_refused_witness :
  exists s', dispatch (fd_request "/list") (sample_server sample_ready) = Ret () s' /\ errors (g_stats s') = 1.
Proof.
  destruct (management_uris_refused OBJM_PROTO_V2 (fd_request "/list") (sample_server sample_ready)) as (s' & H & _ & _ & Hg).
  - apply sample_connected. vm_compute. reflexivity.
  - simpl. lia.
  - left. vm_compute. reflexivity.
  - exists s'. split; [exact H|]. by rewrite Hg.
Defined.

Lemma get_request_served_witness :
  exists s' o, dispatch (fd_request "/t/x") (sample_server sample_stored) = Ret () s' /\
    ofds (sv_kern s') !! o = Some (Ofd (Some 0) 0 true true) /\ gets (g_stats s') = 1.
Proof.
  destruct (get_request_served OBJM_PROTO_V2 (fd_request "/t/x") 4 (bs "/p/t/x") [bs "x"; bs "t"; bs "p"] 0
    (sample_server sample_stored)) as (s' & o & cells & H & _ & Hg & Ho & _).
  - apply sample_connected. vm_compute. reflexivity.
  - simpl. lia.
  - reflexivity.
  - vm_compute. reflexivity.
  - apply sample_object.
  - vm_compute. reflexivity.
  - vm_compute. reflexivity.
  - vm_compute. reflexivity.
  - exists s', o. split; [exact H|]. split; [exact Ho|]. by rewrite Hg.
Defined.

Lemma delete_request_missing_witness :
  exists s', dispatch (fd_request "/delete/q") (sample_server sample_ready) = Ret () s' /\ errors (g_stats s') = 1.
Proof.
  destruct (delete_request_missing OBJM_PROTO_V2 (fd_request "/delete/q") (sample_server sample_ready)) as (s' & H & _ & Hg).
  - apply sample_connected. vm_compute. reflexivity.
  - simpl. lia.
  - vm_compute. reflexivity.
  - apply sample_no_object. left. vm_compute. reflexivity.
  - exists s'. split; [exact H|]. by rewrite Hg.
Defined.

(** Without a default backend nothing can be created. *)
Definition sample_no_default : bstate :=
  BState (wd sample_ready) ((set_roles (-1) 0 0) <$> bm sample_ready).

Lemma sample_no_default_object : no_object sample_no_default (bs "/q").
Proof.
  eexists. split; [vm_compute; reflexivity|]. split; [vm_compute; discriminate|].
  eexists _, _. split; [vm_compute; reflexivity|]. split; vm_compute; reflexivity.
Qed.

Lemma put_request_refused_witness :
  exists s', dispatch (fd_request "/q") (sample_server sample_no_default) = Ret () s' /\ errors (g_stats s') = 1.
Proof.
  destruct (put_request_refused OBJM_PROTO_V2 (fd_request "/q") (set_roles (-1) 0 0 sample_mgr) (sample_server sample_no_default))
    as (s' & H & _ & Hg).
  - apply sample_connected. vm_compute. reflexivity.
  - simpl. lia.
  - vm_compute. reflexivity.
  - apply sample_no_default_object.
  - vm_compute. reflexivity.
  - vm_compute. exact I.
  - exists s'. split; [exact H|]. by rewrite Hg.
Defined.

Lemma put_request_served_witness :
  exists s' o, dispatch (fd_request "/q") (sample_server sample_ready) = Ret () s' /\ puts (g_stats s') = 1 /\
    exists i, ofds (sv_kern s') !! o = Some (Ofd (Some i) 0 true true) /\ inodes (sv_kern s') !! i = Some [].
Proof.
  set (prog := (_ ← backend_get_object (Some (req_uri (fd_request "/q"))) true;
                _ ← backend_get_object (Some (req_uri (fd_request "/q"))) true;
                backend_create_object (Some (put_request (fd_request "/q"))) true) : M bstate _).
  assert (Hres : result_of (prog sample_ready) = Some (0, Some sample_ref)) by (vm_compute; reflexivity).
  assert (Hoom : (fun b => k_oom (kern (wd b))) <$> state_of (prog sample_ready) = Some []) by (vm_compute; reflexivity).
  destruct (prog sample_ready) as [a b| |] eqn:Hr; [|discriminate..]. injection Hres as ->. injection Hoom as Hoom.
  destruct (put_request_served OBJM_PROTO_V2 (fd_request "/q") sample_mgr sample_ref b (sample_server sample_ready))
    as (s' & o & cells & id & mp & d & i & H & _ & _ & Hg & _ & _ & _ & _ & Hi & Ho & _).
  - apply sample_connected. vm_compute. reflexivity.
  - simpl. lia.
  - reflexivity.
  - vm_compute. reflexivity.
  - apply sample_no_object. left. vm_compute. reflexivity.
  - vm_compute. reflexivity.
  - exact Hr.
  - exact Hoom.
  - exists s', o. split; [exact H|]. split; [by rewrite Hg|]. exists i. split; [exact Ho|exact Hi].
Defined.
