(* ===== verification/DeleteProofs.v ===== *)
(** * DeleteProofs: what a deletion leaves

    [backend_delete_object] and the request [/delete/...] end to end: the object is
    no longer found, its entry is freed, its file is gone, every other object
    stays, and of the descriptors at most the one is closed whose number the entry
    keeps.  The object has to be the first of its bucket in its
    backend's index: otherwise the shared link of the two tables is overwritten
    ([Findings]). *)

From S2P Require Import Prelude Socket Protocol ProtocolProofs Metadata Kernel KernelProofs Index IndexProofs IndexRefine Backend BackendProofs ObjectProofs Server ServerProofs.

(** ** Index operations *)

(** A lookup in a well-formed table. *)
Lemma walks_to_rep w idx g L u :
  gidxs w !! idx = Some g -> table_rep (ents w) (g_buckets g) (g_num_buckets g) L ->
  walks_to w idx u (default NULL (find_uri (ents w) L u)).
Proof.
  intros Hg Hrep. destruct (bucket_chain _ _ _ _ u Hrep) as (Hb & Hc & Hh & Hfu). eexists g, _. split; [done|]. split; [exact Hb|].
  rewrite (find_in_ok _ _ u w Hc Hh). by rewrite Hfu.
Qed.

Lemma walks_to_det w idx u p q : walks_to w idx u p -> walks_to w idx u q -> p = q.
Proof.
  intros (g & hd & Hg & Hb & Hf) (g' & hd' & Hg' & Hb' & Hf'). rewrite Hg in Hg'. injection Hg' as <-. rewrite Hb in Hb'. injection Hb' as <-.
  rewrite Hf in Hf'. by injection Hf'.
Qed.

(** Removing the first entry of a bucket from a backend index. *)
Lemma backend_remove_first idx u w b q e :
  idx <> NULL -> bidxs w !! idx = Some b ->
  bucket_get (b_buckets b) (b_num_buckets b) (bucket_of (index_hash_string u) (b_num_buckets b)) = Some q ->
  q <> NULL -> ents w !! q = Some e -> uri e = u -> uri_hash e = index_hash_string u -> entry_refcount e <> 1 ->
  exists b', backend_index_remove idx (Some u) w =
    Ret 0 (set_ents (<[q:=set_refcount (s32 (entry_refcount e - 1)) e]> (ents w)) (set_bidxs (<[idx:=b']> (bidxs w)) w)) /\
    b_num_entries b' = u64 (b_num_entries b - 1).
Proof.
  intros Hi Hb Hbk Hq He Hu Hh Hr. unfold backend_index_remove. rewrite NULL_eqb by done. run (rd_b_eq _ _ _ Hb). cbv zeta.
  rewrite Hbk, deref_bind.
  assert (Hfp : find_prev_in q (index_hash_string u) u w = Ret (Some (None, q)) w).
  { unfold find_prev_in, chain_fuel. cbn [chain_find_prev]. rewrite NULL_eqb by done. run (rd_entry_eq _ _ _ He).
    by rewrite Hh, Z.eqb_refl, Hu, bool_decide_eq_true_2. }
  run Hfp. run (rd_entry_eq _ _ _ He). unfold b_link. run (upd_b_eq _ _ _ _ Hb). set (w1 := set_bidxs _ w).
  assert (He1 : ents w1 !! q = Some e) by done. run (entry_put_shared _ _ _ Hq He1 Hr).
  set (w2 := set_ents _ w1). assert (Hb2 : exists b1, bidxs w2 !! idx = Some b1 /\ b_num_entries b1 = b_num_entries b).
  { eexists. split; [apply lookup_insert_eq|done]. }
  destruct Hb2 as (b1 & Hb2 & Hn). run (upd_b_eq _ _ _ _ Hb2). eexists. split.
  - unfold mret, M_ret. unfold w2, w1. simpl. rewrite insert_insert_eq. destruct w. reflexivity.
  - simpl. by rewrite Hn.
Qed.

(** The release of the last reference frees the entry. *)
Lemma release_last q fd gen e w :
  q <> NULL -> ents w !! q = Some e -> entry_refcount e = 1 -> e_fd e = -1 ->
  fd_ref_release (Some (FdRef q fd gen)) w =
    Ret (Some (FdRef NULL (-1) gen)) (set_kern (close_if fd (kern w)) (set_ents (delete q (ents w)) w)).
Proof.
  intros Hq He Hr Hfd. unfold fd_ref_release. simpl fr_entry. rewrite NULL_eqb by done. simpl fr_fd.
  run (close_if_eq fd q (fun e => set_fd_refcount (s32 (fd_refcount e - 1)) e) e w He).
  set (w1 := set_kern _ _). set (e1 := if (0 <=? fd) then _ else e) in w1.
  assert (He1 : ents w1 !! q = Some e1) by apply lookup_insert_eq.
  assert (Hr1 : entry_refcount e1 = 1 /\ e_fd e1 = -1) by (unfold e1; by destruct (0 <=? fd)). destruct Hr1 as [Hr1 Hfd1].
  run (entry_put_last _ _ _ Hq He1 Hr1). rewrite Hfd1, close_if_neg. unfold mret, M_ret, w1. simpl.
  rewrite delete_insert_eq. by destruct w.
Qed.

(** Other entries are found as before once [q] is taken out. *)
Lemma find_uri_without h L q e u :
  NoDup L -> h !! q = Some e -> uri e <> u -> find_uri h (without q L) u = find_uri h L u.
Proof.
  intros Hnd He Hu. destruct (decide (q ∈ L)) as [Hin|Hout]; [|by rewrite without_notin].
  apply list_elem_of_split in Hin as (l1 & l2 & ->). rewrite without_split by done. clear Hnd. induction l1 as [|a l1 IH]; simpl.
  - rewrite decide_False; [done|]. rewrite He. simpl. congruence.
  - by rewrite IH.
Qed.

(** ** Deleting an object *)

(** The object of [u] is entry [q], held by the two tables only: in a well-formed
    global index, without a second entry for [u], and first in its bucket of its
    backend's index. *)
Record deletable (s : bstate) (u : list byte) (m : backend_manager) (q : ptr) (e : index_entry) (path : list byte) : Prop := {
  dl_bm : bm s = Some m;
  dl_gi : bm_global_index m <> NULL;
  dl_table : exists g L, gidxs (wd s) !! bm_global_index m = Some g /\ table_rep (ents (wd s)) (g_buckets g) (g_num_buckets g) L /\
    find_uri (ents (wd s)) L u = Some q /\ (forall p, p ∈ L -> uri <$> ents (wd s) !! p = Some u -> p = q);
  dl_entry : ents (wd s) !! q = Some e;
  dl_path : backend_path e = Some path;
  dl_refs : entry_refcount e = 2;
  dl_backend : exists b bi, nth_backend m (s32 (backend_id e)) = Some b /\ bk_index b <> NULL /\ bidxs (wd s) !! bk_index b = Some bi /\
    bucket_get (b_buckets bi) (b_num_buckets bi) (bucket_of (index_hash_string u) (b_num_buckets bi)) = Some q
}.

(** Descriptors without the number an entry keeps: a descriptor of the creation that has
    been closed since, so that the number may be in use again. *)
Definition without_stale (e : index_entry) (fds : gmap Z Z) : gmap Z Z := if 0 <=? e_fd e then delete (e_fd e) fds else fds.

(** [s'] is [s] without the object of [u] with entry [e], whose file was at [d]. *)
Record deleted (s : bstate) (u : list byte) (q : ptr) (e : index_entry) (d : key) (s' : bstate) : Prop := {
  dd_gone : no_object s' u;
  dd_freed : ents (wd s') !! q = None;
  dd_others : forall u2 q2 path2, u2 <> u -> object_at s u2 q2 path2 -> object_at s' u2 q2 path2;
  dd_names : names (kern (wd s')) = delete d (names (kern (wd s)));
  dd_inodes : inodes (kern (wd s')) = inodes (kern (wd s));
  dd_fdtab : fdtab (kern (wd s')) = without_stale e (fdtab (kern (wd s)));
  dd_oom : k_oom (kern (wd s')) = k_oom (kern (wd s));
  dd_total : forall m, bm s = Some m -> total_objects <$> bm s' = Some (u64 (total_objects m - 1))
}.

(** The descriptor of the lookup and the stale number are closed. *)
Lemma close_both k fd k' e :
  opened k fd k' -> forall k2, fdtab k2 = fdtab k' -> fdtab (close_if fd (close_if (e_fd e) k2)) = without_stale e (fdtab k).
Proof.
  intros [_ Hor] k2 E. unfold close_if, without_stale. destruct Hor as [[-> Hf]|(o & Hfd & Hf)].
  - simpl. destruct (0 <=? e_fd e); simpl; by rewrite E, Hf.
  - assert (Hge : 0 <= fd) by (subst fd; apply lowest_free_nonneg). rewrite (proj2 (Z.leb_le 0 fd) Hge). simpl.
    assert (Hd : delete fd (<[fd:=o]> (fdtab k)) = fdtab k) by (subst fd; apply delete_lowest_free).
    destruct (0 <=? e_fd e); simpl; rewrite E, Hf; [|exact Hd]. by rewrite delete_delete, Hd.
Qed.

Lemma same_but_links_uri h h' p : same_but_links h h' -> uri <$> h' !! p = uri <$> h !! p.
Proof. intros H. specialize (H p). destruct (h' !! p), (h !! p); simpl in *; try done. injection H as A _. by rewrite A. Qed.

(** What the final tables say, from what the removal from the global index says. *)
Lemma deleted_tables w w' idx g g' L u q e h :
  gidxs w !! idx = Some g -> table_rep (ents w) (g_buckets g) (g_num_buckets g) L -> find_uri (ents w) L u = Some q ->
  (forall p, p ∈ L -> uri <$> ents w !! p = Some u -> p = q) -> ents w !! q = Some e ->
  gidxs w' !! idx = Some g' -> table_rep (delete q h) (g_buckets g') (g_num_buckets g') (without q L) ->
  (forall p, p <> q -> unlinked <$> h !! p = unlinked <$> ents w !! p) -> ents w' = delete q h ->
  walks_to w' idx u NULL /\ (forall u2 q2, u2 <> u -> walks_to w idx u2 q2 -> walks_to w' idx u2 q2).
Proof.
  intros Hg Hrep Hf Huq He Hg' Hrep' Hsl Ew. rewrite <- Ew in Hrep'.
  assert (Huri : forall p, p ∈ without q L -> uri <$> ents w' !! p = uri <$> ents w !! p).
  { intros p [Hp _]%without_elem. rewrite Ew, lookup_delete_ne by done. specialize (Hsl p Hp).
    destruct (h !! p), (ents w !! p); simpl in *; try done. injection Hsl as A _. by rewrite A. }
  split.
  - pose proof (walks_to_rep w' idx g' (without q L) u Hg' Hrep') as Hw.
    assert (E : find_uri (ents w') (without q L) u = None); [|by rewrite E in Hw].
    rewrite (find_uri_ext (ents w)) by done. apply find_uri_None, list.Forall_forall. intros p [Hp Hin]%without_elem Hpu.
    apply Hp. by apply Huq.
  - intros u2 q2 Hne Hw2. pose proof (walks_to_rep w idx g L u2 Hg Hrep) as Hw. rewrite (walks_to_det _ _ _ _ _ Hw2 Hw).
    pose proof (walks_to_rep w' idx g' (without q L) u2 Hg' Hrep') as Hw'. rewrite (find_uri_ext (ents w)) in Hw' by done.
    rewrite (find_uri_without (ents w) L q e u2) in Hw'; [exact Hw'|apply (tr_nodup _ _ _ _ Hrep)|done|].
    apply find_uri_split in Hf as (_ & _ & _ & _ & Hu). rewrite He in Hu. injection Hu as Hu. congruence.
Qed.

Lemma upd_bm_eq f s m : bm s = Some m -> upd_bm f s = Ret () (BState (wd s) (Some (f m))).
Proof. intros H. unfold upd_bm. by rewrite H. Qed.

Lemma onw_wd_Ret {A} (m : M world A) a w s : m (wd s) = Ret a w -> onw m s = Ret a (BState w (bm s)).
Proof. unfold onw. by intros ->. Qed.

(** Both removals and the release of the handle: the entry, held by the two tables
    and the handle, leaves the tables and is freed. *)
Lemma unindex_ok w gi bx u g L q e bi fd :
  gi <> NULL -> gidxs w !! gi = Some g -> table_rep (ents w) (g_buckets g) (g_num_buckets g) L -> find_uri (ents w) L u = Some q ->
  ents w !! q = Some e -> entry_refcount e = 3 -> bx <> NULL -> bidxs w !! bx = Some bi ->
  bucket_get (b_buckets bi) (b_num_buckets bi) (bucket_of (index_hash_string u) (b_num_buckets bi)) = Some q ->
  exists w1 w2 w3 g' h, backend_index_remove bx (Some u) w = Ret 0 w1 /\ global_index_remove gi (Some u) w1 = Ret 0 w2 /\
    fd_ref_release (Some (FdRef q fd 0)) w2 = Ret (Some (FdRef NULL (-1) 0)) w3 /\
    ents w3 = delete q h /\ gidxs w3 !! gi = Some g' /\ table_rep (delete q h) (g_buckets g') (g_num_buckets g') (without q L) /\
    (forall p, p <> q -> unlinked <$> h !! p = unlinked <$> ents w !! p) /\ kern w3 = close_if fd (close_if (e_fd e) (kern w)).
Proof.
  intros Hgi Hg Hrep Hf He Hrc Hbi Hbx Hbk. destruct (find_uri_live _ _ _ _ Hf) as (Hin & e' & He' & Hu). rewrite He in He'. injection He' as <-.
  pose proof (tr_hashed _ _ _ _ Hrep) as Hh. rewrite list.Forall_forall in Hh. destruct (Hh q Hin) as (Hq & x & Hx & Hxh).
  rewrite He in Hx. injection Hx as <-.
  destruct (backend_remove_first bx u w bi q e Hbi Hbx Hbk Hq He) as (bi' & Hbr & _); [congruence|congruence|lia|].
  rewrite Hrc in Hbr. set (e3 := set_refcount (s32 (3 - 1)) e) in Hbr. set (w1 := set_ents _ _) in Hbr.
  assert (He3 : ents w1 !! q = Some e3) by apply lookup_insert_eq.
  assert (Htk : forall p, tkey <$> ents w1 !! p = tkey <$> ents w !! p).
  { intros p. unfold w1. simpl. destruct (decide (p = q)) as [->|]; [|by rewrite lookup_insert_ne]. by rewrite lookup_insert_eq, He. }
  assert (Hrep1 : table_rep (ents w1) (g_buckets g) (g_num_buckets g) L) by (apply (table_rep_frame (ents w)); [exact Hrep|done]).
  assert (Hf1 : find_uri (ents w1) L u = Some q).
  { rewrite (find_uri_ext (ents w)); [exact Hf|]. intros p _. apply ekey_uri, tkey_ekey, Htk. }
  destruct (global_remove_hit gi u w1 g L q e3 Hgi Hg Hrep1 Hf1 He3) as (h & g' & Hgr & Hrep2 & _ & _ & Hsl).
  set (w2 := set_kern _ (set_ents _ _)) in Hgr. set (e4 := set_refcount (s32 (2 - 1)) (set_fd (-1) e3)).
  assert (Hph : put_heap q (set_fd (-1) e3) h = <[q:=e4]> h) by done. rewrite Hph in *.
  assert (He4 : ents w2 !! q = Some e4) by (unfold w2; simpl; rewrite Hph; apply lookup_insert_eq).
  eexists w1, w2, _, g', h. split; [exact Hbr|]. split; [exact Hgr|]. split; [exact (release_last q fd 0 e4 w2 Hq He4 eq_refl eq_refl)|].
  split; [unfold w2; simpl; by rewrite Hph, delete_insert_eq|]. split; [apply lookup_insert_eq|]. split; [|split; [|done]].
  - apply (table_rep_frame (<[q:=e4]> h)); [exact Hrep2|]. intros p [Hp _]%without_elem. by rewrite lookup_delete_ne, lookup_insert_ne.
  - intros p Hp. rewrite (Hsl p). unfold w1. simpl. by rewrite lookup_insert_ne.
Qed.

(** Objects other than the deleted one stay where they were. *)
Lemma others_stay s m m2 w' gi g L q e u h :
  bm s = Some m -> bm_global_index m = gi -> bm_global_index m2 = gi -> gidxs (wd s) !! gi = Some g ->
  table_rep (ents (wd s)) (g_buckets g) (g_num_buckets g) L -> ents (wd s) !! q = Some e -> uri e = u ->
  ents w' = delete q h -> (forall p, p <> q -> unlinked <$> h !! p = unlinked <$> ents (wd s) !! p) ->
  (forall u2 q2, u2 <> u -> walks_to (wd s) gi u2 q2 -> walks_to w' gi u2 q2) ->
  forall u2 q2 path2, u2 <> u -> object_at s u2 q2 path2 -> object_at (BState w' (Some m2)) u2 q2 path2.
Proof.
  intros Hm Hgi Hgi2 Hg Hrep He Hu E5 Hsl Hoth u2 q2 path2 Hne (m0 & x & Hm0 & Hn & Hw & Hq2 & Hx & Hp2 & R1 & R2).
  rewrite Hm in Hm0. injection Hm0 as <-. rewrite Hgi in *. assert (q2 <> q).
  { intros ->. rewrite He in Hx. injection Hx as <-. pose proof (walks_to_rep (wd s) gi g L u2 Hg Hrep) as Hw'.
    pose proof (walks_to_det _ _ _ _ _ Hw Hw') as E. destruct (find_uri (ents (wd s)) L u2) as [y|] eqn:Ey; simpl in E; [subst y|congruence].
    apply find_uri_live in Ey as (_ & z & Hz & Hzu). congruence. }
  assert (Hx5 : unlinked <$> ents w' !! q2 = Some (unlinked x)) by (rewrite E5, lookup_delete_ne, Hsl, Hx by done; done).
  apply fmap_Some in Hx5 as (y & Hy & Hyx). injection Hyx as _ _ _ Y1 _ Y2 _ _ _ _ _ _ _ Y3.
  exists m2, y. rewrite Hgi2. split; [done|]. split; [done|]. split; [by apply Hoth|]. split; [done|]. split; [done|]. split; [congruence|].
  rewrite <- Y2, <- Y3. done.
Qed.

Lemma delete_object_ok s u m q e path d i :
  deletable s u m q e path -> sched (kern (wd s)) = [] -> resolve (kern (wd s)) path = Some d -> d <> [] ->
  names (kern (wd s)) !! d = Some (File i) ->
  exists s', backend_delete_object (Some u) s = Ret 0 s' /\ deleted s u q e d s'.
Proof.
  intros [Hm Hgi (g & L & Hg & Hrep & Hf & Huq) He Hpath Hrc (b & bi & Hb & Hbi & Hbx & Hbk)] Hs Hres Hne Hnode.
  destruct (find_uri_live _ _ _ _ Hf) as (_ & e' & He' & Hu). rewrite He in He'. injection He' as <-. set (gi := bm_global_index m) in *.
  destruct (global_lookup_hit gi u (wd s) g L q e Hgi Hg Hrep Hf He) as (fd & t & k1 & Hl & Hop & Hops).
  set (e1 := looked_up fd t e) in *. set (g1 := set_g_stats _ _ _ g) in Hl. set (w1 := set_kern k1 _) in Hl.
  assert (He1 : ents w1 !! q = Some e1) by apply lookup_insert_eq.
  assert (F : backend_id e1 = backend_id e /\ backend_path e1 = backend_path e /\ tkey e1 = tkey e /\ e_fd e1 = e_fd e /\ entry_refcount e1 = 3).
  { unfold e1, looked_up. rewrite Hrc. destruct (0 <=? fd); simpl; done. }
  destruct F as (F1 & F2 & F3 & F4 & F5).
  unfold backend_delete_object. run (get_bm_eq _ _ Hm). fold gi. run (onw_wd_Ret _ _ _ _ Hl). set (s1 := BState w1 (bm s)).
  run (onw_wd_Ret _ _ _ s1 (rd_entry_eq _ _ _ He1)). rewrite F1. run (get_backend_eq s1 m (s32 (backend_id e)) Hm). rewrite Hb. cbn [fmap option_fmap option_map].
  destruct (Hops Hs) as [Hs1 _]. pose proof Hop as [(N1 & N2 & N3 & N4) _].
  assert (Hul : unlink_path (backend_path e1) w1 = Ret () (set_kern (set_names (delete d (names k1)) k1) w1)).
  { rewrite F2, Hpath. simpl. unfold mbind, M_bind, onk, sys_unlink, refused, get. simpl. unfold mbind, M_bind. rewrite Hs1.
    rewrite (resolve_names (kern (wd s)) k1 path), Hres, node_at_ne, N1, Hnode by (done || (intros x; unfold is_dir; by rewrite N1)). done. }
  run (onw_wd_Ret _ _ _ s1 Hul). set (w2 := set_kern _ w1). unfold upd_backend.
  erewrite bind_Ret by (apply upd_bm_eq; exact Hm). erewrite bind_Ret by (apply upd_bm_eq; reflexivity). cbn [wd].
  match goal with |- context [BState w2 (Some ?mm)] => set (m2 := mm) end.
  assert (Htk : forall p, tkey <$> ents w2 !! p = tkey <$> ents (wd s) !! p).
  { intros p. unfold w2, w1. simpl. destruct (decide (p = q)) as [->|]; [|by rewrite lookup_insert_ne]. rewrite lookup_insert_eq, He. simpl. by rewrite F3. }
  destruct (unindex_ok w2 gi (bk_index b) u g1 L q e1 bi fd) as (w3 & w4 & w5 & g' & h & Hbr & Hgr & Hre & E5 & Hg5 & Hrep5 & Hsl & Hk5); try done.
  { apply lookup_insert_eq. } { apply (table_rep_frame (ents (wd s))); [exact Hrep|done]. }
  { rewrite (find_uri_ext (ents (wd s))); [exact Hf|]. intros p _. apply ekey_uri, tkey_ekey, Htk. }
  run (onw_wd_Ret _ _ _ (BState w2 (Some m2)) Hbr). run (onw_wd_Ret _ _ _ (BState w3 (Some m2)) Hgr). run (onw_wd_Ret _ _ _ (BState w4 (Some m2)) Hre).
  eexists. split; [reflexivity|]. cbn [bm].
  assert (Hsl' : forall p, p <> q -> unlinked <$> h !! p = unlinked <$> ents (wd s) !! p).
  { intros p Hp. rewrite (Hsl p Hp). unfold w2, w1. simpl. by rewrite !lookup_insert_ne. }
  destruct (deleted_tables (wd s) w5 gi g g' L u q e h) as [Hnone Hoth]; try done.
  split; cbn [wd].
  - exists m2. done.
  - rewrite E5. apply lookup_delete_eq.
  - by apply (others_stay s m m2 w5 gi g L q e u h).
  - rewrite Hk5. unfold close_if. destruct (0 <=? e_fd e1), (0 <=? fd); simpl; by rewrite N1.
  - rewrite Hk5. unfold close_if. destruct (0 <=? e_fd e1), (0 <=? fd); simpl; by rewrite N2.
  - rewrite Hk5, F4. by apply (close_both _ _ k1 e).
  - rewrite Hk5. unfold close_if. destruct (0 <=? e_fd e1), (0 <=? fd); simpl; by rewrite N3.
  - intros m0 Hm0. rewrite Hm in Hm0. injection Hm0 as <-. done.
Qed.

(** ** The request *)

(** What the client makes of [cells]: an OK response without a descriptor. *)
Definition acknowledges (v id : Z) (cells : list cell) : Prop :=
  forall lc rest, speaks v lc -> calm lc -> rx (ep lc) = cells ++ rest ->
    exists x w, objm_client_recv_response true lc = Ret (0, Some x) (Link (set_rx rest w (ep lc)) (cn lc)) /\
      w `suffix_of` rd_sched (ep lc) /\ rs_status x = OBJM_STATUS_OK /\ rs_request_id x = (if v =? OBJM_PROTO_V1 then 0 else id) /\ rs_fd x = -1.

(** The URI a request below [/delete/] names. *)
Definition deleted_uri (req : objm_request_t) : list byte := take (Z.to_nat (OBJM_MAX_URI_LEN - 1)) (drop 7 (req_uri req)).

Lemma acknowledge_sent v id s :
  connected v s -> 0 <= id < 2 ^ 32 ->
  exists s' cells, onl (objm_server_send_response (Some (Response id OBJM_STATUS_OK (-1) 1 None 0 None))) s = Ret 0 s' /\
    tx (ep (sv_l s')) = tx (ep (sv_l s)) ++ cells /\ sv_b s' = sv_b s /\ g_stats s' = g_stats s /\ acknowledges v id cells.
Proof.
  intros (Hs & Hq & Ho)%link_in_connected Hid. set (r := Response id OBJM_STATUS_OK (-1) 1 None 0 None).
  assert (Hwf : forall f, wf_response f r).
  { intros f. unfold wf_response, r, OBJM_STATUS_OK. cbn [rs_request_id rs_status rs_metadata_len rs_content_len rs_metadata rs_fd].
    split; [done|]. do 3 (split; [lia|]). split; intros; lia. }
  assert (Hd : fd_discipline r) by (unfold fd_discipline; simpl; lia).
  destruct (send_response_ok v r (link_in s) Hs (Hwf _) Hq) as (w & Hsend & Hw).
  destruct (onl_sent _ _ _ _ _ Hsend Hw) as (s' & H1 & H2 & H3 & H4).
  exists s', (response_wire v (fdt (ep (link_in s))) r). split; [done|]. split; [exact (an_tx _ _ _ H2)|]. split; [done|]. split; [done|].
  intros lc rest Hlc Hcalm Hrx. destruct (recv_response_ok v _ _ rest lc Hlc Hcalm (Hwf _) Hd Hrx) as (w2 & Hrecv & Hw2).
  eexists _, w2. split; [etrans; [exact Hrecv|]; by destruct lc as [[] ?]|]. done.
Qed.


(** ** A stored object *)

(** The sample backends after a PUT of [/t/x] whose handle has been released. *)
Definition sample_kept : bstate := ret_state (onw (fd_ref_release (Some (FdRef 4 3 0)))) sample_stored.
Definition kept_entry : index_entry := default (set_next 0 (Entry [] 0 0 None 0 0 0 0 0 0 0 0 (S754_zero false) 0 0)) (ents (wd sample_kept) !! 4).
Definition kept_manager : backend_manager := default (new_manager NULL) (bm sample_kept).

Lemma lone_table h nb p e :
  pow2 nb -> p <> NULL -> h !! p = Some e -> uri_hash e = index_hash_string (uri e) -> next e = NULL ->
  table_rep h (<[bucket_of (uri_hash e) nb:=p]> ∅) nb [p].
Proof.
  intros Hp Hq He Hh Hn. apply (table_rep_insert h ∅ nb [] p e); [by apply table_rep_empty|apply not_elem_of_nil|done|done|done|].
  by rewrite lookup_empty.
Qed.

Lemma pow2_8192 : pow2 8192.
Proof. exists 13. split; [lia|reflexivity]. Qed.

Lemma kept_deletable : deletable sample_kept (bs "/t/x") kept_manager 4 kept_entry (bs "/p/t/x").
Proof.
  assert (He : ents (wd sample_kept) !! 4 = Some kept_entry) by (vm_compute; reflexivity).
  assert (Hg : exists g, gidxs (wd sample_kept) !! bm_global_index kept_manager = Some g /\
    g_buckets g = <[bucket_of (uri_hash kept_entry) 8192:=4]> ∅ /\ g_num_buckets g = 8192) by (eexists; vm_compute; repeat split).
  destruct Hg as (g & Hg & Eb & En). split.
  - vm_compute. reflexivity.
  - vm_compute. discriminate.
  - exists g, [4]. split; [exact Hg|]. rewrite Eb, En. split; [|split; [vm_compute; reflexivity|]].
    + assert (Hh : uri_hash kept_entry = index_hash_string (uri kept_entry)) by (vm_compute; reflexivity).
      assert (Hn : next kept_entry = NULL) by (vm_compute; reflexivity).
      exact (lone_table _ 8192 4 kept_entry pow2_8192 ltac:(discriminate) He Hh Hn).
    + intros p Hp _. apply list_elem_of_singleton in Hp. exact Hp.
  - exact He.
  - vm_compute. reflexivity.
  - vm_compute. reflexivity.
  - eexists _, _. split; [vm_compute; reflexivity|]. split; [vm_compute; discriminate|]. split; [vm_compute; reflexivity|]. vm_compute. reflexivity.
Qed.

