(* ===== verification/ServerLoop.v ===== *)
(** * ServerLoop: a client's session

    The request loop of [client_thread]: the requests of a connection are served
    one after the other in the order they were sent, whatever the handlers do
    with each of them, and the loop ends when the client closes. *)

From S2P Require Import Prelude Socket Protocol ProtocolProofs Kernel Index IndexProofs Backend BackendProofs ObjectProofs Server.

(** ** The allocator is not disturbed *)

Definition k_mem (k : kernel) : Prop := k_oom k = [].
Definition w_mem (w : world) : Prop := k_mem (kern w).
Definition b_mem (s : bstate) : Prop := w_mem (wd s).

Lemma keeps_modify {S} (I : S -> Prop) f : (forall s, I s -> I (f s)) -> keeps I (modify f).
Proof. intros H s a s' Hs [= _ <-]. auto. Qed.
Lemma keeps_put_k k : k_mem k -> keeps k_mem (put k).
Proof. by intros H s a s' Hs [= _ <-]. Qed.
Lemma keeps_refused : keeps k_mem refused.
Proof. intros k a k' H Hr. destruct (refused_spec k) as (b & l & Hx). rewrite Hx in Hr. by injection Hr as _ <-. Qed.
Lemma keeps_install o : keeps k_mem (install o).
Proof. by intros k a k' H [= _ <-]. Qed.
Lemma keeps_malloc : keeps k_mem sys_malloc.
Proof. intros k a k' H Hr. unfold sys_malloc in Hr. rewrite H in Hr. by injection Hr as _ <-. Qed.
Lemma keeps_clock : keeps k_mem sys_clock.
Proof. intros k a k' H Hr. unfold sys_clock in Hr. destruct (ticks k); by injection Hr as _ <-. Qed.
Lemma keeps_close_fd fd : keeps k_mem (sys_close_fd fd).
Proof. by apply keeps_modify. Qed.
#[local] Hint Resolve keeps_refused keeps_install keeps_malloc keeps_clock keeps_close_fd : keeps.

(** Programs that read the state and then continue or store a variant of it. *)
Lemma keeps_get_bind {A} (f : kernel -> M kernel A) : (forall k, k_mem k -> keeps k_mem (f k)) -> keeps k_mem (k ← get; f k).
Proof. intros Hf s a s' Hs Hr. by apply (Hf s Hs s a s' Hs). Qed.

Lemma keeps_open p m c t : keeps k_mem (sys_open p m c t).
Proof.
  unfold sys_open. apply keeps_bind; [auto with keeps|]. intros r. apply keeps_get_bind. intros k Hk.
  repeat (keeps_step || (apply keeps_modify; by intros)).
Qed.
Lemma keeps_unlink p : keeps k_mem (sys_unlink p).
Proof.
  unfold sys_unlink. apply keeps_bind; [auto with keeps|]. intros r. apply keeps_get_bind. intros k Hk.
  repeat (keeps_step || by apply keeps_put_k).
Qed.
Lemma keeps_mkdir p : keeps k_mem (sys_mkdir p).
Proof.
  unfold sys_mkdir. apply keeps_bind; [auto with keeps|]. intros r. apply keeps_get_bind. intros k Hk.
  repeat (keeps_step || by apply keeps_put_k).
Qed.
#[local] Hint Resolve keeps_open keeps_unlink keeps_mkdir : keeps.

Lemma keeps_mkdir_prefixes l d : keeps k_mem (mkdir_prefixes d l).
Proof. revert d. induction l as [|b l IH]; intros d; simpl; keeps; apply IH. Qed.
#[local] Hint Resolve keeps_mkdir_prefixes : keeps.
Lemma keeps_mkdir_p p : keeps k_mem (mkdir_p p).
Proof. unfold mkdir_p. destruct (list.last _); [|by intros s a s' H ?]. keeps. Qed.
#[local] Hint Resolve keeps_mkdir_p : keeps.

Lemma keeps_w_onk {A} (m : M kernel A) : keeps k_mem m -> keeps w_mem (onk m).
Proof. intros Hm w a w' H Hr. unfold onk in Hr. destruct (m (kern w)) eqn:E; try done. injection Hr as _ <-. by eapply Hm. Qed.
Lemma keeps_w_upd_entry q f : keeps w_mem (upd_entry q f).
Proof. apply (keeps_k_upd_entry k_mem). Qed.
Lemma keeps_w_upd_g q f : keeps w_mem (upd_g q f).
Proof. apply (keeps_k_upd_g k_mem). Qed.
Lemma keeps_w_upd_b q f : keeps w_mem (upd_b q f).
Proof. apply (keeps_k_upd_b k_mem). Qed.
Lemma keeps_w_rd_g q : keeps w_mem (rd_g q).
Proof. apply (keeps_k_rd_g k_mem). Qed.
Lemma keeps_w_find head h u : keeps w_mem (find_in head h u).
Proof. apply (keeps_k_find k_mem). Qed.
Lemma keeps_w_alloc : keeps w_mem alloc_ptr.
Proof. apply (keeps_k_alloc k_mem). Qed.
Lemma keeps_w_ents f : keeps w_mem (modify (fun w => set_ents (f w) w)).
Proof. apply (keeps_k_ents k_mem). Qed.
Lemma keeps_w_find_prev head h u : keeps w_mem (find_prev_in head h u).
Proof.
  intros w a w' H. unfold find_prev_in. generalize (chain_fuel w) (@None ptr). intros fuel. revert head.
  induction fuel as [|fuel IH]; intros head o Hr; simpl in Hr.
  { destruct (head =? NULL); [by injection Hr as _ <-|done]. }
  destruct (head =? NULL); [by injection Hr as _ <-|]. minv Hr. apply rd_entry_inv in Hr0 as [-> _].
  destruct (_ && _); [by injection Hr as _ <-|]. by apply IH in Hr.
Qed.
#[local] Hint Resolve keeps_w_onk keeps_w_upd_entry keeps_w_upd_g keeps_w_upd_b keeps_w_rd_g keeps_w_find keeps_w_alloc
  keeps_w_ents keeps_w_find_prev : keeps.

Lemma keeps_w_entry_get q : keeps w_mem (index_entry_get q).
Proof. unfold index_entry_get. keeps. Qed.
Lemma keeps_w_entry_put q : keeps w_mem (index_entry_put q).
Proof. unfold index_entry_put. keeps. Qed.
Lemma keeps_w_clock : keeps w_mem get_monotonic_us.
Proof. unfold get_monotonic_us. keeps. Qed.
#[local] Hint Resolve keeps_w_entry_get keeps_w_entry_put keeps_w_clock : keeps.
Lemma keeps_w_record q : keeps w_mem (index_entry_record_access q).
Proof. unfold index_entry_record_access. keeps. Qed.
#[local] Hint Resolve keeps_w_record : keeps.
Lemma keeps_w_lookup i u r : keeps w_mem (global_index_lookup i u r).
Proof. unfold global_index_lookup. keeps. Qed.
Lemma keeps_w_release r : keeps w_mem (fd_ref_release r).
Proof. unfold fd_ref_release. keeps. Qed.
Lemma keeps_w_insert i q : keeps w_mem (global_index_insert i q).
Proof. unfold global_index_insert. keeps. Qed.
Lemma keeps_w_binsert i q : keeps w_mem (backend_index_insert i q).
Proof. unfold backend_index_insert. keeps. Qed.
Lemma keeps_w_remove i u : keeps w_mem (global_index_remove i u).
Proof. unfold global_index_remove, g_link. keeps. Qed.
Lemma keeps_w_bremove i u : keeps w_mem (backend_index_remove i u).
Proof. unfold backend_index_remove, b_link. keeps. Qed.
Lemma keeps_w_entry_create u id p : keeps w_mem (index_entry_create u id p).
Proof. unfold index_entry_create. keeps. Qed.
Lemma keeps_w_create_file p : keeps w_mem (create_file p).
Proof. unfold create_file. keeps. Qed.
Lemma keeps_w_unlink_path p : keeps w_mem (unlink_path p).
Proof. unfold unlink_path. keeps. Qed.
#[local] Hint Resolve keeps_w_lookup keeps_w_release keeps_w_insert keeps_w_binsert keeps_w_remove keeps_w_bremove
  keeps_w_entry_create keeps_w_create_file keeps_w_unlink_path : keeps.

Lemma keeps_b_onw {A} (m : M world A) : keeps w_mem m -> keeps b_mem (onw m).
Proof. intros Hm s a s' H Hr. apply onw_inv in Hr as [Hr _]. by eapply Hm. Qed.
Lemma keeps_b_get_bm : keeps b_mem get_bm.
Proof. by intros s a s' H [= _ <-]. Qed.
Lemma keeps_b_upd_bm f : keeps b_mem (upd_bm f).
Proof. intros s [] s' H Hr. apply upd_bm_inv in Hr as [Hw _]. unfold b_mem. by rewrite Hw. Qed.
#[local] Hint Resolve keeps_b_onw keeps_b_get_bm keeps_b_upd_bm : keeps.
Lemma keeps_b_get_backend id : keeps b_mem (backend_manager_get_backend id).
Proof. unfold backend_manager_get_backend. keeps. Qed.
Lemma keeps_b_upd_backend i f : keeps b_mem (upd_backend i f).
Proof. apply keeps_b_upd_bm. Qed.
#[local] Hint Resolve keeps_b_get_backend keeps_b_upd_backend : keeps.

Lemma keeps_b_get u r : keeps b_mem (backend_get_object u r).
Proof. unfold backend_get_object. keeps. Qed.
Lemma keeps_b_delete u : keeps b_mem (backend_delete_object u).
Proof. unfold backend_delete_object. keeps. Qed.
Lemma keeps_b_create r o : keeps b_mem (backend_create_object r o).
Proof. unfold backend_create_object. keeps. Qed.

(** ** Handlers only write to the connection *)

(** The part of an end that reading uses. *)
Definition input (e : endpoint) := (rx e, peer_closed e, rd_sched e).

Definition e_in (i : list cell * bool * list io_event) (e : endpoint) : Prop := input e = i /\ oom e = [].
Definition l_in i (c : option objm_connection) (l : link) : Prop := e_in i (ep l) /\ cn l = c.
Definition s_in i (c : option objm_connection) (s : server) : Prop :=
  input (ep (sv_l s)) = i /\ cn (sv_l s) = c /\ b_mem (sv_b s) /\ g_running s = [].

Lemma keeps_send_all d i : keeps (e_in i) (send_all d).
Proof. intros e a e' H Hr. destruct (send_all_total d e) as (r & n & w & Hx & _). rewrite Hx in Hr. by injection Hr as _ <-. Qed.
Lemma keeps_send_fd fd i : keeps (e_in i) (send_fd fd).
Proof.
  intros e a e' H Hr. unfold send_fd in Hr. minv Hr. injection Hr as _ <-. unfold sys_sendmsg_fd in Hr0.
  destruct (wr_sched e) as [|[] ?], (fdt e !! fd); by injection Hr0 as _ <-.
Qed.
Lemma keeps_e_alloc i : keeps (e_in i) sys_alloc.
Proof. intros e a e' [H1 H2] Hr. unfold sys_alloc in Hr. rewrite H2 in Hr. by injection Hr as _ <-. Qed.
#[local] Hint Resolve keeps_send_all keeps_send_fd keeps_e_alloc : keeps.
Lemma keeps_md_create n i : keeps (e_in i) (objm_metadata_create n).
Proof. unfold objm_metadata_create. keeps. Qed.
Lemma keeps_onep {A} (m : M endpoint A) i c : keeps (e_in i) m -> keeps (l_in i c) (onep m).
Proof.
  intros Hm l a l' [H1 H2] Hr. unfold onep in Hr. destruct (m (ep l)) eqn:E; try done. injection Hr as _ <-.
  split; [|done]. by eapply Hm.
Qed.
Lemma keeps_md_add {S} (I : S -> Prop) md l t d n : keeps I (objm_metadata_add md l t d n).
Proof. unfold objm_metadata_add. keeps. Qed.
Lemma keeps_get_cn i c : keeps (l_in i c) get_cn.
Proof. by intros l a l' H [= _ <-]. Qed.
#[local] Hint Resolve keeps_md_create keeps_onep keeps_md_add keeps_get_cn : keeps.
Lemma keeps_send_response r i c : keeps (l_in i c) (objm_server_send_response r).
Proof. unfold objm_server_send_response. keeps. Qed.
#[local] Hint Resolve keeps_send_response : keeps.
Lemma keeps_send_error id st m i c : keeps (l_in i c) (objm_server_send_error id st m).
Proof. unfold objm_server_send_error. keeps. Qed.
#[local] Hint Resolve keeps_send_error : keeps.

Lemma keeps_onb {A} (m : M bstate A) i c : keeps b_mem m -> keeps (s_in i c) (onb m).
Proof.
  intros Hm s a s' (H1 & H2 & H3 & H4) Hr. unfold onb in Hr. destruct (m (sv_b s)) eqn:E; try done. injection Hr as _ <-.
  split; [done|]. split; [done|]. split; [|done]. by eapply Hm.
Qed.
Lemma keeps_onl {A} (m : M link A) i c : keeps (l_in i c) m -> keeps (s_in i c) (onl m).
Proof.
  intros Hm s a s' (H1 & H2 & H3 & H4) Hr. unfold onl in Hr. destruct (m (link_in s)) as [x l| |] eqn:E; try done. injection Hr as _ <-.
  assert (Hl : l_in i c (link_in s)) by (split; [split; [exact H1|exact H3]|done]).
  destruct (Hm _ _ _ Hl E) as [[L1 L2] L3]. split; [done|]. split; [done|]. split; [exact L2|done].
Qed.
Lemma keeps_stats f i c : keeps (s_in i c) (upd_stats f).
Proof. intros s a s' H [= _ <-]. exact H. Qed.
Lemma keeps_b_malloc : keeps b_mem (onw (onk sys_malloc)).
Proof. auto with keeps. Qed.
#[local] Hint Resolve keeps_onb keeps_onl keeps_stats keeps_b_get keeps_b_delete keeps_b_create keeps_b_malloc : keeps.

(** A handler consumes nothing of the input and leaves the connection's state. *)
Lemma keeps_dispatch req i c : keeps (s_in i c) (dispatch req).
Proof. unfold dispatch, handle_delete, handle_list, handle_put, handle_get, count_error. keeps. Qed.

(** ** The loop *)

(** The bytes of one request are taken from the input. *)
Definition consumed (r : list cell) (w : list io_event) (s : server) : server :=
  link_out (Link (set_rx r w (ep (link_in s))) (cn (link_in s))) s.

(** [served v rest rs s s']: starting in [s], with the requests [rs] and then
    [rest] in the input, those of [rs] have been read and handled one after the
    other, each handler starting where the one before ended; [s'] is the state
    after the last. *)
Inductive served (v : Z) (rest : list objm_request_t) : list objm_request_t -> server -> server -> Prop :=
| served_nil s : served v rest [] s s
| served_cons r rs s w s1 s2 :
    dispatch (as_received v r) (set_stats (inc_requests (g_stats s))
      (consumed (plain <$> ((rs ++ rest) ≫= request_wire v)) w s)) = Ret () s1 ->
    served v rest rs s1 s2 -> served v rest (r :: rs) s s2.

(** The input of a session that still holds the requests [rs], after which the
    client has closed. *)
Definition session_input (v : Z) (rs : list objm_request_t) (s : server) : Prop :=
  speaks v (sv_l s) /\ b_mem (sv_b s) /\ g_running s = [] /\ no_fail (rd_sched (ep (sv_l s))) /\
  rx (ep (sv_l s)) = plain <$> (rs ≫= request_wire v) /\ peer_closed (ep (sv_l s)) = true.

Lemma session_dispatch v req s r w s1 rs :
  session_input v rs s -> no_fail w ->
  dispatch req (set_stats (inc_requests (g_stats s)) (consumed (plain <$> (r ≫= request_wire v)) w s)) = Ret () s1 ->
  session_input v r s1.
Proof.
  intros (S1 & S2 & S3 & S4 & S5 & S6) Hw Hd.
  assert (Hin : s_in (plain <$> (r ≫= request_wire v), true, w) (cn (sv_l s))
    (set_stats (inc_requests (g_stats s)) (consumed (plain <$> (r ≫= request_wire v)) w s))).
  { split; [|done]. unfold input. simpl. by rewrite S6. }
  destruct (keeps_dispatch _ _ _ _ _ _ Hin Hd) as ([= H1 H2 H3] & H4 & H5 & H6).
  split; [|by rewrite H1, H2, H3]. destruct S1 as [Hv (c & Hc & Hver)]. split; [done|]. exists c. by rewrite H4.
Qed.

Lemma link_in_session v rs s : session_input v rs s -> speaks v (link_in s) /\ no_fail (rd_sched (ep (link_in s))) /\ oom (ep (link_in s)) = [].
Proof. intros (S1 & S2 & S3 & S4 & S5 & S6). done. Qed.

Lemma recv_request_eof v s :
  session_input v [] s ->
  exists w, onl (objm_server_recv_request true) s = Ret (-1, None) (consumed [] w s).
Proof.
  intros Hs. destruct (link_in_session _ _ _ Hs) as ([Hv (c & Hc & Hver)] & Hn & Ho).
  destruct Hs as (S1 & S2 & S3 & S4 & S5 & S6). simpl in S5.
  assert (Heof : forall len, (0 < len) -> exists w, onep (recv_all len) (link_in s) = Ret None (Link (set_rx [] w (ep (link_in s))) (cn (link_in s)))).
  { intros len Hl. unfold onep. destruct (recv_all_spec len (ep (link_in s))) as [w Hx _|k w _ _|Hp _].
    - simpl in Hx. rewrite S5 in Hx. simpl in Hx. lia.
    - exists w. simpl rx. by rewrite S5, drop_nil.
    - simpl in Hp. congruence. }
  assert (Hr : exists w, objm_server_recv_request true (link_in s) = Ret (-1, None) (Link (set_rx [] w (ep (link_in s))) (cn (link_in s)))).
  { unfold objm_server_recv_request. run (get_cn_eq (link_in s)). rewrite Hc. cbn [negb]. run (onep_alloc (link_in s) Ho). cbn [negb].
    rewrite Hver. destruct (v =? OBJM_PROTO_V1).
    - destruct (Heof 3 ltac:(lia)) as [w Hw]. run Hw. by rewrite Hc; exists w.
    - destruct (Heof 9 ltac:(lia)) as [w Hw]. run Hw. by rewrite Hc; exists w. }
  destruct Hr as [w Hw]. exists w. unfold onl. by rewrite Hw.
Qed.

Lemma recv_request_next v r rs s :
  session_input v (r :: rs) s -> wf_request r ->
  exists w, onl (objm_server_recv_request true) s =
      Ret (0, Some (as_received v r)) (consumed (plain <$> (rs ≫= request_wire v)) w s) /\ no_fail w.
Proof.
  intros Hs Hwf. destruct (link_in_session _ _ _ Hs) as (Hsp & Hn & Ho). destruct Hs as (S1 & S2 & S3 & S4 & S5 & S6).
  assert (Hrx : rx (ep (link_in s)) = (plain <$> request_wire v r) ++ (plain <$> (rs ≫= request_wire v)))
    by (simpl; rewrite S5; simpl; by rewrite fmap_app).
  destruct (recv_request_ok v r _ (link_in s) Hsp Hwf (conj Hn Ho) Hrx) as (w & Hr & Hsuf). exists w. unfold onl. rewrite Hr. split; [done|].
  by apply (no_fail_suffix w (rd_sched (ep (link_in s)))).
Qed.

Lemma request_wire_length v r : (1 <= length (request_wire v r))%nat.
Proof. unfold request_wire. rewrite length_app. destruct (v =? OBJM_PROTO_V1).
  - change (length (request_header_v1 r)) with 3%nat. lia.
  - change (length (request_header_v2 r)) with 9%nat. lia.
Qed.

Lemma requests_length v rs : (length rs <= length (rs ≫= request_wire v))%nat.
Proof.
  induction rs as [|r rs IH]; [simpl; lia|]. rewrite bind_cons, length_app. pose proof (request_wire_length v r). simpl. lia.
Qed.

(** What the loop does about the end of the connection: nothing on V1, where it
    is the normal end, one more error on V2. *)
Definition session_end (v : Z) (s : server) : server :=
  if v =? OBJM_PROTO_V1 then s else set_stats (inc_errors (g_stats s)) s.

Lemma test_running_eq s : g_running s = [] -> test_running s = Ret true s.
Proof. intros H. unfold test_running. by rewrite H. Qed.

Lemma request_loop_ok v rs : forall fuel s,
  Forall wf_request rs -> session_input v rs s -> (length rs < fuel)%nat ->
  (exists s1 w, served v [] rs s s1 /\ request_loop fuel v s = Ret () (session_end v (consumed [] w s1))) \/
  (exists rs1 r rs2 s1 w, rs = rs1 ++ r :: rs2 /\ served v (r :: rs2) rs1 s s1 /\
     forall s2, dispatch (as_received v r) (set_stats (inc_requests (g_stats s1))
       (consumed (plain <$> (rs2 ≫= request_wire v)) w s1)) <> Ret () s2).
Proof.
  induction rs as [|r rs IH]; intros [|fuel] s Hwf Hs Hfuel; simpl in Hfuel; try lia.
  - left. destruct (recv_request_eof v s Hs) as (w & Hr). exists s, w. split; [constructor|].
    cbn [request_loop]. run (test_running_eq s (proj1 (proj2 (proj2 Hs)))). cbn [negb]. unfold request_round. rewrite bind_assoc. run Hr.
    unfold session_end. simpl (-1 =? 1). cbv iota. by destruct (v =? OBJM_PROTO_V1).
  - inversion Hwf as [|?? Hr Hrs]; subst. destruct (recv_request_next v r rs s Hs Hr) as (w & Hrecv & Hw).
    set (x := set_stats (inc_requests (g_stats s)) (consumed (plain <$> (rs ≫= request_wire v)) w s)).
    destruct (dispatch (as_received v r) x) as [[] s1| |] eqn:Hd.
    2,3: right; exists [], r, rs, s, w; split; [done|]; split; [constructor|]; intros s2; fold x; by rewrite Hd.
    pose proof (session_dispatch v _ s rs w s1 _ Hs Hw Hd) as Hs1.
    assert (Hloop : request_loop (S fuel) v s = request_loop fuel v s1).
    { cbn [request_loop]. run (test_running_eq s (proj1 (proj2 (proj2 Hs)))). cbn [negb]. unfold request_round. rewrite bind_assoc. run Hrecv.
      assert (Hst : upd_stats inc_requests (consumed (plain <$> (rs ≫= request_wire v)) w s) = Ret () x) by done.
      rewrite bind_assoc. run Hst. rewrite bind_assoc. run Hd. done. }
    destruct (IH fuel s1 Hrs Hs1 ltac:(lia)) as [(s2 & w2 & H1 & H2)|(rs1 & r2 & rs2 & s2 & w2 & -> & H1 & H2)].
    + left. exists s2, w2. split; [eapply served_cons; [rewrite app_nil_r; exact Hd|exact H1]|]. by rewrite Hloop.
    + right. exists (r :: rs1), r2, rs2, s2, w2. split; [done|]. split; [exact (served_cons _ _ _ _ _ _ _ _ Hd H1)|done].
Qed.


(** A client that asks for the list of objects and closes. *)
Definition list_request (id : Z) : objm_request_t := Request id 0 OBJM_MODE_FDPASS (bs "/list" ++ [x00]) 5.

Definition sample_session : server :=
  let e := sample_ep (plain <$> ([list_request 1] ≫= request_wire OBJM_PROTO_V2)) in
  Server sample_ready
    (Link (Endpoint (rx e) true [] (rd_sched e) (wr_sched e) (fdt e) [] x00) (Some (sample_conn true OBJM_PROTO_V2)))
    (GStats 0 0 0 0 0 1) [] 0 1.

Lemma list_request_wf id : 0 <= id < 2 ^ 32 -> wf_request (list_request id).
Proof. intros H. split; [exact H|]. unfold OBJM_MAX_URI_LEN. simpl. split; [lia|]. split; [lia|]. by exists (bs "/list"). Qed.

