(* ===== verification/Client.v ===== *)
(** * Client: the command-line client of client.c

    The commands [put], [get] and [delete] and the dispatch in [main].  A client
    is a process of its own: its kernel state holds its descriptor table and the
    files it shares with the server, its [link] the connection.  A command sends
    its request, waits for the response and copies the file; the two halves are
    separate definitions, because the server acts between them.  Messages printed
    on the console are not represented. *)

From S2P Require Import Prelude Socket Kernel Protocol.

(** ** State *)

Record client := Client { cl_k : kernel; cl_l : link }.

Definition onck {A} (m : M kernel A) : M client A := fun s =>
  match m (cl_k s) with
  | Ret a k => Ret a (Client k (cl_l s))
  | Blocked => Blocked
  | Fault => Fault
  end.

(** A call of the protocol library: it works on the descriptors and the
    allocator of the process. *)
Definition cl_in (s : client) : link :=
  Link (set_oom (k_oom (cl_k s)) (set_fdt (fdtab (cl_k s)) (ep (cl_l s)))) (cn (cl_l s)).
Definition cl_out (l : link) (s : client) : client :=
  Client (set_k_oom (oom (ep l)) (set_fdtab (fdt (ep l)) (cl_k s))) l.

Definition oncl {A} (m : M link A) : M client A := fun s =>
  match m (cl_in s) with
  | Ret a l => Ret a (cl_out l s)
  | Blocked => Blocked
  | Fault => Fault
  end.

(** ** Requests and responses *)

Definition client_request (uri : list byte) : objm_request_t :=
  Request 0 0 OBJM_MODE_FDPASS (uri ++ [x00]) (Z.of_nat (length uri)).

Definition send_command (uri : list byte) : M client Z := oncl (objm_client_send_request (Some (client_request uri))).

(** The response, if it is an OK response with a descriptor. *)
Definition recv_descriptor : M client (option objm_response_t) :=
  r ← oncl (objm_client_recv_response true);
  match r with
  | (ret, Some resp) =>
      if ret <? 0 then mret None
      else if negb (rs_status resp =? OBJM_STATUS_OK) then
        _ ← oncl (onep (objm_response_free (Some resp))); mret None
      else if rs_fd resp <? 0 then
        _ ← oncl (onep (objm_response_free (Some resp))); mret None
      else mret (Some resp)
  | (ret, None) => if ret <? 0 then mret None else fault
  end.

(** ** Copying *)

Definition BUFFER_SIZE : nat := Z.to_nat (64 * 1024).

(** [while ((bytes_read = read(src_fd, buffer, size)) > 0)] with one [write] per chunk;
    [false] when a [write] fails.  A failing [read] ends the loop like the end of
    the file.  Every round takes at least one byte from the source, so its length
    bounds the number of rounds. *)
Fixpoint copy_loop (size : nat) (fuel : nat) (src dst : Z) : M kernel bool :=
  match fuel with
  | O => block
  | S fuel =>
      r ← sys_fread src size;
      match r with
      | inl [] | inr _ => mret true
      | inl d =>
          w ← sys_fwrite dst d;
          match w with
          | inl _ => copy_loop size fuel src dst
          | inr _ => mret false
          end
      end
  end.

(** The bytes behind a descriptor. *)
Definition source_length (k : kernel) (fd : Z) : nat :=
  match ofd_of k fd with
  | Some (_, Ofd (Some i) _ _ _) => length (default [] (inodes k !! i))
  | _ => 0
  end.

Definition copy_data (src dst : Z) : M kernel bool := fun k => copy_loop BUFFER_SIZE (S (source_length k src)) src dst k.

(** The end of [cmd_put] and [cmd_get]: copy, close both files, free the response. *)
Definition copy_and_close (src dst : Z) (resp : objm_response_t) : M client Z :=
  ok ← onck (copy_data src dst);
  _ ← onck (sys_close_fd src);
  _ ← onck (sys_close_fd dst);
  _ ← oncl (onep (objm_response_free (Some resp)));
  mret (if ok : bool then 0 else -1).

(** ** Commands *)

Definition put_finish (source_path : list byte) : M client Z :=
  r ← recv_descriptor;
  match r with
  | None => mret (-1)
  | Some resp =>
      let dest_fd := rs_fd resp in
      src_fd ← onck (sys_open source_path O_RDONLY false false);
      if src_fd <? 0 then
        _ ← onck (sys_close_fd dest_fd);
        _ ← oncl (onep (objm_response_free (Some resp)));
        mret (-1)
      else copy_and_close src_fd dest_fd resp
  end.

Definition cmd_put (uri source_path : list byte) : M client Z :=
  r ← send_command uri;
  if r <? 0 then mret (-1) else put_finish source_path.

Definition get_finish (dest_path : list byte) : M client Z :=
  r ← recv_descriptor;
  match r with
  | None => mret (-1)
  | Some resp =>
      let src_fd := rs_fd resp in
      dest_fd ← onck (sys_open dest_path O_WRONLY true true);
      if dest_fd <? 0 then
        _ ← onck (sys_close_fd src_fd);
        _ ← oncl (onep (objm_response_free (Some resp)));
        mret (-1)
      else copy_and_close src_fd dest_fd resp
  end.

Definition cmd_get (uri dest_path : list byte) : M client Z :=
  r ← send_command uri;
  if r <? 0 then mret (-1) else get_finish dest_path.

(** [snprintf(delete_uri, OBJM_MAX_URI_LEN, "/delete%s", uri)]. *)
Definition delete_uri (uri : list byte) : list byte := snprintf_text OBJM_MAX_URI_LEN (bs "/delete" ++ uri).

Definition delete_finish : M client Z :=
  r ← oncl (objm_client_recv_response true);
  match r with
  | (ret, Some resp) =>
      if ret <? 0 then mret (-1)
      else
        _ ← oncl (onep (objm_response_free (Some resp)));
        mret (if rs_status resp =? OBJM_STATUS_OK then 0 else -1)
  | (ret, None) => if ret <? 0 then mret (-1) else fault
  end.

Definition cmd_delete (uri : list byte) : M client Z :=
  r ← send_command (delete_uri uri);
  if r <? 0 then mret (-1) else delete_finish.

(** ** Main *)

Definition OBJM_CLOSE_NORMAL : Z := 0.

Definition DEFAULT_SOCKET_PATH : list byte := bs "/tmp/objmapper.sock".

(** The socket path and the remaining arguments ([argv] without the program). *)
Definition parse_args (argv : list (list byte)) : list byte * list (list byte) :=
  match argv with
  | (x2f :: _) as p :: args => (p, args)
  | args => (DEFAULT_SOCKET_PATH, args)
  end.

Definition run_command (args : list (list byte)) : M client Z :=
  match args with
  | [] => mret 1
  | command :: args =>
      if bool_decide (command = bs "put") then
        match args with uri :: file :: _ => cmd_put uri file | _ => mret 1 end
      else if bool_decide (command = bs "get") then
        match args with uri :: file :: _ => cmd_get uri file | _ => mret 1 end
      else if bool_decide (command = bs "delete") then
        match args with uri :: _ => cmd_delete uri | _ => mret 1 end
      else mret 1
  end.

Section Main.
(** [socket] and [connect] to the server at a path (cut to 107 bytes): the
    descriptor, or -1. *)
Variable connect : list byte -> M client Z.

Definition client_main (argv : list (list byte)) : M client Z :=
  let '(socket_path, args) := parse_args argv in
  match args with
  | [] => mret 1
  | _ =>
      sock ← connect (take 107 socket_path);
      if sock <? 0 then mret 1
      else
        c ← oncl (onep (objm_client_create sock OBJM_PROTO_V1));
        match c with
        | None => _ ← onck (sys_close_fd sock); mret 1
        | Some c =>
            _ ← oncl (modify (fun l => Link (ep l) (Some c)));
            ret ← run_command args;
            _ ← oncl (objm_client_close OBJM_CLOSE_NORMAL);
            _ ← oncl objm_client_destroy;
            _ ← onck (sys_close_fd sock);
            mret ret
        end
  end.
End Main.
