(* ===== verification/ClientProofs.v ===== *)
(** * ClientProofs: copying files and the exchange between client and server *)

From S2P Require Import Prelude Socket Kernel KernelProofs Protocol ProtocolProofs Client.

(** ** Copying *)

Lemma buffer_size : Z.of_nat BUFFER_SIZE = 65536.
Proof. unfold BUFFER_SIZE. rewrite Z2Nat.id; lia. Qed.

(** [k'] is [k] after [data] has become the contents of file [j] and the
    descriptions [o1] and [o2] have moved. *)
Record copied (o1 o2 j : Z) (data : list byte) (k k' : kernel) : Prop := {
  cp_names : names k' = names k;
  cp_inodes : inodes k' = <[j:=data]> (inodes k);
  cp_ofds : forall o, o <> o1 -> o <> o2 -> ofds k' !! o = ofds k !! o;
  cp_kept : forall o e, ofds k !! o = Some e -> exists n, ofds k' !! o = Some (set_pos n e);
  cp_new : forall o e, ofds k' !! o = Some e -> exists n e0, ofds k !! o = Some e0 /\ e = set_pos n e0;
  cp_fdtab : fdtab k' = fdtab k;
  cp_rest : sched k' = sched k /\ k_oom k' = k_oom k /\ cwd k' = cwd k /\ ticks k' = ticks k /\ now k' = now k
}.

Lemma set_pos_id e : set_pos (o_pos e) e = e.
Proof. by destruct e. Qed.
Lemma set_pos_twice n n' e : set_pos n (set_pos n' e) = set_pos n e.
Proof. by destruct e. Qed.

Lemma copied_refl o1 o2 j data k : inodes k !! j = Some data -> copied o1 o2 j data k k.
Proof.
  intros Hj. split; try done.
  - by rewrite insert_id.
  - intros o e He. exists (o_pos e). by rewrite set_pos_id.
  - intros o e He. exists (o_pos e), e. by rewrite set_pos_id.
Qed.

Lemma copied_trans o1 o2 j d1 d2 k1 k2 k3 : copied o1 o2 j d1 k1 k2 -> copied o1 o2 j d2 k2 k3 -> copied o1 o2 j d2 k1 k3.
Proof.
  intros [A1 A2 A3 A4 A5 A6 (A7 & A8 & A9 & A10 & A11)] [B1 B2 B3 B4 B5 B6 (B7 & B8 & B9 & B10 & B11)].
  split; try congruence; [| | | |].
  - rewrite B2, A2. apply insert_insert_eq.
  - intros o H1 H2. by rewrite B3, A3.
  - intros o e He. destruct (A4 o e He) as [n Hn]. destruct (B4 o _ Hn) as [n' Hn']. exists n'. by rewrite set_pos_twice in Hn'.
  - intros o e He. destruct (B5 o e He) as (n & e1 & He1 & ->). destruct (A5 o e1 He1) as (n' & e0 & He0 & ->).
    exists n, e0. by rewrite set_pos_twice.
  - repeat split; congruence.
Qed.

Lemma copied_move o1 o2 j data k o n e :
  inodes k !! j = Some data -> ofds k !! o = Some e -> o = o1 \/ o = o2 ->
  copied o1 o2 j data k (set_ofds (<[o:=set_pos n e]> (ofds k)) k).
Proof.
  intros Hj He Ho. split; simpl; try done.
  - by rewrite insert_id.
  - intros o' H1 H2. rewrite lookup_insert_ne; [done|]. destruct Ho; congruence.
  - intros o' e' He'. destruct (decide (o = o')) as [<-|]; [rewrite lookup_insert_eq; exists n; congruence|].
    rewrite lookup_insert_ne by done. exists (o_pos e'). by rewrite set_pos_id.
  - intros o' e' He'. destruct (decide (o = o')) as [<-|].
    + rewrite lookup_insert_eq in He'. injection He' as <-. eauto.
    + rewrite lookup_insert_ne in He' by done. exists (o_pos e'), e'. by rewrite set_pos_id.
Qed.

Lemma copied_write o1 o2 j old data k k' : copied o1 o2 j old k k' -> copied o1 o2 j data k (set_inodes (<[j:=data]> (inodes k')) k').
Proof. intros [A1 A2 A3 A4 A5 A6 A7]. split; simpl; try done. rewrite A2. apply insert_insert_eq. Qed.

Lemma ofd_of_moved o1 o2 j data k k' fd o e :
  copied o1 o2 j data k k' -> ofd_of k fd = Some (o, e) -> exists n, ofd_of k' fd = Some (o, set_pos n e).
Proof.
  intros H Ho. unfold ofd_of in *. rewrite (cp_fdtab _ _ _ _ _ _ H). destruct (fdtab k !! fd) as [o'|]; [|done]. simpl in *.
  destruct (ofds k !! o') as [e'|] eqn:E; [|done]. simpl in Ho. injection Ho as -> ->.
  destruct (cp_kept _ _ _ _ _ _ H _ _ E) as [n Hn]. exists n. by rewrite Hn.
Qed.

(** The rest of the source behind the destination, in chunks. *)
Lemma copy_loop_ok n src dst o1 o2 i j wr rd d :
  (0 < n)%nat -> Z.of_nat n <= MAX_RW_COUNT -> o1 <> o2 -> i <> j -> forall fuel pos old k,
  sched k = [] -> ofd_of k src = Some (o1, Ofd (Some i) pos true wr) -> inodes k !! i = Some d ->
  ofd_of k dst = Some (o2, Ofd (Some j) (length old) rd true) -> inodes k !! j = Some old ->
  (length d - pos < fuel)%nat ->
  exists k', copy_loop n fuel src dst k = Ret true k' /\ copied o1 o2 j (old ++ drop pos d) k k'.
Proof.
  intros Hn Hb Ho Hij fuel. induction fuel as [|fuel IH]; intros pos old k Hs Hsrc Hi Hdst Hj Hf; [lia|]. simpl copy_loop.
  run (fread_chunk src o1 i pos wr d n k Hs Hsrc Hi). remember (take n (drop pos d)) as c eqn:Hc.
  set (k1 := set_ofds _ k). pose proof (proj1 (ofd_of_Some _ _ _ _) Hsrc) as [_ He1].
  assert (Hc1 : copied o1 o2 j old k k1) by (apply (copied_move _ _ _ _ _ _ (pos + length c) _ Hj He1); by left).
  destruct c as [|b c'].
  { exists k1. split; [done|]. replace (drop pos d) with (@nil byte); [by rewrite app_nil_r|].
    destruct (drop pos d) as [|x l]; [done|]. by destruct n; [lia|]. }
  set (c := b :: c') in *.
  assert (Hdst1 : ofd_of k1 dst = Some (o2, Ofd (Some j) (length old) rd true)).
  { rewrite (ofd_of_move k k1 o1 _ dst _ _ eq_refl eq_refl Hdst). by rewrite decide_False. }
  assert (Hsrc1 : ofd_of k1 src = Some (o1, Ofd (Some i) (pos + length c) true wr)).
  { rewrite (ofd_of_move k k1 o1 _ src _ _ eq_refl eq_refl Hsrc). by rewrite decide_True. }
  assert (Hlc : (length c <= n)%nat) by (rewrite Hc, length_take; lia).
  run (fwrite_append dst o2 j rd old c k1 Hs Hdst1 Hj ltac:(lia)). set (k2 := set_ofds _ _).
  pose proof (proj1 (ofd_of_Some _ _ _ _) Hdst1) as [_ He2].
  assert (Hc2 : copied o1 o2 j (old ++ c) k k2).
  { eapply copied_trans; [exact Hc1|].
    apply (copied_write _ _ _ _ (old ++ c) _ _ (copied_move o1 o2 j old k1 o2 (length (old ++ c)) _ Hj He2 ltac:(by right))). }
  assert (Hlt : (0 < length c)%nat) by (simpl; lia).
  assert (Hlen : (length c <= length d - pos)%nat) by (rewrite Hc, length_take, length_drop; lia).
  destruct (IH (pos + length c)%nat (old ++ c) k2) as (k' & Hr & Hcp).
  - done.
  - rewrite (ofd_of_move k1 k2 o2 _ src _ _ eq_refl eq_refl Hsrc1). by rewrite decide_False.
  - unfold k2. simpl. by rewrite lookup_insert_ne.
  - rewrite (ofd_of_move k1 k2 o2 _ dst _ _ eq_refl eq_refl Hdst1). by rewrite decide_True.
  - unfold k2. simpl. apply lookup_insert_eq.
  - lia.
  - exists k'. split; [exact Hr|]. replace (drop pos d) with (c ++ drop (pos + length c) d); [rewrite app_assoc; by eapply copied_trans|].
    rewrite <- (take_drop n (drop pos d)), <- Hc. f_equal. rewrite drop_drop, Hc, length_take, length_drop.
    destruct (decide (n <= length d - pos)%nat); [f_equal; lia|]. by rewrite !drop_ge by lia.
Qed.
