(* ===== verification/System.v ===== *)
(** * System: a client and the server together

    The commands of the client run against the request loop of the server: the
    two processes share the files and the open file descriptions, each has its
    own descriptor table, and what one writes to the connection the other reads.
    A command is the sequence of steps the blocking calls enforce: the client
    sends its request, the server handles it, the client goes on with the
    response. *)

From S2P Require Import Prelude Socket Protocol ProtocolProofs Kernel KernelProofs Index IndexProofs Backend BackendProofs ObjectProofs Server ServerProofs ServerLoop Client ClientProofs.

(** ** The two processes *)

Record system := System { sy_s : server; sy_c : client }.

Definition feed (cells : list cell) (l : link) : link := Link (set_rx (rx (ep l) ++ cells) (rd_sched (ep l)) (ep l)) (cn l).
Definition drained (l : link) : link := Link (set_tx [] (wr_sched (ep l)) (ep l)) (cn l).

Definition set_sv_l (l : link) (s : server) : server :=
  Server (sv_b s) l (g_stats s) (g_running s) (g_memory_backend_id s) (g_persistent_backend_id s).

(** A step of one process, after which the other sees its files and bytes. *)
Definition client_acts {A} (m : M client A) : M system A := fun y =>
  match m (sy_c y) with
  | Ret a c =>
      let s := sy_s y in
      Ret a (System (set_sv_l (feed (tx (ep (cl_l c))) (sv_l s)) (set_sv_kern (share (sv_kern s) (cl_k c)) s))
                    (Client (cl_k c) (drained (cl_l c))))
  | Blocked => Blocked
  | Fault => Fault
  end.

Definition server_acts {A} (m : M server A) : M system A := fun y =>
  match m (sy_s y) with
  | Ret a s =>
      let c := sy_c y in
      Ret a (System (set_sv_l (drained (sv_l s)) s)
                    (Client (share (cl_k c) (sv_kern s)) (feed (tx (ep (sv_l s))) (cl_l c))))
  | Blocked => Blocked
  | Fault => Fault
  end.

(** One round of the server's request loop. *)
Definition serve_request : M server () :=
  r ← onl (objm_server_recv_request true);
  match r with
  | (0, Some req) => _ ← upd_stats inc_requests; dispatch req
  | _ => mret ()
  end.

Definition put_command (uri source_path : list byte) : M system Z :=
  r ← client_acts (send_command uri);
  if r <? 0 then mret (-1) else _ ← server_acts serve_request; client_acts (put_finish source_path).

Definition get_command (uri dest_path : list byte) : M system Z :=
  r ← client_acts (send_command uri);
  if r <? 0 then mret (-1) else _ ← server_acts serve_request; client_acts (get_finish dest_path).

(** The round is the body of the loop. *)
Lemma request_loop_round fuel v s req s1 :
  g_running s = [] -> onl (objm_server_recv_request true) s = Ret (0, Some req) s1 ->
  request_loop (S fuel) v s = (_ ← serve_request; request_loop fuel v) s.
Proof.
  intros Hr Hq. cbn [request_loop]. run (test_running_eq s Hr). cbn [negb]. unfold request_round. rewrite bind_assoc. run Hq.
  unfold serve_request. rewrite !bind_assoc. run Hq. rewrite !bind_assoc.
  rewrite !(bind_Ret (upd_stats inc_requests) _ s1 () (set_stats (inc_requests (g_stats s1)) s1) eq_refl). by rewrite bind_assoc.
Qed.

(** ** The client's side *)

Lemma onck_Ret {A} (m : M kernel A) a k c : m (cl_k c) = Ret a k -> onck m c = Ret a (Client k (cl_l c)).
Proof. intros H. unfold onck. by rewrite H. Qed.

(** The client is ready: connection up, nothing refused. *)
Record ready (v : Z) (c : client) : Prop := {
  rd_speaks : speaks v (cl_l c);
  rd_quiet : quiet (rd_sched (ep (cl_l c))) /\ quiet (wr_sched (ep (cl_l c)));
  rd_willing : willing (cl_k c)
}.

Lemma cl_in_ready v c : ready v c -> speaks v (cl_in c) /\ calm (cl_in c).
Proof. intros [H1 [H2 H3] [H4 H5]]. done. Qed.

(** A call that leaves descriptors and allocator alone. *)
Lemma cl_out_same l c : fdt (ep l) = fdtab (cl_k c) -> oom (ep l) = k_oom (cl_k c) -> cl_out l c = Client (cl_k c) l.
Proof. intros H1 H2. unfold cl_out. rewrite H1, H2. by destruct c as [[]]. Qed.

Lemma send_command_ok v c u :
  ready v c -> wf_request (client_request u) ->
  exists c', send_command u c = Ret 0 c' /\ cl_k c' = cl_k c /\ tx (ep (cl_l c')) = tx (ep (cl_l c)) ++ (plain <$> request_wire v (client_request u)) /\
    rx (ep (cl_l c')) = rx (ep (cl_l c)) /\ ready v c'.
Proof.
  intros Hc Hwf. destruct (cl_in_ready v c Hc) as [Hs Hcalm].
  destruct (send_request_ok v (client_request u) (cl_in c) Hs Hwf) as (w & Hr & Hw); [apply quiet_no_fail, Hcalm|].
  unfold send_command, oncl. rewrite Hr. rewrite cl_out_same by done. eexists. split; [reflexivity|]. split; [done|].
  split; [done|]. split; [done|]. destruct Hc as [H1 [H2 H3] H4]. split; [done| |done]. split; [done|]. by apply (quiet_suffix w) in H3.
Qed.

(** A response with a descriptor on [o] is in the input. *)
Lemma recv_descriptor_ok v id o cells rest c :
  ready v c -> delivers_ok v id o cells -> rx (ep (cl_l c)) = cells ++ rest ->
  exists x l, recv_descriptor c = Ret (Some x) (Client (set_fdtab (<[lowest_free (fdtab (cl_k c)):=o]> (fdtab (cl_k c))) (cl_k c)) l) /\
    rs_fd x = lowest_free (fdtab (cl_k c)) /\
    rx (ep l) = rest /\ tx (ep l) = tx (ep (cl_l c)) /\ speaks v l /\ quiet (rd_sched (ep l)) /\ quiet (wr_sched (ep l)).
Proof.
  intros Hc Hd Hrx. destruct (cl_in_ready v c Hc) as [Hs Hcalm].
  destruct (Hd (cl_in c) rest Hs Hcalm Hrx) as (x & w & Hr & Hw & Hst & _ & Hfd).
  unfold recv_descriptor. set (l := Link _ _) in Hr.
  assert (Hon : oncl (objm_client_recv_response true) c = Ret (0, Some x)
    (Client (set_fdtab (<[lowest_free (fdtab (cl_k c)):=o]> (fdtab (cl_k c))) (cl_k c)) l)).
  { unfold oncl. rewrite Hr. unfold cl_out. simpl. by destruct c as [[]]. }
  run Hon. cbn [Z.ltb Z.compare]. rewrite Hst, Z.eqb_refl. cbn [negb]. simpl fdt in Hfd. rewrite Hfd.
  rewrite (proj2 (Z.ltb_ge _ _) (lowest_free_nonneg _)). exists x, l. split; [done|]. split; [done|].
  destruct Hc as [H1 [H2 H3] H4]. split; [done|]. split; [done|]. split; [done|]. split; [|done].
  by apply (quiet_suffix w) in H2.
Qed.

(** Freeing a response closes its descriptor. *)
Lemma response_free_ok x c : 0 <= rs_fd x ->
  exists l, oncl (onep (objm_response_free (Some x))) c = Ret () (Client (set_fdtab (delete (rs_fd x) (fdtab (cl_k c))) (cl_k c)) l) /\
    rx (ep l) = rx (ep (cl_l c)) /\ tx (ep l) = tx (ep (cl_l c)) /\ cn l = cn (cl_l c) /\
    rd_sched (ep l) = rd_sched (ep (cl_l c)) /\ wr_sched (ep l) = wr_sched (ep (cl_l c)).
Proof.
  intros Hx. unfold oncl, onep, objm_response_free. simpl ep. rewrite (proj2 (Z.leb_le _ _) Hx). simpl.
  eexists. split; [unfold cl_out; simpl; f_equal; f_equal; by destruct (cl_k c)|]. done.
Qed.

(** Two descriptors opened after one another and closed again. *)
Lemma two_closed (f : gmap Z Z) o1 o2 a : let f1 := <[lowest_free f:=o1]> f in let f2 := <[lowest_free f1:=o2]> f1 in
  a = lowest_free f \/ a = lowest_free f1 ->
  delete a (delete (lowest_free f) (delete (lowest_free f1) f2)) = f /\ delete a (delete (lowest_free f1) (delete (lowest_free f) f2)) = f.
Proof.
  intros f1 f2 Ha. assert (H : delete (lowest_free f) (delete (lowest_free f1) f2) = f) by (unfold f2; rewrite delete_lowest_free; apply delete_lowest_free).
  rewrite (delete_delete f2 (lowest_free f1)). rewrite H. split; apply delete_id; rewrite <- H.
  all: destruct Ha as [->| ->]; [apply lookup_delete_eq|]; rewrite delete_delete; apply lookup_delete_eq.
Qed.

Lemma copy_data_ok src dst o1 o2 i j wr rd d k :
  sched k = [] -> o1 <> o2 -> i <> j ->
  ofd_of k src = Some (o1, Ofd (Some i) 0 true wr) -> inodes k !! i = Some d ->
  ofd_of k dst = Some (o2, Ofd (Some j) 0 rd true) -> inodes k !! j = Some [] ->
  exists k', copy_data src dst k = Ret true k' /\ copied o1 o2 j d k k'.
Proof.
  intros Hs Ho Hij Hsrc Hi Hdst Hj. unfold copy_data, source_length. rewrite Hsrc, Hi. simpl default.
  pose proof buffer_size as Hb. revert Hb. generalize BUFFER_SIZE. intros n Hb.
  destruct (copy_loop_ok n src dst o1 o2 i j wr rd d ltac:(lia) ltac:(unfold MAX_RW_COUNT; lia) Ho Hij (S (length d)) 0 [] k) as (k' & H1 & H2);
    try done; [lia|].
  exists k'. done.
Qed.

(** The end of a transfer: [d] is copied and the process is left with the
    descriptors [f] it had before the response came. *)
Lemma copy_and_close_ok v src dst x o1 o2 i j wr rd d c f :
  sched (cl_k c) = [] -> o1 <> o2 -> i <> j ->
  ofd_of (cl_k c) src = Some (o1, Ofd (Some i) 0 true wr) -> inodes (cl_k c) !! i = Some d ->
  ofd_of (cl_k c) dst = Some (o2, Ofd (Some j) 0 rd true) -> inodes (cl_k c) !! j = Some [] ->
  0 <= rs_fd x -> delete (rs_fd x) (delete dst (delete src (fdtab (cl_k c)))) = f ->
  speaks v (cl_l c) -> quiet (rd_sched (ep (cl_l c))) -> quiet (wr_sched (ep (cl_l c))) -> k_oom (cl_k c) = [] ->
  exists c', copy_and_close src dst x c = Ret 0 c' /\ fdtab (cl_k c') = f /\ names (cl_k c') = names (cl_k c) /\
    inodes (cl_k c') = <[j:=d]> (inodes (cl_k c)) /\ ready v c' /\ rx (ep (cl_l c')) = rx (ep (cl_l c)) /\ tx (ep (cl_l c')) = tx (ep (cl_l c)) /\
    cwd (cl_k c') = cwd (cl_k c).
Proof.
  intros Hs Ho Hij Hsrc Hi Hdst Hj Hx Hf Hsp Q1 Q2 Hoom.
  destruct (copy_data_ok src dst o1 o2 i j wr rd d (cl_k c) Hs Ho Hij Hsrc Hi Hdst Hj) as (k' & Hcp & C).
  unfold copy_and_close. run (onck_Ret _ _ _ _ Hcp).
  run (onck_Ret (sys_close_fd src) () (set_fdtab (delete src (fdtab k')) k') (Client k' (cl_l c)) eq_refl).
  set (c2 := Client (set_fdtab (delete src (fdtab k')) k') _).
  run (onck_Ret (sys_close_fd dst) () (set_fdtab (delete dst (delete src (fdtab k'))) k') c2 eq_refl).
  set (c3 := Client (set_fdtab (delete dst _) k') _).
  destruct (response_free_ok x c3 Hx) as (l & Hfree & L1 & L2 & L3 & L4 & L5). run Hfree.
  destruct (cp_rest _ _ _ _ _ _ C) as (R1 & R2 & R3 & _).
  eexists. split; [reflexivity|]. simpl. rewrite (cp_fdtab _ _ _ _ _ _ C). split; [done|]. split; [apply C|]. split; [apply C|].
  split; [|by rewrite R3]. split; simpl.
  - destruct Hsp as [Hv Hc]. split; [done|]. by rewrite L3.
  - by rewrite L4, L5.
  - split; simpl; congruence.
Qed.

(** A descriptor received as the lowest free one and one opened after it. *)
Lemma second_descriptor e o e0 k : fdtab k !! lowest_free (fdtab k) = None -> ofds k !! o = Some e0 ->
  let k1 := set_fdtab (<[lowest_free (fdtab k):=o]> (fdtab k)) k in
  ofd_of (with_ofd e k1) (lowest_free (fdtab k)) = Some (o, e0) /\
  ofd_of (with_ofd e k1) (lowest_free (fdtab k1)) = Some (fresh_id (ofds k), e) /\ fresh_id (ofds k) <> o.
Proof.
  intros Hn Ho k1. assert (Hne : fresh_id (ofds k) <> o) by (intros <-; by rewrite fresh_id_None in Ho).
  split; [|split; [exact (ofd_with_ofd e k1)|done]]. apply ofd_of_Some. unfold with_ofd. simpl. split.
  - rewrite lookup_insert_ne; [by rewrite lookup_insert_eq|]. intros E.
    pose proof (lowest_free_None (<[lowest_free (fdtab k):=o]> (fdtab k))) as H. rewrite E in H. by rewrite lookup_insert_eq in H.
  - by rewrite lookup_insert_ne.
Qed.

Lemma put_finish_ok v id o cells rest c src ds i j d :
  ready v c -> delivers_ok v id o cells -> rx (ep (cl_l c)) = cells ++ rest ->
  ofds (cl_k c) !! o = Some (Ofd (Some j) 0 true true) -> inodes (cl_k c) !! j = Some [] ->
  resolve (cl_k c) src = Some ds -> ds <> [] -> names (cl_k c) !! (ds : key) = Some (File i) -> inodes (cl_k c) !! i = Some d -> i <> j ->
  exists c', put_finish src c = Ret 0 c' /\ fdtab (cl_k c') = fdtab (cl_k c) /\ names (cl_k c') = names (cl_k c) /\
    inodes (cl_k c') = <[j:=d]> (inodes (cl_k c)) /\ ready v c' /\ rx (ep (cl_l c')) = rest /\ tx (ep (cl_l c')) = tx (ep (cl_l c)) /\
    cwd (cl_k c') = cwd (cl_k c).
Proof.
  intros Hc Hd Hrx Ho Hj Hr Hne Hn Hi Hij. destruct (recv_descriptor_ok v id o cells rest c Hc Hd Hrx) as (x & l & Hrecv & Hx & L1 & L2 & L3 & L4 & L5).
  unfold put_finish. run Hrecv. set (k1 := set_fdtab _ (cl_k c)). cbv zeta.
  destruct (second_descriptor (Ofd (Some i) 0 true false) o _ (cl_k c) (lowest_free_None _) Ho) as (E1 & E2 & E3).
  assert (Hop : sys_open src O_RDONLY false false k1 = Ret (lowest_free (fdtab k1)) (with_ofd (Ofd (Some i) 0 true false) k1)).
  { apply (open_existing src O_RDONLY ds i k1); [apply Hc|by rewrite (resolve_names (cl_k c))|done|done]. }
  run (onck_Ret _ _ _ (Client k1 l) Hop). rewrite (proj2 (Z.ltb_ge _ _) (lowest_free_nonneg _)). cbn [cl_l]. rewrite Hx.
  destruct (copy_and_close_ok v (lowest_free (fdtab k1)) (lowest_free (fdtab (cl_k c))) x (fresh_id (ofds (cl_k c))) o i j false true d
    (Client (with_ofd (Ofd (Some i) 0 true false) k1) l) (fdtab (cl_k c))) as (c' & H1 & H2 & H3 & H4 & H5 & H6 & H7 & H8); try done.
  - apply Hc.
  - rewrite Hx. apply lowest_free_nonneg.
  - rewrite Hx. exact (proj1 (two_closed (fdtab (cl_k c)) o (fresh_id (ofds (cl_k c))) _ (or_introl eq_refl))).
  - apply Hc.
  - exists c'. split; [done|]. split; [done|]. split; [done|]. split; [done|]. split; [done|]. split; [by rewrite H6|]. split; [by rewrite H7|done].
Qed.

(** Opening the destination empties it and leaves the files under other names. *)
Lemma touch_others d k i x : names k !! d <> Some Dir -> names k !! d <> Some (File i) -> inodes k !! i = Some x ->
  let '(j, k') := touch d k in
  i <> j /\ inodes k' !! i = Some x /\ names k' !! d = Some (File j) /\ inodes k' !! j = Some [] /\
  ofds k' = ofds k /\ fdtab k' = fdtab k /\ sched k' = sched k /\ k_oom k' = k_oom k /\ cwd k' = cwd k.
Proof.
  intros Hd Hi Hx. unfold touch. destruct (names k !! d) as [[|j]|] eqn:E; [done| |].
  - assert (i <> j) by congruence. simpl. rewrite lookup_insert_ne, lookup_insert_eq by done. done.
  - assert (i <> fresh_id (inodes k)) by (intros ->; by rewrite fresh_id_None in Hx).
    simpl. rewrite lookup_insert_ne, !lookup_insert_eq by done. done.
Qed.

Lemma get_finish_ok v id o cells rest c dst dd i d :
  ready v c -> delivers_ok v id o cells -> rx (ep (cl_l c)) = cells ++ rest ->
  ofds (cl_k c) !! o = Some (Ofd (Some i) 0 true true) -> inodes (cl_k c) !! i = Some d ->
  resolve (cl_k c) dst = Some dd -> dd <> [] -> names (cl_k c) !! (dd : key) <> Some Dir -> names (cl_k c) !! dd <> Some (File i) ->
  exists c' j, get_finish dst c = Ret 0 c' /\ fdtab (cl_k c') = fdtab (cl_k c) /\
    names (cl_k c') !! dd = Some (File j) /\ inodes (cl_k c') !! j = Some d /\ inodes (cl_k c') !! i = Some d /\ ready v c' /\
    rx (ep (cl_l c')) = rest /\ tx (ep (cl_l c')) = tx (ep (cl_l c)).
Proof.
  intros Hc Hd Hrx Ho Hi Hr Hne Hnd Hni. destruct (recv_descriptor_ok v id o cells rest c Hc Hd Hrx) as (x & l & Hrecv & Hx & L1 & L2 & L3 & L4 & L5).
  unfold get_finish. run Hrecv. set (k1 := set_fdtab _ (cl_k c)). cbv zeta.
  pose proof (open_touch dst O_WRONLY dd k1) as Hop. pose proof (touch_others dd k1 i d Hnd Hni Hi) as Ht.
  destruct (touch dd k1) as [j k2]. destruct Ht as (T1 & T2 & T3 & T4 & T5 & T6 & T7 & T8 & T9).
  specialize (Hop (rd_willing _ _ Hc)). rewrite (resolve_names (cl_k c)) in Hop by done. specialize (Hop Hr Hne Hnd). simpl in Hop.
  run (onck_Ret _ _ _ (Client k1 l) Hop). rewrite (proj2 (Z.ltb_ge _ _) (lowest_free_nonneg _)). cbn [cl_l]. rewrite Hx.
  destruct (second_descriptor (Ofd (Some j) 0 false true) o _ (cl_k c) (lowest_free_None _) Ho) as (E1 & E2 & E3).
  assert (Hof : forall fd, ofd_of (with_ofd (Ofd (Some j) 0 false true) k2) fd = ofd_of (with_ofd (Ofd (Some j) 0 false true) k1) fd)
    by (intros fd; unfold ofd_of, with_ofd; simpl; by rewrite T5, T6).
  destruct (copy_and_close_ok v (lowest_free (fdtab (cl_k c))) (lowest_free (fdtab k1)) x o (fresh_id (ofds (cl_k c))) i j true false d
    (Client (with_ofd (Ofd (Some j) 0 false true) k2) l) (fdtab (cl_k c))) as (c' & H1 & H2 & H3 & H4 & H5 & H6 & H7 & H8); try done.
  - simpl. rewrite T7. apply Hc.
  - by rewrite Hof.
  - by rewrite Hof.
  - rewrite Hx. apply lowest_free_nonneg.
  - rewrite Hx. simpl. rewrite T6, T5.
    exact (proj2 (two_closed (fdtab (cl_k c)) o (fresh_id (ofds (cl_k c))) _ (or_introl eq_refl))).
  - simpl. rewrite T8. apply Hc.
  - exists c', j. split; [done|]. split; [done|]. rewrite H3, H4. simpl. split; [done|]. split; [apply lookup_insert_eq|].
    split; [by rewrite lookup_insert_ne|]. split; [done|]. split; [by rewrite H6|by rewrite H7].
Qed.
