(* ===== verification/SystemProofs.v ===== *)
(** * SystemProofs: storing and fetching a file through the server *)

From S2P Require Import Prelude Socket Protocol ProtocolProofs Kernel KernelProofs Index IndexProofs Backend BackendProofs ObjectProofs Server ServerProofs ServerLoop Client ClientProofs System.

(** ** The system between two commands *)

(** The connection is up on both sides, nothing is under way, and the processes
    see the same files. *)
Record at_rest (v : Z) (y : system) : Prop := {
  ar_server : connected v (sy_s y);
  ar_reads : no_fail (rd_sched (ep (sv_l (sy_s y))));
  ar_client : ready v (sy_c y);
  ar_server_wire : rx (ep (sv_l (sy_s y))) = [] /\ tx (ep (sv_l (sy_s y))) = [];
  ar_client_wire : rx (ep (cl_l (sy_c y))) = [] /\ tx (ep (cl_l (sy_c y))) = [];
  ar_files : share (cl_k (sy_c y)) (sv_kern (sy_s y)) = cl_k (sy_c y)
}.

Lemma set_sv_kern_same s : set_sv_kern (sv_kern s) s = s.
Proof. by destruct s as [[[[]] ?]]. Qed.

Lemma sv_kern_set k s : sv_kern (set_sv_kern k s) = k.
Proof. done. Qed.

(** An object is where its entry is, whatever happens to the files. *)
Lemma object_at_kern b u q path k : object_at b u q path -> object_at (BState (set_kern k (wd b)) (bm b)) u q path.
Proof.
  intros (m & e & Hm & Hi & (g & head & Hg & Hb & Hf) & H). exists m, e. split; [done|]. split; [done|]. split; [|exact H].
  exists g, head. split; [done|]. split; [done|]. unfold find_in in *. by apply (chain_find_ext _ _ _ _ (wd b)).
Qed.

(** ** The steps of a command *)

Lemma client_request_wf u : Z.of_nat (length u) <= OBJM_MAX_URI_LEN -> wf_request (client_request u).
Proof. intros H. unfold wf_request, client_request. simpl. split; [lia|]. split; [lia|]. split; [lia|]. by exists u. Qed.

(** The client's request is in the server's input. *)
Record requested (v : Z) (u : list byte) (y y1 : system) : Prop := {
  rq_objects : sv_b (sy_s y1) = sv_b (sy_s y);
  rq_up : connected v (sy_s y1);
  rq_reads : no_fail (rd_sched (ep (sv_l (sy_s y1))));
  rq_wire : rx (ep (sv_l (sy_s y1))) = plain <$> request_wire v (client_request u);
  rq_tx : tx (ep (sv_l (sy_s y1))) = [];
  rq_kernel : cl_k (sy_c y1) = cl_k (sy_c y);
  rq_ready : ready v (sy_c y1);
  rq_client_wire : rx (ep (cl_l (sy_c y1))) = [] /\ tx (ep (cl_l (sy_c y1))) = []
}.

Lemma command_sent v u y : at_rest v y -> Z.of_nat (length u) <= OBJM_MAX_URI_LEN ->
  exists y1, client_acts (send_command u) y = Ret 0 y1 /\ requested v u y y1.
Proof.
  intros [A1 A2 A3 [A4 A4'] [A5 A5'] A6] Hl. destruct y as [s c]. simpl in *.
  destruct (send_command_ok v c u A3 (client_request_wf u Hl)) as (c' & Hs & Hk & Ht & Hr & Hc).
  unfold client_acts. simpl. rewrite Hs. eexists. split; [reflexivity|]. rewrite Hk, (share_back _ _ A6), set_sv_kern_same.
  destruct Hc as [C1 C2 C3]. rewrite Hk in C3.
  split; simpl; try done; [by rewrite A4, Ht, A5'|by rewrite Hr].
Qed.

(** The server reads the request and hands it to the dispatcher in state [x]. *)
Lemma request_read v r s : connected v s -> no_fail (rd_sched (ep (sv_l s))) -> wf_request r ->
  rx (ep (sv_l s)) = plain <$> request_wire v r ->
  exists x, serve_request s = dispatch (as_received v r) x /\ sv_b x = sv_b s /\ connected v x /\
    rx (ep (sv_l x)) = [] /\ tx (ep (sv_l x)) = tx (ep (sv_l s)) /\ no_fail (rd_sched (ep (sv_l x))).
Proof.
  intros Hc Hn Hwf Hrx. destruct (link_in_connected v s Hc) as (Hs & Hq & Ho).
  assert (Hrx' : rx (ep (link_in s)) = (plain <$> request_wire v r) ++ []) by (by rewrite app_nil_r).
  destruct (recv_request_ok v r [] (link_in s) Hs Hwf (conj Hn Ho) Hrx') as (w & Hr & Hw).
  assert (Hon : onl (objm_server_recv_request true) s = Ret (0, Some (as_received v r)) (consumed [] w s)) by (unfold onl; by rewrite Hr).
  assert (Hb : sv_b (consumed [] w s) = sv_b s).
  { unfold consumed, link_out, link_in, set_sv_kern, set_sv_b, sv_kern. simpl. by destruct (sv_b s) as [[[]] ?]. }
  exists (set_stats (inc_requests (g_stats (consumed [] w s))) (consumed [] w s)). unfold serve_request. run Hon.
  split; [reflexivity|]. split; [done|]. split.
  - destruct Hc as (C1 & C2 & C3). split; [done|]. split; [done|]. unfold sv_kern in *.
    change (k_oom (kern (wd (sv_b (consumed [] w s)))) = []). by rewrite Hb.
  - split; [done|]. split; [done|]. simpl. by apply (no_fail_suffix w) in Hn.
Qed.

Lemma ready_fed v c k cells : ready v c -> ready v (Client (share (cl_k c) k) (feed cells (cl_l c))).
Proof. intros [H1 H2 H3]. by split. Qed.

Lemma as_received_uri v u : no_nul u -> req_uri (as_received v (client_request u)) = u.
Proof. intros Hn. unfold as_received, client_request, req_uri. destruct (v =? OBJM_PROTO_V1); simpl; by apply c_str_app_nul. Qed.

Lemma as_received_fields v u : rq_mode (as_received v (client_request u)) = OBJM_MODE_FDPASS /\ rq_id (as_received v (client_request u)) = 0.
Proof. unfold as_received, client_request. by destruct (v =? OBJM_PROTO_V1). Qed.

(** ** The two transfers *)

(** The inode behind a handle. *)
Definition handle_inode (b : bstate) (ref : fd_ref_t) : option Z :=
  '(_, e) ← ofd_of (kern (wd b)) (fr_fd ref); o_ino e.

(** Path [p] names a file of the client with contents [data]. *)
Definition file_at (k : kernel) (p : list byte) (i : Z) (data : list byte) : Prop :=
  exists d, resolve k p = Some d /\ d <> [] /\ names k !! (d : key) = Some (File i) /\ inodes k !! i = Some data.

(** Path [p] names a place for a file that is not the file [i]. *)
Definition place_at (k : kernel) (p : list byte) (d : key) (i : Z) : Prop :=
  resolve k p = Some d /\ d <> [] /\ names k !! d <> Some Dir /\ names k !! d <> Some (File i).

(** The object of [u] holds [data] in file [i]. *)
Definition stored_object (s : server) (u : list byte) (i : Z) (data : list byte) : Prop :=
  exists q path d, object_at (sv_b s) u q (Some path) /\ resolve (sv_kern s) path = Some d /\
    node_at (sv_kern s) d = Some (File i) /\ inodes (sv_kern s) !! i = Some data.

(** The creation the server attempts for a [put] of an unknown URI. *)
Definition creation (u : list byte) : M bstate (Z * option fd_ref_t) :=
  _ ← backend_get_object (Some u) true;
  _ ← backend_get_object (Some u) true;
  backend_create_object (Some (CreateReq (Some u) (-1) false 0 0)) true.

Lemma put_request_received v u : no_nul u ->
  put_request (as_received v (client_request u)) = CreateReq (Some u) (-1) false 0 0.
Proof. intros Hn. unfold put_request. rewrite as_received_uri by done. unfold as_received, client_request. by destruct (v =? OBJM_PROTO_V1). Qed.

Lemma close_if_share fd k k' : share k (close_if fd k') = share k k'.
Proof. unfold close_if. by destruct (0 <=? fd). Qed.

Lemma put_command_ok v y u src m ref b i j data :
  at_rest v y -> no_nul u -> Z.of_nat (length u) <= OBJM_MAX_URI_LEN -> object_uri u = true ->
  no_object (sv_b (sy_s y)) u -> bm (sv_b (sy_s y)) = Some m ->
  creation u (sv_b (sy_s y)) = Ret (0, Some ref) b -> willing (kern (wd b)) -> handle_inode b ref = Some j ->
  file_at (share (cl_k (sy_c y)) (kern (wd b))) src i data -> i <> j ->
  exists y', put_command u src y = Ret 0 y' /\ at_rest v y' /\ stored_object (sy_s y') u j data /\
    fdtab (cl_k (sy_c y')) = fdtab (cl_k (sy_c y)) /\ names (cl_k (sy_c y')) = names (kern (wd b)) /\
    cwd (cl_k (sy_c y')) = cwd (cl_k (sy_c y)) /\ sched (sv_kern (sy_s y')) = [].
Proof.
  intros Hrest Hnn Hl Hu Hno Hm Hcr [Hw1 Hw2] Hj (ds & F1 & F2 & F3 & F4) Hij.
  destruct (command_sent v u y Hrest Hl) as (y1 & Hsend & [Q1 Q2 Q3 Q4 Q5 Q6 Q7 [Q8 Q8']]).
  destruct (request_read v (client_request u) (sy_s y1) Q2 Q3 (client_request_wf u Hl) Q4) as (x & Hserve & X1 & X2 & X3 & X4 & X5).
  destruct (as_received_fields v u) as [Hmode Hid]. set (r := as_received v (client_request u)) in *.
  assert (Hru : req_uri r = u) by (by apply as_received_uri).
  destruct (dispatch_put v r m ref b x) as (s' & o & cells & id & mp & d & i' & Hdis & Hdel & PD);
    [done|rewrite Hid; lia|done|by rewrite Hru|rewrite Hru; congruence|congruence| |done|].
  { rewrite Hru, X1, Q1. unfold r. rewrite put_request_received by done. exact Hcr. }
  destruct PD as [P1 P2 P3 P4 P5 P6 P7 P8 P9 P10 P11 P12 [P13 P13'] P14 P15]. rewrite Hru in *.
  assert (i' = j) as ->.
  { unfold handle_inode, ofd_of in Hj. rewrite P12 in Hj. simpl in Hj. rewrite P11 in P8. unfold close_if in P8.
    assert (P8' : ofds (kern (wd b)) !! o = Some (Ofd (Some i') 0 true true)) by (by destruct (0 <=? fr_fd ref)).
    rewrite P8' in Hj. by injection Hj. }
  set (c2 := Client (share (cl_k (sy_c y1)) (sv_kern s')) (feed cells (cl_l (sy_c y1)))).
  assert (Hact : server_acts serve_request y1 = Ret () (System (set_sv_l (drained (sv_l s')) s') c2)).
  { unfold server_acts. rewrite Hserve, Hdis. by rewrite P1, X4, Q5. }
  assert (Hc2 : cl_k c2 = share (cl_k (sy_c y)) (kern (wd b))) by (simpl; by rewrite Q6, P11, close_if_share).
  destruct (put_finish_ok v (rq_id r) o cells [] c2 src ds i j data) as (c3 & Hfin & R1 & R2 & R3 & R4 & R5 & R6 & R7).
  - by apply ready_fed.
  - done.
  - simpl. by rewrite Q8, app_nil_r.
  - done.
  - done.
  - by rewrite Hc2.
  - done.
  - by rewrite Hc2.
  - by rewrite Hc2.
  - done.
  - unfold put_command. run Hsend. change (0 <? 0) with false. cbv iota. run Hact. unfold client_acts. cbn [sy_c sy_s]. rewrite Hfin.
    eexists. split; [reflexivity|]. cbn [sy_c sy_s]. rewrite R6. simpl in R1, R2, R3, R7. simpl tx. rewrite Q8'.
    destruct R4 as [C1 C2 C3]. destruct X2 as (Z1 & Z2 & Z3).
    assert (Hk : sv_kern s' = close_if (fr_fd ref) (kern (wd b))) by done.
    split; [|split; [|split; [|split; [|split]]]]; cbn [cl_k].
    + split; simpl; try done.
      * split; [|split]; simpl.
        -- unfold speaks in *. simpl. by rewrite P15 in *.
        -- simpl. by eapply quiet_suffix.
        -- unfold sv_kern in *. simpl. rewrite Hk. unfold close_if. by destruct (0 <=? fr_fd ref).
      * by rewrite P13'.
      * rewrite P13, X3. done.
      * unfold sv_kern. simpl. unfold share. simpl. by destruct (cl_k c3).
    + exists (fr_entry ref), (snprintf_text 1024 (mp ++ u)), d. split; [|split; [|split]].
      * apply (object_at_kern (sv_b s')). done.
      * rewrite (resolve_names (sv_kern s')); [done|intros z; unfold is_dir, sv_kern; simpl; by rewrite R2|done].
      * unfold sv_kern, node_at. simpl. rewrite R2. exact P6.
      * unfold sv_kern. simpl. rewrite R3. apply lookup_insert_eq.
    + by rewrite R1, Q6.
    + rewrite R2, Hk. unfold close_if. by destruct (0 <=? fr_fd ref).
    + by rewrite R7, Q6.
    + unfold sv_kern in *. simpl. rewrite Hk. unfold close_if. by destruct (0 <=? fr_fd ref).
Qed.

Lemma get_command_ok v y u dst dd i data :
  at_rest v y -> no_nul u -> Z.of_nat (length u) <= OBJM_MAX_URI_LEN -> object_uri u = true ->
  stored_object (sy_s y) u i data -> sched (sv_kern (sy_s y)) = [] -> place_at (cl_k (sy_c y)) dst dd i ->
  exists y' j, get_command u dst y = Ret 0 y' /\ at_rest v y' /\ fdtab (cl_k (sy_c y')) = fdtab (cl_k (sy_c y)) /\
    fdtab (sv_kern (sy_s y')) = fdtab (sv_kern (sy_s y)) /\
    names (cl_k (sy_c y')) !! dd = Some (File j) /\ inodes (cl_k (sy_c y')) !! j = Some data /\ inodes (cl_k (sy_c y')) !! i = Some data.
Proof.
  intros Hrest Hnn Hl Hu (q & path & d & O1 & O2 & O3 & O4) Hsch (D1 & D2 & D3 & D4).
  destruct (command_sent v u y Hrest Hl) as (y1 & Hsend & [Q1 Q2 Q3 Q4 Q5 Q6 Q7 [Q8 Q8']]).
  destruct (request_read v (client_request u) (sy_s y1) Q2 Q3 (client_request_wf u Hl) Q4) as (x & Hserve & X1 & X2 & X3 & X4 & X5).
  destruct (as_received_fields v u) as [Hmode Hid]. set (r := as_received v (client_request u)) in *.
  assert (Hru : req_uri r = u) by (by apply as_received_uri).
  assert (Hxk : sv_kern x = sv_kern (sy_s y)) by (unfold sv_kern; by rewrite X1, Q1).
  destruct (dispatch_get v r q path d i x) as (s' & o & cells & Hdis & [A1 A2 [A3 A3'] A4 A5] & _ & Ho & Hdel);
    [done|rewrite Hid; lia|done|by rewrite Hru|rewrite Hru; congruence|congruence|congruence|congruence|].
  destruct (so_fs _ _ A1) as (S1 & S2 & S3 & S4). fold (sv_kern x) (sv_kern s') in S1, S2, S3, S4. rewrite Hxk in S1, S2, S3, S4.
  pose proof (so_fdtab _ _ A1) as S5. fold (sv_kern x) (sv_kern s') in S5. rewrite Hxk in S5.
  set (c2 := Client (share (cl_k (sy_c y1)) (sv_kern s')) (feed cells (cl_l (sy_c y1)))).
  assert (Hact : server_acts serve_request y1 = Ret () (System (set_sv_l (drained (sv_l s')) s') c2)).
  { unfold server_acts. rewrite Hserve, Hdis. by rewrite A2, X4, Q5. }
  pose proof (ar_files _ _ Hrest) as Hf.
  assert (Hn2 : names (cl_k c2) = names (cl_k (sy_c y))) by (rewrite <- Hf; exact S1).
  assert (Hi2 : inodes (cl_k c2) = inodes (sv_kern (sy_s y))) by exact S2.
  assert (Hr2 : resolve (cl_k c2) dst = Some dd).
  { rewrite (resolve_names (cl_k (sy_c y))); [done|intros z; unfold is_dir; by rewrite Hn2|simpl; by rewrite Q6]. }
  destruct (get_finish_ok v (rq_id r) o cells [] c2 dst dd i data) as (c3 & j & Hfin & R1 & R2 & R3 & R3' & R4 & R5 & R6);
    [by apply ready_fed|done|simpl; by rewrite Q8, app_nil_r|exact Ho|by rewrite Hi2|done|done|by rewrite Hn2|by rewrite Hn2|].
  unfold get_command. run Hsend. change (0 <? 0) with false. cbv iota. run Hact. unfold client_acts. cbn [sy_c sy_s]. rewrite Hfin.
  eexists _, j. split; [reflexivity|]. cbn [sy_c sy_s]. rewrite R6. simpl in R1. simpl tx. rewrite Q8'.
  destruct R4 as [C1 C2 C3]. destruct X2 as (Z1 & Z2 & Z3).
  split; [|split; [cbn [cl_k]; by rewrite R1, Q6|split; [exact S5|done]]]. split; simpl; try done.
  - split; [|split]; simpl.
    + unfold speaks in *. simpl. by rewrite A5 in *.
    + by eapply quiet_suffix.
    + change (k_oom (sv_kern s') = []). rewrite S3. apply (ar_server _ _ Hrest).
  - by rewrite A3'.
  - rewrite A3, X3. done.
  - unfold sv_kern. simpl. unfold share. simpl. by destruct (cl_k c3).
Qed.

(** C6: a file stored with the client's [put] is what [get] brings back.  On an
    idle V1 or V2 connection, when the server can create the object of a new URI,
    [put uri src] and then [get uri dst] both return 0, and the file [dst] has
    exactly the contents of [src], whatever their length: through the request and
    response messages, the passed descriptors, the indexes and the 64 KiB copy
    loops.  The client ends with the descriptors it started with. *)
Theorem put_then_get_roundtrip v y u src dst m ref b i j dd data :
  at_rest v y -> no_nul u -> Z.of_nat (length u) <= OBJM_MAX_URI_LEN -> object_uri u = true ->
  no_object (sv_b (sy_s y)) u -> bm (sv_b (sy_s y)) = Some m ->
  creation u (sv_b (sy_s y)) = Ret (0, Some ref) b -> willing (kern (wd b)) -> handle_inode b ref = Some j ->
  file_at (share (cl_k (sy_c y)) (kern (wd b))) src i data -> i <> j ->
  place_at (share (cl_k (sy_c y)) (kern (wd b))) dst dd j ->
  exists y' n, (r1 ← put_command u src; r2 ← get_command u dst; mret (r1, r2)) y = Ret (0, 0) y' /\
    names (cl_k (sy_c y')) !! dd = Some (File n) /\ inodes (cl_k (sy_c y')) !! n = Some data /\
    fdtab (cl_k (sy_c y')) = fdtab (cl_k (sy_c y)) /\ at_rest v y'.
Proof.
  intros H1 H2 H3 H4 H5 H6 H7 H8 H9 H10 H11 (D1 & D2 & D3 & D4).
  destruct (put_command_ok v y u src m ref b i j data) as (y1 & P1 & P2 & P3 & P4 & P5 & P6 & P7); try done.
  destruct (get_command_ok v y1 u dst dd j data) as (y2 & n & G1 & G2 & G3 & G4 & G5 & G6 & _); try done.
  - split; [|rewrite P5; done].
    rewrite (resolve_names (share (cl_k (sy_c y)) (kern (wd b)))); [done|intros z; unfold is_dir; by rewrite P5|done].
  - run P1. run G1. exists y2, n. split; [done|]. split; [done|]. split; [done|]. split; [congruence|done].
Qed.

(** ** Witness: five bytes through a fresh server *)

(** The start-up state with a file [/src] on the same machine. *)
Definition trip_bstate : bstate :=
  let k := kern (wd sample_ready) in
  BState (set_kern (set_names (<[[bs "src"] := File 100]> (names k)) (set_inodes (<[100 := bs "hello"]> (inodes k)) k)) (wd sample_ready))
    (bm sample_ready).

Definition trip_system : system :=
  System (Server trip_bstate (sample_link true OBJM_PROTO_V1 []) (GStats 0 0 0 0 0 1) [] 0 1)
    (Client (share (Kernel ∅ ∅ ∅ {[0 := 0; 1 := 1; 2 := 2]} [] [] 0 [] []) (kern (wd trip_bstate))) (sample_link false OBJM_PROTO_V1 [])).

Lemma trip_at_rest : at_rest OBJM_PROTO_V1 trip_system.
Proof.
  assert (Hs : forall x, speaks OBJM_PROTO_V1 (sample_link x OBJM_PROTO_V1 [])) by (intros x; apply sample_speaks; by left).
  assert (Hq : forall x, calm (sample_link x OBJM_PROTO_V1 [])) by (intros x; apply (sample_calm x OBJM_PROTO_V1 [])).
  split.
  - split; [apply Hs|]. split; [apply Hq|vm_compute; reflexivity].
  - apply quiet_no_fail, (Hq true).
  - split; [apply Hs|split; apply (Hq false)|]. vm_compute. split; reflexivity.
  - vm_compute. split; reflexivity.
  - vm_compute. split; reflexivity.
  - reflexivity.
Qed.

Lemma trip_no_object : no_object trip_bstate (bs "/q").
Proof.
  eexists. split; [vm_compute; reflexivity|]. split; [vm_compute; discriminate|].
  eexists _, _. split; [vm_compute; reflexivity|]. split; [vm_compute; reflexivity|]. vm_compute. reflexivity.
Qed.

Lemma put_then_get_roundtrip_witness :
  exists y' n, (r1 ← put_command (bs "/q") (bs "/src"); r2 ← get_command (bs "/q") (bs "/dst"); mret (r1, r2)) trip_system = Ret (0, 0) y' /\
    names (cl_k (sy_c y')) !! [bs "dst"] = Some (File n) /\ inodes (cl_k (sy_c y')) !! n = Some (bs "hello").
Proof.
  set (view := fun b : bstate =>
    let k := share (cl_k (sy_c trip_system)) (kern (wd b)) in
    (sched (kern (wd b)), k_oom (kern (wd b)), handle_inode b sample_ref,
     (resolve k (bs "/src"), names k !! [bs "src"], inodes k !! 100), (resolve k (bs "/dst"), names k !! [bs "dst"]))).
  assert (Hres : result_of (creation (bs "/q") trip_bstate) = Some (0, Some sample_ref)) by (vm_compute; reflexivity).
  assert (Hview : view <$> state_of (creation (bs "/q") trip_bstate) =
    Some ([], [], Some 0, (Some [bs "src"], Some (File 100), Some (bs "hello")), (Some [bs "dst"], None))) by (vm_compute; reflexivity).
  destruct (creation (bs "/q") trip_bstate) as [a b| |] eqn:Hr; [|discriminate..]. injection Hres as ->.
  injection Hview as V1 V2 V3 V5 V6 V8.
  destruct (put_then_get_roundtrip OBJM_PROTO_V1 trip_system (bs "/q") (bs "/src") (bs "/dst") sample_mgr sample_ref b 100 0 [bs "dst"] (bs "hello"))
    as (y' & n & H1 & H2 & H3 & _).
  - exact trip_at_rest.
  - apply (bool_decide_unpack _). vm_compute. exact I.
  - vm_compute. discriminate.
  - vm_compute. reflexivity.
  - exact trip_no_object.
  - vm_compute. reflexivity.
  - exact Hr.
  - split; [exact V1|exact V2].
  - exact V3.
  - exists [bs "src"]. split; [reflexivity|]. split; [discriminate|]. split; [exact V5|exact V6].
  - discriminate.
  - split; [reflexivity|]. split; [discriminate|]. split; intros E; pose proof (eq_trans (eq_sym E) V8) as F; discriminate F.
  - exists y', n. split; [exact H1|]. split; [exact H2|exact H3].
Defined.
