(* ===== verification/SystemFindings.v ===== *)
(** * SystemFindings: transfers that lose data and report success

    Each theorem runs the client's commands against the server on a concrete
    machine and states what comes out. *)

From S2P Require Import Prelude Socket Protocol ProtocolProofs Kernel KernelProofs Index Backend BackendProofs ObjectProofs Server ServerProofs Client System SystemProofs.

(** The machine of the round trip with a second file [/src2]. *)
Definition two_file_bstate : bstate :=
  let k := kern (wd trip_bstate) in
  BState (set_kern (set_names (<[[bs "src2"] := File 101]> (names k)) (set_inodes (<[101 := bs "hi"]> (inodes k)) k)) (wd trip_bstate))
    (bm trip_bstate).

(** The client's system calls are answered with [l]. *)
Definition machine (l : list io_event) : system :=
  System (Server two_file_bstate (sample_link true OBJM_PROTO_V1 []) (GStats 0 0 0 0 0 1) [] 0 1)
    (Client (share (Kernel ∅ ∅ ∅ {[0 := 0; 1 := 1; 2 := 2]} l [] 0 [] []) (kern (wd two_file_bstate))) (sample_link false OBJM_PROTO_V1 [])).

(** The contents of a file of the root directory, as the client sees it. *)
Definition contents_of (name : string) (y : system) : option (list byte) :=
  n ← names (cl_k (sy_c y)) !! [bs name];
  match n with File i => inodes (cl_k (sy_c y)) !! i | Dir => None end.

Definition outcome_of {A B} (f : system -> B) (x : outcome system A) : option (A * B) :=
  match x with Ret a y => Some (a, f y) | _ => None end.

(** A [put] of an existing URI is served as a GET: the server opens the old
    file without truncating it, so after storing "hello" and then "hi" under the
    same URI, with 0 returned both times, [get] brings back "hillo". *)
Theorem put_over_existing_merges_contents :
  outcome_of (contents_of "dst")
    ((r1 ← put_command (bs "/q") (bs "/src"); r2 ← put_command (bs "/q") (bs "/src2"); r3 ← get_command (bs "/q") (bs "/dst");
      mret (r1, r2, r3)) (machine [])) = Some ((0, 0, 0), Some (bs "hillo")).
Proof. vm_compute. reflexivity. Qed.

(** A short [write] in the copy loop is not repeated: of the five bytes of the
    source two are stored, and [put] returns 0. *)
Theorem short_write_loses_data :
  outcome_of (contents_of "dst")
    ((r1 ← put_command (bs "/q") (bs "/src"); r2 ← get_command (bs "/q") (bs "/dst"); mret (r1, r2))
       (machine [IoPartial 8; IoPartial 8; IoPartial 2])) = Some ((0, 0), Some (bs "he")).
Proof. vm_compute. reflexivity. Qed.

(** A [read] that fails ends the copy loop like the end of the file: nothing is
    stored, and [put] returns 0. *)
Theorem read_error_taken_for_end_of_file :
  outcome_of (contents_of "dst")
    ((r1 ← put_command (bs "/q") (bs "/src"); r2 ← get_command (bs "/q") (bs "/dst"); mret (r1, r2))
       (machine [IoPartial 8; IoFail])) = Some ((0, 0), Some []).
Proof. vm_compute. reflexivity. Qed.
