(* ===== verification/Storage.v ===== *)
(** * Storage: the object store of lib/storage

    [storage.c] and the types of [storage.h]: a dictionary from URIs to slots of a
    fixed array, each with a backing file, a descriptor that is opened on demand
    and an optional memory mapping.  A chain of the hash table is the list of its
    [hash_entry]s from the head on: entries are only ever put in front and freed
    together.  The array is a map from indexes to the slots that differ from the
    zeroed memory of [calloc].  The lock and [errno] are not represented. *)

From S2P Require Import Prelude Socket Kernel.

(** ** Types *)

Record hash_entry := HashEntry { he_hash : Z; he_slot_index : Z }.

Record object_slot := ObjectSlot {
  os_uri : list byte;            (* the C string in [char uri[1024]] *)
  os_backing_path : list byte;
  os_cache_path : list byte;
  os_backing_fd : Z;
  os_cache_mmap : Z;             (* an address; 0 is NULL *)
  os_size : Z;
  os_hits : Z;
  os_in_use : bool
}.

Record object_storage := ObjectStorage {
  sg_backing_dir : list byte;
  sg_cache_dir : list byte;
  sg_cache_limit : Z;
  sg_cached_bytes : Z;
  sg_objects : gmap Z object_slot;
  sg_capacity : Z;
  sg_count : Z;
  sg_hash_table : gmap Z (list hash_entry);
  sg_hash_size : Z
}.

Record storage_config_t := StorageConfig {
  sc_backing_dir : option (list byte);
  sc_cache_dir : option (list byte);
  sc_cache_limit : Z;
  sc_hash_size : Z
}.

Record object_info_t := ObjectInfo { oi_uri : list byte; oi_size : Z; oi_hits : Z; oi_is_cached : bool }.

(** What [calloc] leaves in a slot: descriptor 0, no mapping. *)
Definition zero_slot : object_slot := ObjectSlot [] [] [] 0 0 0 0 false.

(** The process: files and descriptors, its mapped pages (page number to inode
    and page of the file), and the storage ([None]: a NULL handle). *)
Record sstate := SState { sk : kernel; sp : gmap Z (Z * Z); sg : option object_storage }.

Definition onsk {A} (m : M kernel A) : M sstate A := fun s =>
  match m (sk s) with
  | Ret a k => Ret a (SState k (sp s) (sg s))
  | Blocked => Blocked
  | Fault => Fault
  end.

Definition get_sg : M sstate (option object_storage) := fun s => Ret (sg s) s.
Definition upd_sg (f : object_storage -> object_storage) : M sstate () := fun s =>
  match sg s with
  | Some g => Ret () (SState (sk s) (sp s) (Some (f g)))
  | None => Fault
  end.

(** Field updates. *)
Definition set_cached (n : Z) (g : object_storage) : object_storage :=
  ObjectStorage (sg_backing_dir g) (sg_cache_dir g) (sg_cache_limit g) n (sg_objects g) (sg_capacity g) (sg_count g)
    (sg_hash_table g) (sg_hash_size g).
Definition set_objects (o : gmap Z object_slot) (n : Z) (g : object_storage) : object_storage :=
  ObjectStorage (sg_backing_dir g) (sg_cache_dir g) (sg_cache_limit g) (sg_cached_bytes g) o (sg_capacity g) n
    (sg_hash_table g) (sg_hash_size g).
Definition set_table (t : gmap Z (list hash_entry)) (g : object_storage) : object_storage :=
  ObjectStorage (sg_backing_dir g) (sg_cache_dir g) (sg_cache_limit g) (sg_cached_bytes g) (sg_objects g) (sg_capacity g)
    (sg_count g) t (sg_hash_size g).

Definition slot_at (g : object_storage) (i : Z) : object_slot := default zero_slot (sg_objects g !! i).
Definition upd_slot (i : Z) (f : object_slot -> object_slot) : M sstate () :=
  upd_sg (fun g => set_objects (<[i:=f (slot_at g i)]> (sg_objects g)) (sg_count g) g).

Definition set_slot_uri (u : list byte) (s : object_slot) : object_slot :=
  ObjectSlot u (os_backing_path s) (os_cache_path s) (os_backing_fd s) (os_cache_mmap s) (os_size s) (os_hits s) (os_in_use s).
Definition set_slot_path (p : list byte) (s : object_slot) : object_slot :=
  ObjectSlot (os_uri s) p (os_cache_path s) (os_backing_fd s) (os_cache_mmap s) (os_size s) (os_hits s) (os_in_use s).
Definition set_slot_fd (fd : Z) (s : object_slot) : object_slot :=
  ObjectSlot (os_uri s) (os_backing_path s) (os_cache_path s) fd (os_cache_mmap s) (os_size s) (os_hits s) (os_in_use s).
Definition set_slot_mmap (a : Z) (s : object_slot) : object_slot :=
  ObjectSlot (os_uri s) (os_backing_path s) (os_cache_path s) (os_backing_fd s) a (os_size s) (os_hits s) (os_in_use s).
Definition set_slot_size (n : Z) (s : object_slot) : object_slot :=
  ObjectSlot (os_uri s) (os_backing_path s) (os_cache_path s) (os_backing_fd s) (os_cache_mmap s) n (os_hits s) (os_in_use s).
Definition set_slot_hits (n : Z) (s : object_slot) : object_slot :=
  ObjectSlot (os_uri s) (os_backing_path s) (os_cache_path s) (os_backing_fd s) (os_cache_mmap s) (os_size s) n (os_in_use s).
Definition set_slot_used (b : bool) (s : object_slot) : object_slot :=
  ObjectSlot (os_uri s) (os_backing_path s) (os_cache_path s) (os_backing_fd s) (os_cache_mmap s) (os_size s) (os_hits s) b.

(** ** Hashing *)

(** [int c = *uri++]: [char] is signed. *)
Definition char_val (b : byte) : Z := if bz b <? 128 then bz b else bz b - 256.

Definition hash_uri (uri : list byte) : Z :=
  fold_left (fun hash c => u64 (u64 (u64 (Z.shiftl hash 5) + hash) + char_val c)) uri 5381.

Fixpoint chain_slot (g : object_storage) (hash : Z) (uri : list byte) (l : list hash_entry) : option Z :=
  match l with
  | [] => None
  | e :: l =>
      if (he_hash e =? hash) && os_in_use (slot_at g (he_slot_index e)) &&
         bool_decide (os_uri (slot_at g (he_slot_index e)) = uri)
      then Some (he_slot_index e) else chain_slot g hash uri l
  end.

(** The index of the slot. *)
Definition find_slot (g : object_storage) (uri : list byte) : option Z :=
  let hash := hash_uri uri in
  chain_slot g hash uri (default [] (sg_hash_table g !! (hash mod sg_hash_size g))).

Definition add_hash_entry (uri : list byte) (slot_index : Z) : M sstate Z :=
  m ← onsk sys_malloc;
  if negb m then mret (-1)
  else
    _ ← upd_sg (fun g =>
          let hash := hash_uri uri in
          let idx := hash mod sg_hash_size g in
          set_table (<[idx := HashEntry hash slot_index :: default [] (sg_hash_table g !! idx)]> (sg_hash_table g)) g);
    mret 0.

(** ** Operations *)

(** [strncpy(dst, src, n)] into a zeroed array of [n + 1] bytes. *)
Definition strncpy_text (n : nat) (src : list byte) : list byte := take n src.

Definition storage_init (config : option storage_config_t) : M sstate bool :=
  match config with
  | None => mret false
  | Some config =>
      match sc_backing_dir config with
      | None => mret false
      | Some dir =>
          m0 ← onsk sys_malloc;
          if negb m0 then mret false
          else
            m1 ← onsk sys_malloc;
            if negb m1 then mret false
            else
              m2 ← onsk sys_malloc;
              if negb m2 then mret false
              else
                let g := ObjectStorage (strncpy_text 255 dir) (strncpy_text 255 (default [] (sc_cache_dir config)))
                           (sc_cache_limit config) 0 ∅ 10000 0 ∅
                           (if 0 <? sc_hash_size config then sc_hash_size config else 16384) in
                _ ← modify (fun s => SState (sk s) (sp s) (Some g));
                _ ← onsk (sys_mkdir (sg_backing_dir g));
                _ ← (if bool_decide (sg_cache_dir g = []) then mret MkOk else onsk (sys_mkdir (sg_cache_dir g)));
                mret true
      end
  end.

(** [for (i = 0; i < capacity; i++) if (!objects[i].in_use)]. *)
Fixpoint free_slot (n : nat) (i : Z) (g : object_storage) : option Z :=
  match n with
  | O => None
  | S n => if os_in_use (slot_at g i) then free_slot n (i + 1) g else Some i
  end.

(** The slot [storage_put] writes to: the object's own, or a free one that is
    made the object's. *)
Definition put_slot (g : object_storage) (uri : list byte) : M sstate (option Z) :=
  match find_slot g uri with
  | Some i => mret (Some i)
  | None =>
      if sg_capacity g <=? sg_count g then mret None
      else
        match free_slot (Z.to_nat (sg_capacity g)) 0 g with
        | None => mret None
        | Some i =>
            _ ← upd_slot i (set_slot_used true);
            _ ← upd_sg (fun g => set_objects (sg_objects g) (u64 (sg_count g + 1)) g);
            _ ← upd_slot i (set_slot_uri (strncpy_text 1023 uri));
            _ ← add_hash_entry uri i;
            mret (Some i)
        end
  end.

(** [data] is the caller's buffer. *)
Definition storage_put (uri : option (list byte)) (data : option (list byte)) (size : Z) : M sstate Z :=
  g ← get_sg;
  match g, uri, data with
  | Some g, Some uri, Some data =>
      slot ← put_slot g uri;
      match slot with
      | None => mret (-1)
      | Some i =>
          _ ← upd_slot i (set_slot_path (snprintf_text 1024 (sg_backing_dir g ++ bs "/" ++ uri)));
          g' ← (g' ← get_sg; deref g');
          fd ← onsk (sys_open (os_backing_path (slot_at g' i)) O_WRONLY true true);
          if fd <? 0 then mret (-1)
          else
            d ← deref (buf_read data 0 size);
            w ← onsk (sys_fwrite fd d);
            _ ← onsk (sys_close_fd fd);
            match w with
            | inl n =>
                if Z.of_nat n =? size then
                  _ ← upd_slot i (set_slot_size size);
                  _ ← upd_slot i (set_slot_fd (-1));
                  mret 0
                else mret (-1)
            | inr _ => mret (-1)
            end
      end
  | _, _, _ => mret (-1)
  end.

Definition slot_info (s : object_slot) : object_info_t :=
  ObjectInfo (os_uri s) (os_size s) (os_hits s) (negb (os_cache_mmap s =? 0)).

Definition storage_get_fd (uri : option (list byte)) : M sstate (Z * option object_info_t) :=
  g ← get_sg;
  match g, uri with
  | Some g, Some uri =>
      match find_slot g uri with
      | None => mret (-1, None)
      | Some i =>
          let slot := slot_at g i in
          ok ← (if os_backing_fd slot <? 0 then
                  fd ← onsk (sys_open (os_backing_path slot) O_RDONLY false false);
                  _ ← upd_slot i (set_slot_fd fd);
                  mret (0 <=? fd)
                else mret true);
          if negb ok then mret (-1, None)
          else
            _ ← upd_slot i (fun s => set_slot_hits (u64 (os_hits s + 1)) s);
            g' ← (g' ← get_sg; deref g');
            fd ← onsk (sys_dup (os_backing_fd (slot_at g' i)));
            mret (fd, Some (slot_info (slot_at g' i)))
      end
  | _, _ => mret (-1, None)
  end.

(** ** Memory maps *)

Definition PAGE_SIZE : Z := 4096.

Fixpoint map_pages (p i : Z) (off : Z) (n : nat) (m : gmap Z (Z * Z)) : gmap Z (Z * Z) :=
  match n with
  | O => m
  | S n => <[p := (i, off)]> (map_pages (p + 1) i (off + 1) n m)
  end.

Fixpoint unmap_pages (p : Z) (n : nat) (m : gmap Z (Z * Z)) : gmap Z (Z * Z) :=
  match n with
  | O => m
  | S n => delete p (unmap_pages (p + 1) n m)
  end.

Definition page_count (len : Z) : Z := (len + (PAGE_SIZE - 1)) / PAGE_SIZE.

(** [munmap] of the pages the range touches; no pages for length 0 (EINVAL). *)
Definition sys_munmap (addr len : Z) : M sstate () :=
  modify (fun s => SState (sk s) (unmap_pages (addr / PAGE_SIZE) (Z.to_nat (page_count len)) (sp s)) (sg s)).

Section Mmap.
(** Where the kernel puts a mapping of so many pages. *)
Variable pick : gmap Z (Z * Z) -> Z -> Z.

(** [mmap(NULL, len, PROT_READ, MAP_PRIVATE, fd, 0)]; 0 stands for MAP_FAILED. *)
Definition sys_mmap (len fd : Z) : M sstate Z :=
  r ← onsk refused;
  s ← get;
  match ofd_of (sk s) fd with
  | Some (_, Ofd (Some i) _ true _) =>
      if (r : bool) || (len =? 0) then mret 0
      else
        let n := page_count len in
        let p := pick (sp s) n in
        _ ← put (SState (sk s) (map_pages p i 0 (Z.to_nat n) (sp s)) (sg s));
        mret (p * PAGE_SIZE)
  | _ => mret 0
  end.

Definition storage_get_mmap (uri : option (list byte)) : M sstate (Z * option Z) :=
  g ← get_sg;
  match g, uri with
  | Some g, Some uri =>
      match find_slot g uri with
      | None => mret (0, None)
      | Some i =>
          let slot := slot_at g i in
          _ ← (if (os_cache_mmap slot =? 0) && negb (bool_decide (sg_cache_dir g = [])) &&
                  (u64 (sg_cached_bytes g + os_size slot) <=? sg_cache_limit g) then
                 fd ← onsk (sys_open (os_backing_path slot) O_RDONLY false false);
                 if 0 <=? fd then
                   a ← sys_mmap (os_size slot) fd;
                   _ ← upd_slot i (set_slot_mmap a);
                   _ ← (if a =? 0 then mret ()
                        else upd_sg (fun g => set_cached (u64 (sg_cached_bytes g + os_size slot)) g));
                   onsk (sys_close_fd fd)
                 else mret ()
               else mret ());
          _ ← upd_slot i (fun s => set_slot_hits (u64 (os_hits s + 1)) s);
          g' ← (g' ← get_sg; deref g');
          mret (os_cache_mmap (slot_at g' i), Some (os_size (slot_at g' i)))
      end
  | _, _ => mret (0, None)
  end.
End Mmap.

Definition storage_get_info (uri : option (list byte)) (info : bool) : M sstate (Z * option object_info_t) :=
  g ← get_sg;
  match g, uri with
  | Some g, Some uri =>
      if negb info then mret (-1, None)
      else match find_slot g uri with
           | None => mret (-1, None)
           | Some i => mret (0, Some (slot_info (slot_at g i)))
           end
  | _, _ => mret (-1, None)
  end.

Definition storage_remove (uri : option (list byte)) : M sstate Z :=
  g ← get_sg;
  match g, uri with
  | Some g, Some uri =>
      match find_slot g uri with
      | None => mret (-1)
      | Some i =>
          let slot := slot_at g i in
          _ ← (if 0 <=? os_backing_fd slot then onsk (sys_close_fd (os_backing_fd slot)) else mret ());
          _ ← (if os_cache_mmap slot =? 0 then mret ()
               else _ ← sys_munmap (os_cache_mmap slot) (os_size slot);
                    upd_sg (fun g => set_cached (u64 (sg_cached_bytes g - os_size slot)) g));
          _ ← onsk (sys_unlink (os_backing_path slot));
          _ ← (if bool_decide (os_cache_path slot = []) then mret 0 else onsk (sys_unlink (os_cache_path slot)));
          _ ← upd_slot i (set_slot_used false);
          _ ← upd_sg (fun g => set_objects (sg_objects g) (u64 (sg_count g - 1)) g);
          mret 0
      end
  | _, _ => mret (-1)
  end.

Fixpoint sum_hits (n : nat) (i : Z) (hits : Z) (g : object_storage) : Z :=
  match n with
  | O => hits
  | S n => sum_hits n (i + 1) (if os_in_use (slot_at g i) then u64 (hits + os_hits (slot_at g i)) else hits) g
  end.

(** The number of objects, the cached bytes and the total number of hits. *)
Definition storage_get_stats : M sstate (Z * option (Z * Z * Z)) :=
  g ← get_sg;
  match g with
  | None => mret (-1, None)
  | Some g => mret (0, Some (sg_count g, sg_cached_bytes g, sum_hits (Z.to_nat (sg_capacity g)) 0 0 g))
  end.

Fixpoint cleanup_slots (n : nat) (i : Z) (g : object_storage) : M sstate () :=
  match n with
  | O => mret ()
  | S n =>
      let slot := slot_at g i in
      _ ← (if os_in_use slot then
             _ ← (if 0 <=? os_backing_fd slot then onsk (sys_close_fd (os_backing_fd slot)) else mret ());
             (if os_cache_mmap slot =? 0 then mret () else sys_munmap (os_cache_mmap slot) (os_size slot))
           else mret ());
      cleanup_slots n (i + 1) g
  end.

Definition storage_cleanup : M sstate () :=
  g ← get_sg;
  match g with
  | None => mret ()
  | Some g =>
      _ ← cleanup_slots (Z.to_nat (sg_capacity g)) 0 g;
      modify (fun s => SState (sk s) (sp s) None)
  end.
