(* ===== verification/StorageProofs.v ===== *)
(** * StorageProofs: the object store is a map from URIs to contents *)

From S2P Require Import Prelude Socket Kernel KernelProofs Storage.

(** ** The representation *)

Abbreviation contents := (gmap (list byte) (list byte)).

(** The file of object [u] below the backing directory. *)
Definition backing_path (g : object_storage) (u : list byte) : list byte := sg_backing_dir g ++ bs "/" ++ u.

(** The URIs the store handles faithfully: names of files in the backing
    directory that fit its path buffer. *)
Definition uri_ok (dir : list byte) (u : list byte) : Prop :=
  plain_name u /\ (length (dir ++ bs "/" ++ u) <= 1023)%nat.

#[global] Instance uri_ok_dec dir u : Decision (uri_ok dir u).
Proof. unfold uri_ok. apply _. Defined.

(** The descriptor a slot keeps: none, or one open for reading on inode [i]. *)
Definition slot_fd_ok (k : kernel) (fd i : Z) : Prop :=
  fd = -1 \/ 0 <= fd /\ exists o pos, fdtab k !! fd = Some o /\ ofds k !! o = Some (Ofd (Some i) pos true false).

(** Slot [i] is the object [u] with contents [d]. *)
Record slot_ok (k : kernel) (g : object_storage) (D : key) (u : list byte) (i : Z) (d : list byte) : Prop := {
  sl_range : 0 <= i < sg_capacity g;
  sl_used : os_in_use (slot_at g i) = true;
  sl_uri : os_uri (slot_at g i) = u;
  sl_path : os_backing_path (slot_at g i) = backing_path g u;
  sl_size : os_size (slot_at g i) = Z.of_nat (length d);
  sl_name : uri_ok (sg_backing_dir g) u;
  sl_file : exists ino, names k !! child D u = Some (File ino) /\ inodes k !! ino = Some d /\
              slot_fd_ok k (os_backing_fd (slot_at g i)) ino;
  sl_plain : os_cache_mmap (slot_at g i) = 0 /\ os_cache_path (slot_at g i) = []
}.

(** The kernel serves the backing directory [D], which holds no directories. *)
Record ground (k : kernel) (g : object_storage) (D : key) : Prop := {
  gr_fs : fs_ok k;
  gr_willing : willing k;
  gr_dir : dir_at k (sg_backing_dir g) D;
  gr_flat : forall u, names k !! child D u <> Some Dir;
  gr_size : sg_capacity g = 10000 /\ 0 < sg_hash_size g
}.

(** The hash table leads to slot [i] for [u]; there may be outdated entries. *)
Definition indexed (g : object_storage) (u : list byte) (i : Z) : Prop :=
  HashEntry (hash_uri u) i ∈ default [] (sg_hash_table g !! (hash_uri u mod sg_hash_size g)).

(** The store holds exactly the objects [m]; [loc] says in which slots. *)
Record store_rep (k : kernel) (g : object_storage) (D : key) (m : contents) (loc : gmap (list byte) Z) : Prop := {
  sr_ground : ground k g D;
  sr_dom : dom loc =@{gset (list byte)} dom m;
  sr_slots : forall u i d, loc !! u = Some i -> m !! u = Some d -> slot_ok k g D u i d /\ indexed g u i;
  sr_used : forall i, os_in_use (slot_at g i) = true -> exists u, loc !! u = Some i;
  sr_inj : forall u v i, loc !! u = Some i -> loc !! v = Some i -> u = v;
  sr_fds : forall u v i j, loc !! u = Some i -> loc !! v = Some j -> i <> j -> 0 <= os_backing_fd (slot_at g i) ->
             os_backing_fd (slot_at g i) <> os_backing_fd (slot_at g j);
  sr_idle : forall i, os_cache_mmap (slot_at g i) = 0 /\ os_cache_path (slot_at g i) = [];
  sr_count : sg_count g = Z.of_nat (size m)
}.

(** The state of a process with such a store in directory [dir]. *)
Definition holds_objects (s : sstate) (dir : list byte) (D : key) (m : contents) : Prop :=
  exists g loc, sg s = Some g /\ sg_backing_dir g = dir /\ store_rep (sk s) g D m loc.

(** ** Finding slots *)

Lemma chain_slot_Some g h u l i : chain_slot g h u l = Some i ->
  HashEntry h i ∈ l /\ os_in_use (slot_at g i) = true /\ os_uri (slot_at g i) = u.
Proof.
  induction l as [|e l IH]; simpl; [done|].
  destruct (he_hash e =? h) eqn:E1; simpl; [destruct (os_in_use (slot_at g (he_slot_index e))) eqn:E2; simpl; [case_bool_decide as E3|]|].
  - intros [= <-]. apply Z.eqb_eq in E1. subst. split; [destruct e; left|done].
  - intros H. apply IH in H as (? & ?). split; [by right|done].
  - intros H. apply IH in H as (? & ?). split; [by right|done].
  - intros H. apply IH in H as (? & ?). split; [by right|done].
Qed.

Lemma chain_slot_None g h u l i : chain_slot g h u l = None -> HashEntry h i ∈ l ->
  os_in_use (slot_at g i) = true -> os_uri (slot_at g i) <> u.
Proof.
  induction l as [|e l IH]; simpl; [by intros _ ?%elem_of_nil|].
  intros Hn [<-|Hin]%elem_of_cons Hu.
  - simpl in Hn. rewrite Z.eqb_refl, Hu in Hn. simpl in Hn. by case_bool_decide.
  - destruct (_ && _); [done|]. by apply IH.
Qed.

Lemma rep_some k g D m loc u i : store_rep k g D m loc -> loc !! u = Some i -> exists d, m !! u = Some d.
Proof.
  intros H Hl. assert (is_Some (m !! u)) as [d Hd]; [|eauto].
  apply (elem_of_dom (D:=gset (list byte))). rewrite <- (sr_dom _ _ _ _ _ H). apply elem_of_dom. eauto.
Qed.

Lemma find_slot_ok k g D m loc u : store_rep k g D m loc -> find_slot g u = loc !! u.
Proof.
  intros H. unfold find_slot. destruct (chain_slot _ _ _ _) as [i|] eqn:E.
  - apply chain_slot_Some in E as (Hin & Hu & Huri). destruct (sr_used _ _ _ _ _ H i Hu) as [v Hv].
    destruct (rep_some _ _ _ _ _ _ _ H Hv) as [d Hd].
    destruct (sr_slots _ _ _ _ _ H v i d Hv Hd) as [Hok _]. rewrite (sl_uri _ _ _ _ _ _ Hok) in Huri. by subst.
  - destruct (loc !! u) as [i|] eqn:Hl; [|done]. exfalso.
    destruct (rep_some _ _ _ _ _ _ _ H Hl) as [d Hd].
    destruct (sr_slots _ _ _ _ _ H u i d Hl Hd) as [Hok Hin].
    apply (chain_slot_None _ _ _ _ i) in E; [|exact Hin|apply Hok]. apply E. apply Hok.
Qed.

Lemma free_slot_Some n i g j : free_slot n i g = Some j -> i <= j < i + Z.of_nat n /\ os_in_use (slot_at g j) = false.
Proof.
  revert i. induction n as [|n IH]; intros i H; simpl in H; [done|].
  destruct (os_in_use (slot_at g i)) eqn:E; [apply IH in H as [? ?]; split; [lia|done]|]. injection H as <-. split; [lia|done].
Qed.

Lemma free_slot_None n i g : free_slot n i g = None -> forall j, i <= j < i + Z.of_nat n -> os_in_use (slot_at g j) = true.
Proof.
  revert i. induction n as [|n IH]; intros i H j Hj; simpl in H; [lia|].
  destruct (os_in_use (slot_at g i)) eqn:E; [|done]. destruct (decide (j = i)) as [->|]; [done|]. apply (IH _ H). lia.
Qed.

Lemma loc_values k g D m loc : store_rep k g D m loc -> size loc = size m.
Proof. intros H. by rewrite <- !size_dom, (sr_dom _ _ _ _ _ H). Qed.

(** While fewer objects than slots are stored, a slot is free. *)
Lemma free_slot_exists k g D m loc : store_rep k g D m loc -> sg_count g < sg_capacity g ->
  exists i, free_slot (Z.to_nat (sg_capacity g)) 0 g = Some i.
Proof.
  intros H Hc. destruct (free_slot _ _ _) as [i|] eqn:E; [eauto|]. exfalso.
  pose proof (free_slot_None _ _ _ E) as Hall.
  assert (Hsub : seqZ 0 (sg_capacity g) ⊆+ (map_to_list loc).*2).
  { apply NoDup_submseteq; [apply NoDup_seqZ|]. intros j [Hj1 Hj2]%elem_of_seqZ.
    destruct (sr_used _ _ _ _ _ H j (Hall j ltac:(lia))) as [u Hu].
    apply list_elem_of_fmap. exists (u, j). split; [done|]. by apply elem_of_map_to_list. }
  apply submseteq_length in Hsub. rewrite length_seqZ, length_fmap, length_map_to_list in Hsub.
  rewrite (loc_values _ _ _ _ _ H) in Hsub. rewrite (sr_count _ _ _ _ _ H) in Hc. lia.
Qed.

(** There are never more objects than slots. *)
Lemma count_le k g D m loc : store_rep k g D m loc -> sg_count g <= sg_capacity g.
Proof.
  intros H. rewrite (sr_count _ _ _ _ _ H), <- (loc_values _ _ _ _ _ H). rewrite <- length_map_to_list, <- (length_fmap snd).
  assert (Hsub : (map_to_list loc).*2 ⊆+ seqZ 0 (sg_capacity g)).
  { apply NoDup_submseteq.
    - apply NoDup_fmap_2_strong; [|apply NoDup_map_to_list].
      intros [u j] [v j'] Hu%elem_of_map_to_list Hv%elem_of_map_to_list [= <-]. f_equal. by eapply (sr_inj _ _ _ _ _ H).
    - intros j ([u j'] & -> & Hu%elem_of_map_to_list)%list_elem_of_fmap. destruct (rep_some _ _ _ _ _ _ _ H Hu) as [d Hd].
      destruct (sr_slots _ _ _ _ _ H _ _ _ Hu Hd) as [Hok _]. pose proof (sl_range _ _ _ _ _ _ Hok). apply elem_of_seqZ. simpl. lia. }
  apply submseteq_length in Hsub. rewrite length_seqZ in Hsub. destruct (gr_size _ _ _ (sr_ground _ _ _ _ _ H)). lia.
Qed.

Lemma backing_path_resolves k g D u :
  ground k g D -> uri_ok (sg_backing_dir g) u -> resolve k (backing_path g u) = Some (child D u).
Proof.
  intros Hg [Hp Hl]. apply resolve_child; [apply Hg|done|]. unfold PATH_MAX. lia.
Qed.

Lemma snprintf_path g u : uri_ok (sg_backing_dir g) u -> snprintf_text 1024 (backing_path g u) = backing_path g u.
Proof. intros [_ Hl]. unfold snprintf_text. apply take_ge. unfold backing_path. lia. Qed.

(** ** How the representation changes *)

(** [g'] is [g] but for slot [i] and counters, and keeps the index entries. *)
Record slot_changed (i : Z) (g g' : object_storage) : Prop := {
  sc_slots : forall j, j <> i -> slot_at g' j = slot_at g j;
  sc_dir : sg_backing_dir g' = sg_backing_dir g;
  sc_cap : sg_capacity g' = sg_capacity g /\ sg_hash_size g' = sg_hash_size g;
  sc_index : forall u j, indexed g u j -> indexed g' u j
}.

Lemma backing_path_changed i g g' u : slot_changed i g g' -> backing_path g' u = backing_path g u.
Proof. intros H. unfold backing_path. by rewrite (sc_dir _ _ _ H). Qed.

(** A slot stays the object [u] when its file, its descriptor and its description stay. *)
Lemma slot_ok_frame i k k' g g' D u j d :
  slot_changed i g g' -> j <> i -> slot_ok k g D u j d ->
  names k' !! child D u = names k !! child D u ->
  (forall ino, names k !! child D u = Some (File ino) -> inodes k' !! ino = inodes k !! ino) ->
  (forall fd o, 0 <= fd -> fd = os_backing_fd (slot_at g j) -> fdtab k !! fd = Some o -> fdtab k' !! fd = Some o /\ ofds k' !! o = ofds k !! o) ->
  slot_ok k' g' D u j d.
Proof.
  intros Hch Hj [H1 H2 H3 H4 H5 H6 (ino & F1 & F2 & F3) H8] Hn Hi Hf.
  split; rewrite ?(sc_slots _ _ _ Hch j Hj), ?(proj1 (sc_cap _ _ _ Hch)), ?(sc_dir _ _ _ Hch), ?(backing_path_changed _ _ _ _ Hch); try done.
  exists ino. rewrite Hn, (Hi _ F1). split; [done|]. split; [done|].
  destruct F3 as [F3|(F3 & o & pos & F4 & F5)]; [by left|right]. split; [done|]. exists o, pos.
  destruct (Hf _ o F3 eq_refl F4) as [-> ->]. done.
Qed.

Lemma store_rep_put k g g' D m loc u i d rd :
  store_rep k g D m loc -> slot_changed i g g' ->
  loc !! u = Some i \/ loc !! u = None /\ os_in_use (slot_at g i) = false /\ 0 <= i < sg_capacity g ->
  uri_ok (sg_backing_dir g) u ->
  os_in_use (slot_at g' i) = true -> os_uri (slot_at g' i) = u -> os_backing_path (slot_at g' i) = backing_path g u ->
  os_backing_fd (slot_at g' i) = -1 -> os_size (slot_at g' i) = Z.of_nat (length d) ->
  os_cache_mmap (slot_at g' i) = 0 -> os_cache_path (slot_at g' i) = [] ->
  indexed g' u i -> sg_count g' = Z.of_nat (size (<[u:=d]> m)) ->
  store_rep (stored (child D u) d rd k) g' D (<[u:=d]> m) (<[u:=i]> loc).
Proof.
  intros H Hch Hslot Hname U1 U2 U3 U4 U5 U6 U7 Hidx Hcount.
  pose proof (sr_ground _ _ _ _ _ H) as [G1 [G2 G2'] G3 G4 G5].
  destruct (stored_spec (child D u) d rd k G1 (G4 u)) as (S1 & (ino & S2 & S3 & S4 & S5) & S6 & S7 & S8 & S9 & S10 & S11 & S12).
  assert (Hothers : forall v j, loc !! v = Some j -> v <> u -> j <> i).
  { intros v j Hv Hne ->. destruct Hslot as [Hl|(_ & Hl & _)]; [apply Hne; by eapply (sr_inj _ _ _ _ _ H)|].
    destruct (rep_some _ _ _ _ _ _ _ H Hv) as [dv Hdv]. destruct (sr_slots _ _ _ _ _ H v i dv Hv Hdv) as [Hok _].
    rewrite (sl_used _ _ _ _ _ _ Hok) in Hl. done. }
  split.
  - split; [done|split; congruence| | |destruct (sc_cap _ _ _ Hch) as [-> ->]; done].
    + rewrite (sc_dir _ _ _ Hch). by apply (dir_at_names k).
    + intros v. destruct (decide (v = u)) as [->|Hne]; [by rewrite S2|].
      rewrite S6; [apply G4|]. intros E. by apply child_inj in E.
  - rewrite !dom_insert_L. by rewrite (sr_dom _ _ _ _ _ H).
  - intros v j dv Hv Hdv. destruct (decide (v = u)) as [->|Hne].
    + rewrite lookup_insert_eq in Hv. rewrite lookup_insert_eq in Hdv. injection Hv as <-. injection Hdv as <-. split; [|done].
      split; try done; [| |by rewrite (sc_dir _ _ _ Hch)|].
      * rewrite (proj1 (sc_cap _ _ _ Hch)). destruct Hslot as [Hl|(_ & _ & Hr)]; [|done].
        destruct (rep_some _ _ _ _ _ _ _ H Hl) as [d0 Hd0]. apply (sr_slots _ _ _ _ _ H u i d0 Hl Hd0).
      * by rewrite (backing_path_changed _ _ _ _ Hch).
      * exists ino. rewrite U4. split; [done|]. split; [done|by left].
    + rewrite lookup_insert_ne in Hv by done. rewrite lookup_insert_ne in Hdv by done. destruct (sr_slots _ _ _ _ _ H v j dv Hv Hdv) as [Hok Hix].
      split; [|by apply (sc_index _ _ _ Hch)].
      assert (Hc : child D v <> child D u) by (intros E; by apply child_inj in E).
      apply (slot_ok_frame i k _ g); [done|by apply (Hothers v)|done|by apply S6| |].
      * intros n Hn. apply S5. intros E. apply (S4 (child D v) n Hn Hc). congruence.
      * intros fd o Hfd -> Ho. rewrite S9. split; [done|]. apply S8. by apply (fo_fd _ G1 (os_backing_fd (slot_at g j))).
  - intros j Hj. destruct (decide (j = i)) as [->|Hne]; [exists u; by rewrite lookup_insert_eq|].
    rewrite (sc_slots _ _ _ Hch j Hne) in Hj. destruct (sr_used _ _ _ _ _ H j Hj) as [v Hv]. exists v.
    rewrite lookup_insert_ne; [done|]. intros <-. destruct Hslot as [Hl|(Hl & _)]; congruence.
  - intros v w j Hv Hw. destruct (decide (v = u)) as [->|Hv'], (decide (w = u)) as [->|Hw']; try done.
    + rewrite lookup_insert_eq in Hv. rewrite lookup_insert_ne in Hw by done. injection Hv as <-. by apply Hothers in Hw.
    + rewrite lookup_insert_eq in Hw. rewrite lookup_insert_ne in Hv by done. injection Hw as <-. by apply Hothers in Hv.
    + rewrite lookup_insert_ne in Hv by done. rewrite lookup_insert_ne in Hw by done. by eapply (sr_inj _ _ _ _ _ H).
  - intros v w j1 j2 Hv Hw Hne Hfd. destruct (decide (v = u)) as [->|Hv'].
    { rewrite lookup_insert_eq in Hv. injection Hv as <-. lia. }
    rewrite lookup_insert_ne in Hv by done. pose proof (Hothers v j1 Hv Hv') as N1.
    rewrite (sc_slots _ _ _ Hch j1 N1) in *. destruct (decide (w = u)) as [->|Hw'].
    { rewrite lookup_insert_eq in Hw. injection Hw as <-. lia. }
    rewrite lookup_insert_ne in Hw by done. rewrite (sc_slots _ _ _ Hch j2 (Hothers w j2 Hw Hw')).
    by apply (sr_fds _ _ _ _ _ H v w).
  - intros j. destruct (decide (j = i)) as [->|Hne]; [done|]. rewrite (sc_slots _ _ _ Hch j Hne). apply (sr_idle _ _ _ _ _ H).
  - done.
Qed.

(** ** The operations *)

Definition with_slot (i : Z) (x : object_slot) (g : object_storage) : object_storage :=
  set_objects (<[i:=x]> (sg_objects g)) (sg_count g) g.

Lemma slot_at_with i x g : slot_at (with_slot i x g) i = x.
Proof. unfold slot_at, with_slot. simpl. by rewrite lookup_insert_eq. Qed.
Lemma slot_at_with_ne i j x g : j <> i -> slot_at (with_slot i x g) j = slot_at g j.
Proof. intros H. unfold slot_at, with_slot. simpl. by rewrite lookup_insert_ne. Qed.

Lemma with_slot_changed i x g : slot_changed i g (with_slot i x g).
Proof. split; try done. intros j Hj. by apply slot_at_with_ne. Qed.

Lemma slot_changed_trans i g1 g2 g3 : slot_changed i g1 g2 -> slot_changed i g2 g3 -> slot_changed i g1 g3.
Proof.
  intros [A1 A2 [A3 A3'] A4] [B1 B2 [B3 B3'] B4]. split; try congruence.
  - intros j Hj. by rewrite B1, A1.
  - split; congruence.
  - auto.
Qed.

Lemma get_sg_eq k p g : get_sg (SState k p g) = Ret g (SState k p g).
Proof. done. Qed.
Lemma upd_slot_eq i f k p g :
  upd_slot i f (SState k p (Some g)) = Ret () (SState k p (Some (with_slot i (f (slot_at g i)) g))).
Proof. done. Qed.
Lemma upd_sg_eq f k p g : upd_sg f (SState k p (Some g)) = Ret () (SState k p (Some (f g))).
Proof. done. Qed.
Lemma onsk_Ret {A} (m : M kernel A) a k k' p g : m k = Ret a k' -> onsk m (SState k p g) = Ret a (SState k' p g).
Proof. intros H. unfold onsk. simpl. by rewrite H. Qed.

Lemma sys_malloc_ok k : k_oom k = [] -> sys_malloc k = Ret true k.
Proof. intros H. unfold sys_malloc. by rewrite H. Qed.

(** The slot of a new object. *)
Definition claimed (i : Z) (u : list byte) (g : object_storage) : object_storage :=
  let g1 := with_slot i (set_slot_used true (slot_at g i)) g in
  let g2 := set_objects (sg_objects g1) (u64 (sg_count g1 + 1)) g1 in
  let g3 := with_slot i (set_slot_uri u (slot_at g2 i)) g2 in
  let h := hash_uri u mod sg_hash_size g3 in
  set_table (<[h := HashEntry (hash_uri u) i :: default [] (sg_hash_table g3 !! h)]> (sg_hash_table g3)) g3.

Lemma claimed_slot i u g : slot_at (claimed i u g) i = set_slot_uri u (set_slot_used true (slot_at g i)).
Proof.
  unfold claimed, slot_at. simpl. rewrite lookup_insert_eq. simpl. unfold slot_at. simpl. by rewrite lookup_insert_eq.
Qed.

Lemma claimed_changed i u g : slot_changed i g (claimed i u g).
Proof.
  split; try done.
  - intros j Hj. unfold claimed, slot_at. simpl. by rewrite !lookup_insert_ne.
  - intros v j. unfold indexed, claimed. simpl. set (h := hash_uri u mod sg_hash_size g).
    destruct (decide (hash_uri v mod sg_hash_size g = h)) as [->|]; [|by rewrite lookup_insert_ne].
    rewrite lookup_insert_eq. simpl. by right.
Qed.

Lemma claimed_indexed i u g : indexed (claimed i u g) u i.
Proof. unfold indexed, claimed. simpl. rewrite lookup_insert_eq. simpl. left. Qed.

Lemma put_slot_new k p g u i :
  k_oom k = [] -> find_slot g u = None -> sg_count g < sg_capacity g ->
  free_slot (Z.to_nat (sg_capacity g)) 0 g = Some i -> (length u <= 1023)%nat ->
  put_slot g u (SState k p (Some g)) = Ret (Some i) (SState k p (Some (claimed i u g))).
Proof.
  intros Hm Hf Hc Hi Hl. unfold put_slot. rewrite Hf, (proj2 (Z.leb_gt _ _) Hc), Hi.
  run (upd_slot_eq i (set_slot_used true) k p g). rewrite (bind_Ret _ _ _ _ _ (upd_sg_eq _ k p _)).
  run (upd_slot_eq i _ k p _). unfold add_hash_entry.
  rewrite bind_assoc. run (onsk_Ret _ _ _ _ p _ (sys_malloc_ok k Hm)). cbn [negb]. unfold strncpy_text. rewrite take_ge by done. reflexivity.
Qed.

(** The end of a successful [storage_put] into slot [i]. *)
Lemma storage_put_write k p g g1 D m loc u i d :
  store_rep k g D m loc -> slot_changed i g g1 ->
  loc !! u = Some i \/ loc !! u = None /\ os_in_use (slot_at g i) = false /\ 0 <= i < sg_capacity g ->
  uri_ok (sg_backing_dir g) u -> Z.of_nat (length d) <= MAX_RW_COUNT ->
  os_in_use (slot_at g1 i) = true -> os_uri (slot_at g1 i) = u ->
  os_cache_mmap (slot_at g1 i) = 0 -> os_cache_path (slot_at g1 i) = [] ->
  indexed g1 u i -> sg_count g1 = Z.of_nat (size (<[u:=d]> m)) ->
  put_slot g u (SState k p (Some g)) = Ret (Some i) (SState k p (Some g1)) ->
  exists g2, storage_put (Some u) (Some d) (Z.of_nat (length d)) (SState k p (Some g)) =
      Ret 0 (SState (stored (child D u) d false k) p (Some g2)) /\
    sg_backing_dir g2 = sg_backing_dir g /\
    store_rep (stored (child D u) d false k) g2 D (<[u:=d]> m) (<[u:=i]> loc).
Proof.
  intros H Hch Hslot Hname Hl U1 U2 U3 U4 Hidx Hcount Hput.
  pose proof (sr_ground _ _ _ _ _ H) as G.
  destruct (store_file (backing_path g u) false (child D u) d k) as (k1 & k2 & K1 & K2 & K3);
    [apply G|apply G|by apply backing_path_resolves|done|apply G|done|].
  unfold storage_put. run (get_sg_eq k p (Some g)). run Hput. run (upd_slot_eq i _ k p g1).
  fold (backing_path g u). rewrite (snprintf_path g u Hname).
  set (g2 := with_slot i _ g1). rewrite bind_assoc. run (get_sg_eq k p (Some g2)). rewrite deref_bind.
  change (os_backing_path (slot_at g2 i)) with (os_backing_path (slot_at (with_slot i (set_slot_path (backing_path g u) (slot_at g1 i)) g1) i)).
  rewrite slot_at_with. cbn [os_backing_path set_slot_path].
  run (onsk_Ret _ _ _ _ p (Some g2) K1). pose proof (lowest_free_nonneg (fdtab k)) as Hnn.
  rewrite (proj2 (Z.ltb_ge _ _) Hnn). rewrite (buf_read_whole d), deref_bind.
  run (onsk_Ret _ _ _ _ p (Some g2) K2). run (onsk_Ret _ _ _ _ p (Some g2) K3). rewrite Z.eqb_refl.
  run (upd_slot_eq i (set_slot_size (Z.of_nat (length d))) (stored (child D u) d false k) p g2). set (g3 := with_slot i _ g2).
  run (upd_slot_eq i (set_slot_fd (-1)) (stored (child D u) d false k) p g3). set (g4 := with_slot i _ g3).
  exists g4. split; [reflexivity|]. split; [exact (sc_dir _ _ _ Hch)|].
  assert (Hs : slot_at g4 i = set_slot_fd (-1) (set_slot_size (Z.of_nat (length d)) (set_slot_path (backing_path g u) (slot_at g1 i)))).
  { unfold g4. rewrite slot_at_with. unfold g3. rewrite slot_at_with. unfold g2. by rewrite slot_at_with. }
  apply (store_rep_put k g g4 D m loc u i d false); rewrite ?Hs; try done.
  eapply slot_changed_trans; [exact Hch|]. eapply slot_changed_trans; [apply with_slot_changed|].
  eapply slot_changed_trans; apply with_slot_changed.
Qed.

Lemma storage_put_ok s dir D m u d :
  holds_objects s dir D m -> uri_ok dir u -> Z.of_nat (length d) <= MAX_RW_COUNT ->
  is_Some (m !! u) \/ Z.of_nat (size m) < 10000 ->
  exists s', storage_put (Some u) (Some d) (Z.of_nat (length d)) s = Ret 0 s' /\
    holds_objects s' dir D (<[u:=d]> m) /\ fdtab (sk s') = fdtab (sk s).
Proof.
  intros (g & loc & Hg & Hdir & H) Hname Hl Hroom. destruct s as [k p sg0]. simpl in *. subst.
  pose proof (find_slot_ok _ _ _ _ _ u H) as Hf. pose proof (sr_ground _ _ _ _ _ H) as G.
  assert (Hres : forall g2 loc', sg_backing_dir g2 = sg_backing_dir g ->
    store_rep (stored (child D u) d false k) g2 D (<[u:=d]> m) loc' ->
    holds_objects (SState (stored (child D u) d false k) p (Some g2)) (sg_backing_dir g) D (<[u:=d]> m) /\
    fdtab (stored (child D u) d false k) = fdtab k).
  { intros g2 loc' Hd2 H2. split; [by exists g2, loc'|]. apply (stored_spec (child D u) d false k (gr_fs _ _ _ G) (gr_flat _ _ _ G u)). }
  destruct (loc !! u) as [i|] eqn:Hloc.
  - destruct (rep_some _ _ _ _ _ _ _ H Hloc) as [d0 Hd0]. destruct (sr_slots _ _ _ _ _ H u i d0 Hloc Hd0) as [Hok Hidx].
    destruct (storage_put_write k p g g D m loc u i d) as (g2 & Hr & Hd2 & H2); try done; try apply Hok; [by left| |by unfold put_slot; rewrite Hf|].
    + rewrite (sr_count _ _ _ _ _ H). f_equal. rewrite map_size_insert_Some; [done|eauto].
    + eexists. split; [exact Hr|]. by apply (Hres g2 (<[u:=i]> loc)).
  - assert (Hnone : m !! u = None).
    { apply (not_elem_of_dom (D:=gset (list byte))). rewrite <- (sr_dom _ _ _ _ _ H). by apply not_elem_of_dom. }
    destruct Hroom as [[x Hx]|Hroom]; [congruence|].
    assert (Hcap : sg_count g < sg_capacity g) by (rewrite (sr_count _ _ _ _ _ H), (proj1 (gr_size _ _ _ G)); done).
    destruct (free_slot_exists _ _ _ _ _ H Hcap) as [i Hi]. pose proof (free_slot_Some _ _ _ _ Hi) as [Hr Hu].
    destruct (storage_put_write k p g (claimed i u g) D m loc u i d) as (g2 & Hr2 & Hd2 & H2); try done.
    + apply claimed_changed.
    + right. split; [done|]. split; [done|]. rewrite Z2Nat.id in Hr by (destruct (gr_size _ _ _ G) as [-> _]; lia). lia.
    + by rewrite claimed_slot.
    + by rewrite claimed_slot.
    + rewrite claimed_slot. apply (sr_idle _ _ _ _ _ H).
    + rewrite claimed_slot. apply (sr_idle _ _ _ _ _ H).
    + apply claimed_indexed.
    + simpl. rewrite map_size_insert_None by done. rewrite (sr_count _ _ _ _ _ H), u64_small; lia.
    + apply put_slot_new; try done; [apply G|]. destruct Hname as [_ Hn]. rewrite !length_app in Hn. lia.
    + eexists. split; [exact Hr2|]. by apply (Hres g2 (<[u:=i]> loc)).
Qed.

Lemma storage_put_full s dir D m u d n :
  holds_objects s dir D m -> m !! u = None -> 10000 <= Z.of_nat (size m) ->
  storage_put (Some u) (Some d) n s = Ret (-1) s.
Proof.
  intros (g & loc & Hg & Hdir & H) Hm Hfull. destruct s as [k p sg0]. simpl in *. subst.
  unfold storage_put. run (get_sg_eq k p (Some g)). unfold put_slot. rewrite (find_slot_ok _ _ _ _ _ u H).
  destruct (loc !! u) as [i|] eqn:Hl; [destruct (rep_some _ _ _ _ _ _ _ H Hl); congruence|].
  rewrite (sr_count _ _ _ _ _ H), (proj1 (gr_size _ _ _ (sr_ground _ _ _ _ _ H))).
  rewrite (proj2 (Z.leb_le _ _) Hfull). done.
Qed.

(** The slot of [u] gets another descriptor, and the descriptors in use stay. *)
Lemma store_rep_fd k k' g g' D m loc u i d :
  store_rep k g D m loc -> loc !! u = Some i -> m !! u = Some d -> slot_changed i g g' ->
  (exists fd h, slot_at g' i = set_slot_hits h (set_slot_fd fd (slot_at g i))) -> sg_count g' = sg_count g ->
  ground k' g' D -> names k' = names k -> inodes k' = inodes k ->
  (forall v j fd o, loc !! v = Some j -> j <> i -> 0 <= fd -> fd = os_backing_fd (slot_at g j) -> fdtab k !! fd = Some o ->
     fdtab k' !! fd = Some o /\ ofds k' !! o = ofds k !! o) ->
  (forall ino, names k !! child D u = Some (File ino) -> slot_fd_ok k' (os_backing_fd (slot_at g' i)) ino) ->
  (forall v j, loc !! v = Some j -> j <> i -> 0 <= os_backing_fd (slot_at g' i) -> os_backing_fd (slot_at g j) <> os_backing_fd (slot_at g' i)) ->
  store_rep k' g' D m loc.
Proof.
  intros H Hl Hm Hch (fd & h & Hs) Hc G Hn Hi Hold Hnew Hdist. pose proof (sr_ground _ _ _ _ _ H) as G0.
  assert (Hne : forall v j, loc !! v = Some j -> v <> u -> j <> i) by (intros v j Hv N ->; apply N; by eapply (sr_inj _ _ _ _ _ H)).
  split; [done|apply H| | |apply H| | |by rewrite Hc; apply H].
  - intros v j dv Hv Hdv. destruct (sr_slots _ _ _ _ _ H v j dv Hv Hdv) as [Hok Hix]. split; [|by apply (sc_index _ _ _ Hch)].
    destruct (decide (v = u)) as [->|Nv].
    + replace j with i in * by congruence. destruct Hok as [K1 K2 K3 K4 K5 K6 (ino & K7 & K8 & K9) K10].
      split; rewrite ?Hs; try done; [by rewrite (proj1 (sc_cap _ _ _ Hch))|by rewrite (backing_path_changed _ _ _ _ Hch)|by rewrite (sc_dir _ _ _ Hch)|].
      exists ino. rewrite Hn, Hi, <- Hs. auto.
    + apply (slot_ok_frame i k _ g); [done|by apply (Hne v)|done|by rewrite Hn|intros; by rewrite Hi|].
      intros f o Hf -> Ho. apply (Hold v j); [done|by apply (Hne v)|done|done|done].
  - intros j Hj. destruct (decide (j = i)) as [->|N]; [by exists u|]. rewrite (sc_slots _ _ _ Hch j N) in Hj. by apply (sr_used _ _ _ _ _ H).
  - intros v w j1 j2 Hv Hw N Hp. destruct (decide (j1 = i)) as [->|N1].
    + rewrite (sc_slots _ _ _ Hch j2) by done. intros E. by apply (Hdist w j2 Hw ltac:(done) Hp).
    + rewrite (sc_slots _ _ _ Hch j1 N1) in *. destruct (decide (j2 = i)) as [->|N2].
      * destruct (decide (0 <= os_backing_fd (slot_at g' i))); [by apply (Hdist v j1)|lia].
      * rewrite (sc_slots _ _ _ Hch j2 N2). by apply (sr_fds _ _ _ _ _ H v w).
  - intros j. destruct (decide (j = i)) as [->|N]; [rewrite Hs; apply (sr_idle _ _ _ _ _ H)|].
    rewrite (sc_slots _ _ _ Hch j N). apply (sr_idle _ _ _ _ _ H).
Qed.

(** The contents a descriptor gives access to. *)
Definition fd_contents (k : kernel) (fd : Z) : option (list byte) :=
  '(_, e) ← ofd_of k fd; i ← o_ino e; inodes k !! i.

Lemma ground_changed i k k' g g' D : slot_changed i g g' -> ground k g D -> fs_ok k' -> willing k' ->
  names k' = names k -> cwd k' = cwd k -> ground k' g' D.
Proof.
  intros Hch [G1 G2 G3 G4 G5] F1 F2 Hn Hcw. split; try done.
  - rewrite (sc_dir _ _ _ Hch). apply (dir_at_names k); [|done|done]. intros x. unfold is_dir. by rewrite Hn.
  - by rewrite Hn.
  - by destruct (sc_cap _ _ _ Hch) as [-> ->].
Qed.

(** The two steps of [storage_get_fd] before the [dup]: the slot has a
    descriptor [fd] on the object's file. *)
Lemma storage_open_slot k p g D m loc u i d :
  store_rep k g D m loc -> loc !! u = Some i -> m !! u = Some d ->
  exists k1 g1 fd o pos ino,
    (let slot := slot_at g i in
     if os_backing_fd slot <? 0 then
       fd ← onsk (sys_open (os_backing_path slot) O_RDONLY false false);
       _ ← upd_slot i (set_slot_fd fd);
       mret (0 <=? fd)
     else mret true) (SState k p (Some g)) = Ret true (SState k1 p (Some g1)) /\
    store_rep k1 g1 D m loc /\ sg_backing_dir g1 = sg_backing_dir g /\
    (exists h, slot_at g1 i = set_slot_hits h (set_slot_fd fd (slot_at g i))) /\
    0 <= fd /\ fdtab k1 !! fd = Some o /\ ofds k1 !! o = Some (Ofd (Some ino) pos true false) /\ inodes k1 !! ino = Some d /\
    (os_backing_fd (slot_at g i) = -1 -> pos = 0%nat) /\ names k1 = names k /\ cwd k1 = cwd k.
Proof.
  intros H Hl Hm. pose proof (sr_ground _ _ _ _ _ H) as G. destruct (sr_slots _ _ _ _ _ H u i d Hl Hm) as [Hok _].
  destruct Hok as [K1 K2 K3 K4 K5 K6 (ino & K7 & K8 & [K9|(K9 & o & pos & F1 & F2)]) K10].
  - cbv zeta. rewrite K9. change (-1 <? 0) with true. cbv iota. rewrite K4.
    assert (Ho : sys_open (backing_path g u) O_RDONLY false false k =
      Ret (lowest_free (fdtab k)) (with_ofd (Ofd (Some ino) 0 true false) k)).
    { apply (open_existing _ O_RDONLY (child D u) ino); [apply G|by apply backing_path_resolves|done|done]. }
    pose proof (lowest_free_nonneg (fdtab k)) as Hnn. set (fd := lowest_free (fdtab k)) in *.
    run (onsk_Ret _ _ _ _ p (Some g) Ho). set (k1 := with_ofd _ k). run (upd_slot_eq i (set_slot_fd fd) k1 p g).
    exists k1, (with_slot i (set_slot_fd fd (slot_at g i)) g), fd, (fresh_id (ofds k)), 0%nat, ino.
    rewrite (proj2 (Z.leb_le _ _) Hnn). split; [done|].
    assert (Hch : slot_changed i g (with_slot i (set_slot_fd fd (slot_at g i)) g)) by apply with_slot_changed.
    assert (Hslot : exists h, slot_at (with_slot i (set_slot_fd fd (slot_at g i)) g) i = set_slot_hits h (set_slot_fd fd (slot_at g i)))
      by (exists (os_hits (slot_at g i)); by rewrite slot_at_with).
    split; [|split; [done|split; [done|]]].
    + apply (store_rep_fd k k1 g _ D m loc u i d); try done.
      * destruct Hslot as [h Hs]. eauto.
      * apply (ground_changed i k k1 g); try done; [apply fs_ok_with_ofd; [apply G|]; intros j [= <-]; eauto|apply G].
      * intros v j f o _ _ _ _ Hf. simpl. split.
        -- rewrite lookup_insert_ne; [done|]. intros <-. by rewrite lowest_free_None in Hf.
        -- destruct (fo_fd _ (gr_fs _ _ _ G) _ _ Hf) as [e He]. rewrite lookup_insert_ne; [done|]. intros <-. by rewrite fresh_id_None in He.
      * intros ino' Hino'. rewrite slot_at_with. right. split; [done|]. exists (fresh_id (ofds k)), 0%nat.
        simpl. rewrite !lookup_insert_eq. split; [done|]. congruence.
      * intros v j Hv Nj _. rewrite slot_at_with. cbn [os_backing_fd set_slot_fd]. intros E.
        destruct (rep_some _ _ _ _ _ _ _ H Hv) as [dv Hdv]. destruct (sr_slots _ _ _ _ _ H v j dv Hv Hdv) as [Hokv _].
        destruct (sl_file _ _ _ _ _ _ Hokv) as (n & _ & _ & [Hm1|(_ & o' & pos' & Hf & _)]); [lia|].
        rewrite E in Hf. unfold fd in Hf. by rewrite lowest_free_None in Hf.
    + split; [done|]. simpl. rewrite !lookup_insert_eq. done.
  - cbv zeta. rewrite (proj2 (Z.ltb_ge _ _) K9). exists k, g, (os_backing_fd (slot_at g i)), o, pos, ino.
    split; [done|]. split; [done|]. split; [done|]. split; [exists (os_hits (slot_at g i)); by destruct (slot_at g i)|].
    repeat (split; [done|]). split; [lia|done].
Qed.

Lemma store_rep_hits k g D m loc u i d h :
  store_rep k g D m loc -> loc !! u = Some i -> m !! u = Some d ->
  store_rep k (with_slot i (set_slot_hits h (slot_at g i)) g) D m loc.
Proof.
  intros H Hl Hm. pose proof (sr_ground _ _ _ _ _ H) as G. pose proof (with_slot_changed i (set_slot_hits h (slot_at g i)) g) as Hch.
  destruct (sr_slots _ _ _ _ _ H u i d Hl Hm) as [Hok _].
  apply (store_rep_fd k k g _ D m loc u i d); rewrite ?slot_at_with; try done.
  - exists (os_backing_fd (slot_at g i)), h. by destruct (slot_at g i).
  - apply (ground_changed i k k g); try done; apply G.
  - intros ino Hino. destruct (sl_file _ _ _ _ _ _ Hok) as (n & K1 & _ & K3). simpl. by replace ino with n by congruence.
  - intros v j Hv Hj Hp E. simpl in *. apply (sr_fds _ _ _ _ _ H u v i j); [done|done|congruence|done|congruence].
Qed.

(** The file of [u] has not been opened since it was stored. *)
Definition unopened (s : sstate) (u : list byte) : Prop :=
  forall g i, sg s = Some g -> find_slot g u = Some i -> os_backing_fd (slot_at g i) = -1.

Lemma storage_get_fd_ok s dir D m u d :
  holds_objects s dir D m -> m !! u = Some d ->
  exists fd h s1 s', storage_get_fd (Some u) s = Ret (fd, Some (ObjectInfo u (Z.of_nat (length d)) h false)) s1 /\
    fd_contents (sk s1) fd = Some d /\ onsk (sys_close_fd fd) s1 = Ret () s' /\ holds_objects s' dir D m /\
    0 <= fd /\ willing (sk s1) /\ names (sk s1) = names (sk s) /\ cwd (sk s1) = cwd (sk s) /\
    exists o ino pos, ofd_of (sk s1) fd = Some (o, Ofd (Some ino) pos true false) /\ inodes (sk s1) !! ino = Some d /\
      (unopened s u -> pos = 0%nat).
Proof.
  intros (g & loc & Hg & Hdir & H) Hm. destruct s as [k p sg0]. simpl in *. subst.
  assert (is_Some (loc !! u)) as [i Hl].
  { apply (elem_of_dom (D:=gset (list byte))). rewrite (sr_dom _ _ _ _ _ H). apply elem_of_dom. eauto. }
  destruct (storage_open_slot k p g D m loc u i d H Hl Hm) as (k1 & g1 & fd & o & pos & ino & Ho & H1 & Hd1 & (h & Hs) & Hfd & Hf & He & Hi & Hpos & Hnm & Hcw).
  unfold storage_get_fd. run (get_sg_eq k p (Some g)). rewrite (find_slot_ok _ _ _ _ _ u H), Hl. cbv zeta in Ho |- *.
  run Ho. cbn [negb]. run (upd_slot_eq i (fun s => set_slot_hits (u64 (os_hits s + 1)) s) k1 p g1).
  set (h' := u64 _). pose proof (store_rep_hits k1 g1 D m loc u i d h' H1 Hl Hm) as H2.
  assert (Hs2 : slot_at (with_slot i (set_slot_hits h' (slot_at g1 i)) g1) i = set_slot_hits h' (set_slot_fd fd (slot_at g i)))
    by (rewrite slot_at_with, Hs; done).
  assert (Hd2 : sg_backing_dir (with_slot i (set_slot_hits h' (slot_at g1 i)) g1) = sg_backing_dir g) by done.
  revert Hs2 Hd2 H2. generalize (with_slot i (set_slot_hits h' (slot_at g1 i)) g1). intros g2 Hs2 Hd2 H2.
  rewrite bind_assoc. run (get_sg_eq k1 p (Some g2)). rewrite deref_bind. rewrite Hs2. cbn [os_backing_fd set_slot_hits set_slot_fd].
  pose proof (dup_ok fd o k1 (proj1 (gr_willing _ _ _ (sr_ground _ _ _ _ _ H1))) Hf) as Hdup. run (onsk_Ret _ _ _ _ p (Some g2) Hdup).
  destruct (sr_slots _ _ _ _ _ H u i d Hl Hm) as [Hok _].
  eexists (lowest_free (fdtab k1)), h', _, (SState k1 p (Some g2)). split; [|split; [|split; [|split; [|split]]]].
  - unfold slot_info. cbn. rewrite (sl_uri _ _ _ _ _ _ Hok), (sl_size _ _ _ _ _ _ Hok), (proj1 (sl_plain _ _ _ _ _ _ Hok)). reflexivity.
  - unfold fd_contents, ofd_of. simpl. rewrite lookup_insert_eq. simpl. rewrite He. simpl. done.
  - unfold onsk. simpl. rewrite delete_lowest_free. by destruct k1.
  - by exists g2, loc.
  - apply lowest_free_nonneg.
  - simpl. split; [apply (sr_ground _ _ _ _ _ H1)|]. split; [done|]. split; [done|]. exists o, ino, pos.
    split; [unfold ofd_of; simpl; rewrite lookup_insert_eq; simpl; by rewrite He|]. split; [done|].
    intros Hun. apply Hpos, (Hun g i); [done|]. by rewrite (find_slot_ok _ _ _ _ _ u H).
Qed.

Lemma find_slot_absent s dir D m u : holds_objects s dir D m -> m !! u = None ->
  exists g, sg s = Some g /\ find_slot g u = None.
Proof.
  intros (g & loc & Hg & Hdir & H) Hm. exists g. split; [done|]. rewrite (find_slot_ok _ _ _ _ _ u H).
  destruct (loc !! u) as [i|] eqn:Hl; [|done]. destruct (rep_some _ _ _ _ _ _ _ H Hl). congruence.
Qed.

Lemma storage_get_fd_absent s dir D m u : holds_objects s dir D m -> m !! u = None -> storage_get_fd (Some u) s = Ret (-1, None) s.
Proof.
  intros H Hm. destruct (find_slot_absent _ _ _ _ _ H Hm) as (g & Hg & Hf). destruct s as [k p sg0]. simpl in Hg. subst.
  unfold storage_get_fd. run (get_sg_eq k p (Some g)). by rewrite Hf.
Qed.

Lemma storage_get_info_ok s dir D m u : holds_objects s dir D m ->
  exists r, storage_get_info (Some u) true s = Ret r s /\
    match m !! u with
    | Some d => exists h, r = (0, Some (ObjectInfo u (Z.of_nat (length d)) h false))
    | None => r = (-1, None)
    end.
Proof.
  intros H. destruct (m !! u) as [d|] eqn:Hm.
  - destruct H as (g & loc & Hg & Hdir & H). destruct s as [k p sg0]. simpl in *. subst.
    assert (is_Some (loc !! u)) as [i Hl].
    { apply (elem_of_dom (D:=gset (list byte))). rewrite (sr_dom _ _ _ _ _ H). apply elem_of_dom. eauto. }
    destruct (sr_slots _ _ _ _ _ H u i d Hl Hm) as [Hok _].
    unfold storage_get_info. run (get_sg_eq k p (Some g)). cbn [negb]. rewrite (find_slot_ok _ _ _ _ _ u H), Hl.
    eexists. split; [reflexivity|]. eexists. unfold slot_info.
    rewrite (sl_uri _ _ _ _ _ _ Hok), (sl_size _ _ _ _ _ _ Hok), (proj1 (sl_plain _ _ _ _ _ _ Hok)). reflexivity.
  - destruct (find_slot_absent _ _ _ _ _ H Hm) as (g & Hg & Hf). destruct s as [k p sg0]. simpl in Hg. subst.
    unfold storage_get_info. run (get_sg_eq k p (Some g)). cbn [negb]. rewrite Hf. by eexists.
Qed.

(** The kernel after the slot's descriptor has been closed and its file removed. *)
Definition removed (fd : Z) (d : key) (k : kernel) : kernel :=
  let k1 := if 0 <=? fd then set_fdtab (delete fd (fdtab k)) k else k in
  set_names (delete d (names k1)) k1.

Lemma removed_spec fd d i k : fs_ok k -> names k !! d = Some (File i) ->
  fs_ok (removed fd d k) /\ names (removed fd d k) = delete d (names k) /\ (forall x, is_dir (removed fd d k) x = is_dir k x) /\
  inodes (removed fd d k) = inodes k /\ ofds (removed fd d k) = ofds k /\
  (forall f, 0 <= f -> f <> fd -> fdtab (removed fd d k) !! f = fdtab k !! f) /\
  sched (removed fd d k) = sched k /\ k_oom (removed fd d k) = k_oom k /\ cwd (removed fd d k) = cwd k.
Proof.
  intros Hk Hd. unfold removed. destruct (0 <=? fd) eqn:E; simpl.
  - split; [apply (fs_ok_unlink d (set_fdtab (delete fd (fdtab k)) k)); by apply fs_ok_close|]. split; [done|]. split; [intros x; apply (is_dir_del_file k d i Hd x)|].
    split; [done|]. split; [done|]. split; [|done]. intros f _ Hf. by rewrite lookup_delete_ne.
  - split; [by apply fs_ok_unlink|]. split; [done|]. split; [intros x; apply (is_dir_del_file k d i Hd x)|]. done.
Qed.

Lemma store_rep_remove k g g' D m loc u i d :
  store_rep k g D m loc -> loc !! u = Some i -> m !! u = Some d -> slot_changed i g g' ->
  slot_at g' i = set_slot_used false (slot_at g i) -> sg_count g' = sg_count g - 1 ->
  store_rep (removed (os_backing_fd (slot_at g i)) (child D u) k) g' D (delete u m) (delete u loc).
Proof.
  intros H Hl Hm Hch Hs Hc. pose proof (sr_ground _ _ _ _ _ H) as [G1 [G2 G2'] G3 G4 G5].
  destruct (sr_slots _ _ _ _ _ H u i d Hl Hm) as [Hok _]. destruct (sl_file _ _ _ _ _ _ Hok) as (ino & F1 & F2 & F3).
  set (fd := os_backing_fd (slot_at g i)) in *.
  destruct (removed_spec fd (child D u) ino k G1 F1) as (R1 & R2 & R3 & R4 & R5 & R6 & R7 & R8 & R9).
  assert (Hne : forall v j, loc !! v = Some j -> v <> u -> j <> i) by (intros v j Hv N ->; apply N; by eapply (sr_inj _ _ _ _ _ H)).
  split.
  - split; [done|split; congruence| | |by destruct (sc_cap _ _ _ Hch) as [-> ->]].
    + rewrite (sc_dir _ _ _ Hch). by apply (dir_at_names k).
    + intros v. rewrite R2. intros [_ Hv]%lookup_delete_Some. by apply (G4 v).
  - rewrite !dom_delete_L. by rewrite (sr_dom _ _ _ _ _ H).
  - intros v j dv [Nv Hv]%lookup_delete_Some [_ Hdv]%lookup_delete_Some.
    destruct (sr_slots _ _ _ _ _ H v j dv Hv Hdv) as [Hokv Hix]. split; [|by apply (sc_index _ _ _ Hch)].
    pose proof (Hne v j Hv ltac:(done)) as Nj.
    apply (slot_ok_frame i k _ g); [done|done|done| |by intros; rewrite R4|].
    + rewrite R2. apply lookup_delete_ne. intros E. by apply child_inj in E.
    + intros f o Hf -> Ho. rewrite R5. split; [|done]. rewrite R6; [done|done|].
      by apply (sr_fds _ _ _ _ _ H v u j i).
  - intros j Hj. destruct (decide (j = i)) as [->|N]; [by rewrite Hs in Hj|]. rewrite (sc_slots _ _ _ Hch j N) in Hj.
    destruct (sr_used _ _ _ _ _ H j Hj) as [v Hv]. exists v. rewrite lookup_delete_ne; [done|]. intros <-. congruence.
  - intros v w j [_ Hv]%lookup_delete_Some [_ Hw]%lookup_delete_Some. by eapply (sr_inj _ _ _ _ _ H).
  - intros v w j1 j2 [Nv Hv]%lookup_delete_Some [Nw Hw]%lookup_delete_Some.
    rewrite (sc_slots _ _ _ Hch j1) by (by apply (Hne v)). rewrite (sc_slots _ _ _ Hch j2) by (by apply (Hne w)).
    by apply (sr_fds _ _ _ _ _ H v w).
  - intros j. destruct (decide (j = i)) as [->|N]; [rewrite Hs; apply (sr_idle _ _ _ _ _ H)|].
    rewrite (sc_slots _ _ _ Hch j N). apply (sr_idle _ _ _ _ _ H).
  - rewrite Hc, (sr_count _ _ _ _ _ H). rewrite map_size_delete_Some by eauto.
    assert (size m <> 0)%nat by (rewrite map_size_non_empty_iff; intros ->; done). lia.
Qed.

Lemma storage_remove_ok s dir D m u d :
  holds_objects s dir D m -> m !! u = Some d ->
  exists s', storage_remove (Some u) s = Ret 0 s' /\ holds_objects s' dir D (delete u m).
Proof.
  intros (g & loc & Hg & Hdir & H) Hm. destruct s as [k p sg0]. simpl in *. subst.
  assert (is_Some (loc !! u)) as [i Hl].
  { apply (elem_of_dom (D:=gset (list byte))). rewrite (sr_dom _ _ _ _ _ H). apply elem_of_dom. eauto. }
  pose proof (sr_ground _ _ _ _ _ H) as G. destruct (sr_slots _ _ _ _ _ H u i d Hl Hm) as [Hok _].
  destruct (sl_file _ _ _ _ _ _ Hok) as (ino & F1 & F2 & F3). destruct (sl_plain _ _ _ _ _ _ Hok) as [P1 P2].
  set (fd := os_backing_fd (slot_at g i)) in *. set (k1 := if 0 <=? fd then set_fdtab (delete fd (fdtab k)) k else k).
  assert (Hk1 : (if 0 <=? fd then onsk (sys_close_fd fd) else mret ()) (SState k p (Some g)) = Ret () (SState k1 p (Some g)))
    by (unfold k1; by destruct (0 <=? fd)).
  assert (Hun : sys_unlink (backing_path g u) k1 = Ret 0 (removed fd (child D u) k)).
  { unfold removed. fold k1. apply (unlink_file _ _ ino); [| |done|].
    - destruct (gr_willing _ _ _ G). unfold k1. by destruct (0 <=? fd).
    - rewrite (resolve_names k); [by apply backing_path_resolves; [|apply Hok]| |]; unfold k1; by destruct (0 <=? fd).
    - unfold k1. by destruct (0 <=? fd). }
  unfold storage_remove. run (get_sg_eq k p (Some g)). rewrite (find_slot_ok _ _ _ _ _ u H), Hl. cbv zeta. fold fd.
  run Hk1. rewrite P1. cbn [Z.eqb]. rewrite (bind_ret_l ()).
  rewrite (sl_path _ _ _ _ _ _ Hok). run (onsk_Ret _ _ _ _ p (Some g) Hun). rewrite P2.
  set (k2 := removed fd (child D u) k). rewrite bool_decide_eq_true_2 by done.
  rewrite (bind_ret_l 0).
  run (upd_slot_eq i (set_slot_used false) k2 p g). rewrite (bind_Ret _ _ _ _ _ (upd_sg_eq _ k2 p _)).
  set (g1 := with_slot i (set_slot_used false (slot_at g i)) g). set (g2 := set_objects (sg_objects g1) (u64 (sg_count g1 - 1)) g1).
  eexists. split; [reflexivity|]. exists g2, (delete u loc). split; [done|]. split; [done|].
  apply (store_rep_remove k g g2 D m loc u i d); try done.
  - apply (slot_changed_trans i g g1); [apply with_slot_changed|]. by split.
  - change (slot_at g2 i) with (slot_at g1 i). apply slot_at_with.
  - change (sg_count g2) with (u64 (sg_count g - 1)). rewrite (sr_count _ _ _ _ _ H).
    assert (size m <> 0)%nat by (rewrite map_size_non_empty_iff; intros ->; done).
    assert (Z.of_nat (size m) <= 10000).
    { rewrite <- (sr_count _ _ _ _ _ H), <- (proj1 (gr_size _ _ _ G)). by apply (count_le k g D m loc). }
    apply u64_small. lia.
Qed.

Lemma storage_remove_absent s dir D m u : holds_objects s dir D m -> m !! u = None -> storage_remove (Some u) s = Ret (-1) s.
Proof.
  intros H Hm. destruct (find_slot_absent _ _ _ _ _ H Hm) as (g & Hg & Hf). destruct s as [k p sg0]. simpl in Hg. subst.
  unfold storage_remove. run (get_sg_eq k p (Some g)). by rewrite Hf.
Qed.

Lemma storage_get_stats_ok s dir D m : holds_objects s dir D m ->
  exists c h, storage_get_stats s = Ret (0, Some (Z.of_nat (size m), c, h)) s.
Proof.
  intros (g & loc & Hg & Hdir & H). unfold storage_get_stats. destruct s as [k p sg0]. simpl in *. subst.
  run (get_sg_eq k p (Some g)). rewrite (sr_count _ _ _ _ _ H). by do 2 eexists.
Qed.

(** ** Starting up *)

(** Path [dir] names the directory [D], which has only files in it and which
    [storage_init] may still have to create. *)
Record dir_ready (k : kernel) (dir : list byte) (D : key) : Prop := {
  dr_path : chomp dir = dir /\ (length dir <= 255)%nat;
  dr_resolve : resolve k dir = Some D;
  dr_node : is_dir k D = true \/ node_at k D = None;
  dr_flat : forall u, names k !! child D u <> Some Dir
}.

Lemma walk_mono k k' : (forall d, is_dir k d = true -> is_dir k' d = true) ->
  forall cs cur D, walk k cur cs = Some D -> walk k' cur cs = Some D.
Proof.
  intros Hd cs. induction cs as [|c cs IH]; intros cur D H; simpl in *; [done|].
  destruct (is_dir k cur) eqn:E; [|done]. rewrite (Hd _ E). repeat case_decide; try done; by apply IH.
Qed.

Lemma resolve_mono k k' p D : (forall d, is_dir k d = true -> is_dir k' d = true) -> cwd k' = cwd k ->
  resolve k p = Some D -> resolve k' p = Some D.
Proof. intros Hd Hc. unfold resolve. destruct p; repeat case_match; try done; rewrite ?Hc; by apply walk_mono. Qed.

(** The kernel after [mkdir] in [storage_init]. *)
Definition with_dir (D : key) (k : kernel) : kernel :=
  match node_at k D with None => set_names (<[D:=Dir]> (names k)) k | Some _ => k end.

Lemma with_dir_spec k dir D : willing k -> dir_ready k dir D ->
  (exists r, sys_mkdir dir k = Ret r (with_dir D k)) /\ dir_at (with_dir D k) dir D /\
  (fs_ok k -> fs_ok (with_dir D k)) /\ willing (with_dir D k) /\ (forall u, names (with_dir D k) !! child D u <> Some Dir).
Proof.
  intros [W1 W2] [[C1 C2] Hr Hn Hf]. unfold with_dir, sys_mkdir, mbind, M_bind, refused, get. rewrite W1, C1, Hr.
  destruct (node_at k D) as [n|] eqn:En.
  - destruct Hn as [Hd|]; [|done]. split; [by eexists|]. split; [done|]. done.
  - assert (HD : D <> []) by (intros ->; done).
    assert (Hmono : forall d, is_dir k d = true -> is_dir (set_names (<[D:=Dir]> (names k)) k) d = true).
    { intros [|c d]; [done|]. unfold is_dir. simpl. intros Hd%bool_decide_eq_true_1. apply bool_decide_eq_true_2.
      destruct (decide (c :: d = D)) as [->|]; [by rewrite lookup_insert_eq|by rewrite lookup_insert_ne]. }
    rewrite node_at_ne in En by done. split; [by eexists|]. split; [split; [by apply (resolve_mono k)|]|split; [|split; [done|]]].
    + destruct D as [|c D]; [done|]. unfold is_dir. simpl. by rewrite lookup_insert_eq, bool_decide_eq_true_2.
    + intros [F1 F2 F3 F4]. split; simpl; try done.
      * intros d1 d2 i [[_ ?]|[_ A]]%lookup_insert_Some [[_ ?]|[_ B]]%lookup_insert_Some; try done. eauto.
      * intros d i [[_ ?]|[_ A]]%lookup_insert_Some; [done|eauto].
    + intros u. simpl. rewrite lookup_insert_ne; [apply Hf|]. unfold child. intros E. apply (f_equal length) in E. simpl in E. lia.
Qed.

(** The configuration of a store without cache directory. *)
Definition plain_config (dir : list byte) (hash_size : Z) : storage_config_t := StorageConfig (Some dir) None 0 hash_size.

Lemma storage_init_ok k p g0 dir D n : fs_ok k -> willing k -> dir_ready k dir D ->
  exists s, storage_init (Some (plain_config dir n)) (SState k p g0) = Ret true s /\ holds_objects s dir D ∅.
Proof.
  intros Hk Hw Hd. destruct (with_dir_spec k dir D Hw Hd) as ([r Hr] & D1 & D2 & D3 & D4).
  destruct (dr_path _ _ _ Hd) as [C1 C2]. pose proof (sys_malloc_ok k (proj2 Hw)) as Hmal.
  unfold storage_init, plain_config. cbn [sc_backing_dir sc_cache_dir sc_cache_limit sc_hash_size].
  do 3 (run (onsk_Ret _ _ _ _ p g0 Hmal); cbn [negb]). cbv zeta. unfold strncpy_text. rewrite (take_ge dir) by done. simpl (take 255 (default [] None)).
  set (g := ObjectStorage _ _ _ _ _ _ _ _ _). 
  assert (Hset : modify (fun s => SState (sk s) (sp s) (Some g)) (SState k p g0) = Ret () (SState k p (Some g))) by done.
  run Hset. simpl (sg_backing_dir g).
  run (onsk_Ret _ _ _ _ p (Some g) Hr). eexists. split; [reflexivity|]. exists g, ∅. split; [done|]. split; [done|].
  assert (Hz : forall i, slot_at g i = zero_slot) by done.
  split; try done.
  split; [by apply D2|done|done|done|]. simpl. split; [done|]. destruct (0 <? n) eqn:E; lia.
Qed.

(** ** Refinement of a finite map *)

Module Store.

Inductive op :=
| Put (uri data : list byte)     (* storage_put *)
| Get (uri : list byte)          (* storage_get_fd, and the caller reads the file and closes the descriptor *)
| Info (uri : list byte)         (* storage_get_info *)
| Remove (uri : list byte)       (* storage_remove *)
| Stats.                         (* storage_get_stats *)

Inductive result :=
| Code (rc : Z)
| Object (data : option (list byte * Z))   (* contents and reported size *)
| Size (n : option Z).

(** One call with what the caller sees of it. *)
Definition call (o : op) : M sstate result :=
  match o with
  | Put u d => r ← storage_put (Some u) (Some d) (Z.of_nat (length d)); mret (Code r)
  | Get u =>
      r ← storage_get_fd (Some u);
      match r with
      | (fd, Some info) =>
          s ← get;
          _ ← onsk (sys_close_fd fd);
          mret (Object (d ← fd_contents (sk s) fd; Some (d, oi_size info)))
      | (_, None) => mret (Object None)
      end
  | Info u => r ← storage_get_info (Some u) true; mret (Size (oi_size <$> r.2))
  | Remove u => r ← storage_remove (Some u); mret (Code r)
  | Stats => r ← storage_get_stats; mret (Size ((fun x => x.1.1) <$> r.2))
  end.

Fixpoint calls (l : list op) : M sstate (list result) :=
  match l with
  | [] => mret []
  | o :: l => r ← call o; rs ← calls l; mret (r :: rs)
  end.

(** The same calls on a finite map of at most 10000 objects. *)
Definition spec (o : op) (m : contents) : result * contents :=
  match o with
  | Put u d => if bool_decide (m !! u = None) && (10000 <=? Z.of_nat (size m)) then (Code (-1), m) else (Code 0, <[u:=d]> m)
  | Get u => (Object ((fun d => (d, Z.of_nat (length d))) <$> m !! u), m)
  | Info u => (Size ((fun d : list byte => Z.of_nat (length d)) <$> m !! u), m)
  | Remove u => match m !! u with Some _ => (Code 0, delete u m) | None => (Code (-1), m) end
  | Stats => (Size (Some (Z.of_nat (size m))), m)
  end.

Fixpoint specs (l : list op) (m : contents) : list result * contents :=
  match l with
  | [] => ([], m)
  | o :: l => let '(r, m') := spec o m in let '(rs, m'') := specs l m' in (r :: rs, m'')
  end.

(** What the caller has to respect: objects are stored under plain file names
    and written with one [write]. *)
Definition op_ok (dir : list byte) (o : op) : Prop :=
  match o with
  | Put u d => uri_ok dir u /\ Z.of_nat (length d) <= MAX_RW_COUNT
  | _ => True
  end.

#[global] Instance op_ok_dec dir o : Decision (op_ok dir o).
Proof. destruct o; simpl; apply _. Defined.

Lemma call_ok s dir D m o : holds_objects s dir D m -> op_ok dir o ->
  exists s', call o s = Ret (spec o m).1 s' /\ holds_objects s' dir D (spec o m).2.
Proof.
  intros H Ho. destruct o as [u d|u|u|u|]; simpl in Ho |- *.
  - destruct Ho as [Hu Hl]. destruct (bool_decide (m !! u = None) && (10000 <=? Z.of_nat (size m))) eqn:E.
    + apply andb_true_iff in E as [E1%bool_decide_eq_true_1 E2%Z.leb_le].
      run (storage_put_full s dir D m u d _ H E1 E2). by eexists.
    + destruct (storage_put_ok s dir D m u d H Hu Hl) as (s' & Hr & Hs & _).
      { apply andb_false_iff in E as [E%bool_decide_eq_false_1|E%Z.leb_gt]; [left; by apply not_eq_None_Some|by right]. }
      run Hr. by eexists.
  - destruct (m !! u) as [d|] eqn:Hm; simpl.
    + destruct (storage_get_fd_ok s dir D m u d H Hm) as (fd & h & s1 & s' & H1 & H2 & H3 & H4 & _).
      run H1. rewrite (bind_Ret get _ _ s1 s1 eq_refl). run H3. rewrite H2. by eexists.
    + run (storage_get_fd_absent s dir D m u H Hm). by eexists.
  - destruct (storage_get_info_ok s dir D m u H) as (r & H1 & H2). run H1.
    destruct (m !! u) as [d|]; [destruct H2 as [h ->]|rewrite H2]; by eexists.
  - destruct (m !! u) as [d|] eqn:Hm.
    + destruct (storage_remove_ok s dir D m u d H Hm) as (s' & H1 & H2). run H1. by eexists.
    + run (storage_remove_absent s dir D m u H Hm). by eexists.
  - destruct (storage_get_stats_ok s dir D m H) as (c & h & H1). run H1. by eexists.
Qed.

Lemma calls_ok dir D l : forall s m, holds_objects s dir D m -> Forall (op_ok dir) l ->
  exists s', calls l s = Ret (specs l m).1 s' /\ holds_objects s' dir D (specs l m).2.
Proof.
  induction l as [|o l IH]; intros s m H Hl; simpl; [by eexists|]. inversion Hl as [|o' l' Ho Hl']; subst.
  destruct (call_ok s dir D m o H Ho) as (s1 & H1 & H2). destruct (spec o m) as [r m1]. simpl in *.
  destruct (IH s1 m1 H2 Hl') as (s2 & H3 & H4). destruct (specs l m1) as [rs m2]. simpl in *.
  run H1. run H3. by eexists.
Qed.

(** C7: an object store opened on a directory of plain files (or on one it can
    create) behaves, for every sequence of [storage_put], [storage_get_fd],
    [storage_get_info], [storage_remove] and [storage_get_stats] calls on objects
    with plain file names of at most 2147479552 bytes, as a finite map from URIs
    to contents that holds at most 10000 objects: every descriptor handed out is
    open on exactly the object's contents, and no call faults or blocks. *)
Theorem storage_refines_map k p dir D n l :
  fs_ok k -> willing k -> dir_ready k dir D -> Forall (op_ok dir) l ->
  exists s s', storage_init (Some (plain_config dir n)) (SState k p None) = Ret true s /\
    calls l s = Ret (specs l ∅).1 s' /\ holds_objects s' dir D (specs l ∅).2.
Proof.
  intros Hk Hw Hd Hl. destruct (storage_init_ok k p None dir D n Hk Hw Hd) as (s & H1 & H2).
  destruct (calls_ok dir D l s ∅ H2 Hl) as (s' & H3 & H4). eauto.
Qed.

(** A process with a terminal on its first three descriptors and an empty
    directory [/d]. *)
Definition fresh_kernel : kernel :=
  Kernel {[ [bs "d"] := Dir ]} ∅ {[0 := Ofd None 0 true true]} {[0 := 0; 1 := 0; 2 := 0]} [] [] 0 [] [].

Lemma fresh_kernel_ok : fs_ok fresh_kernel /\ willing fresh_kernel /\ dir_ready fresh_kernel (bs "/d") [bs "d"].
Proof.
  split; [|split; [done|]].
  - split; unfold fresh_kernel; simpl.
    + intros d1 d2 i [_ H]%lookup_singleton_Some. done.
    + intros d i [_ H]%lookup_singleton_Some. done.
    + intros o e i [_ <-]%lookup_singleton_Some. done.
    + intros fd o H. assert (o = 0) as ->; [|vm_compute; eauto].
      apply lookup_insert_Some in H as [[_ <-]|[_ H]]; [done|].
      apply lookup_insert_Some in H as [[_ <-]|[_ H]]; [done|]. apply lookup_singleton_Some in H as [_ <-]. done.
  - split; [split; [by vm_compute|simpl; lia]|by vm_compute|left; by vm_compute|].
    intros u. unfold fresh_kernel, child. simpl. by rewrite lookup_singleton_ne.
Qed.

Definition sample_calls : list op :=
  [Put (bs "a") (bs "xyz"); Put (bs "b") (bs "q"); Get (bs "a"); Put (bs "a") (bs "zz"); Get (bs "a"); Remove (bs "b"); Get (bs "b");
   Remove (bs "b"); Info (bs "a"); Stats].

Lemma storage_refines_map_witness :
  (specs sample_calls ∅).1 = [Code 0; Code 0; Object (Some (bs "xyz", 3)); Code 0; Object (Some (bs "zz", 2)); Code 0; Object None;
    Code (-1); Size (Some 2); Size (Some 1)] /\
  exists s s', storage_init (Some (plain_config (bs "/d") 0)) (SState fresh_kernel ∅ None) = Ret true s /\
    calls sample_calls s = Ret (specs sample_calls ∅).1 s' /\ holds_objects s' (bs "/d") [bs "d"] (specs sample_calls ∅).2.
Proof.
  split; [vm_compute; reflexivity|].
  apply (storage_refines_map fresh_kernel ∅ (bs "/d") [bs "d"] 0 sample_calls);
    [apply fresh_kernel_ok|apply fresh_kernel_ok|apply fresh_kernel_ok|].
  apply (bool_decide_unpack _). vm_compute. exact I.
Defined.

End Store.
