(* ===== verification/StorageFindings.v ===== *)
(** * StorageFindings: where the object store of lib/storage departs from its interface

    Each theorem runs the operations of [storage.c] on a concrete process and
    states what its caller observes. *)

From S2P Require Import Prelude Socket Kernel KernelProofs Storage StorageProofs.

Definition start : sstate := SState Store.fresh_kernel ∅ None.

Definition observed {A} (x : outcome sstate A) : option A := match x with Ret a _ => Some a | _ => None end.

(** The kernel answers the next calls of the process with these events. *)
Definition answers (l : list io_event) : M sstate () := onsk (modify (set_sched l)).

(** A configuration with a cache directory. *)
Definition caching_config : storage_config_t := StorageConfig (Some (bs "/d")) (Some (bs "/c")) 4096 0.

(** The kernel puts a mapping at page 16. *)
Definition at_page_16 : gmap Z (Z * Z) -> Z -> Z := fun _ _ => 16.

Definition failed_first_put : M sstate (Z * Z * option Z * Z * option Z) :=
  _ ← storage_init (Some (plain_config (bs "/d") 0));
  _ ← answers [IoFail];
  r ← storage_put (Some (bs "a")) (Some (bs "xy")) 2;
  f ← storage_get_fd (Some (bs "a"));
  s ← get;
  q ← storage_remove (Some (bs "a"));
  s' ← get;
  mret (r, f.1, fdtab (sk s) !! f.1, q, fdtab (sk s') !! 0).

(** When the first [storage_put] of an object cannot open the file, it returns -1
    but the object stays in the dictionary with the descriptor 0 of [calloc]:
    [storage_get_fd] then hands out a duplicate of standard input (description
    0), and [storage_remove] closes standard input. *)
Theorem failed_put_serves_stdin :
  observed (failed_first_put start) = Some (-1, 3, Some 0, 0, None).
Proof. vm_compute. reflexivity. Qed.

Definition reused_slot_mapping : M sstate (Z * option Z * (Z * option Z) * option (Z * Z)) :=
  _ ← storage_init (Some caching_config);
  _ ← storage_put (Some (bs "a")) (Some (bs "x")) 1;
  a ← storage_get_mmap at_page_16 (Some (bs "a"));
  _ ← storage_remove (Some (bs "a"));
  _ ← storage_put (Some (bs "b")) (Some (bs "yz")) 2;
  b ← storage_get_mmap at_page_16 (Some (bs "b"));
  s ← get;
  mret (a, b, sp s !! 16).

(** [storage_remove] unmaps an object but keeps the address in the slot: the
    next object in that slot is served at an address where nothing is mapped. *)
Theorem reused_slot_serves_unmapped_page :
  observed (reused_slot_mapping start) = Some (65536, Some 1, (65536, Some 2), None).
Proof. vm_compute. reflexivity. Qed.

Definition resized_cached_object : M sstate (Z * option (Z * Z * Z)) :=
  _ ← storage_init (Some caching_config);
  _ ← storage_put (Some (bs "a")) (Some (bs "x")) 1;
  _ ← storage_get_mmap at_page_16 (Some (bs "a"));
  _ ← storage_put (Some (bs "a")) (Some (bs "yz")) 2;
  _ ← storage_remove (Some (bs "a"));
  storage_get_stats.

(** Storing a larger object over a mapped one changes the size that
    [storage_remove] later subtracts: the count of cached bytes wraps around to
    2^64 - 1 and the cache limit is exceeded for good. *)
Theorem cached_bytes_wrap_around :
  observed (resized_cached_object start) = Some (0, Some (0, 18446744073709551615, 0)).
Proof. vm_compute. reflexivity. Qed.

Definition two_readers : M sstate ((list byte + errno) * (list byte + errno)) :=
  _ ← storage_init (Some (plain_config (bs "/d") 0));
  _ ← storage_put (Some (bs "a")) (Some (bs "xyz")) 3;
  x ← storage_get_fd (Some (bs "a"));
  y ← storage_get_fd (Some (bs "a"));
  dx ← onsk (sys_fread x.1 10);
  dy ← onsk (sys_fread y.1 10);
  mret (dx, dy).

(** The descriptors [storage_get_fd] hands out share one file position: after
    the first reader has read the object, the second reads nothing. *)
Theorem readers_share_position :
  observed (two_readers start) = Some (inl (bs "xyz"), inl []).
Proof. vm_compute. reflexivity. Qed.

Definition overwritten_open_object : M sstate (option Z) :=
  _ ← storage_init (Some (plain_config (bs "/d") 0));
  _ ← storage_put (Some (bs "a")) (Some (bs "xyz")) 3;
  x ← storage_get_fd (Some (bs "a"));
  _ ← onsk (sys_close_fd x.1);
  _ ← storage_put (Some (bs "a")) (Some (bs "x")) 1;
  _ ← storage_remove (Some (bs "a"));
  _ ← storage_cleanup;
  s ← get;
  mret (fdtab (sk s) !! 3).

(** [storage_put] over an object whose file is open forgets the descriptor: it
    is still open after the object has been removed and the store cleaned up. *)
Theorem overwrite_leaks_descriptor :
  observed (overwritten_open_object start) = Some (Some 2).
Proof. vm_compute. reflexivity. Qed.
