(* ===== verification/Transport.v ===== *)
(** * Transport: descriptor passing and the transports of lib/fdpass and lib/transport

    [fdpass.c] and [transport.c]: one handle type over Unix, TCP and UDP sockets.
    A process has its kernel state, one connected stream (the [endpoint] of the
    handle in use) and the datagrams that wait for it and that it has sent.
    Whether [socket], [bind], [listen], [connect] and [accept] succeed is up to
    the kernel's schedule; the addresses in use are not represented.  Resolving
    host names is the C library's business and a parameter. *)

From S2P Require Import Prelude Socket Kernel.

(** ** State *)

(** An IPv4 address and port. *)
Record addr := Addr { a_ip : Z; a_port : Z }.

Record tio := Tio {
  io_k : kernel;
  io_e : endpoint;
  dg_in : list (addr * list byte);
  dg_out : list (addr * list byte)
}.

Definition set_io_k (k : kernel) (s : tio) : tio := Tio k (io_e s) (dg_in s) (dg_out s).

Definition onik {A} (m : M kernel A) : M tio A := fun s =>
  match m (io_k s) with
  | Ret a k => Ret a (set_io_k k s)
  | Blocked => Blocked
  | Fault => Fault
  end.

(** A call on the stream: the descriptors and the allocator are the process's. *)
Definition onie {A} (m : M endpoint A) : M tio A := fun s =>
  match m (set_oom (k_oom (io_k s)) (set_fdt (fdtab (io_k s)) (io_e s))) with
  | Ret a e => Ret a (Tio (set_k_oom (oom e) (set_fdtab (fdt e) (io_k s))) e (dg_in s) (dg_out s))
  | Blocked => Blocked
  | Fault => Fault
  end.

(** ** Descriptor passing *)

(** What one [recvmsg] with room for [n] bytes and a control message takes from
    the queue: it stops behind the first byte that carries a descriptor. *)
Fixpoint gather (n : nat) (r : list cell) : list byte * option Z * list cell :=
  match n, r with
  | S n, Cell b None :: r => let '(d, o, r) := gather n r in (b :: d, o, r)
  | S _, Cell b (Some o) :: r => ([b], Some o, r)
  | _, _ => ([], None, r)
  end.

(** The bytes and the descriptor that came with them. *)
Definition sys_recvmsg (n : nat) : M endpoint (list byte * option Z + errno) := fun s =>
  let go m w :=
    match rx s with
    | [] => if peer_closed s then Ret (inl ([], None)) (set_rx [] w s) else Blocked
    | _ =>
        let '(d, o, r) := gather m (rx s) in
        match o with
        | None => Ret (inl (d, None)) (set_rx r w s)
        | Some o =>
            let fd := lowest_free (fdt s) in
            Ret (inl (d, Some fd)) (set_fdt (<[fd:=o]> (fdt s)) (set_rx r w s))
        end
    end in
  match rd_sched s with
  | [] => go n []
  | IoPartial k :: w => go (Nat.min (S k) n) w
  | IoEintr :: w => Ret (inr EINTR) (set_rx (rx s) w s)
  | IoFail :: w => Ret (inr EIO) (set_rx (rx s) w s)
  end.

(** [dest_path] names the peer of a datagram socket; a connected stream has none. *)
Definition fdpass_send (fd : Z) (operation_type : byte) : M tio Z :=
  r ← onie (sys_sendmsg_fd operation_type fd);
  match r with
  | inl _ => mret 0
  | inr _ => mret (-1)
  end.

(** The descriptor (-1: none) and the operation byte. *)
Definition fdpass_recv : M tio (Z * option byte) :=
  r ← onie (sys_recvmsg 256);
  match r with
  | inr _ | inl ([], _) => mret (-1, None)
  | inl (b :: _, fd) => mret (default (-1) fd, Some b)
  end.

(** ** Transports *)

Inductive transport_type_t := TRANSPORT_UNIX | TRANSPORT_TCP | TRANSPORT_UDP.

#[global] Instance transport_type_eq_dec : EqDecision transport_type_t.
Proof. solve_decision. Defined.

(** The union of a configuration with its tag; [None] is a NULL string. *)
Inductive transport_config_t :=
| UnixCfg (path : option (list byte))
| TcpCfg (host : option (list byte)) (port : Z)
| UdpCfg (host : option (list byte)) (port max_packet_size : Z).

Definition config_type (c : transport_config_t) : transport_type_t :=
  match c with UnixCfg _ => TRANSPORT_UNIX | TcpCfg _ _ => TRANSPORT_TCP | UdpCfg _ _ _ => TRANSPORT_UDP end.

Record transport_caps_t := TransportCaps { supports_fdpass : bool; is_stream : bool; is_connection_oriented : bool }.

(** [tr_peer] is [peer_addr] when [peer_addr_len] is positive. *)
Record transport := Transport {
  tr_type : transport_type_t;
  tr_fd : Z;
  tr_is_server : bool;
  tr_peer : option addr;
  tr_max_packet_size : Z
}.

(** ** Sockets *)

(** A socket is a description without a file. *)
Definition sys_socket : M kernel Z :=
  r ← refused;
  if r : bool then mret (-1) else install (Ofd None 0 true true).

(** [bind], [listen] and [connect]. *)
Definition sys_attach : M kernel Z :=
  r ← refused;
  mret (if r : bool then -1 else 0).

(** The descriptor of the accepted connection. *)
Definition sys_accept : M kernel Z := sys_socket.

Section Resolver.
(** Numeric addresses and host names, as the C library reads them. *)
Variables inet_pton gethostbyname : list byte -> option Z.

Definition host_ip (host : list byte) : option Z :=
  match inet_pton host with Some a => Some a | None => gethostbyname host end.

(** Give up on a socket. *)
Definition abandon_socket (sock : Z) : M kernel Z := _ ← sys_close_fd sock; mret (-1).

Definition create_unix_server (path : option (list byte)) : M kernel Z :=
  sock ← sys_socket;
  if sock <? 0 then mret (-1)
  else
    path ← deref path;
    _ ← sys_unlink path;
    b ← sys_attach;
    if b <? 0 then abandon_socket sock
    else
      l ← sys_attach;
      if l <? 0 then abandon_socket sock else mret sock.

(** The address to bind to: every one for no host or ["*"]. *)
Definition server_ip (host : option (list byte)) : option Z :=
  match host with
  | Some h => if bool_decide (h = bs "*") then Some 0 else host_ip h
  | None => Some 0
  end.

Definition create_tcp_server (host : option (list byte)) (port : Z) : M kernel Z :=
  sock ← sys_socket;
  if sock <? 0 then mret (-1)
  else
    match server_ip host with
    | None => abandon_socket sock
    | Some _ =>
        b ← sys_attach;
        if b <? 0 then abandon_socket sock
        else
          l ← sys_attach;
          if l <? 0 then abandon_socket sock else mret sock
    end.

Definition create_udp_server (host : option (list byte)) (port : Z) : M kernel Z :=
  sock ← sys_socket;
  if sock <? 0 then mret (-1)
  else
    match server_ip host with
    | None => abandon_socket sock
    | Some _ =>
        b ← sys_attach;
        if b <? 0 then abandon_socket sock else mret sock
    end.

Definition packet_size (n : Z) : Z := if 0 <? n then n else 8192.

Definition transport_server_create (config : option transport_config_t) : M kernel (option transport) :=
  match config with
  | None => mret None
  | Some config =>
      m ← sys_malloc;
      if negb m then mret None
      else
        fd ← match config with
             | UnixCfg path => create_unix_server path
             | TcpCfg host port => create_tcp_server host port
             | UdpCfg host port _ => create_udp_server host port
             end;
        let size := match config with UdpCfg _ _ n => packet_size n | _ => 0 end in
        if fd <? 0 then mret None
        else mret (Some (Transport (config_type config) fd true None size))
  end.

Definition transport_accept (server : option transport) : M kernel (option transport) :=
  match server with
  | None => mret None
  | Some server =>
      if negb (tr_is_server server) then mret None
      else if decide (tr_type server = TRANSPORT_UDP) then mret None
      else
        client_fd ← sys_accept;
        if client_fd <? 0 then mret None
        else
          m ← sys_malloc;
          if negb m then _ ← sys_close_fd client_fd; mret None
          else mret (Some (Transport (tr_type server) client_fd false None 0))
  end.

(** The handle of a connected client, or nothing and the socket closed. *)
Definition connect_socket (fd : Z) (t : transport) : M kernel (option transport) :=
  c ← sys_attach;
  if c <? 0 then _ ← sys_close_fd fd; mret None else mret (Some t).

Definition transport_client_connect (config : option transport_config_t) : M kernel (option transport) :=
  match config with
  | None => mret None
  | Some config =>
      m ← sys_malloc;
      if negb m then mret None
      else
        fd ← sys_socket;
        if fd <? 0 then mret None
        else
          match config with
          | UnixCfg path =>
              _ ← deref path;
              connect_socket fd (Transport TRANSPORT_UNIX fd false None 0)
          | TcpCfg host port =>
              host ← deref host;
              match host_ip host with
              | None => _ ← sys_close_fd fd; mret None
              | Some _ => connect_socket fd (Transport TRANSPORT_TCP fd false None 0)
              end
          | UdpCfg host port n =>
              host ← deref host;
              match host_ip host with
              | None => _ ← sys_close_fd fd; mret None
              | Some ip => mret (Some (Transport TRANSPORT_UDP fd false (Some (Addr ip port)) (packet_size n)))
              end
          end
  end.
End Resolver.

(** ** Transfers *)

(** The longest datagram over IPv4; [sendto] refuses a longer one (EMSGSIZE). *)
Definition udp_max_payload : Z := 65507.

(** The number of bytes sent, or -1. *)
Definition transport_send (t : option transport) (data : option (list byte)) : M tio Z :=
  match t, data with
  | Some t, Some data =>
      if decide (tr_type t = TRANSPORT_UDP) then
        match tr_peer t with
        | None => mret (-1)
        | Some a =>
            r ← onik refused;
            if (r : bool) || (udp_max_payload <? Z.of_nat (length data)) then mret (-1)
            else _ ← modify (fun s => Tio (io_k s) (io_e s) (dg_in s) (dg_out s ++ [(a, data)]));
                 mret (Z.of_nat (length data))
        end
      else
        r ← onie (sys_write data);
        match r with
        | inl n => mret (Z.of_nat n)
        | inr _ => mret (-1)
        end
  | _, _ => mret (-1)
  end.

(** [recvfrom]: the next datagram, cut to the buffer, and its sender. *)
Definition sys_recvfrom (len : nat) : M tio (option (addr * list byte)) := fun s =>
  match refused (io_k s) with
  | Ret true k => Ret None (set_io_k k s)
  | Ret false k =>
      match dg_in s with
      | [] => Blocked
      | (a, d) :: q => Ret (Some (a, take len d)) (Tio k (io_e s) q (dg_out s))
      end
  | Blocked => Blocked
  | Fault => Fault
  end.

Definition set_peer (a : addr) (t : transport) : transport :=
  Transport (tr_type t) (tr_fd t) (tr_is_server t) (Some a) (tr_max_packet_size t).

(** The bytes received ([None]: -1) and the handle, whose peer a datagram sets; a
    failing call leaves the address as it is but marks it as present. *)
Definition transport_recv (t : option transport) (len : nat) : M tio (option (list byte) * option transport) :=
  match t with
  | None => mret (None, None)
  | Some t =>
      if decide (tr_type t = TRANSPORT_UDP) then
        r ← sys_recvfrom len;
        match r with
        | None => mret (None, Some (set_peer (default (Addr 0 0) (tr_peer t)) t))
        | Some (a, d) => mret (Some d, Some (set_peer a t))
        end
      else
        r ← onie (sys_read len);
        match r with
        | inl d => mret (Some d, Some t)
        | inr _ => mret (None, Some t)
        end
  end.

Definition transport_send_fd (t : option transport) (fd : Z) (metadata : byte) : M tio Z :=
  match t with
  | None => mret (-1)
  | Some t => if negb (bool_decide (tr_type t = TRANSPORT_UNIX)) then mret (-1) else fdpass_send fd metadata
  end.

Definition transport_recv_fd (t : option transport) : M tio (Z * option byte) :=
  match t with
  | None => mret (-1, None)
  | Some t => if negb (bool_decide (tr_type t = TRANSPORT_UNIX)) then mret (-1, None) else fdpass_recv
  end.

Definition transport_get_fd (t : option transport) : Z := match t with Some t => tr_fd t | None => -1 end.

Definition transport_get_caps (t : option transport) (caps : bool) : Z * option transport_caps_t :=
  match t with
  | None => (-1, None)
  | Some t =>
      if negb caps then (-1, None)
      else (0, Some match tr_type t with
                    | TRANSPORT_UNIX => TransportCaps true true true
                    | TRANSPORT_TCP => TransportCaps false true true
                    | TRANSPORT_UDP => TransportCaps false false false
                    end)
  end.

(** [None] is the value -1, which is not one of the types. *)
Definition transport_get_type (t : option transport) : option transport_type_t := tr_type <$> t.

Definition transport_close (t : option transport) : M kernel () :=
  match t with
  | None => mret ()
  | Some t => if 0 <=? tr_fd t then sys_close_fd (tr_fd t) else mret ()
  end.
