(* ===== verification/ServerMain.v ===== *)
(** * ServerMain: start-up of server.c, and what its main thread does

    [main] of [server.c]: backends and listening socket ([server_start]), the
    body of the accept loop up to the creation of a client's thread
    ([accept_round]) and the release of socket and backends ([server_stop]).
    [ServerThreads] puts these together with the threads of the clients.  The connections that clients
    open come as a list of socket ends; [accept] takes the next one and waits
    when there is none.  A start-up that fails behind the backends releases
    everything, provided that the scans have indexed nothing. *)

From S2P Require Import Prelude Socket Kernel Index Backend Protocol Server Transport.

(** ** Model *)

Definition DEFAULT_SOCKET_PATH : list byte := bs "/tmp/objmapper.sock".

Definition onsv {A} (m : M kernel A) : M server A := onb (onw (onk m)).

(** [accept] on the listening socket; [clients] are the connections that wait. *)
Definition sys_accept_next (clients : list endpoint) : M kernel (Z * (endpoint * list endpoint) + errno) := fun k =>
  let go w :=
    match clients with
    | [] => Blocked
    | e :: clients =>
        match install (Ofd None 0 true true) (set_sched w k) with
        | Ret fd k => Ret (inl (fd, (e, clients))) k
        | Blocked => Blocked
        | Fault => Fault
        end
    end in
  match sched k with
  | [] => go []
  | IoPartial _ :: w => go w
  | IoEintr :: w => Ret (inr EINTR) (set_sched w k)
  | IoFail :: w => Ret (inr EIO) (set_sched w k)
  end.

(** What a round of the accept loop comes to: a thread for the connection, the next
    round ([continue], or nothing more to do), or the end of the loop ([break]). *)
Inductive accepted := Spawn (client_fd : Z) (e : endpoint) | Again | Leave.

(** The body of the accept loop, with the connections left to accept. *)
Definition accept_round (clients : list endpoint) : M server (accepted * list endpoint) :=
  a ← onsv (sys_accept_next clients);
  match a with
  | inr EINTR => mret (Again, clients)
  | inr _ => mret (Leave, clients)
  | inl (client_fd, (e, clients)) =>
      info ← onsv sys_malloc;
      if negb info then _ ← onsv (sys_close_fd client_fd); mret (Again, clients)
      else
        failed ← onsv refused;                    (* pthread_create *)
        if failed : bool then _ ← onsv (sys_close_fd client_fd); mret (Again, clients)
        else mret (Spawn client_fd e, clients)
  end.

Section Main.
Variable readdir_order : list (list byte) -> list (list byte).

(** [main] up to the accept loop: the listening socket, or the exit status. *)
Definition server_start (socket_path memory_path persistent_path : list byte) : M server (Z + Z) :=
  r ← init_backends readdir_order memory_path persistent_path;
  if r <? 0 then mret (inr 1)
  else
    listen_fd ← onsv sys_socket;
    if listen_fd <? 0 then _ ← cleanup_backends; mret (inr 1)
    else
      _ ← onsv (sys_unlink socket_path);
      b ← onsv sys_attach;
      if b <? 0 then _ ← onsv (sys_close_fd listen_fd); _ ← cleanup_backends; mret (inr 1)
      else
        _ ← onsv refused;                       (* chmod *)
        l ← onsv sys_attach;
        if l <? 0 then
          _ ← onsv (sys_close_fd listen_fd);
          _ ← onsv (sys_unlink socket_path);
          _ ← cleanup_backends;
          mret (inr 1)
        else mret (inl listen_fd).

End Main.

(** Behind the wait for the active connections. *)
Definition server_stop (listen_fd : Z) (socket_path : list byte) : M server () :=
  _ ← onsv (sys_close_fd listen_fd);
  _ ← onsv (sys_unlink socket_path);
  cleanup_backends.

(** The argument at position [i] of [argv], or the default. *)
Definition argument (argv : list (list byte)) (i : nat) (dflt : list byte) : list byte := default dflt (argv !! i).

(** ** Cleaning up *)

(** No table holds an entry, and the backends have indexes of their own. *)
Definition empty_index (w : world) (idx : ptr) : Prop := exists b, bidxs w !! idx = Some b /\ b_buckets b = ∅.
Record unindexed (s : bstate) (m : backend_manager) : Prop := {
  ui_global : bm_global_index m = NULL \/ exists g, gidxs (wd s) !! bm_global_index m = Some g /\ g_buckets g = ∅;
  ui_backends : Forall (fun b => bk_index b <> NULL -> empty_index (wd s) (bk_index b)) (backends m);
  ui_own : NoDup (filter (fun p => p <> NULL) (bk_index <$> backends m))
}.

Lemma heads_empty n : bucket_heads ∅ n = [].
Proof. unfold bucket_heads. by rewrite map_to_list_empty. Qed.

Lemma destroy_backends_empty l : forall w,
  Forall (fun b => bk_index b <> NULL -> empty_index w (bk_index b)) l -> NoDup (filter (fun p => p <> NULL) (bk_index <$> l)) ->
  exists w', destroy_backends l w = Ret () w' /\ kern w' = kern w /\ gidxs w' = gidxs w.
Proof.
  induction l as [|b l IH]; intros w Hl Hnd; [by exists w|]. apply list.Forall_cons in Hl as [Hb Hl]. cbn [destroy_backends].
  rewrite fmap_cons, list.filter_cons in Hnd. destruct (Z.eqb_spec (bk_index b) NULL) as [E|E].
  { rewrite decide_False in Hnd by auto. rewrite (bind_Ret (mret ()) _ w () w eq_refl). by apply IH. }
  rewrite decide_True in Hnd by done. apply list.NoDup_cons in Hnd as [Hn Hnd]. destruct (Hb E) as (x & Hx & Ex).
  unfold backend_index_destroy. rewrite (proj2 (Z.eqb_neq _ _) E). rewrite bind_assoc.
  assert (Hr : rd_b (bk_index b) w = Ret x w) by (unfold rd_b; by rewrite Hx). rewrite (bind_Ret _ _ _ _ _ Hr), Ex, heads_empty. cbn [put_chains].
  rewrite bind_assoc, (bind_Ret (mret ()) _ w () w eq_refl). erewrite bind_Ret by reflexivity.
  set (w1 := set_bidxs _ w). destruct (IH w1) as (w' & H & K & G); [|done|exists w'; split; [exact H|]; split; [exact K|exact G]].
  apply list.Forall_forall. intros y Hy Ny. rewrite list.Forall_forall in Hl. destruct (Hl y Hy Ny) as (z & Hz & Ez). exists z. split; [|done].
  unfold w1. simpl. rewrite lookup_delete_ne; [done|]. intros Eq. apply Hn. rewrite Eq. apply list_elem_of_filter. split; [done|]. by apply list_elem_of_fmap_2.
Qed.

(** The manager goes and no descriptor changes. *)
Lemma cleanup_unindexed s m : bm (sv_b s) = Some m -> unindexed (sv_b s) m ->
  exists s', cleanup_backends s = Ret () s' /\ bm (sv_b s') = None /\ sv_kern s' = sv_kern s.
Proof.
  intros Hm [Hg Hb Ho]. unfold cleanup_backends. rewrite (bind_Ret get _ s s s eq_refl), Hm.
  assert (Hs : exists m', backend_stop_caching (sv_b s) = Ret () (BState (wd (sv_b s)) (Some m')) /\ backends m' = backends m /\ bm_global_index m' = bm_global_index m).
  { unfold backend_stop_caching, mbind, M_bind, get_bm, upd_bm. rewrite Hm. destruct (cache_running m); [rewrite Hm; eexists; split; [reflexivity|done]|].
    exists m. split; [|done]. unfold mret, M_ret. destruct (sv_b s). simpl in *. by subst. }
  destruct Hs as (m' & Hs & Eb & Eg). erewrite bind_Ret by (unfold onb; rewrite Hs; reflexivity).
  set (s1 := set_sv_b _ s). assert (Hs1 : sv_b s1 = BState (wd (sv_b s)) (Some m')) by done. clearbody s1.
  assert (Hd : exists b', backend_manager_destroy (sv_b s1) = Ret () b' /\ bm b' = None /\ kern (wd b') = kern (wd (sv_b s))).
  { unfold backend_manager_destroy. rewrite Hs1. erewrite (bind_Ret get_bm) by reflexivity. cbn [bm].
    assert (Hs2 : exists m2, backend_stop_caching (BState (wd (sv_b s)) (Some m')) = Ret () (BState (wd (sv_b s)) (Some m2))).
    { unfold backend_stop_caching, mbind, M_bind, get_bm, upd_bm. simpl. destruct (cache_running m'); eexists; reflexivity. }
    destruct Hs2 as (m2 & Hs2). rewrite (bind_Ret _ _ _ _ _ Hs2), Eb, Eg.
    destruct (destroy_backends_empty (backends m) (wd (sv_b s)) Hb Ho) as (w1 & H1 & K1 & G1).
    erewrite bind_Ret by (unfold onw; simpl; rewrite H1; reflexivity). simpl.
    assert (Hgd : exists w2, global_index_destroy (bm_global_index m) w1 = Ret () w2 /\ kern w2 = kern w1).
    { unfold global_index_destroy. destruct Hg as [->|(g & Hg & Eg0)]; [by exists w1|]. destruct (_ =? NULL); [by exists w1|].
      assert (Hr : rd_g (bm_global_index m) w1 = Ret g w1) by (unfold rd_g; by rewrite G1, Hg). rewrite (bind_Ret _ _ _ _ _ Hr), Eg0, heads_empty.
      cbn [put_chains]. rewrite (bind_Ret (mret ()) _ w1 () w1 eq_refl). by eexists. }
    destruct Hgd as (w2 & H2 & K2). erewrite bind_Ret by (unfold onw; simpl; rewrite H2; reflexivity). eexists. split; [reflexivity|].
    simpl. split; [done|congruence]. }
  destruct Hd as (b' & Hd & Hn & Hk). eexists. split; [unfold onb; rewrite Hd; reflexivity|]. split; [exact Hn|exact Hk].
Qed.

(** ** Start-up *)

(** The calls return, and only a new socket changes the descriptors. *)
Lemma onsv_Ret {A} (m : M kernel A) a k s : m (sv_kern s) = Ret a k -> onsv m s = Ret a (set_sv_kern k s).
Proof. unfold onsv, onb, onw, onk, sv_kern. by intros ->. Qed.

Lemma refused_ret k : exists b k', refused k = Ret b k' /\ fdtab k' = fdtab k.
Proof. unfold refused. destruct (sched k) as [|[]]; eauto. Qed.
Lemma attach_ret k : exists r k', sys_attach k = Ret r k' /\ fdtab k' = fdtab k.
Proof. destruct (refused_ret k) as (b & k' & H & E). unfold sys_attach. rewrite (bind_Ret _ _ _ _ _ H). eauto. Qed.
Lemma unlink_ret p k : exists r k', sys_unlink p k = Ret r k' /\ fdtab k' = fdtab k.
Proof.
  destruct (refused_ret k) as (b & k' & H & E). unfold sys_unlink. rewrite (bind_Ret _ _ _ _ _ H), (bind_Ret get _ k' k' k' eq_refl).
  destruct (resolve k' p) as [d|]; [|eauto]. destruct (node_at k' d) as [[]|]; eauto. destruct b; eauto.
Qed.
Lemma attach_fdtab k b k' : sys_attach k = Ret b k' -> fdtab k' = fdtab k.
Proof. destruct (attach_ret k) as (r & k1 & H & E). rewrite H. by intros [= _ <-]. Qed.
Lemma unlink_fdtab p k b k' : sys_unlink p k = Ret b k' -> fdtab k' = fdtab k.
Proof. destruct (unlink_ret p k) as (r & k1 & H & E). rewrite H. by intros [= _ <-]. Qed.
Lemma socket_ret k : exists fd k', sys_socket k = Ret fd k' /\
  (fd = -1 /\ fdtab k' = fdtab k \/ 0 <= fd /\ fdtab k !! fd = None /\ exists o, fdtab k' = <[fd:=o]> (fdtab k)).
Proof.
  destruct (refused_ret k) as (b & k' & H & E). unfold sys_socket. rewrite (bind_Ret _ _ _ _ _ H). destruct b.
  - eexists _, _. split; [reflexivity|]. by left.
  - eexists _, _. split; [reflexivity|]. right. split; [apply lowest_free_nonneg|]. simpl. rewrite E. split; [apply lowest_free_None|]. by eexists.
Qed.

(** [s'] is [s] with another kernel that has the descriptors [t]. *)
Definition has_fds (t : gmap Z Z) (s s' : server) : Prop := exists k, s' = set_sv_kern k s /\ fdtab k = t.
Lemma has_fds_start s : has_fds (fdtab (sv_kern s)) s s.
Proof. exists (sv_kern s). split; [|done]. by destruct s as [[[] ?] ? ? ? ? ?]. Qed.
Lemma has_fds_call {A} (m : M kernel A) t s s' a k : has_fds t s s' -> m (sv_kern s') = Ret a k -> onsv m s' = Ret a (set_sv_kern k s') /\ has_fds (fdtab k) s (set_sv_kern k s').
Proof. intros (k0 & -> & _) H. split; [by apply onsv_Ret|]. by exists k. Qed.
Lemma has_fds_keep (t : gmap Z Z) s s' k : has_fds (fdtab k) s s' -> fdtab k = t -> has_fds t s s'.
Proof. by intros H <-. Qed.

(** Cleaning up behind such calls. *)
Lemma cleanup_behind t m s s' : has_fds t s s' -> bm (sv_b s) = Some m -> unindexed (sv_b s) m ->
  exists s2, cleanup_backends s' = Ret () s2 /\ bm (sv_b s2) = None /\ fdtab (sv_kern s2) = t.
Proof.
  intros (k & -> & <-) Hm [U1 U2 U3]. destruct (cleanup_unindexed (set_sv_kern k s) m) as (s2 & H & Hn & Hk); [done|by split|].
  exists s2. split; [done|]. split; [done|]. by rewrite Hk.
Qed.

(** C36: when the scans of start-up have indexed no object, the rest of the start-up
    returns, whatever [socket], [unlink], [bind], [chmod] and [listen] do: either with the
    listening socket as the only new descriptor and the manager in place, or, when
    [socket], [bind] or [listen] fails, with the exit status 1, the manager destroyed and
    the descriptors as they were before the socket. *)
Theorem failed_start_clean readdir_order socket_path memory_path persistent_path s s1 r m :
  init_backends readdir_order memory_path persistent_path s = Ret r s1 -> 0 <= r -> bm (sv_b s1) = Some m -> unindexed (sv_b s1) m ->
  exists out s', server_start readdir_order socket_path memory_path persistent_path s = Ret out s' /\
    match out with
    | inl listen_fd => bm (sv_b s') = Some m /\ exists o, fdtab (sv_kern s') = <[listen_fd:=o]> (fdtab (sv_kern s1))
    | inr status => status = 1 /\ bm (sv_b s') = None /\ fdtab (sv_kern s') = fdtab (sv_kern s1)
    end.
Proof.
  intros Hi Hr Hm Hu. unfold server_start. rewrite (bind_Ret _ _ _ _ _ Hi), (proj2 (Z.ltb_ge r 0) Hr).
  assert (Hexit : forall s2, has_fds (fdtab (sv_kern s1)) s1 s2 -> exists out s', (_ ← cleanup_backends; mret (inr 1)) s2 = Ret out s' /\
    match out with
    | inl listen_fd => bm (sv_b s') = Some m /\ exists o, fdtab (sv_kern s') = <[listen_fd:=o]> (fdtab (sv_kern s1))
    | inr status => status = 1 /\ bm (sv_b s') = None /\ fdtab (sv_kern s') = fdtab (sv_kern s1)
    end).
  { intros s2 H2. destruct (cleanup_behind _ m _ _ H2 Hm Hu) as (s3 & H3 & N3 & F3). rewrite (bind_Ret _ _ _ _ _ H3). by eexists _, s3. }
  pose proof (has_fds_start s1) as F0. destruct (socket_ret (sv_kern s1)) as (fd & k1 & H1 & Hfd).
  destruct (has_fds_call _ _ _ _ _ _ F0 H1) as [R1 F1]. rewrite (bind_Ret _ _ _ _ _ R1).
  destruct Hfd as [[-> E1]|(Hge & Hfree & o & E1)]; [apply Hexit; by rewrite <- E1|]. rewrite (proj2 (Z.ltb_ge fd 0) Hge).
  assert (Hclosed : forall t, t = fdtab k1 -> delete fd t = fdtab (sv_kern s1)) by (intros t ->; rewrite E1; by apply delete_insert_id).
  destruct (unlink_ret socket_path k1) as (r2 & k2 & H2 & E2). destruct (has_fds_call _ _ _ _ _ _ F1 H2) as [R2 F2]. rewrite (bind_Ret _ _ _ _ _ R2).
  destruct (attach_ret k2) as (r3 & k3 & H3 & E3). destruct (has_fds_call _ _ _ _ _ _ F2 H3) as [R3 F3]. rewrite (bind_Ret _ _ _ _ _ R3).
  destruct (r3 <? 0).
  { destruct (has_fds_call (sys_close_fd fd) _ _ _ _ _ F3 eq_refl) as [R4 F4]. rewrite (bind_Ret _ _ _ _ _ R4). apply Hexit.
    eapply has_fds_keep; [exact F4|]. simpl. apply Hclosed. unfold sv_kern in *. simpl. congruence. }
  destruct (refused_ret k3) as (r4 & k4 & H4 & E4). destruct (has_fds_call _ _ _ _ _ _ F3 H4) as [R4 F4]. rewrite (bind_Ret _ _ _ _ _ R4).
  destruct (attach_ret k4) as (r5 & k5 & H5 & E5). destruct (has_fds_call _ _ _ _ _ _ F4 H5) as [R5 F5]. rewrite (bind_Ret _ _ _ _ _ R5).
  destruct (r5 <? 0).
  - destruct (has_fds_call (sys_close_fd fd) _ _ _ _ _ F5 eq_refl) as [R6 F6]. rewrite (bind_Ret _ _ _ _ _ R6).
    match type of F6 with has_fds (fdtab ?k6) _ _ => destruct (unlink_ret socket_path k6) as (r7 & k7 & H7 & E7) end.
    destruct (has_fds_call _ _ _ _ _ _ F6 H7) as [R7 F7]. rewrite (bind_Ret _ _ _ _ _ R7). apply Hexit.
    eapply has_fds_keep; [exact F7|]. rewrite E7. simpl. apply Hclosed. unfold sv_kern in *. simpl. congruence.
  - eexists _, _. split; [reflexivity|]. split; [exact Hm|]. exists o. change (fdtab k5 = <[fd:=o]> (fdtab (sv_kern s1))). congruence.
Qed.

(** ** Runs *)

(** The server before [main]; [l] answers its system calls. *)
Definition fresh_server (names : gmap key node) (l : list io_event) : server :=
  Server (BState (World (Kernel names {[7 := bs "hello"]} ∅ {[0 := 0; 1 := 1; 2 := 2]} l [] 0 [] []) ∅ ∅ ∅ 1 x00) None)
    (Link (Endpoint [] true [] [] [] ∅ [] x00) None) (GStats 0 0 0 0 0 0) [] (-1) (-1).
Lemma result_of_Ret {S A} (x : outcome S A) a : result_of x = Some a -> exists s, x = Ret a s.
Proof. destruct x as [b s| |]; [|done..]. intros [= <-]. by exists s. Qed.

(** [listen] fails. *)
Lemma failed_start_clean_witness :
  let s := fresh_server ∅ (replicate 11 (IoPartial 0) ++ [IoFail]) in
  exists s1 s', init_backends id (bs "/m") (bs "/p") s = Ret 0 s1 /\ server_start id (bs "/s") (bs "/m") (bs "/p") s = Ret (inr 1) s' /\
    bm (sv_b s') = None /\ fdtab (sv_kern s') = fdtab (sv_kern s1).
Proof.
  intros s. destruct (init_backends id (bs "/m") (bs "/p") s) as [r s1| |] eqn:E1; [|vm_compute in E1; discriminate..].
  assert (Hr : r = 0) by (vm_compute in E1; by injection E1 as <- _). subst r.
  destruct (bm (sv_b s1)) as [m|] eqn:Em; [|vm_compute in E1; injection E1 as <-; vm_compute in Em; discriminate].
  assert (Hu : unindexed (sv_b s1) m).
  { vm_compute in E1. injection E1 as <-. vm_compute in Em. injection Em as <-. split.
    - right. eexists. split; [vm_compute; reflexivity|reflexivity].
    - repeat constructor; intros _; eexists; (split; [vm_compute; reflexivity|reflexivity]).
    - apply (bool_decide_unpack _). vm_compute. exact I. }
  destruct (failed_start_clean id (bs "/s") (bs "/m") (bs "/p") s s1 0 m E1 ltac:(lia) Em Hu) as (out & s' & Hs & Hout).
  assert (Ho : result_of (server_start id (bs "/s") (bs "/m") (bs "/p") s) = Some (inr 1)) by (vm_compute; reflexivity).
  rewrite Hs in Ho. injection Ho as ->. destruct Hout as (_ & H1 & H2). exists s1, s'. split; [reflexivity|]. split; [exact Hs|]. split; [exact H1|exact H2].
Defined.

(** Started on a persistent directory that holds one file, the server cannot be
    cleaned up: the scan has left the file's entry with a single reference from
    two tables, the backend's index frees it, and the global index then reads
    freed memory.  So a start-up that cannot make its socket does not return. *)
Theorem failed_start_after_scan_faults :
  let dirs := {[ [bs "m"] := Dir; [bs "p"] := Dir; [bs "a"; bs "p"] := File 7 ]} in
  exists n, server_start id (bs "/s") (bs "/m") (bs "/p") (fresh_server dirs (replicate n (IoPartial 0) ++ [IoFail])) = Fault /\
    result_of (init_backends id (bs "/m") (bs "/p") (fresh_server dirs (replicate n (IoPartial 0) ++ [IoFail]))) = Some 0.
Proof. exists 12%nat. split; vm_compute; reflexivity. Qed.
