(* ===== verification/ServerThreads.v ===== *)
(** * ServerThreads: the main thread and the clients' threads of server.c

    [main] of [server.c] creates a detached thread for every connection and, when
    [g_running] is cleared, waits until no connection is active before it
    releases the socket and the backends.  Here main and the threads take steps
    in any order.  A step of main is a test of the flag, one round of the accept
    loop, one look at the count of connections, or the release; a step of a thread is one
    change of that count, its set-up, a test of the flag, one request from its
    receipt to its answer, or the release of its connection.  So a thread that waits for a
    request has seen the flag before and does not look at it again while it waits.  Clients connect, send and
    hang up, and the signal handler clears the flag, at any time.  Requests exclude each
    other, as do the rounds of main: the locks of the indexes are not
    represented ([IndexConc]). *)

From S2P Require Import Prelude Socket Kernel Index Backend Protocol Server Transport ServerMain.

(** ** State *)

(** Where a client's thread is: before it counts its connection, before the set-up, before a
    test of [g_running], before a request (with the protocol's version), before it
    releases its connection (is there one?), before it counts it out, at its end. *)
Inductive tpc := TCount | TSetup | TTest (version : Z) | TRecv (version : Z) | TClose (conn : bool) | TUncount | TEnd.

Record thread := Thread { th_fd : Z; th_link : link; th_pc : tpc }.

(** Where main is: before a test of [g_running], before [accept], in the wait for the
    active connections, behind it, at its end. *)
Inductive main_pc := MTest | MAccept | MWait | MStop | MExit.

#[global] Instance main_pc_eq_dec : EqDecision main_pc.
Proof. solve_decision. Defined.

Record process := Process {
  p_sv : server;                 (* what the threads share; its link is the thread's that runs *)
  p_running : bool;              (* [g_running] *)
  p_main : main_pc;
  p_threads : list thread;       (* in the order of their creation *)
  p_backlog : list endpoint      (* connections to be accepted *)
}.

Definition set_main (pc : main_pc) (p : process) : process := Process (p_sv p) (p_running p) pc (p_threads p) (p_backlog p).

(** ** Steps *)

(** One step of a thread: where it is then. *)
Definition thread_step (fd : Z) (running : bool) (pc : tpc) : M server tpc :=
  match pc with
  | TCount => _ ← upd_stats (add_conn 1); mret TSetup
  | TSetup =>
      r ← session_setup fd;
      mret match r with (_, Some version) => TTest version | (conn, None) => TClose conn end
  | TTest version => mret (if running then TRecv version else TClose true)
  | TRecv version => more ← request_round version; mret (if more : bool then TTest version else TClose true)
  | TClose conn => _ ← close_session fd conn; mret TUncount
  | TUncount => _ ← upd_stats (add_conn (-1)); mret TEnd
  | TEnd => block
  end.

(** On the thread's own connection. *)
Definition use_link (l : link) (s : server) : server :=
  Server (sv_b s) l (g_stats s) (g_running s) (g_memory_backend_id s) (g_persistent_backend_id s).

Inductive label :=
| LMain                                    (* main takes a step *)
| LThread (i : nat)                        (* the thread created as the [i]-th takes one *)
| LSignal                                  (* SIGINT or SIGTERM *)
| LConnect (e : endpoint)                  (* a client connects *)
| LSend (i : nat) (d : list cell)          (* the client of a thread sends *)
| LHangup (i : nat).                       (* or closes its end *)

Definition on_thread (i : nat) (f : endpoint -> endpoint) (p : process) : process :=
  Process (p_sv p) (p_running p) (p_main p)
    (alter (fun t => Thread (th_fd t) (Link (f (ep (th_link t))) (cn (th_link t))) (th_pc t)) i (p_threads p)) (p_backlog p).

Definition append_rx (d : list cell) (e : endpoint) : endpoint := set_rx (rx e ++ d) (rd_sched e) e.
Definition hang_up (e : endpoint) : endpoint :=
  Endpoint (rx e) true (tx e) (rd_sched e) (wr_sched e) (fdt e) (oom e) (junk e).

Section Steps.
Variables (listen_fd : Z) (socket_path : list byte).

Definition main_step : M process () := fun p =>
  match p_main p with
  | MTest => Ret () (set_main (if p_running p then MAccept else MWait) p)
  | MAccept =>
      match accept_round (p_backlog p) (p_sv p) with
      | Ret (r, backlog) s =>
          match r with
          | Spawn fd e => Ret () (Process s (p_running p) MTest (p_threads p ++ [Thread fd (Link e None) TCount]) backlog)
          | Again => Ret () (Process s (p_running p) MTest (p_threads p) backlog)
          | Leave => Ret () (Process s (p_running p) MWait (p_threads p) backlog)
          end
      | Blocked => Blocked
      | Fault => Fault
      end
  | MWait =>                                                   (* while (active_connections > 0) usleep(100000) *)
      Ret () (if 0 <? active_connections (g_stats (p_sv p)) then p else set_main MStop p)
  | MStop =>
      match server_stop listen_fd socket_path (p_sv p) with
      | Ret _ s => Ret () (Process s (p_running p) MExit (p_threads p) (p_backlog p))
      | Blocked => Blocked
      | Fault => Fault
      end
  | MExit => Blocked
  end.

(** A thread that takes no step is [Blocked]; with main's end the process ends. *)
Definition step (l : label) : M process () := fun p =>
  match l with
  | LMain => main_step p
  | LThread i =>
      match p_main p, p_threads p !! i with
      | MExit, _ | _, None => Blocked
      | _, Some t =>
          match thread_step (th_fd t) (p_running p) (th_pc t) (use_link (th_link t) (p_sv p)) with
          | Ret pc s => Ret () (Process s (p_running p) (p_main p) (<[i:=Thread (th_fd t) (sv_l s) pc]> (p_threads p)) (p_backlog p))
          | Blocked => Blocked
          | Fault => Fault
          end
      end
  | LSignal => Ret () (Process (p_sv p) false (p_main p) (p_threads p) (p_backlog p))
  | LConnect e => Ret () (Process (p_sv p) (p_running p) (p_main p) (p_threads p) (p_backlog p ++ [e]))
  | LSend i d => Ret () (on_thread i (append_rx d) p)
  | LHangup i => Ret () (on_thread i hang_up p)
  end.

Fixpoint run_labels (ls : list label) : M process () :=
  match ls with
  | [] => mret ()
  | l :: ls => _ ← step l; run_labels ls
  end.
End Steps.

(** Main behind its start-up. *)
Definition serving (s : server) : process := Process s true MTest [] [].

(** [main] from its arguments on: the exit status of a start-up that fails, or the
    process in front of the accept loop, with its socket. *)
Section Main.
Variable readdir_order : list (list byte) -> list (list byte).
Definition server_main (argv : list (list byte)) : M server (Z + (Z * list byte)) :=
  let socket_path := argument argv 1 DEFAULT_SOCKET_PATH in
  r ← server_start readdir_order socket_path (argument argv 2 (bs "/tmp/objmapper_memory")) (argument argv 3 (bs "/tmp/objmapper_persistent"));
  match r with
  | inr status => mret (inl status)
  | inl listen_fd => mret (inr (listen_fd, socket_path))
  end.
End Main.
