(* ===== verification/ServerShutdown.v ===== *)
(** * ServerShutdown: sessions are counted and shutdown waits for them

    In every interleaving of main and the clients' threads the count of active
    connections is the number of sessions, main leaves its wait exactly when there is
    none, and after the signal only a bounded number of steps is left to
    the threads.  A client that says nothing keeps main waiting, and a thread that has not yet
    counted its connection is not waited for. *)

From S2P Require Import Prelude Socket Kernel Index Backend Protocol Server Transport ServerMain ServerThreads.

(** ** Calls that do not count connections *)

Definition same_conns (s s' : server) : Prop := active_connections (g_stats s') = active_connections (g_stats s).

#[global] Instance same_conns_preorder : PreOrder same_conns.
Proof. split; [intros s; reflexivity|]. intros a b c H1 H2. unfold same_conns in *. congruence. Qed.

Lemma onb_conns {A} (m : M bstate A) : moves same_conns (onb m).
Proof. intros s a s' H. unfold onb in H. destruct (m (sv_b s)); [|done..]. by injection H as _ <-. Qed.
Lemma onl_conns {A} (m : M link A) : moves same_conns (onl m).
Proof. intros s a s' H. unfold onl in H. destruct (m (link_in s)); [|done..]. by injection H as _ <-. Qed.
Lemma onsv_conns {A} (m : M kernel A) : moves same_conns (onsv m).
Proof. apply onb_conns. Qed.
Lemma stats_conns f : (forall g, active_connections (f g) = active_connections g) -> moves same_conns (upd_stats f).
Proof. intros Hf s a s' H. injection H as _ <-. apply Hf. Qed.
#[export] Hint Resolve onb_conns onl_conns onsv_conns : moves.
#[export] Hint Extern 1 (moves same_conns (upd_stats _)) => by apply stats_conns : moves.

Lemma handle_get_conns req : moves same_conns (handle_get req).
Proof. unfold handle_get. moves_tac. Qed.
Lemma handle_put_conns req : moves same_conns (handle_put req).
Proof. unfold handle_put. moves_tac. Qed.
Lemma handle_delete_conns req u : moves same_conns (handle_delete req u).
Proof. unfold handle_delete. moves_tac. Qed.
Lemma handle_list_conns req : moves same_conns (handle_list req).
Proof. unfold handle_list. moves_tac. Qed.
Lemma count_error_conns r : moves same_conns (count_error r).
Proof. unfold count_error. moves_tac. Qed.
#[export] Hint Resolve handle_get_conns handle_put_conns handle_delete_conns handle_list_conns count_error_conns : moves.
Lemma dispatch_conns req : moves same_conns (dispatch req).
Proof. unfold dispatch. moves_tac. Qed.
#[export] Hint Resolve dispatch_conns : moves.
Lemma request_round_conns v : moves same_conns (request_round v).
Proof. unfold request_round. moves_tac. Qed.
Lemma session_setup_conns fd : moves same_conns (session_setup fd).
Proof. unfold session_setup. moves_tac. Qed.
Lemma close_session_conns fd b : moves same_conns (close_session fd b).
Proof. unfold close_session. moves_tac. Qed.
Lemma accept_round_conns clients : moves same_conns (accept_round clients).
Proof. unfold accept_round. moves_tac. Qed.
Lemma cleanup_conns : moves same_conns cleanup_backends.
Proof. unfold cleanup_backends. moves_tac. Qed.
#[export] Hint Resolve request_round_conns session_setup_conns close_session_conns accept_round_conns cleanup_conns : moves.
Lemma server_stop_conns fd path : moves same_conns (server_stop fd path).
Proof. unfold server_stop. moves_tac. Qed.

(** ** The count *)

(** The connection is counted: the thread is in its session. *)
Definition in_session (t : thread) : bool := match th_pc t with TCount | TEnd => false | _ => true end.
Definition sessions (p : process) : nat := length (filter (fun t => in_session t = true) (p_threads p)).

Definition counted (p : process) : Prop := active_connections (g_stats (p_sv p)) = u64 (Z.of_nat (sessions p)).

Definition session_of (pc : tpc) : Z := match pc with TCount | TEnd => 0 | _ => 1 end.

(** A step of a thread changes the count as it enters or leaves its session. *)
Lemma thread_step_count fd run pc s pc' s' k : thread_step fd run pc s = Ret pc' s' ->
  active_connections (g_stats s) = u64 k -> active_connections (g_stats s') = u64 (k + session_of pc' - session_of pc).
Proof.
  intros H Hk. destruct pc; cbn [thread_step] in H.
  - apply bind_inv in H as ([] & s1 & H1 & H). injection H1 as <-. injection H as <- <-. simpl. rewrite Hk. unfold u64.
    rewrite Zplus_mod_idemp_l. f_equal. lia.
  - apply bind_inv in H as ([c v] & s1 & H1 & H). apply session_setup_conns in H1. injection H as <- <-. rewrite H1, Hk. f_equal. destruct v; simpl; lia.
  - injection H as <- <-. rewrite Hk. f_equal. destruct run; simpl; lia.
  - apply bind_inv in H as (more & s1 & H1 & H). apply request_round_conns in H1. injection H as <- <-. rewrite H1, Hk. f_equal. destruct more; simpl; lia.
  - apply bind_inv in H as ([] & s1 & H1 & H). apply close_session_conns in H1. injection H as <- <-. rewrite H1, Hk. f_equal. simpl. lia.
  - apply bind_inv in H as ([] & s1 & H1 & H). injection H1 as <-. injection H as <- <-. simpl. rewrite Hk. unfold u64.
    rewrite Zplus_mod_idemp_l. f_equal. lia.
  - discriminate H.
Qed.

Lemma in_session_of t : (if in_session t then 1 else 0) = session_of (th_pc t).
Proof. unfold in_session. by destruct (th_pc t). Qed.

Lemma sessions_insert (l : list thread) i t t' : l !! i = Some t ->
  Z.of_nat (length (filter (fun t => in_session t = true) (<[i:=t']> l))) =
    Z.of_nat (length (filter (fun t => in_session t = true) l)) + session_of (th_pc t') - session_of (th_pc t).
Proof.
  intros Hi. pose proof (length_filter_insert in_session l i t t' Hi) as H. rewrite <- !in_session_of.
  destruct (in_session t), (in_session t'); simpl in *; lia.
Qed.

(** What a client does leaves the places of the threads. *)
Lemma sessions_alter (f : thread -> thread) (l : list thread) i : (forall t, th_pc (f t) = th_pc t) ->
  length (filter (fun t => in_session t = true) (alter f i l)) = length (filter (fun t => in_session t = true) l).
Proof.
  intros Hf. assert (Hs : forall t, in_session (f t) = in_session t) by (intros t; unfold in_session; by rewrite Hf).
  revert i. induction l as [|t l IH]; intros [|i]; cbn [alter list_alter]; rewrite ?list.filter_cons; try done.
  - rewrite Hs. by destruct (decide _).
  - destruct (decide _); simpl; by rewrite IH.
Qed.

Section Count.
Context (listen_fd : Z) (socket_path : list byte).
#[local] Abbreviation step := (step listen_fd socket_path).
#[local] Abbreviation run_labels := (run_labels listen_fd socket_path).

Lemma step_counted l p p' : counted p -> step l p = Ret () p' -> counted p'.
Proof.
  intros Hp H. unfold counted, sessions in *. destruct l as [|i| |e|i d|i]; cbn [ServerThreads.step] in H.
  - unfold main_step in H. destruct (p_main p).
    + by injection H as <-.
    + destruct (accept_round _ _) as [[r bl] s| |] eqn:E; [|done..]. apply accept_round_conns in E. unfold same_conns in E.
      destruct r; injection H as <-; simpl; rewrite E, Hp; [|done..]. f_equal. rewrite list.filter_app, length_app. simpl. lia.
    + injection H as <-. by destruct (0 <? _).
    + destruct (server_stop _ _ _) as [[] s| |] eqn:E; [|done..]. apply server_stop_conns in E. unfold same_conns in E. injection H as <-. simpl. congruence.
    + discriminate H.
  - destruct (p_threads p !! i) as [t|] eqn:Hi; [|by destruct (p_main p)].
    destruct (thread_step _ _ _ _) as [pc s| |] eqn:E; [|by destruct (p_main p)..].
    pose proof (thread_step_count _ _ _ _ _ _ _ E Hp) as Hc. assert (Hs : p' = Process s (p_running p) (p_main p) (<[i:=Thread (th_fd t) (sv_l s) pc]> (p_threads p)) (p_backlog p))
      by (destruct (p_main p); (discriminate H || by injection H as <-)). subst p'. simpl. rewrite Hc. f_equal. symmetry. exact (sessions_insert _ _ _ _ Hi).
  - by injection H as <-.
  - by injection H as <-.
  - injection H as <-. simpl. by rewrite sessions_alter.
  - injection H as <-. simpl. by rewrite sessions_alter.
Qed.

Lemma run_counted ls : forall p p', counted p -> run_labels ls p = Ret () p' -> counted p'.
Proof.
  induction ls as [|l ls IH]; intros p p' Hp H; cbn [ServerThreads.run_labels] in H; [by injection H as <-|].
  apply bind_inv in H as ([] & p1 & H1 & H). eapply IH; [|exact H]. by eapply step_counted.
Qed.

Lemma serving_counted s : active_connections (g_stats s) = 0 -> counted (serving s).
Proof. intros H. unfold counted. simpl. by rewrite H. Qed.

(** As many as there are threads at most. *)
Lemma sessions_exact p : counted p -> Z.of_nat (length (p_threads p)) < 2 ^ 64 -> active_connections (g_stats (p_sv p)) = Z.of_nat (sessions p).
Proof.
  intros Hp Hl. rewrite Hp. apply u64_small. pose proof (length_filter (fun t => in_session t = true) (p_threads p)). unfold sessions. lia.
Qed.

(** ** The wait *)

Lemma sessions_none p : sessions p = 0%nat -> Forall (fun t => th_pc t = TCount \/ th_pc t = TEnd) (p_threads p).
Proof.
  unfold sessions. intros H. apply nil_length_inv in H. apply list.Forall_forall. intros t Ht.
  assert (Hn : in_session t <> true).
  { intros E. assert (Hin : t ∈ filter (fun t => in_session t = true) (p_threads p)) by (by apply list_elem_of_filter). rewrite H in Hin. by apply not_elem_of_nil in Hin. }
  unfold in_session in Hn. destruct (th_pc t); auto; by destruct Hn.
Qed.

(** Behind the wait no thread is created, and ended threads stay ended. *)
Definition over (p : process) : Prop := (p_main p = MStop \/ p_main p = MExit) /\ Forall (fun t => th_pc t = TEnd) (p_threads p).
Lemma Forall_alter_pc (f : thread -> thread) (l : list thread) i : (forall t, th_pc (f t) = th_pc t) ->
  Forall (fun t => th_pc t = TEnd) l -> Forall (fun t => th_pc t = TEnd) (alter f i l).
Proof. intros Hf Hl. apply Forall_alter; [done|]. intros t _ Ht. by rewrite Hf. Qed.
Lemma step_over l p p' : over p -> step l p = Ret () p' -> over p'.
Proof.
  intros [Hm Ht] H. destruct l as [|i| |e|i d|i]; cbn [ServerThreads.step] in H.
  - unfold main_step in H. destruct Hm as [Hm|Hm]; rewrite Hm in H; [|discriminate H].
    destruct (server_stop _ _ _); [|done..]. injection H as <-. split; [by right|done].
  - destruct (p_threads p !! i) as [t|] eqn:Hi; [|by destruct (p_main p)]. rewrite list.Forall_forall in Ht.
    rewrite (Ht t) in H by (by eapply list_elem_of_lookup_2). by destruct (p_main p).
  - by injection H as <-.
  - by injection H as <-.
  - injection H as <-. split; [done|]. by apply Forall_alter_pc.
  - injection H as <-. split; [done|]. by apply Forall_alter_pc.
Qed.
Lemma run_over ls : forall p p', over p -> run_labels ls p = Ret () p' -> over p'.
Proof.
  induction ls as [|l ls IH]; intros p p' Hp H; cbn [ServerThreads.run_labels] in H; [by injection H as <-|].
  apply bind_inv in H as ([] & p1 & H1 & H). eapply IH; [|exact H]. by eapply step_over.
Qed.
End Count.

(** C14: Shutdown waits for the sessions.  In every interleaving of main, the clients'
    threads, the clients and the signal, with fewer than 2^64 threads: the count of
    active connections is the number of threads in their session; a look of main at the
    count ends the wait exactly when no thread is in its session; and when it ends the wait
    and every thread created has counted its connection, all threads have ended for good and no
    other comes, so that the backends are destroyed with nobody using them. *)
Theorem shutdown_waits listen_fd socket_path s ls p :
  active_connections (g_stats s) = 0 -> run_labels listen_fd socket_path ls (serving s) = Ret () p ->
  Z.of_nat (length (p_threads p)) < 2 ^ 64 ->
  active_connections (g_stats (p_sv p)) = Z.of_nat (sessions p) /\
  (p_main p = MWait -> step listen_fd socket_path LMain p = Ret () (if decide (sessions p = 0%nat) then set_main MStop p else p)) /\
  (p_main p = MWait -> sessions p = 0%nat -> Forall (fun t => th_pc t <> TCount) (p_threads p) ->
     forall ls' p', run_labels listen_fd socket_path ls' (set_main MStop p) = Ret () p' -> Forall (fun t => th_pc t = TEnd) (p_threads p')).
Proof.
  intros H0 Hr Hl. pose proof (run_counted _ _ _ _ _ (serving_counted s H0) Hr) as Hc. pose proof (sessions_exact p Hc Hl) as Hn.
  split; [done|]. split.
  - intros Hm. cbn [step]. unfold main_step. rewrite Hm, Hn. do 2 f_equal. destruct (decide _) as [->|Hz]; [done|].
    by rewrite (proj2 (Z.ltb_lt _ _)) by lia.
  - intros _ Hz Hall ls' p' Hr'. apply (run_over listen_fd socket_path ls' (set_main MStop p) p'); [|exact Hr']. split; [by left|]. simpl.
    apply sessions_none in Hz. rewrite list.Forall_forall in *. intros t Ht. destruct (Hz t Ht) as [E|E]; [|done]. by destruct (Hall t Ht).
Qed.

(** ** How long it waits *)

(** Steps a thread has left once the flag is cleared. *)
Definition steps_left (t : thread) : nat :=
  match th_pc t with TCount => 6 | TSetup => 5 | TRecv _ => 4 | TTest _ => 3 | TClose _ => 2 | TUncount => 1 | TEnd => 0 end.
Definition total_left (l : list thread) : nat := foldr (fun t n => (steps_left t + n)%nat) 0%nat l.

Lemma total_insert l i t t' : l !! i = Some t -> (total_left (<[i:=t']> l) + steps_left t = total_left l + steps_left t')%nat.
Proof.
  revert i. induction l as [|x l IH]; intros [|i] Hi; simpl in *; [done|done|injection Hi as ->; lia|]. specialize (IH _ Hi). lia.
Qed.
Lemma total_alter (f : thread -> thread) l i : (forall t, th_pc (f t) = th_pc t) -> total_left (alter f i l) = total_left l.
Proof.
  intros Hf. revert i. induction l as [|x l IH]; intros [|i]; simpl; try done; [unfold steps_left at 1; by rewrite Hf|].
  change (list_alter f i l) with (alter f i l). by rewrite IH.
Qed.
Lemma total_bound l : (total_left l <= 6 * length l)%nat.
Proof. induction l as [|t l IH]; simpl; [lia|]. assert (steps_left t <= 6)%nat by (unfold steps_left; destruct (th_pc t); lia). lia. Qed.

Lemma thread_step_left fd t s pc s' : thread_step fd false (th_pc t) s = Ret pc s' -> (steps_left (Thread fd (sv_l s') pc) < steps_left t)%nat.
Proof.
  intros H. unfold steps_left. destruct (th_pc t); cbn [thread_step] in H; try (apply bind_inv in H as (x & s1 & _ & H)); try discriminate H;
    injection H as <- _; simpl; try lia; [destruct x as [c [v|]]|destruct x]; simpl; lia.
Qed.

Definition thread_steps (ls : list label) : nat := length (filter (fun l => match l with LThread _ => true | _ => false end = true) ls).

(** The signal has come and main has left the accept loop. *)
Definition stopping (p : process) : Prop := p_running p = false /\ p_main p <> MTest /\ p_main p <> MAccept.

Section Left.
Context (listen_fd : Z) (socket_path : list byte).
#[local] Abbreviation step := (step listen_fd socket_path).
#[local] Abbreviation run_labels := (run_labels listen_fd socket_path).

Lemma step_left l p p' : stopping p -> step l p = Ret () p' ->
  stopping p' /\ (total_left (p_threads p') + (if l is LThread _ then 1 else 0) <= total_left (p_threads p))%nat /\
  length (p_threads p') = length (p_threads p).
Proof.
  intros (Hf & H1 & H2) H. destruct l as [|i| |e|i d|i]; cbn [ServerThreads.step] in H.
  - unfold main_step in H. destruct (p_main p) eqn:Em; [done|done| | |discriminate H].
    + injection H as <-. rewrite Nat.add_0_r. destruct (0 <? _); (split; [|done]); split; try done. by rewrite Em.
    + destruct (server_stop _ _ _); [|done..]. injection H as <-. rewrite Nat.add_0_r. done.
  - destruct (p_threads p !! i) as [t|] eqn:Hi; [|by destruct (p_main p)].
    rewrite Hf in H. destruct (thread_step _ _ _ _) as [pc s| |] eqn:E; [|by destruct (p_main p)..]. apply thread_step_left in E.
    assert (Hs : p' = Process s false (p_main p) (<[i:=Thread (th_fd t) (sv_l s) pc]> (p_threads p)) (p_backlog p))
      by (destruct (p_main p); (discriminate H || by injection H as <-)). subst p'. simpl. split; [done|]. rewrite length_insert. split; [|done].
    pose proof (total_insert _ _ _ (Thread (th_fd t) (sv_l s) pc) Hi). lia.
  - injection H as <-. rewrite Nat.add_0_r. done.
  - injection H as <-. rewrite Nat.add_0_r. done.
  - injection H as <-. simpl. rewrite total_alter, length_alter, Nat.add_0_r by done. done.
  - injection H as <-. simpl. rewrite total_alter, length_alter, Nat.add_0_r by done. done.
Qed.
Lemma run_left ls : forall p p', stopping p -> run_labels ls p = Ret () p' ->
  (total_left (p_threads p') + thread_steps ls <= total_left (p_threads p))%nat /\ length (p_threads p') = length (p_threads p).
Proof.
  induction ls as [|l ls IH]; intros p p' Hp H; cbn [ServerThreads.run_labels] in H; [injection H as <-; unfold thread_steps; simpl; lia|].
  apply bind_inv in H as ([] & p1 & H1 & H). destruct (step_left _ _ _ Hp H1) as (S1 & L1 & N1). destruct (IH _ _ S1 H) as [L2 N2]. split; [|congruence].
  unfold thread_steps in *. rewrite list.filter_cons. destruct l; simpl in *; lia.
Qed.

(** A thread that cannot step has ended, or is in its set-up or a request. *)
Lemma stuck_thread p i t : p_main p <> MExit -> p_threads p !! i = Some t -> (forall p', step (LThread i) p <> Ret () p') ->
  th_pc t = TEnd \/ (th_pc t = TSetup \/ exists v, th_pc t = TRecv v) /\ (step (LThread i) p = Blocked \/ step (LThread i) p = Fault).
Proof.
  intros Hm Hi Hno. assert (E : step (LThread i) p =
    match thread_step (th_fd t) (p_running p) (th_pc t) (use_link (th_link t) (p_sv p)) with
    | Ret pc s => Ret () (Process s (p_running p) (p_main p) (<[i:=Thread (th_fd t) (sv_l s) pc]> (p_threads p)) (p_backlog p))
    | Blocked => Blocked | Fault => Fault end) by (cbn [ServerThreads.step]; rewrite Hi; by destruct (p_main p)).
  rewrite E in Hno |- *. destruct (th_pc t) as [| |v|v|c| |] eqn:Et; try (exfalso; eapply Hno; reflexivity); try (by left).
  - right. split; [by left|]. destruct (thread_step _ _ _ _); [exfalso; by eapply Hno|auto..].
  - right. split; [right; by exists v|]. destruct (thread_step _ _ _ _); [exfalso; by eapply Hno|auto..].
  - exfalso. destruct c; eapply Hno; reflexivity.
Qed.
End Left.

(** C15: How long shutdown waits.  Once the flag is cleared and main waits, the threads together take at
    most six more steps each, whatever the clients do and in whatever order: every
    thread finishes the request it is in and leaves.  When no thread can take a
    step any more, main's next look ends the wait, unless a thread does not return from its
    set-up or from a request: it waits for its client, or its handler does not return. *)
Theorem shutdown_bounded listen_fd socket_path s ls0 p ls p' :
  active_connections (g_stats s) = 0 -> run_labels listen_fd socket_path ls0 (serving s) = Ret () p ->
  p_running p = false -> p_main p = MWait -> Z.of_nat (length (p_threads p)) < 2 ^ 64 ->
  run_labels listen_fd socket_path ls p = Ret () p' ->
  (thread_steps ls <= 6 * length (p_threads p))%nat /\
  (p_main p' = MWait -> (forall i p2, step listen_fd socket_path (LThread i) p' <> Ret () p2) ->
     step listen_fd socket_path LMain p' = Ret () (set_main MStop p') \/
     exists i t, p_threads p' !! i = Some t /\ (th_pc t = TSetup \/ exists v, th_pc t = TRecv v) /\
       (step listen_fd socket_path (LThread i) p' = Blocked \/ step listen_fd socket_path (LThread i) p' = Fault)).
Proof.
  intros H0 Hr Hf Hm Hlen Hr'. pose proof (run_counted _ _ _ _ _ (serving_counted s H0) Hr) as Hc. pose proof (run_counted _ _ _ _ _ Hc Hr') as Hc'.
  assert (Hst : stopping p) by (split; [done|]; by rewrite Hm). destruct (run_left _ _ _ _ _ Hst Hr') as [Hleft Hsame].
  split; [pose proof (total_bound (p_threads p)); lia|]. intros Hm' Hno.
  destruct (decide (Forall (fun t => steps_left t = 0%nat) (p_threads p'))) as [Hall|Hex].
  - left. cbn [step]. unfold main_step. rewrite Hm', (sessions_exact p' Hc') by (by rewrite Hsame).
    assert (Hz : sessions p' = 0%nat); [|by rewrite Hz]. unfold sessions.
    destruct (filter _ (p_threads p')) as [|t l] eqn:E; [done|]. assert (Hin : t ∈ filter (fun t => in_session t = true) (p_threads p')) by (rewrite E; left).
    apply list_elem_of_filter in Hin as [Hin Ht]. rewrite list.Forall_forall in Hall. specialize (Hall t Ht). unfold in_session, steps_left in *. by destruct (th_pc t).
  - right. apply not_Forall_Exists in Hex; [|apply _]. apply list.Exists_exists in Hex as (t & Ht & Hs). apply list_elem_of_lookup in Ht as [i Hi].
    exists i, t. split; [done|]. destruct (stuck_thread listen_fd socket_path p' i t) as [E|E]; [by rewrite Hm'|done|apply Hno| |exact E].
    exfalso. apply Hs. unfold steps_left. by rewrite E.
Qed.

(** ** Runs *)

Definition started : server := default (fresh_server ∅ []) (state_of (server_start id (bs "/s") (bs "/m") (bs "/p") (fresh_server ∅ []))).
Definition runs (ls : list label) : outcome process () := run_labels 3 (bs "/s") ls (serving started).
Definition process_of (o : outcome process ()) : process := match o with Ret _ p => p | _ => serving started end.
(** A client that has sent [d]. *)
Definition sent (d : list byte) : endpoint := Endpoint (plain <$> d) false [] [] [] ∅ [] x00.
(** Main accepts the next connection. *)
Definition accepting : list label := [LMain; LMain].

(** Two clients, one of which hangs up during its handshake, the signal, and the whole shutdown: main ends, its
    socket and the clients' connections are closed and the manager is destroyed. *)
Example server_runs :
  let ls := [LConnect (sent [])] ++ accepting ++ [LThread 0; LConnect (sent (bs "1"))] ++ accepting ++
            [LThread 1; LHangup 0; LSignal; LThread 0; LThread 0; LMain; LThread 0; LMain; LHangup 1; LThread 1; LThread 1; LThread 1; LThread 1; LMain; LMain] in
  match runs ls with
  | Ret _ p => p_main p = MExit /\ fdtab (sv_kern (p_sv p)) = {[0 := 0; 1 := 1; 2 := 2]} /\ bm (sv_b (p_sv p)) = None /\ (th_pc <$> p_threads p) = [TEnd; TEnd]
  | _ => False
  end.
Proof. vm_compute. repeat split. Qed.

(** A client connects and says nothing; its thread waits for its greeting.  The signal comes and main waits. *)
Definition idle_run : list label := [LConnect (sent [])] ++ accepting ++ [LThread 0; LSignal; LMain].

Lemma shutdown_waits_witness :
  exists p, runs idle_run = Ret () p /\ active_connections (g_stats (p_sv p)) = 1 /\ step 3 (bs "/s") LMain p = Ret () p.
Proof.
  destruct (runs idle_run) as [[] p| |] eqn:E; [|vm_compute in E; discriminate..].
  assert (Hp : sessions p = 1%nat /\ p_main p = MWait /\ length (p_threads p) = 1%nat) by (vm_compute in E; injection E as <-; vm_compute; repeat split).
  destruct Hp as (H1 & H2 & H3). destruct (shutdown_waits 3 (bs "/s") started idle_run p) as (Ha & Hb & _); [vm_compute; reflexivity|exact E|rewrite H3; lia|].
  exists p. split; [reflexivity|]. rewrite H1 in Ha, Hb. split; [exact Ha|exact (Hb H2)].
Defined.

(** Main waits as long as the client is silent. *)
Theorem idle_client_stalls_shutdown :
  let p := process_of (runs idle_run) in
  step 3 (bs "/s") (LThread 0) p = Blocked /\ forall n, run_labels 3 (bs "/s") (replicate n LMain) p = Ret () p.
Proof.
  intros p. assert (H : step 3 (bs "/s") LMain p = Ret () p) by (vm_compute; reflexivity). split; [vm_compute; reflexivity|].
  intros n. clearbody p. induction n as [|n IH]; cbn [replicate run_labels]; [done|]. by rewrite (bind_Ret _ _ _ _ _ H).
Qed.

(** The client hangs up after main has begun to wait. *)
Lemma shutdown_bounded_witness :
  exists p p', runs idle_run = Ret () p /\ run_labels 3 (bs "/s") [LHangup 0; LThread 0; LThread 0; LThread 0] p = Ret () p' /\
    step 3 (bs "/s") LMain p' = Ret () (set_main MStop p').
Proof.
  destruct (runs idle_run) as [[] p| |] eqn:E; [|vm_compute in E; discriminate..].
  assert (Hp : p_running p = false /\ p_main p = MWait /\ length (p_threads p) = 1%nat /\
    exists p', run_labels 3 (bs "/s") [LHangup 0; LThread 0; LThread 0; LThread 0] p = Ret () p' /\ p_main p' = MWait /\ (th_pc <$> p_threads p') = [TEnd])
    by (vm_compute in E; injection E as <-; split; [reflexivity|]; split; [reflexivity|]; split; [reflexivity|]; eexists; split; [vm_compute; reflexivity|];
        split; reflexivity).
  destruct Hp as (H1 & H2 & H3 & p' & Hr & H4 & H5).
  destruct (shutdown_bounded 3 (bs "/s") started idle_run p [LHangup 0; LThread 0; LThread 0; LThread 0] p') as [_ Hend];
    [vm_compute; reflexivity|exact E|exact H1|exact H2|rewrite H3; lia|exact Hr|].
  assert (Hone : forall i t, p_threads p' !! i = Some t -> th_pc t = TEnd).
  { intros i t Ht. assert (Hf : (th_pc <$> p_threads p') !! i = Some (th_pc t)) by (rewrite list_lookup_fmap, Ht; reflexivity).
    rewrite H5 in Hf. destruct i as [|i]; [by injection Hf as <-|by destruct i]. }
  exists p, p'. split; [reflexivity|]. split; [exact Hr|]. destruct (Hend H4) as [Hm|(i & t & Hi & Hpc & _)]; [|exact Hm|].
  - intros i p2 Hs. cbn [step] in Hs. rewrite H4 in Hs. destruct (p_threads p' !! i) as [t|] eqn:Ht; [|discriminate Hs]. rewrite (Hone i t Ht) in Hs. discriminate Hs.
  - rewrite (Hone i t Hi) in Hpc. destruct Hpc as [Hpc|[v Hpc]]; discriminate Hpc.
Defined.

(** A thread that main has created and that has not yet counted its connection is not
    waited for: main finds no connection and goes on to destroy the backends while
    the thread sets up its session. *)
Theorem uncounted_thread_not_waited_for :
  let p := process_of (runs ([LConnect (sent [])] ++ accepting ++ [LSignal; LMain; LMain; LThread 0])) in
  p_main p = MStop /\ (th_pc <$> p_threads p) = [TSetup] /\
  match step 3 (bs "/s") LMain p with Ret _ p' => p_main p' = MExit /\ bm (sv_b (p_sv p')) = None | _ => False end.
Proof. vm_compute. repeat split. Qed.

(** Started on a persistent directory that holds one file, the server cannot
    be shut down: the scan has left the file's entry with a single reference from
    two tables, the backend's index frees it, and the global index then reads
    freed memory. *)
Theorem shutdown_after_scan_faults :
  let dirs := {[ [bs "m"] := Dir; [bs "p"] := Dir; [bs "a"; bs "p"] := File 7 ]} in
  match server_main id [bs "server"; bs "/s"; bs "/m"; bs "/p"] (fresh_server dirs []) with
  | Ret (inr (fd, path)) s => run_labels fd path [LSignal; LMain; LMain; LMain] (serving s) = Fault
  | _ => False
  end.
Proof. vm_compute. reflexivity. Qed.
