(* ===== verification/TransportProofs.v ===== *)
(** * TransportProofs: handles are well formed and creating them leaks nothing *)

From S2P Require Import Prelude Socket Kernel KernelProofs Transport.

(** ** Well-formed handles *)

(** A descriptor; a peer and a packet size exactly where the type has them. *)
Record transport_wf (t : transport) : Prop := {
  tw_fd : 0 <= tr_fd t;
  tw_size : if decide (tr_type t = TRANSPORT_UDP) then 0 < tr_max_packet_size t else tr_max_packet_size t = 0;
  tw_peer : is_Some (tr_peer t) -> tr_type t = TRANSPORT_UDP;
  tw_client : tr_type t = TRANSPORT_UDP -> tr_is_server t = false -> is_Some (tr_peer t)
}.

(** The descriptors of the process and the open descriptions. *)
Definition fds (k : kernel) := (fdtab k, ofds k).

(** [k'] is [k] with one more descriptor, [fd], on a new socket. *)
Definition new_socket (fd : Z) (k k' : kernel) : Prop :=
  0 <= fd /\ fdtab k !! fd = None /\ fdtab k' = <[fd:=fresh_id (ofds k)]> (fdtab k) /\
  ofds k' = <[fresh_id (ofds k):=Ofd None 0 true true]> (ofds k).

Lemma fds_refused k b k' : refused k = Ret b k' -> fds k' = fds k.
Proof. unfold refused. destruct (sched k) as [|[]]; by intros [= _ <-]. Qed.

Lemma fds_attach k r k' : sys_attach k = Ret r k' -> fds k' = fds k /\ (r = 0 \/ r = -1).
Proof. intros Hr. unfold sys_attach in Hr. minv Hr. apply fds_refused in Hr0. injection Hr as <- <-. split; [done|]. destruct a; auto. Qed.

Lemma fds_unlink p k r k' : sys_unlink p k = Ret r k' -> fds k' = fds k.
Proof.
  intros Hr. unfold sys_unlink in Hr. minv Hr. apply fds_refused in Hr0 as <-. minv Hr. injection Hr0 as <- <-.
  destruct (resolve s p) as [d|]; [|by injection Hr as _ <-]. destruct (node_at s d) as [[|i]|]; try by injection Hr as _ <-.
  destruct a; [by injection Hr as _ <-|]. minv Hr. injection Hr0 as _ <-. by injection Hr as _ <-.
Qed.

Lemma socket_new k fd k' : sys_socket k = Ret fd k' -> fd = -1 /\ fds k' = fds k \/ new_socket fd k k'.
Proof.
  intros Hr. unfold sys_socket in Hr. minv Hr. apply fds_refused in Hr0. injection Hr0 as H1 H2.
  destruct a; [injection Hr as <- <-; left; unfold fds; split; congruence|].
  injection Hr as <- <-. right. unfold new_socket. simpl. rewrite H1, H2. split; [apply lowest_free_nonneg|]. split; [apply lowest_free_None|done].
Qed.

(** Closing the new descriptor gives the descriptors back. *)
Lemma socket_closed fd k k1 k2 u k3 : new_socket fd k k1 -> fds k2 = fds k1 -> sys_close_fd fd k2 = Ret u k3 -> fdtab k3 = fdtab k.
Proof.
  intros (_ & H1 & H2 & _) [= E1 E2] [= _ <-]. simpl. rewrite E1, H2. by apply delete_insert_id.
Qed.

Lemma new_socket_fds fd k k1 k2 : new_socket fd k k1 -> fds k2 = fds k1 -> new_socket fd k k2.
Proof. intros (H1 & H2 & H3 & H4) [= E1 E2]. split; [done|]. split; [done|]. split; congruence. Qed.

(** What creating a handle does to the descriptors: nothing without a handle,
    one new descriptor on a new socket with one. *)
Definition clean (r : option transport) (k k' : kernel) : Prop :=
  match r with
  | None => fdtab k' = fdtab k
  | Some t => new_socket (tr_fd t) k k'
  end.

(** The same for the helpers that return the socket or -1. *)
Definition clean_fd (fd : Z) (k k' : kernel) : Prop := fd = -1 /\ fdtab k' = fdtab k \/ new_socket fd k k'.

Lemma abandon_clean sock k k1 k2 r k3 : new_socket sock k k1 -> fds k2 = fds k1 -> abandon_socket sock k2 = Ret r k3 -> clean_fd r k k3.
Proof.
  intros H1 H2 Hr. unfold abandon_socket in Hr. minv Hr. injection Hr as <- <-. left. split; [done|]. by eapply socket_closed.
Qed.

(** Binding, and listening where the protocol has it. *)
Lemma attach_clean sock k k1 r k2 (rest : M kernel Z) :
  new_socket sock k k1 ->
  (forall k3 r k4, fds k3 = fds k1 -> rest k3 = Ret r k4 -> clean_fd r k k4) ->
  (b ← sys_attach; if b <? 0 then abandon_socket sock else rest) k1 = Ret r k2 -> clean_fd r k k2.
Proof.
  intros Hn Hrest Hr. minv Hr. apply fds_attach in Hr0 as [Hf [-> | ->]]; simpl in Hr; [by eapply Hrest|].
  by eapply abandon_clean.
Qed.

Lemma ret_socket_clean sock k k1 k3 r k4 : new_socket sock k k1 -> fds k3 = fds k1 -> (mret sock : M kernel Z) k3 = Ret r k4 -> clean_fd r k k4.
Proof. intros Hn Hf [= <- <-]. right. by eapply new_socket_fds. Qed.

Section Resolver.
Context (inet_pton gethostbyname : list byte -> option Z).

(** A fresh socket, then [rest]. *)
Lemma with_socket_clean k r k' (rest : Z -> M kernel Z) :
  (forall sock k1 r k2, new_socket sock k k1 -> rest sock k1 = Ret r k2 -> clean_fd r k k2) ->
  (sock ← sys_socket; if sock <? 0 then mret (-1) else rest sock) k = Ret r k' -> clean_fd r k k'.
Proof.
  intros Hrest Hr. minv Hr. apply socket_new in Hr0 as [[-> [= E1 _]]|Hn].
  - simpl in Hr. injection Hr as <- <-. by left.
  - rewrite (proj2 (Z.ltb_ge _ _) (proj1 Hn)) in Hr. by eapply Hrest.
Qed.

Lemma unix_server_clean path k r k' : create_unix_server path k = Ret r k' -> clean_fd r k k'.
Proof.
  intros Hr. refine (with_socket_clean k r k' _ _ Hr). intros sock k1 r1 k2 Hn H.
  minv H. destruct path as [p|]; [|done]. injection H0 as <- <-. minv H. apply fds_unlink in H0. pose proof (new_socket_fds _ _ _ _ Hn H0) as Hn'.
  eapply attach_clean; [exact Hn'| |exact H]. intros k3 r2 k4 Hf H3. eapply (attach_clean sock k k3); [by eapply new_socket_fds| |exact H3].
  intros k5 r3 k6 Hf'. apply ret_socket_clean with k3; [by eapply new_socket_fds|done].
Qed.

Lemma tcp_server_clean host port k r k' : create_tcp_server inet_pton gethostbyname host port k = Ret r k' -> clean_fd r k k'.
Proof.
  intros Hr. refine (with_socket_clean k r k' _ _ Hr). intros sock k1 r1 k2 Hn H.
  destruct (server_ip _ _ host); [|by eapply abandon_clean].
  eapply attach_clean; [exact Hn| |exact H]. intros k3 r2 k4 Hf H3. eapply (attach_clean sock k k3); [by eapply new_socket_fds| |exact H3].
  intros k5 r3 k6 Hf'. apply ret_socket_clean with k3; [by eapply new_socket_fds|done].
Qed.

Lemma udp_server_clean host port k r k' : create_udp_server inet_pton gethostbyname host port k = Ret r k' -> clean_fd r k k'.
Proof.
  intros Hr. refine (with_socket_clean k r k' _ _ Hr). intros sock k1 r1 k2 Hn H.
  destruct (server_ip _ _ host); [|by eapply abandon_clean].
  eapply attach_clean; [exact Hn| |exact H]. intros k3 r2 k4 Hf. by apply ret_socket_clean with k1.
Qed.

Lemma malloc_fds k b k' : sys_malloc k = Ret b k' -> fds k' = fds k.
Proof. unfold sys_malloc. destruct (k_oom k); by intros [= _ <-]. Qed.

Lemma packet_size_pos n : 0 < packet_size n.
Proof. unfold packet_size. destruct (0 <? n) eqn:E; lia. Qed.

Lemma clean_fds r k k1 k2 : fds k1 = fds k -> clean r k1 k2 -> clean r k k2.
Proof.
  intros [= E1 E2] H. destruct r as [t|]; simpl in *; [|congruence]. destruct H as (H1 & H2 & H3 & H4).
  split; [done|]. rewrite <- E1, <- E2. done.
Qed.

Lemma server_create_ok config k r k' : transport_server_create inet_pton gethostbyname config k = Ret r k' ->
  clean r k k' /\ forall t, r = Some t -> transport_wf t /\ tr_is_server t = true /\ config_type <$> config = Some (tr_type t).
Proof.
  intros Hr. unfold transport_server_create in Hr. destruct config as [c|]; [|by injection Hr as <- <-].
  minv Hr. apply malloc_fds in Hr0. destruct a; cbn [negb] in Hr; [|injection Hr as <- <-; split; [by injection Hr0|done]].
  minv Hr. assert (Hcl : clean_fd a s s0).
  { destruct c; [by eapply unix_server_clean|by eapply tcp_server_clean|by eapply udp_server_clean]. }
  destruct Hcl as [[-> Hf]|Hn].
  - simpl in Hr. injection Hr as <- <-. split; [|done]. by apply (clean_fds None k s).
  - rewrite (proj2 (Z.ltb_ge _ _) (proj1 Hn)) in Hr. injection Hr as <- <-. split; [by apply (clean_fds (Some _) k s)|].
    intros t [= <-]. split; [|done]. split; simpl; [apply Hn| |by intros []|done].
    destruct c; simpl; [done|done|apply packet_size_pos].
Qed.

Lemma accept_ok server k r k' : (forall t, server = Some t -> transport_wf t) -> transport_accept server k = Ret r k' ->
  clean r k k' /\ forall t, r = Some t -> transport_wf t /\ tr_is_server t = false /\ tr_type <$> server = Some (tr_type t).
Proof.
  intros Hwf Hr. unfold transport_accept in Hr. destruct server as [s|]; [|by injection Hr as <- <-].
  destruct (tr_is_server s); cbn [negb] in Hr; [|by injection Hr as <- <-]. case_decide as Ht; [by injection Hr as <- <-|].
  minv Hr. apply socket_new in Hr0 as [[-> Hf]|Hn]; [simpl in Hr; injection Hr as <- <-; split; [by injection Hf|done]|].
  rewrite (proj2 (Z.ltb_ge _ _) (proj1 Hn)) in Hr. minv Hr. apply malloc_fds in Hr0. destruct a0; cbn [negb] in Hr.
  - injection Hr as <- <-. split; [by eapply new_socket_fds|]. intros t [= <-]. split; [|done].
    split; simpl; [apply Hn| |by intros []|done]. by rewrite decide_False.
  - minv Hr. injection Hr as <- <-. split; [|done]. simpl. by eapply socket_closed.
Qed.

Lemma connect_socket_ok fd t k k1 r k' : new_socket fd k k1 -> tr_fd t = fd -> connect_socket fd t k1 = Ret r k' ->
  clean r k k' /\ (r = None \/ r = Some t).
Proof.
  intros Hn <- Hr. unfold connect_socket in Hr. minv Hr. apply fds_attach in Hr0 as [Hf [-> | ->]]; simpl in Hr.
  - injection Hr as <- <-. split; [by eapply new_socket_fds|by right].
  - minv Hr. injection Hr as <- <-. split; [by eapply socket_closed|by left].
Qed.

Lemma client_connect_ok config k r k' : transport_client_connect inet_pton gethostbyname config k = Ret r k' ->
  clean r k k' /\ forall t, r = Some t -> transport_wf t /\ tr_is_server t = false /\ config_type <$> config = Some (tr_type t).
Proof.
  intros Hr. unfold transport_client_connect in Hr. destruct config as [c|]; [|by injection Hr as <- <-].
  minv Hr. apply malloc_fds in Hr0. destruct a; cbn [negb] in Hr; [|injection Hr as <- <-; split; [by injection Hr0|done]].
  minv Hr. apply socket_new in Hr1 as [[-> Hf]|Hn].
  { simpl in Hr. injection Hr as <- <-. split; [|done]. apply (clean_fds None k s _ Hr0). by injection Hf. }
  rewrite (proj2 (Z.ltb_ge _ _) (proj1 Hn)) in Hr.
  assert (Hstream : forall ty r, ty <> TRANSPORT_UDP -> r = None \/ r = Some (Transport ty a false None 0) ->
    forall t, r = Some t -> transport_wf t /\ tr_is_server t = false /\ Some ty = Some (tr_type t)).
  { intros ty r0 Hty Hr0' t ->. destruct Hr0' as [|[= ->]]; [done|]. split; [|done].
    split; simpl; [apply Hn|by rewrite decide_False|by intros []|done]. }
  destruct c as [path|host port|host port n]; minv Hr.
  - destruct path; [|done]. injection Hr1 as <- <-. destruct (connect_socket_ok a _ _ _ _ _ Hn (eq_refl : tr_fd (Transport _ a _ _ _) = a) Hr) as [H1 H2].
    split; [by apply (clean_fds _ k s)|by apply (Hstream TRANSPORT_UNIX)].
  - destruct host as [h|]; [|done]. injection Hr1 as <- <-. destruct (host_ip _ _ h).
    + destruct (connect_socket_ok a _ _ _ _ _ Hn (eq_refl : tr_fd (Transport _ a _ _ _) = a) Hr) as [H1 H2]. split; [by apply (clean_fds _ k s)|by apply (Hstream TRANSPORT_TCP)].
    + minv Hr. injection Hr as <- <-. split; [|done]. apply (clean_fds None k s _ Hr0). simpl. by eapply socket_closed.
  - destruct host as [h|]; [|done]. injection Hr1 as <- <-. destruct (host_ip _ _ h) as [ip|].
    + injection Hr as <- <-. split; [by apply (clean_fds (Some _) k s)|]. intros t [= <-]. split; [|done].
      split; simpl; [apply Hn|apply packet_size_pos|done|done].
    + minv Hr. injection Hr as <- <-. split; [|done]. apply (clean_fds None k s _ Hr0). simpl. by eapply socket_closed.
Qed.
End Resolver.

(** ** Handles a process can have *)

Section Handles.
Context (inet_pton gethostbyname : list byte -> option Z).

(** Created, accepted or connected, and possibly updated by receiving. *)
Inductive obtained : transport -> Prop :=
| ob_server config k t k' : transport_server_create inet_pton gethostbyname config k = Ret (Some t) k' -> obtained t
| ob_accept t0 k t k' : obtained t0 -> transport_accept (Some t0) k = Ret (Some t) k' -> obtained t
| ob_client config k t k' : transport_client_connect inet_pton gethostbyname config k = Ret (Some t) k' -> obtained t
| ob_recv t0 n s d t s' : obtained t0 -> transport_recv (Some t0) n s = Ret (d, Some t) s' -> obtained t.

Lemma set_peer_wf a t : tr_type t = TRANSPORT_UDP -> transport_wf t -> transport_wf (set_peer a t).
Proof. intros Ht [H1 H2 H3 H4]. split; simpl; try done. Qed.

Lemma recv_wf t0 n s d t s' : transport_wf t0 -> transport_recv (Some t0) n s = Ret (d, Some t) s' -> transport_wf t.
Proof.
  intros Hwf Hr. unfold transport_recv in Hr. case_decide as Ht; minv Hr.
  - destruct a as [[a x]|]; injection Hr as _ <- _; by apply set_peer_wf.
  - by destruct a; injection Hr as _ <- _.
Qed.

Lemma obtained_wf t : obtained t -> transport_wf t.
Proof.
  induction 1 as [config k t k' H|t0 k t k' _ IH H|config k t k' H|t0 n s d t s' _ IH H].
  - by eapply (server_create_ok _ _ config k (Some t) k').
  - refine (proj1 (proj2 (accept_ok (Some t0) k (Some t) k' _ H) t eq_refl)). by intros ? [= <-].
  - by eapply (client_connect_ok _ _ config k (Some t) k').
  - by eapply recv_wf.
Qed.
End Handles.

(** ** What a handle can do *)

(** Descriptors pass in both directions: a sent one is attached to its byte, a received
    one gets the lowest free number. *)
Definition passes_fds (t : transport) : Prop :=
  (forall fd o b s, fdtab (io_k s) !! fd = Some o -> wr_sched (io_e s) = [] ->
     exists s', transport_send_fd (Some t) fd b s = Ret 0 s' /\ tx (io_e s') = tx (io_e s) ++ [Cell b (Some o)]) /\
  (forall b o rest s, rd_sched (io_e s) = [] -> rx (io_e s) = Cell b (Some o) :: rest ->
     exists s', transport_recv_fd (Some t) s = Ret (lowest_free (fdtab (io_k s)), Some b) s' /\ rx (io_e s') = rest /\
       fdtab (io_k s') = <[lowest_free (fdtab (io_k s)):=o]> (fdtab (io_k s))).
(** Both calls fail at once. *)
Definition refuses_fds (t : transport) : Prop :=
  (forall fd b s, transport_send_fd (Some t) fd b s = Ret (-1) s) /\ (forall s, transport_recv_fd (Some t) s = Ret (-1, None) s).

(** Accepting gives a connected handle of the same type with a new descriptor. *)
Definition accepts (t : transport) : Prop :=
  forall k, sched k = [] -> k_oom k = [] ->
    exists c k', transport_accept (Some t) k = Ret (Some c) k' /\ tr_type c = tr_type t /\ tr_is_server c = false /\ new_socket (tr_fd c) k k'.
Definition refuses_accept (t : transport) : Prop := forall k, transport_accept (Some t) k = Ret None k.

(** Data joins what was sent before, and is read in any portions. *)
Definition streams (t : transport) : Prop :=
  (forall d s, wr_sched (io_e s) = [] ->
     exists s', transport_send (Some t) (Some d) s = Ret (Z.of_nat (length d)) s' /\ tx (io_e s') = tx (io_e s) ++ (plain <$> d) /\ dg_out s' = dg_out s) /\
  (forall n s, rd_sched (io_e s) = [] -> rx (io_e s) <> [] ->
     exists s', transport_recv (Some t) n s = Ret (Some (c_byte <$> take n (rx (io_e s))), Some t) s' /\ rx (io_e s') = drop n (rx (io_e s))).
(** Data is one datagram, to the peer if there is one; what is received is one datagram
    cut to the buffer, and its sender is the peer from then on. *)
Definition sends_datagrams (t : transport) : Prop :=
  (forall d s, sched (io_k s) = [] -> Z.of_nat (length d) <= udp_max_payload ->
     transport_send (Some t) (Some d) s =
       match tr_peer t with
       | Some a => Ret (Z.of_nat (length d)) (Tio (io_k s) (io_e s) (dg_in s) (dg_out s ++ [(a, d)]))
       | None => Ret (-1) s
       end) /\
  (forall n a d q s, sched (io_k s) = [] -> dg_in s = (a, d) :: q ->
     transport_recv (Some t) n s = Ret (Some (take n d), Some (set_peer a t)) (Tio (io_k s) (io_e s) q (dg_out s))).

Lemma unix_passes t : tr_type t = TRANSPORT_UNIX -> passes_fds t.
Proof.
  intros Ht. unfold passes_fds, transport_send_fd, transport_recv_fd. rewrite Ht, bool_decide_eq_true_2 by done. split.
  - intros fd o b s Hfd Hw. unfold fdpass_send, onie, mbind, M_bind, sys_sendmsg_fd. simpl. rewrite Hw, Hfd. eexists. split; [reflexivity|]. done.
  - intros b o rest s Hr Hx. unfold fdpass_recv, onie, mbind, M_bind, sys_recvmsg. simpl. rewrite Hr, Hx. simpl. eexists. split; [reflexivity|]. done.
Qed.
Lemma other_refuses_fds t : tr_type t <> TRANSPORT_UNIX -> refuses_fds t.
Proof. intros Ht. unfold refuses_fds, transport_send_fd, transport_recv_fd. by rewrite bool_decide_eq_false_2. Qed.

Lemma server_accepts t : tr_type t <> TRANSPORT_UDP -> tr_is_server t = true -> accepts t.
Proof.
  intros Ht Hs k Hk Ho. unfold transport_accept. rewrite Hs, decide_False by done. cbn [negb].
  assert (Ha : exists fd k1, sys_accept k = Ret fd k1 /\ 0 <= fd /\ k_oom k1 = []).
  { unfold sys_accept, sys_socket, refused, mbind, M_bind. rewrite Hk. eexists _, _. split; [reflexivity|]. split; [apply lowest_free_nonneg|done]. }
  destruct Ha as (fd & k1 & Ha & Hfd & Ho1). run Ha. rewrite (proj2 (Z.ltb_ge _ _) Hfd).
  assert (Hm : sys_malloc k1 = Ret true k1) by (unfold sys_malloc; by rewrite Ho1). run Hm. eexists _, k1. split; [reflexivity|].
  split; [done|]. split; [done|]. destruct (socket_new _ _ _ Ha) as [[-> _]|Hn]; [lia|exact Hn].
Qed.
Lemma other_refuses_accept t : tr_type t = TRANSPORT_UDP \/ tr_is_server t = false -> refuses_accept t.
Proof. intros H k. unfold transport_accept. destruct (tr_is_server t); [|done]. destruct H as [H|H]; [|done]. by rewrite decide_True. Qed.

Lemma stream_streams t : tr_type t <> TRANSPORT_UDP -> streams t.
Proof.
  intros Ht. unfold streams, transport_send, transport_recv. split.
  - intros d s Hw. rewrite decide_False by done. unfold onie, mbind, M_bind, sys_write. simpl. rewrite Hw. eexists. split; [reflexivity|]. done.
  - intros n s Hr Hx. rewrite decide_False by done. unfold onie, mbind, M_bind, sys_read. simpl. rewrite Hr. destruct (rx (io_e s)) as [|c l] eqn:E; [done|].
    eexists. split; [reflexivity|]. done.
Qed.
Lemma udp_datagrams t : tr_type t = TRANSPORT_UDP -> sends_datagrams t.
Proof.
  intros Ht. unfold sends_datagrams, transport_send, transport_recv. split.
  - intros d s Hs Hd. rewrite decide_True by done. destruct (tr_peer t) as [a|]; [|done].
    assert (Hr : onik refused s = Ret false s) by (unfold onik, refused; rewrite Hs; by destruct s). run Hr. by rewrite (proj2 (Z.ltb_ge _ _) Hd).
  - intros n a d q s Hs Hq. rewrite decide_True by done. unfold mbind, M_bind, sys_recvfrom, refused. by rewrite Hs, Hq.
Qed.



(** C35: creating a handle leaks nothing.  Whatever the kernel and the resolver
    answer at each step, [transport_server_create], [transport_accept] and
    [transport_client_connect] either return a handle and have opened exactly
    its descriptor, or return NULL and leave the descriptor table as it was. *)
Theorem transport_creation_clean inet_pton gethostbyname :
  (forall config k r k', transport_server_create inet_pton gethostbyname config k = Ret r k' -> clean r k k') /\
  (forall config k r k', transport_client_connect inet_pton gethostbyname config k = Ret r k' -> clean r k k') /\
  (forall t k r k', transport_wf t -> transport_accept (Some t) k = Ret r k' -> clean r k k').
Proof.
  split; [|split].
  - intros config k r k' H. by apply server_create_ok in H as [H _].
  - intros config k r k' H. by apply client_connect_ok in H as [H _].
  - intros t k r k' Hwf H. apply accept_ok in H as [H _]; [done|]. by intros ? [= <-].
Qed.

(** The last of the three refusable calls fails: the listening socket is closed again. *)
Lemma transport_creation_clean_witness :
  let k := Kernel ∅ ∅ ∅ {[0 := 0]} [IoPartial 0; IoPartial 0; IoFail] [] 0 [] [] in
  exists k', transport_server_create (fun _ => None) (fun _ => None) (Some (TcpCfg None 9999)) k = Ret None k' /\ fdtab k' = {[0 := 0]}.
Proof.
  set (k := Kernel ∅ ∅ ∅ {[0 := 0]} _ [] 0 [] []).
  destruct (transport_server_create (fun _ => None) (fun _ => None) (Some (TcpCfg None 9999)) k) as [r k'| |] eqn:E;
    [|vm_compute in E; discriminate E..].
  assert (Hr : r = None) by (vm_compute in E; by injection E). subst r. exists k'. split; [exact E|].
  exact (proj1 (transport_creation_clean (fun _ => None) (fun _ => None)) _ _ _ _ E).
Defined.
