(* ===== verification/Legacy.v ===== *)
(** * Legacy: the first server and client, of objmapper/src

    [server.c] and [client.c] below objmapper/src, on top of the storage and the
    transport libraries: a client names its operation mode once and then sends
    URIs; the server answers with a descriptor, or with the size and the data.
    A connection is served from its acceptance to its end, on a thread of its own
    that is not represented (its creation can fail); the length of the queue of
    pending connections, which [max_connections] sets, has no effect here.  [splice] moves data from or to a pipe; none of these
    programs has one. *)

From S2P Require Import Prelude Socket Kernel Storage Transport.

(** ** Constants and configurations *)

Definition OBJMAPPER_SOCK_PATH : list byte := bs "/tmp/objmapper.sock".
Definition OBJMAPPER_TCP_PORT : Z := 9999.
Definition OBJMAPPER_UDP_PORT : Z := 9998.
Definition OP_FDPASS : byte := "1"%byte.
Definition OP_COPY : byte := "2"%byte.
Definition OP_SPLICE : byte := "3"%byte.

(** The transport of a configuration with its part of the union. *)
Inductive net_config :=
| NetUnix (socket_path : option (list byte))
| NetTcp (host : option (list byte)) (port : Z)
| NetUdp (host : option (list byte)) (port : Z).

Record client_config_t := ClientConfig { cc_net : net_config; cc_operation_mode : byte }.

Record server_config_t := ServerConfig {
  vc_net : net_config;
  vc_backing_dir : option (list byte);
  vc_cache_dir : option (list byte);
  vc_cache_limit : Z;
  vc_max_connections : Z
}.

Definition transport_cfg (c : net_config) : transport_config_t :=
  match c with
  | NetUnix path => UnixCfg (Some (default OBJMAPPER_SOCK_PATH path))
  | NetTcp host port => TcpCfg host (if 0 <? port then port else OBJMAPPER_TCP_PORT)
  | NetUdp host port => UdpCfg host (if 0 <? port then port else OBJMAPPER_UDP_PORT) 8192
  end.

(** [ssize_t] on the wire: eight bytes in the machine's (little-endian) order. *)
Definition ssize_bytes (n : Z) : list byte := le_bytes 8 n.
Definition ssize_val (d : list byte) : Z := let n := le_val d in if n <? 2 ^ 63 then n else n - 2 ^ 64.

(** ** System calls *)

(** [splice] between a file and a socket: neither is a pipe (EINVAL). *)
Definition sys_splice (fd_in fd_out : Z) : M kernel Z := mret (-1).

(** [mkstemp] followed by [unlink]: a new file without a name. *)
Definition sys_mkstemp_unlinked : M kernel Z :=
  r ← refused;
  k ← get;
  if (r : bool) then mret (-1)
  else match resolve k (bs "/tmp") with
       | Some d =>
           if is_dir k d then
             let i := fresh_id (inodes k) in
             _ ← put (set_inodes (<[i:=[]]> (inodes k)) k);
             install (Ofd (Some i) 0 true true)
           else mret (-1)
       | None => mret (-1)
       end.

(** ** The server *)

Record lserver := LServer { lv_io : tio; lv_p : gmap Z (Z * Z); lv_g : option object_storage }.

Definition onio {A} (m : M tio A) : M lserver A := fun s =>
  match m (lv_io s) with
  | Ret a t => Ret a (LServer t (lv_p s) (lv_g s))
  | Blocked => Blocked
  | Fault => Fault
  end.

(** A call of the storage library. *)
Definition onst {A} (m : M sstate A) : M lserver A := fun s =>
  match m (SState (io_k (lv_io s)) (lv_p s) (lv_g s)) with
  | Ret a x => Ret a (LServer (set_io_k (sk x) (lv_io s)) (sp x) (sg x))
  | Blocked => Blocked
  | Fault => Fault
  end.

Record session_t := Session { se_transport : transport; se_mode : byte; se_caps : transport_caps_t }.

(** [while (offset < size)] around [splice]. *)
Fixpoint splice_loop (fuel : nat) (fd trans_fd offset size : Z) : M kernel () :=
  if offset <? size then
    match fuel with
    | O => block
    | S fuel =>
        n ← sys_splice fd trans_fd;
        if n <=? 0 then mret () else splice_loop fuel fd trans_fd (offset + n) size
    end
  else mret ().

(** [while ((n = read(fd, data_buf, 8192)) > 0)]; a short send is not repeated. *)
Fixpoint send_loop (size fuel : nat) (fd : Z) (t : transport) : M tio () :=
  match fuel with
  | O => block
  | S fuel =>
      r ← onik (sys_fread fd size);
      match r with
      | inl [] | inr _ => mret ()
      | inl d =>
          sent ← transport_send (Some t) (Some d);
          if sent <? 0 then mret () else send_loop size fuel fd t
      end
  end.

Definition file_length (k : kernel) (fd : Z) : nat :=
  match ofd_of k fd with
  | Some (_, Ofd (Some i) _ _ _) => length (default [] (inodes k !! i))
  | _ => 0
  end.

Definition DATA_BUF : nat := Z.to_nat 8192.

(** Every round takes at least one byte of the file. *)
Definition send_file (fd : Z) (t : transport) : M tio () :=
  _ ← onik (sys_rewind fd);
  s ← get;
  send_loop DATA_BUF (S (file_length (io_k s) fd)) fd t.

(** The body of the loop of [handle_client]: the answer to the request [uri]. *)
Definition answer_request (se : session_t) (uri : list byte) : M lserver () :=
  x ← onst (storage_get_fd (Some uri));
  let '(fd, info) := x in
  if fd <? 0 then
    _ ← onio (transport_send (Some (se_transport se)) (Some (ssize_bytes 0))); mret ()
  else
    info ← deref info;
    if bool_decide (se_mode se = OP_FDPASS) && supports_fdpass (se_caps se) then
      _ ← onio (transport_send_fd (Some (se_transport se)) fd OP_FDPASS);
      onio (onik (sys_close_fd fd))
    else if bool_decide (se_mode se = OP_SPLICE) && is_stream (se_caps se) then
      _ ← onio (transport_send (Some (se_transport se)) (Some (ssize_bytes (oi_size info))));
      _ ← onio (onik (splice_loop (Z.to_nat (oi_size info)) fd (transport_get_fd (Some (se_transport se))) 0 (oi_size info)));
      onio (onik (sys_close_fd fd))
    else
      _ ← onio (transport_send (Some (se_transport se)) (Some (ssize_bytes (oi_size info))));
      _ ← onio (send_file fd (se_transport se));
      onio (onik (sys_close_fd fd)).

(** One round of the loop of [handle_client]: the request is the buffer up to its
    first NUL; [None] when nothing came. *)
Definition session_round (se : session_t) : M lserver (option session_t) :=
  r ← onio (transport_recv (Some (se_transport se)) (Z.to_nat 1023));
  match r with
  | (Some (b :: d), Some t) =>
      let se := Session t (se_mode se) (se_caps se) in
      _ ← answer_request se (c_str (b :: d));
      mret (Some se)
  | _ => mret None
  end.

(** [while ((bytes_read = transport_recv(...)) > 0)]: every round takes at least
    one byte of input. *)
Fixpoint session_loop (fuel : nat) (se : session_t) : M lserver () :=
  match fuel with
  | O => block
  | S fuel =>
      r ← session_round se;
      match r with
      | Some se => session_loop fuel se
      | None => mret ()
      end
  end.

Definition handle_client (se : session_t) : M lserver () :=
  _ ← onio (transport_send (Some (se_transport se)) (Some (bs "200")));
  s ← get;
  _ ← session_loop (S (length (rx (io_e (lv_io s))))) se;
  onio (onik (transport_close (Some (se_transport se)))).

(** The session of an accepted connection: the mode it asks for, with
    descriptor passing replaced by copying where the transport has none. *)
Definition open_session (client : transport) : M lserver (option session_t) :=
  r ← onio (transport_recv (Some client) 1);
  let mode := match r.1 with Some (m :: _) => m | _ => OP_COPY end in
  caps ← deref (transport_get_caps (Some client) true).2;
  let mode := if bool_decide (mode = OP_FDPASS) && negb (supports_fdpass caps) then OP_COPY else mode in
  m ← onst (onsk sys_malloc);
  if negb m then _ ← onio (onik (transport_close (Some client))); mret None
  else mret (Some (Session client mode caps)).

(** One round of the accept loop. *)
Definition serve_connection (server : transport) : M lserver () :=
  c ← onio (onik (transport_accept (Some server)));
  match c with
  | None => mret ()
  | Some client =>
      se ← open_session client;
      match se with
      | None => mret ()
      | Some se =>
          no_thread ← onio (onik refused);
          if no_thread : bool then onio (onik (transport_close (Some client))) else handle_client se
      end
  end.

Section Start.
Variables inet_pton gethostbyname : list byte -> option Z.

(** [objmapper_server_start] up to the accept loop: the listening handle, or the
    value the function returns (a UDP server is cleaned up at once). *)
Definition objmapper_server_start (config : option server_config_t) : M lserver (transport + Z) :=
  match config with
  | None => mret (inr (-1))
  | Some config =>
      match vc_backing_dir config with
      | None => mret (inr (-1))
      | Some dir =>
          ok ← onst (storage_init (Some (StorageConfig (Some dir) (vc_cache_dir config) (vc_cache_limit config) 0)));
          if negb ok then mret (inr (-1))
          else
            t ← onio (onik (transport_server_create inet_pton gethostbyname (Some (transport_cfg (vc_net config)))));
            match t with
            | None => _ ← onst storage_cleanup; mret (inr (-1))
            | Some t =>
                caps ← deref (transport_get_caps (Some t) true).2;
                if is_connection_oriented caps then mret (inl t)
                else
                  _ ← onio (onik (transport_close (Some t)));
                  _ ← onst storage_cleanup;
                  mret (inr 0)
            end
      end
  end.

(** ** The client *)

(** Up to the wait for the acknowledgement. *)
Definition connect_send (config : client_config_t) : M tio (option transport) :=
  t ← onik (transport_client_connect inet_pton gethostbyname (Some (transport_cfg (cc_net config))));
  match t with
  | None => mret None
  | Some t =>
      n ← transport_send (Some t) (Some [cc_operation_mode config]);
      if negb (n =? 1) then _ ← onik (transport_close (Some t)); mret None
      else mret (Some t)
  end.

Definition connect_finish (t : transport) : M tio Z :=
  r ← transport_recv (Some t) 3;
  if negb (bool_decide (length (default [] r.1) = 3%nat)) then _ ← onik (transport_close (Some t)); mret (-1)
  else mret (transport_get_fd (Some t)).

Definition objmapper_client_connect (config : option client_config_t) : M tio Z :=
  match config with
  | None => mret (-1)
  | Some config =>
      t ← connect_send config;
      match t with
      | None => mret (-1)
      | Some t => connect_finish t
      end
  end.
End Start.

(** [while (written < n)] around [write]. *)
Fixpoint write_out (fuel : nat) (fd : Z) (d : list byte) : M kernel bool :=
  match d, fuel with
  | [], _ => mret true
  | _, O => block
  | _, S fuel =>
      w ← sys_fwrite fd d;
      match w with
      | inl (S _ as n) => write_out fuel fd (drop n d)
      | _ => mret false
      end
  end.

(** [while (total_read < size)]: every round takes at least one byte of input;
    the end of the input ends the loop. *)
Fixpoint recv_loop (buf fuel : nat) (fd size total : Z) : M tio bool :=
  if total <? size then
    match fuel with
    | O => block
    | S fuel =>
        r ← onie (sys_read (Z.to_nat (Z.min (size - total) (Z.of_nat buf))));
        match r with
        | inl [] | inr _ => mret true
        | inl d =>
            ok ← onik (write_out (length d) fd d);
            if ok : bool then recv_loop buf fuel fd size (total + Z.of_nat (length d)) else mret false
        end
    end
  else mret true.

(** Send the request; [true] when it went out whole. *)
Definition request_send (uri : list byte) : M tio bool :=
  w ← onie (sys_write uri);
  mret (match w with inl n => bool_decide (n = length uri) | inr _ => false end).

(** Wait for the answer of the server. *)
Definition request_finish (mode : byte) : M tio Z :=
  if bool_decide (mode = OP_FDPASS) then
    r ← fdpass_recv;
    mret (if r.1 <? 0 then -1 else r.1)
  else
    r ← onie (sys_read 8);
    match r with
    | inr _ => mret (-1)
    | inl d =>
        if negb (bool_decide (length d = 8%nat)) then mret (-1)
        else
          let size := ssize_val d in
          if size <=? 0 then mret (-1)
          else
            fd ← onik sys_mkstemp_unlinked;
            if fd <? 0 then mret (-1)
            else
              s ← get;
              ok ← recv_loop DATA_BUF (S (length (rx (io_e s)))) fd size 0;
              if negb ok then _ ← onik (sys_close_fd fd); mret (-1)
              else _ ← onik (sys_rewind fd); mret fd
    end.

Definition objmapper_client_request (sock : Z) (uri : option (list byte)) (mode : byte) : M tio Z :=
  match uri with
  | None => mret (-1)
  | Some uri =>
      if sock <? 0 then mret (-1)
      else
        ok ← request_send uri;
        if negb ok then mret (-1) else request_finish mode
  end.

Definition objmapper_client_close (sock : Z) : M kernel () :=
  if 0 <=? sock then sys_close_fd sock else mret ().
