(* ===== verification/LegacyProofs.v ===== *)
(** * LegacyProofs: the operation modes of the legacy server *)

From S2P Require Import Prelude Socket Kernel KernelProofs Storage StorageProofs Transport TransportProofs Legacy.

(** ** Client and server together *)

(** Two processes over one connection: they share files and open descriptions,
    and what one sends the other receives. *)
Record lsystem := LSystem { ly_s : lserver; ly_c : tio }.

Definition feed_ep (cells : list cell) (e : endpoint) : endpoint := set_rx (rx e ++ cells) (rd_sched e) e.
Definition drained_ep (e : endpoint) : endpoint := set_tx [] (wr_sched e) e.

Definition lclient_acts {A} (m : M tio A) : M lsystem A := fun y =>
  match m (ly_c y) with
  | Ret a c =>
      let s := lv_io (ly_s y) in
      Ret a (LSystem (LServer (Tio (share (io_k s) (io_k c)) (feed_ep (tx (io_e c)) (io_e s)) (dg_in s) (dg_out s)) (lv_p (ly_s y)) (lv_g (ly_s y)))
                     (Tio (io_k c) (drained_ep (io_e c)) (dg_in c) (dg_out c)))
  | Blocked => Blocked
  | Fault => Fault
  end.

Definition lserver_acts {A} (m : M lserver A) : M lsystem A := fun y =>
  match m (ly_s y) with
  | Ret a v =>
      let s := lv_io v in let c := ly_c y in
      Ret a (LSystem (LServer (Tio (io_k s) (drained_ep (io_e s)) (dg_in s) (dg_out s)) (lv_p v) (lv_g v))
                     (Tio (share (io_k c) (io_k s)) (feed_ep (tx (io_e s)) (io_e c)) (dg_in c) (dg_out c)))
  | Blocked => Blocked
  | Fault => Fault
  end.

(** A request of the client and the round of the server that answers it. *)
Definition fetch (se : session_t) (u : list byte) : M lsystem Z :=
  ok ← lclient_acts (request_send u);
  if negb ok then mret (-1)
  else _ ← lserver_acts (session_round se); lclient_acts (request_finish (se_mode se)).

(** The bytes a reader of descriptor [fd] gets. *)
Definition fd_rest (k : kernel) (fd : Z) : option (list byte) :=
  '(_, e) ← ofd_of k fd; i ← o_ino e; d ← inodes k !! i; Some (drop (o_pos e) d).

(** What a [fetch] brings the client: the contents behind the descriptor. *)
Definition fetched (x : outcome lsystem Z) : option (list byte) :=
  match x with Ret fd y => fd_rest (io_k (ly_c y)) fd | _ => None end.

(** ** Transfers over a stream that takes and gives everything at once *)

(** Nothing is refused or cut short. *)
Definition smooth (s : tio) : Prop :=
  rd_sched (io_e s) = [] /\ wr_sched (io_e s) = [] /\ sched (io_k s) = [] /\ k_oom (io_k s) = [].

(** [s'] is [s] up to sent and received bytes, positions and contents of files. *)
Record moved (s s' : tio) : Prop := {
  mv_names : names (io_k s') = names (io_k s);
  mv_fdtab : fdtab (io_k s') = fdtab (io_k s);
  mv_cwd : cwd (io_k s') = cwd (io_k s);
  mv_closed : peer_closed (io_e s') = peer_closed (io_e s);
  mv_smooth : smooth s -> smooth s'
}.

#[global] Instance moved_preorder : PreOrder moved.
Proof.
  split; [by split|]. intros a b c [A1 A2 A3 A4 A5] [B1 B2 B3 B4 B5]. split; try congruence. auto.
Qed.

Lemma onik_Ret {A} (m : M kernel A) a k s : m (io_k s) = Ret a k -> onik m s = Ret a (set_io_k k s).
Proof. intros H. unfold onik. by rewrite H. Qed.

(** The endpoint with the descriptors and the allocator of the process. *)
Definition own (s : tio) : endpoint := set_oom (k_oom (io_k s)) (set_fdt (fdtab (io_k s)) (io_e s)).

Lemma onie_Ret {A} (m : M endpoint A) a e s : m (own s) = Ret a e ->
  onie m s = Ret a (Tio (set_k_oom (oom e) (set_fdtab (fdt e) (io_k s))) e (dg_in s) (dg_out s)).
Proof. intros H. unfold onie, own in *. by rewrite H. Qed.

Lemma kernel_own s : set_k_oom (k_oom (io_k s)) (set_fdtab (fdtab (io_k s)) (io_k s)) = io_k s.
Proof. by destruct (io_k s). Qed.

Lemma send_bytes_ok d s : smooth s ->
  exists s', onie (sys_write d) s = Ret (inl (length d)) s' /\ moved s s' /\ io_k s' = io_k s /\
    tx (io_e s') = tx (io_e s) ++ (plain <$> d) /\ rx (io_e s') = rx (io_e s).
Proof.
  intros (S1 & S2 & S3 & S4). assert (Hw : sys_write d (own s) = Ret (inl (length d)) (set_tx (tx (own s) ++ (plain <$> d)) [] (own s))).
  { unfold sys_write. simpl. by rewrite S2. }
  rewrite (onie_Ret _ _ _ _ Hw). eexists. split; [reflexivity|]. simpl. rewrite kernel_own. split; [|done]. by split.
Qed.

Lemma transport_send_ok t d s : tr_type t = TRANSPORT_UNIX -> smooth s ->
  exists s', transport_send (Some t) (Some d) s = Ret (Z.of_nat (length d)) s' /\ moved s s' /\ io_k s' = io_k s /\
    tx (io_e s') = tx (io_e s) ++ (plain <$> d) /\ rx (io_e s') = rx (io_e s).
Proof.
  intros Ht Hs. destruct (send_bytes_ok d s Hs) as (s' & H1 & H2). unfold transport_send. rewrite decide_False by (by rewrite Ht).
  run H1. exists s'. done.
Qed.

(** Reading what is there, at most [n] bytes. *)
Lemma read_bytes_ok n d rest s : smooth s -> rx (io_e s) = (plain <$> d) ++ rest -> d <> [] ->
  length d = n \/ (length d <= n)%nat /\ rest = [] ->
  exists s', onie (sys_read n) s = Ret (inl d) s' /\ moved s s' /\ io_k s' = io_k s /\ rx (io_e s') = rest /\ tx (io_e s') = tx (io_e s).
Proof.
  intros (S1 & S2 & S3 & S4) Hrx Hd Hn.
  assert (Htake : take n (rx (own s)) = plain <$> d /\ drop n (rx (own s)) = rest).
  { simpl. rewrite Hrx. destruct Hn as [<-|[Hn ->]].
    - rewrite <- (length_fmap plain d), take_app_length, drop_app_length. done.
    - rewrite app_nil_r, take_ge, drop_ge by (rewrite length_fmap; lia). done. }
  destruct Htake as [T1 T2].
  assert (Hr : sys_read n (own s) = Ret (inl d) (set_rx rest [] (own s))).
  { unfold sys_read. change (rd_sched (own s)) with (rd_sched (io_e s)). rewrite S1, T1, T2.
    change (rx (own s)) with (rx (io_e s)). rewrite Hrx. destruct d as [|b d]; [done|]. simpl. f_equal. f_equal. f_equal.
    rewrite <- list_fmap_compose. apply list_fmap_id. }
  rewrite (onie_Ret _ _ _ _ Hr). eexists. split; [reflexivity|]. simpl. rewrite kernel_own. split; [|done]. by split.
Qed.

(** ** Sending a file *)

Lemma send_loop_ok n fd t o i wr d : (0 < n)%nat -> tr_type t = TRANSPORT_UNIX -> forall fuel pos s,
  smooth s -> ofd_of (io_k s) fd = Some (o, Ofd (Some i) pos true wr) -> inodes (io_k s) !! i = Some d -> (length d - pos < fuel)%nat ->
  exists s', send_loop n fuel fd t s = Ret () s' /\ moved s s' /\ inodes (io_k s') = inodes (io_k s) /\
    tx (io_e s') = tx (io_e s) ++ (plain <$> drop pos d) /\ rx (io_e s') = rx (io_e s).
Proof.
  intros Hn Ht fuel. induction fuel as [|fuel IH]; intros pos s Hs Ho Hi Hf; [lia|]. simpl send_loop.
  run (onik_Ret _ _ _ _ (fread_chunk fd o i pos wr d n (io_k s) (proj1 (proj2 (proj2 Hs))) Ho Hi)).
  remember (take n (drop pos d)) as c eqn:Hc. set (k1 := set_ofds _ (io_k s)).
  assert (Hs1 : smooth (set_io_k k1 s)) by done. assert (Hm1 : moved s (set_io_k k1 s)) by (by split).
  destruct c as [|b c'].
  { eexists. split; [reflexivity|]. split; [done|]. split; [done|]. replace (drop pos d) with (@nil byte); [by rewrite app_nil_r|].
    destruct (drop pos d) as [|x l]; [done|]. by destruct n; [lia|]. }
  set (c := b :: c') in *. destruct (transport_send_ok t c (set_io_k k1 s) Ht Hs1) as (s2 & H2 & M2 & K2 & T2 & R2). run H2.
  rewrite (proj2 (Z.ltb_ge _ _)) by lia.
  assert (Hlt : (0 < length c)%nat) by (simpl; lia).
  assert (Hlen : (length c <= length d - pos)%nat) by (rewrite Hc, length_take, length_drop; lia).
  destruct (IH (pos + length c)%nat s2) as (s' & H3 & M3 & K3 & T3 & R3).
  - by apply (mv_smooth _ _ M2).
  - rewrite K2. cbn [io_k set_io_k]. rewrite (ofd_of_move (io_k s) k1 o _ fd _ _ eq_refl eq_refl Ho). by rewrite decide_True.
  - by rewrite K2.
  - lia.
  - exists s'. split; [exact H3|]. split; [etrans; [exact Hm1|]; by etrans|]. split; [by rewrite K3, K2|]. split; [|by rewrite R3, R2].
    rewrite T3, T2. cbn [io_e set_io_k]. rewrite <- app_assoc, <- fmap_app. f_equal. f_equal.
    rewrite <- (take_drop n (drop pos d)) at 1. rewrite <- Hc. f_equal. rewrite drop_drop, Hc, length_take, length_drop.
    destruct (decide (n <= length d - pos)%nat); [f_equal; lia|]. by rewrite !drop_ge by lia.
Qed.

Lemma rewind_ok fd o e s : ofd_of (io_k s) fd = Some (o, e) ->
  exists s', onik (sys_rewind fd) s = Ret () s' /\ moved s s' /\ inodes (io_k s') = inodes (io_k s) /\ io_e s' = io_e s /\
    ofd_of (io_k s') fd = Some (o, set_pos 0 e).
Proof.
  intros Ho. assert (Hr : sys_rewind fd (io_k s) = Ret () (set_ofds (<[o:=set_pos 0 e]> (ofds (io_k s))) (io_k s))) by (unfold sys_rewind; by rewrite Ho).
  rewrite (onik_Ret _ _ _ _ Hr). eexists. split; [reflexivity|]. split; [by split|]. split; [done|]. split; [done|].
  cbn [io_k set_io_k]. rewrite (ofd_of_move (io_k s) (set_ofds (<[o:=set_pos 0 e]> (ofds (io_k s))) (io_k s)) o _ fd _ _ eq_refl eq_refl Ho). by rewrite decide_True.
Qed.

Lemma send_file_ok fd t o i pos wr d s : tr_type t = TRANSPORT_UNIX -> smooth s ->
  ofd_of (io_k s) fd = Some (o, Ofd (Some i) pos true wr) -> inodes (io_k s) !! i = Some d ->
  exists s', send_file fd t s = Ret () s' /\ moved s s' /\ inodes (io_k s') = inodes (io_k s) /\
    tx (io_e s') = tx (io_e s) ++ (plain <$> d) /\ rx (io_e s') = rx (io_e s).
Proof.
  intros Ht Hs Ho Hi. destruct (rewind_ok fd o _ s Ho) as (s1 & H1 & M1 & I1 & E1 & O1). unfold send_file. run H1.
  rewrite (bind_Ret get _ _ s1 s1 eq_refl).
  assert (Hl : file_length (io_k s1) fd = length d) by (unfold file_length; rewrite O1; simpl; by rewrite I1, Hi). rewrite Hl.
  assert (Hpos : (0 < DATA_BUF)%nat) by (unfold DATA_BUF; lia). revert Hpos. generalize DATA_BUF. intros n Hn.
  destruct (send_loop_ok n fd t o i wr d Hn Ht (S (length d)) 0 s1) as (s2 & H2 & M2 & I2 & T2 & R2);
    [by apply (mv_smooth _ _ M1)|done|by rewrite I1|lia|].
  exists s2. split; [exact H2|]. split; [by etrans|]. split; [congruence|]. rewrite T2, R2, E1. done.
Qed.

(** ** Receiving a file *)

Lemma write_out_ok fd o j old d k : sched k = [] -> ofd_of k fd = Some (o, Ofd (Some j) (length old) true true) -> inodes k !! j = Some old ->
  Z.of_nat (length d) <= MAX_RW_COUNT -> d <> [] ->
  write_out (length d) fd d k = Ret true
    (set_ofds (<[o:=Ofd (Some j) (length (old ++ d)) true true]> (ofds k)) (set_inodes (<[j:=old ++ d]> (inodes k)) k)).
Proof.
  intros Hs Ho Hj Hl Hd. pose proof (fwrite_append fd o j true old d k Hs Ho Hj Hl) as Hw.
  destruct d as [|b d]; [done|]. cbn [write_out length]. run Hw. cbn [length drop]. rewrite drop_all. by destruct (length d).
Qed.

Lemma recv_loop_ok n fd o j : (0 < n)%nat -> Z.of_nat n <= MAX_RW_COUNT -> forall fuel d old total size s,
  smooth s -> rx (io_e s) = plain <$> d -> ofd_of (io_k s) fd = Some (o, Ofd (Some j) (length old) true true) ->
  inodes (io_k s) !! j = Some old -> size = total + Z.of_nat (length d) -> (length d <= fuel)%nat ->
  exists s', recv_loop n fuel fd size total s = Ret true s' /\ moved s s' /\ inodes (io_k s') = <[j:=old ++ d]> (inodes (io_k s)) /\
    (exists e, ofd_of (io_k s') fd = Some (o, e) /\ o_ino e = Some j).
Proof.
  intros Hn Hmax fuel. induction fuel as [|fuel IH]; intros d old total size s Hs Hrx Ho Hj -> Hf.
  - destruct d; [|simpl in Hf; lia]. simpl. rewrite Z.add_0_r, Z.ltb_irrefl. exists s. split; [done|]. split; [done|].
    rewrite app_nil_r, insert_id by done. eauto.
  - destruct (decide (d = [])) as [->|Hd].
    { simpl. rewrite Z.add_0_r, Z.ltb_irrefl. exists s. split; [done|]. split; [done|]. rewrite app_nil_r, insert_id by done. eauto. }
    assert (Hpos : (0 < length d)%nat) by (destruct d; [done|simpl; lia]).
    cbn [recv_loop]. rewrite (proj2 (Z.ltb_lt _ _)) by lia.
    set (c := take n d). set (r := drop n d). assert (Hcr : d = c ++ r) by (unfold c, r; by rewrite take_drop).
    assert (Hlc : (length c = Nat.min n (length d))%nat) by (unfold c; apply length_take).
    assert (Hnc : c <> []) by (intros E; rewrite E in Hlc; simpl in Hlc; lia).
    replace (Z.to_nat (Z.min (total + Z.of_nat (length d) - total) (Z.of_nat n))) with (length c) by lia.
    destruct (read_bytes_ok (length c) c (plain <$> r) s Hs) as (s1 & H1 & M1 & K1 & R1 & T1); [by rewrite Hrx, Hcr, fmap_app|done|by left|].
    run H1. destruct c as [|b c'] eqn:Ec; [done|]. rewrite <- Ec in *. clear Ec.
    assert (Hw : write_out (length c) fd c (io_k s1) = Ret true
      (set_ofds (<[o:=Ofd (Some j) (length (old ++ c)) true true]> (ofds (io_k s1))) (set_inodes (<[j:=old ++ c]> (inodes (io_k s1))) (io_k s1)))).
    { rewrite K1. apply write_out_ok; try done; [apply Hs|lia]. }
    run (onik_Ret _ _ _ _ Hw). set (s2 := set_io_k _ s1).
    destruct (IH r (old ++ c) (total + Z.of_nat (length c)) (total + Z.of_nat (length d)) s2) as (s' & H3 & M3 & I3 & O3).
    + by apply (mv_smooth _ _ M1).
    + exact R1.
    + unfold s2. cbn [io_k set_io_k]. rewrite K1.
      rewrite (ofd_of_move (io_k s) (set_ofds (<[o:=Ofd (Some j) (length (old ++ c)) true true]> (ofds (io_k s)))
        (set_inodes (<[j:=old ++ c]> (inodes (io_k s))) (io_k s))) o _ fd _ _ eq_refl eq_refl Ho). by rewrite decide_True.
    + unfold s2. simpl. apply lookup_insert_eq.
    + rewrite Hcr at 1. rewrite length_app. lia.
    + rewrite Hcr, length_app in Hf. lia.
    + exists s'. split; [exact H3|]. split.
      { etrans; [exact M1|]. etrans; [|exact M3]. by split. }
      split; [|exact O3]. rewrite I3. unfold s2. simpl. rewrite insert_insert_eq, K1. by rewrite <- app_assoc, <- Hcr.
Qed.

(** ** The modes *)

(** The server holds [d] under [u] and has not opened it yet; the connection is
    idle and undisturbed; the client can make temporary files. *)
Record serves (y : lsystem) (u d : list byte) : Prop := {
  sv_store : exists dir D m, holds_objects (SState (io_k (lv_io (ly_s y))) (lv_p (ly_s y)) (lv_g (ly_s y))) dir D m /\ m !! u = Some d;
  sv_unopened : unopened (SState (io_k (lv_io (ly_s y))) (lv_p (ly_s y)) (lv_g (ly_s y))) u;
  sv_uri : no_nul u /\ u <> [] /\ (length u <= 1023)%nat;
  sv_data : Z.of_nat (length d) < 2 ^ 63;
  sv_smooth : smooth (lv_io (ly_s y)) /\ smooth (ly_c y);
  sv_wires : rx (io_e (lv_io (ly_s y))) = [] /\ tx (io_e (lv_io (ly_s y))) = [] /\ rx (io_e (ly_c y)) = [] /\ tx (io_e (ly_c y)) = [];
  sv_files : share (io_k (ly_c y)) (io_k (lv_io (ly_s y))) = io_k (ly_c y);
  sv_tmp : exists T, dir_at (io_k (ly_c y)) (bs "/tmp") T
}.

(** A session over a Unix socket. *)
Definition unix_session (t : transport) (mode : byte) : session_t := Session t mode (TransportCaps true true true).

(** The request is in the server's input. *)
Lemma request_sent y u d : serves y u d ->
  exists y1, lclient_acts (request_send u) y = Ret true y1 /\
    io_k (lv_io (ly_s y1)) = io_k (lv_io (ly_s y)) /\ lv_p (ly_s y1) = lv_p (ly_s y) /\ lv_g (ly_s y1) = lv_g (ly_s y) /\
    smooth (lv_io (ly_s y1)) /\ rx (io_e (lv_io (ly_s y1))) = plain <$> u /\ tx (io_e (lv_io (ly_s y1))) = [] /\
    io_k (ly_c y1) = io_k (ly_c y) /\ smooth (ly_c y1) /\ rx (io_e (ly_c y1)) = [] /\ tx (io_e (ly_c y1)) = [] /\
    peer_closed (io_e (ly_c y1)) = peer_closed (io_e (ly_c y)).
Proof.
  intros [_ _ _ _ [S1 S2] (W1 & W2 & W3 & W4) F _]. destruct (send_bytes_ok u (ly_c y) S2) as (c1 & H1 & M1 & K1 & T1 & R1).
  unfold lclient_acts, request_send. run H1. rewrite bool_decide_eq_true_2 by done. eexists. split; [reflexivity|]. simpl.
  rewrite K1, (share_back _ _ F), T1, R1, W1, W2, W3, W4. split; [done|]. split; [done|]. split; [done|]. split; [exact S1|].
  split; [done|]. split; [done|]. split; [done|]. split; [rewrite <- K1; exact (mv_smooth _ _ M1 S2)|]. split; [done|]. split; [done|]. apply M1.
Qed.

Lemma onst_Ret {A} (m : M sstate A) a x v : m (SState (io_k (lv_io v)) (lv_p v) (lv_g v)) = Ret a x ->
  onst m v = Ret a (LServer (set_io_k (sk x) (lv_io v)) (sp x) (sg x)).
Proof. intros H. unfold onst. by rewrite H. Qed.

Lemma onio_Ret {A} (m : M tio A) a t v : m (lv_io v) = Ret a t -> onio m v = Ret a (LServer t (lv_p v) (lv_g v)).
Proof. intros H. unfold onio. by rewrite H. Qed.

(** The server reads the request and finds the object. *)
Lemma request_found y u d v1 t mode : serves y u d -> tr_type t = TRANSPORT_UNIX ->
  io_k (lv_io v1) = io_k (lv_io (ly_s y)) -> lv_p v1 = lv_p (ly_s y) -> lv_g v1 = lv_g (ly_s y) ->
  smooth (lv_io v1) -> rx (io_e (lv_io v1)) = plain <$> u -> tx (io_e (lv_io v1)) = [] ->
  exists v2 fd info o i, session_round (unix_session t mode) v1 =
      (_ ← (if bool_decide (mode = OP_FDPASS) && true then
              _ ← onio (transport_send_fd (Some t) fd OP_FDPASS); onio (onik (sys_close_fd fd))
            else if bool_decide (mode = OP_SPLICE) && true then
              _ ← onio (transport_send (Some t) (Some (ssize_bytes (oi_size info))));
              _ ← onio (onik (splice_loop (Z.to_nat (oi_size info)) fd (transport_get_fd (Some t)) 0 (oi_size info)));
              onio (onik (sys_close_fd fd))
            else
              _ ← onio (transport_send (Some t) (Some (ssize_bytes (oi_size info))));
              _ ← onio (send_file fd t);
              onio (onik (sys_close_fd fd)));
       mret (Some (unix_session t mode))) v2 /\
    oi_size info = Z.of_nat (length d) /\ 0 <= fd /\ smooth (lv_io v2) /\ tx (io_e (lv_io v2)) = [] /\
    ofd_of (io_k (lv_io v2)) fd = Some (o, Ofd (Some i) 0 true false) /\ inodes (io_k (lv_io v2)) !! i = Some d /\
    names (io_k (lv_io v2)) = names (io_k (lv_io (ly_s y))).
Proof.
  intros [(dir & D & m & Hst & Hm) Hun (Hnn & Hne & Hlu) _ _ _ _ _] Ht K1 K2 K3 Hs Hrx Htx.
  destruct (read_bytes_ok (Z.to_nat 1023) u [] (lv_io v1) Hs) as (s1 & H1 & M1 & J1 & R1 & T1); [by rewrite app_nil_r|done|right; split; [lia|done]|].
  assert (Hrecv : transport_recv (Some t) (Z.to_nat 1023) (lv_io v1) = Ret (Some u, Some t) s1).
  { unfold transport_recv. rewrite decide_False by (by rewrite Ht). by run H1. }
  destruct (storage_get_fd_ok _ dir D m u d Hst Hm) as (fd & h & x & _ & Hget & _ & _ & _ & Hfd & [Hsc Hom] & Hnm & _ & o & i & pos & Ho & Hi & Hpos).
  specialize (Hpos Hun) as ->. unfold session_round. cbn [se_transport unix_session]. run (onio_Ret _ _ _ _ Hrecv).
  destruct u as [|b u']; [done|]. cbn [se_mode se_caps]. set (u := b :: u') in *.
  rewrite (c_str_id u Hnn). set (v1' := LServer s1 (lv_p v1) (lv_g v1)).
  assert (Hget' : storage_get_fd (Some u) (SState (io_k (lv_io v1')) (lv_p v1') (lv_g v1')) = Ret (fd, Some (ObjectInfo u (Z.of_nat (length d)) h false)) x)
    by (unfold v1'; simpl; by rewrite J1, K1, K2, K3).
  exists (LServer (set_io_k (sk x) s1) (sp x) (sg x)), fd, (ObjectInfo u (Z.of_nat (length d)) h false), o, i.
  split.
  { unfold answer_request. rewrite bind_assoc. run (onst_Ret _ _ _ _ Hget'). rewrite (proj2 (Z.ltb_ge _ _) Hfd).
    rewrite bind_assoc, deref_bind. reflexivity. }
  split; [done|]. split; [done|]. split.
  - destruct (mv_smooth _ _ M1 Hs) as (Q1 & Q2 & Q3 & Q4). split; [done|]. split; [done|]. done.
  - split; [by rewrite <- Htx, <- T1|]. split; [done|]. split; [done|]. exact Hnm.
Qed.

Lemma transport_send_fd_ok t fd o s : tr_type t = TRANSPORT_UNIX -> smooth s -> fdtab (io_k s) !! fd = Some o ->
  exists s', transport_send_fd (Some t) fd OP_FDPASS s = Ret 0 s' /\ moved s s' /\ io_k s' = io_k s /\
    tx (io_e s') = tx (io_e s) ++ [Cell OP_FDPASS (Some o)].
Proof.
  intros Ht (S1 & S2 & S3 & S4) Ho. unfold transport_send_fd. rewrite bool_decide_eq_true_2 by done. cbn [negb]. unfold fdpass_send.
  assert (Hw : sys_sendmsg_fd OP_FDPASS fd (own s) = Ret (inl 1%nat) (set_tx (tx (own s) ++ [Cell OP_FDPASS (Some o)]) [] (own s))).
  { unfold sys_sendmsg_fd. simpl. by rewrite S2, Ho. }
  run (onie_Ret _ _ _ _ Hw). eexists. split; [reflexivity|]. simpl. rewrite kernel_own. split; [|done]. by split.
Qed.

Lemma fdpass_recv_ok b o s : smooth s -> rx (io_e s) = [Cell b (Some o)] ->
  exists s', fdpass_recv s = Ret (lowest_free (fdtab (io_k s)), Some b) s' /\
    fdtab (io_k s') !! lowest_free (fdtab (io_k s)) = Some o /\ ofds (io_k s') = ofds (io_k s) /\ inodes (io_k s') = inodes (io_k s).
Proof.
  intros (S1 & S2 & S3 & S4) Hrx. unfold fdpass_recv.
  assert (Hr : sys_recvmsg 256 (own s) = Ret (inl ([b], Some (lowest_free (fdtab (io_k s)))))
    (set_fdt (<[lowest_free (fdtab (io_k s)):=o]> (fdtab (io_k s))) (set_rx [] [] (own s)))).
  { unfold sys_recvmsg. change (rd_sched (own s)) with (rd_sched (io_e s)). change (rx (own s)) with (rx (io_e s)). by rewrite S1, Hrx. }
  run (onie_Ret _ _ _ _ Hr). eexists. split; [reflexivity|]. simpl. split; [apply lookup_insert_eq|done].
Qed.

(** What the client has when the round of the server is over. *)
Definition after_round (v : lserver) (c : tio) : tio :=
  Tio (share (io_k c) (io_k (lv_io v))) (feed_ep (tx (io_e (lv_io v))) (io_e c)) (dg_in c) (dg_out c).

Lemma fetch_round se u y y1 v :
  lclient_acts (request_send u) y = Ret true y1 -> session_round se (ly_s y1) = Ret (Some se) v ->
  exists y2, fetch se u y = lclient_acts (request_finish (se_mode se)) y2 /\ ly_c y2 = after_round v (ly_c y1).
Proof.
  intros H1 H2. unfold fetch. run H1. cbn [negb].
  eexists (LSystem _ _). split; [|reflexivity]. unfold mbind, M_bind, lserver_acts. rewrite H2. reflexivity.
Qed.

(** Descriptor passing brings the object. *)
Lemma fetch_fdpass_ok y u d t : serves y u d -> tr_type t = TRANSPORT_UNIX -> fetched (fetch (unix_session t OP_FDPASS) u y) = Some d.
Proof.
  intros Hsv Ht. destruct (request_sent y u d Hsv) as (y1 & H1 & K1 & K2 & K3 & S1 & R1 & T1 & KC & SC & RC & TC & _).
  destruct (request_found y u d (ly_s y1) t OP_FDPASS Hsv Ht K1 K2 K3 S1 R1 T1) as (v2 & fd & info & o & i & Hround & _ & Hfd & S2 & T2 & Ho & Hi & _).
  apply ofd_of_Some in Ho as Ho'. destruct Ho' as [Hf Ho'].
  rewrite bool_decide_eq_true_2 in Hround by done. cbn [andb] in Hround.
  destruct (transport_send_fd_ok t fd o (lv_io v2) Ht S2 Hf) as (s3 & H3 & M3 & J3 & T3).
  rewrite bind_assoc in Hround. rewrite (bind_Ret _ _ _ _ _ (onio_Ret _ _ _ _ H3)) in Hround.
  set (s4 := set_io_k (set_fdtab (delete fd (fdtab (io_k s3))) (io_k s3)) s3).
  assert (H4 : onio (onik (sys_close_fd fd)) (LServer s3 (lv_p v2) (lv_g v2)) = Ret () (LServer s4 (lv_p v2) (lv_g v2))) by done.
  rewrite (bind_Ret _ _ _ _ _ H4) in Hround. destruct (fetch_round _ _ _ _ _ H1 Hround) as (y2 & -> & Hc2).
  unfold lclient_acts. cbn [se_mode unix_session]. unfold request_finish. rewrite bool_decide_eq_true_2 by done. rewrite Hc2. set (c2 := after_round _ _).
  assert (Hsm : smooth c2) by exact SC. assert (Hrx2 : rx (io_e c2) = [Cell OP_FDPASS (Some o)]) by (simpl; by rewrite RC, T3, T2).
  assert (Hof2 : ofds (io_k c2) !! o = Some (Ofd (Some i) 0 true false)) by (simpl; by rewrite J3).
  assert (Hin2 : inodes (io_k c2) !! i = Some d) by (simpl; by rewrite J3). clearbody c2.
  destruct (fdpass_recv_ok OP_FDPASS o c2 Hsm Hrx2) as (c3 & H6 & F6 & O6 & I6).
  run H6. cbn [fst]. rewrite (proj2 (Z.ltb_ge _ _) (lowest_free_nonneg _)). simpl. unfold fd_rest, ofd_of. simpl. rewrite F6. simpl.
  rewrite O6, Hof2. simpl. by rewrite I6, Hin2.
Qed.

Lemma ssize_roundtrip n : 0 <= n < 2 ^ 63 -> ssize_val (ssize_bytes n) = n.
Proof.
  intros Hn. unfold ssize_val, ssize_bytes. rewrite le_val_bytes. rewrite Z.mod_small by lia. by rewrite (proj2 (Z.ltb_lt _ _)) by lia.
Qed.

Lemma mkstemp_ok T s : smooth s -> dir_at (io_k s) (bs "/tmp") T ->
  exists s', onik sys_mkstemp_unlinked s = Ret (lowest_free (fdtab (io_k s))) s' /\ smooth s' /\ io_e s' = io_e s /\
    ofd_of (io_k s') (lowest_free (fdtab (io_k s))) = Some (fresh_id (ofds (io_k s)), Ofd (Some (fresh_id (inodes (io_k s)))) 0 true true) /\
    inodes (io_k s') !! fresh_id (inodes (io_k s)) = Some [].
Proof.
  intros (S1 & S2 & S3 & S4) [HT1 HT2].
  assert (Hr : sys_mkstemp_unlinked (io_k s) = Ret (lowest_free (fdtab (io_k s)))
    (with_ofd (Ofd (Some (fresh_id (inodes (io_k s)))) 0 true true)
      (set_inodes (<[fresh_id (inodes (io_k s)):=[]]> (inodes (io_k s))) (io_k s)))).
  { unfold sys_mkstemp_unlinked, mbind, M_bind, refused, get. rewrite S3, HT1, HT2. reflexivity. }
  rewrite (onik_Ret _ _ _ _ Hr). eexists. split; [reflexivity|]. split; [done|]. split; [done|]. split; [exact (ofd_with_ofd _ _)|].
  simpl. apply lookup_insert_eq.
Qed.

(** The client reads the size and makes its temporary file. *)
Lemma size_received mode n rest c T : mode <> OP_FDPASS -> smooth c -> rx (io_e c) = (plain <$> ssize_bytes n) ++ (plain <$> rest) ->
  0 < n < 2 ^ 63 -> dir_at (io_k c) (bs "/tmp") T ->
  exists c' fd o j, request_finish mode c =
      (ok ← recv_loop DATA_BUF (S (length rest)) fd n 0;
       if negb ok then _ ← onik (sys_close_fd fd); mret (-1) else _ ← onik (sys_rewind fd); mret fd) c' /\
    smooth c' /\ rx (io_e c') = plain <$> rest /\ peer_closed (io_e c') = peer_closed (io_e c) /\
    ofd_of (io_k c') fd = Some (o, Ofd (Some j) 0 true true) /\ inodes (io_k c') !! j = Some [].
Proof.
  intros Hm Hs Hrx Hn HT. unfold request_finish. rewrite bool_decide_eq_false_2 by done.
  destruct (read_bytes_ok 8 (ssize_bytes n) (plain <$> rest) c Hs Hrx) as (c3 & H7 & M7 & J7 & R7 & _); [done|left; apply length_le_bytes|].
  run H7. rewrite bool_decide_eq_true_2 by apply length_le_bytes. cbn [negb]. cbv zeta. rewrite ssize_roundtrip by lia.
  rewrite (proj2 (Z.leb_gt _ _)) by lia. rewrite <- J7 in HT.
  destruct (mkstemp_ok T c3 (mv_smooth _ _ M7 Hs) HT) as (c4 & H8 & S8 & E8 & O8 & I8). run H8.
  rewrite (proj2 (Z.ltb_ge _ _) (lowest_free_nonneg _)). rewrite (bind_Ret get _ _ c4 c4 eq_refl).
  assert (Hlen : length (rx (io_e c4)) = length rest) by (by rewrite E8, R7, length_fmap). rewrite Hlen.
  eexists c4, _, _, _. split; [reflexivity|]. split; [done|]. rewrite E8. split; [done|]. split; [apply M7|]. split; [exact O8|exact I8].
Qed.

(** The temporary directory is where it was. *)
Lemma tmp_after_round y u d y1 v T : serves y u d -> io_k (ly_c y1) = io_k (ly_c y) -> names (io_k (lv_io v)) = names (io_k (lv_io (ly_s y))) ->
  dir_at (io_k (ly_c y)) (bs "/tmp") T -> dir_at (io_k (after_round v (ly_c y1))) (bs "/tmp") T.
Proof.
  intros Hsv KC Hnm HT. assert (Hn : names (io_k (after_round v (ly_c y1))) = names (io_k (ly_c y))).
  { simpl. rewrite Hnm. by rewrite <- (sv_files _ _ _ Hsv). }
  apply (dir_at_names (io_k (ly_c y))); [intros z; unfold is_dir; by rewrite Hn| |done]. simpl. by rewrite KC.
Qed.

(** The server's part of copying: the size and the data are in the client's input. *)
Lemma copy_answered y u d t : serves y u d -> tr_type t = TRANSPORT_UNIX ->
  exists y2, fetch (unix_session t OP_COPY) u y = lclient_acts (request_finish OP_COPY) y2 /\ smooth (ly_c y2) /\
    rx (io_e (ly_c y2)) = (plain <$> ssize_bytes (Z.of_nat (length d))) ++ (plain <$> d) /\ exists T, dir_at (io_k (ly_c y2)) (bs "/tmp") T.
Proof.
  intros Hsv Ht. destruct (request_sent y u d Hsv) as (y1 & H1 & K1 & K2 & K3 & S1 & R1 & T1 & KC & SC & RC & TC & _).
  destruct (request_found y u d (ly_s y1) t OP_COPY Hsv Ht K1 K2 K3 S1 R1 T1) as (v2 & fd & info & o & i & Hround & Hsz & Hfd & S2 & T2 & Ho & Hi & Hnm).
  rewrite !bool_decide_eq_false_2 in Hround by done. cbn [andb] in Hround. rewrite Hsz in Hround.
  destruct (transport_send_ok t (ssize_bytes (Z.of_nat (length d))) (lv_io v2) Ht S2) as (s3 & H3 & M3 & J3 & T3 & _).
  rewrite bind_assoc in Hround. rewrite (bind_Ret _ _ _ _ _ (onio_Ret _ _ _ _ H3)) in Hround.
  destruct (send_file_ok fd t o i 0 false d s3 Ht (mv_smooth _ _ M3 S2)) as (s4 & H4 & M4 & I4 & T4 & _); [by rewrite J3|by rewrite J3|].
  rewrite bind_assoc in Hround.
  rewrite (bind_Ret _ _ _ _ _ (onio_Ret _ _ _ (LServer s3 (lv_p v2) (lv_g v2)) H4)) in Hround. cbn [lv_p lv_g] in Hround.
  set (v5 := LServer (set_io_k (set_fdtab (delete fd (fdtab (io_k s4))) (io_k s4)) s4) (lv_p v2) (lv_g v2)).
  assert (H5 : onio (onik (sys_close_fd fd)) (LServer s4 (lv_p v2) (lv_g v2)) = Ret () v5) by done.
  rewrite (bind_Ret _ _ _ _ _ H5) in Hround. destruct (fetch_round _ _ _ _ _ H1 Hround) as (y2 & -> & Hc2).
  destruct (sv_tmp _ _ _ Hsv) as [T HT]. exists y2. split; [done|]. rewrite Hc2. split; [exact SC|]. split.
  - change (rx (io_e (ly_c y1)) ++ tx (io_e s4) = (plain <$> ssize_bytes (Z.of_nat (length d))) ++ (plain <$> d)). by rewrite RC, T4, T3, T2.
  - exists T. apply (tmp_after_round y u d); [done|done| |done]. change (names (io_k s4) = names (io_k (lv_io (ly_s y)))). by rewrite (mv_names _ _ M4), J3, Hnm.
Qed.

(** Copying brings the object, unless it is empty. *)
Lemma fetch_copy_ok y u d t : serves y u d -> tr_type t = TRANSPORT_UNIX -> d <> [] -> fetched (fetch (unix_session t OP_COPY) u y) = Some d.
Proof.
  intros Hsv Ht Hd. destruct (copy_answered y u d t Hsv Ht) as (y2 & -> & SC & HR & T & HT). pose proof (sv_data _ _ _ Hsv) as Hd63.
  assert (Hpos : (0 < length d)%nat) by (destruct d; [done|simpl; lia]).
  destruct (size_received OP_COPY (Z.of_nat (length d)) d (ly_c y2) T) as (c' & fd' & o' & j & Hfin & S' & R' & _ & O' & I'); [done|exact SC|exact HR|lia|exact HT|].
  assert (Hb : (0 < DATA_BUF)%nat /\ Z.of_nat DATA_BUF <= MAX_RW_COUNT) by (unfold DATA_BUF, MAX_RW_COUNT; lia).
  revert Hfin Hb. generalize DATA_BUF. intros n Hfin [Hn1 Hn2].
  destruct (recv_loop_ok n fd' o' j Hn1 Hn2 (S (length d)) d [] 0 (Z.of_nat (length d)) c' S' R' O' I') as (c5 & H9 & M9 & I9 & e & O9 & Ei); [lia|lia|].
  destruct (rewind_ok _ _ _ _ O9) as (c6 & H10 & _ & I10 & _ & O10).
  rewrite (bind_Ret _ _ _ _ _ H9) in Hfin. cbn [negb] in Hfin. rewrite (bind_Ret _ _ _ _ _ H10) in Hfin.
  unfold lclient_acts. rewrite Hfin. unfold mret, M_ret. simpl fetched. unfold fd_rest. simpl io_k.
  rewrite O10. simpl. rewrite Ei. simpl. rewrite I10, I9, lookup_insert_eq. done.
Qed.
Lemma fetch_copy_empty y u t : serves y u [] -> tr_type t = TRANSPORT_UNIX -> exists y', fetch (unix_session t OP_COPY) u y = Ret (-1) y'.
Proof.
  intros Hsv Ht. destruct (copy_answered y u [] t Hsv Ht) as (y2 & -> & SC & HR & _).
  destruct (read_bytes_ok 8 (ssize_bytes 0) [] (ly_c y2) SC) as (c3 & H7 & _); [exact HR|done|left; apply length_le_bytes|].
  unfold lclient_acts, request_finish. rewrite bool_decide_eq_false_2 by done. run H7. rewrite bool_decide_eq_true_2 by apply length_le_bytes.
  cbn [negb]. cbv zeta. rewrite ssize_roundtrip by lia. eexists. reflexivity.
Qed.

(** C26: where the operation modes agree, and where not.  For an object that the server
    holds and has not opened yet, a request on an undisturbed Unix connection brings
    the client a descriptor that reads exactly the stored contents in
    descriptor-passing mode, whatever they are.  In copy mode, where the data goes over the socket
    in 8 KiB pieces into a temporary file, it does so as well when the object is not
    empty; an empty object is not delivered: the request returns -1. *)
Theorem modes_agree y u d t : serves y u d -> tr_type t = TRANSPORT_UNIX ->
  fetched (fetch (unix_session t OP_FDPASS) u y) = Some d /\
  (d <> [] -> fetched (fetch (unix_session t OP_COPY) u y) = fetched (fetch (unix_session t OP_FDPASS) u y)) /\
  (d = [] -> exists y', fetch (unix_session t OP_COPY) u y = Ret (-1) y').
Proof.
  intros Hsv Ht. rewrite (fetch_fdpass_ok y u d t Hsv Ht). split; [done|]. split; [by apply fetch_copy_ok|intros ->; by eapply fetch_copy_empty].
Qed.

(** Nothing to read and the peer still there. *)
Lemma recv_loop_blocks n fuel fd size s : smooth s -> rx (io_e s) = [] -> peer_closed (io_e s) = false -> 0 < size ->
  recv_loop n (S fuel) fd size 0 s = Blocked.
Proof.
  intros (S1 & _) Hrx Hp Hs. cbn [recv_loop]. rewrite (proj2 (Z.ltb_lt _ _) Hs). unfold mbind, M_bind, onie.
  assert (Hr : forall m, sys_read m (own s) = Blocked) by (intros m; unfold sys_read; simpl; by rewrite S1, Hrx, Hp). unfold own in Hr. by rewrite Hr.
Qed.

(** [splice] between a file and a socket moves nothing. *)
Lemma splice_moves_nothing fd trans_fd (d : list byte) v :
  onio (onik (splice_loop (Z.to_nat (Z.of_nat (length d))) fd trans_fd 0 (Z.of_nat (length d)))) v = Ret () v.
Proof.
  rewrite Nat2Z.id. unfold onio, onik. destruct v as [[k e x z] p g]. by destruct d.
Qed.

(** splice mode never delivers.  [splice] needs a pipe on one side, and the
    server gives it a file and a socket: after the size no data is sent, and the
    client waits for it forever while the server waits for the next request. *)
Theorem splice_mode_stalls y u d t : serves y u d -> d <> [] -> tr_type t = TRANSPORT_UNIX -> peer_closed (io_e (ly_c y)) = false ->
  fetch (unix_session t OP_SPLICE) u y = Blocked.
Proof.
  intros Hsv Hd Ht Hpc. destruct (request_sent y u d Hsv) as (y1 & H1 & K1 & K2 & K3 & S1 & R1 & T1 & KC & SC & RC & TC & PC).
  destruct (request_found y u d (ly_s y1) t OP_SPLICE Hsv Ht K1 K2 K3 S1 R1 T1) as (v2 & fd & info & o & i & Hround & Hsz & Hfd & S2 & T2 & Ho & Hi & Hnm).
  rewrite bool_decide_eq_false_2, bool_decide_eq_true_2 in Hround by done. cbn [andb] in Hround. rewrite Hsz in Hround.
  pose proof (sv_data _ _ _ Hsv) as Hd63. destruct (sv_tmp _ _ _ Hsv) as [T HT].
  assert (Hpos : (0 < length d)%nat) by (destruct d; [done|simpl; lia]).
  destruct (transport_send_ok t (ssize_bytes (Z.of_nat (length d))) (lv_io v2) Ht S2) as (s3 & H3 & M3 & J3 & T3 & _).
  rewrite bind_assoc in Hround. rewrite (bind_Ret _ _ _ _ _ (onio_Ret _ _ _ _ H3)) in Hround. rewrite bind_assoc in Hround.
  rewrite (bind_Ret _ _ _ _ _ (splice_moves_nothing fd (transport_get_fd (Some t)) d (LServer s3 (lv_p v2) (lv_g v2)))) in Hround.
  set (v5 := LServer (set_io_k (set_fdtab (delete fd (fdtab (io_k s3))) (io_k s3)) s3) (lv_p v2) (lv_g v2)).
  assert (H5 : onio (onik (sys_close_fd fd)) (LServer s3 (lv_p v2) (lv_g v2)) = Ret () v5) by done.
  rewrite (bind_Ret _ _ _ _ _ H5) in Hround. destruct (fetch_round _ _ _ _ _ H1 Hround) as (y2 & -> & Hc2).
  destruct (size_received OP_SPLICE (Z.of_nat (length d)) [] (after_round v5 (ly_c y1)) T) as (c' & fd' & o' & j & Hfin & S' & R' & P' & _); [done|exact SC| |lia| |].
  { change (rx (io_e (ly_c y1)) ++ tx (io_e s3) = (plain <$> ssize_bytes (Z.of_nat (length d))) ++ []). by rewrite RC, T3, T2, app_nil_r. }
  { apply (tmp_after_round y u d); [done|done| |done]. change (names (io_k s3) = names (io_k (lv_io (ly_s y)))). by rewrite J3, Hnm. }
  unfold lclient_acts. rewrite Hc2. cbn [se_mode unix_session]. rewrite Hfin. unfold mbind at 1, M_bind at 1.
  rewrite recv_loop_blocks; [done|done|done| |lia]. rewrite P'. simpl. by rewrite PC.
Qed.

(** ** A concrete system *)

Module LegacyWitness.

Definition base_kernel : kernel :=
  Kernel {[ [bs "d"] := Dir; [bs "tmp"] := Dir ]} ∅ {[0 := Ofd None 0 true true]} {[0 := 0; 1 := 0; 2 := 0]} [] [] 0 [] [].
Definition idle : endpoint := Endpoint [] false [] [] [] ∅ [] x00.

(** A store that holds one object. *)
Definition one_object (d : list byte) : sstate :=
  match (_ ← storage_init (Some (plain_config (bs "/d") 0)); storage_put (Some (bs "a")) (Some d) (Z.of_nat (length d))) (SState base_kernel ∅ None) with
  | Ret _ s => s
  | _ => SState base_kernel ∅ None
  end.

Definition system_over (s : sstate) : lsystem :=
  LSystem (LServer (Tio (sk s) idle [] []) (sp s) (sg s)) (Tio (share base_kernel (sk s)) idle [] []).
Definition system_with (d : list byte) : lsystem := system_over (one_object d).

Definition socket : transport := Transport TRANSPORT_UNIX 3 false None 0.

Lemma base_kernel_ok : fs_ok base_kernel /\ willing base_kernel /\ dir_ready base_kernel (bs "/d") [bs "d"].
Proof.
  split; [|split; [done|]].
  - split; unfold base_kernel; simpl.
    + intros d1 d2 i H. apply lookup_insert_Some in H as [[_ H]|[_ H]]; [done|]. by apply lookup_singleton_Some in H as [_ H].
    + intros d i H. apply lookup_insert_Some in H as [[_ H]|[_ H]]; [done|]. by apply lookup_singleton_Some in H as [_ H].
    + intros o e i H He. apply lookup_singleton_Some in H as [_ <-]. done.
    + intros fd o H. assert (o = 0) as ->; [|vm_compute; by eexists].
      repeat (apply lookup_insert_Some in H as [[_ H]|[_ H]]; [done|]). by apply lookup_singleton_Some in H as [_ H].
  - split; [split; [reflexivity|apply (bool_decide_unpack _); vm_compute; exact I]|vm_compute; reflexivity|left; vm_compute; reflexivity|].
    intros u. unfold base_kernel, child. simpl. by rewrite lookup_insert_ne, lookup_singleton_ne.
Qed.

Lemma one_object_ok : holds_objects (one_object (bs "hello")) (bs "/d") [bs "d"] {[bs "a" := bs "hello"]}.
Proof.
  destruct base_kernel_ok as (H1 & H2 & H3). destruct (storage_init_ok base_kernel ∅ None (bs "/d") [bs "d"] 0 H1 H2 H3) as (s & Hi & Hs).
  destruct (storage_put_ok s (bs "/d") [bs "d"] ∅ (bs "a") (bs "hello") Hs) as (s' & Hp & Hs' & _).
  - apply (bool_decide_unpack _). vm_compute. exact I.
  - unfold MAX_RW_COUNT. simpl. lia.
  - right. rewrite map_size_empty. lia.
  - unfold one_object. run Hi. rewrite Hp. exact Hs'.
Qed.

Lemma system_over_serves s u d dir D m T :
  holds_objects s dir D m -> m !! u = Some d -> unopened s u -> willing (sk s) -> no_nul u /\ u <> [] /\ (length u <= 1023)%nat ->
  Z.of_nat (length d) < 2 ^ 63 -> dir_at (share base_kernel (sk s)) (bs "/tmp") T -> serves (system_over s) u d.
Proof.
  intros Hs Hm Hu [W1 W2] Hu1 Hd HT. destruct s as [k p g]. unfold system_over. split; simpl; try done.
  - by exists dir, D, m.
  - by exists T.
Qed.

(** The facts about the concrete store that computation decides. *)
Definition store_ready (s : sstate) : bool :=
  bool_decide (sched (sk s) = []) && bool_decide (k_oom (sk s) = []) &&
  bool_decide (from_option (fun g => from_option (fun i => os_backing_fd (slot_at g i)) 0 (find_slot g (bs "a"))) 0 (sg s) = -1) &&
  bool_decide (resolve (share base_kernel (sk s)) (bs "/tmp") = Some [bs "tmp"]) && is_dir (share base_kernel (sk s)) [bs "tmp"].

Lemma store_ready_ok s : store_ready s = true -> willing (sk s) /\ unopened s (bs "a") /\ dir_at (share base_kernel (sk s)) (bs "/tmp") [bs "tmp"].
Proof.
  unfold store_ready. intros H. repeat (apply andb_prop in H as [H ?]). repeat match goal with X : bool_decide _ = true |- _ => apply bool_decide_eq_true_1 in X end.
  split; [done|]. split; [|done]. intros g i Hg Hi. match goal with X : from_option _ _ _ = _ |- _ => rewrite Hg in X; simpl in X; by rewrite Hi in X end.
Qed.

Lemma system_serves : serves (system_with (bs "hello")) (bs "a") (bs "hello").
Proof.
  assert (H : store_ready (one_object (bs "hello")) = true) by (vm_compute; reflexivity). apply store_ready_ok in H as (H1 & H2 & H3).
  pose proof one_object_ok as H0. unfold system_with. revert H0 H1 H2 H3. generalize (one_object (bs "hello")). intros s H0 H1 H2 H3.
  apply (system_over_serves s _ _ (bs "/d") [bs "d"] {[bs "a" := bs "hello"]} [bs "tmp"]); try done.
  split; [apply (bool_decide_unpack _); vm_compute; exact I|]. split; [done|]. apply (bool_decide_unpack _); vm_compute; exact I.
Qed.

Lemma modes_agree_witness :
  fetched (fetch (unix_session socket OP_FDPASS) (bs "a") (system_with (bs "hello"))) = Some (bs "hello") /\
  fetched (fetch (unix_session socket OP_COPY) (bs "a") (system_with (bs "hello"))) =
    fetched (fetch (unix_session socket OP_FDPASS) (bs "a") (system_with (bs "hello"))).
Proof. destruct (modes_agree _ _ _ socket system_serves eq_refl) as (H1 & H2 & _). split; [exact H1|apply H2; discriminate]. Defined.

Lemma splice_mode_stalls_witness : fetch (unix_session socket OP_SPLICE) (bs "a") (system_with (bs "hello")) = Blocked.
Proof. apply (splice_mode_stalls _ _ (bs "hello")); [exact system_serves|discriminate|reflexivity|vm_compute; reflexivity]. Defined.

(** ** Where the modes differ *)

(** The descriptors of an object share one file position, and only copying goes
    back to the start: a client that is passed the descriptor after another has
    copied the object reads nothing. *)
Theorem passed_descriptor_is_at_the_end :
  fetched ((_ ← fetch (unix_session socket OP_COPY) (bs "a"); fetch (unix_session socket OP_FDPASS) (bs "a")) (system_with (bs "hello"))) = Some [].
Proof. vm_compute. reflexivity. Qed.

(** An empty object is delivered by descriptor, and reported as missing where the
    size is sent: a size of zero stands for both. *)
Theorem empty_object_not_copied :
  fetched (fetch (unix_session socket OP_FDPASS) (bs "a") (system_with [])) = Some [] /\
  match fetch (unix_session socket OP_COPY) (bs "a") (system_with []) with Ret fd _ => fd = -1 | _ => False end.
Proof. split; vm_compute; reflexivity. Qed.

End LegacyWitness.
