(* ===== verification/LegacyMain.v ===== *)
(** * LegacyMain: the programs main.c and test_client.c of objmapper/src

    The options of both programs, read with [getopt], [atoi] and [strtoull] as
    the GNU C library has them, the start of the server and the run of the test
    client: connect, request, copy the object to a file or to standard output.
    Printing the options of a configuration and reading them gives the
    configuration back; the copy is complete under every sequence of short reads
    and writes. *)

From S2P Require Import Prelude Socket Kernel KernelProofs Storage Transport Legacy LegacyProofs.

(** ** The C library *)

(** One result of [getopt]: an option with its [optarg], or ['?']. *)
Inductive opt := Opt (c : byte) (optarg : option (list byte)) | OptError.

(** Does [optstring] have the option, and with an argument? *)
Fixpoint opt_kind (optstring : list byte) (c : byte) : option bool :=
  match optstring with
  | [] => None
  | o :: s =>
      if decide (o = c) then
        if decide (c = ":"%byte) then None
        else Some (match s with a :: _ => bool_decide (a = ":"%byte) | [] => false end)
      else opt_kind s c
  end.

(** The options of an element of [argv] after its dash; an option with an argument
    takes the rest of the element, or the next one. *)
Fixpoint opt_cluster (optstring : list byte) (w : list byte) (rest : list (list byte)) : list opt * list (list byte) :=
  match w with
  | [] => ([], rest)
  | c :: w =>
      match opt_kind optstring c with
      | None => let '(l, r) := opt_cluster optstring w rest in (OptError :: l, r)
      | Some false => let '(l, r) := opt_cluster optstring w rest in (Opt c None :: l, r)
      | Some true =>
          match w, rest with
          | _ :: _, _ => ([Opt c (Some w)], rest)
          | [], a :: rest => ([Opt c (Some a)], rest)
          | [], [] => ([OptError], [])
          end
      end
  end.

(** The results of [getopt] until it returns -1, and the operands, which it has
    moved behind the options; every call of the loop takes an element. *)
Fixpoint getopt_loop (optstring : list byte) (fuel : nat) (args : list (list byte)) : list opt * list (list byte) :=
  match fuel, args with
  | O, _ | _, [] => ([], [])
  | S fuel, a :: rest =>
      if decide (a = bs "--") then ([], rest)
      else match a with
      | "-"%byte :: c :: w =>
          let '(l, rest) := opt_cluster optstring (c :: w) rest in
          let '(l', operands) := getopt_loop optstring fuel rest in
          (l ++ l', operands)
      | _ =>
          let '(l, operands) := getopt_loop optstring fuel rest in
          (l, a :: operands)
      end
  end.

Definition getopt (optstring : string) (args : list (list byte)) : list opt * list (list byte) :=
  getopt_loop (bs optstring) (length args) args.

Definition isspace (b : byte) : bool := (bz b =? 32) || (9 <=? bz b) && (bz b <=? 13).
Definition digit (b : byte) : option Z := if (48 <=? bz b) && (bz b <=? 57) then Some (bz b - 48) else None.

(** The value of the leading digits, after those read into [n]. *)
Fixpoint digits (n : Z) (s : list byte) : Z :=
  match s with
  | b :: s => match digit b with Some v => digits (10 * n + v) s | None => n end
  | [] => n
  end.

Fixpoint skip_space (s : list byte) : list byte :=
  match s with b :: s' => if isspace b then skip_space s' else s | [] => [] end.

(** Sign and magnitude of the number at the start of a string. *)
Definition read_number (s : list byte) : bool * Z :=
  match skip_space s with
  | b :: s' => if decide (b = "-"%byte) then (true, digits 0 s')
               else if decide (b = "+"%byte) then (false, digits 0 s') else (false, digits 0 (b :: s'))
  | [] => (false, 0)
  end.

(** [strtol] is limited to [long]; the cast to [int] drops the upper half. *)
Definition atoi (s : list byte) : Z :=
  let '(neg, n) := read_number s in
  s32 (if neg : bool then Z.max (- 2 ^ 63) (- n) else Z.min (2 ^ 63 - 1) n).

Definition strtoull (s : list byte) : Z :=
  let '(neg, n) := read_number s in
  if 2 ^ 64 <=? n then 2 ^ 64 - 1 else if neg : bool then u64 (- n) else n.

(** ** main.c *)

Inductive objmapper_transport_t := OBJMAPPER_TRANSPORT_UNIX | OBJMAPPER_TRANSPORT_TCP | OBJMAPPER_TRANSPORT_UDP.

Definition transport_of (s : list byte) : option objmapper_transport_t :=
  if bool_decide (s = bs "unix") then Some OBJMAPPER_TRANSPORT_UNIX
  else if bool_decide (s = bs "tcp") then Some OBJMAPPER_TRANSPORT_TCP
  else if bool_decide (s = bs "udp") then Some OBJMAPPER_TRANSPORT_UDP
  else None.

(** The variables of [main] that options set. *)
Record server_vars := ServerVars {
  sv_transport : objmapper_transport_t; sv_socket_path : list byte; sv_host : option (list byte); sv_port : Z;
  sv_backing_dir : option (list byte); sv_cache_dir : option (list byte); sv_cache_limit : Z; sv_max_connections : Z
}.

Definition server_vars0 : server_vars :=
  ServerVars OBJMAPPER_TRANSPORT_UNIX OBJMAPPER_SOCK_PATH None 0 None None (1024 * 1024 * 1024) 10.

(** The [switch] of the option loop: the variables, or the exit status. *)
Definition server_option (o : opt) (v : server_vars) : server_vars + Z :=
  let '(ServerVars t p h n b c l m) := v in
  match o with
  | Opt "t" (Some a) =>
      match transport_of a with
      | Some t => inl (ServerVars t p h n b c l m)
      | None => inr 1
      end
  | Opt "s" (Some a) => inl (ServerVars t a h n b c l m)
  | Opt "H" (Some a) => inl (ServerVars t p (Some a) n b c l m)
  | Opt "p" (Some a) => inl (ServerVars t p h (u16 (atoi a)) b c l m)
  | Opt "b" (Some a) => inl (ServerVars t p h n (Some a) c l m)
  | Opt "c" (Some a) => inl (ServerVars t p h n b (Some a) l m)
  | Opt "l" (Some a) => inl (ServerVars t p h n b c (strtoull a) m)
  | Opt "m" (Some a) => inl (ServerVars t p h n b c l (atoi a))
  | Opt "h" _ => inr 0
  | _ => inr 1
  end%byte.

(** A loop of [getopt]. *)
Fixpoint run_options {V} (f : opt -> V -> V + Z) (l : list opt) (v : V) : V + Z :=
  match l with
  | [] => inl v
  | o :: l => match f o v with inl v => run_options f l v | inr status => inr status end
  end.

Definition server_net (v : server_vars) : net_config :=
  match sv_transport v with
  | OBJMAPPER_TRANSPORT_UNIX => NetUnix (Some (sv_socket_path v))
  | OBJMAPPER_TRANSPORT_TCP => NetTcp (sv_host v) (sv_port v)
  | OBJMAPPER_TRANSPORT_UDP => NetUdp (sv_host v) (sv_port v)
  end.

Definition SERVER_OPTS : string := "t:s:H:p:b:c:l:m:h".

(** The configuration the arguments (after the program's name) give. *)
Definition server_config (args : list (list byte)) : server_config_t + Z :=
  match run_options server_option (getopt SERVER_OPTS args).1 server_vars0 with
  | inr status => inr status
  | inl v =>
      if bool_decide (sv_backing_dir v = None) then inr 1
      else inl (ServerConfig (server_net v) (sv_backing_dir v) (sv_cache_dir v) (sv_cache_limit v) (sv_max_connections v))
  end.

(** ** test_client.c *)

Record client_vars := ClientVars {
  cv_transport : objmapper_transport_t; cv_socket_path : list byte; cv_host : list byte; cv_port : Z;
  cv_mode : byte; cv_output : option (list byte)
}.

Definition client_vars0 : client_vars :=
  ClientVars OBJMAPPER_TRANSPORT_UNIX OBJMAPPER_SOCK_PATH (bs "localhost") 0 OP_FDPASS None.

Definition client_option (o : opt) (v : client_vars) : client_vars + Z :=
  let '(ClientVars t p h n m f) := v in
  match o with
  | Opt "t" (Some a) =>
      match transport_of a with
      | Some t => inl (ClientVars t p h n m f)
      | None => inr 1
      end
  | Opt "s" (Some a) => inl (ClientVars t a h n m f)
  | Opt "H" (Some a) => inl (ClientVars t p a n m f)
  | Opt "p" (Some a) => inl (ClientVars t p h (u16 (atoi a)) m f)
  | Opt "m" (Some a) => inl (ClientVars t p h n (default x00 (head a)) f)
  | Opt "o" (Some a) => inl (ClientVars t p h n m (Some a))
  | Opt "h" _ => inr 0
  | _ => inr 1
  end%byte.

(** The configuration; descriptor passing is replaced by copying off Unix sockets. *)
Definition client_net (v : client_vars) : client_config_t :=
  match cv_transport v with
  | OBJMAPPER_TRANSPORT_UNIX => ClientConfig (NetUnix (Some (cv_socket_path v))) (cv_mode v)
  | OBJMAPPER_TRANSPORT_TCP =>
      ClientConfig (NetTcp (Some (cv_host v)) (cv_port v)) (if bool_decide (cv_mode v = OP_FDPASS) then OP_COPY else cv_mode v)
  | OBJMAPPER_TRANSPORT_UDP =>
      ClientConfig (NetUdp (Some (cv_host v)) (cv_port v)) (if bool_decide (cv_mode v = OP_FDPASS) then OP_COPY else cv_mode v)
  end.

Definition CLIENT_OPTS : string := "t:s:H:p:m:o:h".

(** What the arguments ask for: configuration, output file, URI. *)
Definition client_job (args : list (list byte)) : (client_config_t * option (list byte) * list byte) + Z :=
  let '(l, operands) := getopt CLIENT_OPTS args in
  match run_options client_option l client_vars0 with
  | inr status => inr status
  | inl v =>
      match operands with
      | [] => inr 1
      | uri :: _ => inl (client_net v, cv_output v, uri)
      end
  end.

(** [while ((n = read(fd, buffer, sizeof(buffer))) > 0)]: every round takes at least
    one byte of the file. *)
Fixpoint output_loop (size fuel : nat) (fd out_fd : Z) : M kernel bool :=
  match fuel with
  | O => block
  | S fuel =>
      r ← sys_fread fd size;
      match r with
      | inl [] | inr _ => mret true
      | inl d =>
          ok ← write_out (length d) out_fd d;
          if ok : bool then output_loop size fuel fd out_fd else mret false
      end
  end.

Definition STDOUT_FILENO : Z := 1.

(** From the received descriptor to the exit status. *)
Definition output_object (fd : Z) (output_file : option (list byte)) (sock : Z) : M kernel Z :=
  out_fd ← match output_file with
           | Some f => sys_open f O_WRONLY true true
           | None => mret STDOUT_FILENO
           end;
  if bool_decide (is_Some output_file) && (out_fd <? 0) then
    _ ← sys_close_fd fd;
    _ ← objmapper_client_close sock;
    mret 1
  else
    k ← get;
    ok ← output_loop DATA_BUF (S (file_length k fd)) fd out_fd;
    _ ← (if bool_decide (is_Some output_file) then sys_close_fd out_fd else mret ());
    _ ← sys_close_fd fd;
    _ ← objmapper_client_close sock;
    mret (if ok : bool then 0 else 1).

Section Programs.
Variables inet_pton gethostbyname : list byte -> option Z.

(** [main] of main.c: the listening handle whose connections the server goes on
    to accept, or the exit status. *)
Definition legacy_server_main (args : list (list byte)) : M lserver (transport + Z) :=
  match server_config args with
  | inr status => mret (inr status)
  | inl config =>
      r ← objmapper_server_start inet_pton gethostbyname (Some config);
      mret (match r with inl t => inl t | inr r => inr (if r <? 0 then 1 else 0) end)
  end.

(** [main] of test_client.c. *)
Definition test_client_main (args : list (list byte)) : M tio Z :=
  match client_job args with
  | inr status => mret status
  | inl (config, output_file, uri) =>
      sock ← objmapper_client_connect inet_pton gethostbyname (Some config);
      if sock <? 0 then mret 1
      else
        fd ← objmapper_client_request sock (Some uri) (cc_operation_mode config);
        if fd <? 0 then _ ← onik (objmapper_client_close sock); mret 1
        else onik (output_object fd output_file sock)
  end.
End Programs.

(** ** Reading what was printed *)

(** [printf("%d")] of a number of at most [fuel + 1] digits, before [acc]. *)
Fixpoint decimal (fuel : nat) (n : Z) (acc : list byte) : list byte :=
  let acc := zb (48 + n mod 10) :: acc in
  match fuel with
  | O => acc
  | S fuel => if n <? 10 then acc else decimal fuel (n / 10) acc
  end.
Definition print_number (n : Z) : list byte := if n <? 0 then "-"%byte :: decimal 20 (- n) [] else decimal 20 n [].

Lemma digit_zb v : 0 <= v < 10 -> digit (zb (48 + v)) = Some v.
Proof.
  intros Hv. unfold digit. rewrite bz_zb, Z.mod_small by lia. rewrite (proj2 (Z.leb_le 48 (48 + v))), (proj2 (Z.leb_le (48 + v) 57)) by lia. f_equal. lia.
Qed.

Lemma digits_decimal fuel : forall n acc, 0 <= n < 10 ^ (Z.of_nat fuel + 1) -> digits 0 (decimal fuel n acc) = digits n acc.
Proof.
  induction fuel as [|fuel IH]; intros n acc Hn; cbn [decimal digits].
  - rewrite digit_zb by (apply Z.mod_pos_bound; lia). f_equal. change (10 ^ (Z.of_nat 0 + 1)) with 10 in Hn. rewrite Z.mod_small by lia. lia.
  - destruct (Z.ltb_spec n 10).
    + cbn [digits]. rewrite digit_zb by (apply Z.mod_pos_bound; lia). f_equal. rewrite Z.mod_small by lia. lia.
    + rewrite IH.
      * cbn [digits]. rewrite digit_zb by (apply Z.mod_pos_bound; lia). f_equal. pose proof (Z.div_mod n 10). lia.
      * split; [apply Z.div_pos; lia|]. apply Z.div_lt_upper_bound; [lia|]. rewrite <- Z.pow_succ_r by lia.
        replace (Z.succ (Z.of_nat fuel + 1)) with (Z.of_nat (S fuel) + 1) by lia. lia.
Qed.

Lemma decimal_head fuel : forall n acc, exists v l, 0 <= v < 10 /\ decimal fuel n acc = zb (48 + v) :: l.
Proof.
  assert (H : forall n (acc : list byte), exists v l, 0 <= v < 10 /\ zb (48 + n mod 10) :: acc = zb (48 + v) :: l).
  { intros n acc. exists (n mod 10), acc. split; [apply Z.mod_pos_bound; lia|done]. }
  induction fuel as [|fuel IH]; intros n acc; cbn [decimal]; [apply H|]. destruct (n <? 10); [apply H|apply IH].
Qed.

Lemma read_decimal n : 0 <= n < 10 ^ 21 -> read_number (decimal 20 n []) = (false, n).
Proof.
  intros Hn. pose proof (digits_decimal 20 n [] Hn) as Hd. destruct (decimal_head 20 n []) as (v & l & Hv & E). rewrite E in *.
  unfold read_number. cbn [skip_space]. unfold isspace. rewrite bz_zb, Z.mod_small by lia.
  rewrite (proj2 (Z.eqb_neq (48 + v) 32)), (proj2 (Z.leb_gt (48 + v) 13)), andb_false_r by lia. cbn [orb].
  assert (Hne : forall b, bz b < 48 -> zb (48 + v) <> b) by (intros b Hb <-; rewrite bz_zb, Z.mod_small in Hb; lia).
  rewrite !decide_False by (apply Hne; vm_compute; reflexivity). by rewrite Hd.
Qed.

Lemma read_negative n : 0 <= n < 10 ^ 21 -> read_number ("-"%byte :: decimal 20 n []) = (true, n).
Proof. intros Hn. unfold read_number. cbn [skip_space]. change (isspace "-"%byte) with false. cbv iota. rewrite decide_True by done. by rewrite (digits_decimal 20 n [] Hn). Qed.

Lemma atoi_print n : - 2 ^ 31 <= n < 2 ^ 31 -> atoi (print_number n) = n.
Proof.
  intros Hn. unfold atoi, print_number. destruct (Z.ltb_spec n 0).
  - rewrite read_negative by lia. rewrite Z.max_r by lia. rewrite Z.opp_involutive. by apply s32_small.
  - rewrite read_decimal by lia. rewrite Z.min_r by lia. by apply s32_small.
Qed.

Lemma strtoull_print n : 0 <= n < 2 ^ 64 -> strtoull (print_number n) = n.
Proof.
  intros Hn. unfold strtoull, print_number. rewrite (proj2 (Z.ltb_ge n 0)) by lia. rewrite read_decimal by lia. by rewrite (proj2 (Z.leb_gt _ _)) by lia.
Qed.

(** *** Options *)

(** Options with their arguments, as elements of [argv]. *)
Definition spell (l : list (byte * list byte)) : list (list byte) := l ≫= fun p => [["-"%byte; p.1]; p.2].
Definition maybe (c : byte) (a : option (list byte)) : list (byte * list byte) := match a with Some a => [(c, a)] | None => [] end.

Definition net_options (n : net_config) : list (byte * list byte) :=
  match n with
  | NetUnix p => ("t", bs "unix") :: maybe "s" p
  | NetTcp h p => ("t", bs "tcp") :: maybe "H" h ++ [("p", print_number p)]
  | NetUdp h p => ("t", bs "udp") :: maybe "H" h ++ [("p", print_number p)]
  end%byte.

Definition server_args (c : server_config_t) : list (list byte) :=
  spell (net_options (vc_net c) ++ maybe "b" (vc_backing_dir c) ++ maybe "c" (vc_cache_dir c) ++
         [("l", print_number (vc_cache_limit c)); ("m", print_number (vc_max_connections c))])%byte.

(** The output file and the URI; [--] in case the latter starts with a dash. *)
Definition client_args (c : client_config_t) (output : option (list byte)) (uri : list byte) : list (list byte) :=
  spell (net_options (cc_net c) ++ ("m", [cc_operation_mode c]) :: maybe "o" output)%byte ++ [bs "--"; uri].

(** Configurations the options can express. *)
Definition net_ok (n : net_config) : Prop :=
  match n with NetUnix p => is_Some p | NetTcp _ p | NetUdp _ p => 0 <= p < 2 ^ 16 end.
Definition server_ok (c : server_config_t) : Prop :=
  net_ok (vc_net c) /\ is_Some (vc_backing_dir c) /\ 0 <= vc_cache_limit c < 2 ^ 64 /\ - 2 ^ 31 <= vc_max_connections c < 2 ^ 31.
Definition client_ok (c : client_config_t) : Prop :=
  match cc_net c with
  | NetUnix p => is_Some p
  | NetTcp h p | NetUdp h p => is_Some h /\ 0 <= p < 2 ^ 16 /\ cc_operation_mode c <> OP_FDPASS
  end.

(** Options that all take an argument are read as spelled, whatever the arguments. *)
Lemma getopt_spell optstring l : Forall (fun p => opt_kind optstring p.1 = Some true /\ p.1 <> "-"%byte) l -> forall fuel rest,
  getopt_loop optstring (length l + fuel) (spell l ++ rest) =
  let '(o, operands) := getopt_loop optstring fuel rest in (((fun p => Opt p.1 (Some p.2)) <$> l) ++ o, operands).
Proof.
  induction 1 as [|[c a] l [Hk Hc] Hl IH]; intros fuel rest; [simpl; by destruct (getopt_loop optstring fuel rest)|].
  simpl in Hk, Hc. change (spell ((c, a) :: l) ++ rest) with (["-"%byte; c] :: a :: spell l ++ rest). cbn [length Nat.add getopt_loop].
  rewrite decide_False by (intros [= E]; apply Hc; exact E). cbn [opt_cluster]. rewrite Hk. rewrite IH.
  by destruct (getopt_loop optstring fuel rest).
Qed.

Lemma length_spell l : length (spell l) = (length l + length l)%nat.
Proof. induction l as [|p l IH]; [done|]. unfold spell in *. cbn. rewrite IH. lia. Qed.

Lemma getopt_loop_nil optstring fuel : getopt_loop optstring fuel [] = ([], []).
Proof. by destruct fuel. Qed.

(** Printing the options of a configuration and reading them gives it back, for
    the server and for the client, whatever the strings contain: main.c and
    test_client.c understand every configuration their options can express. *)
Theorem options_roundtrip :
  (forall c, server_ok c -> server_config (server_args c) = inl c) /\
  (forall c output uri, client_ok c -> client_job (client_args c output uri) = inl (c, output, uri)).
Proof.
  split.
  - intros [net b cd lim mx] (Hn & [dir Hb] & Hl & Hm). simpl in *. subst b. unfold server_config, getopt, server_args.
    match goal with |- context [spell ?l] => set (opts := l) end.
    assert (Hg : getopt_loop (bs SERVER_OPTS) (length (spell opts)) (spell opts) = (((fun p => Opt p.1 (Some p.2)) <$> opts), [])).
    { rewrite length_spell. rewrite <- (app_nil_r (spell opts)). rewrite getopt_spell, getopt_loop_nil; [by rewrite app_nil_r|].
      subst opts. destruct net as [[p|]|[h|] p|[h|] p], cd as [cd|]; simpl; repeat constructor; done. }
    rewrite Hg. subst opts. pose proof (strtoull_print lim Hl) as E1. pose proof (atoi_print mx Hm) as E2.
    destruct net as [[p|]|[h|] p|[h|] p], cd as [cd|]; simpl in *; try (destruct Hn; done);
      rewrite ?(atoi_print p) by lia; rewrite E1, E2; unfold server_net; simpl; rewrite ?u16_small by lia; reflexivity.
  - intros [net mode] output uri Hn. unfold client_job, getopt, client_args.
    match goal with |- context [spell ?l] => set (opts := l) end.
    assert (Hg : getopt_loop (bs CLIENT_OPTS) (length (spell opts ++ [bs "--"; uri])) (spell opts ++ [bs "--"; uri]) =
      (((fun p => Opt p.1 (Some p.2)) <$> opts), [uri])).
    { rewrite length_app, length_spell. rewrite <- Nat.add_assoc. rewrite getopt_spell.
      - rewrite Nat.add_comm. simpl. by rewrite app_nil_r.
      - subst opts. destruct net as [[p|]|[h|] p|[h|] p], output; simpl; repeat constructor; done. }
    rewrite Hg. subst opts. unfold client_ok in Hn.
    destruct net as [[p|]|[h|] p|[h|] p], output; simpl in *; try (by destruct Hn as [? ?]); try done;
      try (destruct Hn as (_ & Hp & Hm)); rewrite ?(atoi_print p) by lia; unfold client_net; simpl; rewrite ?u16_small by lia;
      rewrite ?bool_decide_eq_false_2 by done; reflexivity.
Qed.

(** Clustered options, attached arguments and operands before options. *)
Example job_permuted : client_job [bs "/a"; bs "-ofile"; bs "-m3"] = inl (ClientConfig (NetUnix (Some OBJMAPPER_SOCK_PATH)) OP_SPLICE, Some (bs "file"), bs "/a").
Proof. reflexivity. Qed.
Example job_errors : client_job [bs "-m"] = inr 1 /\ client_job [bs "-x"; bs "/a"] = inr 1 /\ client_job [bs "-t"; bs "sctp"; bs "/a"] = inr 1 /\
  client_job [bs "-hx"] = inr 0 /\ client_job [] = inr 1 /\ server_config [bs "-t"; bs "tcp"] = inr 1.
Proof. repeat split. Qed.

(** ** Copying the object out *)

(** The kernel makes short transfers, of at least one byte, and refuses nothing. *)
Definition short_only (k : kernel) : Prop := Forall (fun e => exists n, e = IoPartial (S n)) (sched k).

Lemma take_length_take {A} n (l : list A) : take (length (take n l)) l = take n l.
Proof. rewrite length_take. destruct (Nat.le_ge_cases n (length l)); [by rewrite Nat.min_l|rewrite Nat.min_r, !take_ge by lia; done]. Qed.

Section Copying.
(** Source and destination: two open descriptions of two files. *)
Context (names0 : gmap key node) (fds : gmap Z Z) (fd o i out_fd o' j : Z) (wr rd : bool) (data : list byte).
Context (Hfd : fds !! fd = Some o) (Hout : fds !! out_fd = Some o') (Ho : o <> o') (Hij : i <> j).

Definition copying (pos : nat) (out : list byte) (k : kernel) : Prop :=
  names k = names0 /\ fdtab k = fds /\ ofds k !! o = Some (Ofd (Some i) pos true wr) /\
  ofds k !! o' = Some (Ofd (Some j) (length out) rd true) /\ inodes k !! i = Some data /\ inodes k !! j = Some out /\ short_only k.

Lemma read_step n pos out k : (0 < n)%nat -> copying pos out k -> exists c k',
  sys_fread fd n k = Ret (inl c) k' /\ copying (pos + length c) out k' /\
  c = take (length c) (drop pos data) /\ (c = [] -> drop pos data = []).
Proof.
  intros Hn (H1 & H2 & H3 & H4 & H5 & H6 & H7). unfold sys_fread, ofd_of. rewrite H2, Hfd. simpl. rewrite H3. simpl. rewrite H5. simpl.
  assert (Hgo : forall m w, (0 < m)%nat -> Forall (fun e => exists n, e = IoPartial (S n)) w -> let c := take m (drop pos data) in
    copying (pos + length c) out (set_sched w (set_ofds (<[o:=set_pos (pos + length c) (Ofd (Some i) pos true wr)]> (ofds k)) k)) /\
    c = take (length c) (drop pos data) /\ (c = [] -> drop pos data = [])).
  { intros m w Hm Hw c. split; [|split].
    - unfold copying. simpl. rewrite lookup_insert_eq, lookup_insert_ne by done. done.
    - symmetry. apply take_length_take.
    - unfold c. destruct (drop pos data) as [|x l]; [done|]. destruct m; [lia|done]. }
  unfold short_only in H7. destruct (sched k) as [|e w] eqn:Es.
  - eexists _, _. split; [reflexivity|]. apply (Hgo n [] Hn). constructor.
  - inversion H7 as [|? ? [q ->] Hw]; subst. eexists _, _. split; [reflexivity|]. apply Hgo; [destruct n; simpl; lia|exact Hw].
Qed.

Lemma write_step d pos out k : d <> [] -> copying pos out k -> exists n k',
  sys_fwrite out_fd d k = Ret (inl (S n)) k' /\ (S n <= length d)%nat /\ copying pos (out ++ take (S n) d) k'.
Proof.
  intros Hd (H1 & H2 & H3 & H4 & H5 & H6 & H7). unfold sys_fwrite, ofd_of. rewrite H2, Hout. simpl. rewrite H4. simpl. rewrite H6. simpl.
  assert (Hl : (0 < length d)%nat) by (destruct d; [done|simpl; lia]).
  assert (Hgo : forall m w, (0 < m)%nat -> Forall (fun e => exists n, e = IoPartial (S n)) w ->
    let d' := take (Z.to_nat (Z.min (Z.of_nat m) MAX_RW_COUNT)) d in exists n, length d' = S n /\ (S n <= length d)%nat /\ take (S n) d = d' /\
    copying pos (out ++ d') (set_sched w (set_ofds (<[o':=set_pos (length out + length d') (Ofd (Some j) (length out) rd true)]> (ofds k))
      (set_inodes (<[j:=write_at out (length out) d']> (inodes k)) k)))).
  { intros m w Hm Hw d'. exists (Nat.pred (length d')). assert (Hp : (0 < length d')%nat).
    { unfold d'. rewrite length_take. unfold MAX_RW_COUNT. lia. }
    assert (Hle : (length d' <= length d)%nat) by (unfold d'; rewrite length_take; lia). rewrite Nat.succ_pred by lia.
    split; [done|]. split; [done|]. split; [apply take_length_take|].
    unfold copying. simpl. rewrite write_at_end, lookup_insert_eq, !lookup_insert_ne, lookup_insert_eq by done.
    rewrite length_app. done. }
  unfold short_only in H7. destruct (sched k) as [|e w] eqn:Es.
  - destruct (Hgo (length d) [] Hl ltac:(constructor)) as (n & E & Hn & Ht & Hc). eexists n, _. rewrite E. split; [reflexivity|]. split; [done|]. rewrite E in Hc. by rewrite Ht.
  - inversion H7 as [|? ? [q ->] Hw]; subst. destruct (Hgo (S q) w ltac:(lia) Hw) as (n & E & Hn & Ht & Hc).
    eexists n, _. rewrite E. split; [reflexivity|]. split; [done|]. rewrite E in Hc. by rewrite Ht.
Qed.

Lemma write_out_step fuel : forall d pos out k, (length d <= fuel)%nat -> copying pos out k ->
  exists k', write_out fuel out_fd d k = Ret true k' /\ copying pos (out ++ d) k'.
Proof.
  induction fuel as [|fuel IH]; intros d pos out k Hd Hc.
  - destruct d; [|simpl in Hd; lia]. exists k. rewrite app_nil_r. done.
  - destruct d as [|b d]; [exists k; rewrite app_nil_r; done|]. destruct (write_step (b :: d) pos out k ltac:(done) Hc) as (n & k1 & H1 & Hn & Hc1).
    cbn [write_out]. rewrite (bind_Ret _ _ _ _ _ H1). destruct (IH (drop (S n) (b :: d)) pos (out ++ take (S n) (b :: d)) k1) as (k2 & H2 & Hc2); [|exact Hc1|].
    + rewrite length_drop. simpl in *. lia.
    + exists k2. split; [exact H2|]. by rewrite <- app_assoc, take_drop in Hc2.
Qed.

(** The copy is complete: every round takes a piece of the file and writes it whole. *)
Lemma output_loop_step n fuel : (0 < n)%nat -> forall pos k, (length data < fuel + pos)%nat -> (pos <= length data)%nat ->
  copying pos (take pos data) k -> exists k', output_loop n fuel fd out_fd k = Ret true k' /\ copying (length data) data k'.
Proof.
  intros Hn. induction fuel as [|fuel IH]; intros pos k Hf Hp Hc; [lia|].
  destruct (read_step n pos _ k Hn Hc) as (c & k1 & H1 & Hc1 & Ec & Hend). cbn [output_loop]. rewrite (bind_Ret _ _ _ _ _ H1).
  assert (Hlen : (pos + length c <= length data)%nat) by (apply (f_equal length) in Ec; rewrite length_take, length_drop in Ec; lia).
  destruct c as [|b c].
  - specialize (Hend eq_refl). apply (f_equal length) in Hend. rewrite length_drop in Hend. simpl in *.
    assert (pos = length data) as -> by lia. exists k1. rewrite Nat.add_0_r, firstn_all in Hc1. done.
  - destruct (write_out_step (length (b :: c)) (b :: c) _ _ k1 ltac:(lia) Hc1) as (k2 & H2 & Hc2). rewrite (bind_Ret _ _ _ _ _ H2).
    assert (E : take pos data ++ b :: c = take (pos + length (b :: c)) data).
    { rewrite Ec at 1. rewrite <- (take_drop pos data) at 3. rewrite take_app. rewrite length_take, Nat.min_l by lia.
      rewrite take_take, Nat.min_r by lia. f_equal. f_equal. lia. }
    rewrite E in Hc2. apply (IH (pos + length (b :: c))%nat k2); [simpl; lia|exact Hlen|exact Hc2].
Qed.
End Copying.

(** [open] for writing under such a kernel. *)
Lemma open_short p m (d : key) k :
  short_only k -> resolve k p = Some d -> d <> [] -> names k !! d <> Some Dir -> exists w, Forall (fun e => exists n, e = IoPartial (S n)) w /\
  sys_open p m true true k =
    Ret (lowest_free (fdtab k)) (set_sched w (with_ofd (Ofd (Some (touch d k).1) 0 m.1 m.2) (touch d k).2)).
Proof.
  intros Hs Hr Hne Hd. unfold short_only in Hs. unfold sys_open, mbind, M_bind, refused, touch.
  destruct (sched k) as [|e w] eqn:Es.
  - exists []. split; [constructor|]. cbn [get]. rewrite Hr, node_at_ne by done. unfold with_ofd, install.
    destruct k; simpl in *; subst. by destruct (names !! d) as [[|i]|].
  - inversion Hs as [|? ? [q ->] Hw]; subst. exists w. split; [done|]. cbn [get].
    rewrite (resolve_names k (set_sched w k) p), Hr, node_at_ne by done. cbn [names set_sched].
    destruct k; simpl in *. by destruct (names !! d) as [[|i]|].
Qed.

(** C27: the test client stores the object it has received completely: under
    every sequence of short reads and writes the output file ends up with exactly the
    contents behind the descriptor, the exit status is 0, and descriptor, output
    file and connection are closed. *)
Theorem test_client_stores_object fd o i wr data f d sock k :
  fs_ok k -> short_only k -> ofd_of k fd = Some (o, Ofd (Some i) 0 true wr) -> inodes k !! i = Some data ->
  resolve k f = Some d -> d <> [] -> names k !! d <> Some Dir -> names k !! d <> Some (File i) -> 0 <= sock ->
  exists k' j, output_object fd (Some f) sock k = Ret 0 k' /\ names k' !! d = Some (File j) /\ inodes k' !! j = Some data /\
    fdtab k' = delete sock (delete fd (fdtab k)).
Proof.
  intros Hk Hs [Hfd Ho]%ofd_of_Some Hi Hr Hne Hd Hdi Hsock. pose proof (touch_spec d k Hk Hd) as Ht.
  destruct (open_short f O_WRONLY d k Hs Hr Hne Hd) as (w & Hw & Hopen). destruct (touch d k) as [j k1] eqn:Et. simpl fst in *. simpl snd in *.
  destruct Ht as (Hk1 & Hn1 & _ & Hj1 & _ & Hino & _ & Eo & Ef & _).
  assert (Hij : i <> j).
  { intros ->. unfold touch in Et. destruct (names k !! d) as [[|x]|] eqn:En; [done| |]; injection Et as <- _; [by apply Hdi|].
    by rewrite fresh_id_None in Hi. }
  unfold output_object. rewrite (bind_Ret _ _ _ _ _ Hopen). set (out := lowest_free (fdtab k)) in *.
  rewrite (proj2 (Z.ltb_ge out 0)), andb_false_r by apply lowest_free_nonneg. rewrite (bind_Ret get _ _ _ _ eq_refl).
  set (k2 := set_sched w (with_ofd _ k1)) in *.
  assert (Hne_fd : out <> fd) by (intros <-; unfold out in Hfd; by rewrite lowest_free_None in Hfd).
  assert (Ho' : o <> fresh_id (ofds k)) by (intros ->; by rewrite fresh_id_None in Ho).
  assert (Efd : fdtab k2 = <[out:=fresh_id (ofds k)]> (fdtab k)) by (unfold k2, with_ofd; simpl; by rewrite Ef, Eo).
  assert (Hc : copying (names k1) (fdtab k2) o i (fresh_id (ofds k)) j wr false data 0 [] k2).
  { unfold copying, k2, with_ofd. simpl. rewrite Eo, lookup_insert_eq, lookup_insert_ne, Hino by done. done. }
  assert (Hl1 : fdtab k2 !! fd = Some o) by (rewrite Efd, lookup_insert_ne by done; exact Hfd).
  assert (Hl2 : fdtab k2 !! out = Some (fresh_id (ofds k))) by (rewrite Efd; apply lookup_insert_eq).
  clearbody k2. assert (Hlen : file_length k2 fd = length data).
  { unfold file_length, ofd_of. rewrite Hl1. simpl. destruct Hc as (_ & _ & -> & _ & Hd2 & _). simpl. by rewrite Hd2. }
  destruct (output_loop_step (names k1) (fdtab k2) fd o i out (fresh_id (ofds k)) j wr false data Hl1 Hl2 Ho' Hij DATA_BUF (S (file_length k2 fd))
    ltac:(unfold DATA_BUF; lia) 0 k2) as (k3 & H3 & Hc3); [rewrite Hlen; lia|lia|exact Hc|].
  rewrite (bind_Ret _ _ _ _ _ H3). destruct Hc3 as (E1 & E2 & _ & _ & _ & E3 & _).
  cbn [bool_decide]. unfold objmapper_client_close. rewrite (proj2 (Z.leb_le 0 sock) Hsock).
  eexists _, j. split; [reflexivity|]. simpl. rewrite E1, E2, Efd. unfold out. rewrite delete_lowest_free. done.
Qed.

(** A process with a connection (3) and a received descriptor (4), whose transfers are
    cut to two bytes. *)
Definition received_kernel : kernel :=
  Kernel ∅ {[7 := bs "hello"]} {[5 := Ofd (Some 7) 0 true false; 6 := Ofd None 0 true true]} {[3 := 6; 4 := 5]} (replicate 9 (IoPartial 1)) [] 0 [] [].

Lemma received_kernel_ok : fs_ok received_kernel /\ short_only received_kernel.
Proof.
  split; [|apply Forall_replicate; by exists 0%nat]. split; unfold received_kernel; simpl; [done..| |].
  - intros o e i H He. apply lookup_insert_Some in H as [[_ <-]|[_ H]]; [injection He as <-; vm_compute; by eexists|].
    apply lookup_singleton_Some in H as [_ <-]. done.
  - intros fd o H. apply lookup_insert_Some in H as [[_ <-]|[_ H]]; [vm_compute; by eexists|]. apply lookup_singleton_Some in H as [_ <-]. vm_compute. by eexists.
Qed.

Lemma test_client_stores_object_witness :
  exists k' j, output_object 4 (Some (bs "/out")) 3 received_kernel = Ret 0 k' /\ names k' !! [bs "out"] = Some (File j) /\
    inodes k' !! j = Some (bs "hello") /\ fdtab k' = delete 3 (delete 4 (fdtab received_kernel)).
Proof.
  destruct received_kernel_ok as [H1 H2].
  apply (test_client_stores_object 4 5 7 false (bs "hello") (bs "/out") [bs "out"] 3 received_kernel H1 H2);
    [reflexivity|reflexivity|vm_compute; reflexivity|discriminate|vm_compute; discriminate|vm_compute; discriminate|lia].
Defined.

(** A failing read ends the copy like the end of the file: nothing is stored and the
    client exits with 0. *)
Theorem read_failure_unnoticed :
  exists k', output_object 4 (Some (bs "/out")) 3 (set_sched [IoPartial 0; IoFail] received_kernel) = Ret 0 k' /\ inodes k' !! 0 = Some [].
Proof. eexists. split; vm_compute; reflexivity. Qed.

Lemma options_roundtrip_witness :
  let c := ServerConfig (NetTcp (Some (bs "-x")) 8080) (Some (bs "/b")) None 4096 (-1) in
  let d := ClientConfig (NetUnix (Some (bs "/s"))) OP_FDPASS in
  server_config (server_args c) = inl c /\ client_job (client_args d None (bs "-u")) = inl (d, None, bs "-u").
Proof.
  intros c d. split.
  - apply (proj1 options_roundtrip c). split; [simpl; lia|]. split; [by eexists|]. simpl. lia.
  - apply (proj2 options_roundtrip d). by eexists.
Defined.
