(* ===== verification/ProtoStore.v ===== *)
(** * ProtoStore: the object table of the prototype cache server

    [datapass/csrc/server.c] up to [get_item]: the regular files of [./back] are
    listed once at start-up, opened, and found through a hash table with linear
    probing that holds the hash of a name and the number of the item.  A hash of
    0 marks a free place.  Both arrays are [malloc]ed and not cleared: what the
    allocator returns is an argument of [init_storage].  Access outside an array,
    an unterminated string and an overflowing [sprintf] are [Fault]s; a probing
    loop that comes round to its start never ends ([Blocked]). *)

From S2P Require Import Prelude Socket Kernel.

(** ** Data *)

(** [fsname] and [cachename] are buffers of 1024 bytes; [objname], [cachemem] and
    [hits] are never used. *)
Record st_t := StT { fsname : list byte; cachename : list byte; cfd : Z; fsfd : Z; it_size : Z }.

Record he_t := HeT { fullhash : Z; he_index : Z }.

Record s_t := SFields { s_cached : Z; s_cachelimit : Z; s_items : list st_t; s_hsize : Z; s_indexes : list he_t }.

Definition BACKINGDIR : list byte := bs "./back".
Definition CACHEDIR : list byte := bs "./cached".

Definition set_cfd (z : Z) (i : st_t) : st_t := StT (fsname i) (cachename i) z (fsfd i) (it_size i).
Definition set_fsfd (z : Z) (i : st_t) : st_t := StT (fsname i) (cachename i) (cfd i) z (it_size i).
Definition set_size (z : Z) (i : st_t) : st_t := StT (fsname i) (cachename i) (cfd i) (fsfd i) z.
Definition set_fsname (b : list byte) (i : st_t) : st_t := StT b (cachename i) (cfd i) (fsfd i) (it_size i).
Definition set_cachename (b : list byte) (i : st_t) : st_t := StT (fsname i) b (cfd i) (fsfd i) (it_size i).

Definition set_items (l : list st_t) (s : s_t) : s_t := SFields (s_cached s) (s_cachelimit s) l (s_hsize s) (s_indexes s).
Definition set_indexes (l : list he_t) (s : s_t) : s_t := SFields (s_cached s) (s_cachelimit s) (s_items s) (s_hsize s) l.
Definition set_cached (z : Z) (s : s_t) : s_t := SFields z (s_cachelimit s) (s_items s) (s_hsize s) (s_indexes s).

Record pstate := PState { p_k : kernel; p_s : s_t }.

Definition onpk {A} (m : M kernel A) : M pstate A := fun s =>
  match m (p_k s) with
  | Ret a k => Ret a (PState k (p_s s))
  | Blocked => Blocked
  | Fault => Fault
  end.

Definition the_store : M pstate s_t := fun s => Ret (p_s s) s.
Definition upd_store (f : s_t -> s_t) : M pstate () := modify (fun s => PState (p_k s) (f (p_s s))).

(** [s->items[index]]. *)
Definition item_at (index : Z) : M pstate st_t := fun s =>
  deref (if index <? 0 then None else s_items (p_s s) !! Z.to_nat index) s.
Definition upd_item (index : Z) (f : st_t -> st_t) : M pstate () :=
  i ← item_at index; upd_store (fun s => set_items (<[Z.to_nat index:=f i]> (s_items s)) s).

(** [s->hash.indexes[tindex]]. *)
Definition place_at (tindex : Z) : M pstate he_t := fun s =>
  deref (if tindex <? 0 then None else s_indexes (p_s s) !! Z.to_nat tindex) s.

(** The string in a buffer, which has to end inside it. *)
Definition string_in (buf : list byte) : M pstate (list byte) :=
  if bool_decide (x00 ∈ buf) then mret (c_str buf) else fault.

(** [sprintf] of [dir/name] into an array of [n] bytes. *)
Definition sprintf_path (n : nat) (dir name : list byte) : M pstate (list byte) :=
  let text := dir ++ "/"%byte :: name in
  if bool_decide (length text < n)%nat then mret text else fault.

(** A buffer after a string and its NUL, or just bytes, were copied to its start. *)
Definition overlay (d buf : list byte) : list byte := d ++ drop (length d) buf.

(** ** Hash *)

(** A [char] is signed here. *)
Definition char_val (c : byte) : Z := if bz c <? 128 then bz c else bz c - 256.

(** [hash >> 64], in the rounds with [rots] = 0, gives 0 or [hash] depending on the
    machine; the disjunction with [hash << 0] is the same. *)
Fixpoint strtohash_from (hash rots : Z) (str : list byte) : Z :=
  match str with
  | [] => hash
  | c :: str =>
      strtohash_from (Z.lor (Z.lor (u64 (Z.shiftl hash rots)) (Z.shiftr hash (64 - rots))) (u64 (char_val c)))
        ((rots + 1) mod 64) str
  end.

Definition strtohash (str : list byte) : Z := strtohash_from 0 0 str.

(** ** The table *)

(** The probing loops of [put_item] and [get_item]: go on until [stop]. *)
Fixpoint probe (stop : he_t -> bool) (fuel : nat) (hsize tindex : Z) : M pstate Z :=
  match fuel with
  | O => block
  | S fuel =>
      h ← place_at tindex;
      if stop h then mret tindex else probe stop fuel hsize ((tindex + 1) mod hsize)
  end.

(** [fullhash % hsize], a division by zero when the table has no places. *)
Definition start_place (h hsize : Z) : M pstate Z := if hsize =? 0 then fault else mret (h mod hsize).

Definition put_item (index size : Z) : M pstate () :=
  i ← item_at index;
  name ← string_in (fsname i);
  s ← the_store;
  let h := strtohash name in
  t0 ← start_place h (s_hsize s);
  tindex ← probe (fun x => fullhash x =? 0) (Z.to_nat (s_hsize s)) (s_hsize s) t0;
  _ ← upd_store (fun s => set_indexes (<[Z.to_nat tindex:=HeT h index]> (s_indexes s)) s);
  _ ← upd_item index (set_size size);
  fullname ← sprintf_path 1024 BACKINGDIR name;
  fd ← onpk (sys_open fullname O_RDONLY false false);
  (* [exit - 1;] does not leave the function *)
  _ ← upd_item index (set_fsfd fd);
  cname ← sprintf_path 1024 CACHEDIR name;
  c ← onpk (sys_open cname O_RDONLY false false);
  if c <? 0 then upd_item index (set_cfd 0)
  else
    _ ← upd_item index (set_cfd c);
    _ ← onpk (sys_close_fd fd);
    upd_item index (set_fsfd 0).

Definition uncache_item (index : Z) : M pstate () :=
  i ← item_at index;
  name ← string_in (cachename i);
  _ ← onpk (sys_unlink name);
  upd_item index (set_cfd 0).

Definition cache_item (index : Z) : M pstate () :=
  i ← item_at index;
  name ← string_in (fsname i);
  fullpath ← sprintf_path 1024 BACKINGDIR name;
  cname ← sprintf_path 1024 CACHEDIR name;
  _ ← upd_item index (set_cachename (overlay (cname ++ [x00]) (cachename i)));
  st ← onpk (sys_stat fullpath);
  _ ← (match st with
       | Some (StReg copysize) =>
           fd ← onpk (sys_open cname O_RDWR true false);
           s ← the_store;
           if s_cachelimit s <? u64 (s_cached s + copysize) then
             _ ← upd_item index (fun i => set_size copysize (set_cfd fd i));
             upd_store (fun s => set_cached (u64 (s_cached s + copysize)) s)
           else mret ()
       | _ => mret ()
       end);
  c ← onpk (sys_open cname O_RDONLY false false);
  upd_item index (set_cfd c).

(** The second pass over the directory: [nfiles] items so far. *)
Fixpoint load_items (nfiles : Z) (entries : list (list byte)) : M pstate Z :=
  match entries with
  | [] => mret nfiles
  | d_name :: entries =>
      fullpath ← sprintf_path 1024 BACKINGDIR d_name;
      st ← onpk (sys_stat fullpath);
      match st with
      | Some (StReg size) =>
          let cplen := Nat.min (length d_name) 1024 in
          _ ← upd_item nfiles (fun i => set_fsname (overlay (take cplen d_name) (fsname i)) i);
          _ ← put_item nfiles size;
          load_items (nfiles + 1) entries
      | _ => load_items nfiles entries
      end
  end.

(** [readdir] also returns "." and "..".  The memory of the two arrays comes as
    [mem_items] and [mem_indexes] left it; an array that could not be allocated has
    no elements.  A directory that cannot be opened is read through NULL. *)
Definition init_storage (mem_items : nat -> list st_t) (mem_indexes : nat -> list he_t) : M pstate Z :=
  dir ← onpk (sys_opendir BACKINGDIR);
  match dir with
  | None => fault
  | Some names =>
      let entries := bs "." :: bs ".." :: names in
      let nfiles := length entries in
      m1 ← onpk sys_malloc;
      m2 ← onpk sys_malloc;
      _ ← upd_store (fun s => SFields (s_cached s) (s_cachelimit s) (if m1 : bool then mem_items nfiles else []) (Z.of_nat nfiles * 2)
                                      (if m2 : bool then mem_indexes (nfiles * 2)%nat else []));
      load_items 0 entries
  end.

Definition get_item (name : list byte) : M pstate Z :=
  s ← the_store;
  let h := strtohash name in
  t0 ← start_place h (s_hsize s);
  tindex ← probe (fun x => (fullhash x =? 0) || (fullhash x =? h)) (Z.to_nat (s_hsize s)) (s_hsize s) t0;
  x ← place_at tindex;
  mret (if negb (fullhash x =? h) then -1 else he_index x).

(** The descriptor the threads serve an item from. *)
Definition served_fd (i : st_t) : Z := if 0 <? cfd i then cfd i else fsfd i.
