(* ===== verification/ProtoStoreProofs.v ===== *)
(** * ProtoStoreProofs: the prototype's table finds what it holds

    The probing loops always end; a lookup returns the first file, in directory
    order, whose name has the hash of the request, which is the requested file
    when no two names have the same hash.  Some short names do. *)

From S2P Require Import Prelude Socket Kernel KernelProofs ProtoStore.

(** ** Linear probing *)

(** The place [k] steps behind the start of hash [f] in a table of [hs] places. *)
Definition slot (hs : nat) (f : Z) (k : nat) : nat := Z.to_nat ((f + Z.of_nat k) mod Z.of_nat hs).

(** The table [tbl] holds the hashes [H] of the items, each behind places that were
    taken when it came. *)
Record tab (hs : nat) (tbl : list he_t) (H : list Z) : Prop := {
  tab_len : length tbl = hs;
  tab_items : forall i f, H !! i = Some f -> exists k, (k < hs)%nat /\ tbl !! slot hs f k = Some (HeT f (Z.of_nat i)) /\
    forall k', (k' < k)%nat -> exists j g, (j < i)%nat /\ tbl !! slot hs f k' = Some (HeT g (Z.of_nat j)) /\ H !! j = Some g;
  tab_taken : forall t x, tbl !! t = Some x -> fullhash x = 0 \/ exists j, he_index x = Z.of_nat j /\ H !! j = Some (fullhash x);
  tab_count : length (filter (fun x => fullhash x <> 0) tbl) = length H;
  tab_hash : Forall (fun f => f <> 0) H
}.

Lemma slot_lt hs f k : (0 < hs)%nat -> (slot hs f k < hs)%nat.
Proof. intros H. unfold slot. pose proof (Z.mod_pos_bound (f + Z.of_nat k) (Z.of_nat hs)). lia. Qed.

Lemma slot_S hs f k : slot hs f (S k) = slot hs (f + 1) k.
Proof. unfold slot. do 2 f_equal. lia. Qed.

Lemma place_at_ok tbl st t x : s_indexes (p_s st) = tbl -> 0 <= t -> tbl !! Z.to_nat t = Some x -> place_at t st = Ret x st.
Proof. intros <- Ht Hx. unfold place_at. rewrite (proj2 (Z.ltb_ge t 0)) by done. by rewrite Hx. Qed.

(** The loop ends at the first place it has to stop at. *)
Lemma probe_ok stop hs tbl st : s_indexes (p_s st) = tbl -> (0 < hs)%nat -> forall k fuel f x,
  (forall k', (k' < k)%nat -> exists y, tbl !! slot hs f k' = Some y /\ stop y = false) -> tbl !! slot hs f k = Some x -> stop x = true -> (k < fuel)%nat ->
  probe stop fuel (Z.of_nat hs) (f mod Z.of_nat hs) st = Ret ((f + Z.of_nat k) mod Z.of_nat hs) st.
Proof.
  intros Hs Hhs. induction k as [|k IH]; intros fuel f x Hk Hx Hstop Hf; (destruct fuel as [|fuel]; [lia|]); cbn [probe].
  - unfold slot in Hx. rewrite Z.add_0_r in Hx |- *.
    rewrite (bind_Ret _ _ _ _ _ (place_at_ok tbl st (f mod Z.of_nat hs) x Hs (proj1 (Z.mod_pos_bound f (Z.of_nat hs) ltac:(lia))) Hx)). by rewrite Hstop.
  - destruct (Hk 0%nat ltac:(lia)) as (y & Hy & Hsy). unfold slot in Hy. rewrite Z.add_0_r in Hy.
    rewrite (bind_Ret _ _ _ _ _ (place_at_ok tbl st (f mod Z.of_nat hs) y Hs (proj1 (Z.mod_pos_bound f (Z.of_nat hs) ltac:(lia))) Hy)), Hsy.
    rewrite Zplus_mod_idemp_l. rewrite (IH fuel (f + 1) x); [do 2 f_equal; lia| |by rewrite <- slot_S|done|lia].
    intros k' Hk'. rewrite <- slot_S. apply Hk. lia.
Qed.

Lemma first_stop (P : nat -> bool) n : P n = true -> exists k, (k <= n)%nat /\ P k = true /\ forall k', (k' < k)%nat -> P k' = false.
Proof.
  assert (Hs : forall m, (exists k, (k <= m)%nat /\ P k = true /\ forall k', (k' < k)%nat -> P k' = false) \/ forall k', (k' <= m)%nat -> P k' = false).
  { induction m as [|m [(k & Hk & H)|Hno]].
    - destruct (P 0%nat) eqn:E; [left; exists 0%nat; split; [lia|]; split; [done|lia]|right]. intros k' Hk'. by replace k' with 0%nat by lia.
    - left. exists k. split; [lia|done].
    - destruct (P (S m)) eqn:E; [left; exists (S m); split; [lia|]; split; [done|]; intros; apply Hno; lia|right].
      intros k' Hk'. destruct (decide (k' = S m)) as [->|]; [done|apply Hno; lia]. }
  intros Hn. destruct (Hs n) as [H|H]; [done|]. by rewrite H in Hn.
Qed.

(** Some place is free while there are fewer items than places. *)
Lemma free_place hs tbl H : tab hs tbl H -> (length H < hs)%nat -> forall f, exists k x, (k < hs)%nat /\ tbl !! slot hs f k = Some x /\ fullhash x = 0.
Proof.
  intros [T1 _ _ T4 _] Hl f.
  assert (Hex : exists t x, tbl !! t = Some x /\ fullhash x = 0).
  { destruct (decide (Forall (fun x => fullhash x <> 0) tbl)) as [Hall|Hno].
    - rewrite (filter_all _ _ Hall) in T4. lia.
    - apply not_Forall_Exists in Hno; [|apply _]. apply list.Exists_exists in Hno as (x & Hx & Hz). apply list_elem_of_lookup in Hx as [t Ht].
      exists t, x. split; [done|]. by destruct (decide (fullhash x = 0)). }
  destruct Hex as (t & x & Ht & Hz). pose proof (lookup_lt_Some _ _ _ Ht) as Hlt.
  exists (Z.to_nat ((Z.of_nat t - f) mod Z.of_nat hs)), x. pose proof (Z.mod_pos_bound (Z.of_nat t - f) (Z.of_nat hs)).
  split; [lia|]. split; [|done]. rewrite <- Ht. f_equal. unfold slot. rewrite Z2Nat.id by lia. rewrite Zplus_mod_idemp_r.
  replace (f + (Z.of_nat t - f)) with (Z.of_nat t) by lia. rewrite Z.mod_small by lia. lia.
Qed.

(** A loop that stops at free places at the latest stops somewhere. *)
Lemma probe_stops stop hs tbl H st f : tab hs tbl H -> (length H < hs)%nat -> s_indexes (p_s st) = tbl -> (forall x, fullhash x = 0 -> stop x = true) ->
  exists k x, (k < hs)%nat /\ probe stop hs (Z.of_nat hs) (f mod Z.of_nat hs) st = Ret ((f + Z.of_nat k) mod Z.of_nat hs) st /\
    tbl !! slot hs f k = Some x /\ stop x = true /\ forall k', (k' < k)%nat -> exists y, tbl !! slot hs f k' = Some y /\ stop y = false.
Proof.
  intros Ht Hl Hs Hstop. destruct (free_place _ _ _ Ht Hl f) as (n & x & Hn & Hx & Hz).
  destruct (first_stop (fun k => match tbl !! slot hs f k with Some y => stop y | None => false end) n) as (k & Hk & H1 & H2); [rewrite Hx; auto|].
  destruct (tbl !! slot hs f k) as [y|] eqn:E; [|done]. exists k, y.
  assert (Hb : forall k', (k' < k)%nat -> exists y, tbl !! slot hs f k' = Some y /\ stop y = false).
  { intros k' Hk'. specialize (H2 k' Hk'). destruct (lookup_lt_is_Some_2 tbl (slot hs f k')) as [z Hz']; [rewrite (tab_len _ _ _ Ht); apply slot_lt; lia|].
    rewrite Hz' in H2. eauto. }
  split; [lia|]. split; [|done]. by apply (probe_ok stop hs tbl st Hs ltac:(lia) k hs f y Hb E H1 ltac:(lia)).
Qed.

Lemma count_insert (P : he_t -> Prop) `{forall x, Decision (P x)} tbl t x y : tbl !! t = Some x -> ~ P x -> P y ->
  length (filter P (<[t:=y]> tbl)) = S (length (filter P tbl)).
Proof.
  intros Ht Hx Hy. rewrite <- (take_drop_middle tbl t x Ht) at 2. rewrite insert_take_drop by (by eapply lookup_lt_Some).
  rewrite !list.filter_app, !list.filter_cons, decide_True, decide_False, !length_app by done. simpl. lia.
Qed.

(** A new item at the first free place behind its start. *)
Lemma tab_insert hs tbl H f k x : tab hs tbl H -> f <> 0 -> (k < hs)%nat -> tbl !! slot hs f k = Some x -> fullhash x = 0 ->
  (forall k', (k' < k)%nat -> exists y, tbl !! slot hs f k' = Some y /\ fullhash y <> 0) ->
  tab hs (<[slot hs f k:=HeT f (Z.of_nat (length H))]> tbl) (H ++ [f]).
Proof.
  intros [T1 T2 T3 T4 T5] Hf Hk Hx Hz Hb. assert (Hlt := lookup_lt_Some _ _ _ Hx).
  assert (Hold : forall t y, tbl !! t = Some y -> fullhash y <> 0 -> <[slot hs f k:=HeT f (Z.of_nat (length H))]> tbl !! t = Some y).
  { intros t y Hy Hn. rewrite list_lookup_insert_ne; [done|]. intros <-. congruence. }
  assert (HH : forall i g, H !! i = Some g -> (H ++ [f]) !! i = Some g) by (intros; by apply lookup_app_l_Some).
  assert (Hnz : forall i g, H !! i = Some g -> g <> 0) by (intros i g Hi; rewrite list.Forall_forall in T5; apply T5; by eapply list_elem_of_lookup_2).
  split.
  - by rewrite length_insert.
  - intros i g Hi. apply lookup_snoc_Some in Hi as [[Hi Hg]|[-> ->]].
    + destruct (T2 i g Hg) as (m & Hm & Ht & Hp). exists m. split; [done|]. split; [apply Hold; [done|simpl; eauto]|].
      intros k' Hk'. destruct (Hp k' Hk') as (j & g' & Hj & Ht' & Hg'). exists j, g'. split; [done|]. split; [apply Hold; [done|simpl; eauto]|auto].
    + exists k. split; [done|]. split; [by apply list_lookup_insert_eq|]. intros k' Hk'. destruct (Hb k' Hk') as (y & Hy & Hn).
      destruct (T3 _ _ Hy) as [|(j & Hj & Hg)]; [done|]. exists j, (fullhash y). split; [by eapply lookup_lt_Some|].
      split; [|auto]. rewrite (Hold _ _ Hy Hn), <- Hj. by destruct y.
  - intros t y Hy. destruct (decide (t = slot hs f k)) as [->|Hne].
    + rewrite list_lookup_insert_eq in Hy by done. injection Hy as <-. right. exists (length H). split; [done|]. by apply list_lookup_middle.
    + rewrite list_lookup_insert_ne in Hy by done. destruct (T3 _ _ Hy) as [|(j & Hj & Hg)]; [by left|right]. eauto.
  - rewrite (count_insert _ _ _ x); [rewrite T4, length_app; simpl; lia|done|naive_solver|done].
  - apply list.Forall_app. split; [done|]. by constructor.
Qed.

(** The number of the first item with hash [f]. *)
Definition first_index (H : list Z) (f : Z) : Z :=
  match list_find (fun g => g = f) H with Some (i, _) => Z.of_nat i | None => -1 end.

Lemma get_item_ok hs H name st : tab hs (s_indexes (p_s st)) H -> s_hsize (p_s st) = Z.of_nat hs -> (length H < hs)%nat -> strtohash name <> 0 ->
  get_item name st = Ret (first_index H (strtohash name)) st.
Proof.
  intros Ht Hhs Hl Hh. unfold get_item. rewrite (bind_Ret the_store _ st (p_s st) st eq_refl). cbv zeta. set (h := strtohash name) in *. clearbody h.
  rewrite Hhs, Nat2Z.id. unfold start_place. rewrite (proj2 (Z.eqb_neq _ _)) by lia. rewrite bind_ret_l. unfold first_index.
  destruct (probe_stops (fun x => (fullhash x =? 0) || (fullhash x =? h)) hs _ H st h Ht Hl eq_refl) as (k & x & Hk & Hp & Hx & Hstop & Hb);
    [intros x ->; done|].
  run Hp. rewrite (bind_Ret _ _ _ _ _ (place_at_ok _ st ((h + Z.of_nat k) mod Z.of_nat hs) x eq_refl (proj1 (Z.mod_pos_bound _ (Z.of_nat hs) ltac:(lia))) Hx)).
  unfold mret, M_ret. f_equal. destruct (list_find (fun g => g = h) H) as [[i g]|] eqn:E.
  - apply list_find_Some in E as (Hi & -> & Hmin). destruct (tab_items _ _ _ Ht i h Hi) as (m & Hm & Htm & Hpath).
    assert (Hkm : k = m).
    { destruct (lt_eq_lt_dec k m) as [[Hlt| ->]|Hlt]; [exfalso|done|exfalso].
      - destruct (Hpath k Hlt) as (j & g & Hj & Htj & Hg). rewrite Hx in Htj. injection Htj as ->. simpl in Hstop.
        apply orb_true_iff in Hstop as [Hs|Hs]; apply Z.eqb_eq in Hs; subst.
        + pose proof (tab_hash _ _ _ Ht) as Hf. rewrite list.Forall_forall in Hf. by apply (Hf 0); [eapply list_elem_of_lookup_2|].
        + by apply (Hmin j h Hg Hj).
      - destruct (Hb m Hlt) as (y & Hy & Hs). rewrite Htm in Hy. injection Hy as <-. simpl in Hs. rewrite Z.eqb_refl, orb_true_r in Hs. done. }
    subst m. rewrite Hx in Htm. injection Htm as ->. simpl. by rewrite Z.eqb_refl.
  - rewrite list_find_None, list.Forall_forall in E. destruct (fullhash x =? h) eqn:Eh; [|done]. apply Z.eqb_eq in Eh. exfalso.
    destruct (tab_taken _ _ _ Ht _ _ Hx) as [Hz|(j & _ & Hj)]; [congruence|]. apply (E (fullhash x)); [by eapply list_elem_of_lookup_2|done].
Qed.

(** ** Hashes *)

Lemma char_val_nz c : c <> x00 -> u64 (char_val c) <> 0.
Proof.
  intros Hc H. apply Hc. apply bz_inj. change (bz x00) with 0. pose proof (bz_range c). unfold char_val, u64 in H.
  destruct (Z.ltb_spec (bz c) 128); [rewrite Z.mod_small in H; lia|]. replace (bz c - 256) with (bz c - 256 + 2 ^ 64 + (-1) * 2 ^ 64) in H by lia.
  rewrite Z_mod_plus_full, Z.mod_small in H; lia.
Qed.

Lemma strtohash_from_nz str : no_nul str -> forall h r, str <> [] \/ h <> 0 -> strtohash_from h r str <> 0.
Proof.
  induction 1 as [|c str Hc Hs IH]; intros h r Hor; simpl; [by destruct Hor|]. apply IH. right. intros [_ H]%Z.lor_eq_0_iff. by apply char_val_nz in Hc.
Qed.

(** Only the empty name has the hash that marks free places. *)
Lemma strtohash_nz str : no_nul str -> str <> [] -> strtohash str <> 0.
Proof. intros H1 H2. apply strtohash_from_nz; auto. Qed.

(** ** Opening the files *)

Definition node_of (k : kernel) (p : list byte) : option node := resolve k p ≫= node_at k.
Definition node_ino (n : node) : option Z := match n with Dir => None | File i => Some i end.

Definition back_path (name : list byte) : list byte := BACKINGDIR ++ "/"%byte :: name.
Definition cache_path (name : list byte) : list byte := CACHEDIR ++ "/"%byte :: name.

(** What an item is served from: its file under [./cached], if there is one. *)
Definition served_ino (k : kernel) (name : list byte) : option Z :=
  match node_of k (cache_path name) with Some n => node_ino n | None => node_of k (back_path name) ≫= node_ino end.

Lemma open_ro p k : sched k = [] ->
  sys_open p O_RDONLY false false k =
    match node_of k p with None => Ret (-1) k | Some n => Ret (lowest_free (fdtab k)) (with_ofd (Ofd (node_ino n) 0 true false) k) end.
Proof.
  intros Hs. unfold sys_open, node_of, mbind, M_bind, refused, get. rewrite Hs. destruct (resolve k p) as [d|]; simpl; [|done].
  by destruct (node_at k d) as [[|i]|].
Qed.

(** Only new descriptions and descriptors. *)
Record grows (k k' : kernel) : Prop := {
  gr_names : names k' = names k; gr_inodes : inodes k' = inodes k; gr_cwd : cwd k' = cwd k; gr_sched : sched k' = sched k;
  gr_fdtab : fdtab k ⊆ fdtab k'; gr_ofds : ofds k ⊆ ofds k'
}.

Lemma grows_refl k : grows k k.
Proof. by split. Qed.
Lemma grows_trans k1 k2 k3 : grows k1 k2 -> grows k2 k3 -> grows k1 k3.
Proof. intros [A1 A2 A3 A4 A5 A6] [B1 B2 B3 B4 B5 B6]. split; [congruence..| |]; by etrans. Qed.
Lemma grows_with_ofd e k : grows k (with_ofd e k).
Proof. split; [done..| |]; apply insert_subseteq; [apply lowest_free_None|apply fresh_id_None]. Qed.

Lemma grows_ofd k k' fd o e : grows k k' -> ofd_of k fd = Some (o, e) -> ofd_of k' fd = Some (o, e).
Proof. intros [_ _ _ _ H1 H2]. rewrite !ofd_of_Some. intros [Ha Hb]. split; by eapply lookup_weaken. Qed.

Lemma grows_node k k' p : grows k k' -> node_of k' p = node_of k p.
Proof.
  intros [H1 _ H2 _ _ _]. assert (Hd : forall d, is_dir k' d = is_dir k d) by (intros d; unfold is_dir; by rewrite H1).
  unfold node_of. rewrite (resolve_names k k' p Hd H2). destruct (resolve k p) as [d|]; simpl; [|done]. destruct d; simpl; [done|by rewrite H1].
Qed.

(** The close of [fsfd] takes back the first of two openings. *)
Lemma grows_swap e e' k : grows k (set_fdtab (delete (lowest_free (fdtab k)) (fdtab (with_ofd e' (with_ofd e k)))) (with_ofd e' (with_ofd e k))).
Proof.
  pose proof (grows_trans _ _ _ (grows_with_ofd e k) (grows_with_ofd e' (with_ofd e k))) as [A1 A2 A3 A4 A5 A6].
  split; try done. apply map_subseteq_spec. intros fd o Hfd. cbn [fdtab set_fdtab]. rewrite lookup_delete_ne; [by apply (lookup_weaken _ _ _ _ Hfd)|].
  intros <-. by rewrite lowest_free_None in Hfd.
Qed.

Lemma sprintf_path_ok n dir name st : (length dir + S (length name) < n)%nat -> sprintf_path n dir name st = Ret (dir ++ "/"%byte :: name) st.
Proof. intros H. unfold sprintf_path. rewrite bool_decide_eq_true_2; [done|]. rewrite length_app. simpl. lia. Qed.

Lemma onpk_Ret {A} (m : M kernel A) a k k' s : m k = Ret a k' -> onpk m (PState k s) = Ret a (PState k' s).
Proof. intros H. unfold onpk. simpl. by rewrite H. Qed.

Lemma item_at_ok i it k s : s_items s !! i = Some it -> item_at (Z.of_nat i) (PState k s) = Ret it (PState k s).
Proof. intros H. unfold item_at. rewrite (proj2 (Z.ltb_ge _ 0)) by lia. rewrite Nat2Z.id. simpl. by rewrite H. Qed.

Lemma upd_item_ok i f it k s : s_items s !! i = Some it ->
  upd_item (Z.of_nat i) f (PState k s) = Ret () (PState k (set_items (<[i:=f it]> (s_items s)) s)).
Proof. intros H. unfold upd_item. run (item_at_ok _ _ k _ H). by rewrite Nat2Z.id. Qed.

Lemma upd_item_again i f it k s : (i < length (s_items s))%nat ->
  upd_item (Z.of_nat i) f (PState k (set_items (<[i:=it]> (s_items s)) s)) = Ret () (PState k (set_items (<[i:=f it]> (s_items s)) s)).
Proof.
  intros H. rewrite (upd_item_ok i f it); [|by apply list_lookup_insert_eq]. do 2 f_equal. unfold set_items. simpl. by rewrite list_insert_insert_eq.
Qed.

(** The table after an item has come in. *)
Lemma put_place hs H f k s : tab hs (s_indexes s) H -> s_hsize s = Z.of_nat hs -> (length H < hs)%nat -> f <> 0 ->
  exists t, probe (fun x => fullhash x =? 0) (Z.to_nat (s_hsize s)) (s_hsize s) (f mod s_hsize s) (PState k s) = Ret t (PState k s) /\
    tab hs (<[Z.to_nat t:=HeT f (Z.of_nat (length H))]> (s_indexes s)) (H ++ [f]).
Proof.
  intros Ht Hhs Hl Hf. rewrite Hhs, Nat2Z.id.
  destruct (probe_stops (fun x => fullhash x =? 0) hs _ H (PState k s) f Ht Hl eq_refl) as (n & x & Hn & Hp & Hx & Hstop & Hb); [intros x ->; done|].
  eexists. split; [exact Hp|]. apply Z.eqb_eq in Hstop. apply (tab_insert hs (s_indexes s) H f n x Ht Hf Hn Hx Hstop).
  intros k' Hk'. destruct (Hb k' Hk') as (y & Hy & Hs). exists y. split; [done|]. by apply Z.eqb_neq.
Qed.

Lemma put_item_ok hs H it name size i k s :
  tab hs (s_indexes s) H -> s_hsize s = Z.of_nat hs -> (length H < hs)%nat -> s_items s !! length H = Some it ->
  x00 ∈ fsname it -> c_str (fsname it) = name -> name <> [] -> (length name <= 255)%nat ->
  sched k = [] -> is_Some (fdtab k !! 0) -> node_of k (back_path name) = Some (File i) ->
  exists k' s' it' o, put_item (Z.of_nat (length H)) size (PState k s) = Ret () (PState k' s') /\
    tab hs (s_indexes s') (H ++ [strtohash name]) /\ s_hsize s' = s_hsize s /\ s_items s' = <[length H:=it']> (s_items s) /\
    fsname it' = fsname it /\ it_size it' = size /\ grows k k' /\ ofd_of k' (served_fd it') = Some (o, Ofd (served_ino k name) 0 true false).
Proof.
  intros Ht Hhs Hl Hit Hnul Hname Hne Hlen Hsch H0 Hback. assert (Hlt := lookup_lt_Some _ _ _ Hit). unfold put_item.
  assert (Hnn : no_nul name) by (rewrite <- Hname; apply c_str_no_nul).
  assert (Hpos : 0 < lowest_free (fdtab k)).
  { pose proof (lowest_free_nonneg (fdtab k)). destruct (decide (lowest_free (fdtab k) = 0)) as [E|]; [|lia].
    pose proof (lowest_free_None (fdtab k)) as Hn. rewrite E in Hn. destruct H0. congruence. }
  run (item_at_ok _ _ k _ Hit). unfold string_in at 1. rewrite bool_decide_eq_true_2, Hname by done. rewrite bind_ret_l.
  rewrite (bind_Ret the_store _ (PState k s) s _ eq_refl). cbv zeta. unfold start_place. rewrite (proj2 (Z.eqb_neq _ _)) by lia. rewrite bind_ret_l.
  destruct (put_place hs H (strtohash name) k s Ht Hhs Hl (strtohash_nz _ Hnn Hne)) as (t & Hp & Htab). run Hp.
  set (s1 := set_indexes (<[Z.to_nat t:=HeT (strtohash name) (Z.of_nat (length H))]> (s_indexes s)) s).
  rewrite (bind_Ret _ _ _ () (PState k s1)) by done. assert (Hit1 : s_items s1 !! length H = Some it) by done. assert (Hlt1 : (length H < length (s_items s1))%nat) by done.
  run (upd_item_ok _ (set_size size) _ k _ Hit1). set (it1 := set_size size it).
  assert (Hb1 : (length BACKINGDIR + S (length name) < 1024)%nat) by (simpl; lia). assert (Hc1 : (length CACHEDIR + S (length name) < 1024)%nat) by (simpl; lia).
  run (sprintf_path_ok 1024 BACKINGDIR name (PState k (set_items (<[length H:=it1]> (s_items s1)) s1)) Hb1). fold (back_path name).
  pose proof (open_ro (back_path name) k Hsch) as Ho. rewrite Hback in Ho. set (k1 := with_ofd _ k) in Ho. run (onpk_Ret _ _ _ _ (set_items (<[length H:=it1]> (s_items s1)) s1) Ho).
  run (upd_item_again _ (set_fsfd (lowest_free (fdtab k))) it1 k1 s1 Hlt1). set (it2 := set_fsfd _ it1).
  run (sprintf_path_ok 1024 CACHEDIR name (PState k1 (set_items (<[length H:=it2]> (s_items s1)) s1)) Hc1). fold (cache_path name).
  assert (Hg1 : grows k k1) by apply grows_with_ofd.
  pose proof (open_ro (cache_path name) k1 ltac:(by rewrite (gr_sched _ _ Hg1))) as Hoc. rewrite (grows_node _ _ _ Hg1) in Hoc. unfold served_ino.
  destruct (node_of k (cache_path name)) as [n|]; run (onpk_Ret _ _ _ _ (set_items (<[length H:=it2]> (s_items s1)) s1) Hoc).
  - set (k2 := with_ofd _ k1). set (c := lowest_free (fdtab k1)). assert (Hcpos : 0 < c).
    { pose proof (lowest_free_nonneg (fdtab k1)). destruct (decide (c = 0)) as [E|]; [|unfold c in *; lia]. destruct H0 as [x Hx].
      pose proof (lookup_weaken _ _ _ _ Hx (gr_fdtab _ _ Hg1)) as Hx'. pose proof (lowest_free_None (fdtab k1)) as Hn. fold c in Hn. rewrite E in Hn. congruence. }
    rewrite (proj2 (Z.ltb_ge c 0)) by lia. run (upd_item_again _ (set_cfd c) it2 k2 s1 Hlt1). set (it3 := set_cfd c it2).
    rewrite (bind_Ret _ _ _ () (PState (set_fdtab (delete (lowest_free (fdtab k)) (fdtab k2)) k2) (set_items (<[length H:=it3]> (s_items s1)) s1))) by done.
    rewrite (upd_item_again _ (set_fsfd 0) it3 _ s1 Hlt1). do 4 eexists. split; [reflexivity|]. split; [done|]. do 4 (split; [done|]).
    split; [apply grows_swap|]. unfold served_fd. simpl. rewrite (proj2 (Z.ltb_lt 0 c)) by done.
    apply ofd_of_Some. simpl. rewrite lookup_delete_ne; [split; apply lookup_insert_eq|].
    intros E. pose proof (lowest_free_None (fdtab k1)) as Hn. fold c in Hn. rewrite <- E in Hn. simpl in Hn. rewrite lookup_insert_eq in Hn. done.
  - change (-1 <? 0) with true. cbv iota. rewrite (upd_item_again _ (set_cfd 0) it2 k1 s1 Hlt1). do 4 eexists. split; [reflexivity|]. split; [done|]. do 4 (split; [done|]).
    split; [done|]. unfold served_fd. simpl. rewrite Hback. apply ofd_with_ofd.
Qed.

(** ** Start-up *)

(** A regular file of the backing directory. *)
Definition regular (k : kernel) (name : list byte) : bool :=
  match node_of k (back_path name) with Some (File _) => true | _ => false end.

Definition name_ok (name : list byte) : Prop := no_nul name /\ name <> [] /\ (length name <= 255)%nat.

Definition contents (k : kernel) (i : option Z) : list byte := default [] (i ≫= fun i => inodes k !! i).

(** The item of a file: its name, its size, and a descriptor at the start of what
    it is served from. *)
Definition item_ok (k0 k : kernel) (it : st_t) (name : list byte) : Prop :=
  c_str (fsname it) = name /\
  it_size it = Z.of_nat (length (contents k0 (node_of k0 (back_path name) ≫= node_ino))) /\
  exists o, ofd_of k (served_fd it) = Some (o, Ofd (served_ino k0 name) 0 true false).

Record loaded (k0 : kernel) (hs cap : nat) (st : pstate) (N : list (list byte)) : Prop := {
  ld_tab : tab hs (s_indexes (p_s st)) (strtohash <$> N);
  ld_hsize : s_hsize (p_s st) = Z.of_nat hs;
  ld_items : length (s_items (p_s st)) = cap;
  ld_item i name : N !! i = Some name -> exists it, s_items (p_s st) !! i = Some it /\ item_ok k0 (p_k st) it name;
  ld_rest i it : (length N <= i)%nat -> s_items (p_s st) !! i = Some it -> fsname it = replicate 1024 x00;
  ld_kernel : grows k0 (p_k st)
}.

Lemma overlay_name name : name_ok name ->
  let b := overlay (take (Nat.min (length name) 1024) name) (replicate 1024 x00) in x00 ∈ b /\ c_str b = name.
Proof.
  intros (Hn & _ & Hl). cbv zeta. rewrite Nat.min_l, firstn_all by lia. unfold overlay. rewrite drop_replicate.
  replace (1024 - length name)%nat with (S (1023 - length name)) by lia. simpl. split; [|by apply c_str_app_nul]. apply elem_of_app. right. left.
Qed.

Lemma served_grows k k' name : grows k k' -> served_ino k' name = served_ino k name.
Proof. intros H. unfold served_ino. by rewrite !(grows_node _ _ _ H). Qed.

Lemma stat_eq p k : sched k = [] -> sys_stat p k = Ret (match node_of k p with
  | Some Dir => Some StDir | Some (File i) => Some (StReg (Z.of_nat (length (contents k (Some i))))) | None => None end) k.
Proof.
  intros Hs. unfold sys_stat, node_of, mbind, M_bind, refused, get. rewrite Hs. destruct (resolve k p) as [d|]; simpl; [|done].
  by destruct (node_at k d) as [[|i]|].
Qed.

(** One file of the second pass. *)
Lemma load_one k0 hs cap st N name i : loaded k0 hs cap st N -> sched k0 = [] -> is_Some (fdtab k0 !! 0) -> name_ok name ->
  (length N < hs)%nat -> (length N < cap)%nat -> node_of k0 (back_path name) = Some (File i) ->
  exists st', (_ ← upd_item (Z.of_nat (length N)) (fun i => set_fsname (overlay (take (Nat.min (length name) 1024) name) (fsname i)) i);
      put_item (Z.of_nat (length N)) (Z.of_nat (length (contents k0 (Some i))))) st = Ret () st' /\ loaded k0 hs cap st' (N ++ [name]).
Proof.
  intros [L1 L2 L3 L4 L5 L6] Hs H0 Hok Hhs Hcap Hnode. destruct st as [k s]. cbn [p_k p_s] in *.
  destruct (lookup_lt_is_Some_2 (s_items s) (length N)) as [it Hit]; [lia|].
  run (upd_item_ok _ (fun i => set_fsname (overlay (take (Nat.min (length name) 1024) name) (fsname i)) i) it k s Hit).
  rewrite (L5 _ _ (Nat.le_refl _) Hit). destruct (overlay_name name Hok) as [Ho1 Ho2]. set (buf := overlay _ _) in *. set (it1 := set_fsname buf it).
  set (s1 := set_items _ s). pose proof L6 as [G1 G2 G3 G4 G5 G6].
  assert (Hlen : length (strtohash <$> N) = length N) by apply length_fmap.
  destruct (put_item_ok hs (strtohash <$> N) it1 name (Z.of_nat (length (contents k0 (Some i)))) i k s1) as (k' & s' & it' & o & P1 & P2 & P3 & P4 & P5 & P6 & P7 & P8);
    [done|done|by rewrite Hlen|rewrite Hlen; by apply list_lookup_insert_eq; eapply lookup_lt_Some|done|done|apply Hok|apply Hok|congruence| |by rewrite (grows_node _ _ _ L6)|].
  { destruct H0 as [x Hx]. exists x. by eapply lookup_weaken. }
  rewrite Hlen in P1, P4. exists (PState k' s'). split; [done|]. assert (Hg : grows k0 k') by (by eapply grows_trans).
  assert (Hits : s_items s' = <[length N:=it']> (s_items s)) by (rewrite P4; apply list_insert_insert_eq).
  split; cbn [p_k p_s]; [by rewrite fmap_app|by rewrite P3|by rewrite Hits, length_insert| | |done].
  - intros j nm Hj. rewrite Hits. apply lookup_snoc_Some in Hj as [[Hj Hnm]|[-> <-]].
    + destruct (L4 j nm Hnm) as (x & Hx & X1 & X2 & (o' & X3)). exists x. rewrite list_lookup_insert_ne by lia. split; [done|].
      split; [done|]. split; [done|]. exists o'. by apply (grows_ofd _ _ _ _ _ P7).
    + exists it'. split; [apply list_lookup_insert_eq; lia|]. split; [by rewrite P5|]. rewrite Hnode. simpl. split; [done|].
      exists o. by rewrite <- (served_grows _ _ _ L6).
  - intros j x Hj Hx. rewrite length_app in Hj. simpl in Hj. rewrite Hits, list_lookup_insert_ne in Hx by lia. apply (L5 j); [lia|done].
Qed.

Lemma load_items_ok k0 hs cap : sched k0 = [] -> is_Some (fdtab k0 !! 0) -> forall entries st N, loaded k0 hs cap st N -> Forall name_ok entries ->
  (length N + length entries < hs)%nat -> (length N + length entries <= cap)%nat ->
  exists st', load_items (Z.of_nat (length N)) entries st = Ret (Z.of_nat (length (N ++ filter (regular k0) entries))) st' /\
    loaded k0 hs cap st' (N ++ filter (regular k0) entries).
Proof.
  intros Hs H0. induction entries as [|name entries IH]; intros st N Hl Hok Hhs Hcap; cbn [load_items length] in *.
  { exists st. rewrite list.filter_nil, app_nil_r. done. }
  apply list.Forall_cons in Hok as [Hn Hok]. pose proof Hn as (_ & _ & Hlen). pose proof (ld_kernel _ _ _ _ _ Hl) as Hg.
  assert (Hb1 : (length BACKINGDIR + S (length name) < 1024)%nat) by (simpl; lia). run (sprintf_path_ok 1024 BACKINGDIR name st Hb1). fold (back_path name).
  pose proof (stat_eq (back_path name) (p_k st) ltac:(by rewrite (gr_sched _ _ Hg))) as Hst. rewrite (grows_node _ _ _ Hg) in Hst.
  destruct st as [k s]. cbn [p_k p_s] in *. run (onpk_Ret _ _ _ _ s Hst). rewrite list.filter_cons. assert (Hreg : regular k0 name = match node_of k0 (back_path name) with Some (File _) => true | _ => false end) by done.
  destruct (node_of k0 (back_path name)) as [[|i]|] eqn:En.
  - rewrite decide_False by (rewrite Hreg; intros []). apply IH; [done|done|lia|lia].
  - rewrite decide_True by (by rewrite Hreg). destruct (load_one k0 hs cap (PState k s) N name i Hl Hs H0 Hn ltac:(lia) ltac:(lia) En) as (st1 & H1 & H2).
    replace (contents k (Some i)) with (contents k0 (Some i)) by (unfold contents; simpl; by rewrite (gr_inodes _ _ Hg)).
    rewrite <- bind_assoc. run H1. replace (Z.of_nat (length N) + 1) with (Z.of_nat (length (N ++ [name]))) by (rewrite length_app; simpl; lia).
    destruct (IH st1 (N ++ [name]) H2 Hok) as (st' & H3 & H4); [rewrite length_app; simpl; lia..|]. exists st'. by rewrite <- app_assoc in H3, H4.
  - rewrite decide_False by (rewrite Hreg; intros []). apply IH; [done|done|lia|lia].
Qed.

(** Memory as a fresh process gets it. *)
Definition zero_items (n : nat) : list st_t := replicate n (StT (replicate 1024 x00) (replicate 1024 x00) 0 0 0).
Definition zero_indexes (n : nat) : list he_t := replicate n (HeT 0 0).

Lemma tab_empty n : tab n (zero_indexes n) [].
Proof.
  unfold zero_indexes. split; [apply length_replicate|done| | |constructor].
  - intros t x Hx. left. by apply lookup_replicate in Hx as [-> _].
  - induction n as [|n IH]; simpl; [done|]. rewrite list.filter_cons, decide_False by naive_solver. done.
Qed.

Lemma first_index_nodup H i f : NoDup H -> H !! i = Some f -> first_index H f = Z.of_nat i.
Proof.
  intros Hnd Hi. unfold first_index. destruct (list_find (fun g => g = f) H) as [[j g]|] eqn:E.
  - apply list_find_Some in E as (Hj & -> & _). by rewrite (NoDup_lookup _ _ _ _ Hnd Hi Hj).
  - rewrite list_find_None, list.Forall_forall in E. destruct (E f); [by eapply list_elem_of_lookup_2|done].
Qed.

Section Startup.
Context (k : kernel) (s0 : s_t) (names : list (list byte)).
Hypothesis Hsched : sched k = [].
Hypothesis Hoom : k_oom k = [].
Hypothesis Hstdin : is_Some (fdtab k !! 0).
Hypothesis Hdir : sys_opendir BACKINGDIR k = Ret (Some names) k.
Hypothesis Hnames : Forall name_ok names.

Definition files : list (list byte) := filter (regular k) (bs "." :: bs ".." :: names).

(** C28: The prototype's table serves every file.  With cleared memory, start-up succeeds and makes an item of every regular file of
    the backing directory, with its name and size and a descriptor at the start
    of its file (of its copy under [./cached] if there is one).  The lookup of
    any name then ends, and returns the first file in directory order whose name has the
    same hash, or -1; when the hashes differ this is the file of that name. *)
Theorem proto_store_serves :
  exists st, init_storage zero_items zero_indexes (PState k s0) = Ret (Z.of_nat (length files)) st /\
    (forall i name, files !! i = Some name -> exists it, s_items (p_s st) !! i = Some it /\ item_ok k (p_k st) it name) /\
    (forall req, no_nul req -> req <> [] -> get_item req st = Ret (first_index (strtohash <$> files) (strtohash req)) st) /\
    (NoDup (strtohash <$> files) -> forall i name, files !! i = Some name -> get_item name st = Ret (Z.of_nat i) st).
Proof.
  unfold init_storage. run (onpk_Ret _ _ _ _ s0 Hdir). set (entries := bs "." :: bs ".." :: names).
  assert (Hm : onpk sys_malloc (PState k s0) = Ret true (PState k s0)) by (apply onpk_Ret; unfold sys_malloc; by rewrite Hoom).
  do 2 run Hm. set (st1 := PState k (SFields (s_cached s0) (s_cachelimit s0) (zero_items (length entries)) (Z.of_nat (length entries) * 2) (zero_indexes (length entries * 2)))).
  rewrite (bind_Ret _ _ _ () st1) by done.
  assert (Hl : loaded k (length entries * 2) (length entries) st1 []).
  { split; unfold st1; cbn [p_k p_s s_indexes s_hsize s_items]; [apply tab_empty|lia|apply length_replicate|done| |apply grows_refl].
    intros i it _ Hi. by apply lookup_replicate in Hi as [-> _]. }
  assert (Hall : Forall name_ok entries) by (constructor; [split; [by repeat constructor|]; split; [done|simpl; lia]|constructor; [split; [by repeat constructor|]; split; [done|simpl; lia]|done]]).
  destruct (load_items_ok k _ _ Hsched Hstdin entries st1 [] Hl Hall) as (st & H1 & [L1 L2 L3 L4 _ _]); [simpl; lia|simpl; lia|].
  assert (Hlen : (length (strtohash <$> files) < length entries * 2)%nat).
  { rewrite length_fmap. pose proof (length_filter (regular k) entries). unfold files. fold entries. simpl in *. lia. }
  exists st. split; [done|]. split; [done|].
  assert (Hget : forall req, no_nul req -> req <> [] -> get_item req st = Ret (first_index (strtohash <$> files) (strtohash req)) st).
  { intros req Hr Hne. apply (get_item_ok (length entries * 2)); [done|done|done|by apply strtohash_nz]. }
  split; [done|]. intros Hnd i name Hi. assert (Hn : name_ok name).
  { rewrite list.Forall_forall in Hall. apply Hall. apply list_elem_of_lookup_2 in Hi. unfold files in Hi. by apply list_elem_of_filter in Hi as [_ Hi]. }
  rewrite Hget by apply Hn. f_equal. apply first_index_nodup; [done|]. by rewrite list_lookup_fmap, Hi.
Qed.
End Startup.

(** ** A directory with three files *)

(** "hot" has a copy under [./cached]; descriptor 0 is open. *)
Definition proto_kernel : kernel :=
  Kernel (list_to_map [([bs "back"], Dir); ([bs "cached"], Dir); ([bs "aa"; bs "back"], File 1); ([bs "hot"; bs "back"], File 2);
                       ([bs "sub"; bs "back"], Dir); ([bs "hot"; bs "cached"], File 3)])
    (list_to_map [(1, bs "first"); (2, bs "warm data"); (3, bs "warm data")]) {[0 := Ofd None 0 true true]} {[0 := 0]} [] [] 0 [] [].

Definition junk_store : s_t := SFields 0 0 [] 0 [].

Definition proto_names : list (list byte) := children proto_kernel [bs "back"].

Lemma proto_store_serves_witness :
  exists st, init_storage zero_items zero_indexes (PState proto_kernel junk_store) = Ret 2 st /\
    exists i, get_item (bs "hot") st = Ret i st /\ 0 <= i /\ get_item (bs "cold") st = Ret (-1) st.
Proof.
  destruct (proto_store_serves proto_kernel junk_store proto_names eq_refl eq_refl (ex_intro _ 0 eq_refl) eq_refl) as (st & H1 & _ & H3 & _).
  { assert (Hb : Forall (fun n => bool_decide (Forall (fun b => b <> x00) n /\ n <> [] /\ (length n <= 255)%nat) = true) proto_names) by (vm_compute; repeat constructor).
    eapply list.Forall_impl; [exact Hb|]. intros n Hn. by apply bool_decide_eq_true in Hn. }
  exists st. split; [rewrite H1; f_equal; vm_compute; reflexivity|]. exists (first_index (strtohash <$> files proto_kernel proto_names) (strtohash (bs "hot"))).
  split; [apply H3; [by repeat constructor|done]|]. split; [vm_compute; discriminate|].
  rewrite H3 by first [by repeat constructor|done]. f_equal; vm_compute; reflexivity.
Defined.

(** A lookup compares hashes only, and the hash ORs characters into bits that are
    already set: a request for "ac" is answered with the file "aa". *)
Theorem colliding_names :
  strtohash (bs "aa") = strtohash (bs "ac") /\
  exists i, result_of ((n ← init_storage zero_items zero_indexes; i ← get_item (bs "ac"); j ← get_item (bs "aa"); mret (n, i, j))
                         (PState proto_kernel junk_store)) = Some (2, i, i) /\ 0 <= i.
Proof. split; [vm_compute; reflexivity|]. eexists. split; [vm_compute; reflexivity|]. done. Qed.

(** A request that starts with a NUL byte is the empty name, whose hash is the mark of
    a free place; the answer is the index that place holds, 0 in cleared memory. *)
Theorem empty_name_found :
  result_of ((n ← init_storage zero_items zero_indexes; i ← get_item []; mret (n, i)) (PState proto_kernel junk_store)) = Some (2, 0).
Proof. vm_compute. reflexivity. Qed.

(** The table is not cleared: in memory without a zero word the first insertion
    probes for ever. *)
Theorem unclear_table_loops :
  init_storage zero_items (fun n => replicate n (HeT 7 7)) (PState proto_kernel junk_store) = Blocked.
Proof. vm_compute. reflexivity. Qed.

(** A name is copied without its NUL: in memory that is not clear the file is
    looked for under another name. *)
Theorem unterminated_names_fault :
  init_storage (fun n => replicate n (StT (replicate 1024 "x"%byte) [] 0 0 0)) zero_indexes (PState proto_kernel junk_store) = Fault.
Proof. vm_compute. reflexivity. Qed.
