(* ===== verification/ProtoServe.v ===== *)
(** * ProtoServe: the threads of the prototype: server, bridge and client

    [datapass/csrc]: a client asks the bridge, the bridge asks the cache server, and
    the answer comes back along the same way, as a size and the data (copy and
    splice mode) or as a descriptor.  [sendget.c], the threads of [server.c] and
    [bridge.c], and the requests of [client.c].  Every process has its kernel
    state and the [endpoint]s of its sockets; the packet sockets of descriptor mode
    carry one message at a time.  A write outside a buffer is a [Fault]; a loop that
    repeats without progress, or a wait for input, is [Blocked]. *)

From S2P Require Import Prelude Socket Kernel Transport ProtoStore.

Definition OP_FDPASS : byte := "1"%byte.
Definition OP_COPY : byte := "2"%byte.
Definition OP_SPLICE : byte := "3"%byte.

(** The eight bytes of an [ssize_t]. *)
Definition size_bytes (n : Z) : list byte := le_bytes 8 n.
Definition size_val (d : list byte) : Z := let n := le_val d in if n <? 2 ^ 63 then n else n - 2 ^ 64.

(** ** Calls *)

(** [read] of no bytes returns at once. *)
Definition read_upto (n : nat) : M endpoint (list byte + errno) := if bool_decide (n = 0%nat) then mret (inl []) else sys_read n.

(** [recvmsg] on a packet socket takes the whole message. *)
Definition sys_recv_packet (n : nat) : M endpoint (list byte + errno) := fun s =>
  let go w :=
    match rx s with
    | [] => if peer_closed s then Ret (inl []) (set_rx [] w s) else Blocked
    | _ => Ret (inl (take n (c_byte <$> rx s))) (set_rx [] w s)
    end in
  match rd_sched s with
  | [] => go []
  | IoPartial _ :: w => go w
  | IoEintr :: w => Ret (inr EINTR) (set_rx (rx s) w s)
  | IoFail :: w => Ret (inr EIO) (set_rx (rx s) w s)
  end.

(** [poll] without a timeout: has the peer hung up?  It says so also when there is
    still something to read. *)
Definition poll_hup : M endpoint bool := fun s =>
  if peer_closed s then Ret true s else match rx s with [] => Blocked | _ => Ret false s end.

(** [sendfile(ssock, fd, &offset, count)]. *)
Definition sys_sendfile_out (fd offset count : Z) : M tio Z := fun s =>
  let e := io_e s in
  let go lim w :=
    match ofd_of (io_k s) fd with
    | Some (_, Ofd (Some i) _ true _) =>
        let data := drop (Z.to_nat offset) (default [] (inodes (io_k s) !! i)) in
        let d := take (Nat.min lim (Z.to_nat (Z.min (u64 count) MAX_RW_COUNT))) data in
        Ret (Z.of_nat (length d)) (Tio (io_k s) (set_tx (tx e ++ (plain <$> d)) w e) (dg_in s) (dg_out s))
    | _ => Ret (-1) (Tio (io_k s) (set_tx (tx e) w e) (dg_in s) (dg_out s))
    end in
  match wr_sched e with
  | [] => go (Z.to_nat MAX_RW_COUNT) []
  | IoPartial k :: w => go k w
  | _ :: w => Ret (-1) (Tio (io_k s) (set_tx (tx e) w e) (dg_in s) (dg_out s))
  end.

(** ** sendget.c *)

(** [None]: the process has been aborted. *)
Definition put_fd (fd : Z) (stype : byte) : M tio (option Z) :=
  r ← onie (sys_sendmsg_fd stype fd);
  mret (match r with inl _ => Some 0 | inr _ => None end).

(** A message without a descriptor has no control header to read it from. *)
Definition get_fd : M tio Z :=
  r ← onie (sys_recvmsg 256);
  match r with
  | inr _ | inl ([], _) => mret (-1)
  | inl (_, Some fd) => mret fd
  | inl (_, None) => fault
  end.

(** ** server.c: the threads *)

Record pserver := PServer { v_io : tio; v_s : s_t }.

Definition onv {A} (m : M tio A) : M pserver A := fun s =>
  match m (v_io s) with
  | Ret a t => Ret a (PServer t (v_s s))
  | Blocked => Blocked
  | Fault => Fault
  end.

Definition onps {A} (m : M pstate A) : M pserver A := fun s =>
  match m (PState (io_k (v_io s)) (v_s s)) with
  | Ret a x => Ret a (PServer (set_io_k (p_k x) (v_io s)) (p_s x))
  | Blocked => Blocked
  | Fault => Fault
  end.

(** How a round of a thread's loop ends. *)
Inductive turn := Again | Leave | Aborted.

(** [while (1)] around [sendfile]. *)
Fixpoint send_object (fuel : nat) (fd size offset : Z) : M tio () :=
  match fuel with
  | O => block
  | S fuel =>
      sfs ← sys_sendfile_out fd offset (size - offset);
      if sfs <? 0 then mret ()
      else if size <=? offset + sfs then mret ()
      else send_object fuel fd size (offset + sfs)
  end.

(** A call sends something, uses up an answer of the schedule, or will never do
    either. *)
Definition send_fuel (size : Z) (s : pserver) : nat := S (length (wr_sched (io_e (v_io s))) + Z.to_nat size).

(** The answer to a request in copy mode: nothing for an unknown name. *)
Definition copy_answer (name : list byte) : M pserver () :=
  idx ← onps (get_item name);
  if 0 <=? idx then
    it ← onps (item_at idx);
    _ ← onv (onie (sys_write (size_bytes (it_size it))));
    s ← get;
    onv (send_object (send_fuel (it_size it) s) (served_fd it) (it_size it) 0)
  else mret ().

(** The client's end of the socket pair, which the server has kept open, is closed
    once; the number it is then known by. *)
Definition close_other (csock : Z) : M pserver Z :=
  s ← get;
  if negb (csock =? 0) && bool_decide (is_Some (fdtab (io_k (v_io s)) !! csock)) then
    _ ← onv (onik (sys_close_fd csock)); mret 0
  else mret csock.

(** One round of [copy_thread]; [None]: the loop is left.  A failed [read] writes
    the NUL in front of the buffer, a request of 256 bytes behind it. *)
Definition copy_round (csock : Z) : M pserver (option Z) :=
  failed ← onv (onik refused);
  if failed : bool then mret None
  else
    hup ← onv (onie poll_hup);
    if hup : bool then mret None
    else
      r ← onv (onie (sys_read 256));
      csock ← close_other csock;
      match r with
      | inr _ => fault
      | inl [] => mret (Some csock)
      | inl d =>
          if bool_decide (length d = 256%nat) then fault
          else _ ← copy_answer (c_str d); mret (Some csock)
      end.

(** Every round takes a byte of input. *)
Fixpoint copy_rounds (fuel : nat) (csock : Z) : M pserver () :=
  match fuel with
  | O => block
  | S fuel =>
      t ← copy_round csock;
      match t with Some csock => copy_rounds fuel csock | None => mret () end
  end.

Definition server_copy_thread (ssock csock : Z) : M pserver () :=
  _ ← onv (onie (sys_write [OP_COPY]));
  s ← get;
  _ ← copy_rounds (S (length (rx (io_e (v_io s))))) csock;
  onv (onik (sys_close_fd ssock)).

(** One round of [fdpass_thread]: a name of 1024 bytes or more overflows
    [rrecname]. *)
Definition fdpass_round : M pserver turn :=
  r ← onv (onie (sys_recv_packet (Z.to_nat 25600)));
  match r with
  | inr _ | inl [] => mret Leave
  | inl d =>
      if 1024 <=? Z.of_nat (length d) then fault
      else
        idx ← onps (get_item (c_str d));
        if 0 <=? idx then
          it ← onps (item_at idx);
          p ← onv (put_fd (served_fd it) OP_FDPASS);
          mret (match p with None => Aborted | Some _ => Again end)
        else mret Again
  end.

(** Every round takes a message. *)
Fixpoint fdpass_rounds (fuel : nat) : M pserver turn :=
  match fuel with
  | O => block
  | S fuel =>
      t ← fdpass_round;
      match t with Again => fdpass_rounds fuel | t => mret t end
  end.

(** [fdpass_thread]; an aborted process does nothing more. *)
Definition server_fdpass_thread (ssock csock : Z) : M pserver turn :=
  _ ← onv (onie (sys_write [OP_FDPASS]));
  _ ← close_other csock;
  s ← get;
  t ← fdpass_rounds (S (length (rx (io_e (v_io s)))));
  match t with
  | Aborted => mret Aborted
  | t => _ ← onv (onik (sys_close_fd ssock)); mret t
  end.

(** ** bridge.c: the threads *)

(** [b_c] is the client's side, [b_d] the connection to the server. *)
Record bstate := BState { b_k : kernel; b_c : endpoint; b_d : endpoint }.

Definition onbc {A} (m : M tio A) : M bstate A := fun s =>
  match m (Tio (b_k s) (b_c s) [] []) with
  | Ret a t => Ret a (BState (io_k t) (io_e t) (b_d s))
  | Blocked => Blocked
  | Fault => Fault
  end.
Definition onbd {A} (m : M tio A) : M bstate A := fun s =>
  match m (Tio (b_k s) (b_d s) [] []) with
  | Ret a t => Ret a (BState (io_k t) (b_c s) (io_e t))
  | Blocked => Blocked
  | Fault => Fault
  end.

(** A loop around [write]; [false] when a call fails.  A call writes something or
    uses up an answer of the schedule. *)
Fixpoint push (fuel : nat) (d : list byte) : M tio bool :=
  match d, fuel with
  | [], _ => mret true
  | _, O => block
  | _, S fuel =>
      r ← onie (sys_write d);
      match r with
      | inr _ => mret false
      | inl n => push fuel (drop n d)
      end
  end.

Definition push_all (d : list byte) : M tio bool := fun s => push (S (length d + length (wr_sched (io_e s)))) d s.

(** The request from the client, passed on to the server; [None]: the loop is
    left. *)
Definition relay_request : M bstate (option (list byte)) :=
  r ← onbc (onie (sys_read 256));
  match r with
  | inr _ => fault
  | inl [] => mret None
  | inl d =>
      if bool_decide (length d = 256%nat) then fault
      else _ ← onbd (onie (sys_write d)); mret (Some d)
  end.

(** [splice] from the server's socket into the client's pipe. *)
Definition splice_in (n : nat) : M bstate (nat + errno) :=
  r ← onbd (onie (read_upto n));
  match r with
  | inr e => mret (inr e)
  | inl d => _ ← modify (fun s => BState (b_k s) (set_tx (tx (b_c s) ++ (plain <$> d)) (wr_sched (b_c s)) (b_c s)) (b_d s));
             mret (inl (length d))
  end.

Definition RBUF : Z := 1024 * 1024.

(** [while (splicebytes < smsgsz)]; [false]: the loop is left on an error. *)
Fixpoint relay_data (fuel : nat) (mode : byte) (smsgsz splicebytes : Z) : M bstate bool :=
  if splicebytes <? smsgsz then
    match fuel with
    | O => block
    | S fuel =>
        if bool_decide (mode = OP_SPLICE) then
          sb ← splice_in (Z.to_nat (smsgsz - splicebytes));
          match sb with
          | inr _ => mret false
          | inl n => relay_data fuel mode smsgsz (splicebytes + Z.of_nat n)
          end
        else
          let cbytes := if smsgsz <? RBUF then smsgsz else RBUF in
          r ← onbd (onie (read_upto (Z.to_nat (cbytes - splicebytes))));
          match r with
          | inr _ => mret false
          | inl d =>
              ok ← onbc (push_all d);
              if ok : bool then relay_data fuel mode smsgsz (splicebytes + Z.of_nat (length d)) else mret false
          end
    end
  else mret true.

(** A call takes input, uses up an answer of the schedule, or will never do
    either. *)
Definition relay_fuel (s : bstate) : nat := S (length (rx (b_d s)) + length (rd_sched (b_d s))).

(** The answer of the server, passed up: a size that does not come in one piece
    leaves the rest of [smsgsz] as it was. *)
Definition relay_reply (mode : byte) : M bstate turn :=
  r ← onbd (onie (sys_read 8));
  s ← get;
  let smsgsz := size_val (overlay (match r with inl d => d | inr _ => [] end) (replicate 8 (junk (b_d s)))) in
  ok ← onbc (push_all (size_bytes smsgsz));
  if negb ok then mret Leave
  else
    s ← get;
    ok ← relay_data (relay_fuel s) mode smsgsz 0;
    mret (if ok : bool then Again else Leave).

(** One round of the bridge's [copy_thread]. *)
Definition bridge_copy_round (mode : byte) : M bstate turn :=
  q ← relay_request;
  match q with
  | None => mret Leave
  | Some _ => relay_reply mode
  end.

(** One round of the bridge's [fdpass_thread], up to the wait for the server and
    from there on. *)
Definition bridge_fd_request : M bstate turn :=
  r ← onbc (onie (sys_recv_packet (Z.to_nat 25600)));
  match r with
  | inr _ | inl [] => mret Leave
  | inl d =>
      if 1024 <=? Z.of_nat (length d) then fault
      else _ ← onbd (onie (sys_write d)); mret Again
  end.

Definition bridge_fd_reply : M bstate turn :=
  ffd ← onbd get_fd;
  p ← onbc (put_fd ffd OP_FDPASS);
  match p with
  | None => mret Aborted
  | Some _ => _ ← onbc (onik (sys_close_fd ffd)); mret Again
  end.

Fixpoint bridge_rounds (round : M bstate turn) (fuel : nat) : M bstate turn :=
  match fuel with
  | O => block
  | S fuel =>
      t ← round;
      match t with Again => bridge_rounds round fuel | t => mret t end
  end.

(** The threads of the bridge: every round takes input of the client. *)
Definition bridge_copy_thread (mode : byte) (ssockr ssockw cdsock : Z) : M bstate turn :=
  _ ← onbc (onie (sys_write (bs "200")));
  s ← get;
  t ← bridge_rounds (bridge_copy_round mode) (S (length (rx (b_c s))));
  _ ← onbc (onik (sys_close_fd ssockr));
  _ ← onbc (onik (sys_close_fd ssockw));
  _ ← onbc (onik (sys_close_fd cdsock));
  mret t.

Definition bridge_fd_round : M bstate turn :=
  t ← bridge_fd_request;
  match t with Again => bridge_fd_reply | t => mret t end.

Definition bridge_fdpass_thread (ssock csock cdsock : Z) : M bstate turn :=
  _ ← onbc (onie (sys_write [OP_FDPASS]));
  s ← get;
  _ ← (if negb (csock =? 0) && bool_decide (is_Some (fdtab (b_k s) !! csock)) then onbc (onik (sys_close_fd csock)) else mret ());
  t ← bridge_rounds bridge_fd_round (S (length (rx (b_c s))));
  match t with
  | Aborted => mret Aborted
  | t => _ ← onbc (onik (sys_close_fd ssock)); _ ← onbc (onik (sys_close_fd cdsock)); mret t
  end.

(** ** client.c *)

Definition client_request (name : list byte) : M tio () := _ ← onie (sys_write name); mret ().

(** [while (rb < smsgsz)]: the data, until the size has been reached or the input
    ends.  The sums the client forms over the buffer in between are only its
    measurement and are left out. *)
Fixpoint client_read (fuel : nat) (smsgsz rb : Z) : M tio (list byte) :=
  if rb <? smsgsz then
    match fuel with
    | O => block
    | S fuel =>
        r ← onie (sys_read (Z.to_nat RBUF));
        match r with
        | inr _ | inl [] => mret []
        | inl d => rest ← client_read fuel smsgsz (rb + Z.of_nat (length d)); mret (d ++ rest)
        end
    end
  else mret [].

(** The answer in copy and splice mode: the size and the data. *)
Definition client_receive : M tio (Z * list byte) :=
  r ← onie (sys_read 8);
  s ← get;
  let smsgsz := size_val (overlay (match r with inl d => d | inr _ => [] end) (replicate 8 (junk (io_e s)))) in
  d ← client_read (S (length (rx (io_e s)))) smsgsz 0;
  mret (smsgsz, d).

(** ** The three processes *)

Record psystem := PSystem { y_c : tio; y_b : bstate; y_v : pserver }.

(** What one end has written has arrived at the other. *)
Definition emptied (e : endpoint) : endpoint := set_tx [] (wr_sched e) e.
Definition arrive (cells : list cell) (e : endpoint) : endpoint := set_rx (rx e ++ cells) (rd_sched e) e.

Definition set_io_e (e : endpoint) (t : tio) : tio := Tio (io_k t) e (dg_in t) (dg_out t).

Definition client_does {A} (m : M tio A) : M psystem A := fun y =>
  match m (y_c y) with
  | Ret a t => Ret a (PSystem (set_io_e (emptied (io_e t)) t) (BState (b_k (y_b y)) (arrive (tx (io_e t)) (b_c (y_b y))) (b_d (y_b y))) (y_v y))
  | Blocked => Blocked
  | Fault => Fault
  end.

Definition bridge_does {A} (m : M bstate A) : M psystem A := fun y =>
  match m (y_b y) with
  | Ret a b => Ret a (PSystem (set_io_e (arrive (tx (b_c b)) (io_e (y_c y))) (y_c y)) (BState (b_k b) (emptied (b_c b)) (emptied (b_d b)))
                             (PServer (set_io_e (arrive (tx (b_d b)) (io_e (v_io (y_v y)))) (v_io (y_v y))) (v_s (y_v y))))
  | Blocked => Blocked
  | Fault => Fault
  end.

Definition server_does {A} (m : M pserver A) : M psystem A := fun y =>
  match m (y_v y) with
  | Ret a v => Ret a (PSystem (y_c y) (BState (b_k (y_b y)) (b_c (y_b y)) (arrive (tx (io_e (v_io v))) (b_d (y_b y))))
                             (PServer (set_io_e (emptied (io_e (v_io v))) (v_io v)) (v_s v)))
  | Blocked => Blocked
  | Fault => Fault
  end.

(** One request in copy or splice mode: a round of each loop. *)
Definition proto_fetch (mode : byte) (csock : Z) (name : list byte) : M psystem (Z * list byte) :=
  _ ← client_does (client_request name);
  _ ← bridge_does relay_request;
  _ ← server_does (copy_round csock);
  _ ← bridge_does (relay_reply mode);
  client_does client_receive.

(** One request in descriptor mode: the descriptor the client gets. *)
Definition proto_fetch_fd (name : list byte) : M psystem Z :=
  _ ← client_does (client_request name);
  _ ← bridge_does bridge_fd_request;
  _ ← server_does fdpass_round;
  _ ← bridge_does bridge_fd_reply;
  client_does get_fd.

(** The second pass of [getobjlist] over the regular files: [sptr] is the slot the
    next name goes to, [None] a slot that has not been written. *)
Fixpoint list_names (slots : list (option (list byte))) (sptr nfiles : nat) (names : list (list byte))
  : M kernel (list (option (list byte)) * nat) :=
  match names with
  | [] => mret (slots, nfiles)
  | d_name :: names =>
      st ← sys_stat (bs "./back/" ++ d_name);
      match st with
      | Some (StReg _) =>
          if bool_decide (1 < length d_name)%nat then
            if bool_decide (sptr < length slots)%nat then list_names (<[sptr:=Some d_name]> slots) nfiles (S nfiles) names
            else fault
          else list_names slots sptr nfiles names
      | _ => list_names slots sptr nfiles names
      end
  end.

Fixpoint count_regular (names : list (list byte)) : M kernel nat :=
  match names with
  | [] => mret 0%nat
  | d_name :: names =>
      st ← sys_stat (bs "./back/" ++ d_name);
      n ← count_regular names;
      mret (match st with Some (StReg _) => S n | _ => n end)
  end.

(** The slots and [nfiles]. *)
Definition getobjlist : M kernel (list (option (list byte)) * Z) :=
  dir ← sys_opendir (bs "./back");
  match dir with
  | None => fault
  | Some names =>
      let entries := bs "." :: bs ".." :: names in
      n ← count_regular entries;
      m ← sys_malloc;
      r ← list_names (if m : bool then replicate (S n) None else []) 0 0 entries;
      mret (r.1, Z.of_nat r.2 - 1)
  end.
