(* ===== verification/ProtoServeProofs.v ===== *)
(** * ProtoServeProofs: what the prototype's bridge passes on

    The bridge relays an answer exactly, however the kernel splits the transfers, in
    splice mode for every size and in copy mode up to one mebibyte; a larger
    object is never finished in copy mode.  Client, bridge and server together
    deliver the contents of a file. *)

From S2P Require Import Prelude Socket Kernel KernelProofs Transport ProtoStore ProtoStoreProofs ProtoServe.

(** ** Calls that succeed *)

(** The endpoints agree but for the process's descriptors and allocator. *)
Record ep_like (e e' : endpoint) : Prop := {
  el_rx : rx e' = rx e; el_closed : peer_closed e' = peer_closed e; el_tx : tx e' = tx e;
  el_rd : rd_sched e' = rd_sched e; el_wr : wr_sched e' = wr_sched e; el_junk : junk e' = junk e
}.

Definition own (s : tio) : endpoint := set_oom (k_oom (io_k s)) (set_fdt (fdtab (io_k s)) (io_e s)).

Lemma onie_own {A} (m : M endpoint A) a e s : m (own s) = Ret a e ->
  onie m s = Ret a (Tio (set_k_oom (oom e) (set_fdtab (fdt e) (io_k s))) e (dg_in s) (dg_out s)).
Proof. intros H. unfold onie. fold (own s). by rewrite H. Qed.

Lemma quiet_cons e l : quiet (e :: l) -> (exists k, e = IoPartial k) /\ quiet l.
Proof. intros H. apply list.Forall_cons in H. done. Qed.

Lemma plain_bytes (d : list byte) : c_byte <$> (plain <$> d) = d.
Proof. induction d as [|b d IH]; simpl; [done|]. by f_equal. Qed.

(** The next call is not cut short of [n] bytes. *)
Definition first_full (n : nat) (l : list io_event) : Prop := match l with [] => True | IoPartial k :: _ => (n <= S k)%nat | _ => False end.

(** A read that does not fail takes something, if there is anything. *)
Lemma read_quiet n d rest e : quiet (rd_sched e) -> (0 < n)%nat -> rx e = (plain <$> d) ++ rest -> d <> [] -> (n <= length d)%nat \/ rest = [] ->
  exists c e', sys_read n e = Ret (inl c) e' /\ c <> [] /\ (length c <= n)%nat /\ (exists d', d = c ++ d' /\ rx e' = (plain <$> d') ++ rest) /\
    quiet (rd_sched e') /\ (rd_sched e = [] -> rd_sched e' = []) /\ (first_full n (rd_sched e) -> c = take n d) /\
    tx e' = tx e /\ wr_sched e' = wr_sched e /\ fdt e' = fdt e /\ oom e' = oom e /\ peer_closed e' = peer_closed e /\ junk e' = junk e.
Proof.
  intros Hq Hn Hrx Hd Hle.
  assert (Hgo : forall m w, (0 < m <= n)%nat -> exists c e', (match rx e with [] => if peer_closed e then Ret (inl []) (set_rx [] w e) else Blocked
      | _ => Ret (inl (c_byte <$> take m (rx e))) (set_rx (drop m (rx e)) w e) end : outcome endpoint (list byte + errno)) = Ret (inl c) e' /\
      c = take m d /\ rx e' = (plain <$> drop m d) ++ rest /\ rd_sched e' = w /\
      tx e' = tx e /\ wr_sched e' = wr_sched e /\ fdt e' = fdt e /\ oom e' = oom e /\ peer_closed e' = peer_closed e /\ junk e' = junk e).
  { intros m w Hm. destruct (rx e) as [|c0 r]; [by destruct d|]. rewrite Hrx. do 2 eexists. split; [reflexivity|]. cbn [rx set_rx].
    replace (take m ((plain <$> d) ++ rest)) with (plain <$> take m d).
    2: { rewrite fmap_take. destruct Hle as [Hle| ->]; [by rewrite take_app_le by (rewrite length_fmap; lia)|by rewrite app_nil_r]. }
    replace (drop m ((plain <$> d) ++ rest)) with ((plain <$> drop m d) ++ rest).
    2: { rewrite fmap_drop. destruct Hle as [Hle| ->]; [by rewrite drop_app_le by (rewrite length_fmap; lia)|by rewrite !app_nil_r]. }
    split; [|done]. f_equal. apply plain_bytes. }
  assert (Hne : forall m, (0 < m)%nat -> take m d <> []) by (intros m Hm; destruct m; [lia|by destruct d]).
  unfold sys_read. destruct (rd_sched e) as [|ev w] eqn:Es.
  - destruct (Hgo n [] ltac:(lia)) as (c & e' & H1 & -> & H2 & H3 & H4). exists (take n d), e'. split; [done|]. split; [auto|].
    split; [rewrite length_take; lia|]. split; [exists (drop n d); split; [by rewrite take_drop|done]|]. rewrite H3. split; [constructor|]. split; [done|]. done.
  - apply quiet_cons in Hq as [[k ->] Hq]. destruct (Hgo (Nat.min (S k) n) w ltac:(lia)) as (c & e' & H1 & -> & H2 & H3 & H4).
    eexists _, e'. split; [done|]. split; [apply Hne; lia|]. split; [rewrite length_take; lia|].
    split; [exists (drop (Nat.min (S k) n) d); split; [by rewrite take_drop|done]|]. rewrite H3. split; [done|]. split; [done|].
    split; [intros Hff; simpl in Hff; f_equal; lia|done].
Qed.

Lemma write_quiet d e : quiet (wr_sched e) ->
  exists n e', sys_write d e = Ret (inl n) e' /\ (n <= length d)%nat /\ tx e' = tx e ++ (plain <$> take n d) /\ quiet (wr_sched e') /\
    (length (drop n d) + length (wr_sched e') < length d + length (wr_sched e) \/ d = [])%nat /\ (wr_sched e = [] -> wr_sched e' = [] /\ n = length d) /\
    rx e' = rx e /\ rd_sched e' = rd_sched e /\ fdt e' = fdt e /\ oom e' = oom e /\ peer_closed e' = peer_closed e /\ junk e' = junk e.
Proof.
  intros Hq. unfold sys_write. destruct (wr_sched e) as [|ev w] eqn:Es.
  - do 2 eexists. split; [reflexivity|]. split; [done|]. rewrite take_ge by done. split; [done|]. split; [constructor|]. split; [|done].
    rewrite length_drop. destruct d; [by right|left; simpl; lia].
  - apply quiet_cons in Hq as [[k ->] Hq]. do 2 eexists. split; [reflexivity|]. split; [lia|]. split; [done|]. split; [done|].
    split; [left; rewrite length_drop; simpl; lia|]. done.
Qed.

(** What the other side of a process keeps. *)
Record kept (k k' : kernel) : Prop := { kp_fdtab : fdtab k' = fdtab k; kp_ofds : ofds k' = ofds k; kp_inodes : inodes k' = inodes k }.

Lemma kept_refl k : kept k k.
Proof. done. Qed.
Lemma kept_trans k1 k2 k3 : kept k1 k2 -> kept k2 k3 -> kept k1 k3.
Proof. intros [A1 A2 A3] [B1 B2 B3]. split; congruence. Qed.

(** Pushing a buffer out. *)
Lemma push_ok fuel : forall d s, quiet (wr_sched (io_e s)) -> (length d + length (wr_sched (io_e s)) < fuel)%nat ->
  exists s', push fuel d s = Ret true s' /\ tx (io_e s') = tx (io_e s) ++ (plain <$> d) /\ quiet (wr_sched (io_e s')) /\
    rx (io_e s') = rx (io_e s) /\ rd_sched (io_e s') = rd_sched (io_e s) /\ (wr_sched (io_e s) = [] -> wr_sched (io_e s') = []) /\ kept (io_k s) (io_k s').
Proof.
  induction fuel as [|fuel IH]; intros d s Hq Hf; [lia|]. destruct d as [|b d].
  { exists s. split; [done|]. rewrite app_nil_r. done. }
  cbn [push]. destruct (write_quiet (b :: d) (own s) Hq) as (n & e' & H1 & Hn & H2 & H3 & H4 & H5 & H6 & H7 & H8 & H9 & H10 & H11).
  run (onie_own _ _ _ _ H1). set (s1 := Tio _ _ _ _).
  destruct (IH (drop n (b :: d)) s1) as (s' & G1 & G2 & G3 & G4 & G5 & G6 & G7); [done| |].
  { unfold s1. cbn [io_e]. change (wr_sched (own s)) with (wr_sched (io_e s)) in H4. destruct H4 as [H4|H4]; [lia|done]. }
  exists s'. split; [done|]. rewrite G2. unfold s1. cbn [io_e io_k]. rewrite H2, <- app_assoc, <- fmap_app, take_drop. split; [done|]. split; [done|].
  split; [by rewrite G4|]. split; [by rewrite G5|]. split; [intros E; apply G6, H5, E|].
  eapply kept_trans; [|exact G7]. unfold s1. cbn [io_k]. split; simpl; by rewrite ?H8.
Qed.

(** ** The relay *)

Lemma bd_read n d rest s : quiet (rd_sched (b_d s)) -> (0 < n)%nat -> rx (b_d s) = (plain <$> d) ++ rest -> (n <= length d)%nat ->
  exists c d' s', onbd (onie (read_upto n)) s = Ret (inl c) s' /\ c <> [] /\ (length c <= n)%nat /\ d = c ++ d' /\ rx (b_d s') = (plain <$> d') ++ rest /\
    quiet (rd_sched (b_d s')) /\ (rd_sched (b_d s) = [] -> rd_sched (b_d s') = []) /\ (first_full n (rd_sched (b_d s)) -> c = take n d) /\
    b_c s' = b_c s /\ tx (b_d s') = tx (b_d s) /\ wr_sched (b_d s') = wr_sched (b_d s) /\ junk (b_d s') = junk (b_d s) /\ kept (b_k s) (b_k s').
Proof.
  intros Hq Hn Hrx Hle. set (t := Tio (b_k s) (b_d s) [] []).
  destruct (read_quiet n d rest (own t) Hq Hn Hrx ltac:(by destruct d; [simpl in Hle; lia|]) (or_introl Hle))
    as (c & e' & H1 & H2 & H3 & (d' & H4 & H5) & H6 & H7 & H7' & H8 & H9 & H10 & H11 & H12 & H13).
  exists c, d'. eexists. split; [unfold onbd; fold t; unfold read_upto; rewrite bool_decide_eq_false_2 by lia; by rewrite (onie_own _ _ _ _ H1)|].
  cbn [b_c b_d b_k io_e io_k]. do 7 (split; [done|]). split; [done|]. split; [done|]. split; [done|]. split; [done|]. split; simpl; by rewrite ?H10.
Qed.

Lemma bc_push d s : quiet (wr_sched (b_c s)) ->
  exists s', onbc (push_all d) s = Ret true s' /\ tx (b_c s') = tx (b_c s) ++ (plain <$> d) /\ quiet (wr_sched (b_c s')) /\ b_d s' = b_d s /\
    rx (b_c s') = rx (b_c s) /\ rd_sched (b_c s') = rd_sched (b_c s) /\ (wr_sched (b_c s) = [] -> wr_sched (b_c s') = []) /\ kept (b_k s) (b_k s').
Proof.
  intros Hq. set (t := Tio (b_k s) (b_c s) [] []).
  destruct (push_ok (S (length d + length (wr_sched (io_e t)))) d t Hq ltac:(lia)) as (t' & H1 & H2 & H3 & H4 & H5 & H6 & H7).
  eexists. split; [unfold onbc; fold t; unfold push_all; by rewrite H1|]. done.
Qed.

(** The relayed part of an answer. *)
Definition relayed (s s' : bstate) (data : list byte) (rest : list cell) : Prop :=
  tx (b_c s') = tx (b_c s) ++ (plain <$> data) /\ rx (b_d s') = rest /\ rx (b_c s') = rx (b_c s) /\
  rd_sched (b_c s') = rd_sched (b_c s) /\ tx (b_d s') = tx (b_d s) /\ wr_sched (b_d s') = wr_sched (b_d s) /\ kept (b_k s) (b_k s').

Lemma relay_copy_ok mode sz rest : mode <> OP_SPLICE -> forall fuel data off s, quiet (rd_sched (b_d s)) -> quiet (wr_sched (b_c s)) ->
  rx (b_d s) = (plain <$> data) ++ rest -> sz = off + Z.of_nat (length data) -> 0 <= off -> sz <= RBUF -> (length data < fuel)%nat ->
  exists s', relay_data fuel mode sz off s = Ret true s' /\ relayed s s' data rest.
Proof.
  intros Hm. induction fuel as [|fuel IH]; intros data off s Hqr Hqw Hrx Hsz Hd Hle Hf; [lia|]. cbn [relay_data].
  destruct (Z.ltb_spec off sz) as [Hlt|Hge].
  2: { destruct data; [|simpl in Hsz; lia]. exists s. split; [done|]. split; [by rewrite app_nil_r|]. done. }
  rewrite bool_decide_eq_false_2 by done. cbv zeta.
  replace (if sz <? RBUF then sz else RBUF) with sz by (destruct (Z.ltb_spec sz RBUF); lia).
  destruct (bd_read (Z.to_nat (sz - off)) data rest s Hqr ltac:(lia) Hrx ltac:(lia)) as (c & d' & s1 & H1 & H2 & H3 & -> & H5 & H6 & _ & _ & H8 & H9 & H10 & H11 & H12).
  run H1. destruct (bc_push c s1 ltac:(by rewrite H8)) as (s2 & G1 & G2 & G3 & G4 & G5 & G6 & _ & G7). run G1.
  rewrite length_app in Hsz, Hf. assert (0 < length c)%nat by (destruct c; [done|simpl; lia]).
  destruct (IH d' (off + Z.of_nat (length c)) s2) as (s' & I1 & I2 & I3 & I4 & I5 & I6 & I7 & I8); [by rewrite G4|done|by rewrite G4|lia|lia|lia|lia|].
  exists s'. split; [done|]. rewrite G4 in I6, I7. split; [rewrite I2, G2, H8, <- app_assoc, <- fmap_app; done|]. split; [done|].
  split; [by rewrite I4, G5, H8|]. split; [by rewrite I5, G6, H8|]. split; [congruence|]. split; [congruence|].
  eapply kept_trans; [done|]. by eapply kept_trans.
Qed.

Lemma relay_splice_ok sz rest : forall fuel data off s, quiet (rd_sched (b_d s)) ->
  rx (b_d s) = (plain <$> data) ++ rest -> sz = off + Z.of_nat (length data) -> 0 <= off -> (length data < fuel)%nat ->
  exists s', relay_data fuel OP_SPLICE sz off s = Ret true s' /\ relayed s s' data rest.
Proof.
  induction fuel as [|fuel IH]; intros data off s Hqr Hrx Hsz Hd Hf; [lia|]. cbn [relay_data].
  destruct (Z.ltb_spec off sz) as [Hlt|Hge].
  2: { destruct data; [|simpl in Hsz; lia]. exists s. split; [done|]. split; [by rewrite app_nil_r|]. done. }
  rewrite bool_decide_eq_true_2 by done. unfold splice_in at 1. rewrite bind_assoc.
  destruct (bd_read (Z.to_nat (sz - off)) data rest s Hqr ltac:(lia) Hrx ltac:(lia)) as (c & d' & s1 & H1 & H2 & H3 & -> & H5 & H6 & _ & _ & H8 & H9 & H10 & H11 & H12).
  run H1. rewrite bind_assoc. set (s2 := BState (b_k s1) (set_tx (tx (b_c s1) ++ (plain <$> c)) (wr_sched (b_c s1)) (b_c s1)) (b_d s1)).
  rewrite (bind_Ret _ _ s1 () s2) by done. rewrite bind_ret_l.
  rewrite length_app in Hsz, Hf. assert (0 < length c)%nat by (destruct c; [done|simpl; lia]).
  destruct (IH d' (off + Z.of_nat (length c)) s2) as (s' & I1 & I2 & I3 & I4 & I5 & I6 & I7 & I8); [done|done|lia|lia|lia|].
  exists s'. split; [done|]. unfold s2 in *. cbn [b_c b_d b_k set_tx tx rx rd_sched] in *. split; [rewrite I2, H8, <- app_assoc, <- fmap_app; done|].
  split; [done|]. split; [by rewrite I4, H8|]. split; [by rewrite I5, H8|]. split; [congruence|]. split; [congruence|]. by eapply kept_trans.
Qed.

(** Behind the first mebibyte the loop asks for nothing and gets it. *)
Lemma relay_large_loops mode sz rest : mode <> OP_SPLICE -> RBUF < sz -> forall fuel data off s, quiet (rd_sched (b_d s)) -> quiet (wr_sched (b_c s)) ->
  rx (b_d s) = (plain <$> data) ++ rest -> RBUF = off + Z.of_nat (length data) -> 0 <= off -> relay_data fuel mode sz off s = Blocked.
Proof.
  intros Hm Hsz. induction fuel as [|fuel IH]; intros data off s Hqr Hqw Hrx Hb Hd; cbn [relay_data]; rewrite (proj2 (Z.ltb_lt off sz)) by lia; [done|].
  rewrite bool_decide_eq_false_2 by done. cbv zeta. rewrite (proj2 (Z.ltb_ge sz RBUF)) by lia.
  assert (Hc : exists c d' s1, onbd (onie (read_upto (Z.to_nat (RBUF - off)))) s = Ret (inl c) s1 /\ data = c ++ d' /\ rx (b_d s1) = (plain <$> d') ++ rest /\
    quiet (rd_sched (b_d s1)) /\ quiet (wr_sched (b_c s1))).
  { destruct (decide (data = [])) as [->|Hne].
    - exists [], []. replace (RBUF - off) with 0 by (simpl in Hb; lia). eexists. split; [reflexivity|]. done.
    - assert (0 < length data)%nat by (destruct data; [done|simpl; lia]).
      destruct (bd_read (Z.to_nat (RBUF - off)) data rest s Hqr ltac:(lia) Hrx ltac:(lia)) as (c & d' & s1 & H1 & _ & _ & H4 & H5 & H6 & _ & _ & H8 & _).
      exists c, d', s1. by rewrite H8. }
  destruct Hc as (c & d' & s1 & H1 & -> & H2 & H3 & H4). run H1. destruct (bc_push c s1 H4) as (s2 & G1 & _ & G3 & G4 & _). run G1.
  rewrite length_app in Hb. apply (IH d'); [by rewrite G4|done|by rewrite G4|lia|lia].
Qed.

Lemma size_roundtrip n : 0 <= n < 2 ^ 63 -> size_val (size_bytes n) = n.
Proof.
  intros Hn. unfold size_val, size_bytes. rewrite le_val_bytes. change (256 ^ Z.of_nat 8) with (2 ^ 64). rewrite Z.mod_small by lia.
  by rewrite (proj2 (Z.ltb_lt _ _)) by lia.
Qed.

(** The size of an answer, read and passed on. *)
Lemma relay_size n body mode s : 0 <= n < 2 ^ 63 -> quiet (rd_sched (b_d s)) -> quiet (wr_sched (b_c s)) -> first_full 8 (rd_sched (b_d s)) ->
  rx (b_d s) = (plain <$> size_bytes n) ++ body ->
  exists s1, relay_reply mode s = (ok ← relay_data (relay_fuel s1) mode n 0; mret (if ok : bool then Again else Leave)) s1 /\
    relayed s s1 (size_bytes n) body /\ quiet (rd_sched (b_d s1)) /\ quiet (wr_sched (b_c s1)).
Proof.
  intros Hn Hqr Hqw Hff Hrx. unfold relay_reply. change (sys_read 8) with (read_upto 8).
  destruct (bd_read 8 (size_bytes n) body s Hqr ltac:(lia) Hrx ltac:(done)) as (c & d' & s1 & H1 & _ & _ & H4 & H5 & H6 & _ & H7 & H8 & H9 & H10 & H11 & H12).
  rewrite (H7 Hff), (take_ge (size_bytes n)) in * by done. assert (d' = []) as -> by (by apply (app_inv_head (size_bytes n)); rewrite app_nil_r).
  run H1. rewrite (bind_Ret get _ s1 s1 s1 eq_refl). cbv zeta. unfold overlay. change (length (size_bytes n)) with 8%nat.
  rewrite (drop_ge (replicate 8 _)), app_nil_r, size_roundtrip by done.
  destruct (bc_push (size_bytes n) s1 ltac:(by rewrite H8)) as (s2 & G1 & G2 & G3 & G4 & G5 & G6 & _ & G7). run G1. cbn [negb].
  exists s2. rewrite (bind_Ret get _ s2 s2 s2 eq_refl). split; [done|]. rewrite G4. split; [|done]. split; [by rewrite G2, H8|].
  split; [by rewrite G4, H5|]. split; [by rewrite G5, H8|]. split; [by rewrite G6, H8|]. split; [by rewrite G4|]. split; [by rewrite G4|]. by eapply kept_trans.
Qed.

Lemma relay_reply_ok mode data rest s :
  quiet (rd_sched (b_d s)) -> quiet (wr_sched (b_c s)) -> first_full 8 (rd_sched (b_d s)) ->
  rx (b_d s) = (plain <$> size_bytes (Z.of_nat (length data)) ++ data) ++ rest ->
  Z.of_nat (length data) < 2 ^ 63 -> mode = OP_SPLICE \/ Z.of_nat (length data) <= RBUF ->
  exists s', relay_reply mode s = Ret Again s' /\ relayed s s' (size_bytes (Z.of_nat (length data)) ++ data) rest.
Proof.
  intros Hqr Hqw Hff Hrx Hlen Hmode. rewrite fmap_app, <- app_assoc in Hrx.
  destruct (relay_size (Z.of_nat (length data)) ((plain <$> data) ++ rest) mode s ltac:(lia) Hqr Hqw Hff Hrx) as (s1 & H1 & (R1 & R2 & R3 & R4 & R5 & R6 & R7) & H2 & H3).
  assert (Hd : exists s', relay_data (relay_fuel s1) mode (Z.of_nat (length data)) 0 s1 = Ret true s' /\ relayed s1 s' data rest).
  { assert (Hf : (length data < relay_fuel s1)%nat) by (unfold relay_fuel; rewrite R2, length_app, length_fmap; lia).
    destruct (decide (mode = OP_SPLICE)) as [->|Hne]; [by apply relay_splice_ok|]. apply relay_copy_ok; try done. by destruct Hmode. }
  destruct Hd as (s' & D1 & D2 & D3 & D4 & D5 & D6 & D7 & D8). exists s'. rewrite H1. run D1. split; [done|].
  split; [by rewrite D2, R1, fmap_app, <- app_assoc|]. split; [done|]. split; [congruence|]. split; [congruence|]. split; [congruence|]. split; [congruence|].
  by eapply kept_trans.
Qed.

(** The bridge passes on an answer exactly: the size and the data reach the
    client unchanged and nothing behind them is taken, however the kernel splits the
    transfers of the data, in splice mode for every size, in copy mode up to one
    mebibyte. *)
Theorem bridge_relays_exactly mode data rest s :
  quiet (rd_sched (b_d s)) -> quiet (wr_sched (b_c s)) -> first_full 8 (rd_sched (b_d s)) ->
  rx (b_d s) = (plain <$> size_bytes (Z.of_nat (length data)) ++ data) ++ rest ->
  Z.of_nat (length data) < 2 ^ 63 -> mode = OP_SPLICE \/ Z.of_nat (length data) <= RBUF ->
  exists s', relay_reply mode s = Ret Again s' /\ relayed s s' (size_bytes (Z.of_nat (length data)) ++ data) rest.
Proof. apply relay_reply_ok. Qed.

(** An object of more than one mebibyte is never finished in copy mode: the
    buffer size is compared with the whole size but the bytes already copied are
    subtracted, so after the first mebibyte the loop reads zero bytes for ever. *)
Theorem bridge_copy_large_never_ends data rest n s :
  quiet (rd_sched (b_d s)) -> quiet (wr_sched (b_c s)) -> first_full 8 (rd_sched (b_d s)) ->
  rx (b_d s) = (plain <$> size_bytes n ++ data) ++ rest -> RBUF < n < 2 ^ 63 -> Z.of_nat (length data) = RBUF ->
  relay_reply OP_COPY s = Blocked.
Proof.
  intros Hqr Hqw Hff Hrx Hn Hlen. rewrite fmap_app, <- app_assoc in Hrx.
  destruct (relay_size n ((plain <$> data) ++ rest) OP_COPY s ltac:(unfold RBUF in *; lia) Hqr Hqw Hff Hrx) as (s1 & H1 & (_ & R2 & _) & H2 & H3).
  rewrite H1. unfold mbind, M_bind. by rewrite (relay_large_loops OP_COPY n rest ltac:(done) ltac:(lia) _ data 0 s1 H2 H3 R2) by lia.
Qed.

(** ** The server's answer *)

Section Answer.
Context (fd o i : Z) (pos : nat) (wr : bool) (d : list byte).
Hypothesis Hlen : Z.of_nat (length d) < 2 ^ 63.

Lemma sendfile_quiet off s : quiet (wr_sched (io_e s)) -> ofd_of (io_k s) fd = Some (o, Ofd (Some i) pos true wr) ->
  inodes (io_k s) !! i = Some d -> 0 <= off <= Z.of_nat (length d) ->
  exists c r s', sys_sendfile_out fd off (Z.of_nat (length d) - off) s = Ret (Z.of_nat (length c)) s' /\ drop (Z.to_nat off) d = c ++ r /\
    tx (io_e s') = tx (io_e s) ++ (plain <$> c) /\ quiet (wr_sched (io_e s')) /\ io_k s' = io_k s /\
    rx (io_e s') = rx (io_e s) /\ rd_sched (io_e s') = rd_sched (io_e s) /\ (wr_sched (io_e s) = [] -> wr_sched (io_e s') = []) /\
    (length r + length (wr_sched (io_e s')) < length (c ++ r) + length (wr_sched (io_e s)) \/ c ++ r = [])%nat.
Proof.
  intros Hq Ho Hi Hoff. unfold sys_sendfile_out. rewrite Ho, Hi. cbn [default]. set (rem := drop (Z.to_nat off) d).
  set (n := Z.to_nat (Z.min (u64 (Z.of_nat (length d) - off)) MAX_RW_COUNT)).
  assert (Hn : u64 (Z.of_nat (length d) - off) = Z.of_nat (length rem)) by (unfold rem; rewrite length_drop, u64_small; lia).
  destruct (wr_sched (io_e s)) as [|ev w] eqn:Es.
  - set (m := Nat.min _ n). exists (take m rem), (drop m rem). eexists. split; [reflexivity|]. cbn [io_e io_k set_tx tx wr_sched rx rd_sched].
    rewrite take_drop. do 7 (split; [done|]). destruct rem as [|b rem]; [by right|left]. rewrite length_drop. cbn [length]. unfold m, n. rewrite Hn. cbn [length].
    unfold MAX_RW_COUNT. lia.
  - apply quiet_cons in Hq as [[k ->] Hq]. set (m := Nat.min _ n). exists (take m rem), (drop m rem). eexists. split; [reflexivity|]. cbn [io_e io_k set_tx tx wr_sched rx rd_sched].
    rewrite take_drop. do 7 (split; [done|]). left. rewrite length_drop. simpl. lia.
Qed.

Lemma send_object_ok fuel : forall off s, quiet (wr_sched (io_e s)) -> ofd_of (io_k s) fd = Some (o, Ofd (Some i) pos true wr) ->
  inodes (io_k s) !! i = Some d -> 0 <= off <= Z.of_nat (length d) -> (length (drop (Z.to_nat off) d) + length (wr_sched (io_e s)) < fuel)%nat ->
  exists s', send_object fuel fd (Z.of_nat (length d)) off s = Ret () s' /\ tx (io_e s') = tx (io_e s) ++ (plain <$> drop (Z.to_nat off) d) /\
    io_k s' = io_k s /\ rx (io_e s') = rx (io_e s) /\ rd_sched (io_e s') = rd_sched (io_e s) /\ (wr_sched (io_e s) = [] -> wr_sched (io_e s') = []).
Proof.
  induction fuel as [|fuel IH]; intros off s Hq Ho Hi Hoff Hf; [lia|]. cbn [send_object].
  destruct (sendfile_quiet off s Hq Ho Hi Hoff) as (c & r & s1 & H1 & H2 & H3 & H4 & H5 & H6 & H7 & H8 & H9). run H1.
  rewrite (proj2 (Z.ltb_ge _ 0)) by lia. assert (Hl : length (drop (Z.to_nat off) d) = (length c + length r)%nat) by (by rewrite H2, length_app).
  rewrite length_drop in Hl. destruct (Z.leb_spec (Z.of_nat (length d)) (off + Z.of_nat (length c))) as [Hle|Hgt].
  - exists s1. split; [done|]. assert (r = []) as -> by (apply nil_length_inv; lia). rewrite H2, app_nil_r. done.
  - assert (Hdr : drop (Z.to_nat (off + Z.of_nat (length c))) d = r).
    { replace (Z.to_nat (off + Z.of_nat (length c))) with (Z.to_nat off + length c)%nat by lia. rewrite <- drop_drop, H2. by rewrite drop_app_length. }
    destruct (IH (off + Z.of_nat (length c)) s1) as (s' & G1 & G2 & G3 & G4 & G5 & G6); [done|by rewrite H5|by rewrite H5|lia| |].
    { rewrite Hdr. destruct H9 as [H9|H9]; [rewrite <- H2 in H9; lia|]. rewrite <- H2 in H9. rewrite <- (length_drop d (Z.to_nat off)) in Hl. rewrite H9 in Hl. simpl in Hl. rewrite H2 in H9. apply app_eq_nil in H9 as [-> ->]. simpl in *.
      assert (length (drop (Z.to_nat off) d) = 0)%nat by (by rewrite H2). rewrite length_drop in *. lia. }
    exists s'. split; [done|]. split; [by rewrite G2, H3, Hdr, H2, <- app_assoc, <- fmap_app|]. split; [congruence|]. split; [congruence|]. split; [congruence|]. auto.
Qed.
End Answer.

(** ** Client, bridge and server *)

(** Nothing is under way and the next calls are not disturbed. *)
Record idle (e : endpoint) : Prop := {
  id_rx : rx e = []; id_tx : tx e = []; id_rd : rd_sched e = []; id_wr : wr_sched e = []; id_open : peer_closed e = false
}.

(** The store finds [name] as the item [it], and its descriptor reads [d]. *)
Record stores (k : kernel) (s : s_t) (name : list byte) (it : st_t) (d : list byte) : Prop := {
  so_index : exists idx, (forall k', get_item name (PState k' s) = Ret (Z.of_nat idx) (PState k' s)) /\ s_items s !! idx = Some it;
  so_size : it_size it = Z.of_nat (length d);
  so_fd : exists o i pos wr, ofd_of k (served_fd it) = Some (o, Ofd (Some i) pos true wr) /\ inodes k !! i = Some d
}.

Lemma onv_Ret {A} (m : M tio A) a t v : m (v_io v) = Ret a t -> onv m v = Ret a (PServer t (v_s v)).
Proof. intros H. unfold onv. by rewrite H. Qed.

Lemma onps_Ret {A} (m : M pstate A) a x v : m (PState (io_k (v_io v)) (v_s v)) = Ret a x ->
  onps m v = Ret a (PServer (set_io_k (p_k x) (v_io v)) (p_s x)).
Proof. intros H. unfold onps. by rewrite H. Qed.

Lemma set_io_k_id t : set_io_k (io_k t) t = t.
Proof. by destruct t. Qed.

Lemma pserver_id v : PServer (set_io_k (io_k (v_io v)) (v_io v)) (v_s v) = v.
Proof. by destruct v as [[]]. Qed.

(** The answer of the copy thread. *)
Lemma copy_answer_ok v name it d : stores (io_k (v_io v)) (v_s v) name it d -> wr_sched (io_e (v_io v)) = [] -> Z.of_nat (length d) < 2 ^ 63 ->
  exists v', copy_answer name v = Ret () v' /\ tx (io_e (v_io v')) = tx (io_e (v_io v)) ++ (plain <$> size_bytes (Z.of_nat (length d)) ++ d) /\
    rx (io_e (v_io v')) = rx (io_e (v_io v)) /\ rd_sched (io_e (v_io v')) = rd_sched (io_e (v_io v)).
Proof.
  intros [(idx & Hget & Hit) Hsize (o & i & pos & wr & Hfd & Hi)] Hw Hlen. unfold copy_answer.
  run (onps_Ret _ _ _ _ (Hget (io_k (v_io v)))). cbn [p_k p_s]. rewrite pserver_id. rewrite (proj2 (Z.leb_le 0 _)) by lia.
  run (onps_Ret _ _ _ v (item_at_ok idx it (io_k (v_io v)) (v_s v) Hit)). cbn [p_k p_s]. rewrite pserver_id, Hsize.
  assert (Hq : quiet (wr_sched (own (v_io v)))) by (change (wr_sched (own (v_io v))) with (wr_sched (io_e (v_io v))); rewrite Hw; constructor).
  destruct (write_quiet (size_bytes (Z.of_nat (length d))) (own (v_io v)) Hq) as (n & e' & H1 & _ & H2 & _ & _ & H5 & H6 & H7 & H8 & H9 & H10 & H11).
  destruct (H5 Hw) as [Hw' ->]. rewrite (take_ge (size_bytes _)) in H2 by done. run (onv_Ret _ _ _ v (onie_own _ _ _ _ H1)).
  set (t1 := Tio _ _ _ _). rewrite (bind_Ret get _ _ _ _ eq_refl).
  assert (Hk1 : ofd_of (io_k t1) (served_fd it) = Some (o, Ofd (Some i) pos true wr)) by (rewrite <- Hfd; unfold t1, ofd_of; simpl; by rewrite H8).
  destruct (send_object_ok (served_fd it) o i pos wr d Hlen (send_fuel (Z.of_nat (length d)) (PServer t1 (v_s v))) 0 t1) as (t2 & G1 & G2 & G3 & G4 & G5 & _);
    [unfold t1; simpl; rewrite Hw'; constructor|done|done|lia|unfold send_fuel; cbn [v_io]; rewrite drop_0, Nat2Z.id; lia|].
  cbv beta. rewrite (onv_Ret _ _ t2 (PServer t1 (v_s v)) G1). eexists. split; [reflexivity|]. cbn [v_io]. rewrite G2, G4, G5, drop_0. unfold t1. cbn [io_e]. rewrite H2, H6, H7.
  by rewrite fmap_app, app_assoc.
Qed.

Lemma stores_close k s name it d fd : stores k s name it d -> fd <> served_fd it -> stores (set_fdtab (delete fd (fdtab k)) k) s name it d.
Proof.
  intros [H1 H2 (o & i & pos & wr & H3 & H4)] Hne. split; [done|done|]. exists o, i, pos, wr. split; [|done].
  rewrite ofd_of_Some in *. simpl. by rewrite lookup_delete_ne.
Qed.

(** A round of the copy thread reads a whole request, and answers it. *)
Lemma copy_round_reads v name csock : name_ok name -> sched (io_k (v_io v)) = [] -> rx (io_e (v_io v)) = plain <$> name ->
  rd_sched (io_e (v_io v)) = [] -> peer_closed (io_e (v_io v)) = false ->
  exists c v1, copy_round csock v = (_ ← copy_answer name; mret (Some c)) v1 /\ v_s v1 = v_s v /\ tx (io_e (v_io v1)) = tx (io_e (v_io v)) /\
    wr_sched (io_e (v_io v1)) = wr_sched (io_e (v_io v)) /\
    forall s it d, stores (io_k (v_io v)) s name it d -> csock <> served_fd it -> stores (io_k (v_io v1)) s name it d.
Proof.
  intros (Hnn & Hne & Hl) Hsc Hrx Hrd Hop. unfold copy_round.
  assert (Href : onv (onik refused) v = Ret false v).
  { unfold onv, onik, refused. rewrite Hsc. by destruct v as [[]]. }
  run Href. assert (Hpoll : onie poll_hup (v_io v) = Ret false (Tio (set_k_oom (k_oom (io_k (v_io v))) (set_fdtab (fdtab (io_k (v_io v))) (io_k (v_io v)))) (own (v_io v)) (dg_in (v_io v)) (dg_out (v_io v)))).
  { apply (onie_own poll_hup false (own (v_io v)) (v_io v)). unfold poll_hup. change (peer_closed (own (v_io v))) with (peer_closed (io_e (v_io v))).
    change (rx (own (v_io v))) with (rx (io_e (v_io v))). rewrite Hop, Hrx. by destruct name. }
  run (onv_Ret _ _ _ v Hpoll). set (t1 := Tio _ _ _ _).
  destruct (read_quiet 256 name [] (own t1)) as (c & e2 & R1 & _ & _ & _ & _ & _ & R7 & R8 & R9 & R10 & _);
    [unfold t1; simpl; rewrite Hrd; constructor|lia|unfold t1; simpl; by rewrite Hrx, app_nil_r|done|by right|].
  assert (Hc : c = name). { rewrite (R7 ltac:(unfold t1; simpl; by rewrite Hrd)). apply take_ge. lia. }
  subst c. run (onv_Ret _ _ _ (PServer t1 (v_s v)) (onie_own _ _ _ _ R1)). set (t2 := Tio _ _ _ _). cbn [v_s].
  assert (Hst2 : forall s it d, stores (io_k (v_io v)) s name it d -> stores (io_k t2) s name it d).
  { intros s it d [S1 S2 S3]. unfold t2, t1. cbn [io_k]. rewrite R10. unfold own. cbn [io_k fdt set_oom set_fdt]. by split. }
  assert (Hclose : exists c k3, close_other csock (PServer t2 (v_s v)) = Ret c (PServer (set_io_k k3 t2) (v_s v)) /\
    forall s it d, stores (io_k (v_io v)) s name it d -> csock <> served_fd it -> stores k3 s name it d).
  { unfold close_other. rewrite (bind_Ret get _ _ _ _ eq_refl). destruct (negb _ && _).
    - exists 0, (set_fdtab (delete csock (fdtab (io_k t2))) (io_k t2)). split; [done|]. intros s it d Hs Hcs. apply stores_close; auto.
    - exists csock, (io_k t2). split; [by destruct t2|auto]. }
  destruct Hclose as (c' & k3 & Hcl & Hst3). run Hcl. destruct name as [|b0 name]; [done|].
  rewrite bool_decide_eq_false_2 by lia. rewrite c_str_id by done. exists c', (PServer (set_io_k k3 t2) (v_s v)). split; [done|]. split; [done|].
  unfold t2. cbn [v_io set_io_k io_e io_k]. by rewrite R8, R9.
Qed.

Lemma copy_round_ok v name it d csock : stores (io_k (v_io v)) (v_s v) name it d -> name_ok name -> csock <> served_fd it -> Z.of_nat (length d) < 2 ^ 63 ->
  sched (io_k (v_io v)) = [] -> rx (io_e (v_io v)) = plain <$> name -> tx (io_e (v_io v)) = [] -> rd_sched (io_e (v_io v)) = [] ->
  wr_sched (io_e (v_io v)) = [] -> peer_closed (io_e (v_io v)) = false ->
  exists c v', copy_round csock v = Ret (Some c) v' /\ tx (io_e (v_io v')) = plain <$> size_bytes (Z.of_nat (length d)) ++ d.
Proof.
  intros Hst Hok Hcs Hlen Hsc Hrx Htx Hrd Hwr Hop.
  destruct (copy_round_reads v name csock Hok Hsc Hrx Hrd Hop) as (c & v1 & -> & H2 & H3 & H4 & H5).
  destruct (copy_answer_ok v1 name it d) as (v' & A1 & A2 & _); [rewrite H2; by apply H5|congruence|done|].
  run A1. exists c, v'. split; [done|]. by rewrite A2, H3, Htx.
Qed.

Lemma client_read_ok fuel : forall d off s, rd_sched (io_e s) = [] -> rx (io_e s) = plain <$> d -> (length d < fuel)%nat ->
  exists s', client_read fuel (off + Z.of_nat (length d)) off s = Ret d s'.
Proof.
  induction fuel as [|fuel IH]; intros d off s Hs Hrx Hf; [lia|]. cbn [client_read]. destruct (Z.ltb_spec off (off + Z.of_nat (length d))) as [Hlt|Hge].
  2: { destruct d; [|simpl in Hge; lia]. by exists s. }
  destruct (read_quiet (Z.to_nat RBUF) d [] (own s)) as (c & e' & H1 & Hc & _ & (d' & -> & H5) & _ & H7 & _);
    [change (rd_sched (own s)) with (rd_sched (io_e s)); rewrite Hs; constructor|unfold RBUF; lia|by rewrite app_nil_r|by destruct d; [simpl in Hlt; lia|]|by right|].
  run (onie_own _ _ _ _ H1). destruct c as [|b c]; [done|]. rewrite length_app in Hf |- *. set (s1 := Tio _ _ _ _).
  destruct (IH d' (off + Z.of_nat (length (b :: c))) s1) as (s' & G1); [by apply H7|unfold s1; cbn [io_e]; by rewrite H5, app_nil_r|simpl in Hf; lia|].
  replace (off + Z.of_nat (length (b :: c) + length d')) with (off + Z.of_nat (length (b :: c)) + Z.of_nat (length d')) by lia. run G1. by exists s'.
Qed.

Lemma client_receive_ok d s : Z.of_nat (length d) < 2 ^ 63 -> rd_sched (io_e s) = [] -> rx (io_e s) = plain <$> size_bytes (Z.of_nat (length d)) ++ d ->
  exists s', client_receive s = Ret (Z.of_nat (length d), d) s'.
Proof.
  intros Hlen Hs Hrx. unfold client_receive. rewrite fmap_app in Hrx.
  destruct (read_quiet 8 (size_bytes (Z.of_nat (length d))) (plain <$> d) (own s)) as (c & e' & H1 & _ & _ & (d' & H4 & H5) & _ & H7 & H8 & _);
    [change (rd_sched (own s)) with (rd_sched (io_e s)); rewrite Hs; constructor|lia|done|done|by left|].
  rewrite (H8 ltac:(change (rd_sched (own s)) with (rd_sched (io_e s)); by rewrite Hs)), (take_ge (size_bytes _)) in * by done.
  assert (d' = []) as -> by (apply (app_inv_head (size_bytes (Z.of_nat (length d)))); by rewrite app_nil_r).
  run (onie_own _ _ _ _ H1). rewrite (bind_Ret get _ _ _ _ eq_refl). cbv zeta. unfold overlay. change (length (size_bytes _)) with 8%nat.
  rewrite (drop_ge (replicate 8 _)), app_nil_r, size_roundtrip by first [done|lia]. set (s1 := Tio _ _ _ _).
  assert (Hrx1 : rx (io_e s1) = plain <$> d) by done.
  destruct (client_read_ok (S (length (rx (io_e s1)))) d 0 s1) as (s' & G1); [by apply H7|done|rewrite Hrx1, length_fmap; lia|].
  rewrite Z.add_0_l in G1. run G1. by exists s'.
Qed.

(** A whole write on a quiet connection. *)
Lemma write_whole_ok d s : wr_sched (io_e s) = [] -> tx (io_e s) = [] ->
  exists s', onie (sys_write d) s = Ret (inl (length d)) s' /\ tx (io_e s') = plain <$> d /\ wr_sched (io_e s') = [] /\ rx (io_e s') = rx (io_e s) /\
    rd_sched (io_e s') = rd_sched (io_e s) /\ peer_closed (io_e s') = peer_closed (io_e s) /\ fdtab (io_k s') = fdtab (io_k s).
Proof.
  intros Hw Ht. destruct (write_quiet d (own s)) as (n & e' & H1 & _ & H2 & _ & _ & H5 & H6 & H7 & H8 & _ & H10 & _);
    [change (wr_sched (own s)) with (wr_sched (io_e s)); rewrite Hw; constructor|].
  destruct (H5 Hw) as [Hw' ->]. rewrite take_ge in H2 by done. eexists. split; [exact (onie_own _ _ _ _ H1)|]. cbn [io_e io_k].
  rewrite H2. change (tx (own s)) with (tx (io_e s)). by rewrite Ht.
Qed.

(** The request goes through the bridge. *)
Lemma relay_request_ok name s : name_ok name -> rx (b_c s) = plain <$> name -> rd_sched (b_c s) = [] -> idle (b_d s) -> tx (b_c s) = [] -> wr_sched (b_c s) = [] ->
  exists s', relay_request s = Ret (Some name) s' /\ tx (b_d s') = plain <$> name /\ rx (b_d s') = [] /\ rd_sched (b_d s') = [] /\
    tx (b_c s') = [] /\ wr_sched (b_c s') = [] /\ wr_sched (b_d s') = [] /\ peer_closed (b_d s') = false.
Proof.
  intros (_ & Hne & Hl) Hrx Hrd [q1 q2 q3 q4 q5] Htx Hwr. unfold relay_request. set (t := Tio (b_k s) (b_c s) [] []).
  destruct (read_quiet 256 name [] (own t)) as (c & e' & H1 & _ & _ & _ & _ & _ & H7 & H8 & H9 & _);
    [change (rd_sched (own t)) with (rd_sched (b_c s)); rewrite Hrd; constructor|lia|by rewrite app_nil_r|done|by right|].
  assert (c = name) as -> by (rewrite (H7 ltac:(change (rd_sched (own t)) with (rd_sched (b_c s)); by rewrite Hrd)); apply take_ge; lia).
  unfold onbc at 1. rewrite (bind_Ret _ _ s (inl name) (BState (set_k_oom (oom e') (set_fdtab (fdt e') (b_k s))) e' (b_d s))) by (fold t; by rewrite (onie_own _ _ _ _ H1)).
  destruct name as [|b0 name]; [done|]. rewrite bool_decide_eq_false_2 by lia. set (s1 := BState _ _ _).
  destruct (write_whole_ok (b0 :: name) (Tio (b_k s1) (b_d s1) [] []) q4 q2) as (t2 & G1 & G2 & G3 & G4 & G5 & G6 & _).
  unfold onbd. rewrite (bind_Ret _ _ s1 (inl (length (b0 :: name))) (BState (io_k t2) (b_c s1) (io_e t2))) by (by rewrite G1).
  eexists. split; [reflexivity|]. cbn [b_c b_d b_k s1] in *. split; [done|]. split; [by rewrite G4|]. split; [by rewrite G5|].
  unfold s1. cbn [b_c]. rewrite H8, H9. split; [done|]. split; [done|]. split; [done|]. by rewrite G6.
Qed.

(** The server with a request before it. *)
Definition asked (name : list byte) (v : pserver) : pserver := PServer (set_io_e (arrive (plain <$> name) (io_e (v_io v))) (v_io v)) (v_s v).

Definition waiting (c : tio) (b : bstate) : Prop :=
  rx (io_e c) = [] /\ rd_sched (io_e c) = [] /\ idle (b_d b) /\ tx (b_c b) = [] /\ wr_sched (b_c b) = [].

Lemma request_arrives mode csock name y : name_ok name -> idle (io_e (y_c y)) -> idle (b_c (y_b y)) -> idle (b_d (y_b y)) ->
  exists c b, waiting c b /\
    proto_fetch mode csock name y = (_ ← server_does (copy_round csock); _ ← bridge_does (relay_reply mode); client_does client_receive) (PSystem c b (asked name (y_v y))).
Proof.
  intros Hok Hc Hbc Hbd. unfold proto_fetch. destruct y as [c [bk bc bd] v]. cbn [y_c y_b y_v b_c b_d b_k] in *.
  destruct Hc as [c1 c2 c3 c4 c5], Hbc as [p1 p2 p3 p4 p5]. pose proof (id_open _ Hbd) as Hop. pose proof (id_wr _ Hbd) as Hbw.
  destruct (write_whole_ok name c c4 c2) as (c' & C1 & C2 & C3 & C4 & C5 & C6).
  set (b1 := BState bk (arrive (plain <$> name) bc) bd). set (cl1 := set_io_e (emptied (io_e c')) c').
  rewrite (bind_Ret _ _ _ () (PSystem cl1 b1 v)).
  2: { unfold client_does, client_request, mbind, M_bind. cbn [y_c y_b y_v b_k b_c b_d]. rewrite C1. unfold mret, M_ret. by rewrite C2. }
  destruct (relay_request_ok name b1 Hok) as (b2 & B1 & B2 & B3 & B4 & B5 & B6 & B7 & B8); [unfold b1; simpl; by rewrite p1|done|done|done|done|].
  exists (set_io_e (arrive [] (io_e cl1)) cl1), (BState (b_k b2) (emptied (b_c b2)) (emptied (b_d b2))). split.
  - unfold waiting, cl1. simpl. rewrite C4, C5, c1, c3. do 2 (split; [done|]). split; [|done]. split; simpl; try done.
  - rewrite (bind_Ret _ _ _ (Some name) (PSystem (set_io_e (arrive [] (io_e cl1)) cl1) (BState (b_k b2) (emptied (b_c b2)) (emptied (b_d b2))) (asked name v))); [done|].
    unfold bridge_does. cbn [y_b y_c y_v]. rewrite B1, B5, B2. done.
Qed.

(** C29: In copy and splice mode the three processes deliver the file: on idle connections
    a client's request for a stored name comes back through the bridge as the size and the exact
    contents of the file, for every contents of at most one mebibyte, in splice mode of
    any size. *)
Theorem proto_fetch_delivers mode csock name it d y :
  stores (io_k (v_io (y_v y))) (v_s (y_v y)) name it d -> name_ok name -> csock <> served_fd it ->
  idle (io_e (y_c y)) -> idle (b_c (y_b y)) -> idle (b_d (y_b y)) -> idle (io_e (v_io (y_v y))) -> sched (io_k (v_io (y_v y))) = [] ->
  Z.of_nat (length d) < 2 ^ 63 -> mode = OP_SPLICE \/ Z.of_nat (length d) <= RBUF ->
  exists y', proto_fetch mode csock name y = Ret (Z.of_nat (length d), d) y'.
Proof.
  intros Hst Hok Hcs Hc Hbc Hbd [v1 v2 v3 v4 v5] Hsc Hlen Hmode.
  destruct (request_arrives mode csock name y Hok Hc Hbc Hbd) as (c & b & (W1 & W2 & [w1 w2 w3 w4 w5] & W4 & W5) & ->).
  destruct (copy_round_ok (asked name (y_v y)) name it d csock) as (cs & v3' & S1 & S2); [done|done|done|done|done|unfold asked; simpl; by rewrite v1|done..|].
  set (b4 := BState (b_k b) (b_c b) (arrive (tx (io_e (v_io v3'))) (b_d b))).
  rewrite (bind_Ret _ _ _ (Some cs) (PSystem c b4 (PServer (set_io_e (emptied (io_e (v_io v3'))) (v_io v3')) (v_s v3')))).
  2: { unfold server_does. cbn [y_b y_c y_v]. by rewrite S1. }
  destruct (relay_reply_ok mode d [] b4) as (b5 & R1 & R2 & _);
    [unfold b4; simpl; rewrite w3; constructor|unfold b4; simpl; rewrite W5; constructor|unfold b4; simpl; by rewrite w3
    |unfold b4; simpl; by rewrite w1, S2, app_nil_r|done|done|].
  erewrite bind_Ret; [|unfold bridge_does; cbn [y_b y_c y_v]; by rewrite R1].
  set (cl3 := set_io_e _ c). assert (Hcl : rx (io_e cl3) = plain <$> size_bytes (Z.of_nat (length d)) ++ d).
  { unfold cl3. cbn [io_e set_io_e arrive set_rx rx]. rewrite R2, W1. unfold b4. cbn [b_c]. by rewrite W4. }
  destruct (client_receive_ok d cl3 Hlen) as (c9 & E1); [done|done|].
  unfold client_does. cbn [y_c]. rewrite E1. by eexists.
Qed.

(** A request for an unknown name is never answered: the server reads it and
    sends nothing, and the bridge waits for a size for ever, and with it the client. *)
Theorem proto_fetch_missing_stalls mode csock name y :
  (forall k', get_item name (PState k' (v_s (y_v y))) = Ret (-1) (PState k' (v_s (y_v y)))) -> name_ok name ->
  idle (io_e (y_c y)) -> idle (b_c (y_b y)) -> idle (b_d (y_b y)) -> idle (io_e (v_io (y_v y))) -> sched (io_k (v_io (y_v y))) = [] ->
  proto_fetch mode csock name y = Blocked.
Proof.
  intros Hget Hok Hc Hbc Hbd [v1 v2 v3 v4 v5] Hsc.
  destruct (request_arrives mode csock name y Hok Hc Hbc Hbd) as (c & b & (_ & _ & [w1 w2 w3 w4 w5] & _) & ->).
  destruct (copy_round_reads (asked name (y_v y)) name csock) as (c' & v1' & H1 & H2 & H3 & _); [done|done|unfold asked; simpl; by rewrite v1|done..|].
  assert (Hans : copy_answer name v1' = Ret () v1').
  { clear H1 H3. destruct v1' as [[k1 e1 di1 do1] s1]. cbn [v_s] in H2. subst s1. unfold copy_answer, mbind, M_bind, onps. cbn [v_io io_k v_s asked].
    by rewrite Hget. }
  set (b4 := BState (b_k b) (b_c b) (arrive (tx (io_e (v_io v1'))) (b_d b))).
  rewrite (bind_Ret _ _ _ (Some c') (PSystem c b4 (PServer (set_io_e (emptied (io_e (v_io v1'))) (v_io v1')) (v_s v1')))).
  2: { unfold server_does. cbn [y_b y_c y_v]. rewrite H1. by run Hans. }
  unfold mbind, M_bind, bridge_does. cbn [y_b]. unfold relay_reply, mbind, M_bind, onbd, onie. cbn [io_e io_k].
  unfold sys_read. cbn [rd_sched rx set_oom set_fdt]. unfold b4. cbn [b_d b_k arrive set_rx rd_sched rx peer_closed]. rewrite w3, w1, H3. unfold asked. simpl. by rewrite v2, w5.
Qed.

(** ** Descriptor mode *)

Lemma recv_packet_ok name s : rd_sched (io_e s) = [] -> rx (io_e s) = plain <$> name -> name_ok name ->
  onie (sys_recv_packet (Z.to_nat 25600)) s =
    Ret (inl name) (Tio (set_k_oom (k_oom (io_k s)) (set_fdtab (fdtab (io_k s)) (io_k s))) (set_rx [] [] (own s)) (dg_in s) (dg_out s)).
Proof.
  intros Hs Hrx (_ & Hne & Hl). apply (onie_own _ (inl name) (set_rx [] [] (own s))). unfold sys_recv_packet. change (rd_sched (own s)) with (rd_sched (io_e s)).
  change (rx (own s)) with (rx (io_e s)). rewrite Hs, Hrx. destruct name as [|b name]; [done|]. cbn [fmap list_fmap]. do 2 f_equal.
  change (plain b :: (plain <$> name)) with (plain <$> (b :: name)). rewrite plain_bytes. apply take_ge. lia.
Qed.

Lemma put_fd_ok fd o s : wr_sched (io_e s) = [] -> tx (io_e s) = [] -> fdtab (io_k s) !! fd = Some o ->
  exists s', put_fd fd OP_FDPASS s = Ret (Some 0) s' /\ tx (io_e s') = [Cell OP_FDPASS (Some o)] /\ fdtab (io_k s') = fdtab (io_k s).
Proof.
  intros Hw Ht Ho. unfold put_fd. assert (H : sys_sendmsg_fd OP_FDPASS fd (own s) = Ret (inl 1%nat) (set_tx [Cell OP_FDPASS (Some o)] [] (own s))).
  { unfold sys_sendmsg_fd. change (wr_sched (own s)) with (wr_sched (io_e s)). rewrite Hw. change (fdt (own s)) with (fdtab (io_k s)). rewrite Ho.
    change (tx (own s)) with (tx (io_e s)). by rewrite Ht. }
  run (onie_own _ _ _ _ H). eexists. split; [reflexivity|]. done.
Qed.

Lemma get_fd_ok b o s : rd_sched (io_e s) = [] -> rx (io_e s) = [Cell b (Some o)] ->
  exists s', get_fd s = Ret (lowest_free (fdtab (io_k s))) s' /\ fdtab (io_k s') = <[lowest_free (fdtab (io_k s)):=o]> (fdtab (io_k s)) /\ tx (io_e s') = tx (io_e s).
Proof.
  intros Hr Hrx. unfold get_fd. set (fd := lowest_free (fdtab (io_k s))).
  assert (H : sys_recvmsg 256 (own s) = Ret (inl ([b], Some fd)) (set_fdt (<[fd:=o]> (fdtab (io_k s))) (set_rx [] [] (own s)))).
  { unfold sys_recvmsg. change (rd_sched (own s)) with (rd_sched (io_e s)). change (rx (own s)) with (rx (io_e s)). by rewrite Hr, Hrx. }
  run (onie_own _ _ _ _ H). eexists. split; [reflexivity|]. done.
Qed.

(** The bridge takes a request and passes it on. *)
Lemma bridge_fd_request_ok name s : name_ok name -> rx (b_c s) = plain <$> name -> rd_sched (b_c s) = [] -> tx (b_c s) = [] -> wr_sched (b_c s) = [] -> idle (b_d s) ->
  exists s', bridge_fd_request s = Ret Again s' /\ tx (b_d s') = plain <$> name /\ rx (b_d s') = [] /\ rd_sched (b_d s') = [] /\
    tx (b_c s') = [] /\ wr_sched (b_c s') = [] /\ fdtab (b_k s') = fdtab (b_k s).
Proof.
  intros Hok Hrx Hrd Htx Hwr [q1 q2 q3 q4 q5]. pose proof Hok as (_ & Hne & Hl). unfold bridge_fd_request.
  pose proof (recv_packet_ok name (Tio (b_k s) (b_c s) [] []) Hrd Hrx Hok) as H1. cbn [io_k dg_in dg_out] in H1.
  unfold onbc at 1. erewrite bind_Ret; [|by rewrite H1]. cbv iota. destruct name as [|b0 name]; [done|].
  rewrite (proj2 (Z.leb_gt 1024 _)) by lia. cbn [io_k io_e]. set (s1 := BState _ _ _).
  destruct (write_whole_ok (b0 :: name) (Tio (b_k s1) (b_d s1) [] []) q4 q2) as (t2 & G1 & G2 & G3 & G4 & G5 & G6 & G7).
  unfold onbd. rewrite (bind_Ret _ _ s1 (inl (length (b0 :: name))) (BState (io_k t2) (b_c s1) (io_e t2))) by (by rewrite G1).
  eexists. split; [reflexivity|]. cbn [b_c b_d b_k] in *. split; [done|]. split; [by rewrite G4|]. split; [by rewrite G5|]. split; [done|]. split; [done|]. by rewrite G7.
Qed.

(** The server answers with the descriptor of the item. *)
Lemma fdpass_round_ok v name it d o : stores (io_k (v_io v)) (v_s v) name it d -> fdtab (io_k (v_io v)) !! served_fd it = Some o -> name_ok name ->
  rx (io_e (v_io v)) = plain <$> name -> rd_sched (io_e (v_io v)) = [] -> tx (io_e (v_io v)) = [] -> wr_sched (io_e (v_io v)) = [] ->
  exists v', fdpass_round v = Ret Again v' /\ tx (io_e (v_io v')) = [Cell OP_FDPASS (Some o)].
Proof.
  intros [(idx & Hget & Hit) _ _] Ho Hok Hrx Hrd Htx Hwr. pose proof Hok as (Hnn & Hne & Hl). unfold fdpass_round.
  run (onv_Ret _ _ _ v (recv_packet_ok name (v_io v) Hrd Hrx Hok)). set (t1 := Tio _ _ _ _). destruct name as [|b0 name]; [done|].
  rewrite (proj2 (Z.leb_gt 1024 _)) by lia. rewrite c_str_id by done.
  run (onps_Ret _ _ _ (PServer t1 (v_s v)) (Hget (io_k t1))). cbn [p_k p_s v_io v_s]. rewrite set_io_k_id. rewrite (proj2 (Z.leb_le 0 _)) by lia.
  run (onps_Ret _ _ _ (PServer t1 (v_s v)) (item_at_ok idx it (io_k t1) (v_s v) Hit)). cbn [p_k p_s v_io v_s]. rewrite set_io_k_id.
  destruct (put_fd_ok (served_fd it) o t1) as (t2 & G1 & G2 & _); [done|done|done|]. run (onv_Ret _ _ _ (PServer t1 (v_s v)) G1). by eexists.
Qed.

(** The bridge passes the descriptor up and closes its own. *)
Lemma bridge_fd_reply_ok b o s : rx (b_d s) = [Cell b (Some o)] -> rd_sched (b_d s) = [] -> tx (b_c s) = [] -> wr_sched (b_c s) = [] -> tx (b_d s) = [] ->
  exists s', bridge_fd_reply s = Ret Again s' /\ tx (b_c s') = [Cell OP_FDPASS (Some o)] /\ fdtab (b_k s') = fdtab (b_k s).
Proof.
  intros Hrx Hrd Htx Hwr Htd. unfold bridge_fd_reply. destruct (get_fd_ok b o (Tio (b_k s) (b_d s) [] []) Hrd Hrx) as (t1 & G1 & G2 & _). cbn [io_k] in *.
  set (fd := lowest_free (fdtab (b_k s))) in *. rewrite (bind_Ret _ _ s fd (BState (io_k t1) (b_c s) (io_e t1))) by (unfold onbd; by rewrite G1).
  destruct (put_fd_ok fd o (Tio (io_k t1) (b_c s) [] [])) as (t2 & P1 & P2 & P3); [done|done|cbn [io_k]; rewrite G2; apply lookup_insert_eq|]. cbn [io_k] in P3.
  rewrite (bind_Ret _ _ _ (Some 0) (BState (io_k t2) (io_e t2) (io_e t1))) by (unfold onbc; cbn [b_k b_c]; by rewrite P1).
  eexists. split; [reflexivity|]. cbn [b_c b_k io_e io_k onik set_io_k]. split; [done|]. simpl. rewrite P3, G2. apply delete_lowest_free.
Qed.

(** C31: In descriptor mode the client gets the server's open file: on idle
    connections the request for a stored name ends with a new descriptor of the client
    for the very description the server serves the item from, and the bridge keeps no
    descriptor. *)
Theorem proto_fetch_fd_delivers name it d y :
  stores (io_k (v_io (y_v y))) (v_s (y_v y)) name it d -> name_ok name ->
  idle (io_e (y_c y)) -> idle (b_c (y_b y)) -> idle (b_d (y_b y)) -> idle (io_e (v_io (y_v y))) ->
  exists fd o y', proto_fetch_fd name y = Ret fd y' /\ fdtab (io_k (v_io (y_v y))) !! served_fd it = Some o /\
    fdtab (io_k (y_c y)) !! fd = None /\ fdtab (io_k (y_c y')) = <[fd:=o]> (fdtab (io_k (y_c y))) /\
    fdtab (b_k (y_b y')) = fdtab (b_k (y_b y)).
Proof.
  intros Hst Hok Hc Hbc Hbd Hv. destruct (so_fd _ _ _ _ _ Hst) as (o & i & pos & wr & Hfd & Hi). apply ofd_of_Some in Hfd as [Hfd _]. unfold proto_fetch_fd.
  destruct y as [c [bk bc bd] v]. cbn [y_c y_b y_v b_c b_d b_k] in *. destruct Hc as [c1 c2 c3 c4 c5], Hbc as [p1 p2 p3 p4 p5], Hv as [v1 v2 v3 v4 v5].
  destruct (write_whole_ok name c c4 c2) as (c' & C1 & C2 & C3 & C4 & C5 & C6 & C7).
  set (b1 := BState bk (arrive (plain <$> name) bc) bd). set (cl1 := set_io_e (emptied (io_e c')) c').
  rewrite (bind_Ret _ _ _ () (PSystem cl1 b1 v)).
  2: { unfold client_does, client_request, mbind, M_bind. cbn [y_c y_b y_v b_k b_c b_d]. rewrite C1. unfold mret, M_ret. by rewrite C2. }
  destruct (bridge_fd_request_ok name b1 Hok) as (b2 & B1 & B2 & B3 & B4 & B5 & B6 & B7); [unfold b1; simpl; by rewrite p1|done..|].
  set (cl2 := set_io_e (arrive [] (io_e cl1)) cl1). set (b3 := BState (b_k b2) (emptied (b_c b2)) (emptied (b_d b2))).
  rewrite (bind_Ret _ _ _ Again (PSystem cl2 b3 (asked name v))).
  2: { unfold bridge_does. cbn [y_b y_c y_v]. rewrite B1, B5, B2. done. }
  destruct (fdpass_round_ok (asked name v) name it d o) as (v3' & S1 & S2); [done|done|done|unfold asked; simpl; by rewrite v1|done..|].
  set (b4 := BState (b_k b3) (b_c b3) (arrive (tx (io_e (v_io v3'))) (b_d b3))).
  rewrite (bind_Ret _ _ _ Again (PSystem cl2 b4 (PServer (set_io_e (emptied (io_e (v_io v3'))) (v_io v3')) (v_s v3')))).
  2: { unfold server_does. cbn [y_b y_c y_v]. by rewrite S1. }
  destruct (bridge_fd_reply_ok OP_FDPASS o b4) as (b5 & R1 & R2 & R3); [unfold b4, b3; simpl; by rewrite B3, S2|unfold b4, b3; simpl; by rewrite B4|done|unfold b4, b3; simpl; by rewrite B6|done|].
  erewrite bind_Ret; [|unfold bridge_does; cbn [y_b y_c y_v]; by rewrite R1]. rewrite R2. set (cl3 := set_io_e _ cl2).
  destruct (get_fd_ok OP_FDPASS o cl3) as (c9 & E1 & E2 & E3); [unfold cl3, cl2, cl1; simpl; by rewrite C5|unfold cl3, cl2, cl1; simpl; by rewrite C4, c1|].
  change (fdtab (io_k cl3)) with (fdtab (io_k c')) in *. rewrite C7 in *.
  eexists _, o, _. split; [unfold client_does; cbn [y_c]; rewrite E1; reflexivity|]. cbn [y_c y_b b_k set_io_e io_k]. split; [done|]. split; [apply lowest_free_None|]. split; [done|].
  rewrite R3. unfold b4, b3. cbn [b_k]. by rewrite B7.
Qed.

(** ** The client's list of names *)

Lemma count_regular_ok k names : sched k = [] -> count_regular names k = Ret (length (filter (regular k) names)) k.
Proof.
  intros Hs. induction names as [|n names IH]; [done|]. cbn [count_regular]. change (bs "./back/" ++ n) with (back_path n).
  run (stat_eq (back_path n) k Hs). run IH. unfold mret, M_ret. rewrite list.filter_cons.
  assert (Hreg : regular k n = match node_of k (back_path n) with Some (File _) => true | _ => false end) by done.
  destruct (node_of k (back_path n)) as [[|i]|]; (rewrite decide_False by (rewrite Hreg; intros [])) || (rewrite decide_True by (by rewrite Hreg)); done.
Qed.

(** The names the client means to request: regular files with at least two letters. *)
Definition wanted (k : kernel) (name : list byte) : Prop := regular k name /\ (1 < length name)%nat.
#[global] Instance wanted_dec k name : Decision (wanted k name).
Proof. unfold wanted. apply _. Defined.

(** The slots after the names [N]: each name but the first has pushed the place of
    its predecessor back by one. *)
Definition slots_ok (slots : list (option (list byte))) (N : list (list byte)) : Prop :=
  forall j f, tail N !! j = Some f -> slots !! j = Some (Some f).

Lemma list_names_ok k : sched k = [] -> forall names slots N, slots_ok slots N -> (length N + length (filter (regular k) names) < length slots)%nat ->
  exists slots', list_names slots (length N - 1) (length N) names k = Ret (slots', length (N ++ filter (wanted k) names)) k /\
    slots_ok slots' (N ++ filter (wanted k) names).
Proof.
  intros Hs. induction names as [|n names IH]; intros slots N Hok Hl; cbn [list_names].
  { exists slots. by rewrite list.filter_nil, app_nil_r. }
  change (bs "./back/" ++ n) with (back_path n). run (stat_eq (back_path n) k Hs). rewrite list.filter_cons in Hl |- *.
  assert (Hreg : regular k n = match node_of k (back_path n) with Some (File _) => true | _ => false end) by done.
  destruct (node_of k (back_path n)) as [[|i]|].
  - rewrite decide_False in Hl by (rewrite Hreg; intros []). rewrite decide_False by (unfold wanted; rewrite Hreg; intros [[] _]). by apply IH.
  - rewrite decide_True in Hl by (by rewrite Hreg). cbn [length] in Hl. case_bool_decide as Hlen.
    + rewrite decide_True by (unfold wanted; by rewrite Hreg). rewrite bool_decide_eq_true_2 by lia.
      destruct (IH (<[(length N - 1)%nat:=Some n]> slots) (N ++ [n])) as (slots' & H1 & H2).
      * intros j f Hj. destruct N as [|f0 N]; [done|]. simpl in Hj |- *. rewrite Nat.sub_0_r. apply lookup_snoc_Some in Hj as [[Hlt Hj]|[-> ->]].
        -- rewrite list_lookup_insert_ne by lia. by apply Hok.
        -- apply list_lookup_insert_eq. simpl in Hl. lia.
      * rewrite length_app, length_insert. simpl. lia.
      * exists slots'. rewrite length_app in H1. simpl in H1. replace (length N + 1 - 1)%nat with (length N) in H1 by lia.
        replace (length N + 1)%nat with (S (length N)) in H1 by lia. by rewrite <- app_assoc in H1, H2.
    + rewrite decide_False by (unfold wanted; intros [_ ?]; done). apply IH; [done|lia].
  - rewrite decide_False in Hl by (rewrite Hreg; intros []). rewrite decide_False by (unfold wanted; rewrite Hreg; intros [[] _]). by apply IH.
Qed.

(** The client's list leaves out the first file: [getobjlist] advances its write
    position after the next name has been written, so the second file overwrites
    the first.  The list has all wanted files but the first one, in order. *)
Theorem getobjlist_drops_first k names :
  sched k = [] -> k_oom k = [] -> sys_opendir (bs "./back") k = Ret (Some names) k ->
  let N := filter (wanted k) (bs "." :: bs ".." :: names) in
  exists slots, getobjlist k = Ret (slots, Z.of_nat (length N) - 1) k /\ forall j f, tail N !! j = Some f -> slots !! j = Some (Some f).
Proof.
  intros Hs Ho Hd N. unfold getobjlist. run Hd. set (entries := bs "." :: bs ".." :: names). run (count_regular_ok k entries Hs).
  assert (Hm : sys_malloc k = Ret true k) by (unfold sys_malloc; by rewrite Ho). run Hm.
  destruct (list_names_ok k Hs entries (replicate (S (length (filter (regular k) entries))) None) []) as (slots & H1 & H2);
    [intros j f Hj; done|rewrite length_replicate; simpl; lia|].
  change (length ([] : list (list byte)) - 1)%nat with 0%nat in H1. change (length ([] : list (list byte))) with 0%nat in H1. run H1. by exists slots.
Qed.

(** ** Three processes with the files of [proto_kernel] *)

Definition quiet_end : endpoint := Endpoint [] false [] [] [] ∅ [] x00.

Definition started : pstate :=
  match init_storage zero_items zero_indexes (PState proto_kernel junk_store) with Ret _ st => st | _ => PState proto_kernel junk_store end.

Definition empty_kernel : kernel := Kernel ∅ ∅ ∅ ∅ [] [] 0 [] [].

Definition proto_system : psystem :=
  PSystem (Tio empty_kernel quiet_end [] []) (BState empty_kernel quiet_end quiet_end) (PServer (Tio (p_k started) quiet_end [] []) (p_s started)).

Definition hot_index : nat := Z.to_nat (default 0 (result_of (get_item (bs "hot") started))).
Definition hot_item : st_t := default (StT [] [] 0 0 0) (s_items (p_s started) !! hot_index).

Lemma hot_stored : stores (io_k (v_io (y_v proto_system))) (v_s (y_v proto_system)) (bs "hot") hot_item (bs "warm data").
Proof.
  split.
  - exists hot_index. split; [intros k'; vm_compute; reflexivity|vm_compute; reflexivity].
  - vm_compute. reflexivity.
  - destruct (ofd_of (io_k (v_io (y_v proto_system))) (served_fd hot_item)) as [[o [[i|] pos [|] wr]]|] eqn:E; try (by vm_compute in E).
    exists o, i, pos, wr. split; [done|]. vm_compute in E. injection E as <- <- <- <-. vm_compute. reflexivity.
Qed.

Lemma hot_name_ok : name_ok (bs "hot").
Proof. split; [by repeat constructor|]. split; [done|simpl; lia]. Qed.

Lemma quiet_idle : idle quiet_end.
Proof. by split. Qed.

Lemma hot_not_stdin : 0 <> served_fd hot_item.
Proof. vm_compute. discriminate. Qed.

Lemma started_sched : sched (io_k (v_io (y_v proto_system))) = [].
Proof. vm_compute. reflexivity. Qed.

Lemma proto_fetch_delivers_witness : exists y', proto_fetch OP_COPY 0 (bs "hot") proto_system = Ret (Z.of_nat (length (bs "warm data")), bs "warm data") y'.
Proof.
  exact (proto_fetch_delivers OP_COPY 0 (bs "hot") hot_item (bs "warm data") proto_system hot_stored hot_name_ok hot_not_stdin
    quiet_idle quiet_idle quiet_idle quiet_idle started_sched ltac:(simpl; lia) ltac:(right; unfold RBUF; simpl; lia)).
Defined.

Lemma cold_missing : forall k', get_item (bs "cold") (PState k' (v_s (y_v proto_system))) = Ret (-1) (PState k' (v_s (y_v proto_system))).
Proof. intros k'. vm_compute. reflexivity. Qed.

Lemma cold_name_ok : name_ok (bs "cold").
Proof. split; [by repeat constructor|]. split; [done|simpl; lia]. Qed.

Lemma proto_fetch_missing_stalls_witness : proto_fetch OP_COPY 0 (bs "cold") proto_system = Blocked.
Proof.
  exact (proto_fetch_missing_stalls OP_COPY 0 (bs "cold") proto_system cold_missing cold_name_ok quiet_idle quiet_idle quiet_idle quiet_idle started_sched).
Defined.

Lemma proto_fetch_fd_delivers_witness : exists fd y', proto_fetch_fd (bs "hot") proto_system = Ret fd y' /\ fdtab (b_k (y_b y')) = fdtab (b_k (y_b proto_system)).
Proof.
  destruct (proto_fetch_fd_delivers (bs "hot") hot_item (bs "warm data") proto_system hot_stored hot_name_ok quiet_idle quiet_idle quiet_idle quiet_idle)
    as (fd & o & y' & H1 & _ & _ & _ & H2).
  exists fd, y'. exact (conj H1 H2).
Defined.

Definition answer_in (n : Z) (data : list byte) (l : list io_event) : bstate :=
  BState empty_kernel quiet_end (Endpoint ((plain <$> size_bytes n ++ data) ++ []) false [] l [] ∅ [] x00).

Lemma bridge_relays_exactly_witness : exists s', relay_reply OP_COPY (answer_in 5 (bs "hello") [IoPartial 7; IoPartial 1; IoPartial 0]) = Ret Again s' /\
  tx (b_c s') = plain <$> size_bytes 5 ++ bs "hello".
Proof.
  destruct (bridge_relays_exactly OP_COPY (bs "hello") [] (answer_in 5 (bs "hello") [IoPartial 7; IoPartial 1; IoPartial 0])) as (s' & H1 & H2 & _).
  - repeat constructor; by eexists.
  - constructor.
  - simpl. lia.
  - done.
  - done.
  - right. vm_compute. discriminate.
  - exists s'. split; [exact H1|exact H2].
Defined.

Lemma bridge_copy_large_never_ends_witness : relay_reply OP_COPY (answer_in (RBUF + 1) (replicate (Z.to_nat RBUF) x00) []) = Blocked.
Proof.
  apply (bridge_copy_large_never_ends (replicate (Z.to_nat RBUF) x00) [] (RBUF + 1)).
  - constructor.
  - constructor.
  - exact I.
  - reflexivity.
  - unfold RBUF. lia.
  - rewrite length_replicate, Z2Nat.id; [reflexivity|]. unfold RBUF. lia.
Defined.

Lemma getobjlist_drops_first_witness : exists slots n, getobjlist proto_kernel = Ret (slots, n) proto_kernel /\ n = 1.
Proof.
  destruct (getobjlist_drops_first proto_kernel proto_names eq_refl eq_refl eq_refl) as (slots & H & _).
  eexists slots, _. split; [exact H|]. vm_compute. reflexivity.
Defined.

(** A request of 256 bytes or more overflows the buffer of the copy threads. *)
Theorem long_request_overflows :
  copy_round 0 (PServer (Tio (p_k started) (Endpoint (replicate 256 (plain "a"%byte)) false [] [] [] ∅ [] x00) [] []) (p_s started)) = Fault.
Proof. vm_compute. reflexivity. Qed.
