(* ===== verification/ProtoMain.v ===== *)
(** * ProtoMain: the thread slots of the prototype server

    [main] of [datapass/csrc/server.c] hands every client to a thread of a fixed number
    of slots.  The main thread and the workers share the [ssock] fields of
    the slots and a semaphore; here they take steps in any order.  Main never starts
    a thread in a slot that is in use, and its busy-waiting loop for a free slot
    always finds one, because the semaphore starts one below the number of
    slots.  Only when no socket pair can be made for a client can it join a thread
    twice.  Creating a thread succeeds (the source does not look at the result),
    and [put_fd] ends the program when it fails. *)

From S2P Require Import Prelude.

(** ** State *)

(** The life of a slot: [ssock] is 0, positive, and -1 from the moment the worker gives
    it up; the worker then posts the semaphore. *)
Inductive life := Unused | Running | Closing | Ended.

#[global] Instance life_eq_dec : EqDecision life.
Proof. solve_decision. Defined.

(** Where the main thread is: before [recvfrom], before [sem_wait], in the loop that
    looks for a slot; or the program has joined a thread twice, which is undefined. *)
Inductive mpc := Recv | Wait | Scan | Undefined.

#[global] Instance mpc_eq_dec : EqDecision mpc.
Proof. solve_decision. Defined.

Record mstate := MState {
  m_slots : list life; m_sem : nat; m_next : nat; m_pc : mpc;
  m_joined : bool           (* the last thread of the slot main is at has been joined; its [ssock] is still -1 *)
}.

(** The worker's thread exists. *)
Definition active (l : life) : bool := match l with Running | Closing => true | _ => false end.
(** [tparms[i].ssock > 0]. *)
Definition busy (l : life) : bool := match l with Running => true | _ => false end.

Definition main_init (threadcount : nat) : mstate := MState (replicate threadcount Unused) (threadcount - 1) 0 Recv false.

(** ** Steps *)

Inductive mstep : mstate -> mstate -> Prop :=
(* a client comes: the socket pair is stored in the slot and the thread created *)
| M_spawn s : m_pc s = Recv -> (m_next s < length (m_slots s))%nat ->
    mstep s (MState (<[m_next s:=Running]> (m_slots s)) (m_sem s) (m_next s) Wait false)
(* no socket pair *)
| M_fail s : m_pc s = Recv -> mstep s (MState (m_slots s) (m_sem s) (m_next s) Scan (m_joined s))
(* sem_wait *)
| M_wait s n : m_pc s = Wait -> m_sem s = S n -> mstep s (MState (m_slots s) n (m_next s) Scan (m_joined s))
(* the loop goes on to the next slot *)
| M_scan s l : m_pc s = Scan -> m_slots s !! m_next s = Some l -> busy l = true ->
    mstep s (MState (m_slots s) (m_sem s) ((m_next s + 1) mod length (m_slots s)) Scan false)
(* the loop ends at a slot never used *)
| M_free s : m_pc s = Scan -> m_slots s !! m_next s = Some Unused -> mstep s (MState (m_slots s) (m_sem s) (m_next s) Recv false)
(* or at one whose thread has ended and is joined *)
| M_join s : m_pc s = Scan -> m_slots s !! m_next s = Some Ended -> m_joined s = false -> mstep s (MState (m_slots s) (m_sem s) (m_next s) Recv true)
(* or joined again, when it was the slot of a client for which there was no socket pair *)
| M_rejoin s : m_pc s = Scan -> m_slots s !! m_next s = Some Ended -> m_joined s = true -> mstep s (MState (m_slots s) (m_sem s) (m_next s) Undefined true)
(* a worker sets its [ssock] to -1 *)
| T_close s i : m_slots s !! i = Some Running -> mstep s (MState (<[i:=Closing]> (m_slots s)) (m_sem s) (m_next s) (m_pc s) (m_joined s))
(* and posts the semaphore *)
| T_post s i : m_slots s !! i = Some Closing -> mstep s (MState (<[i:=Ended]> (m_slots s)) (S (m_sem s)) (m_next s) (m_pc s) (m_joined s)).

Inductive reachable (n : nat) : mstate -> Prop :=
| reach_init : reachable n (main_init n)
| reach_step s s' : reachable n s -> mstep s s' -> reachable n s'.

(** [while (tparms[nextthread].ssock > 0) nextthread = (nextthread + 1) % threadcount], as long as no
    thread moves; [None]: it goes round for ever. *)
Fixpoint next_slot (fuel : nat) (slots : list life) (nextthread : nat) : option nat :=
  match fuel with
  | O => None
  | S fuel =>
      match slots !! nextthread with
      | None => None
      | Some l => if busy l then next_slot fuel slots ((nextthread + 1) mod length slots) else Some nextthread
      end
  end.

(** ** Invariant *)

Definition actives (l : list life) : nat := length (filter (fun x => active x = true) l).

Record main_inv (n : nat) (s : mstate) : Prop := {
  mi_len : length (m_slots s) = n;
  mi_next : (m_next s < n)%nat;
  mi_sem : (m_sem s + actives (m_slots s) = n - 1 + (if decide (m_pc s = Wait) then 1 else 0))%nat;
  mi_recv : m_pc s = Recv -> exists l, m_slots s !! m_next s = Some l /\ active l = false
}.

Lemma actives_insert l i x y : l !! i = Some x ->
  (actives (<[i:=y]> l) + (if active x then 1 else 0) = actives l + (if active y then 1 else 0))%nat.
Proof. apply length_filter_insert. Qed.

(** A slot that is not in use, while there are fewer threads than slots. *)
Lemma some_inactive l : (actives l < length l)%nat -> exists i x, l !! i = Some x /\ active x = false.
Proof.
  intros H. destruct (decide (Forall (fun x => active x = true) l)) as [Hall|Hno].
  - unfold actives in H. rewrite (filter_all _ _ Hall) in H. lia.
  - apply not_Forall_Exists in Hno; [|apply _]. apply list.Exists_exists in Hno as (x & Hx & Ha). apply list_elem_of_lookup in Hx as [i Hi].
    exists i, x. split; [done|]. destruct (active x) eqn:E; [by destruct Ha|done].
Qed.

Lemma main_inv_init n : (0 < n)%nat -> main_inv n (main_init n).
Proof.
  intros Hn. split; cbn; [apply length_replicate|done| |].
  - unfold actives. assert (H : filter (fun x => active x = true) (replicate n Unused) = []); [|rewrite H; simpl; lia].
    clear. induction n; simpl; [done|]. rewrite list.filter_cons, decide_False by done. done.
  - intros _. exists Unused. split; [|done]. by apply lookup_replicate.
Qed.

(** A worker's step does not touch the slot main has chosen. *)
Lemma recv_other (l : list life) (next i : nat) (x y : life) : (exists z, l !! next = Some z /\ active z = false) -> l !! i = Some x -> active x = true ->
  exists z, <[i:=y]> l !! next = Some z /\ active z = false.
Proof. intros (z & Hz & Ha) Hi Hx. exists z. rewrite list_lookup_insert_ne; [done|]. intros ->. congruence. Qed.

Lemma main_inv_step n s s' : main_inv n s -> mstep s s' -> main_inv n s'.
Proof.
  intros [I1 I2 I3 I4] Hst. destruct Hst as [s Hpc Hlt|s Hpc|s m Hpc Hm|s l Hpc Hl Hb|s Hpc Hl|s Hpc Hl _|s Hpc Hl _|s i Hi|s i Hi];
    (split; cbn [m_slots m_sem m_next m_pc]; rewrite ?length_insert; try done).
  - destruct (I4 Hpc) as (x & Hx & Ha). pose proof (actives_insert _ _ _ Running Hx) as Hc. rewrite Ha in Hc. simpl in Hc. rewrite Hpc in I3.
    rewrite decide_False in I3 by done. rewrite decide_True by done. lia.
  - by rewrite Hpc in I3.
  - rewrite Hpc in I3. rewrite decide_True in I3 by done. rewrite decide_False by done. lia.
  - rewrite I1. apply Nat.mod_upper_bound. lia.
  - by rewrite Hpc in I3.
  - by rewrite Hpc in I3.
  - intros _. by exists Unused.
  - by rewrite Hpc in I3.
  - intros _. by exists Ended.
  - by rewrite Hpc in I3.
  - pose proof (actives_insert _ _ _ Closing Hi) as Hc. simpl in Hc. lia.
  - intros Hpc. by eapply recv_other; [apply I4|done|done].
  - pose proof (actives_insert _ _ _ Ended Hi) as Hc. simpl in Hc. lia.
  - intros Hpc. by eapply recv_other; [apply I4|done|done].
Qed.

Lemma main_inv_reachable n s : (0 < n)%nat -> reachable n s -> main_inv n s.
Proof. intros Hn. induction 1; [by apply main_inv_init|by eapply main_inv_step]. Qed.

Lemma next_slot_hit fuel : forall slots nx k x, (nx < length slots)%nat -> slots !! ((nx + k) mod length slots)%nat = Some x -> busy x = false -> (k < fuel)%nat ->
  exists i y, next_slot fuel slots nx = Some i /\ slots !! i = Some y /\ busy y = false.
Proof.
  induction fuel as [|fuel IH]; intros slots nx k x Hnx Hx Hb Hk; [lia|]. cbn [next_slot].
  destruct (lookup_lt_is_Some_2 slots nx Hnx) as [y Hy]. rewrite Hy. destruct (busy y) eqn:E; [|by exists nx, y].
  destruct k as [|k]; [rewrite Nat.add_0_r, Nat.mod_small in Hx by done; congruence|].
  apply (IH slots ((nx + 1) mod length slots)%nat k x); [apply Nat.mod_upper_bound; lia| |done|lia].
  rewrite Nat.Div0.add_mod_idemp_l. by replace (nx + 1 + k)%nat with (nx + S k)%nat by lia.
Qed.

(** C32: The slots of the server's threads are exclusive, and the main thread does not spin for ever: in every
    interleaving, when main takes the next client its slot holds no thread, and when it looks
    for a slot its loop ends, within one round, at a slot whose [ssock] is not
    in use. *)
Theorem thread_slots_safe n s :
  (0 < n)%nat -> reachable n s ->
  (m_pc s = Recv -> exists l, m_slots s !! m_next s = Some l /\ active l = false) /\
  (m_pc s = Scan -> exists i l, next_slot n (m_slots s) (m_next s) = Some i /\ m_slots s !! i = Some l /\ busy l = false) /\
  (m_pc s = Wait -> m_sem s = 0%nat -> exists i l, m_slots s !! i = Some l /\ active l = true).
Proof.
  intros Hn Hr. destruct (main_inv_reachable n s Hn Hr) as [I1 I2 I3 I4]. split; [done|]. split.
  - intros Hpc. rewrite Hpc in I3. rewrite decide_False in I3 by done. destruct (some_inactive (m_slots s)) as (i & x & Hi & Ha); [lia|].
    pose proof (lookup_lt_Some _ _ _ Hi) as Hlt.
    apply (next_slot_hit n (m_slots s) (m_next s) ((i + (n - m_next s)) mod n)%nat x); [lia| |by destruct x|apply Nat.mod_upper_bound; lia].
    rewrite I1, Nat.Div0.add_mod_idemp_r. replace (m_next s + (i + (n - m_next s)))%nat with (i + 1 * n)%nat by lia.
    rewrite Nat.Div0.mod_add, Nat.mod_small by lia. done.
  - intros Hpc Hz. rewrite Hpc, Hz in I3. rewrite decide_True in I3 by done. destruct (m_slots s !! 0%nat) as [x|] eqn:E; [|apply lookup_ge_None in E; lia].
    destruct (filter (fun x => active x = true) (m_slots s)) as [|y l] eqn:Ef; [unfold actives in I3; rewrite Ef in I3; simpl in I3; lia|].
    assert (Hy : y ∈ filter (fun x => active x = true) (m_slots s)) by (rewrite Ef; left). apply list_elem_of_filter in Hy as [Ha Hy].
    apply list_elem_of_lookup in Hy as [i Hi]. eauto.
Qed.

Lemma thread_slots_safe_witness :
  let s := MState [Running; Unused] 0 0 Scan false in
  exists i l, next_slot 2 (m_slots s) (m_next s) = Some i /\ m_slots s !! i = Some l /\ busy l = false.
Proof.
  intros s. assert (Hr : reachable 2 s).
  { apply (reach_step 2 (MState [Running; Unused] 1 0 Wait false)); [|by apply (M_wait (MState [Running; Unused] 1 0 Wait false) 0)].
    apply (reach_step 2 (main_init 2)); [constructor|]. apply (M_spawn (main_init 2)); [done|simpl; lia]. }
  apply (thread_slots_safe 2 s); [lia|exact Hr|reflexivity].
Defined.

(** A client for which no socket pair can be made sends main back to the slot it has just
    joined, whose [ssock] is still -1: the thread is joined a second time. *)
Theorem failed_pair_joins_twice : exists s, reachable 1 s /\ m_pc s = Undefined.
Proof.
  exists (MState [Ended] 0 0 Undefined true). split; [|done].
  apply (reach_step 1 (MState [Ended] 0 0 Scan true)); [|by apply (M_rejoin (MState [Ended] 0 0 Scan true))].
  apply (reach_step 1 (MState [Ended] 0 0 Recv true)); [|by apply (M_fail (MState [Ended] 0 0 Recv true))].
  apply (reach_step 1 (MState [Ended] 0 0 Scan false)); [|by apply (M_join (MState [Ended] 0 0 Scan false))].
  apply (reach_step 1 (MState [Ended] 1 0 Wait false)); [|by apply (M_wait (MState [Ended] 1 0 Wait false) 0)].
  apply (reach_step 1 (MState [Closing] 0 0 Wait false)); [|by apply (T_post (MState [Closing] 0 0 Wait false) 0)].
  apply (reach_step 1 (MState [Running] 0 0 Wait false)); [|by apply (T_close (MState [Running] 0 0 Wait false) 0)].
  apply (reach_step 1 (main_init 1)); [constructor|]. apply (M_spawn (main_init 1)); [done|simpl; lia].
Qed.
