(* ===== verification/BridgeMain.v ===== *)
(** * BridgeMain: the thread slots of the prototype's bridge

    [main] of [datapass/csrc/bridge.c] gives clients to threads in slots as the
    server does ([ProtoMain]), with three differences: the semaphore starts at the
    number of slots, it is tried before every client, and every ended thread is
    joined after each client.  Main and workers take steps in any order.  The slots
    are exclusive here too; the semaphore never holds main back, so that main
    goes round its loop while all slots are in use. *)

From S2P Require Import Prelude ProtoMain.

(** ** Steps *)

(** Before [sem_wait] and [sem_post]; before [recvfrom]; before the [sem_wait] after a
    thread was created; in the loop that looks for a slot; in the loop that joins,
    with [ti] slots to go. *)
Inductive bpc := Gate | BRecv | BWait | BScan | BJoin (ti : nat).

#[global] Instance bpc_eq_dec : EqDecision bpc.
Proof. solve_decision. Defined.

Record bmain := BMain { br_slots : list life; br_sem : nat; br_next : nat; br_pc : bpc }.

Definition bridge_init (threadcount : nat) : bmain := BMain (replicate threadcount Unused) threadcount 0 Gate.

Inductive bridge_step : bmain -> bmain -> Prop :=
(* sem_wait, sem_post *)
| B_gate s n : br_pc s = Gate -> br_sem s = S n -> bridge_step s (BMain (br_slots s) (br_sem s) (br_next s) BRecv)
(* an empty datagram *)
| B_idle s : br_pc s = BRecv -> bridge_step s (BMain (br_slots s) (br_sem s) (br_next s) Gate)
(* a client comes: its pipes or sockets are stored in the slot and the thread created *)
| B_spawn s : br_pc s = BRecv -> (br_next s < length (br_slots s))%nat ->
    bridge_step s (BMain (<[br_next s:=Running]> (br_slots s)) (br_sem s) (br_next s) BWait)
(* no pipes or sockets *)
| B_fail s : br_pc s = BRecv -> bridge_step s (BMain (br_slots s) (br_sem s) (br_next s) BScan)
(* sem_wait *)
| B_wait s n : br_pc s = BWait -> br_sem s = S n -> bridge_step s (BMain (br_slots s) n (br_next s) BScan)
(* the loop goes on to the next slot, or ends *)
| B_scan s l : br_pc s = BScan -> br_slots s !! br_next s = Some l -> busy l = true ->
    bridge_step s (BMain (br_slots s) (br_sem s) ((br_next s + 1) mod length (br_slots s)) BScan)
| B_found s l : br_pc s = BScan -> br_slots s !! br_next s = Some l -> busy l = false ->
    bridge_step s (BMain (br_slots s) (br_sem s) (br_next s) (BJoin (length (br_slots s))))
(* while (ti--): only a slot with ssockr == -1 is joined, and then reset *)
| B_skip s ti l : br_pc s = BJoin (S ti) -> br_slots s !! ti = Some l -> l = Unused \/ l = Running ->
    bridge_step s (BMain (br_slots s) (br_sem s) (br_next s) (BJoin ti))
| B_join s ti : br_pc s = BJoin (S ti) -> br_slots s !! ti = Some Ended ->
    bridge_step s (BMain (<[ti:=Unused]> (br_slots s)) (br_sem s) (br_next s) (BJoin ti))
| B_end s : br_pc s = BJoin 0 -> bridge_step s (BMain (br_slots s) (br_sem s) (br_next s) Gate)
(* a worker sets its [ssockr] to -1 and posts the semaphore *)
| W_close s i : br_slots s !! i = Some Running -> bridge_step s (BMain (<[i:=Closing]> (br_slots s)) (br_sem s) (br_next s) (br_pc s))
| W_post s i : br_slots s !! i = Some Closing -> bridge_step s (BMain (<[i:=Ended]> (br_slots s)) (S (br_sem s)) (br_next s) (br_pc s)).

Inductive bridge_reachable (n : nat) : bmain -> Prop :=
| breach_init : bridge_reachable n (bridge_init n)
| breach_step s s' : bridge_reachable n s -> bridge_step s s' -> bridge_reachable n s'.

(** ** Invariant *)

(** What main knows of the slot it has chosen. *)
Definition chosen (pc : bpc) (next : nat) (l : life) : Prop :=
  match pc with
  | Gate | BRecv => l = Unused
  | BJoin ti => l = Unused \/ ((next < ti)%nat /\ (l = Closing \/ l = Ended))
  | BWait | BScan => True
  end.

Record bridge_inv (n : nat) (s : bmain) : Prop := {
  bi_len : length (br_slots s) = n;
  bi_sem : (br_sem s + actives (br_slots s) = n + (if decide (br_pc s = BWait) then 1 else 0))%nat;
  bi_chosen : exists l, br_slots s !! br_next s = Some l /\ chosen (br_pc s) (br_next s) l
}.

Lemma bridge_inv_init n : (0 < n)%nat -> bridge_inv n (bridge_init n).
Proof.
  intros Hn. pose proof (main_inv_init n Hn) as [_ _ I _]. split; cbn [bridge_init br_slots br_sem br_next br_pc]; [apply length_replicate| |].
  - cbn [main_init m_slots m_sem m_pc] in I. rewrite decide_False in I by done. rewrite decide_False by done. lia.
  - exists Unused. split; [by apply lookup_replicate|done].
Qed.

Lemma insert_kept {A} (l : list A) i j x y : l !! i = Some x -> i <> j -> <[j:=y]> l !! i = Some x.
Proof. intros Hi Hne. by rewrite list_lookup_insert_ne. Qed.

(** A worker's step keeps what main knows. *)
Lemma chosen_worker (l : list life) (pc : bpc) (next i : nat) (x y : life) : (exists z, l !! next = Some z /\ chosen pc next z) -> l !! i = Some x ->
  (x = Running /\ y = Closing) \/ (x = Closing /\ y = Ended) -> exists z, <[i:=y]> l !! next = Some z /\ chosen pc next z.
Proof.
  intros (z & Hz & Hc) Hi Hxy. destruct (decide (next = i)) as [->|Hne]; [|exists z; split; [by apply insert_kept|done]].
  exists y. split; [apply list_lookup_insert_eq; by eapply lookup_lt_Some|]. rewrite Hi in Hz. injection Hz as <-.
  destruct pc; simpl in *; naive_solver.
Qed.

Lemma bridge_inv_step n s s' : (0 < n)%nat -> bridge_inv n s -> bridge_step s s' -> bridge_inv n s'.
Proof.
  intros Hn [I1 I2 (z & Hz & Hc)] Hst. pose proof (lookup_lt_Some _ _ _ Hz) as Hlt.
  destruct Hst as [s m Hpc Hm|s Hpc|s Hpc Hl|s Hpc|s m Hpc Hm|s l Hpc Hl Hb|s l Hpc Hl Hb|s ti l Hpc Hl Hlr|s ti Hpc Hl|s Hpc|s i Hi|s i Hi];
    (split; cbn [br_slots br_sem br_next br_pc]; rewrite ?length_insert; try done);
    try (rewrite Hpc in I2; (rewrite decide_False in I2 by done)); try (rewrite decide_False by done); try lia.
  - exists z. by rewrite Hpc in Hc.
  - exists z. by rewrite Hpc in Hc.
  - rewrite Hpc in Hc. simpl in Hc. subst z. pose proof (actives_insert _ _ _ Running Hz) as Ha. simpl in Ha. rewrite decide_True by done. lia.
  - exists Running. split; [by apply list_lookup_insert_eq|done].
  - by exists z.
  - rewrite Hpc in I2. rewrite decide_True in I2 by done. lia.
  - by exists z.
  - destruct (lookup_lt_is_Some_2 (br_slots s) ((br_next s + 1) mod length (br_slots s))) as [y Hy]; [apply Nat.mod_upper_bound; lia|]. by exists y.
  - exists l. split; [done|]. simpl. destruct l; naive_solver.
  - exists z. split; [done|]. rewrite Hpc in Hc. simpl in *. destruct Hc as [->|[Hlt' Hz2]]; [by left|]. right. split; [|done].
    destruct (decide (br_next s = ti)) as [E|]; [|lia]. rewrite E, Hl in Hz. injection Hz as ->. naive_solver.
  - pose proof (actives_insert _ _ _ Unused Hl) as Ha. simpl in Ha. lia.
  - rewrite Hpc in Hc. simpl in *. destruct (decide (br_next s = ti)) as [E|Hne].
    + exists Unused. split; [rewrite E; apply list_lookup_insert_eq; lia|by left].
    + exists z. split; [by apply insert_kept|]. destruct Hc as [->|[Hlt' Hz2]]; [by left|]. right. split; [lia|done].
  - exists z. split; [done|]. rewrite Hpc in Hc. simpl in *. destruct Hc as [->|[Hlt' _]]; [done|lia].
  - pose proof (actives_insert _ _ _ Closing Hi) as Ha. simpl in Ha. lia.
  - eapply chosen_worker; [by exists z|done|by left].
  - pose proof (actives_insert _ _ _ Ended Hi) as Ha. simpl in Ha. lia.
  - eapply chosen_worker; [by exists z|done|by right].
Qed.

Lemma bridge_inv_reachable n s : (0 < n)%nat -> bridge_reachable n s -> bridge_inv n s.
Proof. intros Hn. induction 1; [by apply bridge_inv_init|by eapply bridge_inv_step]. Qed.

(** The loop finds a slot within one round if there is one, and goes round for ever
    as long as there is none. *)
Lemma next_slot_round slots nx : (nx < length slots)%nat ->
  (exists i l, next_slot (length slots) slots nx = Some i /\ slots !! i = Some l /\ busy l = false) \/ Forall (fun l => busy l = true) slots.
Proof.
  intros Hnx. destruct (decide (Forall (fun l => busy l = true) slots)) as [Hall|Hno]; [by right|left].
  apply not_Forall_Exists in Hno; [|apply _]. apply list.Exists_exists in Hno as (x & Hx & Ha). apply list_elem_of_lookup in Hx as [i Hi].
  pose proof (lookup_lt_Some _ _ _ Hi) as Hlt. set (n := length slots) in *.
  apply (next_slot_hit n slots nx ((i + (n - nx)) mod n)%nat x); [done| |by apply not_true_is_false|apply Nat.mod_upper_bound; lia].
  fold n. rewrite Nat.Div0.add_mod_idemp_r. replace (nx + (i + (n - nx)))%nat with (i + 1 * n)%nat by lia.
  by rewrite Nat.Div0.mod_add, Nat.mod_small by lia.
Qed.

Lemma next_slot_spins fuel : forall slots nx, (nx < length slots)%nat -> Forall (fun l => busy l = true) slots -> next_slot fuel slots nx = None.
Proof.
  induction fuel as [|fuel IH]; intros slots nx Hnx Hall; [done|]. cbn [next_slot]. destruct (lookup_lt_is_Some_2 slots nx Hnx) as [l Hl]. rewrite Hl.
  rewrite (Forall_lookup_1 _ _ _ _ Hall Hl). apply IH; [apply Nat.mod_upper_bound; lia|done].
Qed.

(** C33: the slots of the bridge are exclusive: in every interleaving main gives a client
    only a slot that holds no thread and has been joined.  The semaphore never
    blocks main; its search for a slot ends within one round unless a thread is
    running in every slot, and then it goes round until one ends. *)
Theorem bridge_slots_safe n s :
  (0 < n)%nat -> bridge_reachable n s ->
  (br_pc s = BRecv -> br_slots s !! br_next s = Some Unused) /\
  (br_pc s = Gate \/ br_pc s = BWait -> (0 < br_sem s)%nat) /\
  (br_pc s = BScan -> (exists i l, next_slot n (br_slots s) (br_next s) = Some i /\ br_slots s !! i = Some l /\ busy l = false) \/
    (Forall (fun l => busy l = true) (br_slots s) /\ forall fuel, next_slot fuel (br_slots s) (br_next s) = None)).
Proof.
  intros Hn Hr. destruct (bridge_inv_reachable n s Hn Hr) as [I1 I2 (z & Hz & Hc)]. pose proof (lookup_lt_Some _ _ _ Hz) as Hlt. split; [|split].
  - intros Hpc. rewrite Hpc in Hc. simpl in Hc. by subst z.
  - assert (Hle : forall l, (actives l <= length l)%nat) by (intros l; apply length_filter).
    intros [Hpc|Hpc]; rewrite Hpc in *.
    + simpl in Hc. subst z. rewrite decide_False in I2 by done. pose proof (actives_insert _ _ _ Running Hz) as Ha. simpl in Ha.
      pose proof (Hle (<[br_next s:=Running]> (br_slots s))) as Hb. rewrite length_insert in Hb. lia.
    + rewrite decide_True in I2 by done. pose proof (Hle (br_slots s)). lia.
  - intros _. destruct (next_slot_round (br_slots s) (br_next s) Hlt) as [H|H]; [left; by rewrite I1 in H|right].
    split; [done|]. intros fuel. by apply next_slot_spins.
Qed.

(** One slot, one client: main is in its loop, and stays there while the thread runs. *)
Definition one_client : bmain := BMain [Running] 0 0 BScan.

Lemma one_client_reachable : bridge_reachable 1 one_client.
Proof.
  apply (breach_step 1 (BMain [Running] 1 0 BWait)); [|by apply (B_wait (BMain [Running] 1 0 BWait) 0)].
  apply (breach_step 1 (BMain [Unused] 1 0 BRecv)); [|apply (B_spawn (BMain [Unused] 1 0 BRecv)); [done|simpl; lia]].
  apply (breach_step 1 (bridge_init 1)); [constructor|]. by apply (B_gate (bridge_init 1) 0).
Qed.

Lemma bridge_slots_safe_witness :
  (exists i l, next_slot 1 [Running] 0 = Some i /\ [Running] !! i = Some l /\ busy l = false) \/
  (Forall (fun l => busy l = true) [Running] /\ forall fuel, next_slot fuel [Running] 0 = None).
Proof. apply (bridge_slots_safe 1 one_client); [lia|apply one_client_reachable|reflexivity]. Defined.

(** With one slot, the default, main spins while its only client is served. *)
Theorem bridge_main_spins : bridge_reachable 1 one_client /\ forall fuel, next_slot fuel (br_slots one_client) (br_next one_client) = None.
Proof. split; [apply one_client_reachable|]. intros fuel. apply next_slot_spins; [simpl; lia|by repeat constructor]. Qed.
