(* ===== verification/Example.v ===== *)
(** * Example: the example server and client of examples/

    [example_server.c] and [example_client.c], two programs on top of the protocol
    library.  The server takes the URI of a request for a path, opens the file and
    answers with its descriptor (or only its size) and metadata; it serves one
    client after the other.  The client sends one request and prints what the
    response says: the printed text is the [report] it returns.  Both are processes
    with a kernel state and one connection, the [client] of [Client]. *)

From S2P Require Import Prelude Socket Kernel Protocol Client Transport ServerMain.

(** ** Helpers *)

(** The connection object is the one [conn] points to from now on. *)
Definition use_conn (c : objm_connection) : M client () := oncl (modify (fun l => Link (ep l) (Some c))).

(** [socket], [bind] or [connect] and the rest of the set-up: [close] on failure. *)
Definition attach_or_close (fd : Z) (next : M kernel Z) : M kernel Z :=
  b ← sys_attach;
  if b <? 0 then abandon_socket fd else next.

Definition create_server_socket (socket_path : list byte) : M kernel Z :=
  _ ← sys_unlink socket_path;
  fd ← sys_socket;
  if fd <? 0 then mret (-1)
  else attach_or_close fd (attach_or_close fd (mret fd)).      (* bind, listen *)

Definition connect_to_server (socket_path : list byte) : M kernel Z :=
  fd ← sys_socket;
  if fd <? 0 then mret (-1) else attach_or_close fd (mret fd). (* connect *)

Definition example_hello (parallelism : Z) : objm_hello_t :=
  Hello (Z.lor OBJM_CAP_OOO_REPLIES OBJM_CAP_PIPELINING) 100 parallelism.

(** [char cap_str[256]], filled for a message on the console. *)
Definition show_capabilities (p : objm_params_t) : M client () :=
  s ← get;
  _ ← objm_capability_names (pa_capabilities p) (replicate 256 (junk (ep (cl_l s)))) 256;
  mret ().

(** ** Server *)

Section Server.
(** What the C library says about a failed [open] ([strerror(errno)], with its
    terminator), and what [fstat] says about a directory's size and a file's
    modification time. *)
Variable strerror : list byte.
Variable dir_size : Z.
Variable mtime : kernel -> Z -> Z.

Definition st_size (st : stat_result) : Z := match st with StReg n => n | StDir => dir_size end.

(** Size, modification time and backend. *)
Definition build_metadata (size mtime : Z) : M client (option (list byte) * Z) :=
  metadata ← oncl (onep (objm_metadata_create 100));
  m ← objm_metadata_add_size metadata 0 size;
  m ← objm_metadata_add_mtime m.1 m.2 mtime;
  objm_metadata_add_backend m.1 m.2 1.

Definition handle_request (req : objm_request_t) : M client () :=
  file_fd ← onck (sys_open (c_str (rq_uri req)) O_RDONLY false false);
  if file_fd <? 0 then
    _ ← oncl (objm_server_send_error (rq_id req) OBJM_STATUS_NOT_FOUND (Some strerror)); mret ()
  else
    st ← onck (sys_fstat file_fd);
    match st with
    | None =>
        _ ← onck (sys_close_fd file_fd);
        _ ← oncl (objm_server_send_error (rq_id req) OBJM_STATUS_STORAGE_ERROR (Some (bs "fstat failed" ++ [x00])));
        mret ()
    | Some st =>
        s ← get;
        m ← build_metadata (st_size st) (mtime (cl_k s) file_fd);
        let fdpass := bool_decide (rq_mode req = OBJM_MODE_FDPASS) in
        resp ← (if fdpass then mret (Response (rq_id req) OBJM_STATUS_OK file_fd 0 m.1 m.2 None)
                else _ ← onck (sys_close_fd file_fd);
                     mret (Response (rq_id req) OBJM_STATUS_OK (-1) (u64 (st_size st)) m.1 m.2 None));
        _ ← oncl (objm_server_send_response (Some resp));
        if fdpass then onck (sys_close_fd file_fd) else mret ()
    end.

(** [while (1)]: every request takes bytes from the connection. *)
Fixpoint serve_requests (fuel : nat) : M client () :=
  match fuel with
  | O => block
  | S fuel =>
      r ← oncl (objm_server_recv_request true);
      match r with
      | (ret, req) =>
          if ret <? 0 then mret ()
          else if ret =? 1 then _ ← oncl (objm_server_send_close_ack 0); mret ()
          else
            req ← deref req;
            _ ← handle_request req;
            serve_requests fuel
      end
  end.

Definition handle_client (client_fd : Z) : M client () :=
  conn ← oncl (onep (objm_server_create client_fd));
  match conn with
  | None => mret ()
  | Some conn =>
      _ ← use_conn conn;
      r ← oncl (objm_server_handshake (example_hello 3) true);
      if r.1 <? 0 then oncl objm_server_destroy
      else
        params ← deref r.2;
        _ ← show_capabilities params;
        s ← get;
        _ ← serve_requests (S (length (rx (ep (cl_l s)))));
        oncl objm_server_destroy
  end.

(** The accept loop of [main]: it goes on until [accept] fails. *)
Fixpoint serve_clients (fuel : nat) (server_fd : Z) (clients : list endpoint) : M client () :=
  match fuel with
  | O => block
  | S fuel =>
      a ← onck (sys_accept_next clients);
      match a with
      | inr EINTR => serve_clients fuel server_fd clients
      | inr _ => mret ()
      | inl (client_fd, (e, clients)) =>
          _ ← modify (fun s => Client (cl_k s) (Link e None));
          _ ← handle_client client_fd;
          _ ← onck (sys_close_fd client_fd);
          serve_clients fuel server_fd clients
      end
  end.

(** [argv] without the program's name. *)
Definition example_server_main (argv : list (list byte)) (clients : list endpoint) : M client Z :=
  match argv with
  | [] => mret 1
  | socket_path :: _ =>
      server_fd ← onck (create_server_socket socket_path);
      if server_fd <? 0 then mret 1
      else
        s ← get;
        _ ← serve_clients (S (length clients + length (sched (cl_k s)))) server_fd clients;
        _ ← onck (sys_close_fd server_fd);
        _ ← onck (sys_unlink socket_path);
        mret 0
  end.
End Server.

(** ** Client *)

(** What is printed of a metadata entry: type, length and, for a size or a backend,
    the value. *)
Record shown_entry := Shown { sh_type : Z; sh_length : Z; sh_value : option Z }.

Definition show_entry (e : objm_metadata_entry_t) : shown_entry :=
  Shown (me_type e) (me_length e)
    (if (me_type e =? OBJM_META_SIZE) && (me_length e =? 8) then Some (be_val (take 8 (me_data e)))
     else if (me_type e =? OBJM_META_BACKEND) && (me_length e =? 1) then Some (bz (buf_at (me_data e) 0))
     else None).

(** What is printed of a response. *)
Record report := Report {
  rp_id : Z;
  rp_status : Z;
  rp_file_size : option Z;      (* "File size", behind a received descriptor *)
  rp_content_len : option Z;    (* "Content length" *)
  rp_metadata : list shown_entry
}.

Section Client.
Variable dir_end : Z.

Definition show_metadata (resp : objm_response_t) : M client (list shown_entry) :=
  if 0 <? rs_metadata_len resp then
    r ← oncl (onep (objm_metadata_parse (rs_metadata resp) (rs_metadata_len resp)));
    if r.1 =? 0 then mret (show_entry <$> r.2) else mret []
  else mret [].

Definition show_response (resp : objm_response_t) : M client report :=
  if rs_status resp =? OBJM_STATUS_OK then
    size ← (if 0 <=? rs_fd resp then
              n ← onck (sys_seek_end dir_end (rs_fd resp)); mret (if 0 <=? n then Some n else None)
            else mret None);
    md ← show_metadata resp;
    mret (Report (rs_request_id resp) (rs_status resp) size
      (if (rs_fd resp <? 0) && (0 <? rs_content_len resp) then Some (rs_content_len resp) else None) md)
  else mret (Report (rs_request_id resp) (rs_status resp) None None []).

(** Give up: destroy the connection, close the socket, exit with 1. *)
Definition give_over {A} (sock : Z) : M client (option A) :=
  _ ← oncl objm_client_destroy;
  _ ← onck (sys_close_fd sock);
  mret None.

Definition example_req (uri : list byte) (mode : byte) : objm_request_t :=
  Request 1 0 mode (uri ++ [x00]) (Z.of_nat (length uri)).

(** Receive the response, show it, free it. *)
Definition take_response (sock : Z) : M client (option report) :=
  r ← oncl (objm_client_recv_response true);
  if r.1 <? 0 then give_over sock
  else
    resp ← deref r.2;
    rep ← show_response resp;
    _ ← oncl (onep (objm_response_free (Some resp)));
    mret (Some rep).

(** From the new socket to the freed response; [None] is exit status 1. *)
Definition example_session (sock : Z) (uri : list byte) (mode : byte) : M client (option report) :=
  conn ← oncl (onep (objm_client_create sock OBJM_PROTO_V2));
  match conn with
  | None => _ ← onck (sys_close_fd sock); mret None
  | Some conn =>
      _ ← use_conn conn;
      r ← oncl (objm_client_hello (example_hello 0) true);
      if r.1 <? 0 then give_over sock
      else
        params ← deref r.2;
        _ ← show_capabilities params;
        ret ← oncl (objm_client_send_request (Some (example_req uri mode)));
        if ret <? 0 then give_over sock else take_response sock
  end.

(** Exit status and report; [argv] without the program's name. *)
Definition example_client_main (argv : list (list byte)) : M client (Z * option report) :=
  match argv with
  | socket_path :: uri :: more =>
      let mode := match more with a :: _ => buf_at (a ++ [x00]) 0 | [] => OBJM_MODE_FDPASS end in
      sock ← onck (connect_to_server socket_path);
      if sock <? 0 then mret (1, None)
      else
        r ← example_session sock uri mode;
        match r with
        | None => mret (1, None)
        | Some rep =>
            _ ← oncl (objm_client_close OBJM_CLOSE_NORMAL);
            _ ← oncl objm_client_destroy;
            _ ← onck (sys_close_fd sock);
            mret (0, Some rep)
        end
  | _ => mret (1, None)
  end.
End Client.
