(* ===== verification/ExampleProofs.v ===== *)
(** * ExampleProofs: a file fetched with the example client

    The example server on the bytes of the example client, and the example client
    on the answer: the client reports the size and the metadata of the file the URI
    names, or that there is none. *)

From S2P Require Import Prelude Socket Kernel KernelProofs Protocol ProtocolProofs Metadata ProtocolLimits Client System Transport ServerMain Example.

(** ** Files *)

Definition ino_of (n : node) : option Z := match n with Dir => None | File i => Some i end.
Definition stat_of (k : kernel) (n : node) : stat_result :=
  match n with Dir => StDir | File i => StReg (Z.of_nat (length (default [] (inodes k !! i)))) end.

(** The node a path names. *)
Definition named (k : kernel) (p : list byte) : option node := resolve k p ≫= node_at k.

Lemma open_rdonly p k n : willing k -> named k p = Some n ->
  sys_open p O_RDONLY false false k = Ret (lowest_free (fdtab k)) (with_ofd (Ofd (ino_of n) 0 true false) k).
Proof.
  intros [Hs _] Hn. unfold named in Hn. unfold sys_open, mbind, M_bind, refused, get. rewrite Hs. destruct (resolve k p) as [d|]; [|done].
  simpl in Hn. rewrite Hn. by destruct n.
Qed.
Lemma open_missing p k : willing k -> named k p = None -> sys_open p O_RDONLY false false k = Ret (-1) k.
Proof.
  intros [Hs _] Hn. unfold named in Hn. unfold sys_open, mbind, M_bind, refused, get. rewrite Hs. destruct (resolve k p) as [d|]; [|done].
  simpl in Hn. by rewrite Hn.
Qed.

Lemma with_ofd_willing e k : willing k -> willing (with_ofd e k).
Proof. done. Qed.
Lemma fdtab_willing f k : willing k -> willing (set_fdtab f k).
Proof. done. Qed.
#[export] Hint Resolve with_ofd_willing fdtab_willing : objm.

Lemma fstat_opened k n : willing k ->
  let k' := with_ofd (Ofd (ino_of n) 0 true false) k in sys_fstat (lowest_free (fdtab k)) k' = Ret (Some (stat_of k n)) k'.
Proof.
  intros [Hs _] k'. unfold sys_fstat, mbind, M_bind, refused, get.
  change (sched k') with (sched k). rewrite Hs. unfold k'. rewrite ofd_with_ofd. by destruct n.
Qed.

(** ** One side of the connection *)

(** Connection up, input [r], output [t]. *)
Record side (v : Z) (r t : list cell) (closed : bool) (c : client) : Prop := {
  sd_ready : ready v c;
  sd_rx : rx (ep (cl_l c)) = r;
  sd_tx : tx (ep (cl_l c)) = t;
  sd_closed : peer_closed (ep (cl_l c)) = closed
}.

Section Side.
Context (v : Z) (r t : list cell) (closed : bool) (c : client).
Context (Hc : side v r t closed c).

(** A call on files. *)
Lemma side_kernel k : willing k -> side v r t closed (Client k (cl_l c)).
Proof using Hc. intros Hk. destruct Hc as [[H1 H2 H3] H4 H5 H6]. by split. Qed.

(** What a call of the library leaves, when it keeps descriptors and allocator. *)
Lemma side_after r' t' e :
  fdt e = fdtab (cl_k c) -> oom e = k_oom (cl_k c) -> rx e = r' -> tx e = t' -> peer_closed e = closed ->
  rd_sched e `suffix_of` rd_sched (ep (cl_l c)) -> wr_sched e `suffix_of` wr_sched (ep (cl_l c)) ->
  cl_k (cl_out (Link e (cn (cl_l c))) c) = cl_k c /\ side v r' t' closed (cl_out (Link e (cn (cl_l c))) c).
Proof using Hc.
  intros E1 E2 E3 E4 E5 S1 S2. rewrite cl_out_same by done. split; [done|]. destruct Hc as [[H1 [H2 H3] H4] H5 H6 H7].
  split; [|done..]. split; [done| |done]. split; simpl; eauto using quiet_suffix.
Qed.

Lemma side_send_response resp : wf_response (fdtab (cl_k c)) resp ->
  exists c', oncl (objm_server_send_response (Some resp)) c = Ret 0 c' /\ cl_k c' = cl_k c /\
    side v r (t ++ response_wire v (fdtab (cl_k c)) resp) closed c'.
Proof using Hc.
  intros Hwf. destruct (cl_in_ready v c (sd_ready _ _ _ _ _ Hc)) as [Hs Hq].
  destruct (send_response_ok v resp (cl_in c) Hs Hwf) as (w & Hr & Hw); [apply Hq|]. unfold oncl. rewrite Hr.
  eexists. split; [reflexivity|]. destruct Hc as [_ H5 H6 H7]. apply side_after; simpl; [done|done|done|by rewrite H6|done|done|exact Hw].
Qed.

Lemma side_send_error id status m : 0 <= id < 2 ^ 32 -> 0 < status < 2 ^ 8 -> c_string m [x00] ->
  exists c', oncl (objm_server_send_error id status (Some (m ++ [x00]))) c = Ret 0 c' /\ cl_k c' = cl_k c /\
    side v r (t ++ error_wire v id status m) closed c'.
Proof using Hc.
  intros Hid Hst Hm. destruct (cl_in_ready v c (sd_ready _ _ _ _ _ Hc)) as [Hs (Q1 & Q2 & Q3)].
  destruct (send_error_ok v id status m [x00] (cl_in c) Hs Q1 Q3 Hid Hst Hm) as (w & Hr & Hw). unfold oncl. rewrite Hr.
  eexists. split; [reflexivity|]. destruct Hc as [_ H5 H6 H7]. apply side_after; simpl; [done|done|done|by rewrite H6|done|done|exact Hw].
Qed.

Lemma side_send_request q : wf_request q ->
  exists c', oncl (objm_client_send_request (Some q)) c = Ret 0 c' /\ cl_k c' = cl_k c /\
    side v r (t ++ (plain <$> request_wire v q)) closed c'.
Proof using Hc.
  intros Hq. destruct (cl_in_ready v c (sd_ready _ _ _ _ _ Hc)) as [Hs Hcalm].
  destruct (send_request_ok v q (cl_in c) Hs Hq) as (w & Hr & Hw); [apply quiet_no_fail, Hcalm|]. unfold oncl. rewrite Hr.
  eexists. split; [reflexivity|]. destruct Hc as [_ H5 H6 H7]. apply side_after; simpl; [done|done|done|by rewrite H6|done|done|exact Hw].
Qed.

Lemma side_recv_request q rest : wf_request q -> r = (plain <$> request_wire v q) ++ rest ->
  exists c', oncl (objm_server_recv_request true) c = Ret (0, Some (as_received v q)) c' /\ cl_k c' = cl_k c /\ side v rest t closed c'.
Proof using Hc.
  intros Hq Hr0. destruct (cl_in_ready v c (sd_ready _ _ _ _ _ Hc)) as [Hs Hcalm].
  destruct (recv_request_ok v q rest (cl_in c) Hs Hq) as (w & Hr & Hw); [by apply healthy_readable, calm_healthy|by destruct Hc; simpl; congruence|].
  unfold oncl. rewrite Hr. eexists. split; [reflexivity|]. destruct Hc as [_ H5 H6 H7]. apply side_after; simpl; try done.
Qed.

(** A response, which may bring a descriptor. *)
Lemma side_recv_response f resp rest : wf_response f resp -> fd_discipline resp -> r = response_wire v f resp ++ rest ->
  let cells := fd_cells f resp in
  exists c', oncl (objm_client_recv_response true) c = Ret (0, Some (response_seen v resp (seen_fd (fdtab (cl_k c)) cells))) c' /\
    cl_k c' = set_fdtab (seen_fdt (fdtab (cl_k c)) cells) (cl_k c) /\ side v rest t closed c'.
Proof using Hc.
  intros Hwf Hd Hr0 cells. destruct (cl_in_ready v c (sd_ready _ _ _ _ _ Hc)) as [Hs Hcalm].
  destruct (recv_response_ok v f resp rest (cl_in c) Hs Hcalm Hwf Hd) as (w & Hr & Hw); [by destruct Hc; simpl; congruence|].
  unfold oncl. rewrite Hr. eexists. split; [reflexivity|]. destruct Hc as [[H1 [H2 H3] [H4 H4']] H5 H6 H7]. split.
  { unfold cl_out. simpl. by destruct (cl_k c). }
  split; simpl; [|done..]. split; simpl; [done| |done]. split; [by eapply quiet_suffix|done].
Qed.
End Side.

(** ** Metadata *)

Definition file_entries (size mt : Z) : list objm_metadata_entry_t :=
  [MetaEntry OBJM_META_SIZE 8 (be_bytes 8 size); MetaEntry OBJM_META_MTIME 8 (be_bytes 8 mt); MetaEntry OBJM_META_BACKEND 1 [zb 1]].

Lemma file_entries_wf size mt : Forall wf_entry (file_entries size mt) /\ length (enc_entries (file_entries size mt)) = 26%nat.
Proof. split; [|reflexivity]. unfold file_entries. rewrite !list.Forall_cons. unfold wf_entry. simpl. unfold OBJM_META_SIZE, OBJM_META_MTIME, OBJM_META_BACKEND. repeat split; try lia; constructor. Qed.

Lemma build_metadata_ok v r t b size mt c : side v r t b c ->
  exists j c', build_metadata size mt c = Ret (Some (enc_entries (file_entries size mt) ++ j), 26) c' /\ cl_k c' = cl_k c /\ side v r t b c'.
Proof.
  intros Hc. destruct (cl_in_ready v c (sd_ready _ _ _ _ _ Hc)) as [_ (_ & _ & Ho)].
  destruct (file_entries_wf size mt) as [Hwf Hlen].
  set (j := junk (ep (cl_l c))). exists (replicate 74 j). set (c' := cl_out (cl_in c) c). exists c'.
  assert (Hcr : oncl (onep (objm_metadata_create 100)) c = Ret (Some ([] ++ replicate 26 j ++ replicate 74 j)) c').
  { unfold oncl. rewrite (onep_create 100 (cl_in c) Ho) by lia. rewrite app_nil_l, <- replicate_add. reflexivity. }
  pose proof (add_entries_ok (file_entries size mt) [] (replicate 26 j) (replicate 74 j) c' Hwf) as Hadd.
  rewrite Hlen in Hadd. specialize (Hadd eq_refl ltac:(simpl; lia)). split.
  - unfold build_metadata. run Hcr. cbn [app] in Hadd |- *. rewrite ?Hlen in Hadd.
    cbn [add_entries file_entries me_type me_data me_length] in Hadd. minv Hadd. minv Hadd. minv Hadd. run Hadd0. run Hadd1.
    etrans; [exact Hadd2|]. etrans; [|exact Hadd]. by destruct a1.
  - destruct Hc as [Hr H5 H6 H7]. apply (side_after v r t b); try done.
Qed.

(** ** The server's answer *)

Definition fdpass (mode : byte) : bool := bool_decide (mode = OBJM_MODE_FDPASS).

(** A response about a file of [size] bytes; [o] is the description it passes. *)
Record answers (id : Z) (mode : byte) (size mt o : Z) (f : gmap Z Z) (resp : objm_response_t) : Prop := {
  an_wf : wf_response f resp;
  an_cells : fd_cells f resp = if fdpass mode then [Cell "X"%byte (Some o)] else [];
  an_seen : forall fd, response_seen OBJM_PROTO_V2 resp fd =
    Response id OBJM_STATUS_OK fd (if fdpass mode then 0 else size) (Some (enc_entries (file_entries size mt))) 26 None;
  an_fd : fdpass mode = true \/ 0 < size -> fd_discipline resp
}.

Lemma file_response_answers id mode size mt o f fd j :
  0 <= id < 2 ^ 32 -> 0 <= size < 2 ^ 64 -> 0 <= fd -> (fdpass mode = true -> f !! fd = Some o) ->
  answers id mode size mt o f
    (Response id OBJM_STATUS_OK (if fdpass mode then fd else -1) (if fdpass mode then 0 else size)
       (Some (enc_entries (file_entries size mt) ++ j)) 26 None).
Proof.
  intros Hid Hsz Hfd Hf. destruct (file_entries_wf size mt) as [_ Hlen]. unfold OBJM_STATUS_OK. split.
  - unfold wf_response. cbn [rs_request_id rs_status rs_metadata_len rs_content_len rs_metadata rs_fd]. split; [lia|]. split; [lia|].
    split; [destruct (fdpass mode); lia|]. split; [lia|]. split.
    + intros _. exists (enc_entries (file_entries size mt)), j. split; [done|]. by rewrite Hlen.
    + intros _. destruct (fdpass mode); [by rewrite Hf|lia].
  - unfold fd_cells. cbn [rs_status rs_fd]. destruct (fdpass mode); [|done]. rewrite (proj2 (Z.leb_le _ _) Hfd). by rewrite (Hf eq_refl).
  - intros fd'. unfold response_seen, meta_bytes. cbn [rs_request_id rs_status rs_metadata_len rs_content_len rs_metadata rs_fd].
    change (0 <? 26) with true. cbn iota. change (Z.to_nat 26) with 26%nat. rewrite <- Hlen, take_app_length. done.
  - intros Hd _. cbn [rs_content_len rs_fd]. destruct (fdpass mode); [|destruct Hd; [done|]]; lia.
Qed.

(** The end of the handler: the response goes out and the file is closed. *)
Lemma respond_and_close r t b c id mode size mt fd o j :
  side OBJM_PROTO_V2 r t b c -> 0 <= id < 2 ^ 32 -> 0 <= size < 2 ^ 64 -> 0 <= fd -> fdtab (cl_k c) !! fd = Some o ->
  let md := Some (enc_entries (file_entries size mt) ++ j) in
  exists c' f resp,
    (resp ← (if fdpass mode then mret (Response id OBJM_STATUS_OK fd 0 md 26 None)
             else _ ← onck (sys_close_fd fd); mret (Response id OBJM_STATUS_OK (-1) (u64 size) md 26 None));
     _ ← oncl (objm_server_send_response (Some resp));
     if fdpass mode then onck (sys_close_fd fd) else mret ()) c = Ret () c' /\
    cl_k c' = set_fdtab (delete fd (fdtab (cl_k c))) (cl_k c) /\
    side OBJM_PROTO_V2 r (t ++ response_wire OBJM_PROTO_V2 f resp) b c' /\ answers id mode size mt o f resp.
Proof.
  intros Hc Hid Hsz Hfd Ho md. pose proof (rd_willing _ _ (sd_ready _ _ _ _ _ Hc)) as Hw.
  pose proof (file_response_answers id mode size mt o) as Ha. destruct (fdpass mode) eqn:Em.
  - specialize (Ha (fdtab (cl_k c)) fd j Hid Hsz Hfd (fun _ => Ho)). rewrite bind_ret_l.
    destruct (side_send_response _ _ _ _ _ Hc _ (an_wf _ _ _ _ _ _ _ Ha)) as (c1 & Hr & Hk & Hs). run Hr.
    eexists _, _, _. split; [unfold onck, sys_close_fd, modify; rewrite Hk; reflexivity|]. split; [done|]. split; [|exact Ha].
    apply (side_kernel _ _ _ _ _ Hs). by apply fdtab_willing.
  - rewrite bind_assoc. rewrite u64_small by lia.
    set (c0 := Client (set_fdtab (delete fd (fdtab (cl_k c))) (cl_k c)) (cl_l c)).
    assert (Hc0 : side OBJM_PROTO_V2 r t b c0) by (apply (side_kernel _ _ _ _ _ Hc); by apply fdtab_willing).
    run (eq_refl : onck (sys_close_fd fd) c = Ret () c0). rewrite bind_ret_l.
    specialize (Ha (fdtab (cl_k c0)) fd j Hid Hsz Hfd ltac:(done)).
    destruct (side_send_response _ _ _ _ _ Hc0 _ (an_wf _ _ _ _ _ _ _ Ha)) as (c1 & Hr & Hk & Hs). run Hr.
    exists c1. eexists _, _. split; [done|]. split; [done|]. by split.
Qed.

Section Server.
Context (msg : list byte) (dir_size : Z) (mtime : kernel -> Z -> Z).
Context (Hmsg : c_string msg [x00]).

Lemma handle_request_missing r t b c id fl mode uri len :
  side OBJM_PROTO_V2 r t b c -> 0 <= id < 2 ^ 32 -> no_nul uri -> named (cl_k c) uri = None ->
  exists c', handle_request (msg ++ [x00]) dir_size mtime (Request id fl mode (uri ++ [x00]) len) c = Ret () c' /\ cl_k c' = cl_k c /\
    side OBJM_PROTO_V2 r (t ++ error_wire OBJM_PROTO_V2 id OBJM_STATUS_NOT_FOUND msg) b c'.
Proof using Hmsg.
  intros Hc Hid Hu Hn. unfold handle_request. cbn [rq_uri rq_id rq_mode]. rewrite (c_str_app_nul uri []) by done.
  run (onck_Ret _ _ _ _ (open_missing _ _ (rd_willing _ _ (sd_ready _ _ _ _ _ Hc)) Hn)). cbn [Z.ltb Z.compare].
  pose proof (side_kernel _ _ _ _ _ Hc _ (rd_willing _ _ (sd_ready _ _ _ _ _ Hc))) as Hc1.
  destruct (side_send_error _ _ _ _ _ Hc1 id OBJM_STATUS_NOT_FOUND msg Hid ltac:(unfold OBJM_STATUS_NOT_FOUND; lia) Hmsg) as (c' & Hr & Hk & Hs).
  run Hr. by exists c'.
Qed.

Lemma handle_request_found r t b c id fl mode uri len n :
  side OBJM_PROTO_V2 r t b c -> 0 <= id < 2 ^ 32 -> no_nul uri -> named (cl_k c) uri = Some n ->
  let size := st_size dir_size (stat_of (cl_k c) n) in let o := fresh_id (ofds (cl_k c)) in 0 <= size < 2 ^ 64 ->
  exists c' mt f resp, handle_request (msg ++ [x00]) dir_size mtime (Request id fl mode (uri ++ [x00]) len) c = Ret () c' /\
    cl_k c' = set_ofds (<[o:=Ofd (ino_of n) 0 true false]> (ofds (cl_k c))) (cl_k c) /\
    side OBJM_PROTO_V2 r (t ++ response_wire OBJM_PROTO_V2 f resp) b c' /\ answers id mode size mt o f resp.
Proof.
  intros Hc Hid Hu Hn size o Hsz. pose proof (rd_willing _ _ (sd_ready _ _ _ _ _ Hc)) as Hw.
  unfold handle_request. cbn [rq_uri rq_id rq_mode]. rewrite (c_str_app_nul uri []) by done.
  run (onck_Ret _ _ _ _ (open_rdonly _ _ n Hw Hn)). rewrite (proj2 (Z.ltb_ge _ _) (lowest_free_nonneg _)).
  set (fd := lowest_free (fdtab (cl_k c))). set (k1 := with_ofd (Ofd (ino_of n) 0 true false) (cl_k c)).
  assert (Hc1 : side OBJM_PROTO_V2 r t b (Client k1 (cl_l c))) by (apply (side_kernel _ _ _ _ _ Hc); auto with objm).
  run (onck_Ret (sys_fstat fd) _ k1 (Client k1 (cl_l c)) (fstat_opened (cl_k c) n Hw)).
  rewrite (bind_Ret get _ _ _ _ eq_refl). cbn [cl_k].
  destruct (build_metadata_ok _ _ _ _ size (mtime k1 fd) _ Hc1) as (j & c2 & Hb & Hk2 & Hc2). cbn [cl_k] in Hk2. run Hb. cbn [fst snd].
  fold (fdpass mode).
  assert (Ho : fdtab (cl_k c2) !! fd = Some o) by (rewrite Hk2; unfold k1, with_ofd; simpl; apply lookup_insert_eq).
  destruct (respond_and_close _ _ _ c2 id mode size (mtime k1 fd) fd o j Hc2 Hid Hsz (lowest_free_nonneg _) Ho)
    as (c' & f & resp & Hr & Hk & Hs & Ha).
  exists c', (mtime k1 fd), f, resp. split; [exact Hr|]. split; [|done]. rewrite Hk, Hk2. unfold k1, with_ofd, set_fdtab, set_ofds. simpl.
  unfold fd. by rewrite delete_lowest_free.
Qed.
End Server.

(** ** Handshakes *)

(** A socket with input [r] and output [t], whatever the connection object. *)
Record socket_side (r t : list cell) (closed : bool) (c : client) : Prop := {
  so_quiet : quiet (rd_sched (ep (cl_l c))) /\ quiet (wr_sched (ep (cl_l c)));
  so_willing : willing (cl_k c);
  so_rx : rx (ep (cl_l c)) = r;
  so_tx : tx (ep (cl_l c)) = t;
  so_closed : peer_closed (ep (cl_l c)) = closed
}.

(** A call of the library that leaves the rest as it is. *)
Lemma socket_after r t r' t' b c e cn' : socket_side r t b c -> steady (ep (cl_in c)) e -> rx e = r' -> tx e = t' ->
  cl_k (cl_out (Link e cn') c) = cl_k c /\ socket_side r' t' b (cl_out (Link e cn') c).
Proof.
  intros [[Q1 Q2] Hw H1 H2 H3] [S1 S2 S3 S4 S5] E1 E2. rewrite cl_out_same by done. split; [done|].
  split; simpl; [|done|done|done|simpl in S3; congruence]. split; eapply quiet_suffix; eauto.
Qed.

Lemma socket_calm r t b c cn' : socket_side r t b c -> calm (Link (ep (cl_in c)) cn').
Proof. intros [[Q1 Q2] [_ Hw] _ _ _]. by split. Qed.

Lemma steady_refl e : steady e e.
Proof. by split. Qed.

(** Creating a connection object and letting [conn] point to it. *)
Lemma socket_pure {A} r t b c (m : M endpoint A) x : socket_side r t b c -> (forall e, oom e = [] -> m e = Ret x e) ->
  exists c', oncl (onep m) c = Ret x c' /\ cl_k c' = cl_k c /\ socket_side r t b c'.
Proof.
  intros Hc Hm. unfold oncl, onep. rewrite Hm by apply (so_willing _ _ _ _ Hc). eexists. split; [done|].
  apply (socket_after r t); [done|apply steady_refl|apply Hc|apply Hc].
Qed.
Lemma socket_use_conn r t b c conn : socket_side r t b c ->
  exists c', use_conn conn c = Ret () c' /\ cl_k c' = cl_k c /\ socket_side r t b c' /\ cn (cl_l c') = Some conn.
Proof.
  intros Hc. unfold use_conn, oncl, modify. eexists. split; [done|]. destruct (socket_after r t r t b c (ep (cl_in c)) (Some conn)) as [H1 H2];
    [done|apply steady_refl|apply Hc|apply Hc|]. split; [exact H1|]. split; [exact H2|done].
Qed.

Lemma server_create_pure fd e : oom e = [] ->
  objm_server_create fd e = Ret (Some (Connection fd 0 (Params 0 0 0 0) true 0 None 0 (Callbacks 0 0 0 0) 0 [])) e.
Proof. intros Ho. unfold objm_server_create, sys_alloc, mbind, M_bind. by rewrite Ho. Qed.
Lemma client_create_pure fd v e : oom e = [] ->
  objm_client_create fd v e = Ret (Some (Connection fd v (Params v 0 1 0) false 1 None 0 (Callbacks 0 0 0 0) 0 [])) e.
Proof. intros Ho. unfold objm_client_create, sys_alloc, mbind, M_bind. by rewrite Ho. Qed.

(** The console message about the capabilities. *)
Lemma show_capabilities_ok p c : show_capabilities p c = Ret () c.
Proof.
  unfold show_capabilities. rewrite (bind_Ret get _ _ _ _ eq_refl).
  destruct (capability_names_text (pa_capabilities p) (replicate 256 (junk (ep (cl_l c)))) c) as (buf & H & _).
  { rewrite length_replicate. lia. }
  rewrite length_replicate in H. by run H.
Qed.

Lemma socket_speaks r t b c conn : socket_side r t b c -> cn (cl_l c) = Some conn -> cn_version conn = OBJM_PROTO_V2 -> side OBJM_PROTO_V2 r t b c.
Proof. intros [Q W H1 H2 H3] Hc Hv. split; [|done..]. split; [|done..]. split; [by right|]. by exists conn. Qed.

(** What both ends agree on. *)
Definition agreed : objm_params_t := negotiate (example_hello 3) 3 100.

Lemma example_hello_wf p : 0 <= p < 2 ^ 8 -> wf_hello (example_hello p).
Proof. intros Hp. unfold wf_hello. cbn [example_hello he_capabilities he_max_pipeline he_backend_parallelism]. change (Z.lor _ _) with 3. lia. Qed.

Lemma server_handshake_side rest t b c conn :
  socket_side ((plain <$> hello_msg (example_hello 0)) ++ rest) t b c -> cn (cl_l c) = Some conn -> cn_is_server conn = true ->
  exists c', oncl (objm_server_handshake (example_hello 3) true) c = Ret (0, Some agreed) c' /\ cl_k c' = cl_k c /\
    side OBJM_PROTO_V2 rest (t ++ (plain <$> ack_msg agreed)) b c'.
Proof.
  intros Hc Hcn Hs. pose proof (socket_calm _ _ _ _ (Some conn) Hc) as Hcalm.
  destruct (server_handshake_ok (example_hello 3) (example_hello 0) rest conn (ep (cl_in c)) Hs Hcalm) as (e & Hr & Ht & Hx & Hst).
  { apply example_hello_wf. lia. } { apply Hc. }
  unfold oncl. replace (cl_in c) with (Link (ep (cl_in c)) (Some conn)) by (unfold cl_in; simpl; by rewrite Hcn). rewrite Hr.
  eexists. split; [done|]. destruct (socket_after _ t rest (t ++ (plain <$> ack_msg agreed)) b c e
    (Some (set_version OBJM_PROTO_V2 (set_params agreed conn))) Hc Hst Hx) as [H1 H2].
  { rewrite Ht. simpl. by rewrite (so_tx _ _ _ _ Hc). }
  split; [exact H1|]. eapply socket_speaks; [exact H2|done|done].
Qed.

Lemma client_hello_side rest t b c conn :
  socket_side ((plain <$> ack_msg agreed) ++ rest) t b c -> cn (cl_l c) = Some conn -> cn_version conn = OBJM_PROTO_V2 ->
  exists c', oncl (objm_client_hello (example_hello 0) true) c = Ret (0, Some agreed) c' /\ cl_k c' = cl_k c /\
    side OBJM_PROTO_V2 rest (t ++ (plain <$> hello_msg (example_hello 0))) b c'.
Proof.
  intros Hc Hcn Hv. pose proof (socket_calm _ _ _ _ (Some conn) Hc) as Hcalm.
  destruct (client_hello_ok (example_hello 0) agreed rest conn (ep (cl_in c)) Hv Hcalm) as (e & conn' & Hr & Ht & Hx & _ & Hv' & _ & Hst).
  { apply negotiate_wf; [apply example_hello_wf|..]; lia. } { apply Hc. }
  unfold oncl. replace (cl_in c) with (Link (ep (cl_in c)) (Some conn)) by (unfold cl_in; simpl; by rewrite Hcn). rewrite Hr.
  eexists. split; [done|]. destruct (socket_after _ t rest (t ++ (plain <$> hello_msg (example_hello 0))) b c e (Some conn') Hc Hst Hx) as [H1 H2].
  { rewrite Ht. simpl. by rewrite (so_tx _ _ _ _ Hc). }
  split; [exact H1|]. eapply socket_speaks; [exact H2|done|done].
Qed.

(** The end of the input, behind less than a header. *)
Lemma side_eof rest t c : (length rest < 9)%nat -> side OBJM_PROTO_V2 rest t true c ->
  exists c', oncl (objm_server_recv_request true) c = Ret (-1, None) c' /\ cl_k c' = cl_k c /\ tx (ep (cl_l c')) = t.
Proof.
  intros Hlen Hc. destruct (cl_in_ready _ _ (sd_ready _ _ _ _ _ Hc)) as [[_ (conn & Hcn & Hv)] (Q1 & Q2 & Ho)].
  assert (Heof : exists l w, onep (recv_all 9) (cl_in c) = Ret None (Link (set_rx l w (ep (cl_in c))) (cn (cl_in c)))).
  { unfold onep. destruct Hc as [_ Hrx _ Hcl]. destruct (recv_all_spec 9 (ep (cl_in c))) as [w Hx _|k w _ _|Hp _].
    - simpl in Hx. rewrite Hrx in Hx. lia.
    - by eexists _, w.
    - simpl in Hp. congruence. }
  destruct Heof as (l & w & Hw).
  assert (Hr : objm_server_recv_request true (cl_in c) = Ret (-1, None) (Link (set_rx l w (ep (cl_in c))) (cn (cl_in c)))).
  { unfold objm_server_recv_request. run (get_cn_eq (cl_in c)). rewrite Hcn. cbn [negb]. run (onep_alloc (cl_in c) Ho). rewrite Hv. cbn [negb].
    change (OBJM_PROTO_V2 =? OBJM_PROTO_V1) with false. cbn iota. run Hw. by rewrite Hcn. }
  unfold oncl. rewrite Hr. eexists. split; [done|]. rewrite cl_out_same by done. split; [done|]. simpl. apply Hc.
Qed.

(** ** The whole exchange *)

(** The bytes of the client's side: greeting and request. *)
Definition client_bytes (uri : list byte) (mode : byte) : list cell :=
  (plain <$> hello_msg (example_hello 0)) ++ (plain <$> request_wire OBJM_PROTO_V2 (example_req uri mode)).

Section Exchange.
Context (msg : list byte) (dir_size dir_end : Z) (mtime : kernel -> Z -> Z).

(** The size [stat] gives for what [uri] names. *)
Definition uri_size (k : kernel) (uri : list byte) : option Z := (fun n => st_size dir_size (stat_of k n)) <$> named k uri.

(** The report the user is to see. *)
Definition expected_report (k : kernel) (uri : list byte) (mode : byte) : report :=
  match named k uri with
  | None => Report 1 OBJM_STATUS_NOT_FOUND None None []
  | Some n =>
      let size := st_size dir_size (stat_of k n) in
      let file_end := st_size dir_end (stat_of k n) in
      Report 1 OBJM_STATUS_OK
        (if fdpass mode then if 0 <=? file_end then Some file_end else None else None)
        (if fdpass mode then None else Some size)
        [Shown OBJM_META_SIZE 8 (Some size); Shown OBJM_META_MTIME 8 None; Shown OBJM_META_BACKEND 1 (Some 1)]
  end.

(** Sizes are of their C type; without descriptor passing the file is not empty. *)
Definition fetchable (k : kernel) (uri : list byte) (mode : byte) : Prop :=
  forall size, uri_size k uri = Some size -> 0 <= size < 2 ^ 64 /\ (fdpass mode = true \/ 0 < size).

(** *** The client's side *)

(** Files and descriptors as before, output [t]. *)
Definition undisturbed (t : list cell) (c c' : client) : Prop :=
  fdtab (cl_k c') = fdtab (cl_k c) /\ names (cl_k c') = names (cl_k c) /\ inodes (cl_k c') = inodes (cl_k c) /\ tx (ep (cl_l c')) = t.

Lemma show_metadata_ok r t b c id st fd cl size mt : side OBJM_PROTO_V2 r t b c -> 0 <= size < 2 ^ 64 ->
  exists c', show_metadata (Response id st fd cl (Some (enc_entries (file_entries size mt))) 26 None) c =
      Ret [Shown OBJM_META_SIZE 8 (Some size); Shown OBJM_META_MTIME 8 None; Shown OBJM_META_BACKEND 1 (Some 1)] c' /\
    cl_k c' = cl_k c /\ side OBJM_PROTO_V2 r t b c'.
Proof.
  intros Hc Hsz. destruct (file_entries_wf size mt) as [Hwf Hlen]. destruct (cl_in_ready _ _ (sd_ready _ _ _ _ _ Hc)) as [_ (_ & _ & Ho)].
  assert (Hp : oncl (onep (objm_metadata_parse (Some (enc_entries (file_entries size mt))) 26)) c = Ret (0, file_entries size mt) (cl_out (cl_in c) c)).
  { unfold oncl, onep. rewrite (metadata_parse_ok _ 26 (file_entries size mt) (ep (cl_in c)) Ho).
    - by destruct (cl_in c).
    - by rewrite Hlen.
    - rewrite <- Hlen, firstn_all, <- (app_nil_r (enc_entries _)). apply parses_enc; [done|]. left. simpl. lia. }
  unfold show_metadata. cbn [rs_metadata rs_metadata_len]. change (0 <? 26) with true. cbn iota. run Hp. cbn [fst snd Z.eqb].
  eexists. split.
  - cbn [fmap list_fmap file_entries]. unfold show_entry. cbn [me_type me_length me_data].
    change (take 8 (be_bytes 8 size)) with (be_bytes 8 size). rewrite be_val_bytes, Z.mod_small by (simpl; lia). reflexivity.
  - destruct Hc as [Hr H5 H6 H7]. by apply (side_after OBJM_PROTO_V2 r t b).
Qed.

(** Freeing a response closes the descriptor it brought. *)
Lemma free_response r t b c resp : side OBJM_PROTO_V2 r t b c ->
  exists c', oncl (onep (objm_response_free (Some resp))) c = Ret () c' /\ tx (ep (cl_l c')) = t /\
    cl_k c' = if 0 <=? rs_fd resp then set_fdtab (delete (rs_fd resp) (fdtab (cl_k c))) (cl_k c) else cl_k c.
Proof.
  intros Hc. destruct (0 <=? rs_fd resp) eqn:E.
  - destruct (response_free_ok resp c ltac:(lia)) as (l & Hr & _ & Ht & _). eexists. split; [exact Hr|]. split; [|done]. simpl. rewrite Ht. apply Hc.
  - unfold oncl, onep, objm_response_free. rewrite E. simpl. eexists. split; [reflexivity|]. unfold cl_out. simpl. split; [apply Hc|].
    by destruct (cl_k c).
Qed.

Lemma take_response_missing t b c sock : c_string msg [x00] ->
  side OBJM_PROTO_V2 (error_wire OBJM_PROTO_V2 1 OBJM_STATUS_NOT_FOUND msg) t b c ->
  exists c', take_response dir_end sock c = Ret (Some (Report 1 OBJM_STATUS_NOT_FOUND None None [])) c' /\ undisturbed t c c'.
Proof.
  intros Hm Hc. destruct (error_response_wf 1 OBJM_STATUS_NOT_FOUND msg [x00] [] ∅ ltac:(lia) ltac:(unfold OBJM_STATUS_NOT_FOUND; lia) Hm)
    as (Hwf & Hd & Hcells & _).
  destruct (side_recv_response _ _ _ _ _ Hc ∅ _ [] Hwf Hd) as (c1 & Hr & Hk & Hs); [by rewrite app_nil_r|]. rewrite Hcells in Hr, Hk.
  unfold take_response. run Hr. cbn [fst snd Z.ltb Z.compare]. rewrite deref_bind.
  set (resp := response_seen _ _ _). assert (Hsh : show_response dir_end resp c1 = Ret (Report 1 OBJM_STATUS_NOT_FOUND None None []) c1) by done.
  run Hsh. destruct (free_response _ _ _ c1 resp Hs) as (c2 & Hf & Ht & Hk2). run Hf. exists c2. split; [done|].
  unfold undisturbed. rewrite Hk2. cbn [resp response_seen rs_fd seen_fd Z.leb Z.compare]. by rewrite Hk.
Qed.

Lemma seek_end_ok k fd o n : fdtab k !! fd = Some o -> ofds k !! o = Some (Ofd (ino_of n) 0 true false) ->
  exists k', sys_seek_end dir_end fd k = Ret (st_size dir_end (stat_of k n)) k' /\
    fdtab k' = fdtab k /\ names k' = names k /\ inodes k' = inodes k /\ (willing k -> willing k').
Proof.
  intros Hf Ho. unfold sys_seek_end. rewrite (proj2 (ofd_of_Some _ _ _ _) (conj Hf Ho)). destruct n as [|i]; simpl; eauto 10.
Qed.

Lemma take_response_found t b c sock mode size mt o f resp n :
  answers 1 mode size mt o f resp -> fdpass mode = true \/ 0 < size -> 0 <= size < 2 ^ 64 ->
  ofds (cl_k c) !! o = Some (Ofd (ino_of n) 0 true false) -> side OBJM_PROTO_V2 (response_wire OBJM_PROTO_V2 f resp) t b c ->
  let file_end := st_size dir_end (stat_of (cl_k c) n) in
  exists c', take_response dir_end sock c = Ret (Some (Report 1 OBJM_STATUS_OK
        (if fdpass mode then if 0 <=? file_end then Some file_end else None else None) (if fdpass mode then None else Some size)
        [Shown OBJM_META_SIZE 8 (Some size); Shown OBJM_META_MTIME 8 None; Shown OBJM_META_BACKEND 1 (Some 1)])) c' /\ undisturbed t c c'.
Proof.
  intros Ha Hok Hsz Ho Hc file_end. pose proof (rd_willing _ _ (sd_ready _ _ _ _ _ Hc)) as Hw.
  destruct (side_recv_response _ _ _ _ _ Hc f resp [] (an_wf _ _ _ _ _ _ _ Ha) (an_fd _ _ _ _ _ _ _ Ha Hok)) as (c1 & Hr & Hk & Hs); [by rewrite app_nil_r|].
  rewrite (an_seen _ _ _ _ _ _ _ Ha), (an_cells _ _ _ _ _ _ _ Ha) in Hr. rewrite (an_cells _ _ _ _ _ _ _ Ha) in Hk.
  unfold take_response. run Hr. cbn [fst snd Z.ltb Z.compare]. rewrite deref_bind. unfold show_response. cbn [rs_status rs_fd rs_request_id rs_content_len].
  change (OBJM_STATUS_OK =? OBJM_STATUS_OK) with true. cbn iota. rewrite !bind_assoc.
  destruct (fdpass mode) eqn:Em; cbn [seen_fd seen_fdt] in *.
  - assert (Hfd : 0 <= lowest_free (fdtab (cl_k c))) by apply lowest_free_nonneg. set (fd := lowest_free (fdtab (cl_k c))) in *.
    rewrite (proj2 (Z.leb_le _ _) Hfd). rewrite !bind_assoc.
    destruct (seek_end_ok (cl_k c1) fd o n) as (k2 & Hseek & F1 & F2 & F3 & F4); [rewrite Hk; apply lookup_insert_eq|by rewrite Hk|].
    run (onck_Ret _ _ _ _ Hseek). rewrite bind_ret_l.
    assert (Hs2 : side OBJM_PROTO_V2 [] t b (Client k2 (cl_l c1))) by (apply (side_kernel _ _ _ _ _ Hs), F4; by rewrite Hk).
    destruct (show_metadata_ok _ _ _ _ 1 OBJM_STATUS_OK fd 0 size mt Hs2 Hsz) as (c3 & Hm & Hk3 & Hs3).
    rewrite !bind_assoc. run Hm. rewrite bind_ret_l. destruct (free_response _ _ _ c3 (Response 1 OBJM_STATUS_OK fd 0 (Some (enc_entries (file_entries size mt))) 26 None) Hs3) as (c4 & Hf & Ht & Hk4).
    run Hf. exists c4. split.
    + unfold file_end. rewrite Hk, (proj2 (Z.ltb_ge _ _) Hfd). done.
    + unfold undisturbed. rewrite Hk4. cbn [rs_fd]. rewrite (proj2 (Z.leb_le _ _) Hfd), Hk3. simpl. rewrite F1, F2, F3, Hk. simpl.
      unfold fd. by rewrite delete_lowest_free.
  - cbn [Z.leb Z.compare]. rewrite !bind_ret_l. destruct (show_metadata_ok _ _ _ _ 1 OBJM_STATUS_OK (-1) size size mt Hs Hsz) as (c3 & Hm & Hk3 & Hs3).
    rewrite !bind_assoc. run Hm. rewrite bind_ret_l. destruct (free_response _ _ _ c3 (Response 1 OBJM_STATUS_OK (-1) size (Some (enc_entries (file_entries size mt))) 26 None) Hs3) as (c4 & Hf & Ht & Hk4).
    run Hf. exists c4.
    destruct Hok as [Hok|Hok]; [done|]. split.
    + rewrite (proj2 (Z.ltb_lt _ _) Hok). done.
    + unfold undisturbed. rewrite Hk4. cbn [rs_fd Z.leb Z.compare]. by rewrite Hk3, Hk.
Qed.

(** *** The server's side *)

(** What the server answers about [uri]; [k'] is its kernel afterwards. *)
Inductive answered (k : kernel) (uri : list byte) (mode : byte) (k' : kernel) : list cell -> Prop :=
| AnsweredMissing : named k uri = None -> answered k uri mode k' (error_wire OBJM_PROTO_V2 1 OBJM_STATUS_NOT_FOUND msg)
| AnsweredFound n mt o f resp : named k uri = Some n -> answers 1 mode (st_size dir_size (stat_of k n)) mt o f resp ->
    ofds k' !! o = Some (Ofd (ino_of n) 0 true false) -> answered k uri mode k' (response_wire OBJM_PROTO_V2 f resp).

Lemma handle_request_answers r t b c uri mode len : c_string msg [x00] ->
  side OBJM_PROTO_V2 r t b c -> no_nul uri -> fetchable (cl_k c) uri mode ->
  exists c' cells, handle_request (msg ++ [x00]) dir_size mtime (Request 1 0 mode (uri ++ [x00]) len) c = Ret () c' /\
    side OBJM_PROTO_V2 r (t ++ cells) b c' /\ answered (cl_k c) uri mode (cl_k c') cells /\
    fdtab (cl_k c') = fdtab (cl_k c) /\ names (cl_k c') = names (cl_k c) /\ inodes (cl_k c') = inodes (cl_k c).
Proof.
  intros Hm Hc Hu Hf. destruct (named (cl_k c) uri) as [n|] eqn:Hn.
  - destruct (Hf (st_size dir_size (stat_of (cl_k c) n))) as [Hsz _]; [unfold uri_size; by rewrite Hn|].
    destruct (handle_request_found msg dir_size mtime r t b c 1 0 mode uri len n Hc ltac:(lia) Hu Hn Hsz) as (c' & mt & f & resp & Hr & Hk & Hs & Ha).
    exists c'. eexists. split; [exact Hr|]. split; [exact Hs|]. rewrite Hk. split; [|done].
    eapply AnsweredFound; [done|exact Ha|]. simpl. apply lookup_insert_eq.
  - destruct (handle_request_missing msg dir_size mtime Hm r t b c 1 0 mode uri len Hc ltac:(lia) Hu Hn) as (c' & Hr & Hk & Hs).
    exists c'. eexists. split; [exact Hr|]. split; [exact Hs|]. rewrite Hk. split; [by constructor|done].
Qed.

Lemma example_req_wf uri mode : Z.of_nat (length uri) <= OBJM_MAX_URI_LEN -> wf_request (example_req uri mode).
Proof. intros H. unfold wf_request, example_req. simpl. split; [lia|]. split; [lia|]. split; [lia|]. by exists uri. Qed.

Lemma handle_client_answers c uri mode rest fd : c_string msg [x00] -> (length rest < 9)%nat ->
  socket_side (client_bytes uri mode ++ rest) [] true c -> no_nul uri -> Z.of_nat (length uri) <= OBJM_MAX_URI_LEN -> fetchable (cl_k c) uri mode ->
  exists c' cells, handle_client (msg ++ [x00]) dir_size mtime fd c = Ret () c' /\
    undisturbed ((plain <$> ack_msg agreed) ++ cells) c c' /\ answered (cl_k c) uri mode (cl_k c') cells.
Proof.
  intros Hm Hlen Hc Hu Hl Hf. unfold client_bytes in Hc. rewrite <- app_assoc in Hc. unfold handle_client.
  destruct (socket_pure _ _ _ c _ _ Hc (server_create_pure fd)) as (c1 & H1 & K1 & Hc1). run H1.
  match goal with |- context [use_conn ?conn] => destruct (socket_use_conn _ _ _ c1 conn Hc1) as (c2 & H2 & K2 & Hc2 & Hcn) end. run H2.
  destruct (server_handshake_side _ _ _ c2 _ Hc2 Hcn eq_refl) as (c3 & H3 & K3 & Hc3). run H3. cbn [fst snd Z.ltb Z.compare].
  rewrite deref_bind. run (show_capabilities_ok agreed c3). rewrite (bind_Ret get _ _ _ _ eq_refl). rewrite (sd_rx _ _ _ _ _ Hc3).
  assert (Hk : cl_k c3 = cl_k c) by congruence.
  destruct (side_recv_request _ _ _ _ _ Hc3 (example_req uri mode) rest (example_req_wf uri mode Hl)) as (c4 & H4 & K4 & Hc4); [done|].
  rewrite Hk in K4. rewrite <- K4 in Hf |- *.
  destruct (handle_request_answers _ _ _ c4 uri mode (Z.of_nat (length uri)) Hm Hc4 Hu Hf) as (c5 & cells & H5 & Hc5 & Hans & E1 & E2 & E3).
  destruct (side_eof _ _ c5 Hlen Hc5) as (c6 & H6 & K6 & T6).
  set (n := length ((plain <$> request_wire OBJM_PROTO_V2 (example_req uri mode)) ++ rest)). destruct n as [|n'] eqn:En; [done|].
  assert (Hserve : serve_requests (msg ++ [x00]) dir_size mtime (S (S n')) c3 = Ret () c6).
  { cbn [serve_requests]. run H4. cbn [Z.ltb Z.compare Z.eqb]. rewrite deref_bind. unfold as_received. cbn [Z.eqb OBJM_PROTO_V2 OBJM_VERSION_2 OBJM_PROTO_V1 OBJM_VERSION_1 Pos.eqb].
    unfold example_req. run H5. run H6. done. }
  run Hserve. eexists _, cells. split; [reflexivity|]. unfold undisturbed. cbn [cl_out cl_k cl_l ep objm_server_destroy].
  rewrite <- K6 in Hans, E1, E2, E3. destruct (cl_k c6) eqn:E6. simpl in *. rewrite E6. simpl.
  split; [|]; [rewrite <- K4; done|]. done.
Qed.

Lemma stat_of_inodes k k' n : inodes k' = inodes k -> stat_of k' n = stat_of k n.
Proof. intros E. destruct n; simpl; by rewrite ?E. Qed.

(** The client on the server's bytes. *)
Lemma session_shows b c k k' uri mode sock cells : c_string msg [x00] ->
  answered k uri mode k' cells -> fetchable k uri mode -> Z.of_nat (length uri) <= OBJM_MAX_URI_LEN ->
  ofds (cl_k c) = ofds k' -> inodes (cl_k c) = inodes k -> socket_side ((plain <$> ack_msg agreed) ++ cells) [] b c ->
  exists c', example_session dir_end sock uri mode c = Ret (Some (expected_report k uri mode)) c' /\ undisturbed (client_bytes uri mode) c c'.
Proof.
  intros Hm Ha Hf Hl Hofd Hino Hc. unfold example_session.
  destruct (socket_pure _ _ _ c _ _ Hc (client_create_pure sock OBJM_PROTO_V2)) as (c1 & H1 & K1 & Hc1). run H1.
  match goal with |- context [use_conn ?conn] => destruct (socket_use_conn _ _ _ c1 conn Hc1) as (c2 & H2 & K2 & Hc2 & Hcn) end. run H2.
  destruct (client_hello_side _ _ _ c2 _ Hc2 Hcn eq_refl) as (c3 & H3 & K3 & Hc3). run H3. cbn [fst snd Z.ltb Z.compare].
  rewrite deref_bind. run (show_capabilities_ok agreed c3).
  destruct (side_send_request _ _ _ _ _ Hc3 (example_req uri mode) (example_req_wf uri mode Hl)) as (c4 & H4 & K4 & Hc4). run H4.
  cbn [Z.ltb Z.compare]. assert (Hk : cl_k c4 = cl_k c) by congruence. unfold undisturbed, expected_report. rewrite <- Hk. destruct Ha as [Hn|n mt o f resp Hn Ha Ho].
  - rewrite Hn. exact (take_response_missing _ _ _ _ Hm Hc4).
  - rewrite Hn. destruct (Hf (st_size dir_size (stat_of k n))) as [Hsz Hok]; [unfold uri_size; by rewrite Hn|].
    destruct (take_response_found _ _ _ sock mode _ mt o f resp n Ha Hok Hsz ltac:(by rewrite Hk, Hofd) Hc4) as (c5 & H5 & E).
    rewrite (stat_of_inodes k) in H5 by (by rewrite Hk). exists c5. split; [exact H5|exact E].
Qed.
End Exchange.

(** C24: Fetching with the example programs.  The example server runs on what the example
    client sends: HELLO, a request for [uri] in [mode], and then [rest], fewer than
    nine bytes (nothing, or the two bytes of the client's CLOSE), before the connection
    ends.  It returns from the client with its descriptors and all files as
    before; and on the bytes it sent, however both kernels split the transfers,
    the example client, up to its close, reports what [uri] names for the server: NOT_FOUND when there
    is nothing, otherwise OK with the size as metadata, and the size behind the
    passed descriptor or as content length, by the mode.  The client has written
    exactly HELLO and the request and is left with its descriptors and files.  A file asked for
    without descriptor passing must not be empty ([empty_copy_stalls]).  While the
    connection is open the close itself does not end ([example_close_hangs]). *)
Theorem example_fetch_reports msg dir_size dir_end mtime cs uri mode rest fd :
  c_string msg [x00] -> no_nul uri -> Z.of_nat (length uri) <= OBJM_MAX_URI_LEN -> fetchable dir_size (cl_k cs) uri mode ->
  (length rest < 9)%nat -> socket_side (client_bytes uri mode ++ rest) [] true cs ->
  exists cs' sent, handle_client (msg ++ [x00]) dir_size mtime fd cs = Ret () cs' /\ undisturbed sent cs cs' /\
    (forall cc sock b, socket_side sent [] b cc -> ofds (cl_k cc) = ofds (cl_k cs') -> inodes (cl_k cc) = inodes (cl_k cs') ->
     exists cc', example_session dir_end sock uri mode cc = Ret (Some (expected_report dir_size dir_end (cl_k cs) uri mode)) cc' /\
       undisturbed (client_bytes uri mode) cc cc').
Proof.
  intros Hm Hu Hl Hf Hlen Hs. destruct (handle_client_answers msg dir_size mtime cs uri mode rest fd Hm Hlen Hs Hu Hl Hf) as (cs' & cells & Hr & Hq & Ha).
  exists cs', ((plain <$> ack_msg agreed) ++ cells). split; [exact Hr|]. split; [exact Hq|]. intros cc sock b Hc Ho Hi.
  destruct Hq as (_ & _ & Hino & _). rewrite Hino in Hi. by eapply session_shows.
Qed.

(** ** A sample machine *)

(** A file of five bytes and an empty one. *)
Definition example_kernel : kernel :=
  Kernel {[ [bs "f"] := File 7; [bs "e"] := File 8 ]} {[ 7 := bs "hello"; 8 := [] ]} ∅ {[0 := 0; 1 := 1; 2 := 2; 3 := 3]} [] [] 0 [] [].
Definition example_side (r : list cell) (closed : bool) (k : kernel) : client :=
  Client k (Link (Endpoint r closed [] [] [] ∅ [] x00) None).

Lemma example_side_ok r b k : willing k -> socket_side r [] b (example_side r b k).
Proof. intros Hk. split; [split; constructor|exact Hk|reflexivity..]. Qed.

(** The client's CLOSE. *)
Definition close_bytes : list cell := plain <$> [zb OBJM_MSG_CLOSE; zb OBJM_CLOSE_NORMAL].

Lemma example_fetch_reports_witness :
  let cs := example_side (client_bytes (bs "/f") OBJM_MODE_FDPASS ++ close_bytes) true example_kernel in
  exists cs' sent, handle_client (bs "No such file" ++ [x00]) 4096 (fun _ _ => 9) 3 cs = Ret () cs' /\
    exists cc', example_session 0 3 (bs "/f") OBJM_MODE_FDPASS (example_side sent false (share example_kernel (cl_k cs'))) =
      Ret (Some (Report 1 OBJM_STATUS_OK (Some 5) None [Shown 1 8 (Some 5); Shown 2 8 None; Shown 5 1 (Some 1)])) cc'.
Proof.
  intros cs. destruct (example_fetch_reports (bs "No such file") 4096 0 (fun _ _ => 9) cs (bs "/f") OBJM_MODE_FDPASS close_bytes 3)
    as (cs' & sent & Hr & _ & Hc).
  - split; [reflexivity|vm_compute; reflexivity].
  - apply (bool_decide_unpack _). vm_compute. exact I.
  - vm_compute. discriminate.
  - intros size Hs. vm_compute in Hs. injection Hs as <-. split; [lia|by left].
  - simpl. lia.
  - split; simpl; try done; split; constructor.
  - exists cs', sent. split; [exact Hr|]. destruct (Hc (example_side sent false (share example_kernel (cl_k cs'))) 3 false) as (cc' & H & _).
    + apply example_side_ok. split; reflexivity.
    + reflexivity.
    + reflexivity.
    + exists cc'. exact H.
Defined.

(** The sample server and its state after a client. *)
Definition sample_serve : M client () := handle_client (bs "No such file" ++ [x00]) 4096 (fun _ _ => 9) 3.
Definition sample_served (uri : list byte) (mode : byte) : client :=
  let c := example_side (client_bytes uri mode) true example_kernel in default c (state_of (sample_serve c)).
(** A client that finds the server's answer. *)
Definition sample_client (uri : list byte) (mode : byte) : client :=
  let s := sample_served uri mode in example_side (tx (ep (cl_l s))) false (share example_kernel (cl_k s)).

(** Without descriptor passing an empty file is announced with content length 0,
    which the client takes for a descriptor to come: it waits, although the server
    has answered. *)
Theorem empty_copy_stalls :
  result_of (sample_serve (example_side (client_bytes (bs "/e") OBJM_MODE_COPY) true example_kernel)) = Some () /\
  example_session 0 3 (bs "/e") OBJM_MODE_COPY (sample_client (bs "/e") OBJM_MODE_COPY) = Blocked.
Proof. split; vm_compute; reflexivity. Qed.

(** Against the example server the example client never ends: its graceful close is
    two bytes and the server waits for a header of nine. *)
Theorem example_close_hangs :
  example_client_main 0 [bs "/sock"; bs "/f"] (sample_client (bs "/f") OBJM_MODE_FDPASS) = Blocked /\
  sample_serve (example_side (client_bytes (bs "/f") OBJM_MODE_FDPASS ++ close_bytes) false example_kernel) = Blocked.
Proof. split; vm_compute; reflexivity. Qed.
