(* ===== verification/ProtoClient.v ===== *)
(** * ProtoClient: the measuring client of the prototype

    [main] of [datapass/csrc/client.c]: the options, the list of objects, the
    connection to the bridge, and one loop per mode that asks for objects and
    touches their data.  In descriptor mode the client maps a share of the file and
    adds up every [stride]-th integer; in copy and splice mode it adds up bytes of
    the buffers as they arrive.  The process has two sockets: [b_d] to the
    bridge's main thread, [b_c] the connection it gets from there.  The random
    numbers and the result of [lseek] on a directory are parameters; the elapsed
    time, which is only printed, is left out. *)

From S2P Require Import Prelude Socket Kernel Transport LegacyMain ProtoStore ProtoServe.

(** ** Options *)

Record client_opts := ClientOpts {
  o_mode : byte; o_write : bool; o_randidx : bool; o_stride : Z; o_rthresh : Z;
  o_reqcount : option Z     (* [None]: never set *)
}.

Definition client_opts0 : client_opts := ClientOpts OP_FDPASS false false 64 0 None.

Definition client_option (v : client_opts) (o : opt) : client_opts :=
  let '(ClientOpts m w r s t c) := v in
  match o with
  | Opt "C" _ => ClientOpts OP_COPY w r s t c
  | Opt "S" _ => ClientOpts OP_SPLICE w r s t c
  | Opt "c" (Some a) => ClientOpts m w r s t (Some (u64 (atoi a)))
  | Opt "s" (Some a) => ClientOpts m w r (atoi a) t c
  | Opt "t" (Some a) => ClientOpts m w r s (u64 (atoi a)) c
  | Opt "w" _ => ClientOpts m true r s t c
  | Opt "r" _ => ClientOpts m w true s t c
  | _ => v
  end.

Definition client_options (argv : list (list byte)) : client_opts :=
  foldl client_option client_opts0 (getopt "CSc:t:ws:r" argv).1.

(** ** Measurements *)

(** The variables of [main] that the loops work on. *)
Record tally := Tally {
  t_lval : Z;             (* int *)
  t_macc : Z;             (* touches *)
  t_tbytes : Z;
  t_ttfb : Z;             (* tttfbsum, in microseconds *)
  t_counts : list Z;      (* filecounts *)
  t_pindex : Z;
  t_draws : nat           (* calls of [rand] so far *)
}.

Definition set_touches (lval macc : Z) (t : tally) : tally :=
  Tally lval macc (t_tbytes t) (t_ttfb t) (t_counts t) (t_pindex t) (t_draws t).
Definition set_ttfb (z : Z) (t : tally) : tally :=
  Tally (t_lval t) (t_macc t) (t_tbytes t) z (t_counts t) (t_pindex t) (t_draws t).
Definition add_bytes (n : Z) (t : tally) : tally :=
  Tally (t_lval t) (t_macc t) (u64 (t_tbytes t + n)) (t_ttfb t) (t_counts t) (t_pindex t) (t_draws t).
Definition set_count (i : nat) (z : Z) (t : tally) : tally :=
  Tally (t_lval t) (t_macc t) (t_tbytes t) (t_ttfb t) (<[i:=z]> (t_counts t)) (t_pindex t) (t_draws t).
Definition set_pindex (z : Z) (t : tally) : tally :=
  Tally (t_lval t) (t_macc t) (t_tbytes t) (t_ttfb t) (t_counts t) z (t_draws t).
Definition set_draws (n : nat) (t : tally) : tally :=
  Tally (t_lval t) (t_macc t) (t_tbytes t) (t_ttfb t) (t_counts t) (t_pindex t) n.

(** [size * rthresh / 100] in 64 bits. *)
Definition share_of (size rthresh : Z) : Z := u64 (size * rthresh) / 100.

(** How the process ends: with a status, or by [exit(errno)]. *)
Inductive leave := Returned (status : Z) | ExitErrno.

(** What the last line says. *)
Record summary := Summary { su_tbytes : Z; su_macc : Z; su_sum : Z; su_name : list byte; su_ttfb : Z; su_inreqs : Z; su_ttfb_avg : Z; su_touches : Z }.

Section Client.
(** The results of [rand] one after the other, and [lseek] on a directory. *)
Variable rand : nat -> Z.
Variable dir_end : Z.

Section Options.
Variable o : client_opts.
Variable ofdw : Z.

(** A request, on the connection if there is one. *)
Definition send_request (name : list byte) : M tio () := if ofdw <? 0 then mret () else client_request name.

(** *** Touching a buffer (copy and splice mode) *)

(** [while (i < rbn && (rb + i) < limit)]; an index outside the buffer is a fault, a
    stride of 0 never ends. *)
Fixpoint touch_buffer (fuel : nat) (limit rb i tsum macc : Z) (buf : list byte) : M tio (Z * Z) :=
  if (i <? Z.of_nat (length buf)) && (u64 (rb + i) <? limit) then
    match fuel with
    | O => block
    | S fuel =>
        c ← deref (if i <? 0 then None else buf !! Z.to_nat i);
        let tsum := u64 (tsum + char_val c) in
        let buf := if o_write o then <[Z.to_nat i:=zb tsum]> buf else buf in
        touch_buffer fuel limit rb (s64 (i + o_stride o * 4)) tsum (u64 (macc + 1)) buf
    end
  else mret (tsum, macc).

(** [while (rb < smsgsz)]. *)
Fixpoint measure_data (fuel : nat) (smsgsz rb tsum macc : Z) : M tio (Z * Z) :=
  if rb <? smsgsz then
    match fuel with
    | O => block
    | S fuel =>
        r ← onie (sys_read (Z.to_nat RBUF));
        match r with
        | inr _ | inl [] => mret (tsum, macc)
        | inl d =>
            t ← touch_buffer (S (length d)) (share_of smsgsz (o_rthresh o)) rb 0 tsum macc d;
            measure_data fuel smsgsz (rb + Z.of_nat (length d)) t.1 t.2
        end
    end
  else mret (tsum, macc).

(** *** Touching a mapped file (descriptor mode) *)

(** The [int] at an offset; behind the end of the file the last page is zero. *)
Definition int_at (mem : list byte) (a : Z) : Z := s32 (le_val (take 4 (drop (Z.to_nat a) mem ++ replicate 4 x00))).

(** [while (acc < (rmem + fsize) && totread < limit)]; [lval] must stay an [int]. *)
Fixpoint touch_map (fuel : nat) (fsize limit ttfb1 a tsum : Z) (mem : list byte) (t : tally) : M tio (Z * tally) :=
  if (a <? fsize) && (u64 a <? limit) then
    match fuel with
    | O => block
    | S fuel =>
        let v := int_at mem a in
        let lval := t_lval t + v in
        if (lval <? - 2 ^ 31) || (2 ^ 31 <=? lval) then fault
        else
          let tsum := u64 (tsum + v) in
          t ← (if a =? 0 then ttfb2 ← onik sys_clock; mret (set_ttfb (u64 (t_ttfb t + (ttfb2 - ttfb1))) t) else mret t);
          let mem := if o_write o then write_at mem (Z.to_nat a) (le_bytes 4 tsum) else mem in
          touch_map fuel fsize limit ttfb1 (s64 (a + o_stride o * 4)) tsum mem (set_touches lval (u64 (t_macc t + 1)) t)
    end
  else mret (tsum, t).

(** [mmap] of the first [len] bytes; [None] is MAP_FAILED. *)
Definition sys_mmap (len fd : Z) : M kernel (option (list byte)) :=
  r ← refused;
  k ← get;
  mret (if (r : bool) || (len =? 0) then None
        else match ofd_of k fd with
             | Some (_, Ofd (Some i) _ true _) => Some (default [] (inodes k !! i))
             | _ => None
             end).

(** *** The object list *)

Section Objects.
Variable names : list (option (list byte)).     (* filenames *)
Variable nfiles : Z.

(** [&filenames[current * 1024]]: a slot never written holds no string. *)
Definition name_at {S} (current : Z) : M S (list byte) :=
  deref (if current <? 0 then None else mjoin (names !! Z.to_nat current)).

(** [strstr(name, "bfilu4")]. *)
Fixpoint contains (p s : list byte) : bool :=
  has_prefix p s || match s with [] => false | _ :: s => contains p s end.

(** The index of the next object; [%] by 0 is a fault. *)
Definition next_index (current : Z) (t : tally) : M tio (Z * tally) :=
  if nfiles =? 0 then fault
  else if o_randidx o then mret (s32 (Z.rem (current + 1) nfiles), t)
  else mret (s32 (Z.rem (rand (t_draws t)) nfiles), set_draws (S (t_draws t)) t).

(** [filecounts[current] = tsum]. *)
Definition store_count (current tsum : Z) (t : tally) : M tio tally :=
  if (0 <=? current) && (current <? Z.of_nat (length (t_counts t))) then mret (set_count (Z.to_nat current) tsum t) else fault.

(** One round in copy or splice mode. *)
Definition copy_request (current : Z) (t : tally) : M tio (Z * tally) :=
  name ← name_at current;
  if 1024 <=? Z.of_nat (length name) then fault           (* [char request[1024]] *)
  else
    ttfb1 ← onik sys_clock;
    _ ← send_request name;
    r ← onie (sys_read 8);
    s ← get;
    let smsgsz := size_val (overlay (match r with inl d => d | inr _ => [] end) (replicate 8 (junk (io_e s)))) in
    ttfb2 ← onik sys_clock;
    let t := set_ttfb (u64 (t_ttfb t + (ttfb2 - ttfb1))) t in
    m ← measure_data (S (length (rx (io_e s)))) smsgsz 0 0 (t_macc t);
    t ← store_count current m.1 (add_bytes smsgsz (set_touches (t_lval t) m.2 t));
    next_index current t.

(** One round in descriptor mode. *)
Definition fd_request (current : Z) (t : tally) : M tio (Z * tally + leave) :=
  name ← name_at current;
  let t := if contains (bs "bfilu4") name then set_pindex current t else t in
  ttfb1 ← onik sys_clock;
  _ ← send_request name;
  ffd ← get_fd;
  if ffd <? 0 then mret (inr (Returned (-1)))
  else
    fsize ← onik (sys_seek_end dir_end ffd);
    let advlen := share_of fsize (o_rthresh o) in
    rmem ← onik (sys_mmap advlen ffd);
    failed ← onik refused;                                 (* [madvise] *)
    match rmem, failed : bool with
    | Some mem, false =>
        r ← touch_map (S (length mem)) fsize advlen ttfb1 0 0 mem (add_bytes fsize t);
        _ ← onik (sys_close_fd ffd);
        t ← store_count current r.1 r.2;
        n ← next_index current t;
        mret (inl n)
    | _, _ => mret (inr ExitErrno)
    end.

(** [while (1) { ...; nreqs--; if (!nreqs) break; }]: [rounds] rounds. *)
Fixpoint copy_requests (rounds : nat) (current : Z) (t : tally) : M tio tally :=
  match rounds with
  | O => mret t
  | S rounds => r ← copy_request current t; copy_requests rounds r.1 r.2
  end.
Fixpoint fd_requests (rounds : nat) (current : Z) (t : tally) : M tio (tally + leave) :=
  match rounds with
  | O => mret (inl t)
  | S rounds =>
      r ← fd_request current t;
      match r with
      | inl (current, t) => fd_requests rounds current t
      | inr e => mret (inr e)
      end
  end.

(** A count of 0 wraps around before it is tested. *)
Definition rounds_of (nreqs : Z) : nat := if nreqs =? 0 then Z.to_nat (2 ^ 64) else Z.to_nat nreqs.

Definition request_objects (mode : byte) (nreqs : Z) (t : tally) : M tio (tally + leave) :=
  if bool_decide (mode = OP_FDPASS) then fd_requests (rounds_of nreqs) 0 t
  else if bool_decide (mode = OP_COPY) || bool_decide (mode = OP_SPLICE) then t ← copy_requests (rounds_of nreqs) 0 t; mret (inl t)
  else mret (inl t).

(** The line at the end, with its two divisions. *)
Definition summarise (inreqs : Z) (t : tally) : M tio summary :=
  name ← name_at (t_pindex t);
  sum ← deref (if t_pindex t <? 0 then None else t_counts t !! Z.to_nat (t_pindex t));
  if inreqs =? 0 then fault
  else mret (Summary (t_tbytes t) (t_macc t) sum name (t_ttfb t) inreqs (t_ttfb t / inreqs) (t_macc t / inreqs)).
End Objects.
End Options.

(** [argv] without the program's name.  A [sendmsg] that fails leaves a large
    [size_t] and counts as sent. *)
Definition proto_client_main (argv : list (list byte)) : M bstate (leave * option summary) :=
  let o := client_options argv in
  l ← onbc (onik getobjlist);
  c ← onbc (onik sys_malloc);                               (* filecounts *)
  ssock ← onbc (onik sys_socket);
  if ssock <? 0 then mret (Returned (-1), None)
  else
    _ ← onbc (onik sys_attach);                             (* bind *)
    r ← onbc (onik sys_attach);                             (* connect *)
    if r <? 0 then mret (Returned (-1), None)
    else
      m ← onbc (onik sys_malloc);                           (* io *)
      if negb m then fault
      else
        _ ← onbc (onik sys_clock);
        w ← onbd (onie (sys_write [o_mode o]));
        inreqs ← deref (o_reqcount o);
        match w with
        | inl O => mret (Returned (-1), None)
        | _ =>
            ofdr ← onbd get_fd;
            ofdw ← onbd get_fd;
            _ ← onbc (onik sys_clock);
            r ← (if ofdr <? 0 then mret (inr EIO) else onbc (onie (sys_read 20)));
            mode ← deref (match r with inl (b :: _) => Some b | _ => None end);
            _ ← onbc (onik (sys_close_fd ssock));
            let t := Tally 0 0 0 0 (if c : bool then replicate (length l.1) 0 else []) 0 0 in
            r ← onbc (request_objects o ofdw l.1 l.2 mode inreqs t);
            match r with
            | inr e => mret (e, None)
            | inl t =>
                _ ← onbc (onik sys_clock);
                s ← onbc (summarise l.1 inreqs t);
                mret (Returned 0, Some s)
            end
        end.
End Client.
