(* ===== verification/ProtoClientProofs.v ===== *)
(** * ProtoClientProofs: what the prototype's client measures

    The client's loops against reference definitions: which bytes or integers are
    touched and what is added up, for every way the data arrives.  A run in copy
    mode asks for the objects in the order of the index, counts all bytes
    received and stores the sum of each object. *)

From S2P Require Import Prelude Socket Kernel Transport LegacyMain ProtoStore ProtoServe ProtoServeProofs ProtoClient.

(** ** Reference *)

(** How many multiples of [step] from 0 on are below [bound]. *)
Definition steps_below (step bound : Z) : nat := Z.to_nat ((bound + step - 1) / step).

(** The offsets touched in a region of [bound] bytes. *)
Definition touched (step bound : Z) : list Z := (fun j => Z.of_nat j * step) <$> seq 0 (steps_below step bound).

(** A sum over the touched offsets. *)
Definition sum_at (f : Z -> Z) (l : list Z) : Z := foldr (fun a z => f a + z) 0 l.

Definition byte_at (d : list byte) (i : Z) : Z := char_val (default x00 (d !! Z.to_nat i)).

Lemma sum_at_app f l1 l2 : sum_at f (l1 ++ l2) = sum_at f l1 + sum_at f l2.
Proof. induction l1 as [|a l1 IH]; simpl; lia. Qed.
Lemma sum_at_ext f g l : (forall a, a ∈ l -> f a = g a) -> sum_at f l = sum_at g l.
Proof.
  induction l as [|a l IH]; intros H; simpl; [done|]. rewrite (H a) by apply list_elem_of_here. rewrite IH; [done|].
  intros x Hx. apply H. by apply list_elem_of_further.
Qed.

(** The multiple [j * step] is below the bound exactly when [j] is counted. *)
Lemma steps_below_spec step bound j : 0 < step -> (j < steps_below step bound)%nat <-> Z.of_nat j * step < bound.
Proof.
  intros Hs. unfold steps_below. split; intros H.
  - assert (Z.of_nat j < (bound + step - 1) / step) by lia.
    assert (Z.of_nat j + 1 <= (bound + step - 1) / step) by lia.
    assert (step * ((bound + step - 1) / step) <= bound + step - 1) by (apply Z.mul_div_le; lia). nia.
  - assert (Z.of_nat j + 1 <= (bound + step - 1) / step); [|lia]. apply Z.div_le_lower_bound; [lia|]. nia.
Qed.

Lemma u64_add_l a b : u64 (u64 a + b) = u64 (a + b).
Proof. unfold u64. apply Zplus_mod_idemp_l. Qed.

Lemma s64_small z : - 2 ^ 63 <= z < 2 ^ 63 -> s64 z = z.
Proof. intros H. unfold s64. rewrite Z.mod_small; lia. Qed.

(** ** Buffers *)

Section Buffers.
Context (o : client_opts).
Context (Hstride : 0 < o_stride o < 2 ^ 31).
Let step := o_stride o * 4.

Section Bound.
Context (d : list byte) (limit rb : Z).
Context (Hrb : 0 <= rb) (Hlen : rb + Z.of_nat (length d) < 2 ^ 62).
Let n := steps_below step (Z.min (Z.of_nat (length d)) (limit - rb)).

(** The condition of the loop at the [j]-th touch. *)
Lemma touch_condition j : (j <= n)%nat ->
  (Z.of_nat j * step <? Z.of_nat (length d)) && (u64 (rb + Z.of_nat j * step) <? limit) = bool_decide (j < n)%nat /\
  0 <= Z.of_nat j * step < 2 ^ 62 + 2 ^ 33.
Proof using Hstride Hrb Hlen.
  intros Hj. assert (Hst : 0 < step < 2 ^ 33) by (unfold step; lia).
  assert (Hi : 0 <= Z.of_nat j * step < Z.of_nat (length d) + step).
  { split; [lia|]. destruct j as [|j]; [lia|].
    assert (H : Z.of_nat j * step < Z.min (Z.of_nat (length d)) (limit - rb)) by (apply steps_below_spec; [lia|fold n; lia]). lia. }
  split; [|lia]. rewrite u64_small by lia. assert (Hn := steps_below_spec step (Z.min (Z.of_nat (length d)) (limit - rb)) j ltac:(lia)). fold n in Hn.
  destruct (bool_decide_reflect (j < n)%nat) as [H|H]; [apply andb_true_iff|apply andb_false_iff]; rewrite !Z.ltb_lt || rewrite !Z.ltb_ge; lia.
Qed.

(** From the [j]-th touch on; touched bytes may have been overwritten. *)
Lemma touch_buffer_from s fuel : forall j buf tsum macc,
  (j <= n)%nat -> (n <= j + fuel)%nat -> length buf = length d -> (forall k, Z.of_nat j * step <= Z.of_nat k -> buf !! k = d !! k) ->
  0 <= tsum < 2 ^ 64 -> 0 <= macc < 2 ^ 64 ->
  touch_buffer o fuel limit rb (Z.of_nat j * step) tsum macc buf s =
  Ret (u64 (tsum + sum_at (byte_at d) ((fun j => Z.of_nat j * step) <$> seq j (n - j))), u64 (macc + Z.of_nat (n - j))) s.
Proof using Hstride Hrb Hlen.
  assert (Hst : 0 < step < 2 ^ 33) by (unfold step; lia).
  induction fuel as [|fuel IH]; intros j buf tsum macc Hj Hf Hl Hb Ht Hm; destruct (touch_condition j Hj) as [Hc Hi];
    cbn [touch_buffer]; rewrite Hl, Hc.
  1: rewrite bool_decide_false by lia. 2: destruct (bool_decide_reflect (j < n)%nat) as [Hlt|Hge].
  1,3: replace (n - j)%nat with 0%nat by lia; simpl; rewrite !Z.add_0_r, !u64_small by done; done.
  rewrite (proj2 (Z.ltb_ge _ _)) by lia. assert (Hin : Z.of_nat j * step < Z.of_nat (length d)).
  { apply steps_below_spec in Hlt; lia. }
  destruct (lookup_lt_is_Some_2 d (Z.to_nat (Z.of_nat j * step))) as [c Hcd]; [lia|].
  rewrite Hb, Hcd by lia. rewrite deref_bind. fold step. cbv zeta.
  replace (s64 (Z.of_nat j * step + step)) with (Z.of_nat (S j) * step) by (rewrite s64_small by lia; lia).
  rewrite IH; [|lia|lia|by destruct (o_write o); rewrite ?length_insert| |apply u64_range|apply u64_range].
  - replace (n - j)%nat with (S (n - S j)) by lia. cbn [seq fmap list_fmap sum_at foldr]. fold (sum_at (byte_at d)).
    rewrite !u64_add_l. unfold byte_at at 2. rewrite Hcd. cbn [default from_option id]. do 3 f_equal; [unfold sum_at; lia|lia].
  - intros k Hk. destruct (o_write o); [rewrite list_lookup_insert_ne by lia|]; apply Hb; lia.
Qed.

(** All touches of one buffer. *)
Lemma touch_buffer_ok s tsum macc : 0 <= tsum < 2 ^ 64 -> 0 <= macc < 2 ^ 64 ->
  let l := touched step (Z.min (Z.of_nat (length d)) (limit - rb)) in
  touch_buffer o (S (length d)) limit rb 0 tsum macc d s = Ret (u64 (tsum + sum_at (byte_at d) l), u64 (macc + Z.of_nat (length l))) s.
Proof using Hstride Hrb Hlen.
  intros Ht Hm l. assert (Hst : 0 < step < 2 ^ 33) by (unfold step; lia).
  assert (Hn : (n <= S (length d))%nat).
  { destruct n as [|m] eqn:E; [lia|]. assert (Z.of_nat m * step < Z.min (Z.of_nat (length d)) (limit - rb)) by (apply steps_below_spec; [lia|fold n; lia]). nia. }
  pose proof (touch_buffer_from s (S (length d)) 0 d tsum macc ltac:(lia) ltac:(lia) eq_refl ltac:(done) Ht Hm) as H.
  rewrite Nat.sub_0_r in H. unfold l, touched. rewrite length_fmap, length_seq. fold n. exact H.
Qed.
End Bound.
End Buffers.

(** ** Objects that arrive in pieces *)

(** One answer: the data in the pieces the reads return. *)
Definition piece_ok (c : list byte) : Prop := c <> [] /\ Z.of_nat (length c) <= RBUF.
Definition data_of (cs : list (list byte)) : list byte := mjoin cs.
Definition reads_of (cs : list (list byte)) : list io_event := (fun c => IoPartial (length c - 1)) <$> cs.

(** Sum and number of touches, piece by piece: the offsets start again at 0 in every
    piece, the limit is on the object. *)
Fixpoint measure_pieces (step limit rb tsum macc : Z) (cs : list (list byte)) : Z * Z :=
  match cs with
  | [] => (tsum, macc)
  | c :: cs =>
      let l := touched step (Z.min (Z.of_nat (length c)) (limit - rb)) in
      measure_pieces step limit (rb + Z.of_nat (length c)) (u64 (tsum + sum_at (byte_at c) l)) (u64 (macc + Z.of_nat (length l))) cs
  end.

Lemma measure_pieces_range step limit rb tsum macc cs : 0 <= tsum < 2 ^ 64 -> 0 <= macc < 2 ^ 64 ->
  0 <= (measure_pieces step limit rb tsum macc cs).1 < 2 ^ 64 /\ 0 <= (measure_pieces step limit rb tsum macc cs).2 < 2 ^ 64.
Proof. revert rb tsum macc. induction cs as [|c cs IH]; intros rb tsum macc Ht Hm; simpl; [done|]. apply IH; apply u64_range. Qed.

(** The connection: what is to be read and how, what has been written; the kernel
    but for its clock. *)
Record talk (k : kernel) (r : list cell) (w : list io_event) (t : list cell) (s : tio) : Prop := {
  ta_k : set_clock [] 0 (io_k s) = set_clock [] 0 k;
  ta_rx : rx (io_e s) = r;
  ta_rd : rd_sched (io_e s) = w;
  ta_tx : tx (io_e s) = t;
  ta_wr : wr_sched (io_e s) = []
}.

(** One read of a whole piece. *)
Lemma read_piece k c rest w t n s : c <> [] -> (length c <= n)%nat ->
  talk k ((plain <$> c) ++ rest) (IoPartial (length c - 1) :: w) t s ->
  exists s', onie (sys_read n) s = Ret (inl c) s' /\ talk k rest w t s' /\ junk (io_e s') = junk (io_e s).
Proof.
  intros Hne Hn [H1 H2 H3 H4 H5]. unfold onie, sys_read. cbn [rd_sched set_oom set_fdt rx]. rewrite H3, H2.
  assert (Hmin : Nat.min (S (length c - 1)) n = length c) by (destruct c; [done|cbn [length] in *; lia]). rewrite Hmin.
  destruct ((plain <$> c) ++ rest) as [|x xs] eqn:E; [by destruct c|]. rewrite <- E.
  rewrite take_app_length', drop_app_length' by (by rewrite length_fmap). rewrite <- list_fmap_compose.
  rewrite (list_fmap_ext _ id), list_fmap_id by done. eexists. split; [reflexivity|]. split; [|done].
  split; simpl; [rewrite <- H1; by destruct (io_k s)|done..].
Qed.

Section Pieces.
Context (o : client_opts).
Context (Hstride : 0 < o_stride o < 2 ^ 31).

Lemma measure_data_ok k t rest w smsgsz cs : forall fuel rb tsum macc s,
  Forall piece_ok cs -> (length cs <= fuel)%nat -> 0 <= rb -> rb + Z.of_nat (length (data_of cs)) = smsgsz -> smsgsz < 2 ^ 62 ->
  0 <= tsum < 2 ^ 64 -> 0 <= macc < 2 ^ 64 -> talk k ((plain <$> data_of cs) ++ rest) (reads_of cs ++ w) t s ->
  exists s', measure_data o fuel smsgsz rb tsum macc s =
      Ret (measure_pieces (o_stride o * 4) (share_of smsgsz (o_rthresh o)) rb tsum macc cs) s' /\ talk k rest w t s'.
Proof using Hstride.
  induction cs as [|c cs IH]; intros fuel rb tsum macc s Hcs Hf Hrb Hsz Hmax Ht Hm Hs.
  { simpl in Hsz. exists s. split; [|exact Hs]. destruct fuel; cbn [measure_data measure_pieces]; rewrite (proj2 (Z.ltb_ge _ _)) by lia; done. }
  apply list.Forall_cons in Hcs as [[Hne Hc] Hcs]. change (data_of (c :: cs)) with (c ++ data_of cs) in *.
  rewrite length_app in Hsz.
  destruct fuel as [|fuel]; [simpl in Hf; lia|]. cbn [measure_data]. assert (0 < length c)%nat by (destruct c; simpl; [done|lia]).
  rewrite (proj2 (Z.ltb_lt _ _)) by lia. rewrite fmap_app, <- app_assoc in Hs.
  destruct (read_piece k c _ (reads_of cs ++ w) t (Z.to_nat RBUF) s Hne ltac:(lia) Hs) as (s1 & Hr & Hs1 & _). run Hr.
  destruct c as [|b c]; [done|]. set (d := b :: c) in *.
  run (touch_buffer_ok o Hstride d (share_of smsgsz (o_rthresh o)) rb Hrb ltac:(lia) s1 tsum macc Ht Hm). cbn [fst snd].
  cbn [measure_pieces]. apply IH; [done|simpl in Hf; lia|lia|lia|done|apply u64_range|apply u64_range|exact Hs1].
Qed.
End Pieces.

(** ** A run in copy or splice mode *)

(** The measurements without the times. *)
Definition untimed (t : tally) : tally := set_ttfb 0 t.

Section Run.
Context (rand : nat -> Z) (o : client_opts) (ofdw : Z) (names : list (option (list byte))) (nfiles : Z).
Context (Hstride : 0 < o_stride o < 2 ^ 31) (Hofd : 0 <= ofdw) (Hfiles : 0 < nfiles < 2 ^ 31).
Context (Hrand : forall i, 0 <= rand i).

(** The object after [current]: the next one, or a random one. *)
Definition pick (p : Z * tally) : Z * tally :=
  let '(current, t) := p in
  if o_randidx o then ((current + 1) mod nfiles, t) else (rand (t_draws t) mod nfiles, set_draws (S (t_draws t)) t).

(** What one answer does to the measurements. *)
Definition account (p : Z * tally) (cs : list (list byte)) : Z * tally :=
  let '(current, t) := p in
  let size := Z.of_nat (length (data_of cs)) in
  let m := measure_pieces (o_stride o * 4) (share_of size (o_rthresh o)) 0 0 (t_macc t) cs in
  pick (current, set_count (Z.to_nat current) m.1 (add_bytes size (set_touches (t_lval t) m.2 t))).

Definition answer_cells (cs : list (list byte)) : list cell := plain <$> (size_bytes (Z.of_nat (length (data_of cs))) ++ data_of cs).
Definition answer_reads (cs : list (list byte)) : list io_event := IoPartial 7 :: reads_of cs.
Definition answer_ok (cs : list (list byte)) : Prop := Forall piece_ok cs /\ Z.of_nat (length (data_of cs)) < 2 ^ 62.

(** All slots the index can reach hold a name, and have a count. *)
Definition listed (t : tally) : Prop :=
  nfiles <= Z.of_nat (length (t_counts t)) /\ 0 <= t_macc t < 2 ^ 64 /\
  forall i, 0 <= i < nfiles -> exists nm, names !! Z.to_nat i = Some (Some nm) /\ Z.of_nat (length nm) < 1024.

Lemma pieces_length cs : Forall piece_ok cs -> (length cs <= length (data_of cs))%nat.
Proof.
  induction 1 as [|c cs [Hne _] Hcs IH]; [done|]. change (data_of (c :: cs)) with (c ++ data_of cs). rewrite length_app.
  destruct c; [done|simpl; lia].
Qed.

Lemma clock_talk k r w t s : talk k r w t s -> exists z s', onik sys_clock s = Ret z s' /\ talk k r w t s' /\ io_e s' = io_e s.
Proof.
  intros [H1 H2 H3 H4 H5]. unfold onik, sys_clock. destruct (ticks (io_k s)) as [|x l]; eexists _, _; (split; [reflexivity|]); split; try done.
Qed.

Lemma next_index_ok current t s : 0 <= current < nfiles -> next_index rand o nfiles current t s = Ret (pick (current, t)) s.
Proof using Hfiles Hrand.
  intros Hc. unfold next_index, pick. rewrite (proj2 (Z.eqb_neq _ _)) by lia.
  destruct (o_randidx o); [|specialize (Hrand (t_draws t))]; rewrite Z.rem_mod_nonneg by lia;
    (match goal with |- context [s32 (?a mod nfiles)] => pose proof (Z.mod_pos_bound a nfiles ltac:(lia)) end);
    unfold s32; rewrite (Z.mod_small (_ + 2 ^ 31)) by lia; rewrite Z.add_simpl_r; done.
Qed.

Lemma pick_range p : 0 <= (pick p).1 < nfiles.
Proof using Hfiles. destruct p as [c t]. unfold pick. destruct (o_randidx o); apply Z.mod_pos_bound; lia. Qed.

Lemma send_request_talk k r w t s nm : talk k r w t s ->
  exists s', send_request ofdw nm s = Ret () s' /\ talk k r w (t ++ (plain <$> nm)) s'.
Proof using Hofd.
  intros [H1 H2 H3 H4 H5]. unfold send_request, client_request. rewrite (proj2 (Z.ltb_ge _ _)) by lia.
  assert (Hw : exists s', onie (sys_write nm) s = Ret (inl (length nm)) s' /\ talk k r w (t ++ (plain <$> nm)) s').
  { unfold onie, sys_write. cbn [wr_sched set_oom set_fdt tx]. rewrite H5, H4. eexists. split; [reflexivity|].
    split; simpl; [rewrite <- H1; by destruct (io_k s)|done..]. }
  destruct Hw as (s' & Hr & Hs). run Hr. by exists s'.
Qed.

Lemma copy_request_ok k rest w tx0 cs current t s :
  answer_ok cs -> listed t -> 0 <= current < nfiles -> talk k (answer_cells cs ++ rest) (answer_reads cs ++ w) tx0 s ->
  exists nm t' s', names !! Z.to_nat current = Some (Some nm) /\ copy_request rand o ofdw names nfiles current t s = Ret t' s' /\
    (t'.1, untimed t'.2) = account (current, untimed t) cs /\ talk k rest w (tx0 ++ (plain <$> nm)) s'.
Proof using Hstride Hofd Hfiles Hrand.
  intros [Hcs Hsz] (Hcnt & Hm & Hnm) Hcur Hs. destruct (Hnm current Hcur) as (nm & Hn & Hnl). exists nm.
  unfold copy_request, name_at. rewrite (proj2 (Z.ltb_ge _ _)) by lia. rewrite Hn. change (mjoin (Some (Some nm))) with (Some nm). rewrite deref_bind.
  rewrite (proj2 (Z.leb_gt _ _)) by lia. destruct (clock_talk _ _ _ _ _ Hs) as (z1 & s1 & H1 & Hs1 & _). run H1.
  destruct (send_request_talk _ _ _ _ _ nm Hs1) as (s2 & H2 & Hs2). run H2.
  set (size := Z.of_nat (length (data_of cs))) in *. unfold answer_cells, answer_reads in Hs2. fold size in Hs2. rewrite fmap_app, <- app_assoc in Hs2.
  destruct (read_piece k (size_bytes size) _ (reads_of cs ++ w) _ 8 s2 ltac:(done) (le_n 8) Hs2) as (s3 & H3 & Hs3 & Hj). run H3.
  rewrite (bind_Ret get _ _ _ _ eq_refl). cbv zeta. unfold overlay. change (length (size_bytes size)) with 8%nat.
  rewrite drop_ge by (by rewrite length_replicate). rewrite app_nil_r, size_roundtrip by lia.
  destruct (clock_talk _ _ _ _ _ Hs3) as (z2 & s4 & H4 & Hs4 & He). run H4. cbn [t_macc set_ttfb t_lval t_ttfb].
  assert (Hfuel : (length cs <= S (length (rx (io_e s3))))%nat).
  { rewrite (ta_rx _ _ _ _ _ Hs3), length_app, length_fmap. pose proof (pieces_length cs Hcs). lia. }
  destruct (measure_data_ok o Hstride k _ rest w size cs _ 0 0 (t_macc t) s4 Hcs Hfuel ltac:(lia) ltac:(lia) Hsz ltac:(lia) Hm Hs4) as (s5 & H5 & Hs5).
  run H5. set (m := measure_pieces _ _ _ _ _ _). unfold store_count. cbn [t_counts add_bytes set_touches set_ttfb].
  rewrite (proj2 (Z.leb_le _ _)), (proj2 (Z.ltb_lt _ _)) by lia. cbn [andb]. rewrite bind_ret_l, next_index_ok by done.
  eexists _, s5. split; [done|]. split; [reflexivity|]. split; [|done]. unfold account, pick. fold size m. cbn [untimed t_macc set_ttfb].
  fold m. destruct (o_randidx o); reflexivity.
Qed.

(** The objects asked for, and their names. *)
Fixpoint visits (p : Z * tally) (answers : list (list (list byte))) : list Z :=
  match answers with [] => [] | cs :: answers => p.1 :: visits (account p cs) answers end.
Definition name_of (i : Z) : list byte := default [] (mjoin (names !! Z.to_nat i)).

Lemma account_listed current t cs : listed t -> 0 <= (account (current, t) cs).1 < nfiles /\ listed (account (current, t) cs).2.
Proof using Hfiles.
  intros (H1 & H2 & H3). split; [apply pick_range|]. unfold account, pick.
  destruct (measure_pieces_range (o_stride o * 4) (share_of (Z.of_nat (length (data_of cs))) (o_rthresh o)) 0 0 (t_macc t) cs ltac:(lia) H2) as [_ Hm].
  destruct (o_randidx o); (split; [simpl; rewrite length_insert; done|]); (split; [exact Hm|done]).
Qed.

Lemma listed_untimed t : listed (untimed t) <-> listed t.
Proof. done. Qed.

Lemma copy_requests_ok k answers : forall current t tx0 s,
  Forall answer_ok answers -> listed t -> 0 <= current < nfiles -> talk k (answers ≫= answer_cells) (answers ≫= answer_reads) tx0 s ->
  exists t' s', copy_requests rand o ofdw names nfiles (length answers) current t s = Ret t' s' /\
    untimed t' = (foldl account (current, untimed t) answers).2 /\
    talk k [] [] (tx0 ++ (plain <$> (visits (current, untimed t) answers ≫= name_of))) s'.
Proof using Hstride Hofd Hfiles Hrand.
  induction answers as [|cs answers IH]; intros current t tx0 s Ha Ht Hc Hs.
  { exists t, s. simpl. rewrite app_nil_r. done. }
  apply list.Forall_cons in Ha as [Hcs Ha]. rewrite !bind_cons in Hs.
  destruct (copy_request_ok k _ _ tx0 cs current t s Hcs Ht Hc Hs) as (nm & [c1 t1] & s1 & Hn & Hr & Hac & Hs1). cbn [fst snd] in Hac.
  destruct (account_listed current (untimed t) cs (proj2 (listed_untimed t) Ht)) as [Hc1 Hl1]. rewrite <- Hac in Hc1, Hl1. cbn [fst snd] in Hc1, Hl1.
  destruct (IH c1 t1 _ s1 Ha (proj1 (listed_untimed t1) Hl1) Hc1 Hs1) as (t' & s' & Hr' & Ht' & Hs').
  exists t', s'. split; [cbn [length copy_requests]; run Hr; exact Hr'|]. cbn [foldl visits]. rewrite <- Hac. split; [exact Ht'|].
  rewrite bind_cons, fmap_app. cbn [fst]. unfold name_of at 1. rewrite Hn. cbn [mjoin option_join default from_option id]. by rewrite app_assoc.
Qed.

(** With [-r] the objects come one after the other. *)
Lemma visits_in_order answers current t : o_randidx o = true -> 0 <= current < nfiles ->
  visits (current, t) answers = (fun j => (current + Z.of_nat j) mod nfiles) <$> seq 0 (length answers).
Proof using Hfiles.
  intros Hr. revert current t. induction answers as [|cs answers IH]; intros current t Hc; [done|]. cbn [visits length seq fmap list_fmap]. f_equal.
  { by rewrite Z.add_0_r, Z.mod_small. }
  unfold account, pick. rewrite Hr, IH by (apply Z.mod_pos_bound; lia). rewrite <- fmap_S_seq, <- list_fmap_compose. apply list_fmap_ext. intros _ j _. unfold compose.
  rewrite Zplus_mod_idemp_l. f_equal. lia.
Qed.

(** All bytes announced are counted. *)
Lemma account_bytes answers p : 0 <= t_tbytes p.2 < 2 ^ 64 ->
  t_tbytes (foldl account p answers).2 = u64 (t_tbytes p.2 + Z.of_nat (length (answers ≫= data_of))).
Proof.
  revert p. induction answers as [|cs answers IH]; intros [c t] Hr; cbn [foldl].
  { simpl. by rewrite Z.add_0_r, u64_small. }
  assert (E : t_tbytes (account (c, t) cs).2 = u64 (t_tbytes t + Z.of_nat (length (data_of cs)))) by (unfold account, pick; by destruct (o_randidx o)).
  rewrite IH, E; [|rewrite E; apply u64_range]. rewrite u64_add_l, bind_cons, length_app. cbn [snd]. f_equal. lia.
Qed.
End Run.

(** C30: A run of the prototype's client in copy or splice mode.  Against a server that
    answers every request with the size and the data of an object, in pieces of
    any length, [inreqs] requests are made, for the names in the slots the index
    visits (one after the other with [-r]), and nothing of the input is left; the
    total of bytes is that of the data, and the number of touches and the sum stored for
    each object are those of the reference: every [4 * stride]-th byte of every
    piece, up to the share of the object that the threshold allows.  All accesses are
    inside the buffer, with [-w] too. *)
Theorem copy_run_measures rand dir_end o ofdw names nfiles mode t k answers s :
  0 < o_stride o < 2 ^ 31 -> 0 <= ofdw -> 0 < nfiles < 2 ^ 31 -> (forall i, 0 <= rand i) ->
  mode = OP_COPY \/ mode = OP_SPLICE -> answers <> [] -> Forall answer_ok answers ->
  listed names nfiles t -> 0 <= t_tbytes t < 2 ^ 64 ->
  talk k (answers ≫= answer_cells) (answers ≫= answer_reads) [] s ->
  let seen := visits rand o nfiles (0, untimed t) answers in
  exists t' s', request_objects rand dir_end o ofdw names nfiles mode (Z.of_nat (length answers)) t s = Ret (inl t') s' /\
    untimed t' = (foldl (account rand o nfiles) (0, untimed t) answers).2 /\
    t_tbytes t' = u64 (t_tbytes t + Z.of_nat (length (answers ≫= data_of))) /\
    (o_randidx o = true -> seen = (fun j => Z.of_nat j mod nfiles) <$> seq 0 (length answers)) /\
    talk k [] [] (plain <$> (seen ≫= name_of names)) s'.
Proof.
  intros Hst Hof Hn Hr Hmode Hne Ha Hl Hb Hs seen.
  destruct (copy_requests_ok rand o ofdw names nfiles Hst Hof Hn Hr k answers 0 t [] s Ha Hl ltac:(lia) Hs) as (t' & s' & Hrun & Ht' & Hs').
  exists t', s'. split.
  - unfold request_objects, rounds_of. rewrite (bool_decide_false (mode = OP_FDPASS)) by (by destruct Hmode as [->| ->]).
    assert (Hm : bool_decide (mode = OP_COPY) || bool_decide (mode = OP_SPLICE) = true) by (by destruct Hmode as [->| ->]). rewrite Hm.
    rewrite (proj2 (Z.eqb_neq _ _)) by (destruct answers; simpl; [done|lia]). rewrite Nat2Z.id. by run Hrun.
  - split; [exact Ht'|]. split.
    + change (t_tbytes t') with (t_tbytes (untimed t')). rewrite Ht'. by rewrite (account_bytes rand o nfiles answers (0, untimed t)).
    + split; [|exact Hs']. intros Hord. unfold seen. rewrite (visits_in_order rand o nfiles Hn answers 0 (untimed t) Hord) by lia. done.
Qed.

(** ** A mapped file *)

Section Map.
Context (o : client_opts) (d : list byte) (limit ttfb1 : Z).
Context (Hstride : 0 < o_stride o < 2 ^ 31) (Hlen : Z.of_nat (length d) < 2 ^ 62).
Let step := o_stride o * 4.
Let n := steps_below step (Z.min (Z.of_nat (length d)) limit).

(** The sum of the first [j] touched integers. *)
Definition int_sum (st : Z) (j : nat) : Z := sum_at (int_at d) ((fun j => Z.of_nat j * st) <$> seq 0 j).

Lemma int_sum_S st j : int_sum st (S j) = int_sum st j + int_at d (Z.of_nat j * st).
Proof. unfold int_sum. rewrite seq_S, fmap_app, sum_at_app. simpl. lia. Qed.

(** A written integer does not reach the ones behind it. *)
Lemma int_at_written mem a b z : 0 <= a <= Z.of_nat (length mem) -> a + 4 <= b ->
  int_at (write_at mem (Z.to_nat a) (le_bytes 4 z)) b = int_at mem b.
Proof.
  intros Ha Hb. unfold int_at. do 4 f_equal. unfold write_at. change (length (le_bytes 4 z)) with 4%nat.
  replace (Z.to_nat a - length mem)%nat with 0%nat by lia. rewrite app_nil_r.
  rewrite drop_app_ge by (rewrite length_take; lia). rewrite length_take, Nat.min_l by lia.
  rewrite drop_app_ge by (change (length (le_bytes 4 z)) with 4%nat; lia). change (length (le_bytes 4 z)) with 4%nat. rewrite drop_drop. f_equal. lia.
Qed.
Lemma length_written mem a z : (length mem <= length (write_at mem a (le_bytes 4 z)))%nat.
Proof. unfold write_at. rewrite !length_app, length_take, !length_app, length_drop, length_replicate. change (length (le_bytes 4 z)) with 4%nat. lia. Qed.

(** Nothing but the clock. *)
Definition only_clock (s s' : tio) : Prop := io_e s' = io_e s /\ set_clock [] 0 (io_k s') = set_clock [] 0 (io_k s).

Lemma first_touch a t s : exists t' s',
  (if a =? 0 then ttfb2 ← onik sys_clock; mret (set_ttfb (u64 (t_ttfb t + (ttfb2 - ttfb1))) t) else mret t) s = Ret t' s' /\
  untimed t' = untimed t /\ only_clock s s'.
Proof.
  destruct (a =? 0); [|by exists t, s]. unfold onik, sys_clock, mbind, M_bind. destruct (ticks (io_k s)); eexists _, _; split; done.
Qed.

Lemma touch_map_from fuel : forall j mem t s,
  (j <= n)%nat -> (n <= j + fuel)%nat -> (length d <= length mem)%nat -> (forall b, Z.of_nat j * step <= b -> int_at mem b = int_at d b) ->
  0 <= t_macc t < 2 ^ 64 ->
  (forall i, (i <= n)%nat -> - 2 ^ 31 <= t_lval t - int_sum step j + int_sum step i < 2 ^ 31) ->
  exists t' s', touch_map o fuel (Z.of_nat (length d)) limit ttfb1 (Z.of_nat j * step) (u64 (int_sum step j)) mem t s = Ret (u64 (int_sum step n), t') s' /\
    untimed t' = set_touches (t_lval t - int_sum step j + int_sum step n) (u64 (t_macc t + Z.of_nat (n - j))) (untimed t) /\ only_clock s s'.
Proof using Hstride Hlen.
  assert (Hst : 4 <= step < 2 ^ 33) by (unfold step; lia).
  induction fuel as [|fuel IH]; intros j mem t s Hj Hf Hm Hi Hmacc Hv;
    destruct (touch_condition o Hstride d limit 0 ltac:(lia) ltac:(lia) j ltac:(by rewrite Z.sub_0_r)) as [Hc Hb];
    fold step in Hc, Hb; rewrite Z.sub_0_r, Z.add_0_l in Hc; fold n in Hc; cbn [touch_map]; rewrite Hc.
  1: rewrite bool_decide_false by lia. 2: destruct (bool_decide_reflect (j < n)%nat) as [Hlt|Hge].
  1,3: assert (j = n) as -> by lia; exists t, s; rewrite Nat.sub_diag, Z.add_0_r, (u64_small (t_macc t)) by done;
    rewrite Z.sub_add; split; [done|]; split; [by destruct t|done].
  rewrite Hi by lia. set (v := int_at d (Z.of_nat j * step)).
  pose proof (Hv (S j) ltac:(lia)) as Hv1. rewrite int_sum_S in Hv1. fold v in Hv1.
  rewrite (proj2 (Z.ltb_ge _ _)), (proj2 (Z.leb_gt _ _)) by lia. cbn [orb].
  destruct (first_touch (Z.of_nat j * step) t s) as (t1 & s1 & Hr & Ht1 & Hc1). run Hr. fold step. rewrite u64_add_l.
  assert (El : t_lval t1 = t_lval t /\ t_macc t1 = t_macc t) by (destruct t, t1; unfold untimed, set_ttfb in Ht1; simpl in *; by injection Ht1).
  destruct El as [El Em]. replace (s64 (Z.of_nat j * step + step)) with (Z.of_nat (S j) * step) by (rewrite s64_small by lia; lia).
  replace (int_sum step j + v) with (int_sum step (S j)) by (rewrite int_sum_S; reflexivity).
  assert (Hjl : Z.of_nat j * step < Z.of_nat (length d)) by (apply steps_below_spec in Hlt; lia).
  edestruct (IH (S j) (if o_write o then write_at mem (Z.to_nat (Z.of_nat j * step)) (le_bytes 4 (u64 (int_sum step (S j)))) else mem)
    (set_touches (t_lval t + v) (u64 (t_macc t1 + 1)) t1) s1) as (t' & s' & Hr' & Ht' & Hc').
  - lia.
  - lia.
  - destruct (o_write o); [|done]. etrans; [exact Hm|apply length_written].
  - intros b Hb'. rewrite <- Hi by lia. destruct (o_write o); [|done]. apply int_at_written; lia.
  - apply u64_range.
  - intros i Hin. cbn [t_lval set_touches]. rewrite int_sum_S. fold v. specialize (Hv i Hin). lia.
  - exists t', s'. split; [exact Hr'|]. split.
    + rewrite Ht'. cbn [t_lval t_macc set_touches]. rewrite Em, u64_add_l, int_sum_S. fold v.
      destruct t, t1; unfold untimed, set_ttfb, set_touches in *; simpl in *. injection Ht1 as -> -> -> -> -> ->. f_equal; [lia|f_equal; lia].
    + destruct Hc1 as [C1 C2], Hc' as [C3 C4]. split; congruence.
Qed.
End Map.

(** ** A round in descriptor mode *)

(** The answer: one byte with a descriptor for [ofd]. *)
Lemma get_fd_answer b ofd s : rx (io_e s) = [Cell b (Some ofd)] -> rd_sched (io_e s) = [] ->
  exists s', get_fd s = Ret (lowest_free (fdtab (io_k s))) s' /\
    io_k s' = set_fdtab (<[lowest_free (fdtab (io_k s)):=ofd]> (fdtab (io_k s))) (io_k s) /\ rx (io_e s') = [] /\ tx (io_e s') = tx (io_e s).
Proof.
  intros Hrx Hrd. unfold get_fd, onie, sys_recvmsg, mbind, M_bind. cbn [rd_sched set_oom set_fdt rx fdt]. rewrite Hrd, Hrx. cbn [gather].
  eexists. split; [reflexivity|]. split; [|done]. simpl. by destruct (io_k s).
Qed.

Lemma mmap_ok len fd ofd i pos wr d k : sched k = [] -> 0 < len -> ofd_of k fd = Some (ofd, Ofd (Some i) pos true wr) -> inodes k !! i = Some d ->
  sys_mmap len fd k = Ret (Some d) k.
Proof.
  intros Hs Hl Ho Hi. unfold sys_mmap, refused, get, mbind, M_bind. rewrite Hs, Ho, Hi, (proj2 (Z.eqb_neq _ _)) by lia. done.
Qed.

Lemma only_clock_k s s' : only_clock s s' ->
  fdtab (io_k s') = fdtab (io_k s) /\ inodes (io_k s') = inodes (io_k s) /\ ofds (io_k s') = ofds (io_k s) /\ sched (io_k s') = sched (io_k s).
Proof. intros [_ H]. destruct (io_k s), (io_k s'). unfold set_clock in H. simpl in *. by injection H as -> -> -> -> -> -> ->. Qed.
Lemma clock_only s : exists z s', onik sys_clock s = Ret z s' /\ only_clock s s'.
Proof. unfold onik, sys_clock. destruct (ticks (io_k s)); eexists _, _; split; done. Qed.

(** What is left of a process when a request has been answered: descriptor [fd] open
    on a file with contents [d]. *)
Lemma descriptor_measures o t s fd ofd i pos wr d ttfb1 dir_end :
  0 < o_stride o < 2 ^ 31 -> 0 <= t_macc t < 2 ^ 64 -> sched (io_k s) = [] ->
  fdtab (io_k s) !! fd = Some ofd -> ofds (io_k s) !! ofd = Some (Ofd (Some i) pos true wr) -> inodes (io_k s) !! i = Some d ->
  let size := Z.of_nat (length d) in let limit := share_of size (o_rthresh o) in
  let n := steps_below (o_stride o * 4) (Z.min size limit) in let z := int_sum d (o_stride o * 4) n in
  size < 2 ^ 62 -> 0 < limit -> (forall i, (i <= n)%nat -> - 2 ^ 31 <= t_lval t + int_sum d (o_stride o * 4) i < 2 ^ 31) ->
  exists t' s1 s2 s3, onik (sys_seek_end dir_end fd) s = Ret size s1 /\ onik (sys_mmap limit fd) s1 = Ret (Some d) s2 /\ onik refused s2 = Ret false s2 /\
    touch_map o (S (length d)) size limit ttfb1 0 0 d t s2 = Ret (u64 z, t') s3 /\
    untimed t' = set_touches (t_lval t + z) (u64 (t_macc t + Z.of_nat n)) (untimed t) /\
    io_e s3 = io_e s /\ fdtab (io_k s3) = fdtab (io_k s) /\ inodes (io_k s3) = inodes (io_k s).
Proof.
  intros Hst Hm Hs Hf Ho Hi size limit n z Hsz Hlim Hv.
  set (k1 := set_ofds (<[ofd:=Ofd (Some i) (length d) true wr]> (ofds (io_k s))) (io_k s)).
  assert (H1 : onik (sys_seek_end dir_end fd) s = Ret size (set_io_k k1 s)).
  { unfold onik, sys_seek_end, ofd_of. rewrite Hf. simpl. rewrite Ho. simpl. rewrite Hi. done. }
  assert (H2 : onik (sys_mmap limit fd) (set_io_k k1 s) = Ret (Some d) (set_io_k k1 s)).
  { unfold onik. cbn [io_k set_io_k]. rewrite (mmap_ok limit fd ofd i (length d) wr d k1 Hs Hlim); [done| |exact Hi].
    unfold ofd_of. simpl. rewrite Hf. simpl. by rewrite lookup_insert_eq. }
  assert (H3 : onik refused (set_io_k k1 s) = Ret false (set_io_k k1 s)).
  { unfold onik, refused. cbn [io_k set_io_k]. change (sched k1) with (sched (io_k s)). by rewrite Hs. }
  assert (Hn : (n <= S (length d))%nat).
  { destruct n as [|m] eqn:E; [lia|]. assert (Z.of_nat m * (o_stride o * 4) < Z.min size limit) by (apply steps_below_spec; [lia|fold n; lia]). nia. }
  destruct (touch_map_from o d limit ttfb1 Hst Hsz (S (length d)) 0 d t (set_io_k k1 s)) as (t' & s3 & Hr & Ht & [Hc1 Hc2]);
    [lia|exact Hn|done|done|done|intros j Hj; change (int_sum d (o_stride o * 4) 0) with 0; rewrite Z.sub_0_r; by apply Hv|].
  exists t', (set_io_k k1 s), (set_io_k k1 s), s3. split; [exact H1|]. split; [exact H2|]. split; [exact H3|]. split; [exact Hr|].
  fold n in Ht. rewrite Nat.sub_0_r in Ht. change (int_sum d (o_stride o * 4) 0) with 0 in Ht. rewrite Z.sub_0_r in Ht.
  split; [exact Ht|]. split; [exact Hc1|]. destruct (only_clock_k _ _ (conj Hc1 Hc2)) as (E1 & E2 & _). rewrite E1, E2. done.
Qed.

(** Asking for an object and getting its descriptor. *)
Lemma descriptor_answer ofdw s nm b ofd : 0 <= ofdw ->
  rx (io_e s) = [Cell b (Some ofd)] -> rd_sched (io_e s) = [] -> wr_sched (io_e s) = [] ->
  let fd := lowest_free (fdtab (io_k s)) in
  exists z s1 s2 s3, onik sys_clock s = Ret z s1 /\ send_request ofdw nm s1 = Ret () s2 /\ get_fd s2 = Ret fd s3 /\
    tx (io_e s3) = tx (io_e s) ++ (plain <$> nm) /\ fdtab (io_k s3) = <[fd:=ofd]> (fdtab (io_k s)) /\ inodes (io_k s3) = inodes (io_k s) /\
    ofds (io_k s3) = ofds (io_k s) /\ sched (io_k s3) = sched (io_k s).
Proof.
  intros Hofd Hrx Hrd Hwr fd. destruct (clock_only s) as (z & s1 & H1 & Hc1).
  assert (Htalk : talk (io_k s1) [Cell b (Some ofd)] [] (tx (io_e s)) s1) by (destruct Hc1 as [He _]; split; rewrite ?He; done).
  destruct (send_request_talk ofdw Hofd _ _ _ _ _ nm Htalk) as (s2 & H2 & [T1 T2 T3 T4 T5]).
  destruct (get_fd_answer b ofd s2 T2 T3) as (s3 & H3 & K5 & _ & X3). exists z, s1, s2, s3.
  destruct (only_clock_k _ _ Hc1) as (K1 & K2 & K3 & K4).
  assert (K : fdtab (io_k s2) = fdtab (io_k s1) /\ inodes (io_k s2) = inodes (io_k s1) /\ ofds (io_k s2) = ofds (io_k s1) /\ sched (io_k s2) = sched (io_k s1)).
  { destruct (io_k s1), (io_k s2). unfold set_clock in T1. simpl in *. by injection T1 as -> -> -> -> -> -> ->. }
  destruct K as (L1 & L2 & L3 & L4). rewrite L1, K1 in H3, K5. split; [exact H1|]. split; [exact H2|]. split; [exact H3|].
  rewrite X3, T4, K5. simpl. rewrite L2, L3, L4, K2, K3, K4. done.
Qed.

Section Descriptor.
Context (rand : nat -> Z) (dir_end : Z) (o : client_opts) (ofdw : Z) (names : list (option (list byte))) (nfiles : Z).
Context (Hstride : 0 < o_stride o < 2 ^ 31) (Hofd : 0 <= ofdw) (Hfiles : 0 < nfiles < 2 ^ 31).
Context (Hrand : forall i, 0 <= rand i).

(** What a file does to the measurements. *)
Definition account_file (nm d : list byte) (p : Z * tally) : Z * tally :=
  let '(current, t) := p in
  let size := Z.of_nat (length d) in
  let n := steps_below (o_stride o * 4) (Z.min size (share_of size (o_rthresh o))) in
  let z := int_sum d (o_stride o * 4) n in
  let t := if contains (bs "bfilu4") nm then set_pindex current t else t in
  pick rand o nfiles (current, set_count (Z.to_nat current) (u64 z) (set_touches (t_lval t + z) (u64 (t_macc t + Z.of_nat n)) (add_bytes size t))).

(** The sum stays an [int] while it grows. *)
Definition in_int (d : list byte) (lval : Z) : Prop :=
  let size := Z.of_nat (length d) in
  forall i, (i <= steps_below (o_stride o * 4) (Z.min size (share_of size (o_rthresh o))))%nat -> - 2 ^ 31 <= lval + int_sum d (o_stride o * 4) i < 2 ^ 31.

(** A request in descriptor mode that is answered with a readable file, of which
    the threshold leaves at least one byte, adds up every [stride]-th integer of that
    share and goes on; the descriptor is closed again, and the file keeps its
    contents, with [-w] too. *)
Theorem fd_request_measures current t s nm b ofd i pos wr d :
  listed names nfiles t -> 0 <= current < nfiles -> names !! Z.to_nat current = Some (Some nm) ->
  rx (io_e s) = [Cell b (Some ofd)] -> rd_sched (io_e s) = [] -> wr_sched (io_e s) = [] -> sched (io_k s) = [] ->
  ofds (io_k s) !! ofd = Some (Ofd (Some i) pos true wr) -> inodes (io_k s) !! i = Some d -> Z.of_nat (length d) < 2 ^ 62 ->
  0 < share_of (Z.of_nat (length d)) (o_rthresh o) -> in_int d (t_lval t) ->
  exists p s', fd_request rand dir_end o ofdw names nfiles current t s = Ret (inl p) s' /\
    (p.1, untimed p.2) = account_file nm d (current, untimed t) /\ tx (io_e s') = tx (io_e s) ++ (plain <$> nm) /\
    fdtab (io_k s') = fdtab (io_k s) /\ inodes (io_k s') = inodes (io_k s).
Proof using Hstride Hofd Hfiles Hrand.
  intros (Hcnt & Hm & _) Hcur Hn Hrx Hrd Hwr Hsch Ho Hi Hsz Hlim Hv. unfold fd_request, name_at.
  rewrite (proj2 (Z.ltb_ge _ _)) by lia. rewrite Hn. change (mjoin (Some (Some nm))) with (Some nm). rewrite deref_bind. cbv zeta.
  set (t1 := if contains _ nm then _ else _). assert (Et : t_lval t1 = t_lval t /\ t_macc t1 = t_macc t /\ t_counts t1 = t_counts t) by (unfold t1; by destruct (contains _ nm)).
  destruct Et as (El & Em & Ec).
  destruct (descriptor_answer ofdw s nm b ofd Hofd Hrx Hrd Hwr) as (z1 & s1 & s2 & s3 & H1 & H2 & H3 & X3 & F3 & I3 & O3 & S3).
  run H1. run H2. run H3. rewrite (proj2 (Z.ltb_ge _ _) (lowest_free_nonneg _)). set (fd := lowest_free (fdtab (io_k s))) in *.
  destruct (descriptor_measures o (add_bytes (Z.of_nat (length d)) t1) s3 fd ofd i pos wr d z1 dir_end) as (t' & s4 & s5 & s6 & R1 & R2 & R3 & R4 & R5 & R6 & R7 & R8).
  { done. } { cbn [t_macc add_bytes]. by rewrite Em. } { by rewrite S3. } { rewrite F3. apply lookup_insert_eq. }
  { by rewrite O3. } { by rewrite I3. } { done. } { done. } { cbn [t_lval add_bytes]. rewrite El. exact Hv. }
  run R1. run R2. run R3. run R4. rewrite (bind_Ret (onik (sys_close_fd fd)) _ s6 () _ eq_refl). cbn [fst snd].
  assert (Ec' : t_counts t' = t_counts t).
  { rewrite <- Ec. change (t_counts t') with (t_counts (untimed t')). by rewrite R5. }
  unfold store_count. rewrite Ec', (proj2 (Z.leb_le _ _)), (proj2 (Z.ltb_lt _ _)) by lia. cbn [andb]. rewrite bind_ret_l.
  rewrite (bind_Ret _ _ _ _ _ (next_index_ok rand o nfiles Hfiles Hrand _ _ _ Hcur)). eexists _, _. split; [reflexivity|]. split.
  - unfold account_file, pick. rewrite <- El, <- Em in *. destruct t', t. unfold untimed, set_ttfb in *. subst t1. simpl in *.
    destruct (contains _ nm); simpl in *; injection R5 as -> -> -> -> -> ->; destruct (o_randidx o); reflexivity.
  - simpl. rewrite R6, X3, R7, R8, F3, I3. unfold fd. rewrite KernelProofs.delete_lowest_free. done.
Qed.
End Descriptor.

(** ** Sample runs *)

(** Two objects, one of them in two pieces, asked for one after the other. *)
Definition sample_opts : client_opts := ClientOpts OP_COPY true true 1 100 (Some 3).
Definition sample_names : list (option (list byte)) := [Some (bs "aa"); Some (bs "cc"); None].
Definition sample_answers : list (list (list byte)) := [[bs "hello"]; [bs "wor"; bs "ld!"]; []].
Definition sample_tally : tally := Tally 0 0 0 0 [0; 0; 0] 0 0.
Definition sample_machine (answers : list (list (list byte))) : tio :=
  Tio (Kernel ∅ ∅ ∅ {[0 := 0; 1 := 1; 2 := 2]} [] [] 0 [] [])
      (Endpoint (answers ≫= answer_cells) false [] (answers ≫= answer_reads) [] ∅ [] x00) [] [].

Lemma copy_run_measures_witness :
  exists t s, request_objects (fun _ => 0) 0 sample_opts 4 sample_names 2 OP_COPY 3 sample_tally (sample_machine sample_answers) = Ret (inl t) s /\
    t_tbytes t = 11 /\ tx (io_e s) = plain <$> bs "aaccaa".
Proof.
  destruct (copy_run_measures (fun _ => 0) 0 sample_opts 4 sample_names 2 OP_COPY sample_tally
    (io_k (sample_machine sample_answers)) sample_answers (sample_machine sample_answers)) as (t & s & Hr & _ & Hb & Hv & Hs).
  - simpl. lia.
  - lia.
  - lia.
  - intros _. lia.
  - by left.
  - done.
  - apply (bool_decide_unpack (Forall (fun cs => Forall (fun c => c <> [] /\ Z.of_nat (length c) <= RBUF) cs /\ Z.of_nat (length (data_of cs)) < 2 ^ 62) sample_answers)).
    vm_compute. exact I.
  - split; [simpl; lia|]. split; [simpl; lia|]. intros i Hi. assert (i = 0 \/ i = 1) as [-> | ->] by lia; eexists; (split; [reflexivity|simpl; lia]).
  - simpl. lia.
  - split; reflexivity.
  - exists t, s. split; [exact Hr|]. split; [rewrite Hb; reflexivity|]. rewrite (ta_tx _ _ _ _ _ Hs), Hv by done. reflexivity.
Defined.

(** The same object touched more often when it arrives in more pieces: the offsets
    start again with every read. *)
Theorem touches_depend_on_reads :
  let run answers := result_of (copy_requests (fun _ => 0) sample_opts 4 sample_names 2 1 0 sample_tally (sample_machine answers)) in
  t_macc <$> run [[bs "world!"]] = Some 2 /\ t_macc <$> run [[bs "w"; bs "o"; bs "r"; bs "l"; bs "d"; bs "!"]] = Some 6.
Proof. split; vm_compute; reflexivity. Qed.

(** Without a threshold, or for an empty file, nothing can be mapped and the client
    exits in descriptor mode. *)
Theorem no_share_no_map rand dir_end o ofdw names nfiles current t s nm b ofd i pos wr d :
  0 <= ofdw -> 0 <= current -> names !! Z.to_nat current = Some (Some nm) ->
  rx (io_e s) = [Cell b (Some ofd)] -> rd_sched (io_e s) = [] -> wr_sched (io_e s) = [] -> sched (io_k s) = [] ->
  ofds (io_k s) !! ofd = Some (Ofd (Some i) pos true wr) -> inodes (io_k s) !! i = Some d ->
  share_of (Z.of_nat (length d)) (o_rthresh o) = 0 ->
  result_of (fd_request rand dir_end o ofdw names nfiles current t s) = Some (inr ExitErrno).
Proof.
  intros Hofd Hcur Hn Hrx Hrd Hwr Hsch Ho Hi Hsh. unfold fd_request, name_at.
  rewrite (proj2 (Z.ltb_ge _ _)) by lia. rewrite Hn. change (mjoin (Some (Some nm))) with (Some nm). rewrite deref_bind. cbv zeta.
  destruct (descriptor_answer ofdw s nm b ofd Hofd Hrx Hrd Hwr) as (z1 & s1 & s2 & s3 & H1 & H2 & H3 & _ & F3 & I3 & O3 & S3).
  run H1. run H2. run H3. rewrite (proj2 (Z.ltb_ge _ _) (lowest_free_nonneg _)). set (fd := lowest_free (fdtab (io_k s))) in *.
  assert (Hse : exists s4, onik (sys_seek_end dir_end fd) s3 = Ret (Z.of_nat (length d)) s4 /\ sched (io_k s4) = []).
  { unfold onik, sys_seek_end, ofd_of. rewrite F3, lookup_insert_eq. simpl. rewrite O3, Ho. simpl. rewrite I3, Hi. eexists. split; [reflexivity|]. simpl. congruence. }
  destruct Hse as (s4 & H4 & S4). run H4. rewrite Hsh.
  assert (H5 : onik (sys_mmap 0 fd) s4 = Ret None s4) by (unfold onik, sys_mmap, refused, get, mbind, M_bind; rewrite S4; by destruct s4).
  assert (H6 : onik refused s4 = Ret false s4) by (unfold onik, refused; rewrite S4; by destruct s4).
  run H5. run H6. done.
Qed.

(** The files [names] of two bytes or more in the directory of the client, and a bridge that
    passes two descriptors, gives the mode and answers. *)
Definition sample_dir (names : list (list byte)) : kernel :=
  Kernel (<[[bs "back"]:=Dir]> (list_to_map ((fun nm => ([nm; bs "back"], File 7)) <$> names))) {[7 := bs "hello"]} ∅ {[0 := 0; 1 := 1; 2 := 2]} [] [] 0 [] [].
Definition sample_process (names : list (list byte)) (answers : list (list (list byte))) : bstate :=
  BState (sample_dir names)
    (Endpoint (plain OP_COPY :: (answers ≫= answer_cells)) false [] (IoPartial 0 :: (answers ≫= answer_reads)) [] ∅ [] x00)
    (Endpoint [Cell "X"%byte (Some 50); Cell "X"%byte (Some 51)] false [] [] [] ∅ [] x00).

(** The program from its options to the summary; and with a single file in the
    directory, where [nfiles] is 0 and even one request ends in a division by zero. *)
Theorem sample_main_runs :
  let argv := [bs "-C"; bs "-r"; bs "-c2"; bs "-t100"; bs "-s1"] in
  result_of (proto_client_main (fun _ => 0) 0 argv (sample_process [bs "aa"; bs "bb"; bs "cc"] [[bs "hello"]; [bs "world!"]])) =
    Some (Returned 0, Some (Summary 11 4 215 (bs "aa") 0 2 0 2)) /\
  proto_client_main (fun _ => 0) 0 [bs "-C"; bs "-c1"; bs "-t100"] (sample_process [bs "aa"] [[bs "hello"]]) = Fault.
Proof. split; vm_compute; reflexivity. Qed.
