(* ===== verification/ProtoSetup.v ===== *)
(** * ProtoSetup: the start of the prototype's server and bridge

    [main] of [datapass/csrc/server.c] and [bridge.c] up to their loops: the option
    [-t], the arrays of the threads, the semaphore, the store and the sockets.  The
    loops start from [main_init] and [bridge_init]. *)

From S2P Require Import Prelude Socket Kernel KernelProofs Transport ServerMain LegacyMain ProtoStore ProtoServe ProtoMain BridgeMain.

(** The [switch] of both option loops: the number of threads. *)
Definition thread_option (threadcount : Z) (o : opt) : Z :=
  match o with Opt "t" (Some a) => atoi a | _ => threadcount end.
Definition thread_count (argv : list (list byte)) : Z := foldl thread_option 1 (getopt "t:" argv).1.

(** [pthread_t workers[threadcount]]: the length must be positive.  [calloc] of the
    parameters may fail; they are first used in the loop. *)
Definition thread_arrays {S} (threadcount : Z) : M S () := if threadcount <=? 0 then fault else mret ().

(** [socket], [unlink], [bind]; an address in use is only reported.  [None]: exit
    status -1. *)
Definition main_socket (path : list byte) : M kernel (option Z) :=
  ssock ← sys_socket;
  if ssock <? 0 then mret None
  else
    _ ← sys_unlink path;
    _ ← sys_attach;
    mret (Some ssock).

Section Server.
(** The memory the store's tables are allocated in. *)
Variables (mem_items : nat -> list st_t) (mem_indexes : nat -> list he_t).

(** The number of threads and the socket. *)
Definition server_setup (argv : list (list byte)) : M pstate (option (Z * Z)) :=
  let threadcount := thread_count argv in
  _ ← thread_arrays threadcount;
  _ ← onpk sys_malloc;
  _ ← init_storage mem_items mem_indexes;
  ssock ← onpk (main_socket (bs "/tmp/mycachesock"));
  mret (pair threadcount <$> ssock).
End Server.

(** The number of threads, the socket for clients and the one to the server. *)
Definition bridge_setup (argv : list (list byte)) : M kernel (option (Z * Z * Z)) :=
  let threadcount := thread_count argv in
  _ ← thread_arrays threadcount;
  _ ← sys_malloc;
  ssock ← main_socket (bs "/tmp/mybridgesock");
  match ssock with
  | None => mret None
  | Some ssock =>
      csock ← sys_socket;
      if csock <? 0 then mret None
      else
        _ ← sys_attach;                           (* bind *)
        c ← sys_attach;                           (* connect *)
        if c <? 0 then mret None else mret (Some (threadcount, ssock, csock))
  end.

(** ** The loops: one client each *)

(** Two connected descriptors: [socketpair] or [pipe]. *)
Definition sys_pair : M kernel (option (Z * Z)) :=
  r ← refused;
  if (r : bool) then mret None
  else a ← install (Ofd None 0 true true); b ← install (Ofd None 0 true true); mret (Some (a, b)).

(** The fields of a slot that its thread uses; [p_r] is [ssock], [ssockr] of the bridge. *)
Record thread_params := ThreadParams { p_r : Z; p_w : Z; p_csock : Z; p_dssock : Z; p_type : byte }.

Definition is_copy (mode : byte) : bool := bool_decide (mode = OP_COPY) || bool_decide (mode = OP_SPLICE).

(** What a round of a main loop leads to: no thread, the parameters of a new one, or
    the end of the process. *)
Inductive round := NoThread | Spawn (p : thread_params) | Gone.

(** The message of a client: [None] is an empty one.  After a failed [recvfrom] the
    count is a large [size_t] and the buffer holds nothing. *)
Definition recv_mode (r : list byte + errno) : option (option byte) :=
  match r with inl (b :: _) => Some (Some b) | inl [] => Some None | inr _ => None end.

(** The body of the server's loop up to [pthread_create]: the client gets one end of a
    new connection. *)
Definition server_client : M tio round :=
  r ← onie (sys_recv_packet 80);
  c ← onik sys_malloc;                                  (* socks *)
  mode ← deref (recv_mode r);
  match mode with
  | None => mret NoThread
  | Some mode =>
      if negb c then fault
      else
        p ← onik sys_pair;
        match p with
        | None => mret NoThread
        | Some (ssock, csock) =>
            pret ← put_fd csock mode;
            match pret with
            | None => mret Gone
            | Some _ => mret (Spawn (ThreadParams ssock ssock csock (-1) (if is_copy mode then mode else OP_FDPASS)))
            end
        end
  end.

(** The bridge's process: the client's socket [b_c], the server's [b_d], and the
    connection the server gives, from which it waits for one byte. *)
Definition bridge_client (cd : endpoint) : M bstate round :=
  r ← onbc (onie (sys_recv_packet 80));
  c ← onbc (onik sys_malloc);                           (* socks *)
  c' ← onbc (onik sys_malloc);                          (* rsocks *)
  mode ← deref (recv_mode r);
  match mode with
  | None => mret NoThread
  | Some mode =>
      c2 ← onbc (onik sys_malloc);                      (* sio *)
      if negb c2 then fault
      else
        w ← onbd (onie (sys_write [mode]));
        match w with
        | inl O => mret Gone                            (* exit(errno) *)
        | _ =>
            cdsock ← onbd get_fd;
            _ ← (fun s => if cdsock <? 0 then Ret () s else match sys_read 1 cd with Blocked => Blocked | Fault => Fault | Ret _ _ => Ret () s end);
            if negb c || (is_copy mode && negb c') then fault
            else if is_copy mode then
              p ← onbc (onik sys_pair);
              match p with
              | None => mret NoThread
              | Some (sr, sw) =>
                  q ← onbc (onik sys_pair);
                  match q with
                  | None => mret NoThread
                  | Some (rr, rw) =>
                      pret ← onbc (put_fd rr mode);
                      match pret with
                      | None => mret Gone
                      | Some _ =>
                          rpret ← onbc (put_fd sw mode);
                          match rpret with
                          | None => mret Gone
                          | Some _ =>
                              _ ← onbc (onik (sys_close_fd rr));
                              _ ← onbc (onik (sys_close_fd sw));
                              mret (Spawn (ThreadParams sr rw sw cdsock mode))
                          end
                      end
                  end
              end
            else
              p ← onbc (onik sys_pair);
              match p with
              | None => mret NoThread
              | Some (ssock, csock) =>
                  pret ← onbc (put_fd csock mode);
                  match pret with
                  | None => mret Gone
                  | Some _ =>
                      rpret ← onbc (put_fd csock mode);
                      match rpret with
                      | None => mret Gone
                      | Some _ => mret (Spawn (ThreadParams ssock ssock csock cdsock OP_FDPASS))
                      end
                  end
              end
        end
  end.

(** ** What the loops start with *)

Lemma socket_opens k fd k' : sys_socket k = Ret fd k' -> 0 <= fd -> fdtab k !! fd = None /\ fdtab k' = <[fd:=fresh_id (ofds k)]> (fdtab k).
Proof.
  intros H Hfd. unfold sys_socket in H. minv H. unfold refused in H0. destruct (sched k) as [|[] w]; injection H0 as <- <-; try (injection H as <- <-; lia);
    (injection H as <- <-; simpl; split; [apply lowest_free_None|reflexivity]).
Qed.
Lemma main_socket_opens p k fd k' : main_socket p k = Ret (Some fd) k' -> 0 <= fd /\ fdtab k !! fd = None /\ exists o, fdtab k' = <[fd:=o]> (fdtab k).
Proof.
  intros H. unfold main_socket in H. minv H. destruct (a <? 0) eqn:E; [done|]. apply Z.ltb_ge in E. minv H. minv H. injection H as <- <-.
  destruct (socket_opens _ _ _ H0 E) as [E1 E2]. split; [done|]. split; [done|]. exists (fresh_id (ofds k)).
  by rewrite (attach_fdtab _ _ _ H2), (unlink_fdtab _ _ _ _ H1).
Qed.

(** The bridge's loop starts with a positive number of thread slots, all of them free
    and as many as the semaphore counts, and with two new sockets; without [-t] there
    is one slot. *)
Theorem bridge_setup_ready argv k n ssock csock k' :
  bridge_setup argv k = Ret (Some (n, ssock, csock)) k' ->
  1 <= n /\ bridge_reachable (Z.to_nat n) (bridge_init (Z.to_nat n)) /\ br_sem (bridge_init (Z.to_nat n)) = Z.to_nat n /\
  fdtab k !! ssock = None /\ fdtab k !! csock = None /\ ssock <> csock /\
  exists o1 o2, fdtab k' = <[csock:=o2]> (<[ssock:=o1]> (fdtab k)).
Proof.
  intros H. unfold bridge_setup, thread_arrays in H. destruct (thread_count argv <=? 0) eqn:En; [done|]. apply Z.leb_gt in En. rewrite bind_ret_l in H.
  apply bind_inv in H as (m & k1 & H1 & H). assert (Em : fdtab k1 = fdtab k) by (unfold sys_malloc in H1; destruct (k_oom k); by injection H1 as _ <-).
  apply bind_inv in H as ([fd|] & k2 & H2 & H); [|done]. destruct (main_socket_opens _ _ _ _ H2) as (Hfd & N1 & o1 & E1). rewrite Em in N1, E1.
  apply bind_inv in H as (cs & k3 & H3 & H). destruct (cs <? 0) eqn:Ec; [done|]. apply Z.ltb_ge in Ec. destruct (socket_opens _ _ _ H3 Ec) as [N2 E2].
  apply bind_inv in H as (z4 & k4 & H4 & H). apply bind_inv in H as (z5 & k5 & H5 & H). destruct (z5 <? 0); [done|]. injection H as <- <- <- <-.
  rewrite E1 in N2, E2. apply lookup_insert_None in N2 as [N2 Hne].
  split; [lia|]. split; [constructor|]. split; [done|]. split; [done|]. split; [done|]. split; [done|].
  exists o1, (fresh_id (ofds k2)). by rewrite (attach_fdtab _ _ _ H5), (attach_fdtab _ _ _ H4).
Qed.

Lemma bridge_setup_ready_witness :
  exists k', bridge_setup [bs "-t"; bs "4"] (Kernel ∅ ∅ ∅ {[0 := 0; 1 := 1; 2 := 2]} [] [] 0 [] []) = Ret (Some (4, 3, 4)) k' /\
    bridge_reachable 4 (bridge_init 4).
Proof.
  destruct (bridge_setup [bs "-t"; bs "4"] (Kernel ∅ ∅ ∅ {[0 := 0; 1 := 1; 2 := 2]} [] [] 0 [] [])) as [r k'| |] eqn:E; [|vm_compute in E; discriminate..].
  assert (Hr : r = Some (4, 3, 4)) by (vm_compute in E; injection E; congruence). subst r. exists k'. split; [reflexivity|].
  by destruct (bridge_setup_ready _ _ _ _ _ _ E) as (_ & H & _).
Defined.

(** A client's message is answered with one end of a new connection: the byte that
    carries it is the mode, and the thread is started with the other end, in the
    mode asked for (anything but copy and splice is descriptor passing). *)
Theorem server_client_connects mode rest s :
  rx (io_e s) = plain <$> (mode :: rest) -> rd_sched (io_e s) = [] -> wr_sched (io_e s) = [] -> willing (io_k s) ->
  exists ssock csock o1 o2 s', server_client s =
      Ret (Spawn (ThreadParams ssock ssock csock (-1) (if is_copy mode then mode else OP_FDPASS))) s' /\
    tx (io_e s') = tx (io_e s) ++ [Cell mode (Some o2)] /\ rx (io_e s') = [] /\
    fdtab (io_k s) !! ssock = None /\ fdtab (io_k s) !! csock = None /\ ssock <> csock /\
    fdtab (io_k s') = <[csock:=o2]> (<[ssock:=o1]> (fdtab (io_k s))).
Proof.
  intros Hrx Hrd Hwr [Hs Hm]. unfold server_client.
  assert (H1 : exists s1, onie (sys_recv_packet 80) s = Ret (inl (take 80 (mode :: rest))) s1 /\ io_k s1 = io_k s /\ rx (io_e s1) = [] /\
    tx (io_e s1) = tx (io_e s) /\ wr_sched (io_e s1) = []).
  { unfold onie, sys_recv_packet. cbn [rd_sched set_oom set_fdt rx]. rewrite Hrd, Hrx. rewrite <- list_fmap_compose, (list_fmap_ext _ id), list_fmap_id by done.
    eexists. split; [reflexivity|]. simpl. split; [by destruct (io_k s)|done]. }
  destruct H1 as (s1 & H1 & K1 & R1 & T1 & W1). run H1. rewrite <- K1 in *.
  assert (H2 : onik sys_malloc s1 = Ret true s1) by (unfold onik, sys_malloc; rewrite Hm; by destruct s1). run H2.
  cbn [take recv_mode]. rewrite deref_bind. cbn [negb].
  set (f := fdtab (io_k s1)) in *. set (a := lowest_free f). set (o1 := fresh_id (ofds (io_k s1))).
  set (k2 := with_ofd (Ofd None 0 true true) (io_k s1)). set (o2 := fresh_id (ofds k2)). set (b := lowest_free (fdtab k2)).
  assert (H3 : onik sys_pair s1 = Ret (Some (a, b)) (set_io_k (with_ofd (Ofd None 0 true true) k2) s1)).
  { unfold onik, sys_pair, refused, mbind, M_bind. rewrite Hs. reflexivity. }
  run H3. assert (Hb : fdtab (with_ofd (Ofd None 0 true true) k2) !! b = Some o2) by apply lookup_insert_eq.
  assert (H4 : exists s4, put_fd b mode (set_io_k (with_ofd (Ofd None 0 true true) k2) s1) = Ret (Some 0) s4 /\
    io_k s4 = with_ofd (Ofd None 0 true true) k2 /\ rx (io_e s4) = [] /\ tx (io_e s4) = tx (io_e s) ++ [Cell mode (Some o2)]).
  { unfold put_fd, onie, sys_sendmsg_fd, mbind, M_bind. cbn [io_k io_e set_io_k wr_sched set_oom set_fdt fdt]. rewrite W1, Hb. eexists. split; [reflexivity|].
    split; [by unfold set_k_oom, set_fdtab|]. split; [exact R1|]. simpl. by rewrite T1. }
  destruct H4 as (s4 & H4 & K4 & R4 & T4). run H4. exists a, b, o1, o2, s4. split; [done|]. split; [done|]. split; [done|].
  assert (Hnb : (fdtab k2) !! b = None) by apply lowest_free_None. unfold k2, with_ofd in Hnb. simpl in Hnb. apply lookup_insert_None in Hnb as [Hnb Hne].
  split; [apply lowest_free_None|]. split; [done|]. split; [done|]. by rewrite K4.
Qed.

(** Without [-t] both programs have one thread. *)
Lemma thread_count_default : thread_count [] = 1 /\ thread_count [bs "-t"; bs "8"] = 8 /\ thread_count [bs "-t0"] = 0.
Proof. split; [|split]; reflexivity. Qed.
