(* ===== verification/Bench.v ===== *)
(** * Bench: the benchmark program of benchmark.c

    The worker threads of the benchmark: put and get operations over the protocol
    library with their counters, long-lived and reconnecting workers, the tests of
    [main] and the removal of the objects afterwards.  A worker is a process part
    with a kernel state and one connection (the [client] of [Client]); the server
    offers it the ends of its connections.  The counters are atomic additions, which
    commute, so the workers of a test run one after the other.  Random numbers and
    times of day are parameters; what is printed is left out. *)

From S2P Require Import Prelude Socket Kernel Protocol Client Transport.

(** ** Counters *)

Inductive counter :=
| Operations | BytesTransferred | Errors | PutAttempts | PutSuccess | GetAttempts | GetSuccess
| SendErrors | RecvErrors | StatusErrors | FdErrors | IoErrors | Connects | Disconnects | TotalLatency.

#[global] Instance counter_eq_dec : EqDecision counter.
Proof. solve_decision. Defined.

Definition stats_t : Type := counter -> Z.
Definition zero_stats : stats_t := fun _ => 0.

(** [atomic_fetch_add] on a 64-bit counter. *)
Definition add_stat (c : counter) (n : Z) (g : stats_t) : stats_t := fun c' => if decide (c' = c) then u64 (g c + n) else g c'.

(** ** State *)

Record bench := Bench {
  be_c : client;
  be_stats : stats_t;
  be_ends : list endpoint;     (* the connections the server will accept *)
  be_draws : nat;              (* calls of [rand] so far *)
  be_times : nat               (* calls of [gettimeofday] so far *)
}.

Definition set_be_c (c : client) (s : bench) : bench := Bench c (be_stats s) (be_ends s) (be_draws s) (be_times s).

Definition onbe {A} (m : M client A) : M bench A := fun s =>
  match m (be_c s) with
  | Ret a c => Ret a (set_be_c c s)
  | Blocked => Blocked
  | Fault => Fault
  end.

Definition count (c : counter) (n : Z) : M bench () :=
  modify (fun s => Bench (be_c s) (add_stat c n (be_stats s)) (be_ends s) (be_draws s) (be_times s)).

Definition reset_stats : M bench () := modify (fun s => Bench (be_c s) zero_stats (be_ends s) (be_draws s) (be_times s)).

Section Bench.
Variable rand : nat -> Z.
Variable gettimeofday : nat -> Z.

Definition draw : M bench Z := fun s => Ret (rand (be_draws s)) (Bench (be_c s) (be_stats s) (be_ends s) (S (be_draws s)) (be_times s)).
Definition get_time_us : M bench Z := fun s =>
  Ret (u64 (gettimeofday (be_times s))) (Bench (be_c s) (be_stats s) (be_ends s) (be_draws s) (S (be_times s))).

(** ** Connections *)

(** [connect] fails when the server accepts no more connections. *)
Definition connect_end : M bench bool := fun s =>
  match be_ends s with
  | [] => Ret false s
  | e :: ends => Ret true (Bench (Client (cl_k (be_c s)) (Link e None)) (be_stats s) ends (be_draws s) (be_times s))
  end.

Definition connect_to_server : M bench Z :=
  sock ← onbe (onck sys_socket);
  if sock <? 0 then mret (-1)
  else
    r ← onbe (onck sys_attach);
    ok ← (if r <? 0 then mret false else connect_end);
    if negb ok then _ ← onbe (onck (sys_close_fd sock)); mret (-1)
    else _ ← count Connects 1; mret sock.

(** [objm_client_create(sock, OBJM_PROTO_V1)], kept in [conn]. *)
Definition create_conn (sock : Z) : M bench bool :=
  c ← onbe (oncl (onep (objm_client_create sock OBJM_PROTO_V1)));
  match c with
  | None => mret false
  | Some c => _ ← onbe (oncl (modify (fun l => Link (ep l) (Some c)))); mret true
  end.

Definition disconnect_from_server (sock : Z) : M bench () :=
  _ ← onbe (oncl (objm_client_close OBJM_CLOSE_NORMAL));
  _ ← onbe (oncl objm_client_destroy);
  if 0 <=? sock then _ ← onbe (onck (sys_close_fd sock)); count Disconnects 1 else mret ().

(** ** Operations *)

(** One outcome of an operation that failed. *)
Definition failed (c : counter) : M bench Z := _ ← count c 1; mret (-1).
Definition success (start bytes : Z) (c : counter) : M bench Z :=
  now ← get_time_us;
  _ ← count Operations 1;
  _ ← count c 1;
  _ ← count BytesTransferred bytes;
  _ ← count TotalLatency (u64 (now - start));
  mret 0.

(** Request and response up to the descriptor, which the response gives up: [inl] it,
    [inr] the counter of what went wrong. *)
Definition obtain_fd (uri : list byte) : M bench (Z + counter) :=
  r ← onbe (send_command uri);
  if r <? 0 then mret (inr SendErrors)
  else
    r ← onbe (oncl (objm_client_recv_response true));
    if r.1 <? 0 then mret (inr RecvErrors)
    else
      resp ← deref r.2;
      if negb (rs_status resp =? OBJM_STATUS_OK) then _ ← onbe (oncl (onep (objm_response_free (Some resp)))); mret (inr StatusErrors)
      else if rs_fd resp <? 0 then _ ← onbe (oncl (onep (objm_response_free (Some resp)))); mret (inr FdErrors)
      else mret (inl (rs_fd resp)).

(** [while (total_written < size)]: every write takes a byte or ends the loop. *)
Fixpoint write_data (fuel : nat) (fd : Z) (data : list byte) : M kernel bool :=
  match data with
  | [] => mret true
  | _ =>
      match fuel with
      | O => block
      | S fuel =>
          w ← sys_fwrite fd data;
          match w with
          | inl O | inr _ => mret false
          | inl n => write_data fuel fd (drop n data)
          end
      end
  end.

Definition do_put_operation (uri data : list byte) : M bench Z :=
  start_time ← get_time_us;
  _ ← count PutAttempts 1;
  r ← obtain_fd uri;
  match r with
  | inr c => failed c
  | inl fd =>
      s ← get;
      if bool_decide (fdtab (cl_k (be_c s)) !! fd = None) then _ ← onbe (onck (sys_close_fd fd)); failed FdErrors
      else
        ok ← onbe (onck (write_data (length data) fd data));
        _ ← onbe (onck (sys_close_fd fd));
        if negb ok then failed IoErrors else success start_time (Z.of_nat (length data)) PutSuccess
  end.

(** [while (total_read < buffer_size)]: the bytes read, until the buffer is full, the
    file ends or a read fails. *)
Fixpoint read_data (fuel : nat) (fd : Z) (room : nat) : M kernel (list byte) :=
  match room with
  | O => mret []
  | _ =>
      match fuel with
      | O => block
      | S fuel =>
          r ← sys_fread fd room;
          match r with
          | inl [] | inr _ => mret []
          | inl d => rest ← read_data fuel fd (room - length d); mret (d ++ rest)
          end
      end
  end.

(** The result and the buffer as the operation leaves it. *)
Definition do_get_operation (uri buffer : list byte) : M bench (Z * list byte) :=
  start_time ← get_time_us;
  _ ← count GetAttempts 1;
  r ← obtain_fd uri;
  match r with
  | inr c => r ← failed c; mret (r, buffer)
  | inl fd =>
      d ← onbe (onck (read_data (length buffer) fd (length buffer)));
      _ ← onbe (onck (sys_close_fd fd));
      r ← (if bool_decide (d = []) then failed IoErrors else success start_time (Z.of_nat (length d)) GetSuccess);
      mret (r, d ++ drop (length d) buffer)
  end.

(** ** Workers *)

Record worker_config_t := WorkerConfig { thread_id : Z; object_size : nat; long_lived : bool; read_write_ratio : Z }.

Fixpoint random_data (n : nat) : M bench (list byte) :=
  match n with
  | O => mret []
  | S n => r ← draw; d ← random_data n; mret (zb (Z.rem r 256) :: d)
  end.

Definition bench_uri (id : Z) : list byte := snprintf_text 256 (bs "/bench/" ++ bs (pretty id) ++ bs "/object.bin").

(** [if (op < 0) errors++]. *)
Definition note_error (r : Z) : M bench () := if r <? 0 then count Errors 1 else mret ().

(** A new connection: the socket, or -1.  The socket of a connection that cannot be
    created is closed. *)
Definition open_conn : M bench Z :=
  sock ← connect_to_server;
  if sock <? 0 then mret (-1)
  else
    ok ← create_conn sock;
    if negb ok then _ ← onbe (onck (sys_close_fd sock)); mret (-1) else mret sock.

(** One operation of the loop; the buffer afterwards. *)
Definition operate (config : worker_config_t) (do_read : bool) (uri buffer : list byte) : M bench (list byte) :=
  if do_read then r ← do_get_operation uri buffer; _ ← note_error r.1; mret r.2
  else r ← do_put_operation uri buffer; _ ← note_error r; mret buffer.

(** The loop of a worker: [rounds] is how often it finds [g_stop_test] unset. *)
Fixpoint worker_loop (config : worker_config_t) (uri : list byte) (rounds : nat) (buffer : list byte) : M bench () :=
  match rounds with
  | O => mret ()
  | S rounds =>
      x ← draw;
      let do_read := Z.rem x 100 <? read_write_ratio config in
      if long_lived config then
        buffer ← operate config do_read uri buffer;
        worker_loop config uri rounds buffer
      else
        sock ← open_conn;
        if sock <? 0 then _ ← count Errors 1; worker_loop config uri rounds buffer
        else
          buffer ← operate config do_read uri buffer;
          _ ← disconnect_from_server sock;
          worker_loop config uri rounds buffer
  end.

Definition benchmark_worker (config : worker_config_t) (rounds : nat) : M bench () :=
  m ← onbe (onck sys_malloc);
  if negb m then count Errors 1
  else
    buffer ← random_data (object_size config);
    let uri := bench_uri (thread_id config) in
    sock ← open_conn;
    if sock <? 0 then if long_lived config then count Errors 1 else mret ()
    else
      r ← do_put_operation uri buffer;
      _ ← note_error r;
      _ ← (if long_lived config then mret () else disconnect_from_server sock);
      _ ← worker_loop config uri rounds buffer;
      if long_lived config then disconnect_from_server sock else mret ().

(** ** Tests *)

(** The workers of a test, with the number of rounds of each; joining a thread that was
    not created is undefined. *)
Fixpoint run_workers (object_size : nat) (long_lived : bool) (ratio : Z) (id : Z) (rounds : list nat) : M bench bool :=
  match rounds with
  | [] => mret true
  | n :: rounds =>
      no ← onbe (onck refused);                             (* pthread_create *)
      _ ← (if no : bool then mret () else benchmark_worker (WorkerConfig id object_size long_lived ratio) n);
      ok ← run_workers object_size long_lived ratio (id + 1) rounds;
      mret (negb no && ok)
  end.

Definition run_benchmark (object_size : nat) (long_lived : bool) (ratio : Z) (rounds : list nat) : M bench () :=
  m1 ← onbe (onck sys_malloc);
  m2 ← onbe (onck sys_malloc);
  if negb m1 || negb m2 then mret ()
  else
    _ ← reset_stats;
    ok ← run_workers object_size long_lived ratio 0 rounds;
    _ ← get_time_us;
    _ ← get_time_us;
    if ok : bool then mret () else fault.

Definition OBJECT_SIZES : list nat := [Z.to_nat 1024; Z.to_nat 4096; Z.to_nat 65536; Z.to_nat (1024 * 1024)].
Definition CONCURRENCY_LEVELS : list nat := [1; 4; 16]%nat.

(** [snprintf(uri, sizeof(uri), "/delete/bench/%d/object.bin", i)]. *)
Definition cleanup_uri (i : nat) : list byte := snprintf_text 256 (bs "/delete/bench/" ++ bs (pretty (Z.of_nat i)) ++ bs "/object.bin").

Fixpoint cleanup_loop (ids : list nat) : M bench () :=
  match ids with
  | [] => mret ()
  | i :: ids =>
      _ ← onbe (send_command (cleanup_uri i));
      r ← onbe (oncl (objm_client_recv_response true));
      _ ← onbe (oncl (onep (objm_response_free r.2)));
      cleanup_loop ids
  end.

Definition cleanup_benchmark_objects : M bench () :=
  sock ← open_conn;
  if sock <? 0 then mret ()
  else _ ← cleanup_loop (seq 0 1000); disconnect_from_server sock.

(** The tests of [main]; [rounds i] are the rounds of the workers of the [i]-th. *)
Definition bench_tests : list (nat * nat * bool * Z) :=     (* threads, size, long-lived, ratio *)
  ((fun z => (1%nat, z, true, 50)) <$> OBJECT_SIZES) ++
  ((fun n => (n, Z.to_nat 4096, true, 50)) <$> CONCURRENCY_LEVELS) ++
  [(16%nat, Z.to_nat 4096, true, 50); (16%nat, Z.to_nat 4096, false, 50)] ++
  ((fun r => (16%nat, Z.to_nat (1024 * 1024), true, r)) <$> [100; 75; 50; 25; 0]).

Fixpoint run_tests (tests : list (nat * nat * bool * Z)) (rounds : nat -> nat -> nat) : M bench () :=
  match tests with
  | [] => mret ()
  | (threads, size, long, ratio) :: tests =>
      _ ← run_benchmark size long ratio (rounds (length tests) <$> seq 0 threads);
      run_tests tests rounds
  end.

Definition bench_main (rounds : nat -> nat -> nat) : M bench Z :=
  _ ← run_tests bench_tests rounds;
  _ ← cleanup_benchmark_objects;
  mret 0.
End Bench.
