(* ===== verification/BenchProofs.v ===== *)
(** * BenchProofs: the counters of the benchmark, and what a put stores

    Whatever the server answers and wherever calls fail, every attempt of an
    operation ends in exactly one of the counted outcomes; and a put that counts as
    a success has written all of its data. *)

From S2P Require Import Prelude Socket Kernel KernelProofs Protocol ProtocolProofs Client Transport ServerProofs System Bench.

(** ** Accounting *)

(** Attempts without an outcome, and operations that are no success. *)
Definition pending (g : stats_t) : Z :=
  g PutAttempts + g GetAttempts - (g PutSuccess + g GetSuccess + g SendErrors + g RecvErrors + g StatusErrors + g FdErrors + g IoErrors).
Definition unmatched (g : stats_t) : Z := g Operations - (g PutSuccess + g GetSuccess).

(** [m] leaves [d] more attempts pending and [o] more operations unmatched. *)
Definition drift {A} (d o : Z) (m : M bench A) : Prop := forall s a s', m s = Ret a s' ->
  eq64 (pending (be_stats s')) (pending (be_stats s) + d) /\ eq64 (unmatched (be_stats s')) (unmatched (be_stats s) + o).

Lemma eq64_of a b : a = b -> eq64 a b.
Proof. intros ->. reflexivity. Qed.

Lemma drift_bind {A B} d1 o1 d2 o2 (m : M bench A) (f : A -> M bench B) :
  drift d1 o1 m -> (forall a, drift d2 o2 (f a)) -> drift (d1 + d2) (o1 + o2) (m ≫= f).
Proof.
  intros Hm Hf s b s' H. apply bind_inv in H as (a & s1 & H1 & H2). destruct (Hm _ _ _ H1) as [E1 E2]. destruct (Hf _ _ _ _ H2) as [E3 E4].
  rewrite E3, E4, E1, E2. split; apply eq64_of; lia.
Qed.
(** The result of the first part may be used for the second. *)
Lemma drift_bind_post {A B} (P : A -> Prop) d o (m : M bench A) (f : A -> M bench B) :
  drift 0 0 m -> (forall s a s', m s = Ret a s' -> P a) -> (forall a, P a -> drift d o (f a)) -> drift d o (m ≫= f).
Proof.
  intros Hm HP Hf s b s' H. apply bind_inv in H as (a & s1 & H1 & H2). destruct (Hm _ _ _ H1) as [E1 E2].
  destruct (Hf a (HP _ _ _ H1) _ _ _ H2) as [E3 E4]. rewrite E3, E4, E1, E2. split; apply eq64_of; lia.
Qed.

(** Programs that leave the counters alone. *)
Definition calm_stats {A} (m : M bench A) : Prop := forall s a s', m s = Ret a s' -> be_stats s' = be_stats s.
Lemma drift_calm {A} (m : M bench A) : calm_stats m -> drift 0 0 m.
Proof. intros Hm s a s' H. rewrite (Hm _ _ _ H). split; apply eq64_of; lia. Qed.
Lemma calm_onbe {A} (m : M client A) : calm_stats (onbe m).
Proof. intros s a s' H. unfold onbe in H. destruct (m (be_c s)); [|done..]. by injection H as _ <-. Qed.
Lemma drift_onbe {A} (m : M client A) : drift 0 0 (onbe m).
Proof. apply drift_calm, calm_onbe. Qed.
Lemma drift_ret {A} (a : A) : drift 0 0 (mret a).
Proof. apply drift_calm. intros s b s' H. by injection H as _ <-. Qed.
Lemma drift_get : drift 0 0 get.
Proof. apply drift_calm. intros s b s' H. by injection H as _ <-. Qed.
Lemma drift_deref {A} (a : option A) : drift 0 0 (deref a).
Proof. destruct a; [apply drift_ret|done]. Qed.
Lemma drift_fault {A} : drift 0 0 (fault : M bench A).
Proof. done. Qed.
Lemma drift_draw rand : drift 0 0 (draw rand).
Proof. apply drift_calm. intros s b s' H. by injection H as _ <-. Qed.
Lemma drift_time t : drift 0 0 (get_time_us t).
Proof. apply drift_calm. intros s b s' H. by injection H as _ <-. Qed.
Lemma drift_end : drift 0 0 connect_end.
Proof. apply drift_calm. intros s b s' H. unfold connect_end in H. destruct (be_ends s); by injection H as _ <-. Qed.

(** What a counter counts. *)
Definition weight (c : counter) : Z :=
  match c with
  | PutAttempts | GetAttempts => 1
  | PutSuccess | GetSuccess | SendErrors | RecvErrors | StatusErrors | FdErrors | IoErrors => -1
  | _ => 0
  end.
Definition op_weight (c : counter) : Z := match c with Operations => 1 | PutSuccess | GetSuccess => -1 | _ => 0 end.

Lemma drift_count c n : drift (weight c * n) (op_weight c * n) (count c n).
Proof.
  intros s a s' H. injection H as _ <-. simpl. unfold pending, unmatched, add_stat.
  destruct c; simpl; rewrite ?u64_eq64; split; apply eq64_of; lia.
Qed.

Create HintDb drift.
#[export] Hint Resolve drift_onbe drift_ret drift_get drift_deref drift_fault drift_draw drift_time drift_end : drift.
#[export] Hint Extern 1 (drift 0 0 (count _ _)) => apply drift_count : drift.

(** Split a program along its binds and matches. *)
Ltac drifts :=
  repeat (cbv zeta;
    lazymatch goal with
    | |- drift 0 0 (_ ≫= _) => apply (drift_bind 0 0 0 0); [|intros]
    | |- drift 0 0 (match ?x with _ => _ end) => destruct x
    | _ => solve [auto with drift]
    end).

Section Drift.
Context (rand gettimeofday : nat -> Z).

Lemma drift_connect : drift 0 0 connect_to_server.
Proof. unfold connect_to_server. drifts. Qed.
Lemma drift_create sock : drift 0 0 (create_conn sock).
Proof. unfold create_conn. drifts. Qed.
Lemma drift_disconnect sock : drift 0 0 (disconnect_from_server sock).
Proof. unfold disconnect_from_server. drifts. Qed.
Hint Resolve drift_connect drift_create drift_disconnect : drift.
Lemma drift_open : drift 0 0 open_conn.
Proof. unfold open_conn. drifts. Qed.

(** A failed operation has the counter of one of the failures. *)
Lemma drift_failed c : weight c = -1 /\ op_weight c = 0 -> drift (-1) 0 (failed c).
Proof.
  intros [E1 E2]. unfold failed. apply (drift_bind (-1) 0 0 0); [|intros; apply drift_ret]. pose proof (drift_count c 1) as H. by rewrite E1, E2 in H.
Qed.
Lemma drift_success start bytes c : weight c = -1 /\ op_weight c = -1 -> drift (-1) 0 (success gettimeofday start bytes c).
Proof.
  intros [E1 E2]. unfold success. apply (drift_bind 0 0 (-1) 0); [auto with drift|intros now].
  apply (drift_bind 0 1 (-1) (-1)); [apply (drift_count Operations 1)|intros _].
  apply (drift_bind (-1) (-1) 0 0); [pose proof (drift_count c 1) as H; by rewrite E1, E2 in H|intros _].
  apply (drift_bind 0 0 0 0); [apply (drift_count BytesTransferred)|intros _].
  apply (drift_bind 0 0 0 0); [apply (drift_count TotalLatency)|intros _]. apply drift_ret.
Qed.
Lemma drift_obtain uri : drift 0 0 (obtain_fd uri).
Proof. unfold obtain_fd. drifts. Qed.

Definition is_failure (r : Z + counter) : Prop := match r with inl _ => True | inr c => weight c = -1 /\ op_weight c = 0 end.
Lemma obtain_failure uri s r s' : obtain_fd uri s = Ret r s' -> is_failure r.
Proof.
  unfold obtain_fd. intros H. apply bind_inv in H as (a & s1 & _ & H). destruct (a <? 0); [by injection H as <- _|].
  apply bind_inv in H as ([a1 o] & s2 & _ & H). cbn [fst snd] in H. destruct (a1 <? 0); [by injection H as <- _|].
  apply bind_inv in H as (resp & s3 & _ & H). destruct (negb _); [apply bind_inv in H as (? & s4 & _ & H); by injection H as <- _|].
  destruct (rs_fd resp <? 0); [apply bind_inv in H as (? & s4 & _ & H); by injection H as <- _|]. by injection H as <- _.
Qed.

(** The shape of both operations: an attempt, a descriptor or a failure, and one more
    outcome. *)
Lemma drift_operation {A} c uri (f : Z -> Z + counter -> M bench A) : weight c = 1 /\ op_weight c = 0 ->
  (forall start r, is_failure r -> drift (-1) 0 (f start r)) ->
  drift 0 0 (start ← get_time_us gettimeofday; _ ← count c 1; r ← obtain_fd uri; f start r).
Proof.
  intros [E1 E2] Hf. apply (drift_bind 0 0 0 0); [auto with drift|intros start].
  apply (drift_bind 1 0 (-1) 0); [pose proof (drift_count c 1) as H; by rewrite E1, E2 in H|intros _].
  apply (drift_bind_post is_failure); [apply drift_obtain|apply obtain_failure|auto].
Qed.

Lemma drift_put uri data : drift 0 0 (do_put_operation gettimeofday uri data).
Proof.
  unfold do_put_operation. apply drift_operation; [done|]. intros start [fd|c] Hr; [|by apply drift_failed].
  apply (drift_bind 0 0 (-1) 0); [auto with drift|intros s]. destruct (bool_decide _).
  - apply (drift_bind 0 0 (-1) 0); [auto with drift|intros _]. by apply drift_failed.
  - apply (drift_bind 0 0 (-1) 0); [auto with drift|intros ok]. apply (drift_bind 0 0 (-1) 0); [auto with drift|intros _].
    destruct (negb ok); [by apply drift_failed|by apply drift_success].
Qed.
Lemma drift_get_operation uri buffer : drift 0 0 (do_get_operation gettimeofday uri buffer).
Proof.
  unfold do_get_operation. apply drift_operation; [done|]. intros start [fd|c] Hr.
  - apply (drift_bind 0 0 (-1) 0); [auto with drift|intros d]. apply (drift_bind 0 0 (-1) 0); [auto with drift|intros _].
    apply (drift_bind (-1) 0 0 0); [|intros; apply drift_ret]. destruct (bool_decide _); [by apply drift_failed|by apply drift_success].
  - apply (drift_bind (-1) 0 0 0); [by apply drift_failed|intros; apply drift_ret].
Qed.
Hint Resolve drift_open drift_put drift_get_operation : drift.

Lemma drift_note r : drift 0 0 (note_error r).
Proof. unfold note_error. drifts. Qed.
Hint Resolve drift_note : drift.
Lemma drift_operate config b uri buffer : drift 0 0 (operate gettimeofday config b uri buffer).
Proof. unfold operate. drifts. Qed.
Hint Resolve drift_operate : drift.
Lemma drift_random n : drift 0 0 (random_data rand n).
Proof. induction n as [|n IH]; cbn [random_data]; drifts. Qed.
Lemma drift_loop config uri rounds : forall buffer, drift 0 0 (worker_loop rand gettimeofday config uri rounds buffer).
Proof. induction rounds as [|rounds IH]; intros buffer; cbn [worker_loop]; drifts. Qed.
Hint Resolve drift_random drift_loop : drift.
Lemma drift_worker config rounds : drift 0 0 (benchmark_worker rand gettimeofday config rounds).
Proof. unfold benchmark_worker. drifts. Qed.
Hint Resolve drift_worker : drift.
Lemma drift_workers size long ratio rounds : forall id, drift 0 0 (run_workers rand gettimeofday size long ratio id rounds).
Proof. induction rounds as [|n rounds IH]; intros id; cbn [run_workers]; drifts. Qed.
End Drift.

(** C25: The benchmark's counters add up.  After a test of any size, with long-lived or
    fresh connections and any mix of reads and writes, whatever the server and the
    kernel answer, every attempt of an operation has been counted with exactly one
    outcome (a success, or one kind of error), and the operations are the successes,
    in 64-bit counters. *)
Theorem benchmark_accounts rand gettimeofday size long ratio rounds s s' :
  run_benchmark rand gettimeofday size long ratio rounds s = Ret () s' -> k_oom (cl_k (be_c s)) = [] ->
  let g := be_stats s' in
  u64 (g PutAttempts + g GetAttempts) =
    u64 (g PutSuccess + g GetSuccess + g SendErrors + g RecvErrors + g StatusErrors + g FdErrors + g IoErrors) /\
  u64 (g Operations) = u64 (g PutSuccess + g GetSuccess).
Proof.
  intros H Hoom g. unfold run_benchmark in H.
  assert (Hm : onbe (onck sys_malloc) s = Ret true s) by (unfold onbe, onck, sys_malloc; rewrite Hoom; by destruct s as [[]]).
  rewrite (bind_Ret _ _ _ _ _ Hm), (bind_Ret _ _ _ _ _ Hm) in H. cbn [negb orb] in H.
  apply bind_inv in H as ([] & u & Hu & H). injection Hu as <-. apply bind_inv in H as (ok & s1 & H1 & H2).
  assert (Hs : be_stats s' = be_stats s1).
  { apply bind_inv in H2 as (? & s2 & H3 & H2). apply bind_inv in H2 as (? & s3 & H4 & H2). injection H3 as _ <-. injection H4 as _ <-.
    destruct ok; [|done]. by injection H2 as <-. }
  unfold g. rewrite Hs. destruct (drift_workers _ _ _ _ _ _ _ _ _ _ H1) as [E1 E2].
  change (pending (be_stats _) + 0) with 0 in E1. change (unmatched (be_stats _) + 0) with 0 in E2. unfold pending, unmatched in E1, E2.
  destruct E1 as [k1 E1], E2 as [k2 E2]. split; apply eq64_u64; [exists k1|exists k2]; lia.
Qed.

(** ** What a put stores *)

(** Two writes in a row are one. *)
Lemma write_at_app c pos d1 d2 : (pos <= length c)%nat -> write_at (write_at c pos d1) (pos + length d1) d2 = write_at c pos (d1 ++ d2).
Proof.
  intros Hp. unfold write_at. replace (pos - length c)%nat with 0%nat by lia. cbn [replicate]. rewrite !app_nil_r.
  assert (E : length (take pos c) = pos) by (rewrite length_take; lia).
  match goal with |- context [replicate ?n _] => replace n with 0%nat by (rewrite !length_app, E; lia) end. cbn [replicate]. rewrite app_nil_r.
  rewrite (app_assoc (take pos c) d1), take_app_length' by (rewrite length_app; lia).
  rewrite drop_app_ge by (rewrite length_app; lia). rewrite drop_drop, !length_app, E, <- !app_assoc. do 4 f_equal. lia.
Qed.
Lemma length_write_at c pos d : (pos <= length c)%nat -> (pos + length d <= length (write_at c pos d))%nat.
Proof. intros H. unfold write_at. rewrite !length_app, length_take, length_app, length_replicate. lia. Qed.

(** The description [o] behind [fd], at [pos] of the file [i] with contents [c]. *)
Definition positioned (fd o i : Z) (rd : bool) (pos : nat) (c : list byte) (k : kernel) : Prop :=
  ofd_of k fd = Some (o, Ofd (Some i) pos rd true) /\ inodes k !! i = Some c /\ (pos <= length c)%nat.

(** One write takes a prefix of the data. *)
Lemma fwrite_prefix fd o i rd pos c d k n k' : positioned fd o i rd pos c k -> sys_fwrite fd d k = Ret (inl n) k' ->
  (n <= length d)%nat /\ positioned fd o i rd (pos + n) (write_at c pos (take n d)) k'.
Proof.
  intros (Ho & Hi & Hp) H. assert (Hgo : exists q w, n = length (take q d) /\
    k' = set_sched w (set_ofds (<[o:=Ofd (Some i) (pos + length (take q d)) rd true]> (ofds k)) (set_inodes (<[i:=write_at c pos (take q d)]> (inodes k)) k))).
  { unfold sys_fwrite in H. rewrite Ho, Hi in H. simpl in H. destruct (sched k) as [|[q| |] w]; [| |done..]; injection H as <- <-; eauto. }
  destruct Hgo as (q & w & -> & ->). split; [rewrite length_take; lia|].
  assert (Hd : take (length (take q d)) d = take q d).
  { rewrite length_take. destruct (decide (q <= length d)%nat); [by rewrite Nat.min_l by lia|]. rewrite Nat.min_r by lia. by rewrite !take_ge by lia. }
  rewrite Hd. split; [|split].
  - unfold ofd_of in *. simpl. destruct (fdtab k !! fd) as [o'|] eqn:Ef; [|done]. simpl in *. destruct (ofds k !! o') as [e|] eqn:Ee; [|done].
    simpl in Ho. injection Ho as -> ->. by rewrite lookup_insert_eq.
  - simpl. apply lookup_insert_eq.
  - by apply length_write_at.
Qed.

(** A loop that reports success has written everything, in one piece, however the
    kernel split it. *)
Lemma write_data_stores fd o i rd : forall fuel data pos c k k', positioned fd o i rd pos c k ->
  write_data fuel fd data k = Ret true k' -> positioned fd o i rd (pos + length data) (write_at c pos data) k'.
Proof.
  induction fuel as [|fuel IH]; intros [|b data] pos c k k' Hk H; try discriminate H.
  1,2: injection H as <-; rewrite Nat.add_0_r; destruct Hk as (Ho & Hi & Hp); repeat split; try done;
       unfold write_at; replace (pos - length c)%nat with 0%nat by lia; simpl; rewrite app_nil_r, Nat.add_0_r, take_drop; done.
  cbn [write_data] in H. apply bind_inv in H as ([n|e] & k1 & H1 & H); [|discriminate H].
  destruct (fwrite_prefix _ _ _ _ _ _ _ _ _ _ Hk H1) as [Hn Hk1]. destruct n as [|n]; [discriminate H|].
  specialize (IH _ _ _ _ _ Hk1 H). destruct Hk as (_ & _ & Hp).
  replace (pos + S n)%nat with (pos + length (take (S n) (b :: data)))%nat in IH at 2 by (rewrite length_take; lia).
  rewrite write_at_app, take_drop in IH by done. replace (pos + length (b :: data))%nat with (pos + S n + length (drop (S n) (b :: data)))%nat by (rewrite length_drop; lia).
  exact IH.
Qed.

(** The loops end: they never run out of rounds. *)
Lemma write_data_ends fd : forall fuel data k, (length data <= fuel)%nat -> write_data fuel fd data k <> Blocked.
Proof.
  induction fuel as [|fuel IH]; intros [|b data] k Hl; try done; [simpl in Hl; lia|]. cbn [write_data].
  destruct (sys_fwrite fd (b :: data) k) as [r k1| |] eqn:E.
  - rewrite (bind_Ret _ _ _ _ _ E). destruct r as [[|n]|]; try done. apply IH. rewrite length_drop. simpl in *. lia.
  - exfalso. unfold sys_fwrite in E. destruct (sched k) as [|[| |] ?], (ofd_of k fd) as [[? [[?|] ? ? []]]|]; discriminate E.
  - cbv [mbind M_bind]. rewrite E. done.
Qed.

Lemma read_data_ends fd : forall fuel room k, (room <= fuel)%nat -> read_data fuel fd room k <> Blocked.
Proof.
  induction fuel as [|fuel IH]; intros [|room] k Hl; try done; [lia|]. cbn [read_data].
  destruct (sys_fread fd (S room) k) as [r k1| |] eqn:E.
  - rewrite (bind_Ret _ _ _ _ _ E). destruct r as [[|b d]|]; try done. cbv [mbind M_bind].
    specialize (IH (S room - length (b :: d))%nat k1). destruct (read_data fuel _ _ _); try done. intros _. apply IH; [simpl; lia|done].
  - exfalso. unfold sys_fread in E. destruct (sched k) as [|[| |] ?], (ofd_of k fd) as [[? [[?|] ? [] ?]]|]; discriminate E.
  - cbv [mbind M_bind]. rewrite E. done.
Qed.

Lemma close_inodes fd k r k' : sys_close_fd fd k = Ret r k' -> inodes k' = inodes k.
Proof.
  unfold sys_close_fd. intros H.
  repeat match type of H with context [match ?x with _ => _ end] => destruct x end; try discriminate H; by injection H as _ <-.
Qed.

(** A put that returns 0 obtained a descriptor; when it is open for writing on a file,
    the file now holds all of the data from the position the descriptor had. *)
Theorem put_success_stores t uri data s s' : do_put_operation t uri data s = Ret 0 s' ->
  exists fd s1 s2, obtain_fd uri s1 = Ret (inl fd) s2 /\ fdtab (cl_k (be_c s2)) !! fd <> None /\
    forall o i rd pos c, positioned fd o i rd pos c (cl_k (be_c s2)) ->
      inodes (cl_k (be_c s')) !! i = Some (write_at c pos data).
Proof.
  unfold do_put_operation. intros H. apply bind_inv in H as (start & u & _ & H). apply bind_inv in H as ([] & s1 & _ & H).
  apply bind_inv in H as (r & s2 & Hr & H). destruct r as [fd|c]; [|apply bind_inv in H as (? & ? & _ & H); discriminate H].
  exists fd, s1, s2. split; [done|]. rewrite (bind_Ret get _ _ _ _ eq_refl) in H. case_bool_decide as Hfd.
  { apply bind_inv in H as (? & ? & _ & H). apply bind_inv in H as (? & ? & _ & H). discriminate H. }
  split; [done|]. intros o i rd pos c Hk. apply bind_inv in H as (ok & s3 & H3 & H). apply bind_inv in H as (? & s4 & H4 & H).
  destruct ok; [|apply bind_inv in H as (? & ? & _ & H); discriminate H]. cbn [negb] in H.
  assert (Hs : cl_k (be_c s') = cl_k (be_c s4)).
  { unfold success in H. repeat (apply bind_inv in H as (? & ? & E & H); injection E as _ <-). by injection H as <-. }
  rewrite Hs. unfold onbe, onck in H3, H4.
  destruct (write_data _ _ _ _) as [b k3| |] eqn:E3; [|done..]. injection H3 as -> <-.
  destruct (sys_close_fd _ _) as [b4 k4| |] eqn:E4; [|done..]. injection H4 as _ <-. simpl in *.
  rewrite (close_inodes _ _ _ _ E4). by destruct (write_data_stores _ _ _ _ _ _ _ _ _ _ Hk E3) as (_ & ? & _).
Qed.

(** ** A sample test *)

(** A server that answers with a descriptor, then with an error; then it goes away. *)
Definition sample_bench : bench :=
  Bench (Client (Kernel {[ [bs "f"] := File 9 ]} {[ 9 := [] ]} {[ 50 := Ofd (Some 9) 0 true true ]} {[0 := 0; 1 := 1; 2 := 2]} [] [] 0 [] [])
          (Link (Endpoint [] true [] [] [] ∅ [] x00) None))
    zero_stats
    [Endpoint (response_wire OBJM_PROTO_V1 {[5 := 50]} (Response 0 OBJM_STATUS_OK 5 0 None 0 None) ++
               response_wire OBJM_PROTO_V1 ∅ (Response 0 OBJM_STATUS_NOT_FOUND (-1) 0 None 0 None)) true [] [] [] ∅ [] x00] 0 0.

Lemma benchmark_accounts_witness :
  exists s', run_benchmark (fun n => Z.of_nat n) (fun _ => 7) 3 true 50 [3%nat] sample_bench = Ret () s' /\
    be_stats s' <$> [PutAttempts; GetAttempts; PutSuccess; GetSuccess; StatusErrors; RecvErrors; Operations; BytesTransferred] = [1; 3; 1; 0; 1; 2; 1; 3] /\
    u64 (be_stats s' Operations) = u64 (be_stats s' PutSuccess + be_stats s' GetSuccess).
Proof.
  destruct (run_benchmark (fun n => Z.of_nat n) (fun _ => 7) 3 true 50 [3%nat] sample_bench) as [[] s'| |] eqn:E; [|vm_compute in E; discriminate..].
  exists s'. split; [reflexivity|]. split; [vm_compute in E; injection E as <-; vm_compute; reflexivity|].
  exact (proj2 (benchmark_accounts _ _ _ _ _ _ _ _ E eq_refl)).
Defined.
