(* ===== verification/Demo.v ===== *)
(** * Demo: the demonstration of the backend manager (demo_integration.c)

    A program on the backend manager alone: it registers a memory and a persistent
    backend, creates three objects through their descriptors, reads them back, reads
    one of them ten times more, starts and stops the caching thread and deletes
    everything.  What it prints is its result, as a list of [line]s. *)

From S2P Require Import Prelude Kernel Index Backend.

(** ** Output *)

Inductive line :=
| LStatus (name : string) (status : option (Z * Z * Z))      (* capacity, used bytes, objects *)
| LCreateFailed (uri : list byte)
| LCreated (uri : list byte) (fd : Z) (ephemeral : bool)
| LGetFailed (uri : list byte)
| LRead (uri contents : list byte)
| LMetadata (backend size : Z) (hotness : spec_float) (access_count : Z)
| LCaching (started : bool)
| LDeleted (uri : list byte) (ok : bool)
| LRegisterFailed (name : string)
| LRegistered (name : string) (id : Z).

(** ** Objects *)

Definition demo_objects : list (list byte * list byte * bool) :=      (* URI, contents, ephemeral *)
  [ (bs "/data/file1.txt", bs "This is file 1 content", false);
    (bs "/data/file2.txt", bs "This is file 2 content", false);
    (bs "/cache/temp1.txt", bs "This is temporary data", true) ].

Definition print_backend_status (id : Z) (name : string) : M bstate (list line) :=
  r ← backend_get_status id;
  match r with
  | (0, Some (capacity, used, count, _)) => mret [LStatus name (Some (capacity, used, count))]
  | _ => mret [LStatus name None]
  end.

(** One round of the loop that creates; the result of the write is only printed. *)
Definition demo_create (o : list byte * list byte * bool) : M bstate (list line) :=
  let '(uri, contents, ephemeral) := o in
  r ← backend_create_object (Some (CreateReq (Some uri) (-1) ephemeral (Z.of_nat (length contents)) 0)) true;
  if r.1 <? 0 then mret [LCreateFailed uri]
  else
    ref ← deref r.2;
    _ ← onw (onk (sys_fwrite (fr_fd ref) contents));
    _ ← backend_update_size (Some uri) (Z.of_nat (length contents));
    _ ← onw (fd_ref_release (Some ref));
    mret [LCreated uri (fr_fd ref) ephemeral].

(** One round of the loop that reads back. *)
Definition demo_read (o : list byte * list byte * bool) : M bstate (list line) :=
  let '(uri, _, _) := o in
  r ← backend_get_object (Some uri) true;
  if r.1 <? 0 then mret [LGetFailed uri]
  else
    ref ← deref r.2;
    _ ← onw (onk (sys_rewind (fr_fd ref)));
    d ← onw (onk (sys_fread (fr_fd ref) 255));
    _ ← onw (fd_ref_release (Some ref));
    match d with
    | inl ((_ :: _) as d) => mret [LRead uri (c_str (d ++ [x00]))]
    | _ => mret []
    end.

(** The outputs of the rounds of a loop, in order. *)
Fixpoint each {A} (f : A -> M bstate (list line)) (l : list A) : M bstate (list line) :=
  match l with
  | [] => mret []
  | a :: l => x ← f a; y ← each f l; mret (x ++ y)
  end.

Definition demo_create_and_read : M bstate (list line) :=
  x ← each demo_create demo_objects;
  y ← each demo_read demo_objects;
  mret (x ++ y).

(** ** Hotness *)

Definition demo_uri : list byte := bs "/data/file1.txt".

Definition demo_access (i : nat) : M bstate (list line) :=
  r ← backend_get_object (Some demo_uri) true;
  if r.1 =? 0 then
    ref ← deref r.2;
    _ ← onw (onk (sys_fread (fr_fd ref) 128));
    _ ← onw (fd_ref_release (Some ref));
    mret []
  else mret [].

Definition demo_hotness_tracking : M bstate (list line) :=
  _ ← each demo_access (seq 0 10);
  r ← backend_get_metadata (Some demo_uri);
  match r with
  | (0, Some md) => mret [LMetadata (om_backend_id md) (om_size_bytes md) (om_hotness md) (om_access_count md)]
  | _ => mret []
  end.

(** ** Caching and deletion *)

Definition demo_caching : M bstate (list line) :=
  r ← backend_start_caching 1000000 (dlit 5 10);
  if r =? 0 then _ ← backend_stop_caching; mret [LCaching true] else mret [LCaching false].

Definition demo_remove (o : list byte * list byte * bool) : M bstate (list line) :=
  let '(uri, _, _) := o in
  r ← backend_delete_object (Some uri);
  mret [LDeleted uri (r =? 0)].

Definition demo_delete : M bstate (list line) := each demo_remove demo_objects.

(** ** The program *)

Definition DEMO_MEMORY_SIZE : Z := 1 * 1024 * 1024 * 1024.
Definition DEMO_PERSISTENT_SIZE : Z := 10 * 1024 * 1024 * 1024.
Definition DEMO_MEMORY_FLAGS : Z :=
  Z.lor (Z.lor (Z.lor BACKEND_FLAG_EPHEMERAL_ONLY BACKEND_FLAG_ENABLED) BACKEND_FLAG_MIGRATION_SRC) BACKEND_FLAG_MIGRATION_DST.
Definition DEMO_PERSISTENT_FLAGS : Z :=
  Z.lor (Z.lor (Z.lor BACKEND_FLAG_PERSISTENT BACKEND_FLAG_ENABLED) BACKEND_FLAG_MIGRATION_SRC) BACKEND_FLAG_MIGRATION_DST.
Definition demo_memory_path : list byte := bs "/tmp/objmapper_memory".
Definition demo_persistent_path : list byte := bs "/tmp/objmapper_persistent".

(** Set-up: the ids of the two backends, or the output of a failure. *)
Definition demo_setup : M bstate (Z * Z + list line) :=
  _ ← onw (onk (sys_mkdir demo_memory_path));
  memory_id ← backend_manager_register BACKEND_TYPE_MEMORY (Some demo_memory_path) (Some (bs "Memory Cache")) DEMO_MEMORY_SIZE DEMO_MEMORY_FLAGS;
  if memory_id <? 0 then _ ← backend_manager_destroy; mret (inr [LRegisterFailed "memory"])
  else
    _ ← onw (onk (sys_mkdir demo_persistent_path));
    persistent_id ← backend_manager_register BACKEND_TYPE_SSD (Some demo_persistent_path) (Some (bs "Persistent SSD")) DEMO_PERSISTENT_SIZE DEMO_PERSISTENT_FLAGS;
    if persistent_id <? 0 then _ ← backend_manager_destroy; mret (inr [LRegistered "memory" memory_id; LRegisterFailed "persistent"])
    else
      _ ← backend_manager_set_default persistent_id;
      _ ← backend_manager_set_ephemeral memory_id;
      _ ← backend_manager_set_cache memory_id;
      mret (inl (memory_id, persistent_id)).

Definition demo_status (memory_id persistent_id : Z) : M bstate (list line) :=
  x ← print_backend_status memory_id "Memory";
  y ← print_backend_status persistent_id "Persistent";
  mret (x ++ y).

(** The calls between set-up and the destruction of the manager. *)
Definition demo_body (memory_id persistent_id : Z) : M bstate (list line) :=
  s0 ← demo_status memory_id persistent_id;
  c ← demo_create_and_read;
  s1 ← demo_status memory_id persistent_id;
  h ← demo_hotness_tracking;
  k ← demo_caching;
  s2 ← demo_status memory_id persistent_id;
  d ← demo_delete;
  s3 ← demo_status memory_id persistent_id;
  mret ([LRegistered "memory" memory_id; LRegistered "persistent" persistent_id] ++ s0 ++ c ++ s1 ++ h ++ k ++ s2 ++ d ++ s3).

(** The exit status and the output. *)
Definition demo_main : M bstate (Z * list line) :=
  ok ← backend_manager_create 8192 1000;
  if negb ok then mret (1, [])
  else
    r ← demo_setup;
    match r with
    | inr l => mret (1, l)
    | inl (memory_id, persistent_id) =>
        l ← demo_body memory_id persistent_id;
        _ ← backend_manager_destroy;
        mret (0, l)
    end.
