(* ===== verification/DemoProofs.v ===== *)
(** * DemoProofs: the demonstration program

    On every run, with whatever failures, the manager's books balance until it is
    destroyed and no manager is left; and the run recorded in
    INTEGRATION_DEMO_RESULTS.md is the run of the model. *)

From S2P Require Import Prelude Socket Kernel Index Backend BackendProofs Accounting Demo.

(** ** Every run *)

#[local] Hint Extern 3 (keeps booked _) => (apply booked_all; intros; solve [auto with keeps]) : keeps.

Lemma booked_each {A} (f : A -> M bstate (list line)) l : (forall a, keeps booked (f a)) -> keeps booked (each f l).
Proof. intros Hf. induction l as [|a l IH]; cbn [each]; keeps. Qed.
Lemma booked_query {A} id (f : backend_info -> A) : keeps booked (query id f).
Proof. unfold query, backend_manager_get_backend. keeps. Qed.
#[local] Hint Resolve booked_each booked_query : keeps.

Lemma booked_print id name : keeps booked (print_backend_status id name).
Proof. unfold print_backend_status, backend_get_status. keeps. Qed.
Lemma booked_create o : keeps booked (demo_create o).
Proof. unfold demo_create. keeps. Qed.
Lemma booked_read o : keeps booked (demo_read o).
Proof. unfold demo_read. keeps. Qed.
Lemma booked_access i : keeps booked (demo_access i).
Proof. unfold demo_access. keeps. Qed.
Lemma booked_remove o : keeps booked (demo_remove o).
Proof. unfold demo_remove. keeps. Qed.
#[local] Hint Resolve booked_print booked_create booked_read booked_access booked_remove : keeps.
Lemma booked_body i j : keeps booked (demo_body i j).
Proof. unfold demo_body, demo_status, demo_create_and_read, demo_hotness_tracking, demo_caching, demo_delete. keeps. Qed.
Lemma booked_setup : keeps booked demo_setup.
Proof. unfold demo_setup. keeps. Qed.

(** The books balance after the demonstration's last call, when the manager is about
    to be destroyed. *)
Theorem demo_balances s u s1 r s2 i j l s' m :
  bm s = None -> backend_manager_create 8192 1000 s = Ret u s1 -> demo_setup s1 = Ret r s2 -> demo_body i j s2 = Ret l s' -> bm s' = Some m ->
  total_objects m = u64 (sum (object_count <$> backends m)) /\ total_bytes m = u64 (sum (used_bytes <$> backends m)).
Proof.
  intros H0 H1 H2 H3. apply booked_balance. eapply booked_body; [|exact H3]. eapply booked_setup; [|exact H2].
  eapply booked_create_manager; [|exact H1]. by apply booked_start.
Qed.

Lemma destroy_leaves_none s s' : backend_manager_destroy s = Ret () s' -> bm s' = None.
Proof.
  unfold backend_manager_destroy. intros H. apply bind_inv in H as (m & s1 & H1 & H). injection H1 as <- <-.
  destruct (bm s) as [m|] eqn:E; [|by injection H as <-].
  apply bind_inv in H as (? & s2 & _ & H). apply bind_inv in H as (? & s3 & _ & H). apply bind_inv in H as (? & s4 & _ & H). by injection H as <-.
Qed.

Lemma create_fails_none nb mx s s' : bm s = None -> backend_manager_create nb mx s = Ret false s' -> bm s' = None.
Proof.
  unfold backend_manager_create. intros H0 H. apply bind_inv in H as (b & s1 & H1 & H). apply bm_onw in H1.
  destruct b; cbn [negb] in H; [|by injection H as <-; rewrite H1]. apply bind_inv in H as (g & s2 & H2 & H). apply bm_onw in H2.
  destruct (g =? NULL); [by injection H as <-; congruence|]. apply bind_inv in H as (b & s3 & H3 & H). apply bm_onw in H3.
  destruct b; cbn [negb] in H; [apply bind_inv in H as (? & ? & _ & H); discriminate H|].
  apply bind_inv in H as (? & s4 & H4 & H). apply bm_onw in H4. injection H as <-. congruence.
Qed.
(** A set-up that fails has destroyed the manager. *)
Lemma setup_fails_none s l s' : demo_setup s = Ret (inr l) s' -> bm s' = None.
Proof.
  unfold demo_setup. intros H. apply bind_inv in H as (? & s1 & _ & H). apply bind_inv in H as (mid & s2 & _ & H).
  destruct (mid <? 0); [apply bind_inv in H as ([] & s3 & H3 & H); injection H as _ <-; by eapply destroy_leaves_none|].
  apply bind_inv in H as (? & s3 & _ & H). apply bind_inv in H as (pid & s4 & _ & H).
  destruct (pid <? 0); [apply bind_inv in H as ([] & s5 & H5 & H); injection H as _ <-; by eapply destroy_leaves_none|].
  do 3 apply bind_inv in H as (? & ? & _ & H). discriminate H.
Qed.

(** However the demonstration ends, it leaves no manager, and its status is
    0 or 1. *)
Theorem demo_cleans_up s st l s' : bm s = None -> demo_main s = Ret (st, l) s' -> bm s' = None /\ (st = 0 \/ st = 1).
Proof.
  unfold demo_main. intros H0 H. apply bind_inv in H as (ok & s1 & H1 & H).
  destruct ok; cbn [negb] in H; [|injection H as <- _ <-; eauto using create_fails_none].
  apply bind_inv in H as (r & s2 & H2 & H). destruct r as [[i j]|x]; [|injection H as <- _ <-; eauto using setup_fails_none].
  apply bind_inv in H as (y & s3 & _ & H). apply bind_inv in H as ([] & s4 & H4 & H). injection H as <- _ <-. eauto using destroy_leaves_none.
Qed.

(** ** The recorded run *)

Definition demo_start (l : list io_event) (oom : list bool) : bstate :=
  BState (World (Kernel {[ [bs "tmp"] := Dir ]} ∅ ∅ {[0 := 0; 1 := 1; 2 := 2]} l [] 0 oom []) ∅ ∅ ∅ 1 x00) None.

(** What the demonstration prints of a backend. *)
Definition status_of (name : string) (capacity used objects : Z) : line := LStatus name (Some (capacity, used, objects)).

Definition demo_output : list line :=
  [LRegistered "memory" 0; LRegistered "persistent" 1;
   status_of "Memory" DEMO_MEMORY_SIZE 0 0; status_of "Persistent" DEMO_PERSISTENT_SIZE 0 0] ++
  ((fun o => LCreated o.1.1 3 o.2) <$> demo_objects) ++
  ((fun o => LRead o.1.1 o.1.2) <$> demo_objects) ++
  [status_of "Memory" DEMO_MEMORY_SIZE 22 1; status_of "Persistent" DEMO_PERSISTENT_SIZE 44 2;
   LMetadata 1 22 (S754_zero false) 24; LCaching true;
   status_of "Memory" DEMO_MEMORY_SIZE 22 1; status_of "Persistent" DEMO_PERSISTENT_SIZE 44 2] ++
  ((fun o => LDeleted o.1.1 true) <$> demo_objects) ++
  [status_of "Memory" DEMO_MEMORY_SIZE 0 0; status_of "Persistent" DEMO_PERSISTENT_SIZE 0 0].

(** The demonstration's run, as INTEGRATION_DEMO_RESULTS.md records it: the objects
    are placed, read back and deleted, every descriptor and entry is released, and
    only the directories stay.  The hotness of the first object
    is 0.0 and the count of its accesses 24, as in the record, though the program gets it eleven times: a get counts
    twice, in the index and in the manager, and setting the size and reading the
    metadata count too. *)
Theorem demo_recorded_run :
  match demo_main (demo_start [] []) with
  | Ret (st, out) s => st = 0 /\ out = demo_output /\
      fdtab (kern (wd s)) = {[0 := 0; 1 := 1; 2 := 2]} /\ map_to_list (ents (wd s)) = [] /\ bm s = None /\
      Forall (fun x => x.2 = Dir) (map_to_list (names (kern (wd s))))
  | _ => False
  end.
Proof. vm_compute. repeat split. repeat constructor. Qed.

(** No memory for the manager's index: status 1. *)
Example demo_out_of_memory : result_of (demo_main (demo_start [] [true; false])) = Some (1, []).
Proof. vm_compute. reflexivity. Qed.
